(* ===== verification/_CoqProject ===== *)
-Q . S2P
Prelude.v
JsNumber.v
React.v
Behaviour.v
Types.v
Labels.v
ActionSummary.v
OfficeState.v
OfficeFeed.v
Uri.v
Json.v
ApiClient.v
Python.v
Policy.v
Gateway.v
Guards.v
Masking.v
Outcomes.v
Server.v
Auth.v
Streams.v
OfficeUnified.v
Wizard.v
WizardView.v
Work.v
Approvals.v
Composer.v
Setup.v
EnvFile.v
Registry.v
AgentSpec.v
Wire.v
Custody.v
Team.v
Session.v
Prefs.v
Knowledge.v
Trigger.v
Tasks.v
Chat.v
CompanyDocs.v
Health.v
Shell.v
Dashboard.v
AgentPage.v
Technical.v
Config.v
Viewer.v
Office.v
Routes.v
Charts.v
Scene.v
Furniture.v
