(* ===== verification/Prelude.v ===== *)
(** * my-project-manager: a verification library of the web client and its server

    The repository is a fleet of LLM agents ("staff") run by a Python service, with a React
    client (src/web/src) from which an operator creates agents, gives them tasks, watches the
    office they work in, and approves what leaves the company.  This library models the client:
    the state each screen keeps, the requests it sends, what it does with the answers, the
    event streams it folds, and what it shows.  Of the web server (src/server) it models what
    meets the client: the routes and the session gate, the login with its limit, the file the
    setup writes, the creation of an agent, and the approval routes.  Behind those routes it
    models the action gateway (src/actions), the single path of every external write, with its
    policy, its stores and its trust ladder.

    ** How the parts of the program interact

    Every screen is a React component.  It calls [api] (api/client.ts), whose promises resolve
    or reject at any later time and in any order; it subscribes to server-sent events
    (hooks/use-office-stream.ts, hooks/use-sse.ts); and it renders buttons and inputs whose
    handlers close over its state.  A gate (App.tsx) decides between the first-run setup, the
    login and the dashboard; inside it the office screen folds one event stream into desks and
    another into a feed, the work page shows and decides the actions that agents propose, the
    composer turns a brief into a previewed plan and a confirmed task, the team page pauses,
    deletes and registers agents, and the pages of one agent read, configure, brief and run it.
    A request of [api] passes the session gate of the server, is dispatched to the first route
    that fits, and its body is read into what the handler declares.  An agent hands its actions to
    the action gateway, which runs them, refuses them, or queues them as rows of the approvals
    store; the approval routes list the rows to the client and hand the operator's decision back
    to the gateway, which claims the row and runs it.

    ** The files

    - [Prelude]: JavaScript strings as lists of UTF-16 code units, with literals, [slice],
      [split], [trim], [includes], [startsWith], [toLowerCase], decimal texts, and the lemmas on
      lists the components share.
    - [JsNumber]: doubles over the executable [spec_float] of the Standard Library, with
      [Number(s)], [String(n)] and [toFixed].  [Uri]: [encodeURIComponent] with its left
      inverse.  [Json]: [JSON.stringify], compact and indented, and [JSON.parse].
    - [React]: the execution model.  A [component] has a state, events, requests, a view whose
      nodes carry the events of the handlers (closures made data), [c_handle] for an event and
      [c_resume] for an answer.  A [world] is a state with the requests in flight; a step
      delivers an event the present view offers (on an enabled control) or one of its
      environment, or answers any request in flight, with success or failure.  [reachable] is
      the closure of the steps, [issues w r] says that some step of [w] sends [r], the class
      [Invariant] is what a component has to show for an invariant of all reachable worlds, and
      [play] runs a list of actions, for witnesses.
    - [Behaviour]: what a component owes over whole runs.  A [trace] is the list of messages a
      run sends, a [protocol] a contract on them; the class [Implements] is the simulation to
      show for one step, and [implements_traces] lifts it to all traces.  The class [Ranked] is
      a measure that every answer lowers; it gives termination of all sequences of answers.  A
      [history] is all that happened to a component, was sent and was answered along a run; the
      class [Converses] is a simulation in which the answers count too.
    - [Types] (types.ts): a record or inductive type per payload.
    - [Labels] (labels.ts, components/ScheduleBuilder.tsx), [ActionSummary]
      (action-summary.ts): pure texts, and the builder of cron expressions.
    - [OfficeState] (views/office-3d/agent-office-state.ts): [deriveAgentDesks] and
      [agentIdsInOrder], the fold of the office events.  [OfficeFeed]: the texts of events, the
      feed, bubbles, colors, the workroom list and the artifact panel
      (views/office-shared, views/office-unified).  [Streams]: the two stream hooks.
      [OfficeUnified]: the office screen made of all these (office-unified.tsx with the desk
      list of office-3d/office-canvas.tsx).  [Viewer]: the viewer of a step's result and the
      log of one room (office-unified/artifact-viewer.tsx, views/OfficeRoom.tsx).
    - [ApiClient] (api/client.ts): [call] has a constructor per member of [api]; [route] is its
      request, [perform] the outcome for a response of the server.
    - [Server] (src/server/app.py and the routers it includes): every [endpoint] in the order of
      inclusion, the bodies the handlers declare, and the middleware that asks for a session.
      [Auth] (server/auth.py): logging in.  [EnvFile] (server/env_writer.py, routes_setup.py):
      the merge of the setup's keys into the environment file.  [Registry]
      (runtime/registry.py, runtime/registry_edit.py): the registry of agents, its loading and the
      edit that appends an entry.  [AgentSpec] (server/agent_create.py,
      runtime/registry_edit.py): the wizard's spec on the server, up to the files written, each
      write of which may fail.
      [Wire]: the requests of the components as calls of [ApiClient], and these as what a
      handler of [Server] reads.
    - [Python]: what the server's code uses of Python, with an interface for the texts of its
      values.  [Policy] (actions/hard_block.py, actions/secret_patterns.py): the verdict on an
      action, and the masking of secrets.  [Gateway] (actions/action_gateway.py,
      approval_store.py, dedup_store.py, auto_approve_policy.py, approved_dispatch.py and the
      lines of audit/audit_log.py): each method is a program of atomic operations on the stores;
      a [site] is stores with any number of methods at work, interleaved in any order.  [Guards]:
      a discipline on the operations, and the invariants of the stores it keeps.  [Masking]: what
      the patterns of secrets match, and what their replacement leaves.  [Outcomes]: a
      method alone, with whatever the stores and the world answer; the approval routes
      (server/routes_ops_json.py, ops_helpers.py).  [Custody]: an approval from the row an agent
      queued, through [Work] and [Wire], to the action that runs.
    - [Wizard] (wizard/use-create-agent-wizard.ts, env-template.ts, persona-template.ts) and
      [WizardView] (views/CreateAgent.tsx and its six steps): the create-agent wizard.
    - [Work] (views/Work.tsx, components/ConfirmDialog.tsx, hooks/use-pending-approvals.ts,
      hooks/use-auto-approved.ts) and [Approvals] (views/Approvals.tsx,
      hooks/use-agent-data.ts): the decision on proposed actions, for the fleet and for one
      agent.  views/Approvals.tsx is not routed any more (/approvals leads to /work).
    - [Composer] (views/office-unified/assign-composer.tsx), [Chat] (views/Chat.tsx), [Tasks]
      (views/Tasks.tsx): what the operator asks of the fleet.
    - [Session] (App.tsx, views/Login.tsx) with [Setup] (views/Setup.tsx,
      views/setup-company-step.tsx), [Prefs] (theme-context.tsx, ui-mode-context.tsx,
      components/ThemeToggle.tsx, the script of index.html), [Shell] (components/Layout.tsx,
      views/Settings.tsx), [Health] (components/IntegrationHealthPanel.tsx,
      hooks/use-team-health.ts): the frame around the screens.
    - [Team] (views/Team.tsx), [AgentPage] (views/AgentPage.tsx) with [Knowledge]
      (views/AgentKnowledgeTab.tsx), [CompanyDocs] (views/CompanyDocs.tsx), [Config]
      (views/Config.tsx, components/ConfigEditor.tsx), [Trigger] (agent-context.tsx,
      views/Trigger.tsx), [Technical] (the read-only pages over hooks/use-agent-data.ts): the
      agents, one by one.
    - [Office] (office-unified.tsx with the children it renders): the office screen, the
      composer, the panel and the viewer as one component.  [Dashboard]
      (pending-approvals-context.tsx, components/Layout.tsx): the shared aggregate of approvals
      around the page of the route.
    - [Routes] (the table of App.tsx): which page a link leads to.  [Charts]
      (components/charts): the data and colors of the charts.  [Scene]
      (office-3d/desk-layout.ts, agent-desk.tsx): the ring of desks and the walk of the avatars,
      over an interface of arithmetic that doubles and the reals implement.  [Furniture]
      (office-props.tsx, office-floor.tsx, coordinator-desk.tsx, agent-desk.tsx,
      office-canvas.tsx): the objects of the scene, their sizes, places and colors, over the
      same interface.

    In each component file the state is a record of the [useState] cells and refs, the events
    are one constructor per handler, the requests one per awaited call with what its
    continuation closes over; [<name>_handle] is the handlers, [<name>_resume] the code after
    the await ([then], [catch] and [finally]), and the view function bears the name of the
    React component.  A child that is mounted and unmounted has a mount number, which its
    requests carry: an answer for a former mount changes nothing.

    ** What the theorems show

    - The action gateway: what the operator approved on the page is what runs, and was shown in
      full ([approved_as_shown]); nothing on the red line ever runs ([red_line]), and no setting
      widens that line ([red_line_unwidened]).  However calls interleave, an approval runs once
      ([approval_runs_once]), so does a key ([key_runs_once]), and the trust ladder keeps its
      daily limit ([daily_cap]).  No queued action and no line of the audit log holds a secret
      that the detector finds ([nothing_secret_written]).  Every call leaves a line in the audit log that tells its
      outcome ([every_outcome_audited]), and the route of an approval answers every case
      ([approve_answered]).
    - Trust surface: an operation on an approval goes to the agent that proposed it and is sent
      once ([ops_hit_listed]); the approved action is shown in full ([approved_is_shown]); an
      action is announced as external exactly when it is ([external_iff]) and its destination is
      never hidden ([summary_shows_destination]).  The view of one agent lacks the first
      property ([approval_crosses_agents]), although its fetch hook ignores late answers
      ([late_answer_ignored]).
    - From the screen to the server: what the operator approves or rejects is what the route of
      that agent's approvals reads ([approval_arrives]), the agent reviewed is the spec the
      server reads ([creation_arrives]) and, when the server grants it, creates
      ([posted_creates]).  The JSON shown for an approved action is that of the whole action and
      reads back to it ([approved_action_reads_back]).  Every request of the client reaches its handler
      ([requests_reach_handlers]), the streams too ([streams_reach_handlers]), with the body
      that was sent ([bodies_arrive]).
    - Session: without a session every call but five ends on the login page
      ([expired_session_leads_to_login]), with one none is turned away
      ([open_session_passes]); logins that follow one another are refused and unchecked after
      the limit ([refusals_capped]).
    - Server's writes: the environment file gets the lines of the values typed, in place or at its
      end, and keeps every other line ([setup_writes_land]); the creation of an agent leaves a
      whole profile and its entry, or nothing, or, when a write fails, a directory that is named
      ([creation_writes_whole]); the ids of a registry that loads are safe and distinct
      ([loaded_ids_safe]).
    - Writes: what is sent is what was shown, for the thing it was shown for:
      [config_saves_own], [wizard_posts_valid], [plan_confirmed_as_shown],
      [setup_writes_typed], [setup_finish_guarded], [team_hits_rows],
      [coordinator_created_once], [editor_writes_shown], [bind_is_as_typed],
      [picker_saves_ticked], [run_is_as_shown], [cancel_hits_open], and
      [gate_guards_credentials] for passwords.
    - Contracts: the composer refines the drafting protocol ([composer_refines_drafting], with
      [drafts_are_resolved]); the chat is a dialogue whose log is the messages sent and the
      replies received ([chat_is_dialogue], [chat_log_is_sent]).
    - Liveness: nothing hangs once its requests are answered ([composer_settles],
      [gate_settles], [team_settles]).
    - Reads: a page of one agent never shows another's data ([data_shown_is_selected]), the
      panel of a run tells how it ended ([panel_tells_end]), the timeline is the stream without
      duplicates ([timeline_is_stream]) also on the screen ([screen_streams_follow_selection]).
    - Office: stale attempts are dropped ([stale_attempts_dropped]), the badge is the set of
      running tasks ([pic_badge_running]), a consultation ends for both desks when
      consultations do not overlap ([consult_ends_for_both]); [dispatch_adopts_first],
      [consult_overlap_dangles], [ids_agree_with_desks], [canvas_shows_roster],
      [dimmed_iff_uninvolved], [panel_opens_delivered], [panel_stale_room],
      [rooms_refetched_iff_news], [agentColor_total], [assignment_line_names_pic] are the rest.  On the
      whole page the composer, the panel and the viewer follow the screen's room
      ([office_is_one_room]) and a created task opens its room ([created_task_opens_room]).
    - Dashboard: both badges count the shared aggregate, whose items are listed approvals
      ([badges_count_listed]).
    - Client: the outcome of every call for every response ([perform_outcome]) and the agent it
      addresses ([request_addresses_agent]); the text of a validation error
      ([validation_detail_unreadable]).
    - Composition: no link of the screens is dead ([links_lead_to_pages]); avatars that consult
      meet and stop short of each other ([consult_pair_meets], in exact arithmetic), and no
      piece of furniture stands at a desk or in the way of an avatar
      ([furniture_in_nobodys_way]).
    - Preferences and texts: [prefs_survive_reload], [script_agrees_with_provider],
      [schedule_roundtrip], [formatCron_ignores_date], [renderHint_alternates],
      [persona_edits_kept], [env_template_names], [mentions_spec].
    - Gaps of the code, as theorems about it: [create_can_be_repeated],
      [builder_forgets_schedule], [adjust_follows_room], [error_survives_reconnect],
      [delete_sent_twice], [edit_during_save_lost], [knowledge_crosses_agents],
      [failed_save_locks], [editor_overwrites_other], [cancel_sent_again],
      [failed_cancel_locks], [auto_confirm_shows_stale], [chart_keeps_former_theme],
      [badge_outlives_approval], [overlapping_guesses_checked], [health_is_shadowed],
      [line_feed_injects], [second_line_kept], [orphan_left], [dotted_room_misrouted],
      [file_saved_twice], [login_without_answer], [refused_choice_lost]; of the gateway [rejection_undone], [ladder_passes_allowlist],
      [dry_run_uses_up], [limit_misses_web], [lowered_key_passes], [unaddressed_is_queued],
      [masking_alters_allowed], [reason_left_unmasked].

    ** Bounds and fuel

    [deriveAgentDesks], the streams and the views are structural.  [nat_digits] has the binary
    logarithm plus one as fuel, at least the number of decimal digits; [dec_exp] starts within a
    few units of the decimal exponent and has 40 steps; [shortest] tries 17 digits, which
    identify every double; the decoder of [Uri] has the length of its text; the parser of
    [Json] has the length of its text plus one, which pays for
    a call by a unit of the text that the call, or the end of its element, consumes; that it
    suffices for every text written by [JSON.stringify] is part of the round trips of [Json].  The hash of
    [OfficeFeed] wraps at 32 bits as [>>> 0] does, and [agentColor_total] shows that no step
    before it leaves the exact integers of doubles.  Worlds have no fuel: answers may come in
    any order and there is no bound on the number of steps; termination of the answers is by
    the ranks of [Behaviour].  A method of the gateway is an inductive tree of operations, so
    every run of it is finite; the slots of the trust ladder are tried up to the daily limit, by
    recursion on it, and the matcher of [Python] is structural in the pattern and the text.

    ** Assumptions and what is not modelled

    - The server is whatever answers the requests: theorems quantify over its answers, and those
      that need more take it as a hypothesis with a witness: the pending list of an agent is
      that agent's ([listed] in [Work] and [Approvals]), the data of an agent are its own
      ([belongs] in [Technical], [own_files] in [Config]), the company is the one given
      ([company_is] in [Team]), the shared lists are the agents' ([lists_shared] in
      [Dashboard]).
    - The web framework takes a request to the first route whose pattern matches, as its
      documentation says: the class [Framework] of [Server].  The checker of passwords, the text
      of a value that is no string, the packs, the cron parser and the builders of the
      configuration over the default template are arguments of [Auth] and [AgentSpec].
    - In the gateway, the texts of Python's values are the class [Python]; the digest of a key is
      an argument, of which [daily_cap] uses that it is never the key of a slot; executors and
      the file system answer arbitrarily.  Each statement of the database is atomic; a row holds
      the JSON of its action, which Python writes and reads back; the writing of an audit line
      does not fail, and its time is left out.
    - The formatting of dates by the host is the class [Locale].  Parsing the data of a stream
      frame is an [option]; the frames of a run are JSON objects.  [toLowerCase] is the table of
      [Prelude] (Latin with the Vietnamese letters, Greek, Cyrillic).  Properties inherited by
      objects from their prototype are left out.
    - The JSON of an action is kept whole from the row to the page; its numbers are doubles, and
      its keys keep their order, which JavaScript changes for keys that look like indices.  The
      summary reads the fields of [PendingAction] at their declared types.  The numbers of rows
      and tasks are integers that a double holds where a theorem says so ([MAX_SAFE]); beyond, they
      are printed as the nearest double ([id_text]).
    - Of the URL of a request the removal of dot segments is modelled, as the standard of URLs
      describes it; ids are taken of characters that a URL leaves alone.
    - What the YAML library reads from a text and writes for a document is an argument of
      [Registry] and [AgentSpec]; the failures of the operating system are the record [faults].
      Creations do not overlap with each other or with other edits of the registry.
    - [localStorage] can be read throughout a run or not at all; any write to it may be refused.
    - State updates take effect before the next event is handled, as React batches them;
      effects run after the update that changes what they depend on, before the next event.
    - Scrolling, hovering and the moving of the focus by the code are not modelled.
    - The computed style of the document (a function of its theme), the choice of the router
      ([Router]: a location that exactly one route fits is shown by it), and the trigonometric
      functions of the host are parameters.
    - Not modelled: the bodies of the handlers other than those named above, the probes of the
      integrations and the restart of the service; the agents and the runtime around the
      gateway, which talk to language models and to chat and tracker services; the redaction of
      web searches ([redact_query]); what
      the charting, scene and Markdown libraries draw; the lazy route of the office and the
      mounting of the application (routes/office-unified-lazy.tsx, main.tsx); and the built
      copies of the client under src/server/static, which are generated from the sources
      modelled here. *)

From Stdlib Require Export ZArith List Lia Bool.
From Stdlib Require Import Strings.Byte.
From stdpp Require Export base decidable list gmap sets.

#[global] Set Default Goal Selector "!".
#[global] Open Scope Z_scope.

(** ** JavaScript strings

    A JavaScript string is a finite sequence of UTF-16 code units; a code unit is a [Z] in
    [0, 65536).  Literals are written as UTF-8 text in the scope [js] and decoded by [js]. *)

Definition jsstr : Type := list Z.

#[global] Instance jsstr_eq_dec : EqDecision jsstr := list_eq_dec.
#[global] Instance jsstr_countable : Countable jsstr := list_countable.
#[global] Instance jsstr_inhabited : Inhabited jsstr := populate [].

Definition byteZ (b : Byte.byte) : Z := Z.of_N (Byte.to_N b).

(** UTF-8 to UTF-16: one, two and three byte sequences give one code unit, four byte
    sequences a surrogate pair. *)
Fixpoint utf8_units (l : list Byte.byte) : jsstr :=
  match l with
  | [] => []
  | a :: r =>
      let x := byteZ a in
      if x <? 128 then x :: utf8_units r
      else if x <? 224 then
        match r with
        | b :: r' => ((x - 192) * 64 + (byteZ b - 128)) :: utf8_units r'
        | [] => []
        end
      else if x <? 240 then
        match r with
        | b :: c :: r' =>
            ((x - 224) * 4096 + (byteZ b - 128) * 64 + (byteZ c - 128)) :: utf8_units r'
        | _ => []
        end
      else
        match r with
        | b :: c :: d :: r' =>
            let cp := (x - 240) * 262144 + (byteZ b - 128) * 4096
                      + (byteZ c - 128) * 64 + (byteZ d - 128) - 65536 in
            (55296 + cp / 1024) :: (56320 + cp mod 1024) :: utf8_units r'
        | _ => []
        end
  end.

(** The value of a literal, from the bytes that stand in the source text. *)
Definition js (l : list Byte.byte) : jsstr := utf8_units l.
Arguments js : simpl never.

Inductive jslit : Set := JsLit (bytes : list Byte.byte).

Definition jslit_of_bytes (b : list Byte.byte) : jslit := JsLit b.
Definition jslit_to_bytes (l : jslit) : list Byte.byte := let 'JsLit b := l in b.

Declare Scope js_scope.
Delimit Scope js_scope with js.
#[warnings="-via-type-remapping,-via-type-mismatch"]
String Notation jsstr jslit_of_bytes jslit_to_bytes (via jslit mapping [js => JsLit]) : js_scope.
#[global] Open Scope js_scope.

(** [cat [a; b; c]] is a template literal or a chain of [+] on strings. *)
Definition cat (l : list jsstr) : jsstr := concat l.
Arguments cat : simpl never.

(** JavaScript truthiness and the operators [||], [??] on (optional) strings. *)
Definition truthy (s : jsstr) : bool := match s with [] => false | _ => true end.
Definition truthy_opt (o : option jsstr) : bool :=
  match o with Some s => truthy s | None => false end.
(** The string of an optional string that is truthy: present and not empty. *)
Definition present (o : option jsstr) : option jsstr :=
  match o with Some s => if truthy s then Some s else None | None => None end.
Definition js_or (a b : jsstr) : jsstr := if truthy a then a else b.
Definition nullish {A} (o : option A) (d : A) : A := match o with Some x => x | None => d end.

(** Array.prototype.includes and Set.has on strings. *)
Definition memb (x : jsstr) (l : list jsstr) : bool := bool_decide (x ∈ l).

(** WhiteSpace and LineTerminator of ECMAScript, the class [\s] and what [trim] strips. *)
Definition is_ws (c : Z) : bool :=
  ((9 <=? c) && (c <=? 13)) || (c =? 32) || (c =? 160) || (c =? 5760)
  || ((8192 <=? c) && (c <=? 8202)) || (c =? 8232) || (c =? 8233)
  || (c =? 8239) || (c =? 8287) || (c =? 12288) || (c =? 65279).

Fixpoint trim_start (s : jsstr) : jsstr :=
  match s with
  | [] => []
  | c :: r => if is_ws c then trim_start r else s
  end.
Definition trim_end (s : jsstr) : jsstr := rev (trim_start (rev s)).
Definition trim (s : jsstr) : jsstr := trim_end (trim_start s).

(** [cons_head c l] puts [c] in front of the first string of [l]. *)
Definition cons_head (c : Z) (l : list jsstr) : list jsstr :=
  match l with [] => [[c]] | h :: t => (c :: h) :: t end.

(** [s.split(sep)] for a one-unit separator. *)
Fixpoint split_on (sep : Z) (s : jsstr) : list jsstr :=
  match s with
  | [] => [[]]
  | c :: r => if c =? sep then [] :: split_on sep r else cons_head c (split_on sep r)
  end.

(** [s.split(/\s+/)]. *)
Fixpoint split_ws_from (in_ws : bool) (s : jsstr) : list jsstr :=
  match s with
  | [] => [[]]
  | c :: r =>
      if is_ws c then
        if in_ws then split_ws_from true r else [] :: split_ws_from true r
      else cons_head c (split_ws_from false r)
  end.
Definition split_ws (s : jsstr) : list jsstr := split_ws_from false s.

(** [s.split(/\s/, 1)[0]]: the part in front of the first white space. *)
Fixpoint until_ws (s : jsstr) : jsstr :=
  match s with
  | [] => []
  | c :: r => if is_ws c then [] else c :: until_ws r
  end.

(** [l.join(sep)]. *)
Fixpoint join (sep : jsstr) (l : list jsstr) : jsstr :=
  match l with
  | [] => []
  | [x] => x
  | x :: r => x ++ sep ++ join sep r
  end.

(** [s.startsWith(p)] and [s.includes(p)]. *)
Fixpoint starts_with (p s : jsstr) : bool :=
  match p, s with
  | [], _ => true
  | a :: p', b :: s' => (a =? b) && starts_with p' s'
  | _ :: _, [] => false
  end.
Fixpoint includes (p s : jsstr) : bool :=
  starts_with p s || match s with [] => false | _ :: r => includes p r end.

(** [l.slice(-n)]: the last [n] elements. *)
Definition slice_last {A} (n : nat) (l : list A) : list A := drop (length l - n) l.

(** [toLowerCase] on one code unit, for Latin (basic, Latin-1, Extended-A, Vietnamese and
    Extended Additional letters), Greek and Cyrillic, and the three letter-like signs
    (Ohm, Kelvin, Angstrom) whose lower case lies in those blocks.  Other units are kept. *)
Definition lower_unit (c : Z) : jsstr :=
  let pair (lo hi : Z) := (lo <=? c) && (c <=? hi) in
  if pair 65 90 then [c + 32]
  else if c <? 192 then [c]
  else if pair 192 222 && negb (c =? 215) then [c + 32]
  else if c =? 304 then [105; 775]
  else if c =? 376 then [255]
  else if (pair 256 311 || pair 330 375) && Z.even c then [c + 1]
  else if (pair 313 328 || pair 377 382) && Z.odd c then [c + 1]
  else if (c =? 416) || (c =? 431) then [c + 1]
  else if c =? 902 then [940]
  else if pair 904 906 then [c + 37]
  else if c =? 908 then [972]
  else if pair 910 911 then [c + 63]
  else if pair 913 939 && negb (c =? 930) then [c + 32]
  else if pair 1024 1039 then [c + 80]
  else if pair 1040 1071 then [c + 32]
  else if c =? 7838 then [223]
  else if (pair 7680 7829 || pair 7840 7935) && Z.even c then [c + 1]
  else if c =? 8486 then [969]
  else if c =? 8490 then [107]
  else if c =? 8491 then [229]
  else [c].
Definition to_lower (s : jsstr) : jsstr := flat_map lower_unit s.

(** [s.padStart(n, '0')]. *)
Definition pad_start0 (n : nat) (s : jsstr) : jsstr := replicate (n - length s) 48 ++ s.

(** Decimal digits of a non-negative integer, most significant first, and the string of an
    integer. *)
Fixpoint digits_fuel (fuel : nat) (z : Z) (acc : jsstr) : jsstr :=
  match fuel with
  | O => acc
  | S k => if z <? 10 then (48 + z) :: acc else digits_fuel k (z / 10) ((48 + z mod 10) :: acc)
  end.
Definition nat_digits (z : Z) : jsstr := digits_fuel (S (Z.to_nat (Z.log2 z))) z [].
Definition z_str (z : Z) : jsstr := if z <? 0 then 45 :: nat_digits (- z) else nat_digits z.

(** The JavaScript double quote, which literals of this development do not contain. *)
Definition dq : jsstr := [34].

(** ** Shared lemmas and automation *)

(** Checking a boolean property on every integer of an interval. *)
Definition forall_range (lo : Z) (n : nat) (f : Z → bool) : bool :=
  forallb (λ i, f (lo + Z.of_nat i)) (seq 0 n).

Lemma forall_range_spec lo n f z :
  forall_range lo n f = true → lo <= z < lo + Z.of_nat n → f z = true.
Proof.
  intros H Hz. unfold forall_range in H. rewrite forallb_forall in H.
  specialize (H (Z.to_nat (z - lo))).
  replace z with (lo + Z.of_nat (Z.to_nat (z - lo))) by lia.
  apply H, in_seq. lia.
Qed.

(** [token s]: non-empty and without white space; [no_unit c s]: [c] does not occur. *)
Definition token (s : jsstr) : Prop := s ≠ [] ∧ Forall (λ c, is_ws c = false) s.
Definition no_unit (c : Z) (s : jsstr) : Prop := c ∉ s.

#[global] Instance token_dec s : Decision (token s).
Proof. unfold token. apply _. Defined.
#[global] Instance no_unit_dec c s : Decision (no_unit c s).
Proof. unfold no_unit. apply _. Defined.

Lemma memb_spec x l : memb x l = true ↔ x ∈ l.
Proof. apply bool_decide_eq_true. Qed.

Lemma truthy_spec s : truthy s = true ↔ s ≠ [].
Proof. by destruct s. Qed.

Lemma truthy_opt_spec o : truthy_opt o = true ↔ ∃ s, o = Some s ∧ s ≠ [].
Proof. destruct o as [[|c s]|]; cbn; naive_solver. Qed.

Lemma present_spec o x : present o = Some x ↔ o = Some x ∧ x ≠ [].
Proof. destruct o as [[|c y]|]; cbn; naive_solver. Qed.

Lemma truthy_opt_present o : truthy_opt o = true ↔ is_Some (present o).
Proof. destruct o as [[|c y]|]; cbn; naive_solver. Qed.

Lemma split_on_ne sep s : split_on sep s ≠ [].
Proof.
  induction s as [|c s IH]; cbn; [done|]. case_match; [done|].
  destruct (split_on sep s); done.
Qed.

Lemma split_on_none sep s : no_unit sep s → split_on sep s = [s].
Proof.
  unfold no_unit. induction s as [|c s IH]; intros H; cbn; [done|].
  apply not_elem_of_cons in H as [Hc Hs]. rewrite (proj2 (Z.eqb_neq c sep)) by done.
  by rewrite IH.
Qed.

Lemma split_on_app sep a b :
  no_unit sep a → split_on sep (a ++ sep :: b) = a :: split_on sep b.
Proof.
  unfold no_unit. induction a as [|c a IH]; intros H; cbn.
  - by rewrite Z.eqb_refl.
  - apply not_elem_of_cons in H as [Hc Ha]. rewrite (proj2 (Z.eqb_neq c sep)) by done.
    by rewrite IH.
Qed.

Lemma split_on_join sep l :
  l ≠ [] → Forall (no_unit sep) l → split_on sep (join [sep] l) = l.
Proof.
  induction l as [|x [|y l] IH]; intros Hn H; [done|..].
  - inversion H; subst. by apply split_on_none.
  - inversion H; subst. change (join [sep] (x :: y :: l)) with (x ++ sep :: join [sep] (y :: l)).
    rewrite split_on_app by done. f_equal. by apply IH.
Qed.

Lemma split_ws_from_token b t :
  Forall (λ c, is_ws c = false) t → t ≠ [] → split_ws_from b t = [t].
Proof.
  revert b. induction t as [|c t IH]; intros b H Hn; [done|].
  inversion H; subst. cbn. rewrite H2. destruct t as [|c' t]; [done|].
  by rewrite (IH false).
Qed.

Lemma split_ws_from_app b t r :
  token t → split_ws_from b (t ++ 32 :: r) = t :: split_ws_from true r.
Proof.
  intros [Hn H]. revert b. induction t as [|c t IH]; intros b; [done|].
  inversion H; subst. cbn. rewrite H2. destruct t as [|c' t]; [done|].
  rewrite (IH ltac:(done) ltac:(done) false). done.
Qed.

Lemma split_ws_from_join b l :
  l ≠ [] → Forall token l → split_ws_from b (join " " l) = l.
Proof.
  revert b. induction l as [|x [|y l] IH]; intros b Hn H; [done|..].
  - inversion H as [|? ? [? ?]]; subst. by apply split_ws_from_token.
  - inversion H; subst. change (join " " (x :: y :: l)) with (x ++ 32 :: join " " (y :: l)).
    rewrite split_ws_from_app by done. f_equal. by apply IH.
Qed.

Lemma split_ws_join l : l ≠ [] → Forall token l → split_ws (join " " l) = l.
Proof. apply split_ws_from_join. Qed.

Lemma trim_start_id c s : is_ws c = false → trim_start (c :: s) = c :: s.
Proof. cbn. by intros ->. Qed.

Lemma trim_end_id c s : is_ws c = false → trim_end (s ++ [c]) = s ++ [c].
Proof.
  intros H. unfold trim_end. rewrite rev_app_distr; cbn. rewrite H; cbn.
  by rewrite rev_involutive.
Qed.

(** A string that neither starts nor ends with white space is its own [trim]. *)
Definition trimmed (s : jsstr) : Prop := trim s = s.

Lemma trimmed_intro s :
  (∀ c, head s = Some c → is_ws c = false) → (∀ c, last s = Some c → is_ws c = false) →
  trimmed s.
Proof.
  intros H1 H2. unfold trimmed, trim. destruct s as [|c s]; [done|].
  rewrite trim_start_id by (by apply H1).
  destruct (exists_last (l := c :: s) ltac:(done)) as (s' & d & Hd). rewrite Hd.
  apply trim_end_id, H2. rewrite Hd. apply last_snoc.
Qed.

Lemma token_trimmed s : token s → trimmed s.
Proof.
  intros [_ H]. rewrite Forall_forall in H. apply trimmed_intro; intros c Hc; apply H.
  - destruct s; [done|]. cbn in Hc. set_solver.
  - apply last_Some_elem_of in Hc. done.
Qed.

Lemma join_head sep x l c : x ≠ [] → head (join sep (x :: l)) = Some c → head x = Some c.
Proof. destruct x as [|d x]; [done|]. destruct l; done. Qed.

Lemma join_cons sep x l : l ≠ [] → join sep (x :: l) = x ++ sep ++ join sep l.
Proof. by destruct l. Qed.

Lemma join_snoc_ne sep l y : y ≠ [] → join sep (l ++ [y]) ≠ [].
Proof.
  intros Hy. induction l as [|x l IH]; [done|]. cbn [app].
  rewrite join_cons by (by destruct l). intros E. apply app_nil in E as [_ E].
  by apply app_nil in E as [_ E].
Qed.

Lemma join_last sep l y c :
  y ≠ [] → last (join sep (l ++ [y])) = Some c → last y = Some c.
Proof.
  intros Hy. induction l as [|x l IH]; [done|]. cbn [app].
  rewrite join_cons by (by destruct l). intros H. apply IH.
  rewrite app_assoc, last_app in H. destruct (last (join sep (l ++ [y]))) eqn:E; [done|].
  apply last_None in E. by apply join_snoc_ne in E.
Qed.

Lemma trimmed_join l : Forall token l → trimmed (join " " l).
Proof.
  intros H. destruct l as [|x l]; [done|].
  apply trimmed_intro; intros c Hc.
  - inversion H as [|? ? [Hx Hf]]; subst. apply join_head in Hc; [|done].
    destruct x; [done|]. cbn in Hc. injection Hc as <-. by inversion Hf.
  - destruct (exists_last (l := x :: l) ltac:(done)) as (l' & y & E). rewrite E in *.
    apply Forall_app in H as [_ H]. inversion H as [|? ? [Hy Hf] _]; subst.
    apply join_last in Hc; [|done]. apply last_Some_elem_of in Hc.
    rewrite Forall_forall in Hf. by apply Hf.
Qed.

Lemma starts_with_app p r : starts_with p (p ++ r) = true.
Proof. induction p as [|c p IH]; cbn; [done|]. by rewrite Z.eqb_refl. Qed.

Lemma includes_app a p r : includes p (a ++ p ++ r) = true.
Proof.
  induction a as [|c a IH].
  - cbn [app]. destruct (p ++ r) eqn:E; cbn [includes].
    + apply app_nil in E as [-> ->]. done.
    + rewrite <- E, starts_with_app. done.
  - cbn [app includes]. rewrite IH. by rewrite orb_true_r.
Qed.

Lemma join_elem sep x l : x ∈ l → ∃ a r, join sep l = a ++ x ++ r.
Proof.
  induction l as [|y l IH]; intros H; [set_solver|].
  apply elem_of_cons in H as [->|H].
  - destruct l as [|z l]; [exists [], []; cbn; by rewrite app_nil_r|].
    exists [], (sep ++ join sep (z :: l)). done.
  - destruct (IH H) as (a & r & E). exists (y ++ sep ++ a), r.
    rewrite join_cons by (by intros ->; set_solver). by rewrite E, <- !app_assoc.
Qed.

Lemma starts_with_spec p s : starts_with p s = true ↔ ∃ r, s = p ++ r.
Proof.
  revert s. induction p as [|c p IH]; intros s; cbn; [naive_solver|].
  destruct s as [|d s]; [naive_solver|].
  rewrite andb_true_iff, IH, Z.eqb_eq. naive_solver.
Qed.

Lemma includes_spec p s : includes p s = true ↔ ∃ a r, s = a ++ p ++ r.
Proof.
  split; [|intros (a & r & ->); apply includes_app].
  induction s as [|c s IH]; cbn; rewrite orb_true_iff, starts_with_spec.
  - intros [[r ->]|]; [|done]. by exists [], r.
  - intros [[r ->]|H]; [by exists [], r|]. destruct (IH H) as (a & r & ->).
    by exists (c :: a), r.
Qed.

Lemma includes_infix p a s r : includes p s = true → includes p (a ++ s ++ r) = true.
Proof.
  intros (b & q & ->)%includes_spec. apply includes_spec. exists (a ++ b), (q ++ r).
  by rewrite <- !app_assoc.
Qed.

Lemma includes_cat p s l : s ∈ l → includes p s = true → includes p (cat l) = true.
Proof.
  intros Hs H. apply list_elem_of_split in Hs as (l1 & l2 & ->).
  unfold cat. rewrite concat_app. cbn [concat]. by apply includes_infix.
Qed.
Lemma includes_refl p : includes p p = true.
Proof. apply includes_spec. exists [], []. by rewrite app_nil_r. Qed.
