(* ===== verification/JsNumber.v ===== *)
(** JavaScript numbers: IEEE-754 binary64 values (the executable [spec_float] of the Standard
    Library), with the operations the client uses: arithmetic and comparisons,
    [Number(string)], [String(number)], [toFixed], [Math.round] and the remainder by an
    integer.  Rounding is done on exact integer ratios. *)

From Stdlib Require Import Floats.SpecFloat.
From S2P Require Import Prelude.

Abbreviation num := spec_float.

Definition jprec : Z := 53.
Definition jemax : Z := 1024.

Definition num_Z (z : Z) : num := binary_normalize jprec jemax z 0 false.
Definition num_nan : num := S754_nan.

(** The double nearest to [z / d] (ties to even), for [d] positive. *)
Definition num_ratio (z : Z) (d : positive) : num :=
  match z with
  | Z0 => S754_zero false
  | Zpos p => SFdiv jprec jemax (S754_finite false p 0) (S754_finite false d 0)
  | Zneg p => SFdiv jprec jemax (S754_finite true p 0) (S754_finite false d 0)
  end.

Definition num_neg (x : num) : num := SFopp x.
Definition num_mul (x y : num) : num := SFmul jprec jemax x y.
Definition num_div (x y : num) : num := SFdiv jprec jemax x y.
Definition num_add (x y : num) : num := SFadd jprec jemax x y.

(** [x >= y], [x > y], [x < y]: false when either is NaN. *)
Definition num_ge (x y : num) : bool :=
  match SFcompare x y with Some Lt | None => false | _ => true end.
Definition num_gt (x y : num) : bool :=
  match SFcompare x y with Some Gt => true | _ => false end.
Definition num_is_nan (x : num) : bool := match x with S754_nan => true | _ => false end.
(** [Math.min]; every use in the client has a finite first argument. *)
Definition num_min (x y : num) : num :=
  match SFcompare x y with None => num_nan | Some Gt => y | _ => x end.

(** A finite magnitude [m * 2^e] as a fraction. *)
Definition frac (m : positive) (e : Z) : Z * Z :=
  if 0 <=? e then (Z.pos m * 2 ^ e, 1) else (Z.pos m, 2 ^ (- e)).

(** ** String(number): the shortest decimal that reads back as the number *)

(** The decimal [s * 10^q] as a double. *)
Definition num_dec (s q : Z) : num :=
  if 0 <=? q then num_ratio (s * 10 ^ q) 1 else num_ratio s (Z.to_pos (10 ^ (- q))).

Definition num_eqb (x y : num) : bool :=
  match SFcompare x y with Some Eq => true | _ => false end.

(** The exponent [n] with [10^(n-1) <= a/b < 10^n], searched from a bound on the binary
    exponent; [fuel] covers the exponents of doubles. *)
Fixpoint dec_exp (fuel : nat) (n a b : Z) : Z :=
  match fuel with
  | O => n
  | S k =>
      let below := if 0 <=? n then a <? b * 10 ^ n else a * 10 ^ (- n) <? b in
      if below then n else dec_exp k (n + 1) a b
  end.

(** [k] digits: the closest [s] with [s * 10^(n-k)] nearest to [a/b]. *)
Definition dec_digits (k n a b : Z) : Z :=
  let q := n - k in
  if 0 <=? q then (2 * a + b * 10 ^ q) / (2 * b * 10 ^ q)
  else (2 * a * 10 ^ (- q) + b) / (2 * b).

Fixpoint shortest (fuel : nat) (k n a b : Z) (x : num) : Z * Z :=
  let s := dec_digits k n a b in
  match fuel with
  | O => (s, k)
  | S f => if num_eqb (num_dec s (n - k)) x then (s, k) else shortest f (k + 1) n a b x
  end.

(** Number::toString for a positive finite value from its digits [s] ([k] of them) and its
    exponent [n]. *)
Definition dec_layout (s k n : Z) : jsstr :=
  let ds := nat_digits s in
  if (k <=? n) && (n <=? 21) then ds ++ replicate (Z.to_nat (n - k)) 48
  else if (0 <? n) && (n <=? 21) then take (Z.to_nat n) ds ++ "." ++ drop (Z.to_nat n) ds
  else if (-6 <? n) && (n <=? 0) then "0." ++ replicate (Z.to_nat (- n)) 48 ++ ds
  else
    let ex := (if n - 1 <? 0 then "-" else "+") ++ nat_digits (Z.abs (n - 1)) in
    if k =? 1 then ds ++ "e" ++ ex
    else take 1 ds ++ "." ++ drop 1 ds ++ "e" ++ ex.

Definition pos_str (m : positive) (e : Z) : jsstr :=
  let '(a, b) := frac m e in
  let l2 := Z.log2 (Z.pos m) + e in
  let n := dec_exp 40 (l2 * (if l2 <? 0 then 31 else 30) / 100 - 2) a b in
  let '(s, k) := shortest 17 1 n a b (S754_finite false m e) in
  if s =? 10 ^ k then dec_layout 1 1 (n + 1) else dec_layout s k n.

Definition num_str (x : num) : jsstr :=
  match x with
  | S754_nan => "NaN"
  | S754_zero _ => "0"
  | S754_infinity false => "Infinity"
  | S754_infinity true => "-Infinity"
  | S754_finite false m e => pos_str m e
  | S754_finite true m e => "-" ++ pos_str m e
  end.

(** ** [toFixed(f)] *)
Definition fixed_layout (n f : Z) : jsstr :=
  if f =? 0 then nat_digits n
  else
    let ds := pad_start0 (Z.to_nat (f + 1)) (nat_digits n) in
    take (length ds - Z.to_nat f) ds ++ "." ++ drop (length ds - Z.to_nat f) ds.

Definition to_fixed (f : Z) (x : num) : jsstr :=
  match x with
  | S754_zero _ => fixed_layout 0 f
  | S754_finite s m e =>
      let '(a, b) := frac m e in
      if 10 ^ 21 * b <=? a then num_str x
      else (if s then "-" else "") ++ fixed_layout ((2 * a * 10 ^ f + b) / (2 * b)) f
  | _ => num_str x
  end.

(** ** [Math.round]: the nearest integer, ties towards plus infinity. *)
Definition num_round (x : num) : num :=
  match x with
  | S754_finite s m e =>
      let '(a, b) := frac m e in
      let z := (2 * (if s then - a else a) + b) / (2 * b) in
      if z =? 0 then S754_zero s else num_Z z
  | _ => x
  end.

(** ** [x % d] for a positive integer [d]: the sign is that of [x]. *)
Definition num_rem (x : num) (d : positive) : num :=
  match x with
  | S754_zero s => S754_zero s
  | S754_finite s m e =>
      let '(a, b) := frac m e in
      let r := a mod (b * Z.pos d) in
      if r =? 0 then S754_zero s
      else let y := num_ratio r (Z.to_pos b) in if s then num_neg y else y
  | _ => S754_nan
  end.

(** The array index a number denotes, if its property name is a canonical index. *)
Definition num_index (x : num) : option nat :=
  match x with
  | S754_zero _ => Some O
  | S754_finite false m e =>
      let '(a, b) := frac m e in
      if a mod b =? 0 then Some (Z.to_nat (a / b)) else None
  | _ => None
  end.

(** ** Number(string) *)
Definition dig (c : Z) : option Z :=
  if (48 <=? c) && (c <=? 57) then Some (c - 48) else None.
Definition hex_dig (c : Z) : option Z :=
  if (48 <=? c) && (c <=? 57) then Some (c - 48)
  else if (97 <=? c) && (c <=? 102) then Some (c - 87)
  else if (65 <=? c) && (c <=? 70) then Some (c - 55)
  else None.

(** All of [s] read in a base, [None] when empty or when a unit is no digit of the base. *)
Fixpoint base_from (base acc : Z) (s : jsstr) : option Z :=
  match s with
  | [] => Some acc
  | c :: r =>
      match hex_dig c with
      | Some d => if d <? base then base_from base (acc * base + d) r else None
      | None => None
      end
  end.
Definition base_digits (base : Z) (s : jsstr) : option Z :=
  match s with [] => None | _ => base_from base 0 s end.

(** The longest run of decimal digits: its value, its length and the rest. *)
Fixpoint digit_run (acc n : Z) (s : jsstr) : Z * Z * jsstr :=
  match s with
  | c :: r =>
      match dig c with Some d => digit_run (acc * 10 + d) (n + 1) r | None => (acc, n, s) end
  | [] => (acc, n, [])
  end.

(** The exponent part: nothing, or [e] with an optional sign and at least one digit. *)
Definition exp_part (s : jsstr) : option Z :=
  match s with
  | [] => Some 0
  | c :: r =>
      if (c =? 101) || (c =? 69) then
        let '(neg, r') := match r with
                          | 43 :: t => (false, t) | 45 :: t => (true, t) | _ => (false, r)
                          end in
        match base_digits 10 r' with
        | Some v => Some (if neg then - v else v)
        | None => None
        end
      else None
  end.

(** StrUnsignedDecimalLiteral. *)
Definition unsigned_decimal (s : jsstr) : option num :=
  if bool_decide (s = "Infinity") then Some (S754_infinity false)
  else
    let '(i, ni, r) := digit_run 0 0 s in
    let '(m, nf, nd, r') :=
      match r with
      | 46 :: t => let '(v, nf, t') := digit_run i 0 t in (v, nf, ni + nf, t')
      | _ => (i, 0, ni, r)
      end in
    if nd =? 0 then None
    else match exp_part r' with
         | Some e => Some (num_dec m (e - nf))
         | None => None
         end.

Definition num_of_str (s0 : jsstr) : num :=
  let s := trim s0 in
  match s with
  | [] => S754_zero false
  | 48 :: c :: r =>
      let radix := if (c =? 120) || (c =? 88) then Some 16
                   else if (c =? 111) || (c =? 79) then Some 8
                   else if (c =? 98) || (c =? 66) then Some 2 else None in
      match radix with
      | Some b => match base_digits b r with Some z => num_Z z | None => num_nan end
      | None => nullish (unsigned_decimal s) num_nan
      end
  | 43 :: r => nullish (unsigned_decimal r) num_nan
  | 45 :: r => nullish (num_neg <$> unsigned_decimal r) num_nan
  | _ => nullish (unsigned_decimal s) num_nan
  end.

(** [Number(undefined)] is NaN. *)
Definition num_of_opt (o : option jsstr) : num :=
  match o with Some s => num_of_str s | None => num_nan end.

(** [`${n}`] of an id.  An id of the server's database is an integer, which the client holds as
    the nearest double: in the exact range that is the integer itself, which is written in full. *)
Definition MAX_SAFE : Z := 9007199254740991.
Definition id_text (n : Z) : jsstr := if Z.abs n <=? MAX_SAFE then z_str n else num_str (num_Z n).

Example id_texts :
  map id_text [12; -3; 9007199254740993; 10 ^ 21]
  = ["12"; "-3"; "9007199254740992"; "1e+21"]%js.
Proof. vm_compute. reflexivity. Qed.
