(* ===== verification/React.v ===== *)
(** The execution model of the client's React components.

    A rendered view is a list of [node]s whose handlers carry events, the defunctionalised
    closures of the component.  A component has a state (its [useState] cells and refs), a
    view, a handler for each event (the code up to the first [await] or [.then]) and a resume
    function for each kind of request in flight (the code after it).  A world is a state with
    its requests in flight; requests may be answered in any order, with a value or a
    rejection.  A disabled control of a rendered view fires nothing. *)

From S2P Require Import Prelude.

(** ** Rejections *)

(** What a [catch] clause receives: an [ApiError], another [Error], or any other value. *)
Inductive thrown :=
| ApiError (status : Z) (message : jsstr)
| JsError (message : jsstr)
| ThrownOther.

(** [e instanceof Error ? e.message : fallback] ([ApiError] extends [Error]). *)
Definition error_message (e : thrown) (fallback : jsstr) : jsstr :=
  match e with ApiError _ m => m | JsError m => m | ThrownOther => fallback end.

(** [e instanceof ApiError ? e.message : fallback]. *)
Definition api_error_message (e : thrown) (fallback : jsstr) : jsstr :=
  match e with ApiError _ m => m | _ => fallback end.

Inductive result (A : Type) :=
| Ok (a : A)
| Err (e : thrown).
Arguments Ok {A} a.
Arguments Err {A} e.

(** ** Views *)

(** A handler of a control: [OnText], [OnCheck] take the control's new value, [OnKey] the
    pressed key and the shift flag ([None]: nothing happens).  A click whose handler asks
    [window.confirm] is an [OnCheck] of the answer; the [onChange] of a [select] is an [OnClick]
    of each of its options, with the option's value. *)
Inductive handler (E : Type) :=
| OnClick (e : E)
| OnSubmit (e : E)
| OnFocus (e : E)
| OnText (f : jsstr → E)
| OnCheck (f : bool → E)
| OnKey (f : jsstr → bool → option E).
Arguments OnClick {E} e.
Arguments OnSubmit {E} e.
Arguments OnFocus {E} e.
Arguments OnText {E} f.
Arguments OnCheck {E} f.
Arguments OnKey {E} f.

Inductive attr (E : Type) :=
| AStr (name value : jsstr)
| ABool (name : jsstr) (value : bool)
| ADisabled (value : bool)
| AOn (h : handler E).
Arguments AStr {E} name value.
Arguments ABool {E} name value.
Arguments ADisabled {E} value.
Arguments AOn {E} h.

(** [Comp] is a nested component with its own state, given by name and props. *)
Inductive node (E : Type) :=
| Txt (s : jsstr)
| El (tag : jsstr) (attrs : list (attr E)) (kids : list (node E))
| Comp (name : jsstr) (attrs : list (attr E)).
Arguments Txt {E} s.
Arguments El {E} tag attrs kids.
Arguments Comp {E} name attrs.

(** [{c && <x/>}]. *)
Definition when {A} (c : bool) (l : list A) : list A := if c then l else [].

Section Views.
Context {E : Type}.

Definition attr_disabled (a : attr E) : bool := match a with ADisabled b => b | _ => false end.
Definition attr_handler (a : attr E) : list (handler E) :=
  match a with AOn h => [h] | _ => [] end.
Definition own_handlers (l : list (attr E)) : list (handler E) :=
  if existsb attr_disabled l then [] else flat_map attr_handler l.

(** The handlers of a view that can fire, in document order. *)
Fixpoint live (n : node E) : list (handler E) :=
  match n with
  | Txt _ => []
  | El _ l kids => own_handlers l ++ flat_map live kids
  | Comp _ l => own_handlers l
  end.
Definition live_all (v : list (node E)) : list (handler E) := flat_map live v.

(** The text a view shows. *)
Fixpoint text_of (n : node E) : jsstr :=
  match n with
  | Txt s => s
  | El _ _ kids => concat (map text_of kids)
  | Comp _ _ => []
  end.
Definition text_all (v : list (node E)) : jsstr := concat (map text_of v).

(** The view of a child whose callbacks are the parent's [f]. *)
Definition map_handler {E'} (f : E → E') (h : handler E) : handler E' :=
  match h with
  | OnClick e => OnClick (f e)
  | OnSubmit e => OnSubmit (f e)
  | OnFocus e => OnFocus (f e)
  | OnText g => OnText (λ s, f (g s))
  | OnCheck g => OnCheck (λ b, f (g b))
  | OnKey g => OnKey (λ k b, option_map f (g k b))
  end.
Definition map_attr {E'} (f : E → E') (a : attr E) : attr E' :=
  match a with
  | AStr n v => AStr n v
  | ABool n v => ABool n v
  | ADisabled v => ADisabled v
  | AOn h => AOn (map_handler f h)
  end.
Fixpoint map_node {E'} (f : E → E') (n : node E) : node E' :=
  match n with
  | Txt s => Txt s
  | El t l kids => El t (map (map_attr f) l) (map (map_node f) kids)
  | Comp c l => Comp c (map (map_attr f) l)
  end.

(** The view of a parent with the views of its nested components in their places, [c] by name. *)
Fixpoint plug {E'} (c : jsstr → option (list (node E'))) (f : E → E') (n : node E) : list (node E') :=
  match n with
  | Txt s => [Txt s]
  | El t l kids => [El t (map (map_attr f) l) (flat_map (plug c f) kids)]
  | Comp name l => nullish (c name) [Comp name (map (map_attr f) l)]
  end.

Definition fires (h : handler E) (e : E) : Prop :=
  match h with
  | OnClick e' | OnSubmit e' | OnFocus e' => e = e'
  | OnText f => ∃ s, e = f s
  | OnCheck f => ∃ b, e = f b
  | OnKey f => ∃ k b, f k b = Some e
  end.

(** The user can cause [e] in view [v]. *)
Definition offers (v : list (node E)) (e : E) : Prop := ∃ h, h ∈ live_all v ∧ fires h e.

End Views.

(** ** Host *)

(** [localStorage]: a map from keys to strings; [None] when every access throws. *)
Definition storage : Type := option (gmap jsstr jsstr).
Definition storage_get (st : storage) (k : jsstr) : option jsstr := m ← st; m !! k.
(** [setItem], which may also throw where [getItem] does not, when the storage is full; its callers
    catch that. *)
Definition storage_set (refused : bool) (st : storage) (k v : jsstr) : storage :=
  if refused then st else option_map (<[k:=v]>) st.

(** ** Components *)

Record component := Component {
  c_state : Type;
  c_event : Type;
  c_req : Type;                                  (* requests and timers in flight *)
  c_resp : c_req → Type;                         (* the value a request resolves to *)
  c_init : c_state * list c_req;                 (* first render and mount effects *)
  c_view : c_state → list (node c_event);
  c_env : c_state → c_event → Prop;              (* events that do not come from the view *)
  c_handle : c_event → c_state → c_state * list c_req;
  c_resume : ∀ r : c_req, result (c_resp r) → c_state → c_state * list c_req
}.

Record world (C : component) := World { w_state : c_state C; w_flight : list (c_req C) }.
Arguments World {C} w_state w_flight.
Arguments w_state {C} w.
Arguments w_flight {C} w.

(** Which answers the server may give to a request; [any] puts no condition on them. *)
Definition answers (C : component) : Type := ∀ r : c_req C, result (c_resp C r) → Prop.
Definition any (C : component) : answers C := λ _ _, True.
Arguments any {C}.

Section Worlds.
Context (C : component) (srv : answers C).

Definition init_world : world C := World (fst (c_init C)) (snd (c_init C)).

Definition allowed (s : c_state C) (e : c_event C) : Prop := offers (c_view C s) e ∨ c_env C s e.

(** One step, with the requests it issues. *)
Inductive step : world C → list (c_req C) → world C → Prop :=
| step_event e s q s' new :
    allowed s e → c_handle C e s = (s', new) →
    step (World s q) new (World s' (q ++ new))
| step_response q1 r q2 (a : result (c_resp C r)) s s' new :
    srv r a → c_resume C r a s = (s', new) →
    step (World s (q1 ++ r :: q2)) new (World s' (q1 ++ q2 ++ new)).

Inductive reachable : world C → Prop :=
| reach_init : reachable init_world
| reach_step w new w' : reachable w → step w new w' → reachable w'.

(** [w] can issue request [r] in its next step. *)
Definition issues (w : world C) (r : c_req C) : Prop := ∃ new w', step w new w' ∧ r ∈ new.

(** An inductive invariant of a component. *)
Class Invariant (I : c_state C → list (c_req C) → Prop) : Prop := {
  inv_init : I (fst (c_init C)) (snd (c_init C));
  inv_event e s q :
    I s q → allowed s e → I (fst (c_handle C e s)) (q ++ snd (c_handle C e s));
  inv_response r a s q1 q2 :
    srv r a → I s (q1 ++ r :: q2) →
    I (fst (c_resume C r a s)) (q1 ++ q2 ++ snd (c_resume C r a s))
}.

Lemma invariant_holds I `{!Invariant I} w : reachable w → I (w_state w) (w_flight w).
Proof.
  induction 1 as [|w new w' _ IH Hs]; [apply inv_init|].
  destruct Hs as [e s q s' new Ha Hh|q1 r q2 a s s' new Hsrv Hh]; cbn in *.
  - pose proof (inv_event e s q IH Ha) as H. by rewrite Hh in H.
  - pose proof (inv_response r a s q1 q2 Hsrv IH) as H. by rewrite Hh in H.
Qed.

(** A request can only be issued by an allowed event or by an answer to one in flight. *)
Lemma issues_inv_srv w r :
  issues w r →
  (∃ e, allowed (w_state w) e ∧ r ∈ snd (c_handle C e (w_state w))) ∨
  (∃ r' a, r' ∈ w_flight w ∧ srv r' a ∧ r ∈ snd (c_resume C r' a (w_state w))).
Proof.
  intros (new & w' & Hs & Hr).
  destruct Hs as [e s q s' new Ha Hh|q1 r' q2 a s s' new Hsrv Hh]; cbn.
  - left. exists e. by rewrite Hh.
  - right. exists r', a. rewrite Hh. split; [set_solver|done].
Qed.

Lemma issues_inv w r :
  issues w r →
  (∃ e, allowed (w_state w) e ∧ r ∈ snd (c_handle C e (w_state w))) ∨
  (∃ r' a, r' ∈ w_flight w ∧ r ∈ snd (c_resume C r' a (w_state w))).
Proof. intros [H|(r' & a & Hf & _ & H)]%issues_inv_srv; eauto. Qed.

Lemma issues_event w e r :
  allowed (w_state w) e → r ∈ snd (c_handle C e (w_state w)) → issues w r.
Proof.
  destruct w as [s q]. cbn. intros Ha Hr. exists (snd (c_handle C e s)), (World (fst (c_handle C e s)) (q ++ snd (c_handle C e s))).
  split; [|done]. apply (step_event e); [done|]. by destruct (c_handle C e s).
Qed.

(** Steps in the form that concrete runs use. *)
Lemma run_event e s q : reachable (World s q) → allowed s e →
  reachable (World (fst (c_handle C e s)) (q ++ snd (c_handle C e s))).
Proof.
  intros H Ha. eapply reach_step; [exact H|].
  apply (step_event e); [exact Ha|by destruct (c_handle C e s)].
Qed.
Lemma run_response q1 r q2 a s : reachable (World s (q1 ++ r :: q2)) → srv r a →
  reachable (World (fst (c_resume C r a s)) (q1 ++ q2 ++ snd (c_resume C r a s))).
Proof.
  intros H Ha. eapply reach_step; [exact H|].
  apply (step_response q1 r q2 a); [exact Ha|by destruct (c_resume C r a s)].
Qed.

Lemma run_event_to e s q s' new : reachable (World s q) → allowed s e →
  c_handle C e s = (s', new) → reachable (World s' (q ++ new)).
Proof. intros H Ha E. pose proof (run_event e s q H Ha) as H'. by rewrite E in H'. Qed.
Lemma run_response_to q1 r q2 a s s' new : reachable (World s (q1 ++ r :: q2)) → srv r a →
  c_resume C r a s = (s', new) → reachable (World s' (q1 ++ q2 ++ new)).
Proof. intros H Ha E. pose proof (run_response q1 r q2 a s H Ha) as H'. by rewrite E in H'. Qed.

(** Concrete runs: a list of events and of answers to the [n]-th request in flight. *)
Inductive action :=
| Do (e : c_event C)
| Answer (n : nat) (r : c_req C) (a : result (c_resp C r)).

Definition do_action (x : action) (w : world C) : world C :=
  match x with
  | Do e => World (fst (c_handle C e (w_state w)))
              (w_flight w ++ snd (c_handle C e (w_state w)))
  | Answer n r a => World (fst (c_resume C r a (w_state w)))
              (take n (w_flight w) ++ drop (S n) (w_flight w) ++ snd (c_resume C r a (w_state w)))
  end.
Definition legal (x : action) (w : world C) : Prop :=
  match x with
  | Do e => allowed (w_state w) e
  | Answer n r a => w_flight w !! n = Some r ∧ srv r a
  end.
Fixpoint legal_all (l : list action) (w : world C) : Prop :=
  match l with [] => True | x :: l => legal x w ∧ legal_all l (do_action x w) end.
Definition play (l : list action) (w : world C) : world C := foldl (λ w x, do_action x w) w l.

Lemma play_app l1 l2 w : play (l1 ++ l2) w = play l2 (play l1 w).
Proof. apply foldl_app. Qed.

Lemma play_reachable l w : reachable w → legal_all l w → reachable (play l w).
Proof.
  revert w. induction l as [|x l IH]; intros [s q] Hw Hl; [done|]. destruct Hl as [Hx Hl].
  cbn. apply IH; [|done]. destruct x as [e|n r a]; cbn in *.
  - by apply run_event.
  - destruct Hx as [Hn Ha]. apply (run_response (take n q) r (drop (S n) q)); [|done].
    by rewrite take_drop_middle.
Qed.

End Worlds.

Arguments Do {C} e.
Arguments Answer {C} n r a.
Arguments do_action {C} x w.
Arguments play {C} l w.
Arguments legal_all {C} srv l w.
Arguments play_reachable {C} srv l w.
Arguments play_app {C} l1 l2 w.
Arguments issues {C} srv w r.
Arguments reachable {C} srv w.
Arguments step {C} srv w new w'.
Arguments allowed {C} s e.
Arguments Invariant {C} srv I.
Arguments invariant_holds {C} srv I {_} w.
Arguments issues_inv {C} srv w r.
Arguments issues_event {C} srv w e r.
Arguments run_event {C} srv e s q.
Arguments run_response {C} srv q1 r q2 a s.
Arguments run_event_to {C} srv e s q s' new.
Arguments run_response_to {C} srv q1 r q2 a s s' new.

(** ** Events of a view *)

Section Offers.
Context {E : Type}.
Implicit Types v : list (node E).

Lemma offers_elim v (e : E) (P : Prop) :
  (∀ h, h ∈ live_all v → fires h e → P) → offers v e → P.
Proof. intros H (h & Hh & Hf). eauto. Qed.

Lemma offers_nth v n h (e : E) : live_all v !! n = Some h → fires h e → offers v e.
Proof. intros Hh Hf. exists h. split; [by eapply list_elem_of_lookup_2|done]. Qed.

Lemma live_all_app v1 v2 : live_all (v1 ++ v2) = live_all v1 ++ live_all v2.
Proof. unfold live_all. by rewrite flat_map_app. Qed.

Lemma live_all_map {A} (f : A → node E) (l : list A) h :
  h ∈ live_all (map f l) ↔ ∃ x, x ∈ l ∧ h ∈ live (f x).
Proof.
  unfold live_all. induction l as [|x l IH]; cbn; [set_solver|].
  rewrite elem_of_app, IH. set_solver.
Qed.

Lemma offers_app v1 v2 (e : E) : offers (v1 ++ v2) e ↔ offers v1 e ∨ offers v2 e.
Proof. unfold offers. rewrite live_all_app. setoid_rewrite elem_of_app. naive_solver. Qed.
Lemma offers_cons (n : node E) v (e : E) : offers (n :: v) e ↔ offers [n] e ∨ offers v e.
Proof. exact (offers_app [n] v e). Qed.
Lemma offers_nil (e : E) : offers [] e ↔ False.
Proof. unfold offers. cbn. setoid_rewrite elem_of_nil. naive_solver. Qed.
Lemma offers_when c v (e : E) : offers (when c v) e ↔ c = true ∧ offers v e.
Proof.
  destruct c; cbn [when]; [split; [by split|by intros [_ ?]]|].
  rewrite offers_nil. split; [done|by intros [? _]].
Qed.
Lemma offers_map {A} (f : A → node E) l (e : E) :
  offers (map f l) e ↔ ∃ x, x ∈ l ∧ offers [f x] e.
Proof.
  unfold offers. setoid_rewrite live_all_map. cbn. setoid_rewrite app_nil_r. naive_solver.
Qed.
Lemma offers_imap {A} (f : nat → A → node E) l (e : E) :
  offers (imap f l) e → ∃ i x, l !! i = Some x ∧ offers [f i x] e.
Proof.
  intros (h & Hh & Hf). unfold live_all in Hh.
  apply list_elem_of_In, in_flat_map in Hh as (n & Hn & Hh).
  apply list_elem_of_In, elem_of_lookup_imap in Hn as (i & x & -> & Hi).
  exists i, x. split; [done|]. exists h. split; [|done]. unfold live_all. cbn.
  rewrite app_nil_r. by apply list_elem_of_In.
Qed.
Lemma offers_flat_map {A} (f : A → list (node E)) l (e : E) :
  offers (flat_map f l) e ↔ ∃ x, x ∈ l ∧ offers (f x) e.
Proof.
  induction l as [|x l IH]; cbn; [rewrite offers_nil; set_solver|].
  rewrite offers_app, IH. set_solver.
Qed.
Lemma offers_Txt s (e : E) : offers [Txt s] e ↔ False.
Proof. unfold offers. cbn. setoid_rewrite elem_of_nil. naive_solver. Qed.
Lemma offers_El t a k (e : E) :
  offers [El t a k] e ↔ (∃ h, h ∈ own_handlers a ∧ fires h e) ∨ offers k e.
Proof.
  unfold offers. cbn. rewrite app_nil_r. setoid_rewrite elem_of_app. naive_solver.
Qed.
Lemma offers_Comp n a (e : E) :
  offers [Comp n a] e ↔ ∃ h, h ∈ own_handlers a ∧ fires h e.
Proof. unfold offers. cbn. by rewrite app_nil_r. Qed.
Lemma own_nil (e : E) : (∃ h, h ∈ own_handlers [] ∧ fires h e) ↔ False.
Proof. cbn. setoid_rewrite elem_of_nil. naive_solver. Qed.

End Offers.

(** ** The text of a view *)

Section Text.
Context {E : Type}.
Implicit Types v : list (node E).

Lemma text_all_app v1 v2 : text_all (v1 ++ v2) = text_all v1 ++ text_all v2.
Proof. unfold text_all. by rewrite map_app, concat_app. Qed.

Lemma shown_app s v1 v2 :
  includes s (text_all v1) = true ∨ includes s (text_all v2) = true →
  includes s (text_all (v1 ++ v2)) = true.
Proof.
  rewrite text_all_app. intros [H|H].
  - apply (includes_infix s [] _ _ H).
  - pose proof (includes_infix s (text_all v1) _ [] H) as H'. by rewrite app_nil_r in H'.
Qed.
Lemma shown_cons s (n : node E) v :
  includes s (text_of n) = true ∨ includes s (text_all v) = true →
  includes s (text_all (n :: v)) = true.
Proof.
  intros H. apply (shown_app s [n] v). unfold text_all at 1. cbn. by rewrite app_nil_r.
Qed.
Lemma shown_El s t l v : includes s (text_all v) = true → includes s (text_of (@El E t l v)) = true.
Proof. done. Qed.
Lemma shown_Txt s : includes s (text_of (@Txt E s)) = true.
Proof. apply includes_refl. Qed.
End Text.

(** The view of a child offers the parent the image of what it offers. *)
Section MapNode.
Context {E E' : Type} (f : E → E').

Lemma own_handlers_map (l : list (attr E)) :
  own_handlers (map (map_attr f) l) = map (map_handler f) (own_handlers l).
Proof.
  unfold own_handlers. assert (existsb attr_disabled (map (map_attr f) l) = existsb attr_disabled l) as ->.
  { induction l as [|[] l IH]; cbn; congruence. }
  destruct (existsb attr_disabled l); [done|].
  induction l as [|a l IH]; cbn; [done|]. rewrite map_app, IH. by destruct a.
Qed.

Lemma live_map_node (n : node E) : live (map_node f n) = map (map_handler f) (live n).
Proof.
  revert n. fix IH 1. intros [s|t l kids|c l]; cbn; [done| |apply own_handlers_map].
  rewrite map_app, own_handlers_map. f_equal.
  induction kids as [|k kids IHk]; cbn; [done|]. by rewrite map_app, IH, IHk.
Qed.

Lemma fires_map h (e : E') : fires (map_handler f h) e → ∃ e', e = f e' ∧ fires h e'.
Proof.
  destruct h as [e'|e'|e'|g|g|g]; cbn; [eauto..| | |].
  - intros [s ->]. eauto.
  - intros [b ->]. eauto.
  - intros (k & b & H). destruct (g k b) as [e'|] eqn:Eg; [|done]. injection H as <-. eauto.
Qed.

Lemma offers_map_node (v : list (node E)) (e : E') :
  offers (map (map_node f) v) e → ∃ e', e = f e' ∧ offers v e'.
Proof.
  intros (h & Hh & Hf). apply live_all_map in Hh as (n & Hn & Hh).
  rewrite live_map_node in Hh. apply list_elem_of_fmap in Hh as (h' & -> & Hh').
  apply fires_map in Hf as (e' & -> & Hf). exists e'. split; [done|]. exists h'. split; [|done].
  unfold live_all. apply list_elem_of_In, in_flat_map. exists n.
  split; by apply list_elem_of_In.
Qed.

(** A plugged view offers what the parent's controls offer and what the nested views offer. *)
Lemma live_plug (c : jsstr → option (list (node E'))) n h :
  h ∈ live_all (plug c f n) →
  (∃ h', h = map_handler f h' ∧ h' ∈ live n) ∨ (∃ name w, c name = Some w ∧ h ∈ live_all w).
Proof.
  revert n h. fix IH 1. intros [s|t l kids|name l] h; cbn [plug].
  - unfold live_all. cbn. by intros ?%elem_of_nil.
  - unfold live_all at 1. cbn [flat_map live]. rewrite app_nil_r, elem_of_app, own_handlers_map.
    intros [H|H].
    { left. apply list_elem_of_fmap in H as (h' & -> & Hh). exists h'. split; [done|].
      apply elem_of_app. by left. }
    induction kids as [|k kids IHk]; cbn in H; [by apply elem_of_nil in H|].
    rewrite flat_map_app in H. apply elem_of_app in H as [H|H].
    + destruct (IH k h H) as [(h' & -> & Hh)|Hr]; [left|by right]. exists h'. split; [done|].
      cbn. rewrite !elem_of_app. auto.
    + destruct (IHk H) as [(h' & -> & Hh)|Hr]; [left|by right]. exists h'. split; [done|].
      cbn in *. rewrite !elem_of_app in *. tauto.
  - destruct (c name) as [w|] eqn:Ec; cbn [nullish].
    + intros H. right. eauto.
    + unfold live_all. cbn. rewrite app_nil_r, own_handlers_map. intros H. left.
      apply list_elem_of_fmap in H as (h' & -> & Hh). eauto.
Qed.

Lemma offers_plug (c : jsstr → option (list (node E'))) v (e : E') :
  offers (flat_map (plug c f) v) e →
  (∃ e', e = f e' ∧ offers v e') ∨ (∃ name w, c name = Some w ∧ offers w e).
Proof.
  intros (h & Hh & Hf). unfold live_all in Hh.
  apply list_elem_of_In, in_flat_map in Hh as (n & Hn & Hh).
  apply in_flat_map in Hn as (m & Hm & Hn).
  destruct (live_plug c m h) as [(h' & -> & Hh')|(name & w & Ec & Hw)].
  { apply list_elem_of_In, in_flat_map. eauto. }
  - left. apply fires_map in Hf as (e' & -> & Hf). exists e'. split; [done|].
    exists h'. split; [|done]. apply list_elem_of_In, in_flat_map. exists m.
    split; [done|by apply list_elem_of_In].
  - right. exists name, w. split; [done|]. by exists h.
Qed.
End MapNode.

(** An attribute list fires an event: its element is not disabled and one of its handlers
    fires it. *)
Lemma own_fires_inv {E} (a : list (attr E)) (e : E) :
  (∃ h, h ∈ own_handlers a ∧ fires h e) →
  existsb attr_disabled a = false ∧ ∃ h, h ∈ flat_map attr_handler a ∧ fires h e.
Proof.
  unfold own_handlers. destruct (existsb attr_disabled a); [|eauto].
  intros (h & Hh & _). by apply not_elem_of_nil in Hh.
Qed.

(** Splits the [offers] hypotheses on a concrete view down to the controls that can fire. *)
Ltac inv_offers :=
  repeat match goal with
  | H : offers (_ ++ _) _ |- _ => apply offers_app in H as [H|H]
  | H : offers (when _ _) _ |- _ => apply offers_when in H as [? H]
  | H : offers (map (map_node _) _) _ |- _ => apply offers_map_node in H as (? & ? & H)
  | H : offers (map _ _) _ |- _ => apply offers_map in H as (? & ? & H); cbv beta in H
  | H : offers (flat_map _ _) _ |- _ => apply offers_flat_map in H as (? & ? & H); cbv beta in H
  | H : offers (imap _ _) _ |- _ => apply offers_imap in H as (? & ? & ? & H)
  | H : offers [] _ |- _ => by apply offers_nil in H
  | H : offers [Txt _] _ |- _ => by apply offers_Txt in H
  | H : offers [El _ _ _] _ |- _ => apply offers_El in H as [H|H]
  | H : offers [Comp _ _] _ |- _ => apply offers_Comp in H
  | H : offers (_ :: ?v) _ |- _ =>
      lazymatch v with [] => fail | _ => apply offers_cons in H as [H|H] end
  | H : offers (if ?b then _ else _) _ |- _ => destruct b eqn:?
  | H : offers [if ?b then _ else _] _ |- _ => destruct b eqn:?
  | H : offers (match ?o with _ => _ end) _ |- _ => destruct o eqn:?
  | H : ∃ h, h ∈ own_handlers _ ∧ fires h _ |- _ =>
      apply own_fires_inv in H as [? (? & H & ?)];
      cbn [existsb attr_disabled flat_map attr_handler app orb] in *
  | H : _ ∈ [] |- _ => by apply not_elem_of_nil in H
  | H : _ ∈ [_] |- _ => apply list_elem_of_singleton in H; subst
  | H : _ ∈ _ :: _ |- _ => apply elem_of_cons in H as [H|H]; subst
  | H : orb ?b false = false |- _ => rewrite orb_false_r in H
  | H : fires (OnClick _) _ |- _ => cbn [fires] in H; subst
  | H : fires (OnSubmit _) _ |- _ => cbn [fires] in H; subst
  | H : fires (OnFocus _) _ |- _ => cbn [fires] in H; subst
  | H : fires (OnText _) _ |- _ => destruct H as [? ->]
  | H : fires (OnCheck _) _ |- _ => destruct H as [? ->]
  | H : fires (OnKey _) _ |- _ => destruct H as (? & ? & H)
  end.
