(* ===== verification/Behaviour.v ===== *)
(** Behaviour of components over many steps: when the answers to the requests in flight come to
    an end, when a component implements an abstract protocol in what it sends, and when also in
    what it receives. *)

From stdpp Require Import relations.
From S2P Require Import Prelude React.

(** ** Requests of a kind *)

Section Tally.
Context {A : Type} (f : A → bool).

(** How many requests of a kind are in flight. *)
Definition tally (q : list A) : nat := length (List.filter f q).

Lemma tally_app q1 q2 : tally (q1 ++ q2) = (tally q1 + tally q2)%nat.
Proof. unfold tally. by rewrite List.filter_app, length_app. Qed.

Lemma tally_cons r q : tally (r :: q) = ((if f r then 1 else 0) + tally q)%nat.
Proof. unfold tally. cbn. by destruct (f r). Qed.

Lemma tally_middle q1 r q2 :
  tally (q1 ++ r :: q2) = (tally (q1 ++ q2) + (if f r then 1 else 0))%nat.
Proof. rewrite !tally_app, tally_cons. lia. Qed.

Lemma tally_none q : (∀ r, r ∈ q → f r = false) → tally q = 0%nat.
Proof.
  induction q as [|r q IH]; intros H; [done|]. rewrite tally_cons, (H r), IH; [done| |by left].
  intros x Hx. apply H. by right.
Qed.

(** A flag that is up only while a request of its kind is in flight. *)
Definition awaits (b : bool) (q : list A) : Prop := b = true → ∃ r, r ∈ q ∧ f r = true.

Lemma awaits_nil b : awaits b [] → b = false.
Proof. destruct b; [|done]. intros H. destruct (H eq_refl) as (r & Hr & _). by apply elem_of_nil in Hr. Qed.

Lemma awaits_event b b' q new :
  awaits b q → (b' = true → b = true ∨ ∃ r, r ∈ new ∧ f r = true) → awaits b' (q ++ new).
Proof.
  intros H Hb E. destruct (Hb E) as [Eb|(r & Hr & Hf)].
  - destruct (H Eb) as (r & Hr & Hf). exists r. split; [set_solver|done].
  - exists r. split; [set_solver|done].
Qed.

(** The answer to a request of the kind takes the flag down or sends another one. *)
Lemma awaits_answer b b' q1 r q2 new :
  awaits b (q1 ++ r :: q2) →
  (b' = true → (∃ x, x ∈ new ∧ f x = true) ∨ b = true ∧ f r = false) →
  awaits b' (q1 ++ q2 ++ new).
Proof.
  intros H Hb E. destruct (Hb E) as [(x & Hx & Hf)|[Eb Er]].
  - exists x. split; [set_solver|done].
  - destruct (H Eb) as (x & Hx & Hf). exists x. split; [|done].
    apply elem_of_app in Hx as [Hx|[->|Hx]%elem_of_cons]; [set_solver|congruence|set_solver].
Qed.
End Tally.

(** ** Answers come to an end *)

(** A component whose continuations only send requests of a lower rank than the one answered.
    Components with a timer that renews itself have no such rank. *)
Class Ranked (C : component) := {
  rank : c_req C → nat;
  rank_lower r a s : Forall (λ r', (rank r' < rank r)%nat) (snd (c_resume C r a s))
}.

(** One request of a list is replaced by requests of lower rank. *)
Section Lower.
Context {A : Type} (rk : A → nat).

Definition lower (q' q : list A) : Prop :=
  ∃ q1 r q2 new, q = q1 ++ r :: q2 ∧ q' ≡ₚ q1 ++ q2 ++ new ∧
    Forall (λ x, (rk x < rk r)%nat) new.

Lemma lower_perm q q0 q' : q ≡ₚ q0 → lower q' q → ∃ q0', q' ≡ₚ q0' ∧ lower q0' q0.
Proof.
  intros Hp (q1 & r & q2 & new & -> & Hq' & Hn).
  assert (r ∈ q0) as (l1 & l2 & ->)%list_elem_of_split by (rewrite <- Hp; set_solver).
  exists (l1 ++ l2 ++ new). split; [|by exists l1, r, l2, new].
  apply Permutation_app_inv in Hp. rewrite Hq', (app_assoc q1), (app_assoc l1).
  by apply Permutation_app.
Qed.

Lemma acc_perm q q0 : q ≡ₚ q0 → Acc lower q → Acc lower q0.
Proof.
  intros Hp Ha. revert q0 Hp. induction Ha as [q _ IH]. intros q0 Hp. constructor.
  intros q0' Hl. apply (lower_perm q0 q) in Hl as (q' & Hq & Hl); [|by symmetry].
  apply (IH q' Hl). by symmetry.
Qed.

(** Adding a request keeps the list terminating: by induction on its rank, then on the list. *)
Lemma acc_cons n r q : rk r = n → Acc lower q → Acc lower (r :: q).
Proof.
  revert r q. induction (lt_wf n) as [n _ IHn]. intros r q Hr Ha.
  induction Ha as [q Hq IHq]. constructor. intros q' (q1 & x & q2 & new & E & Hq' & Hn).
  destruct q1 as [|y q1]; injection E as -> ->.
  - cbn in Hq'. apply (acc_perm (new ++ q2)); [by rewrite Hq', Permutation_app_comm|].
    assert (Acc lower q2) as Ha by exact (Acc_intro q2 Hq). clear Hq' Hq IHq.
    induction Hn as [|y new Hy Hn IH]; [exact Ha|].
    cbn. apply (IHn (rk y)); [lia|done|exact IH].
  - apply (acc_perm (y :: q1 ++ q2 ++ new)); [by symmetry|]. apply IHq. by exists q1, x, q2, new.
Qed.

Lemma lower_wf : well_founded lower.
Proof.
  intros q. induction q as [|r q IH]; [|by apply (acc_cons (rk r))].
  constructor. intros q' ([|??] & r & q2 & new & E & _); discriminate E.
Qed.
End Lower.

Section Settling.
Context (C : component) (srv : answers C) `{!Ranked C}.

(** A request in flight is answered, and nothing else happens. *)
Definition answered (w w' : world C) : Prop :=
  ∃ q1 r q2 a, srv r a ∧ w_flight w = q1 ++ r :: q2 ∧
    w' = World (fst (c_resume C r a (w_state w))) (q1 ++ q2 ++ snd (c_resume C r a (w_state w))).

Lemma answered_step w w' : answered w w' → ∃ new, step srv w new w'.
Proof.
  destruct w as [s q]. intros (q1 & r & q2 & a & Ha & Hq & ->). cbn in Hq. subst q.
  eexists. eapply step_response; [exact Ha|]. cbn. by destruct (c_resume C r a s).
Qed.

Lemma answers_reachable w w' : reachable srv w → rtc answered w w' → reachable srv w'.
Proof.
  intros Hw Hr. induction Hr as [|w w1 w' H1 _ IH]; [done|]. apply IH.
  apply answered_step in H1 as [new H1]. by eapply reach_step.
Qed.

(** No infinite sequence of answers, whatever they are and in whatever order they come. *)
Lemma answers_terminate : well_founded (flip answered).
Proof.
  apply (wf_projected (lower rank) w_flight); [|apply lower_wf].
  intros w' w (q1 & r & q2 & a & _ & Hq & ->). cbn. exists q1, r, q2, (snd (c_resume C r a (w_state w))).
  split; [done|]. split; [done|]. apply rank_lower.
Qed.

(** A server that answers every request brings the component to rest. *)
Lemma comes_to_rest w : (∀ r, ∃ a, srv r a) → ∃ w', rtc answered w w' ∧ w_flight w' = [].
Proof.
  intros Hs. induction (answers_terminate w) as [w _ IH].
  destruct (w_flight w) as [|r q] eqn:Eq; [exists w; split; [done|exact Eq]|].
  destruct (Hs r) as [a Ha].
  assert (answered w (World (fst (c_resume C r a (w_state w))) ([] ++ q ++ snd (c_resume C r a (w_state w)))))
    as H by by exists [], r, q, a.
  destruct (IH _ H) as (w' & Hw' & Hf). exists w'. split; [by eapply rtc_l|done].
Qed.
End Settling.
Arguments answered {C} srv w w'.
Arguments answers_reachable {C} srv w w'.
Arguments answers_terminate {C} srv {_}.
Arguments comes_to_rest {C} srv {_} w.

(** ** Implementing a protocol *)

(** An abstract protocol: states, and steps with the messages they send. *)
Record protocol (L : Type) := Protocol {
  p_state : Type;
  p_init : p_state;
  p_step : p_state → list L → p_state → Prop
}.
Arguments Protocol {L}.
Arguments p_state {L} p.
Arguments p_init {L} p.
Arguments p_step {L} p.

(** The messages sent along a run of the protocol, and along a run of a component. *)
Inductive p_trace {L} (P : protocol L) : list L → p_state P → Prop :=
| p_start : p_trace P [] (p_init P)
| p_next t u l u' : p_trace P t u → p_step P u l u' → p_trace P (t ++ l) u'.

Section Refinement.
Context (C : component) (srv : answers C) {L : Type} (obs : c_req C → option L) (P : protocol L).

Inductive trace : list L → world C → Prop :=
| trace_start : trace (omap obs (snd (c_init C))) (init_world C)
| trace_next t w new w' : trace t w → step srv w new w' → trace (t ++ omap obs new) w'.

Lemma trace_reachable t w : trace t w → reachable srv w.
Proof. induction 1 as [|t w new w' _ IH Hs]; [constructor|by eapply reach_step]. Qed.

(** The messages of a concrete run. *)
Definition requests_of (x : action C) (w : world C) : list (c_req C) :=
  match x with
  | Do e => snd (c_handle C e (w_state w))
  | Answer _ r a => snd (c_resume C r a (w_state w))
  end.
Fixpoint messages (l : list (action C)) (w : world C) : list L :=
  match l with
  | [] => []
  | x :: l => omap obs (requests_of x w) ++ messages l (do_action x w)
  end.

Lemma play_trace l t w : trace t w → legal_all srv l w → trace (t ++ messages l w) (play l w).
Proof.
  revert t w. induction l as [|x l IH]; intros t [s q] Ht Hl; [by rewrite app_nil_r|].
  destruct Hl as [Hx Hl]. cbn [messages play foldl]. rewrite app_assoc. apply IH; [|done].
  eapply trace_next; [exact Ht|]. destruct x as [e|n r a]; cbn in Hx |- *.
  - eapply step_event; [exact Hx|]. by destruct (c_handle C e s).
  - destruct Hx as [Hn Ha]. rewrite <- (take_drop_middle q n r Hn) at 1.
    eapply step_response; [exact Ha|]. cbn. by destruct (c_resume C r a s).
Qed.

(** [abs] maps the states of the component to those of the protocol; every step of a reachable
    world is a step of the protocol with the same messages, or none. *)
Class Implements (abs : c_state C → p_state P) : Prop := {
  impl_init : abs (fst (c_init C)) = p_init P ∧ omap obs (snd (c_init C)) = [];
  impl_step w new w' :
    reachable srv w → step srv w new w' →
    p_step P (abs (w_state w)) (omap obs new) (abs (w_state w')) ∨
    omap obs new = [] ∧ abs (w_state w') = abs (w_state w)
}.

(** What the component sends, the protocol allows. *)
Lemma implements_traces abs `{!Implements abs} t w :
  trace t w → p_trace P t (abs (w_state w)).
Proof.
  induction 1 as [|t w new w' Ht IH Hs].
  - destruct impl_init as [E ->]. cbn. rewrite E. constructor.
  - destruct (impl_step w new w' (trace_reachable t w Ht) Hs) as [Hp|[-> E]].
    + by eapply p_next.
    + by rewrite app_nil_r, E.
Qed.
End Refinement.

(** ** Histories *)

Section History.
Context (C : component) (srv : answers C).

(** What happens to a component, and what it sends. *)
Inductive wire :=
| Happened (e : c_event C)
| Sent (r : c_req C)
| Received (r : c_req C) (a : result (c_resp C r)).

(** All of it along a run. *)
Inductive history : list wire → world C → Prop :=
| history_start : history (map Sent (snd (c_init C))) (init_world C)
| history_event t e s q :
    history t (World s q) → allowed s e →
    history (t ++ Happened e :: map Sent (snd (c_handle C e s)))
      (World (fst (c_handle C e s)) (q ++ snd (c_handle C e s)))
| history_answer t q1 r q2 a s :
    history t (World s (q1 ++ r :: q2)) → srv r a →
    history (t ++ Received r a :: map Sent (snd (c_resume C r a s)))
      (World (fst (c_resume C r a s)) (q1 ++ q2 ++ snd (c_resume C r a s))).

Lemma history_reachable t w : history t w → reachable srv w.
Proof.
  induction 1 as [|t e s q _ IH Ha|t q1 r q2 a s _ IH Ha]; [constructor|by apply run_event|].
  by apply run_response.
Qed.

(** Every run has one. *)
Lemma reachable_history w : reachable srv w → ∃ t, history t w.
Proof.
  induction 1 as [|w new w' _ [t IH] Hs]; [eexists; constructor|].
  destruct Hs as [e s q s' new Ha Hh|q1 r q2 a s s' new Ha Hh].
  - pose proof (history_event t e s q IH Ha) as H. rewrite Hh in H. by eexists.
  - pose proof (history_answer t q1 r q2 a s IH Ha) as H. rewrite Hh in H. by eexists.
Qed.

Fixpoint recorded (l : list (action C)) (w : world C) : list wire :=
  match l with
  | [] => []
  | x :: l =>
      match x with
      | Do e => Happened e :: map Sent (snd (c_handle C e (w_state w)))
      | Answer _ r a => Received r a :: map Sent (snd (c_resume C r a (w_state w)))
      end ++ recorded l (do_action x w)
  end.

Lemma play_history l t w : history t w → legal_all srv l w → history (t ++ recorded l w) (play l w).
Proof.
  revert t w. induction l as [|x l IH]; intros t [s q] Ht Hl; [by rewrite app_nil_r|].
  destruct Hl as [Hx Hl]. cbn [recorded play foldl]. rewrite app_assoc. apply IH; [|done].
  destruct x as [e|n r a]; cbn in Hx |- *; [by apply history_event|]. destruct Hx as [Hn Ha].
  apply (history_answer t (take n q) r (drop (S n) q)); [|done]. by rewrite take_drop_middle.
Qed.

(** Every step of a reachable world is a step of the protocol, with what is observed of it, or is
    nothing to it. *)
Context {L : Type} (obs : wire → option L) (P : protocol L).

Class Converses (abs : c_state C → p_state P) : Prop := {
  conv_init : abs (fst (c_init C)) = p_init P ∧ omap obs (map Sent (snd (c_init C))) = [];
  conv_event e s q :
    reachable srv (World s q) → allowed s e →
    let l := omap obs (Happened e :: map Sent (snd (c_handle C e s))) in
    p_step P (abs s) l (abs (fst (c_handle C e s))) ∨ l = [] ∧ abs (fst (c_handle C e s)) = abs s;
  conv_answer q1 r q2 a s :
    reachable srv (World s (q1 ++ r :: q2)) → srv r a →
    let l := omap obs (Received r a :: map Sent (snd (c_resume C r a s))) in
    p_step P (abs s) l (abs (fst (c_resume C r a s))) ∨ l = [] ∧ abs (fst (c_resume C r a s)) = abs s
}.

Lemma converses_history abs `{!Converses abs} t w :
  history t w → p_trace P (omap obs t) (abs (w_state w)).
Proof.
  induction 1 as [|t e s q Ht IH Ha|t q1 r q2 a s Ht IH Ha].
  - destruct conv_init as [E ->]. cbn. rewrite E. constructor.
  - rewrite omap_app. destruct (conv_event e s q (history_reachable _ _ Ht) Ha) as [Hp|[-> E]];
      [by eapply p_next|by rewrite app_nil_r; cbn; rewrite E].
  - rewrite omap_app. destruct (conv_answer q1 r q2 a s (history_reachable _ _ Ht) Ha) as [Hp|[-> E]];
      [by eapply p_next|by rewrite app_nil_r; cbn; rewrite E].
Qed.
End History.
Arguments Happened {C} e.
Arguments Sent {C} r.
Arguments history_reachable {C} srv t w.
Arguments Received {C} r a.
Arguments history {C} srv t w.
Arguments history_start {C} srv.
Arguments reachable_history {C} srv w.
Arguments recorded {C} l w.
Arguments play_history {C} srv l t w.
Arguments Converses {C} srv {L} obs P abs.
Arguments converses_history {C} srv {L} obs P abs {_} t w.

Arguments trace {C} srv {L} obs t w.
Arguments Implements {C} srv {L} obs P abs.
Arguments implements_traces {C} srv {L} obs P abs {_} t w.
Arguments play_trace {C} srv {L} obs l t w.
Arguments messages {C L} obs l w.
