(* ===== verification/Types.v ===== *)
(** The payload types of the client (web/src/types.ts): one record or inductive type per
    interface or union, under its own name, each field with a short prefix.  A [?:] field is
    an [option], a [| null] field an [option], a [Record<string, V>] a finite map, money and
    ratios are doubles ([num]), identifiers and counters are integers, [unknown] is [json]. *)

From S2P Require Import Prelude JsNumber.

(** JSON values, for the fields typed [unknown]. *)
Inductive json :=
| JNull
| JBool (b : bool)
| JNum (x : num)
| JStr (s : jsstr)
| JArr (l : list json)
| JObj (l : list (jsstr * json)).

(** [String(v)]: an array joins its elements with commas ([null] gives the empty string). *)
Fixpoint js_String (v : json) : jsstr :=
  match v with
  | JNull => "null"
  | JBool true => "true"
  | JBool false => "false"
  | JNum x => num_str x
  | JStr s => s
  | JArr l => join "," (map (λ x, match x with JNull => [] | _ => js_String x end) l)
  | JObj _ => "[object Object]"
  end.

Record RunEvent := {
  re_ts : option jsstr;
  re_kind : option jsstr;
  re_audience : option jsstr;
  re_status : option jsstr;
  re_cost_usd : option num;
  re_delivered : option bool;
  re_auto_approved : option bool
}.

Record AgentSummary := {
  as_id : jsstr;
  as_name : jsstr;
  as_enabled : bool;
  as_last_run : option RunEvent;
  as_report_kinds : option (list jsstr)
}.

Record Budget := { bu_spent : num; bu_cap : num; bu_ratio : num }.

Record AgentStatus := {
  st_id : jsstr;
  st_name : jsstr;
  st_enabled : bool;
  st_last_run : option RunEvent;
  st_budget : Budget;
  st_pending_approvals : Z
}.

Record RunsPayload := { rp_agent_id : jsstr; rp_runs : list RunEvent }.

Record CostMonth := { cm_month : jsstr; cm_total_usd : num }.

Record CostPayload := {
  cp_agent_id : jsstr;
  cp_series : list CostMonth;
  cp_cap : num;
  cp_warn_ratio : num;
  cp_spent_this_month : num
}.

Record Fact := { fa_fact : option jsstr; fa_ts : option jsstr; fa_key : option jsstr }.

Record MemoryPayload := { mp_agent_id : jsstr; mp_facts : list Fact; mp_internal_only : bool }.

Record Proposal := {
  pr_id : Z;
  pr_reason : jsstr;
  pr_status : jsstr;
  pr_created_at : jsstr;
  pr_action_summary : jsstr
}.

Record AutomationPayload := { ap_agent_id : jsstr; ap_pending : list Proposal }.

Record AuditRow := {
  ar_timestamp : option jsstr;
  ar_action_type : option jsstr;
  ar_tool : option jsstr;
  ar_verdict : option jsstr;
  ar_reason : option jsstr;
  ar_rationale : option jsstr
}.

(** [counts] keeps its key order, which the verdict chart shows. *)
Record AuditPayload := {
  au_agent_id : jsstr;
  au_counts : list (jsstr * Z);
  au_recent : list AuditRow
}.

(** [to?: string | string[]]. *)
Inductive recipients := ToOne (s : jsstr) | ToMany (l : list jsstr).

Record PendingAction := {
  pa_type : option jsstr;
  pa_server : option jsstr;
  pa_tool : option jsstr;
  pa_args : option (gmap jsstr json);
  pa_argv : option (list jsstr);
  pa_to : option recipients;
  pa_subject : option jsstr
}.

Record ApprovalItem := {
  ai_id : Z;
  ai_reason : jsstr;
  ai_status : jsstr;
  ai_created_at : jsstr;
  ai_action : json                  (* the whole object; its typed view is [action_of] of [Work] *)
}.

Record ApprovalsPayload := {
  apl_agent_id : jsstr;
  apl_pending : list ApprovalItem;
  apl_approved : option Z;
  apl_rejected : option Z
}.

Record ConfigPayload := { cfg_agent_id : jsstr; cfg_files : gmap jsstr jsstr }.

Record TriggerResult := { tr_run_id : jsstr; tr_thread_id : jsstr }.

Inductive knowledge_doc := Soul | Project.

Record KnowledgePayload := {
  kp_doc : knowledge_doc;
  kp_raw_mode : bool;
  kp_fields : gmap jsstr jsstr;
  kp_raw : jsstr
}.

Record SkillEntry := { sk_name : jsstr; sk_description : jsstr; sk_selected : bool }.
Record SkillsPayload := { sp_skills : list SkillEntry }.

Record CompanyDoc := { cd_slug : jsstr; cd_title : jsstr; cd_updated : jsstr; cd_body : jsstr }.

Record DocEntry := { de_slug : jsstr; de_title : jsstr; de_selected : bool }.
Record AgentCompanyDocsPayload := { acd_docs : list DocEntry }.

Record Pack := {
  pk_id : jsstr;
  pk_name : jsstr;
  pk_report_kinds : list jsstr;
  pk_servers : list jsstr
}.

Record PacksPayload := { pp_packs : list Pack }.

Record SlackBinding := {
  sb_report_channel : option jsstr;
  sb_stakeholder_channel : option jsstr;
  sb_external_channels : option (list jsstr)
}.

Record ConfluenceBinding := {
  cb_space_key : option jsstr;
  cb_space_id : option jsstr;
  cb_okr_page_id : option jsstr
}.

(** [jira?.project_key?] and [github?.repo?]: the object and its field are both optional. *)
Record CreateAgentBindings := {
  b_jira : option (option jsstr);
  b_confluence : option ConfluenceBinding;
  b_github : option (option jsstr);
  b_slack : option SlackBinding
}.

Record CreateAgentSpec := {
  sp_id : jsstr;
  sp_name : jsstr;
  sp_domain : jsstr;
  sp_reports : list jsstr;
  sp_schedule : list (jsstr * jsstr);             (* in insertion order *)
  sp_bindings : CreateAgentBindings;
  sp_persona : option jsstr;
  sp_web_search : option bool
}.

Record CreateAgentResult := { cr_id : jsstr; cr_domain : jsstr; cr_reports : list jsstr }.

Record CompanyPayload := {
  co_name : jsstr;
  co_coordinator_id : option jsstr;
  co_team_task_cap_usd : num;
  co_team_task_concurrency : option Z;
  co_team_task_auto_confirm : option bool
}.

Record StaffOption := { so_id : jsstr; so_domain : jsstr }.
Record AssignStaffPayload := { asp_staff : list StaffOption }.

Inductive room_status := DangChay | Ket | Xong.

Record Workroom := {
  wr_room_id : jsstr;
  wr_title : jsstr;
  wr_task_count : Z;
  wr_status : room_status;
  wr_updated_at : jsstr
}.

Record WorkroomsPayload := { wp_rooms : list Workroom }.

Inductive chat_intent := IntentQuestion | IntentAdjust | IntentNewTask.

Record RoomChatPayload := {
  rc_intent : chat_intent;
  rc_reply : option jsstr;
  rc_preview_text : option jsstr;
  rc_task_id : option jsstr;
  rc_plan_hash : option jsstr;
  rc_pic_id : option jsstr;
  rc_amendment_id : option jsstr;
  rc_auto_confirmed : option bool
}.

Record RoomArtifactStep := {
  rs_step_id : jsstr;
  rs_title : jsstr;
  rs_assigned_to : jsstr;
  rs_status : jsstr;
  rs_seq : Z;
  rs_step_type : jsstr
}.

Record RoomArtifactTask := {
  rt_task_id : jsstr;
  rt_title : jsstr;
  rt_pic_id : jsstr;
  rt_status : jsstr;
  rt_steps : list RoomArtifactStep
}.

Record RoomArtifactsPayload := { rap_tasks : list RoomArtifactTask }.

Record StepArtifactPayload := {
  sa_task_id : jsstr;
  sa_step_title : jsstr;
  sa_result_text : jsstr;
  sa_attempt : jsstr;
  sa_self_check_failed : bool
}.

Inductive health_reason := ReasonNone | ReasonNoCoordinator | ReasonNoHeartbeat | ReasonStale.

Record CoordinatorHealthPayload := {
  ch_alive : bool;
  ch_last_beat_ago_s : option num;
  ch_reason : health_reason
}.

Record AssignPreviewPayload := {
  pv_preview_text : jsstr;
  pv_task_id : jsstr;
  pv_plan_hash : jsstr;
  pv_pic_id : jsstr;
  pv_auto_confirmed : bool
}.

Record StaffTemplate := {
  tm_role_id : jsstr;
  tm_role : jsstr;
  tm_domain : jsstr;
  tm_reports : list jsstr;
  tm_bindings_hint : list jsstr;
  tm_persona : jsstr;
  tm_web_search : bool
}.

Record StaffTemplatesPayload := { tp_templates : list StaffTemplate }.

Record UnregisteredProfile := {
  up_id : jsstr;
  up_name : jsstr;
  up_domain : jsstr;
  up_valid : bool;
  up_error : option jsstr
}.

Record UnregisteredProfilesPayload := { upp_profiles : list UnregisteredProfile }.

Record EnabledResult := {
  er_agent_id : jsstr;
  er_enabled : bool;
  er_effective_enabled : bool
}.

Record DeleteAgentResult := {
  dr_agent_id : jsstr;
  dr_deleted : bool;
  dr_profile_dir_kept : bool
}.

Record IntegrationCheck := {
  ic_id : jsstr;
  ic_label : jsstr;
  ic_ok : bool;
  ic_detail : jsstr;
  ic_hint : jsstr
}.

Record IntegrationHealthPayload := { ih_checks : list IntegrationCheck; ih_checked_at : num }.

Inductive alert_kind :=
| AlertBudget | AlertApprovalStuck | AlertDenySpike | AlertMissedSchedule | AlertFailing.
Inductive alert_severity := SevWarn | SevHigh.

Record TeamAlert := {
  al_kind : alert_kind;
  al_agent_id : jsstr;
  al_message : jsstr;
  al_severity : alert_severity
}.

Record TeamAlertsPayload := { tap_alerts : list TeamAlert }.

Record OpsChatAvailable := {
  oa_available : bool;
  oa_agent_id : option jsstr;
  oa_reason : option jsstr
}.

Record OpsChatReply := { or_reply : jsstr; or_agent_id : jsstr }.

Record TaskHistoryEntry := { th_ts : jsstr; th_summary : jsstr; th_cost_usd : option num }.

Inductive task_kind := TaskWatch | TaskReport | TaskQa.
Inductive task_status := TaskOpen | TaskRunning | TaskDone | TaskCancelled | TaskStalled.

Record AssignedTask := {
  at_id : Z;
  at_kind : task_kind;
  at_params : gmap jsstr json;
  at_status : task_status;
  at_created_at : jsstr;
  at_assigned_by : jsstr;
  at_history : list TaskHistoryEntry
}.

Record AgentTasks := { ag_agent_id : jsstr; ag_tasks : list AssignedTask }.

Record TasksPayload := { tsp_agents : list AgentTasks }.

(** ** The office event stream *)

(** The seven kinds of the union; [KOther] is a string outside it, which the payload cast does
    not exclude and the [default] branches handle. *)
Inductive OfficeEventKind :=
| KCeo | KAssignment | KStepStatus | KHandoff | KMilestone | KConsult | KReview
| KOther (name : jsstr).

Inductive review_verdict := VPassed | VNeedsRework.

Record OfficeEventBody := Body {
  ob_text : option jsstr;
  ob_task_title : option jsstr;
  ob_step_title : option jsstr;
  ob_step_count : option Z;
  ob_summary : option jsstr;
  ob_status : option jsstr;
  ob_message : option jsstr;
  ob_milestone : option jsstr;
  ob_assigned_to : option jsstr;
  ob_phase : option jsstr;
  ob_attempt_id : option jsstr;
  ob_from : option jsstr;
  ob_to : option jsstr;
  ob_question_summary : option jsstr;
  ob_answer_summary : option jsstr;
  ob_verdict : option review_verdict;
  ob_failure_count : option Z;
  ob_pic : option jsstr;
  ob_task_id : option jsstr
}.

Record OfficeMessage := Msg {
  om_seq : Z;
  om_ts : jsstr;
  om_author : jsstr;
  om_kind : OfficeEventKind;
  om_body : OfficeEventBody
}.

Record OfficeRoomsPayload := { orp_rooms : list jsstr }.

#[global] Instance kind_eq_dec : EqDecision OfficeEventKind.
Proof. solve_decision. Defined.

(** The body with no field. *)
Definition empty_body : OfficeEventBody :=
  Body None None None None None None None None None None None None None None None None None
       None None.
