(* ===== verification/Labels.v ===== *)
(** Labels and schedules: labels.ts and components/ScheduleBuilder.tsx.  Lookup of Vietnamese
    labels, the text of a cron expression, and the builder that writes cron expressions from a
    time and a set of week days. *)

From stdpp Require Import sorting.
From S2P Require Import Prelude JsNumber React.

(** ** labels.ts *)

Definition RUN_STATUS_LABEL : gmap jsstr jsstr := list_to_map [
  ("delivered", "đã gửi");
  ("not_delivered", "chưa gửi");
  ("error", "lỗi");
  ("load_error", "lỗi cấu hình");
  ("interrupted", "chờ duyệt");
  ("no_mentions", "không có câu hỏi mới");
  ("no_tasks", "không có việc");
  ("no_new_alerts", "không có cảnh báo mới");
  ("bootstrapped", "đã khởi tạo");
  ("writes_disabled", "ghi bị tắt")].

Definition KIND_LABEL : gmap jsstr jsstr := list_to_map [
  ("daily", "Báo cáo hằng ngày");
  ("weekly", "Báo cáo tuần");
  ("okr", "Báo cáo OKR");
  ("resource", "Báo cáo nhân sự & chi phí");
  ("inbox", "Trả lời câu hỏi");
  ("tasks", "Việc đã giao");
  ("ops-alerts", "Cảnh báo đội");
  ("project-rollup", "Tổng quan dự án");
  ("cost-rollup", "Chi phí toàn đội");
  ("guardrail-health", "Sức khoẻ rào chắn");
  ("audit-digest", "Nhật ký hoạt động")].

Definition VERDICT_LABEL : gmap jsstr jsstr := list_to_map [
  ("allow", "đã chạy");
  ("deny", "bị chặn");
  ("pending", "chờ duyệt");
  ("reject", "đã từ chối");
  ("dry_run", "chạy thử");
  ("skipped", "bỏ qua")].

Definition AUDIENCE_LABEL : gmap jsstr jsstr := list_to_map [
  ("internal", "nội bộ");
  ("external", "đối ngoại")].

Definition labelFor (m : gmap jsstr jsstr) (key : option jsstr) : jsstr :=
  match key with
  | None | Some [] => "—"
  | Some k => nullish (m !! k) k
  end.

(** The host's date parsing and the vi-VN rendering of an instant in the host's time zone:
    [None] for a string that is no date. *)
Class Locale := { locale_datetime : jsstr → option jsstr }.

Definition formatDateTime `{Locale} (iso : option jsstr) : jsstr :=
  match iso with
  | None | Some [] => ""
  | Some i => nullish (locale_datetime i) ""
  end.

Definition CRON_DAYS : list jsstr :=
  ["Chủ nhật"; "Thứ 2"; "Thứ 3"; "Thứ 4"; "Thứ 5"; "Thứ 6"; "Thứ 7"].

(** [_CRON_DAYS[Number(d) % 7]]. *)
Definition cron_day (d : jsstr) : option jsstr :=
  i ← num_index (num_rem (num_of_str d) 7); CRON_DAYS !! i.

Definition formatCron (cron : option jsstr) : jsstr :=
  match cron with
  | None => "chạy thủ công"
  | Some c =>
      if negb (truthy (trim c)) then "chạy thủ công" else
      match split_ws (trim c) with
      | [min; hour; _; _; dow] =>
          let h := num_of_str hour in
          let m := num_of_str min in
          if num_is_nan h || num_is_nan m then c else
          let time := cat [pad_start0 2 (num_str h); ":"; pad_start0 2 (num_str m)] in
          if bool_decide (dow = "*") then cat [time; " mỗi ngày"] else
          let days := join ", " (filter truthy (omap cron_day (split_on 44 dow))) in
          if truthy days then cat [time; " "; days] else cat [time; " ("; c; ")"]
      | _ => c
      end
  end.

(** A host that shows dates as they are sent, for concrete runs. *)
Definition plain_locale : Locale := {| locale_datetime := λ s, Some s |}.

(** ** ScheduleBuilder.tsx *)

Definition DAYS : list (jsstr * Z) :=
  [("CN", 0); ("T2", 1); ("T3", 2); ("T4", 3); ("T5", 4); ("T6", 5); ("T7", 6)].

Definition buildCron (time : jsstr) (days : list Z) : option jsstr :=
  match days with
  | [] => None
  | _ =>
      let parts := split_on 58 time in
      let hour := num_of_opt (parts !! 0%nat) in
      let minute := num_of_opt (parts !! 1%nat) in
      if num_is_nan hour || num_is_nan minute then None
      else
        let dow := join "," (map z_str (merge_sort Z.le days)) in
        Some (cat [num_str minute; " "; num_str hour; " * * "; dow])
  end.

(** The component's local state; every handler reports the new cron to its parent. *)
Record SchedState := { sc_time : jsstr; sc_days : list Z }.

Definition sched_init : SchedState := {| sc_time := "09:00"; sc_days := [] |}.

Inductive SchedEvent := ToggleDay (value : Z) | HandleTime (next : jsstr).

Definition toggle_days (value : Z) (days : list Z) : list Z :=
  if bool_decide (value ∈ days) then filter (λ d, d ≠ value) days else days ++ [value].

(** The new local state and the argument of [onChange]. *)
Definition sched_handle (e : SchedEvent) (s : SchedState) : SchedState * option jsstr :=
  match e with
  | ToggleDay v =>
      let next := toggle_days v (sc_days s) in
      ({| sc_time := sc_time s; sc_days := next |}, buildCron (sc_time s) next)
  | HandleTime next =>
      ({| sc_time := next; sc_days := sc_days s |}, buildCron next (sc_days s))
  end.

Definition ScheduleBuilder (kind : jsstr) (s : SchedState) : list (node SchedEvent) :=
  let cron := buildCron (sc_time s) (sc_days s) in
  [El "div" [AStr "className" "schedule-builder"] [
    El "div" [AStr "className" "schedule-builder-days"]
      (map (λ d : jsstr * Z, El "label" [] [
        El "input" [AStr "type" "checkbox";
                    ABool "checked" (bool_decide (d.2 ∈ sc_days s));
                    AOn (OnCheck (λ _, ToggleDay d.2))] [];
        Txt " "; Txt d.1]) DAYS);
    El "label" [] [
      Txt "Giờ:"; Txt " ";
      El "input" [AStr "type" "time"; AStr "value" (sc_time s);
                  AOn (OnText HandleTime);
                  AStr "aria-label" (cat [kind; " schedule time"])] []];
    El "p" [AStr "className" "schedule-builder-when"] [Txt (formatCron cron)];
    El "p" [AStr "className" "muted schedule-builder-cron"] [
      Txt "cron: "; Txt (nullish cron "manual only (no days selected)")]]].

(** ** Theorems *)

(** The two-digit text of an hour or a minute, as a time input gives it, and the name of a
    week day. *)
Definition two_digits (n : Z) : jsstr := pad_start0 2 (z_str n).
Definition day_name (d : Z) : jsstr := nullish (CRON_DAYS !! Z.to_nat d) "".
Definition week : list Z := [0; 1; 2; 3; 4; 5; 6].

(** The days of the week that [days] holds, in week order. *)
Definition in_week_order (days : list Z) : list Z := filter (λ d, d ∈ days) week.

Lemma merge_sort_week days :
  NoDup days → Forall (λ d, 0 <= d < 7) days → merge_sort Z.le days = in_week_order days.
Proof.
  intros Hnd Hr. apply (StronglySorted_unique Z.le).
  - apply (StronglySorted_merge_sort Z.le).
  - assert (StronglySorted Z.le week) as Hw
      by (repeat constructor; repeat (apply Forall_cons; split); try lia; constructor).
    unfold in_week_order. clear Hnd Hr. induction Hw as [|x l Hs IH Hx]; [constructor|].
    rewrite filter_cons. case_decide; [|done]. constructor; [done|].
    rewrite Forall_forall in Hx |- *. intros y Hy.
    apply Hx. apply list_elem_of_filter in Hy. naive_solver.
  - rewrite merge_sort_Permutation. apply NoDup_Permutation; [done|..].
    + apply NoDup_filter. unfold week. repeat constructor; set_solver.
    + intros x. unfold in_week_order. rewrite list_elem_of_filter. split; [|naive_solver].
      intros Hx. split; [done|]. rewrite Forall_forall in Hr. specialize (Hr x Hx). cbn in Hr.
      assert (x = 0 ∨ x = 1 ∨ x = 2 ∨ x = 3 ∨ x = 4 ∨ x = 5 ∨ x = 6) as Hc by lia.
      unfold week. set_solver.
Qed.

(** What the day field of a built cron reads back as, checked on all the sets of days. *)
Definition dow_ok (l : list Z) : bool :=
  let dow := join "," (map z_str l) in
  let names := join ", " (map day_name l) in
  bool_decide (token dow) && negb (bool_decide (dow = "*")) && truthy names
  && bool_decide (join ", " (filter truthy (omap cron_day (split_on 44 dow))) = names).

Lemma dow_ok_week days : in_week_order days ≠ [] → dow_ok (in_week_order days) = true.
Proof.
  unfold in_week_order, week. rewrite !filter_cons, filter_nil.
  repeat case_decide; intros Hn; try done; vm_compute; reflexivity.
Qed.

(** An hour or a minute: reading its two-digit text gives a number that prints as the
    canonical numeral, which reads back as a number with the same two-digit text. *)
Definition clock_ok (n : Z) : bool :=
  let x := num_of_str (two_digits n) in
  let y := num_of_str (num_str x) in
  negb (num_is_nan x) && negb (num_is_nan y)
  && bool_decide (pad_start0 2 (num_str y) = two_digits n)
  && bool_decide (token (num_str x)) && bool_decide (no_unit 58 (two_digits n)).

Lemma clock_ok_60 n : 0 <= n < 60 → clock_ok n = true.
Proof. intros H. apply (forall_range_spec 0 60 clock_ok); [vm_compute; reflexivity|lia]. Qed.

(** A five-field cron of tokens is split into its fields. *)
Lemma formatCron_fields min hour dom mon dow :
  Forall token [min; hour; dom; mon; dow] →
  num_is_nan (num_of_str hour) = false → num_is_nan (num_of_str min) = false →
  let c := join " " [min; hour; dom; mon; dow] in
  let time := cat [pad_start0 2 (num_str (num_of_str hour)); ":";
                   pad_start0 2 (num_str (num_of_str min))] in
  formatCron (Some c) =
    if bool_decide (dow = "*") then cat [time; " mỗi ngày"] else
    let days := join ", " (filter truthy (omap cron_day (split_on 44 dow))) in
    if truthy days then cat [time; " "; days] else cat [time; " ("; c; ")"].
Proof.
  intros Ht Hh Hm c time. unfold formatCron.
  assert (trim c = c) as -> by (by apply trimmed_join).
  assert (split_ws c = [min; hour; dom; mon; dow]) as -> by (by apply split_ws_join).
  assert (truthy c = true) as ->.
  { inversion Ht as [|? ? [Hn _]]; subst. unfold c. destruct min; done. }
  by rewrite Hh, Hm.
Qed.

(** C40: the schedule the builder writes is the schedule the label describes.  For every clock
    time of a time input and every non-empty set of week days, in whatever order they were
    ticked, the text of the cron expression [buildCron] makes is the two-digit time followed by
    the names of exactly those days, in week order. *)
Theorem schedule_roundtrip h m days :
  0 <= h < 24 → 0 <= m < 60 → NoDup days → Forall (λ d, 0 <= d < 7) days → days ≠ [] →
  ∃ cron, buildCron (cat [two_digits h; ":"; two_digits m]) days = Some cron ∧
    formatCron (Some cron)
    = cat [two_digits h; ":"; two_digits m; " "; join ", " (map day_name (in_week_order days))].
Proof.
  intros Hh Hm Hnd Hr Hne.
  pose proof (clock_ok_60 h ltac:(lia)) as Ch. pose proof (clock_ok_60 m ltac:(lia)) as Cm.
  unfold clock_ok in Ch, Cm. rewrite !andb_true_iff, !negb_true_iff, !bool_decide_eq_true in Ch, Cm.
  destruct Ch as [[[[Ch1 Ch2] Ch3] Ch4] Ch5], Cm as [[[[Cm1 Cm2] Cm3] Cm4] Cm5].
  pose proof (merge_sort_week days Hnd Hr) as Hs.
  assert (in_week_order days ≠ []) as Hw.
  { rewrite <- Hs. intros E. pose proof (merge_sort_Permutation Z.le days) as P.
    rewrite E in P. by apply Permutation_nil_l in P. }
  pose proof (dow_ok_week days Hw) as D. unfold dow_ok in D.
  rewrite !andb_true_iff, negb_true_iff, !bool_decide_eq_true, bool_decide_eq_false in D.
  destruct D as [[[Dt Dne] Dn] Dd].
  eexists. split.
  - unfold buildCron. destruct days as [|d0 days0]; [done|]. rewrite Hs.
    assert (split_on 58 (cat [two_digits h; ":"; two_digits m]) = [two_digits h; two_digits m]) as ->.
    { unfold cat; cbn [concat]. rewrite app_nil_r.
      change (":"%js ++ ?x) with (58 :: x). rewrite split_on_app by done.
      by rewrite split_on_none. }
    cbn [lookup list_lookup num_of_opt]. rewrite Ch1, Cm1. reflexivity.
  - set (dow := join "," (map z_str (in_week_order days))) in *.
    replace (cat [num_str (num_of_str (two_digits m)); " "; num_str (num_of_str (two_digits h));
                  " * * "; dow])
      with (join " " [num_str (num_of_str (two_digits m)); num_str (num_of_str (two_digits h));
                      "*"; "*"; dow]) by (unfold cat; cbn [join concat]; by rewrite app_nil_r).
    rewrite formatCron_fields; [|repeat (constructor; [done || (vm_compute; split; [done|repeat constructor])|]); constructor|done|done].
    rewrite bool_decide_eq_false_2 by done. cbv zeta. rewrite Dd, Dn.
    unfold cat; cbn [concat]. rewrite Ch3, Cm3, !app_nil_r, <- !app_assoc. done.
Qed.

Lemma schedule_roundtrip_witness :
  ∃ cron, buildCron "09:05" [3; 1; 0] = Some cron ∧
    formatCron (Some cron) = "09:05 Chủ nhật, Thứ 2, Thứ 4".
Proof.
  destruct (schedule_roundtrip 9 5 [3; 1; 0]) as (cron & H1 & H2);
    [lia|lia|repeat constructor; set_solver|repeat constructor; lia|done|].
  exists cron. split; [exact H1|]. rewrite H2. vm_compute. reflexivity.
Defined.

(** the text of a cron expression does not depend on its day-of-month and month fields.
    Whenever the week-day field is a star and hour and minute are numbers, the text says that
    the job runs every day, so a monthly or yearly job is shown as a daily one. *)
Theorem formatCron_ignores_date min hour dom mon :
  Forall token [min; hour; dom; mon] →
  num_is_nan (num_of_str hour) = false → num_is_nan (num_of_str min) = false →
  formatCron (Some (join " " [min; hour; dom; mon; "*"])) =
  cat [pad_start0 2 (num_str (num_of_str hour)); ":";
       pad_start0 2 (num_str (num_of_str min)); " mỗi ngày"].
Proof.
  intros Ht Hh Hm. rewrite formatCron_fields; [|by apply (Forall_app_2 _ [_;_;_;_]); [|repeat constructor]|done|done].
  rewrite bool_decide_eq_true_2 by done. unfold cat; cbn [concat].
  by rewrite !app_nil_r, <- !app_assoc.
Qed.

Lemma formatCron_ignores_date_witness :
  formatCron (Some "0 9 1 1 *") = "09:00 mỗi ngày".
Proof.
  change (Some (js _)) with (Some (join " " ["0"; "9"; "1"; "1"; "*"])).
  rewrite (formatCron_ignores_date "0" "9" "1" "1"); [vm_compute; reflexivity| |done|done].
  repeat (constructor; [by vm_compute; split; [done|repeat constructor]|]); constructor.
Defined.
