(* ===== verification/ActionSummary.v ===== *)
(** The trust surface (action-summary.ts): the Vietnamese line a proposed action is approved
    under, and whether the action leaves the organisation. *)

From S2P Require Import Prelude JsNumber React Types.

Record ActionSummary := { su_text : jsstr; su_external : bool }.

Definition s_arg (action : PendingAction) (key : jsstr) : jsstr :=
  match pa_args action ≫= (λ m, m !! key) with
  | None | Some JNull => ""
  | Some v => js_String v
  end.

(** [Canonicalize] of the [i] flag, on ASCII and Latin-1 letters: all that can match the
    letters of the marker pattern below. *)
Definition canon (c : Z) : Z :=
  if (97 <=? c) && (c <=? 122) then c - 32
  else if (224 <=? c) && (c <=? 254) && negb (c =? 247) then c - 32
  else c.
Definition test_i (word subject : jsstr) : bool := includes (map canon word) (map canon subject).

(** [/external|stakeholder|ra ngoài/i.test(reason)]. *)
Definition external_marker (reason : jsstr) : bool :=
  test_i "external" reason || test_i "stakeholder" reason || test_i "ra ngoài" reason.

(** [/^\d+$/]. *)
Definition all_digits (a : jsstr) : bool :=
  truthy a && forallb (λ c, (48 <=? c) && (c <=? 57)) a.

Definition internal (t : jsstr) : ActionSummary := {| su_text := t; su_external := false |}.
Definition leaving (t : jsstr) : ActionSummary := {| su_text := t; su_external := true |}.

Definition unknown : jsstr := "(chưa rõ)".

Definition recipients_text (to : option recipients) : jsstr :=
  match to with
  | Some (ToMany l) => join ", " l
  | Some (ToOne x) => x
  | None => ""
  end.

Definition summarize_email (action : PendingAction) : ActionSummary :=
  let to := recipients_text (pa_to action) in
  let subject := nullish (pa_subject action) "" in
  leaving (cat ["Gửi email tới "; js_or to unknown;
                if truthy subject then cat [": "; subject] else ""]).

Definition argv_head (action : PendingAction) : jsstr :=
  join " " (take 3 (nullish (pa_argv action) [])).

Definition summarize_gh (action : PendingAction) : ActionSummary :=
  let argv := map to_lower (nullish (pa_argv action) []) in
  let fallback := internal (cat ["Lệnh GitHub: "; js_or (argv_head action) unknown]) in
  if bool_decide (argv !! 0%nat = Some ("pr" : jsstr)) then
    let num := nullish (pa_argv action ≫= List.find all_digits) "?" in
    if memb "merge" argv then internal (cat ["Gộp (merge) PR #"; num])
    else if memb "close" argv then internal (cat ["Đóng PR #"; num])
    else if memb "ready" argv then
      internal (cat ["Chuyển PR #"; num; " sang sẵn sàng review"])
    else fallback
  else fallback.

Definition summarize_mcp (action : PendingAction) (reason : jsstr) : ActionSummary :=
  let server := to_lower (nullish (pa_server action) "") in
  let tool := to_lower (nullish (pa_tool action) "") in
  let eqs (a b : jsstr) := bool_decide (a = b) in
  if eqs server "jira" && eqs tool "createissue" then
    internal (cat ["Tạo ticket Jira '"; js_or (s_arg action "summary") unknown;
                   "' trong dự án "; js_or (s_arg action "projectKey") unknown])
  else if eqs server "jira" && eqs tool "closeissue" then
    internal (cat ["Đóng issue Jira "; s_arg action "issueKey"])
  else if eqs server "jira" && eqs tool "transitionissue" then
    internal (cat ["Chuyển trạng thái issue Jira "; s_arg action "issueKey"])
  else if eqs server "jira" && eqs tool "assignissue" then
    internal (cat ["Giao issue Jira "; s_arg action "issueKey"])
  else if eqs server "confluence" && eqs tool "createpage" then
    internal (cat ["Tạo trang Confluence '"; js_or (s_arg action "title") unknown; "'"])
  else if eqs server "slack" && (eqs tool "post_message" || eqs tool "postmessage") then
    let channel := js_or (s_arg action "channel") unknown in
    if external_marker reason
    then leaving (cat ["⚠️ Đăng tin RA NGOÀI, tới kênh Slack "; channel])
    else internal (cat ["Đăng tin vào kênh Slack "; channel])
  else if eqs server "linear" && eqs tool "createcomment" then
    let issue := js_or (s_arg action "issueId") (s_arg action "issueKey") in
    internal (if truthy issue then cat ["Bình luận issue Linear "; issue]
              else "Bình luận trên Linear")
  else internal (cat ["Hành động "; nullish (pa_server action) "?"; " · ";
                      nullish (pa_tool action) "?"]).

Definition summarizeAction (action : PendingAction) (reason : jsstr) : ActionSummary :=
  let type := to_lower (nullish (pa_type action) "") in
  if bool_decide (type = "email_send") then summarize_email action
  else if bool_decide (type = "gh_cli") then summarize_gh action
  else if bool_decide (type = "mcp_tool") then summarize_mcp action reason
  else if bool_decide (type = "telegram_send") then internal "Gửi tin nhắn Telegram"
  else
    let hint := js_or (nullish (pa_tool action) "") (js_or (nullish (pa_server action) "")
                  (js_or (nullish (pa_type action) "") (argv_head action))) in
    internal (cat ["Hành động: "; js_or hint "(không rõ loại)"]).

(** ** Theorems *)

(** The action is an e-mail; the action is a message posted to Slack. *)
Definition is_email (a : PendingAction) : Prop :=
  to_lower (nullish (pa_type a) "") = "email_send".
Definition is_slack_post (a : PendingAction) : Prop :=
  to_lower (nullish (pa_type a) "") = "mcp_tool" ∧
  to_lower (nullish (pa_server a) "") = "slack" ∧
  (to_lower (nullish (pa_tool a) "") = "post_message" ∨
   to_lower (nullish (pa_tool a) "") = "postmessage").

Lemma lit_app_ne (l : list Byte.byte) t x : js l = x :: t → ∀ r, js l ++ r ≠ [].
Proof. by intros ->. Qed.

(** Decides the tests of the summary one by one, discarding the branches in which two
    different literals are equal. *)
Ltac split_tests :=
  repeat first
    [ progress cbn [andb orb negb su_text su_external internal leaving]
    | case_bool_decide; simplify_eq
    | case_match ].

Lemma summarize_gh_internal a : su_external (summarize_gh a) = false.
Proof. unfold summarize_gh. by repeat case_match. Qed.

Lemma summarize_mcp_slack a reason :
  is_slack_post a →
  summarize_mcp a reason =
    let channel := js_or (s_arg a "channel") unknown in
    if external_marker reason
    then leaving (cat ["⚠️ Đăng tin RA NGOÀI, tới kênh Slack "; channel])
    else internal (cat ["Đăng tin vào kênh Slack "; channel]).
Proof.
  intros (_ & Hs & Ht). unfold summarize_mcp. cbv zeta. rewrite Hs.
  destruct Ht as [-> | ->]; reflexivity.
Qed.

Lemma summarize_mcp_external a reason :
  su_external (summarize_mcp a reason) = true →
  to_lower (nullish (pa_server a) "") = "slack" ∧
  (to_lower (nullish (pa_tool a) "") = "post_message" ∨
   to_lower (nullish (pa_tool a) "") = "postmessage") ∧ external_marker reason = true.
Proof.
  unfold summarize_mcp. cbv zeta.
  set (sv := to_lower (nullish (pa_server a) "")). set (tl := to_lower (nullish (pa_tool a) "")).
  repeat case_match; try done; cbn [su_external internal] in *; try done; intros _.
  all: rewrite ?andb_true_iff, ?orb_true_iff, ?bool_decide_eq_true in *; naive_solver.
Qed.

(** C27: an action is announced as leaving the organisation exactly when it is an e-mail, or a
    Slack post whose reason carries the external marker; type, server and tool are read
    case-insensitively. *)
Theorem external_iff a reason :
  su_external (summarizeAction a reason) = true ↔
  is_email a ∨ (is_slack_post a ∧ external_marker reason = true).
Proof.
  unfold summarizeAction, is_email. cbv zeta. split.
  - case_bool_decide as E1; [by left|].
    case_bool_decide as E2; [by rewrite summarize_gh_internal|].
    case_bool_decide as E3; [|by case_match].
    intros H. right. apply summarize_mcp_external in H as (H1 & H2 & H3).
    by split.
  - intros [H|[H Hm]].
    + rewrite bool_decide_eq_true_2 by done. done.
    + pose proof H as (Ht & _). rewrite !Ht.
      rewrite bool_decide_eq_false_2, bool_decide_eq_false_2, bool_decide_eq_true_2
        by (vm_compute; done).
      rewrite summarize_mcp_slack by done. cbv zeta. by rewrite Hm.
Qed.

(** C28: the summary never hides the destination and is never blank.  Every recipient of an
    e-mail and the channel of a Slack post occur in the text the operator approves, and every
    action, known or not, has a non-empty text. *)
Theorem summary_shows_destination a reason :
  su_text (summarizeAction a reason) ≠ [] ∧
  (is_email a → ∀ l r, pa_to a = Some (ToMany l) → r ∈ l →
     includes r (su_text (summarizeAction a reason)) = true) ∧
  (is_email a → ∀ r, pa_to a = Some (ToOne r) →
     includes r (su_text (summarizeAction a reason)) = true) ∧
  (is_slack_post a → s_arg a "channel" ≠ [] →
     includes (s_arg a "channel") (su_text (summarizeAction a reason)) = true).
Proof.
  assert (∀ r to, (∃ x y, recipients_text to = x ++ r ++ y) → to = pa_to a → is_email a →
    includes r (su_text (summarizeAction a reason)) = true) as Hmail.
  { intros r to (x & y & E) Hto Hm. unfold summarizeAction. cbv zeta.
    rewrite bool_decide_eq_true_2 by done. unfold summarize_email. rewrite <- Hto.
    destruct (truthy (recipients_text to)) eqn:Et.
    - unfold js_or. rewrite Et. unfold cat; cbn [su_text leaving concat]. rewrite E.
      rewrite <- !app_assoc, app_assoc. apply includes_app.
    - destruct (recipients_text to); [|done]. symmetry in E.
      apply app_nil in E as [-> E]. apply app_nil in E as [-> _].
      destruct (su_text _); done. }
  split_and!.
  - unfold summarizeAction, summarize_email, summarize_gh, summarize_mcp. cbv zeta.
    repeat case_match; cbn [su_text internal leaving]; (eapply lit_app_ne; vm_compute; reflexivity) || done.
  - intros Hm l r Hto Hr. apply (Hmail r (Some (ToMany l))); [|done|done].
    destruct (join_elem ", " r l Hr) as (x & y & E). by exists x, y.
  - intros Hm r Hto. apply (Hmail r (Some (ToOne r))); [|done|done].
    exists [], []. cbn. by rewrite app_nil_r.
  - intros Hs Hc. pose proof Hs as (Ht & _). unfold summarizeAction. cbv zeta. rewrite !Ht.
    rewrite bool_decide_eq_false_2, bool_decide_eq_false_2, bool_decide_eq_true_2
      by (vm_compute; done).
    rewrite summarize_mcp_slack by done. cbv zeta.
    assert (truthy (s_arg a "channel") = true) as Hc' by (by apply truthy_spec).
    unfold js_or, cat. rewrite Hc'. case_match; cbn [su_text internal leaving concat];
      apply includes_app.
Qed.

Definition mail_action : PendingAction :=
  {| pa_type := Some "EMAIL_SEND"; pa_server := None; pa_tool := None; pa_args := None;
     pa_argv := None; pa_to := Some (ToMany ["a@x.vn"; "b@y.vn"]); pa_subject := Some "Q3" |}.

Lemma summary_shows_destination_witness :
  su_text (summarizeAction mail_action "") = "Gửi email tới a@x.vn, b@y.vn: Q3" ∧
  includes "b@y.vn" (su_text (summarizeAction mail_action "")) = true.
Proof.
  split; [vm_compute; reflexivity|].
  destruct (summary_shows_destination mail_action "") as (_ & H & _ & _).
  apply (H ltac:(vm_compute; reflexivity) ["a@x.vn"; "b@y.vn"]); [reflexivity|].
  right. left.
Defined.
