(* ===== verification/OfficeState.v ===== *)
(** The office event reducer (views/office-3d/agent-office-state.ts): desk states derived from
    the ordered message stream of the office room.

    The code keeps a [Map] of mutable desk objects; here the map is a finite map and an
    assignment to a field of a desk object is an update of its entry, so that the two ends of a
    consultation (which may be one desk) are the entries the code aliases. *)

From S2P Require Import Prelude JsNumber Types.

Inductive AgentState := Idle | Assigned | Working | Done.

#[global] Instance AgentState_eq_dec : EqDecision AgentState.
Proof. solve_decision. Defined.

Record AgentDeskState := Desk {
  d_id : jsstr;
  d_state : AgentState;
  d_taskTitle : option jsstr;
  d_stepTitle : option jsstr;
  d_phase : option jsstr;
  d_attemptId : option jsstr;
  d_consultWith : option jsstr;
  d_picTasks : gset jsstr
}.

Abbreviation desk_map := (gmap jsstr AgentDeskState).

Definition nextState (prev : AgentState) (status : option jsstr) : AgentState :=
  match status with
  | Some st =>
      if bool_decide (st = "started") then Working
      else if bool_decide (st = "failed") then Idle
      else prev
  | None => prev
  end.

Definition new_desk (id : jsstr) : AgentDeskState :=
  Desk id Idle None None None None None ∅.

(** [ensure(id)]: the map holding the desk, and the desk. *)
Definition ensure (id : jsstr) (ds : desk_map) : desk_map * AgentDeskState :=
  match ds !! id with
  | Some d => (ds, d)
  | None => (<[id := new_desk id]> ds, new_desk id)
  end.

Definition set_consult (v : option jsstr) (d : AgentDeskState) : AgentDeskState :=
  Desk (d_id d) (d_state d) (d_taskTitle d) (d_stepTitle d) (d_phase d) (d_attemptId d) v
       (d_picTasks d).
Definition set_pics (v : gset jsstr) (d : AgentDeskState) : AgentDeskState :=
  Desk (d_id d) (d_state d) (d_taskTitle d) (d_stepTitle d) (d_phase d) (d_attemptId d)
       (d_consultWith d) v.
Definition set_live (st : AgentState) (task step phase attempt : option jsstr)
    (d : AgentDeskState) : AgentDeskState :=
  Desk (d_id d) st task step phase attempt (d_consultWith d) (d_picTasks d).

(** [a ?? b] on two nullable strings. *)
Definition coalesce (a b : option jsstr) : option jsstr :=
  match a with Some x => Some x | None => b end.

(** [endConsult(d)] for the desk stored under [id]. *)
Definition endConsult (id : jsstr) (ds : desk_map) : desk_map :=
  match ds !! id with
  | None => ds
  | Some d =>
      let ds' :=
        match present (d_consultWith d) with
        | Some c =>
            match ds !! c with
            | Some partner =>
                if bool_decide (d_consultWith partner = Some (d_id d))
                then <[c := set_consult None partner]> ds else ds
            | None => ds
            end
        | None => ds
        end in
      alter (set_consult None) id ds'
  end.

(** The [step_status] updates of the assignee's desk, [None] when the event is dropped as one
    of a stale attempt. *)
Definition step_desk (b : OfficeEventBody) (d : AgentDeskState) : option AgentDeskState :=
  let incoming := ob_attempt_id b in
  let started := bool_decide (ob_status b = Some ("started" : jsstr)) in
  let upd (phase attempt : option jsstr) :=
    set_live (nextState (if bool_decide (d_state d = Idle) then Assigned else d_state d)
                        (ob_status b))
             (coalesce (ob_task_title b) (d_taskTitle d))
             (coalesce (ob_step_title b) (d_stepTitle d))
             (coalesce (ob_phase b) phase) attempt d in
  if negb (truthy_opt incoming) && started then Some (upd None None)
  else if truthy_opt incoming && truthy_opt (d_attemptId d)
          && negb (bool_decide (incoming = d_attemptId d)) then None
  else if truthy_opt incoming then Some (upd (d_phase d) incoming)
  else Some (upd (d_phase d) (d_attemptId d)).

(** The desk updates of [handoff] and [review]. *)
Definition deliver_desk (b : OfficeEventBody) (d : AgentDeskState) : AgentDeskState :=
  set_live Done (coalesce (ob_task_title b) (d_taskTitle d))
           (coalesce (ob_step_title b) (d_stepTitle d)) (d_phase d) (d_attemptId d) d.

Definition deliver (id : jsstr) (b : OfficeEventBody) (ds : desk_map) : desk_map :=
  alter (deliver_desk b) id (endConsult id (fst (ensure id ds))).

(** One iteration of the loop of [deriveAgentDesks]. *)
Definition desk_step (ds : desk_map) (m : OfficeMessage) : desk_map :=
  let b := om_body m in
  match om_kind m with
  | KAssignment =>
      match present (ob_pic b), present (ob_task_id b) with
      | Some p, Some t =>
          alter (λ d, set_pics ({[t]} ∪ d_picTasks d) d) p (fst (ensure p ds))
      | _, _ => ds
      end
  | KStepStatus =>
      match present (ob_assigned_to b) with
      | Some p =>
          alter (λ d, default d (step_desk b d)) p (endConsult p (fst (ensure p ds)))
      | None => ds
      end
  | KHandoff => deliver (nullish (ob_assigned_to b) (om_author m)) b ds
  | KMilestone =>
      match present (ob_task_id b) with
      | Some t =>
          if bool_decide (ob_milestone b = Some ("done" : jsstr))
          then (λ d, set_pics (d_picTasks d ∖ {[t]}) d) <$> ds else ds
      | None => ds
      end
  | KReview => deliver (nullish (ob_assigned_to b) (om_author m)) b ds
  | KConsult =>
      let ds1 :=
        match present (ob_from b) with
        | Some f => alter (set_consult (ob_to b)) f (fst (ensure f ds))
        | None => ds
        end in
      match present (ob_to b) with
      | Some t => alter (set_consult (ob_from b)) t (fst (ensure t ds1))
      | None => ds1
      end
  | KCeo | KOther _ => ds
  end.

Definition deriveAgentDesks (messages : list OfficeMessage) : desk_map :=
  foldl desk_step ∅ messages.

Definition shouldShowBubble (d : AgentDeskState) : bool :=
  bool_decide (d_state d = Assigned) || bool_decide (d_state d = Working)
  || match d_consultWith d with Some _ => true | None => false end.

(** The [add] closure of [agentIdsInOrder]: a falsy or already seen id is skipped. *)
Definition add_id (seen : list jsstr) (id : option jsstr) : list jsstr :=
  match present id with
  | Some i => if memb i seen then seen else seen ++ [i]
  | None => seen
  end.

Definition ids_step (seen : list jsstr) (m : OfficeMessage) : list jsstr :=
  let b := om_body m in
  match om_kind m with
  | KStepStatus => add_id seen (ob_assigned_to b)
  | KHandoff | KReview => add_id seen (Some (nullish (ob_assigned_to b) (om_author m)))
  | KConsult => add_id (add_id seen (ob_from b)) (ob_to b)
  | KAssignment => add_id seen (ob_pic b)
  | KMilestone | KCeo | KOther _ => seen
  end.

Definition agentIdsInOrder (messages : list OfficeMessage) : list jsstr :=
  foldl ids_step [] messages.

(** ** Views of one desk *)

(** What the map says of desk [x] through a projection, with the value of a fresh desk when
    [x] has none. *)
Definition look {A} (P : AgentDeskState → A) (ds : desk_map) (x : jsstr) : A :=
  P (default (new_desk x) (ds !! x)).

(** The part of a desk that step events, hand-offs and reviews write. *)
Definition live_part (d : AgentDeskState) :
    AgentState * option jsstr * option jsstr * option jsstr * option jsstr :=
  (d_state d, d_taskTitle d, d_stepTitle d, d_phase d, d_attemptId d).

(** The desk whose live part a message writes. *)
Definition target (m : OfficeMessage) : option jsstr :=
  let b := om_body m in
  match om_kind m with
  | KStepStatus => present (ob_assigned_to b)
  | KHandoff | KReview => Some (nullish (ob_assigned_to b) (om_author m))
  | _ => None
  end.

(** A step event of another attempt than [a]. *)
Definition foreign (a : jsstr) (m : OfficeMessage) : Prop :=
  om_kind m = KStepStatus ∧
  ∃ a', ob_attempt_id (om_body m) = Some a' ∧ a' ≠ [] ∧ a' ≠ a.

(** A dispatch of desk [x]: status [started] and no attempt id. *)
Definition dispatches (x : jsstr) (m : OfficeMessage) : Prop :=
  om_kind m = KStepStatus ∧ x ≠ [] ∧ ob_assigned_to (om_body m) = Some x ∧
  ob_status (om_body m) = Some ("started" : jsstr) ∧
  truthy_opt (ob_attempt_id (om_body m)) = false.

(** A step event of attempt [a] on desk [x]. *)
Definition reports (x a : jsstr) (m : OfficeMessage) : Prop :=
  om_kind m = KStepStatus ∧ x ≠ [] ∧ ob_assigned_to (om_body m) = Some x ∧
  a ≠ [] ∧ ob_attempt_id (om_body m) = Some a.

(** The assignment of task [t] to PIC [x], and the completion of task [t]. *)
Definition assigns (x t : jsstr) (m : OfficeMessage) : Prop :=
  om_kind m = KAssignment ∧ x ≠ [] ∧ t ≠ [] ∧
  ob_pic (om_body m) = Some x ∧ ob_task_id (om_body m) = Some t.
Definition completes (t : jsstr) (m : OfficeMessage) : Prop :=
  om_kind m = KMilestone ∧ t ≠ [] ∧
  ob_milestone (om_body m) = Some ("done" : jsstr) ∧ ob_task_id (om_body m) = Some t.

(** ** Lemmas *)

Section Look.
Context {A : Type} (P : AgentDeskState → A).

Lemma look_ensure k ds x : look P (fst (ensure k ds)) x = look P ds x.
Proof.
  unfold ensure, look. destruct (ds !! k) eqn:E; cbn; [done|].
  destruct (decide (k = x)) as [->|Hne]; by simplify_map_eq.
Qed.

Lemma look_alter_ne f k ds x : k ≠ x → look P (alter f k ds) x = look P ds x.
Proof. intros H. unfold look. by rewrite lookup_alter_ne. Qed.

Lemma look_alter_same f k ds x :
  (∀ d, P (f d) = P d) → look P (alter f k ds) x = look P ds x.
Proof.
  intros H. unfold look. destruct (decide (k = x)) as [->|Hne].
  - rewrite lookup_alter_eq. by destruct (ds !! x); cbn.
  - by rewrite lookup_alter_ne.
Qed.

Lemma look_endConsult k ds x :
  (∀ v d, P (set_consult v d) = P d) → look P (endConsult k ds) x = look P ds x.
Proof.
  intros H. unfold endConsult. destruct (ds !! k) as [d|]; [|done].
  rewrite look_alter_same by done.
  destruct (present (d_consultWith d)) as [c|]; [|done].
  destruct (ds !! c) as [q|] eqn:Eq; [|done]. case_bool_decide; [|done].
  unfold look. destruct (decide (c = x)) as [<-|?].
  - rewrite lookup_insert_eq, Eq. apply H.
  - by rewrite lookup_insert_ne.
Qed.

Lemma look_fmap f (ds : desk_map) x :
  (∀ d, P (f d) = P d) → look P (f <$> ds) x = look P ds x.
Proof. intros H. unfold look. rewrite lookup_fmap. by destruct (ds !! x); cbn. Qed.
End Look.

(** [alter] at a key that [ensure] has just created, seen from its own desk. *)
Lemma look_alter_eq {A} (P : AgentDeskState → A) f k ds :
  is_Some (ds !! k) → look P (alter f k ds) k = look (P ∘ f) ds k.
Proof. intros [d H]. unfold look. rewrite lookup_alter_eq, H. done. Qed.

Lemma ensure_some k ds : is_Some (fst (ensure k ds) !! k).
Proof. unfold ensure. destruct (ds !! k) eqn:E; cbn; [by rewrite E|]. rewrite lookup_insert_eq. eauto. Qed.

Lemma endConsult_dom k ds x : is_Some (endConsult k ds !! x) ↔ is_Some (ds !! x).
Proof.
  unfold endConsult. destruct (ds !! k) as [d|]; [|done].
  rewrite lookup_alter_is_Some. destruct (present (d_consultWith d)) as [c|]; [|done].
  destruct (ds !! c) as [q|] eqn:Eq; [|done]. case_bool_decide; [|done].
  rewrite lookup_insert_is_Some'. split; [intros [<-|?]; eauto|eauto].
Qed.

Lemma endConsult_ensure_some k ds : is_Some (endConsult k (fst (ensure k ds)) !! k).
Proof. apply endConsult_dom, ensure_some. Qed.

#[local] Hint Resolve ensure_some endConsult_ensure_some : core.
#[local] Hint Rewrite @look_ensure : look.

Lemma derive_app ms es :
  deriveAgentDesks (ms ++ es) = foldl desk_step (deriveAgentDesks ms) es.
Proof. apply foldl_app. Qed.

Lemma derive_snoc ms m :
  deriveAgentDesks (ms ++ [m]) = desk_step (deriveAgentDesks ms) m.
Proof. by rewrite derive_app. Qed.

(** A message that does not write the live part of desk [x] keeps it. *)
Lemma live_other x ds m :
  target m ≠ Some x → look live_part (desk_step ds m) x = look live_part ds x.
Proof.
  intros H. unfold desk_step, target, deliver in *. destruct (om_kind m); try done.
  - repeat case_match; try done. by rewrite look_alter_same, look_ensure.
  - destruct (present (ob_assigned_to (om_body m))) as [p|]; [|done].
    rewrite look_alter_ne by congruence. by rewrite look_endConsult, look_ensure.
  - rewrite look_alter_ne by congruence. by rewrite look_endConsult, look_ensure.
  - repeat case_match; try done. by rewrite look_fmap.
  - repeat case_match; try done; by rewrite ?look_alter_same, ?look_ensure,
      ?look_alter_same, ?look_ensure.
  - rewrite look_alter_ne by congruence. by rewrite look_endConsult, look_ensure.
Qed.

(** What a step event makes of the live part of its own desk. *)
Definition live_step (b : OfficeEventBody)
    (l : AgentState * option jsstr * option jsstr * option jsstr * option jsstr) :=
  let '(st, t, s, p, a) := l in
  live_part (default (Desk [] st t s p a None ∅) (step_desk b (Desk [] st t s p a None ∅))).

Lemma live_step_spec b d : live_part (default d (step_desk b d)) = live_step b (live_part d).
Proof. unfold live_step, step_desk; cbn. by repeat case_match. Qed.

Lemma live_step_event x ds m :
  om_kind m = KStepStatus → x ≠ [] → ob_assigned_to (om_body m) = Some x →
  look live_part (desk_step ds m) x = live_step (om_body m) (look live_part ds x).
Proof.
  intros Hk Hx Ha. unfold desk_step. rewrite Hk.
  rewrite (proj2 (present_spec (ob_assigned_to (om_body m)) x)) by done.
  rewrite look_alter_eq by apply endConsult_ensure_some.
  transitivity (look (live_step (om_body m) ∘ live_part)
                     (endConsult x (fst (ensure x ds))) x).
  { unfold look. apply live_step_spec. }
  by rewrite look_endConsult, look_ensure.
Qed.

(** A foreign event leaves a live part whose attempt is set. *)
Lemma live_step_foreign b a a' l :
  ob_attempt_id b = Some a' → a' ≠ [] → a ≠ [] → a' ≠ a → snd l = Some a → live_step b l = l.
Proof.
  destruct l as [[[[st t] s0] p] q]. cbn. intros Hi Ha' Ha Hne ->.
  unfold live_step, step_desk. rewrite Hi. cbn.
  assert (truthy a = true) as -> by by apply truthy_spec.
  assert (truthy a' = true) as -> by by apply truthy_spec.
  cbn. rewrite bool_decide_eq_false_2 by congruence. done.
Qed.

(** A dispatch clears attempt and phase; a report is adopted when no attempt is tracked. *)
Lemma live_step_dispatch b st t s0 p a :
  ob_status b = Some ("started" : jsstr) → truthy_opt (ob_attempt_id b) = false →
  live_step b (st, t, s0, p, a) =
    (Working, coalesce (ob_task_title b) t, coalesce (ob_step_title b) s0, ob_phase b, None).
Proof.
  intros Hs Hi. unfold live_step, step_desk. rewrite Hi, Hs.
  rewrite bool_decide_eq_true_2 by done. cbn [negb andb default live_part set_live].
  unfold nextState. rewrite bool_decide_eq_true_2 by done.
  destruct (ob_phase b); done.
Qed.

Lemma live_step_adopt b a t s0 p :
  ob_attempt_id b = Some a → a ≠ [] →
  live_step b (Working, t, s0, p, None) =
    (nextState Working (ob_status b), coalesce (ob_task_title b) t,
     coalesce (ob_step_title b) s0, coalesce (ob_phase b) p, Some a).
Proof.
  intros Hi Ha. unfold live_step, step_desk. rewrite Hi.
  assert (truthy_opt (Some a) = true) as -> by (by destruct a).
  done.
Qed.

Lemma present_id x : x ≠ [] → present (Some x) = Some x.
Proof. by destruct x. Qed.

Lemma pics_step x t ds m :
  t ∈ look d_picTasks (desk_step ds m) x ↔
  assigns x t m ∨ (t ∈ look d_picTasks ds x ∧ ¬ completes t m).
Proof.
  unfold assigns, completes, desk_step, deliver. destruct m as [sq ts au k b]; cbn.
  destruct k; cbn.
  - naive_solver.
  - destruct (present (ob_pic b)) as [p|] eqn:Ep.
    2: { assert (∀ y, ob_pic b = Some y → y = []) by (intros y Hy; destruct y; [done|];
           rewrite Hy in Ep; done). naive_solver. }
    destruct (present (ob_task_id b)) as [u|] eqn:Eu.
    2: { assert (∀ y, ob_task_id b = Some y → y = []) by (intros y Hy; destruct y; [done|];
           rewrite Hy in Eu; done). naive_solver. }
    apply present_spec in Ep as [Ep Hp], Eu as [Eu Hu]. rewrite Ep, Eu.
    destruct (decide (p = x)) as [->|Hne].
    + rewrite look_alter_eq by apply ensure_some.
      rewrite (look_ensure ((d_picTasks) ∘ _)). unfold look at 1; cbn.
      change (d_picTasks (default (new_desk x) (ds !! x))) with (look d_picTasks ds x).
      rewrite elem_of_union, elem_of_singleton. naive_solver.
    + rewrite look_alter_ne by done. rewrite look_ensure. naive_solver.
  - destruct (present (ob_assigned_to b)); [|naive_solver].
    rewrite look_alter_same.
    { rewrite look_endConsult, look_ensure by done. naive_solver. }
    intros d. unfold step_desk. by repeat case_match.
  - rewrite look_alter_same, look_endConsult, look_ensure by done. naive_solver.
  - destruct (present (ob_task_id b)) as [u|] eqn:Eu.
    2: { assert (∀ y, ob_task_id b = Some y → y = []) by (intros y Hy; destruct y; [done|];
           rewrite Hy in Eu; done). naive_solver. }
    apply present_spec in Eu as [Eu Hu]. rewrite Eu. case_bool_decide as Hd; [|naive_solver].
    unfold look. rewrite lookup_fmap. destruct (ds !! x) as [d|]; cbn; [|set_solver].
    rewrite elem_of_difference, elem_of_singleton. naive_solver.
  - destruct (present (ob_to b)); destruct (present (ob_from b));
      rewrite ?look_alter_same, ?look_ensure, ?look_alter_same, ?look_ensure by done;
      naive_solver.
  - rewrite look_alter_same, look_endConsult, look_ensure by done. naive_solver.
  - naive_solver.
Qed.

(** ** Consultations *)

(** Every desk is stored under its own id. *)
Definition keyed (ds : desk_map) : Prop := ∀ x, look d_id ds x = x.

Lemma keyed_step ds m : keyed ds → keyed (desk_step ds m).
Proof.
  intros H x. rewrite <- (H x) at 2. unfold desk_step, deliver.
  destruct (om_kind m); try done; repeat case_match; try done;
    rewrite ?look_fmap, ?look_alter_same, ?look_endConsult, ?look_ensure, ?look_alter_same,
      ?look_ensure; try done.
  intros d. unfold step_desk. by repeat case_match.
Qed.

Lemma keyed_derive ms : keyed (deriveAgentDesks ms).
Proof.
  unfold deriveAgentDesks. assert (keyed ∅) as H by done. revert H.
  generalize (∅ : desk_map). induction ms as [|m ms IH]; intros ds H; [done|].
  cbn. apply IH. by apply keyed_step.
Qed.

Abbreviation consults := (look d_consultWith).

Lemma consults_cleared (ds : desk_map) k : consults (alter (set_consult None) k ds) k = None.
Proof. unfold look. rewrite lookup_alter_eq. by destruct (ds !! k). Qed.

Lemma consults_endConsult ds k z :
  keyed ds →
  consults (endConsult k ds) z =
    if decide (z = k) then None
    else if decide (present (consults ds k) = Some z ∧ consults ds z = Some k) then None
    else consults ds z.
Proof.
  intros Hk. unfold endConsult. destruct (ds !! k) as [d|] eqn:Ed.
  2: { assert (consults ds k = None) as Hn by (unfold look; by rewrite Ed). rewrite Hn.
       case_decide as E1; [by subst|]. case_decide; naive_solver. }
  assert (consults ds k = d_consultWith d) as -> by (unfold look; by rewrite Ed).
  assert (d_id d = k) as -> by (specialize (Hk k); unfold look in Hk; by rewrite Ed in Hk).
  case_decide as E1; [subst z|].
  { apply consults_cleared. }
  rewrite look_alter_ne by done. destruct (present (d_consultWith d)) as [c|] eqn:Ec.
  2: { case_decide; naive_solver. }
  destruct (ds !! c) as [q|] eqn:Eq.
  2: { case_decide as E2; [|done]. destruct E2 as [[= ->] E2]. unfold look in E2.
       by rewrite Eq in E2. }
  assert (consults ds c = d_consultWith q) as Ecq by (unfold look; by rewrite Eq).
  case_bool_decide as E3.
  - destruct (decide (c = z)) as [<-|Hcz].
    + rewrite decide_True by (by rewrite Ecq). unfold look. by rewrite lookup_insert_eq.
    + rewrite decide_False by naive_solver. unfold look. by rewrite lookup_insert_ne.
  - rewrite decide_False; [done|]. intros [[= ->] E2]. by rewrite Ecq in E2.
Qed.

(** The consultations after an event written to desk [k]. *)
Lemma consults_target ds m k z :
  keyed ds → target m = Some k →
  consults (desk_step ds m) z =
    if decide (z = k) then None
    else if decide (present (consults ds k) = Some z ∧ consults ds z = Some k) then None
    else consults ds z.
Proof.
  intros Hk Ht.
  assert (keyed (fst (ensure k ds))) as Hk' by (intros y; by rewrite look_ensure).
  assert (∀ f, (∀ d, d_consultWith (f d) = d_consultWith d) →
    consults (alter f k (endConsult k (fst (ensure k ds)))) z =
    if decide (z = k) then None
    else if decide (present (consults ds k) = Some z ∧ consults ds z = Some k) then None
    else consults ds z) as H.
  { intros f Hf. rewrite look_alter_same, consults_endConsult, !look_ensure by done. done. }
  unfold target, desk_step, deliver in *. destruct (om_kind m); try done.
  - rewrite Ht. apply H. intros d. unfold step_desk. by repeat case_match.
  - injection Ht as Ht. rewrite Ht. by apply H.
  - injection Ht as Ht. rewrite Ht. by apply H.
Qed.

(** The consultation of [f] and [t] by message [m]. *)
Definition consultation (f t : jsstr) (m : OfficeMessage) : Prop :=
  om_kind m = KConsult ∧ f ≠ [] ∧ t ≠ [] ∧
  ob_from (om_body m) = Some f ∧ ob_to (om_body m) = Some t.

Lemma consults_consultation ds m f t z :
  consultation f t m →
  consults (desk_step ds m) z =
    if decide (z = t) then Some f else if decide (z = f) then Some t else consults ds z.
Proof.
  intros (Hk & Hf & Ht & Ef & Et). unfold desk_step. rewrite Hk, Ef, Et.
  rewrite !present_id by done. case_decide as E1; [subst z|].
  - rewrite look_alter_eq by apply ensure_some. done.
  - rewrite look_alter_ne by done. rewrite look_ensure. case_decide as E2; [subst z|].
    + by rewrite look_alter_eq by apply ensure_some.
    + rewrite look_alter_ne by done. by rewrite look_ensure.
Qed.

(** A message of another kind that writes no desk keeps the consultations. *)
Lemma consults_other ds m z :
  target m = None → om_kind m ≠ KConsult → consults (desk_step ds m) z = consults ds z.
Proof.
  unfold target, desk_step. intros H Hk. destruct (om_kind m); try done.
  - repeat case_match; try done. by rewrite look_alter_same, look_ensure.
  - by rewrite H.
  - repeat case_match; try done. by rewrite look_fmap.
Qed.

(** ** The ids of the stream and the desks of the map *)

(** The desks a message creates. *)
Definition makes (m : OfficeMessage) (x : jsstr) : Prop :=
  let b := om_body m in
  match om_kind m with
  | KAssignment => present (ob_pic b) = Some x ∧ is_Some (present (ob_task_id b))
  | KStepStatus => present (ob_assigned_to b) = Some x
  | KHandoff | KReview => nullish (ob_assigned_to b) (om_author m) = x
  | KConsult => present (ob_from b) = Some x ∨ present (ob_to b) = Some x
  | KMilestone | KCeo | KOther _ => False
  end.

Lemma ensure_dom k ds x : is_Some (fst (ensure k ds) !! x) ↔ is_Some (ds !! x) ∨ k = x.
Proof.
  unfold ensure. destruct (ds !! k) eqn:E; cbn.
  - split; [eauto|]. intros [?|<-]; [done|by rewrite E].
  - rewrite lookup_insert_is_Some'. naive_solver.
Qed.

Lemma desk_step_dom ds m x :
  is_Some (desk_step ds m !! x) ↔ is_Some (ds !! x) ∨ makes m x.
Proof.
  unfold desk_step, makes, deliver. destruct (om_kind m).
  - naive_solver.
  - destruct (present (ob_pic _)), (present (ob_task_id _)); try (unfold is_Some; naive_solver).
    rewrite lookup_alter_is_Some, ensure_dom. unfold is_Some. naive_solver.
  - destruct (present _); [|naive_solver].
    rewrite lookup_alter_is_Some, endConsult_dom, ensure_dom. naive_solver.
  - rewrite lookup_alter_is_Some, endConsult_dom, ensure_dom. naive_solver.
  - repeat case_match; rewrite ?lookup_fmap, ?fmap_is_Some; naive_solver.
  - destruct (present (ob_from _)), (present (ob_to _));
      rewrite ?lookup_alter_is_Some, ?ensure_dom, ?lookup_alter_is_Some, ?ensure_dom; naive_solver.
  - rewrite lookup_alter_is_Some, endConsult_dom, ensure_dom. naive_solver.
  - naive_solver.
Qed.

Lemma derive_dom ms x :
  is_Some (deriveAgentDesks ms !! x) ↔ ∃ m, m ∈ ms ∧ makes m x.
Proof.
  induction ms as [|m ms IH] using rev_ind.
  - cbn. rewrite lookup_empty. split; [intros [? ?]; done|set_solver].
  - rewrite derive_snoc, desk_step_dom, IH. set_solver.
Qed.

Lemma elem_add_id l o x : x ∈ add_id l o ↔ x ∈ l ∨ present o = Some x.
Proof.
  unfold add_id. destruct (present o) as [i|]; [|naive_solver].
  unfold memb. case_bool_decide; set_solver.
Qed.

(** The ids a message adds. *)
Definition names (m : OfficeMessage) (x : jsstr) : Prop :=
  x ≠ [] ∧ (makes m x ∨ (om_kind m = KAssignment ∧ ob_pic (om_body m) = Some x)).

Lemma elem_ids_step l m x : x ∈ ids_step l m ↔ x ∈ l ∨ names m x.
Proof.
  unfold ids_step, names, makes. destruct (om_kind m); rewrite ?elem_add_id, ?present_spec;
    naive_solver.
Qed.

Lemma elem_ids ms x : x ∈ agentIdsInOrder ms ↔ ∃ m, m ∈ ms ∧ names m x.
Proof.
  unfold agentIdsInOrder. induction ms as [|m ms IH] using rev_ind; [set_solver|].
  rewrite foldl_app. cbn [foldl]. rewrite elem_ids_step, IH. set_solver.
Qed.

Lemma NoDup_add_id l o : NoDup l → NoDup (add_id l o).
Proof.
  unfold add_id, memb. intros H. destruct (present o); [|done]. case_bool_decide; [done|].
  apply NoDup_app. split_and!; [done|set_solver|by apply NoDup_singleton].
Qed.

Lemma NoDup_ids ms : NoDup (agentIdsInOrder ms).
Proof.
  unfold agentIdsInOrder. induction ms as [|m ms IH] using rev_ind; [constructor|].
  rewrite foldl_app. cbn [foldl]. revert IH. generalize (foldl ids_step [] ms). intros l H.
  unfold ids_step. destruct (om_kind m); auto using NoDup_add_id.
Qed.

(** ** Sample messages, for concrete instances *)

Definition step_event (seq : Z) (who : jsstr) (status phase attempt : option jsstr) :
    OfficeMessage :=
  Msg seq "t" "coordinator" KStepStatus
    (Body None (Some "Demo") (Some "S1") None None status None None (Some who) phase attempt
       None None None None None None None None).
Definition consult_event (seq : Z) (f t : jsstr) : OfficeMessage :=
  Msg seq "t" f KConsult
    (Body None None None None None None None None None None None (Some f) (Some t)
       None None None None None None).

(** An orderly stream: every consultation names two desks neither of which is consulting a
    third one at that point. *)
Fixpoint orderly (ds : desk_map) (ms : list OfficeMessage) : Prop :=
  match ms with
  | [] => True
  | m :: r =>
      (om_kind m = KConsult →
       ∃ f t, consultation f t m ∧
         (∀ y, consults ds f = Some y → y = t) ∧ (∀ y, consults ds t = Some y → y = f)) ∧
      orderly (desk_step ds m) r
  end.

(** Consultation is mutual, and only desks with an id take part. *)
Definition mutual (ds : desk_map) : Prop :=
  ∀ x y, consults ds x = Some y → x ≠ [] ∧ y ≠ [] ∧ consults ds y = Some x.

Lemma mutual_step ds m :
  keyed ds → mutual ds → orderly ds [m] → mutual (desk_step ds m).
Proof.
  intros Hk Hm [Ho _] x y. destruct (decide (om_kind m = KConsult)) as [E|E].
  - destruct (Ho E) as (f & t & Hc & Hf & Ht). pose proof Hc as (_ & Hnf & Hnt & _).
    rewrite !(consults_consultation ds m f t) by done. intros H.
    destruct (decide (x = t)) as [->|Hxt]; [simplify_eq; by repeat case_decide; simplify_eq|].
    destruct (decide (x = f)) as [->|Hxf]; [simplify_eq; by rewrite decide_True|].
    destruct (Hm x y H) as (Hx & Hy & Hxy).
    rewrite !decide_False; [done|by intros ->; apply Hxt; auto|by intros ->; apply Hxf; auto].
  - destruct (target m) as [k|] eqn:Et.
    + rewrite !(consults_target ds m k) by done. intros H.
      destruct (decide (x = k)) as [|Hxk]; [done|].
      destruct (decide (present (consults ds k) = Some x ∧ consults ds x = Some k)) as [|Hn];
        [done|].
      destruct (Hm x y H) as (Hx & Hy & Hxy).
      rewrite decide_False by (intros ->; apply Hn; by rewrite Hxy, present_id).
      rewrite decide_False; [done|]. intros [_ Hyk]. rewrite Hxy in Hyk. by simplify_eq.
    + rewrite !(consults_other ds m) by done. apply Hm.
Qed.

Lemma mutual_foldl ds ms :
  keyed ds → mutual ds → orderly ds ms → mutual (foldl desk_step ds ms).
Proof.
  revert ds. induction ms as [|m ms IH]; intros ds Hk Hm Ho; [done|].
  destruct Ho as [H1 H2]. cbn. apply IH; [by apply keyed_step| |done].
  apply mutual_step; [done|done|by split].
Qed.

(** ** Theorems *)

(** C26: events of a stale attempt never overwrite the live one.  While a desk tracks attempt
    [a], no sequence of step events carrying other attempt ids, interleaved with events of any
    other desk, changes the state, titles, phase or attempt the desk shows. *)
Theorem stale_attempts_dropped ms es x a :
  a ≠ [] → d_attemptId (look id (deriveAgentDesks ms) x) = Some a →
  Forall (λ m, target m ≠ Some x ∨ foreign a m) es →
  look live_part (deriveAgentDesks (ms ++ es)) x = look live_part (deriveAgentDesks ms) x.
Proof.
  intros Ha Hat. rewrite derive_app. revert Hat. generalize (deriveAgentDesks ms). clear ms.
  induction es as [|m es IH]; intros ds Hat Hes; [done|].
  inversion Hes as [|? ? Hm Hr]; subst. cbn [foldl].
  assert (look live_part (desk_step ds m) x = look live_part ds x) as E.
  { destruct (decide (target m = Some x)) as [Ht|Ht]; [|by apply live_other].
    destruct Hm as [?|(Hk & a' & Hi & Hn & Hne)]; [done|].
    pose proof Ht as Ht'. unfold target in Ht'. rewrite Hk in Ht'.
    apply present_spec in Ht' as [Ht' Hx]. rewrite live_step_event by done.
    by apply (live_step_foreign _ a a'). }
  rewrite IH; [done| |done]. change (snd (look live_part (desk_step ds m) x) = Some a).
  by rewrite E.
Qed.

Lemma stale_attempts_dropped_witness :
  let ms := [step_event 1 "pm" (Some "started") None None;
             step_event 2 "pm" None (Some "dang-lam") (Some "a2")] in
  let es := [step_event 3 "pm" (Some "failed") (Some "tu-soat") (Some "a1");
             step_event 4 "qa" (Some "started") None None] in
  look live_part (deriveAgentDesks (ms ++ es)) "pm" = look live_part (deriveAgentDesks ms) "pm".
Proof.
  intros ms es. apply (stale_attempts_dropped ms es "pm" "a2");
    [done|vm_compute; reflexivity|].
  constructor; [right; split; [done|]; by exists "a1"|].
  constructor; [left; done|constructor].
Defined.

(** after a dispatch the first attempt that reports owns the desk.  The dispatch clears
    attempt and phase and shows the desk working; the first step event with an attempt id is
    adopted whatever that id is, and events of every other attempt are then dropped.  The code
    cannot tell a late event of the superseded attempt from the new attempt here. *)
Theorem dispatch_adopts_first ms m1 m2 es x a :
  dispatches x m1 → reports x a m2 → Forall (λ m, target m ≠ Some x ∨ foreign a m) es →
  let d := look id (deriveAgentDesks (ms ++ m1 :: m2 :: es)) x in
  d_attemptId d = Some a ∧
  d_phase d = coalesce (ob_phase (om_body m2)) (ob_phase (om_body m1)) ∧
  d_state d = nextState Working (ob_status (om_body m2)).
Proof.
  intros (Hk1 & Hx & Ha1 & Hs1 & Hi1) (Hk2 & _ & Ha2 & Ha & Hi2) Hes.
  assert (∃ t s0, look live_part (deriveAgentDesks (ms ++ [m1; m2])) x =
    (nextState Working (ob_status (om_body m2)), t, s0,
     coalesce (ob_phase (om_body m2)) (ob_phase (om_body m1)), Some a)) as (t & s0 & E).
  { rewrite derive_app. cbn [foldl]. rewrite !live_step_event by done.
    destruct (look live_part (deriveAgentDesks ms) x) as [[[[st t] s0] p] q].
    rewrite live_step_dispatch, (live_step_adopt _ a) by done. eauto. }
  change (ms ++ m1 :: m2 :: es) with (ms ++ [m1; m2] ++ es). rewrite app_assoc.
  pose proof (stale_attempts_dropped (ms ++ [m1; m2]) es x a Ha) as H.
  assert (∀ ds, live_part (look id ds x) = look live_part ds x) as Hl by done.
  cbv zeta. revert H. generalize (deriveAgentDesks ((ms ++ [m1; m2]) ++ es)). intros ds H.
  assert (live_part (look id ds x) = look live_part (deriveAgentDesks (ms ++ [m1; m2])) x) as F.
  { apply H; [|done]. change (snd (look live_part (deriveAgentDesks (ms ++ [m1; m2])) x) = Some a).
    by rewrite E. }
  rewrite E in F. unfold live_part in F. by simplify_eq.
Qed.

Lemma dispatch_adopts_first_witness :
  let d := look id (deriveAgentDesks
    ([] ++ step_event 1 "pm" (Some "started") None None
        :: step_event 2 "pm" None (Some "dang-sua") (Some "old")
        :: [step_event 3 "pm" None (Some "dang-lam") (Some "new")])) "pm" in
  d_attemptId d = Some "old"%js ∧ d_phase d = Some "dang-sua"%js ∧ d_state d = Working.
Proof.
  apply (dispatch_adopts_first [] (step_event 1 "pm" (Some "started") None None)
    (step_event 2 "pm" None (Some "dang-sua") (Some "old"))
    [step_event 3 "pm" None (Some "dang-lam") (Some "new")] "pm" "old");
    [by split_and!|by split_and!|].
  constructor; [right; split; [done|]; by exists "new"|constructor].
Defined.

(** the PIC badge is exactly the set of running tasks.  A desk is badged with a task iff
    some assignment of the stream names it PIC of that task and no completion milestone of that
    task follows. *)
Theorem pic_badge_running ms x t :
  t ∈ d_picTasks (look id (deriveAgentDesks ms) x) ↔
  ∃ pre m post, ms = pre ++ m :: post ∧ assigns x t m ∧ Forall (λ m', ¬ completes t m') post.
Proof.
  change (t ∈ look d_picTasks (deriveAgentDesks ms) x ↔
    ∃ pre m post, ms = pre ++ m :: post ∧ assigns x t m ∧ Forall (λ m', ¬ completes t m') post).
  induction ms as [|l ms IH] using rev_ind.
  - split; [unfold look; cbn; rewrite lookup_empty; set_solver|]. intros ([|? ?] & ? & ? & ? & _); done.
  - rewrite derive_snoc, pics_step, IH. split.
    + intros [H|[(pre & m & post & -> & H1 & H2) H3]].
      * by exists ms, l, [].
      * exists pre, m, (post ++ [l]). rewrite <- app_assoc. split_and!; [done|done|].
        apply Forall_app. by split; [|constructor].
    + intros (pre & m & post & E & H1 & H2).
      destruct post as [|l' post _] using rev_ind.
      * apply app_inj_tail in E as [-> ->]. by left.
      * rewrite app_comm_cons, app_assoc in E. apply app_inj_tail in E as [-> ->].
        apply Forall_app in H2 as [H2 H3]. inversion H3; subst. right. eauto 8.
Qed.

(** in an orderly stream a consultation ends for both parties.  If no consultation starts
    while one of its two desks is consulting a third one, then as soon as either desk has an
    event of its own neither of the two shows a consultation. *)
Theorem consult_ends_for_both ms m x y :
  orderly ∅ ms → consults (deriveAgentDesks ms) x = Some y →
  target m = Some x ∨ target m = Some y →
  consults (deriveAgentDesks (ms ++ [m])) x = None ∧
  consults (deriveAgentDesks (ms ++ [m])) y = None.
Proof.
  intros Ho Hc Ht. rewrite derive_snoc.
  assert (mutual (deriveAgentDesks ms)) as Hm by by apply mutual_foldl.
  pose proof (keyed_derive ms) as Hk. revert Hm Hk Hc. generalize (deriveAgentDesks ms).
  intros ds Hm Hk Hc. destruct (Hm x y Hc) as (Hx & Hy & Hc').
  destruct Ht as [Ht|Ht]; rewrite !(consults_target ds m _ _ Hk Ht), ?Hc, ?Hc';
    rewrite ?present_id by done; split; repeat case_decide; naive_solver.
Qed.

Lemma consult_ends_for_both_witness :
  let ms := [consult_event 1 "pm" "qa"] in
  let m := step_event 2 "qa" (Some "started") None None in
  consults (deriveAgentDesks (ms ++ [m])) "pm" = None ∧
  consults (deriveAgentDesks (ms ++ [m])) "qa" = None.
Proof.
  intros ms m. apply (consult_ends_for_both ms m "pm" "qa");
    [|vm_compute; reflexivity|right; reflexivity].
  split; [|done]. intros _. exists "pm", "qa". split; [by split_and!|]. done.
Defined.

(** an interrupted consultation leaves the first colleague behind.  If a desk consults a
    second colleague while its consultation of the first is still shown, then its next event
    clears the second one only: the first keeps showing a consultation with a desk that has
    moved on. *)
Theorem consult_overlap_dangles ms a b c m1 m2 m3 :
  a ≠ b → a ≠ c → b ≠ c → consultation a b m1 → consultation a c m2 → target m3 = Some a →
  let ds := deriveAgentDesks (ms ++ [m1; m2; m3]) in
  consults ds a = None ∧ consults ds c = None ∧ consults ds b = Some a.
Proof.
  intros Hab Hac Hbc H1 H2 H3. cbv zeta. rewrite derive_app. cbn [foldl].
  pose proof (keyed_derive ms) as Hk. revert Hk. generalize (deriveAgentDesks ms). intros ds Hk.
  assert (keyed (desk_step (desk_step ds m1) m2)) as Hk' by by repeat apply keyed_step.
  pose proof H2 as (_ & _ & Hc & _).
  rewrite !(consults_target _ m3 a) by done.
  rewrite !(consults_consultation (desk_step ds m1) m2 a c) by done.
  rewrite !(consults_consultation ds m1 a b) by done.
  rewrite !(decide_True (P := a = a)), !(decide_True (P := c = c)), !(decide_True (P := b = b)),
    !(decide_False (P := c = a)), !(decide_False (P := b = a)), !(decide_False (P := b = c)),
    !(decide_False (P := a = c)) by congruence.
  rewrite present_id by done. split; [done|]. split.
  - by rewrite decide_True.
  - rewrite decide_False; [done|]. naive_solver.
Qed.

Lemma consult_overlap_dangles_witness :
  let ds := deriveAgentDesks ([] ++
    [consult_event 1 "a" "b"; consult_event 2 "a" "c"; step_event 3 "a" (Some "started") None None]) in
  consults ds "a" = None ∧ consults ds "c" = None ∧ consults ds "b" = Some "a"%js.
Proof.
  apply (consult_overlap_dangles [] "a" "b" "c"); done.
Defined.

(** the id list and the desk map agree, except for a PIC without a task.  The ids are
    distinct and non-empty; every desk with an id is listed; and a listed id has a desk unless
    the stream only names it as PIC of an assignment that carries no task id. *)
Theorem ids_agree_with_desks ms :
  NoDup (agentIdsInOrder ms) ∧ [] ∉ agentIdsInOrder ms ∧
  (∀ x, x ≠ [] → is_Some (deriveAgentDesks ms !! x) → x ∈ agentIdsInOrder ms) ∧
  (∀ x, x ∈ agentIdsInOrder ms → is_Some (deriveAgentDesks ms !! x) ∨
     ∃ m, m ∈ ms ∧ om_kind m = KAssignment ∧ ob_pic (om_body m) = Some x ∧
          present (ob_task_id (om_body m)) = None).
Proof.
  split_and!.
  - apply NoDup_ids.
  - rewrite elem_ids. unfold names. naive_solver.
  - intros x Hx. rewrite derive_dom, elem_ids. unfold names. naive_solver.
  - intros x. rewrite elem_ids, derive_dom. intros (m & Hm & Hx & [H|[Hk Hp]]); [eauto|].
    destruct (present (ob_task_id (om_body m))) eqn:E; [|eauto 10]. left. exists m.
    split; [done|]. unfold makes. rewrite Hk, Hp, present_id by done. eauto.
Qed.
