(* ===== verification/OfficeFeed.v ===== *)
(** Presentation of the office event stream: office-message-line.ts, activity-feed.tsx,
    speech-bubble.tsx, agent-status-table.tsx, desk-colors.ts, workroom-list.tsx,
    artifact-panel.tsx and the derived values of office-canvas.tsx and office-unified.tsx. *)

From S2P Require Import Prelude JsNumber React Types OfficeState.

(** ** Labels of the stream *)

Definition PHASE_LABEL : gmap jsstr jsstr := list_to_map [
  ("dang-lam", "đang làm");
  ("tu-soat", "tự soát");
  ("dang-sua", "đang sửa");
  ("nho-tro-giup", "nhờ trợ giúp")].

(** [KIND_LABEL[m.kind] ?? m.kind]. *)
Definition KIND_LABEL (k : OfficeEventKind) : jsstr :=
  match k with
  | KCeo => "CEO giao việc"
  | KAssignment => "Phân công"
  | KStepStatus => "Tiến độ bước"
  | KHandoff => "Bàn giao"
  | KMilestone => "Cột mốc"
  | KConsult => "Tham vấn"
  | KReview => "Soát chéo"
  | KOther k => k
  end.

(** [KIND_ICON[m.kind] ?? '•']. *)
Definition KIND_ICON (k : OfficeEventKind) : jsstr :=
  match k with
  | KCeo => "🗣" | KAssignment => "📋" | KStepStatus => "⚙" | KHandoff => "✅"
  | KMilestone => "🚩" | KConsult => "💬" | KReview => "🔍" | KOther _ => "•"
  end.

Definition kind_text (k : OfficeEventKind) : jsstr :=
  match k with
  | KCeo => "ceo" | KAssignment => "assignment" | KStepStatus => "step_status"
  | KHandoff => "handoff" | KMilestone => "milestone" | KConsult => "consult"
  | KReview => "review" | KOther k => k
  end.

(** [phase ? PHASE_LABEL[phase] : undefined]. *)
Definition phase_label (phase : option jsstr) : option jsstr :=
  present phase ≫= (λ p, PHASE_LABEL !! p).

Definition messageLine (m : OfficeMessage) : jsstr :=
  let b := om_body m in
  let t (o : option jsstr) := nullish o "" in
  match om_kind m with
  | KCeo => t (ob_text b)
  | KAssignment =>
      let base := cat [t (ob_task_title b); " — "; t (ob_summary b); " (";
                       z_str (nullish (ob_step_count b) 0); " bước)"] in
      let pic := t (ob_pic b) in
      if truthy pic && negb (includes (cat ["PIC: "; pic]) (t (ob_summary b)))
      then cat [base; " — PIC: "; pic] else base
  | KStepStatus =>
      let suffix := match present (phase_label (ob_phase b)) with
                    | Some l => cat [" ("; l; ")"]
                    | None => ""
                    end in
      cat [t (ob_task_title b); " / "; t (ob_step_title b); ": "; t (ob_status b); suffix]
  | KHandoff =>
      cat [t (ob_task_title b); " / "; t (ob_step_title b); ": đã bàn giao ✅ (xem cột Kết quả)"]
  | KMilestone => cat [t (ob_task_title b); ": "; t (ob_message b)]
  | KConsult =>
      cat [t (ob_from b); " hỏi "; t (ob_to b); ": "; t (ob_question_summary b); " → ";
           t (ob_answer_summary b)]
  | KReview =>
      let verdict := match ob_verdict b with
                     | Some VPassed => "đạt"
                     | _ => cat ["cần sửa ("; z_str (nullish (ob_failure_count b) 0); " lỗi)"]
                     end in
      cat [t (ob_task_title b); " / "; t (ob_step_title b); ": "; verdict]
  | KOther _ => ""
  end.

Definition FEED_TAIL : nat := 40.

Definition feedStatusClass (m : OfficeMessage) : jsstr :=
  let b := om_body m in
  match om_kind m with
  | KHandoff => "ok"
  | KReview => match ob_verdict b with Some VPassed => "ok" | _ => "danger" end
  | KStepStatus =>
      if bool_decide (ob_status b = Some ("failed" : jsstr)) then "danger"
      else if bool_decide (ob_phase b = Some ("nho-tro-giup" : jsstr)) then "pending"
      else "warn"
  | KMilestone => if bool_decide (ob_milestone b = Some ("done" : jsstr)) then "ok" else "neutral"
  | _ => "neutral"
  end.

(** ** Colors (desk-colors.ts) *)

Definition DESK_EDGE_COLOR (s : AgentState) : jsstr :=
  match s with
  | Idle => "#9aa0a6" | Assigned => "#2f6bd8" | Working => "#d97706" | Done => "#188a4c"
  end.

Definition AGENT_PALETTE : list jsstr :=
  ["#d94848"; "#2f6bd8"; "#188a4c"; "#b0529f"; "#d97706"; "#0e8f8f"; "#7a5cd6"; "#946200"].

(** The first code unit of each code point, in order: a surrogate pair is one code point. *)
Fixpoint code_point_heads (s : jsstr) : list Z :=
  match s with
  | [] => []
  | c :: r =>
      match r with
      | d :: r' =>
          if (55296 <=? c) && (c <=? 56319) && (56320 <=? d) && (d <=? 57343)
          then c :: code_point_heads r' else c :: code_point_heads r
      | [] => [c]
      end
  end.

(** [(h * 31 + c) >>> 0]. *)
Definition hash_step (h c : Z) : Z := (h * 31 + c) mod 2 ^ 32.
Definition agentHash (id : jsstr) : Z := foldl hash_step 0 (code_point_heads id).
Definition agentColor (id : jsstr) : option jsstr :=
  AGENT_PALETTE !! Z.to_nat (agentHash id mod Z.of_nat (length AGENT_PALETTE)).

(** ** The activity feed *)

Definition stream_status (errored connected : bool) (live : jsstr) : jsstr :=
  if errored then "Mất kết nối luồng — thử tải lại trang."
  else if connected then live else "Đang kết nối…".

Definition feed_entry {E} (m : OfficeMessage) : node E :=
  let who := nullish (ob_assigned_to (om_body m)) (om_author m) in
  El "li" [AStr "className" (cat ["office-room-entry office-feed-"; feedStatusClass m])] [
    El "span" [AStr "className" "office-feed-icon"; ABool "aria-hidden" true]
      [Txt (KIND_ICON (om_kind m))];
    El "span" [AStr "className" "office-room-kind"] [Txt (KIND_LABEL (om_kind m))];
    El "span" [AStr "className" "office-feed-agent"; AStr "style.color" (nullish (agentColor who) "")]
      [Txt who];
    El "p" [AStr "className" "office-room-text"] [Txt (messageLine m)]].

Definition ActivityFeed {E} (messages : list OfficeMessage) (connected errored : bool) :
    list (node E) :=
  let tail := slice_last FEED_TAIL messages in
  [El "aside" [AStr "className" "office-unified-feed"; AStr "aria-label" "Hoạt động trực tiếp"] (
    [El "p" [AStr "className" "office-room-status"]
       [Txt (stream_status errored connected "Hoạt động trực tiếp")]]
    ++ when (Nat.eqb (length tail) 0 && negb errored)
         [El "p" [AStr "className" "ops-chat-empty"] [Txt "Chưa có hoạt động nào."]]
    ++ [El "ul" [AStr "className" "office-room-log office-unified-log"] (map feed_entry tail)])].

(** ** The speech bubble and the fallback table *)

Definition SpeechBubble {E} (taskTitle stepTitle phase consultWith : option jsstr)
    (isPic : bool) : list (node E) :=
  if negb (truthy_opt taskTitle) && negb (truthy_opt consultWith) then [] else
  let line (cls : jsstr) (o : option jsstr) (f : jsstr → list (attr E) * jsstr) :=
    match present o with
    | Some v => [El "span" (AStr "className" cls :: fst (f v)) [Txt (snd (f v))]]
    | None => []
    end in
  [El "div" [AStr "className" "office-3d-bubble"] (
    when isPic [El "span" [AStr "className" "office-3d-bubble-pic"] [Txt "PIC"]]
    ++ match present taskTitle with
       | Some v => [El "strong" [AStr "title" v] [Txt v]]
       | None => []
       end
    ++ line "office-3d-bubble-step" stepTitle (λ v, ([AStr "title" v], v))
    ++ line "office-3d-bubble-phase" (phase_label phase) (λ v, ([], v))
    ++ line "office-3d-bubble-consult" consultWith
         (λ v, ([AStr "title" (cat ["Đang tham vấn "; v])], cat ["💬 "; v])))].

Definition STATE_LABEL (s : AgentState) : jsstr :=
  match s with
  | Idle => "Đang chờ" | Assigned => "Đã nhận việc"
  | Working => "Đang làm" | Done => "Vừa hoàn thành"
  end.
Definition state_text (s : AgentState) : jsstr :=
  match s with Idle => "idle" | Assigned => "assigned" | Working => "working" | Done => "done" end.

Definition status_row {E} (desks : desk_map) (id : jsstr) : node E :=
  let d := desks !! id in
  let state := match d with Some d => d_state d | None => Idle end in
  El "tr" [] [
    El "td" [AStr "data-label" "Nhân sự"] [Txt id];
    El "td" [AStr "data-label" "Trạng thái"] [
      El "span" [AStr "className" (cat ["office-3d-state office-3d-state-"; state_text state])]
        [Txt (STATE_LABEL state)]];
    El "td" [AStr "data-label" "Công việc"] [Txt (nullish (d ≫= d_taskTitle) "—")];
    El "td" [AStr "data-label" "Bước"] [Txt (nullish (d ≫= d_stepTitle) "—")]].

Definition AgentStatusTable {E} (agentIds : list jsstr) (desks : desk_map) : list (node E) :=
  [El "section" [AStr "className" "office-3d-scene"] [
    El "h2" [] [Txt "Văn phòng 3D"];
    El "p" [AStr "className" "ops-chat-hint"] [
      Txt "Chế độ bảng (thu gọn hoạt ảnh) — cùng dữ liệu trạng thái nhân sự, hiển thị dạng bảng thay vì sơ đồ 3D."];
    if Nat.eqb (length agentIds) 0
    then El "p" [AStr "className" "ops-chat-empty"]
           [Txt "Chưa có nhân sự nào xuất hiện trong dòng sự kiện."]
    else El "table" [AStr "className" "office-3d-fallback-table"] [
      El "thead" [] [El "tr" [] [
        El "th" [] [Txt "Nhân sự"]; El "th" [] [Txt "Trạng thái"];
        El "th" [] [Txt "Công việc"]; El "th" [] [Txt "Bước"]]];
      El "tbody" [] (map (status_row desks) agentIds)]]].

(** ** Derived values of the unified screen *)

(** [visibleDesks] of office-canvas.tsx. *)
Definition visibleDesks (agentIds : list jsstr) (rosterIds : option (list jsstr)) : list jsstr :=
  match rosterIds with
  | None => agentIds
  | Some l => filter (λ id, id ∈ (list_to_set l : gset jsstr)) agentIds
  end.

(** [maxSeqOf] of artifact-panel.tsx. *)
Definition maxSeqOf (messages : list OfficeMessage) (kinds : list jsstr) : Z :=
  foldl (λ mx m, Z.max mx (om_seq m)) 0
    (filter (λ m, kind_text (om_kind m) ∈ kinds) messages).

(** The staff involved in a room's events, and the ids dimmed when a room is selected. *)
Definition involved_step (s : gset jsstr) (m : OfficeMessage) : gset jsstr :=
  let b := om_body m in
  let add (o : option jsstr) (s : gset jsstr) :=
    match present o with Some x => {[x]} ∪ s | None => s end in
  add (ob_to b) (add (ob_from b) (add (ob_pic b) (add (ob_assigned_to b) s))).
Definition involved (messages : list OfficeMessage) : gset jsstr := foldl involved_step ∅ messages.
Definition dimmedIds (activeRoom : option jsstr) (roomMessages : list OfficeMessage)
    (agentIds : list jsstr) : gset jsstr :=
  match present activeRoom with
  | None => ∅
  | Some _ => list_to_set (filter (λ id, id ∉ involved roomMessages) agentIds)
  end.

(** ** The workroom list *)

Definition STATUS_BADGE (s : room_status) : jsstr :=
  match s with DangChay => "●" | Ket => "⚠" | Xong => "✓" end.
Definition room_status_text (s : room_status) : jsstr :=
  match s with DangChay => "dang-chay" | Ket => "ket" | Xong => "xong" end.

(** [t.length > n ? `${t.slice(0, n - 1)}…` : t]. *)
Definition clip (n : nat) (t : jsstr) : jsstr :=
  if Nat.ltb n (length t) then cat [take (n - 1) t; "…"] else t.

(** The event of the list is the room selected, [None] for the overview. *)
Definition workroom_button (activeRoom : option jsstr) (r : Workroom) : node (option jsstr) :=
  El "button" [
    AStr "type" "button";
    AStr "className" (if bool_decide (activeRoom = Some (wr_room_id r))
                      then "chip chip-active workroom-item" else "chip workroom-item");
    AOn (OnClick (Some (wr_room_id r)));
    AStr "title" (wr_title r)] (
    [El "span" [AStr "className" (cat ["workroom-status workroom-"; room_status_text (wr_status r)])]
       [Txt (STATUS_BADGE (wr_status r))]; Txt " "; Txt (clip 34 (wr_title r))]
    ++ when (1 <? wr_task_count r)
         [El "span" [AStr "className" "workroom-count"]
            [Txt " ("; Txt (z_str (wr_task_count r)); Txt " việc)"]]).

Definition WorkroomList (rooms : list Workroom) (activeRoom : option jsstr) :
    list (node (option jsstr)) :=
  [El "nav" [AStr "className" "workroom-list"; AStr "aria-label" "Phòng việc"] (
    El "button" [
      AStr "type" "button";
      AStr "className" (if bool_decide (activeRoom = None) then "chip chip-active" else "chip");
      AOn (OnClick None)] [Txt "Toàn cảnh"]
    :: map (workroom_button activeRoom) rooms)].

(** ** The artifact panel *)

Record opened := { op_taskId : jsstr; op_seq : Z; op_stepId : jsstr }.

Record PanelState := {
  ap_room : option jsstr;                (* prop activeRoom *)
  ap_messages : list OfficeMessage;      (* prop roomMessages *)
  ap_data : option RoomArtifactsPayload;
  ap_open : option opened
}.

Inductive PanelEvent :=
| PanelProps (activeRoom : option jsstr) (roomMessages : list OfficeMessage)
| OpenStep (o : opened)
| CloseViewer.

(** The one request: [api.getRoomArtifacts(room)]. *)
Inductive PanelReq := GetRoomArtifacts (room : jsstr).

Definition panel_signal (messages : list OfficeMessage) : Z :=
  maxSeqOf messages ["handoff"; "review"].

(** The effect keyed on [activeRoom] and the signal. *)
Definition panel_effect (s : PanelState) : PanelState * list PanelReq :=
  match present (ap_room s) with
  | None => ({| ap_room := ap_room s; ap_messages := ap_messages s; ap_data := None;
                ap_open := ap_open s |}, [])
  | Some r => (s, [GetRoomArtifacts r])
  end.

Definition panel_handle (e : PanelEvent) (s : PanelState) : PanelState * list PanelReq :=
  match e with
  | PanelProps room ms =>
      let s' := {| ap_room := room; ap_messages := ms; ap_data := ap_data s;
                   ap_open := ap_open s |} in
      if bool_decide (room = ap_room s) && (panel_signal ms =? panel_signal (ap_messages s))
      then (s', []) else panel_effect s'
  | OpenStep o => ({| ap_room := ap_room s; ap_messages := ap_messages s; ap_data := ap_data s;
                      ap_open := Some o |}, [])
  | CloseViewer => ({| ap_room := ap_room s; ap_messages := ap_messages s;
                       ap_data := ap_data s; ap_open := None |}, [])
  end.

Definition panel_resume (r : PanelReq) (a : result RoomArtifactsPayload) (s : PanelState) :
    PanelState * list PanelReq :=
  ({| ap_room := ap_room s; ap_messages := ap_messages s;
      ap_data := match a with Ok d => Some d | Err _ => None end; ap_open := ap_open s |}, []).

Definition delivered (t : RoomArtifactTask) : list RoomArtifactStep :=
  filter (λ x, rs_status x = "done" ∧ (rs_step_type x = "work" ∨ rs_step_type x = "rework"))
         (rt_steps t).

Definition artifact_item (t : RoomArtifactTask) (x : RoomArtifactStep) : node PanelEvent :=
  El "li" [] [
    El "button" [
      AStr "type" "button"; AStr "className" "artifact-item";
      AOn (OnClick (OpenStep {| op_taskId := rt_task_id t; op_seq := rs_seq x;
                                op_stepId := rs_step_id x |}))] [
      Txt "✅ "; Txt (rs_title x); Txt " ";
      El "span" [AStr "className" "office-composer-domain"]
        [Txt "("; Txt (rs_assigned_to x); Txt ")"]]].

Definition artifact_task (t : RoomArtifactTask) : list (node PanelEvent) :=
  when (negb (Nat.eqb (length (delivered t)) 0)) [
    El "section" [AStr "className" "artifact-task"] [
      El "h4" [AStr "title" (rt_title t)] (
        [Txt (clip 40 (rt_title t))]
        ++ when (truthy (rt_pic_id t))
             [El "span" [AStr "className" "office-3d-bubble-pic artifact-pic"]
                [Txt "PIC: "; Txt (rt_pic_id t)]]);
      El "ul" [] (map (artifact_item t) (delivered t))]].

Definition panel_tasks (s : PanelState) : list RoomArtifactTask :=
  match ap_data s with Some d => rap_tasks d | None => [] end.

Definition ArtifactPanel (s : PanelState) : list (node PanelEvent) :=
  match present (ap_room s) with
  | None =>
      [El "aside" [AStr "className" "office-artifacts"; AStr "aria-label" "Kết quả"] [
        El "p" [AStr "className" "office-room-status"] [Txt "Kết quả"];
        El "p" [AStr "className" "ops-chat-empty"]
          [Txt "Chọn một phòng việc để xem kết quả bàn giao."]]]
  | Some _ =>
      let tasks := panel_tasks s in
      let hasAny := existsb (λ t, negb (Nat.eqb (length (delivered t)) 0)) tasks in
      [El "aside" [AStr "className" "office-artifacts"; AStr "aria-label" "Kết quả"] (
        [El "p" [AStr "className" "office-room-status"] [Txt "Kết quả"]]
        ++ when (negb hasAny)
             [El "p" [AStr "className" "ops-chat-empty"]
                [Txt "Chưa có bàn giao nào trong phòng này."]]
        ++ flat_map artifact_task tasks
        ++ match ap_open s with
           | Some o =>
               [Comp "ArtifactViewer" [
                  AStr "taskId" (op_taskId o); AStr "seq" (z_str (op_seq o));
                  AStr "stepId" (op_stepId o); AOn (OnClick CloseViewer)]]
           | None => []
           end)]
  end.

(** The panel mounted with the given props; its props change under the parent's control. *)
Definition panel_mount (room : option jsstr) (ms : list OfficeMessage) :
    PanelState * list PanelReq :=
  panel_effect {| ap_room := room; ap_messages := ms; ap_data := None; ap_open := None |}.

Definition artifact_panel (room : option jsstr) (ms : list OfficeMessage) : component :=
  {| c_state := PanelState; c_event := PanelEvent; c_req := PanelReq;
     c_resp := λ _, RoomArtifactsPayload;
     c_init := panel_mount room ms;
     c_view := ArtifactPanel;
     c_env := λ _ e, match e with PanelProps _ _ => True | _ => False end;
     c_handle := panel_handle; c_resume := panel_resume |}.

(** ** Theorems: the feed *)

(** Every intermediate value of the hash is an integer a double holds exactly. *)
Lemma hash_step_bounds h c :
  0 ≤ h < 2 ^ 32 → 0 ≤ c < 2 ^ 16 →
  0 ≤ h * 31 + c < 2 ^ 53 ∧ 0 ≤ hash_step h c < 2 ^ 32.
Proof.
  intros Hh Hc. split; [lia|]. unfold hash_step. apply Z.mod_pos_bound. lia.
Qed.

Lemma code_point_heads_units s :
  Forall (λ c, 0 ≤ c < 2 ^ 16) s → Forall (λ c, 0 ≤ c < 2 ^ 16) (code_point_heads s).
Proof.
  remember (length s) as n eqn:En. assert (Hn : (length s ≤ n)%nat) by lia. clear En.
  revert s Hn. induction n as [|n IH]; intros [|c [|d s]] Hn H; cbn in Hn; try done; try lia.
  inversion H as [|? ? Hc H']; subst. inversion H' as [|? ? Hd Hs]; subst.
  cbn [code_point_heads]. case_match; constructor; try done.
  - apply IH; [lia|done].
  - apply (IH (d :: s)); [cbn; lia|done].
Qed.

Lemma foldl_hash_bounds l h : 0 ≤ h < 2 ^ 32 → 0 ≤ foldl hash_step h l < 2 ^ 32.
Proof.
  revert h. induction l as [|c l IH]; intros h Hh; [done|]. apply IH.
  unfold hash_step. apply Z.mod_pos_bound. lia.
Qed.

Lemma agentHash_bounds id : 0 ≤ agentHash id < 2 ^ 32.
Proof. apply foldl_hash_bounds. lia. Qed.

(** Every staff id has a color of the palette, and the hash that chooses it is computed
    without rounding: each intermediate value [h * 31 + c] stays below 2^53 and each hash
    below 2^32. *)
Theorem agentColor_total id :
  Forall (λ c, 0 ≤ c < 2 ^ 16) id →
  (∀ p c r, code_point_heads id = p ++ c :: r →
     0 ≤ foldl hash_step 0 p * 31 + c < 2 ^ 53) ∧
  ∃ color, agentColor id = Some color ∧ color ∈ AGENT_PALETTE.
Proof.
  intros Hid. split.
  - intros p c r E. apply code_point_heads_units in Hid. rewrite E in Hid.
    apply Forall_app in Hid as [_ Hc]. inversion Hc; subst.
    apply hash_step_bounds; [apply foldl_hash_bounds; lia|done].
  - unfold agentColor.
    destruct (lookup_lt_is_Some_2 AGENT_PALETTE
      (Z.to_nat (agentHash id mod Z.of_nat (length AGENT_PALETTE)))) as [color Hc].
    + pose proof (Z.mod_pos_bound (agentHash id) (Z.of_nat (length AGENT_PALETTE)) ltac:(done)).
      lia.
    + exists color. split; [done|]. by eapply list_elem_of_lookup_2.
Qed.

(** The line of an assignment names the person in charge, once: in the summary when it is
    already there, as a suffix otherwise. *)
Theorem assignment_line_names_pic m pic :
  om_kind m = KAssignment → ob_pic (om_body m) = Some pic → pic ≠ [] →
  includes (cat ["PIC: "; pic]) (messageLine m) = true ∧
  (includes (cat ["PIC: "; pic]) (nullish (ob_summary (om_body m)) "") = false →
   ∃ base, messageLine m = cat [base; " — PIC: "; pic]).
Proof.
  intros Hk Hp Hne. unfold messageLine. rewrite Hk, Hp. cbn [nullish].
  rewrite (proj2 (truthy_spec pic) Hne). cbn [andb].
  set (base := cat [nullish (ob_task_title _) _; _; _; _; _; _]).
  destruct (includes _ (nullish (ob_summary _) _)) eqn:Hi; cbn [negb].
  - split; [|done]. apply (includes_cat _ (nullish (ob_summary (om_body m)) "")); [|done].
    by apply (list_elem_of_lookup_2 _ 2).
  - split; [|intros _; eexists; reflexivity].
    apply includes_spec. exists (base ++ " — "), [].
    rewrite app_nil_r, <- app_assoc. unfold cat. cbn [concat].
    assert (E : " — PIC: " = " — " ++ "PIC: ") by by vm_compute.
    by rewrite E, <- app_assoc.
Qed.

Lemma assignment_line_names_pic_witness :
  let m := Msg 1 "" "coordinator" KAssignment
    (Body None (Some "Báo cáo") None (Some 2) (Some "gửi khách") None None None None None None
       None None None None None None (Some "qa") (Some "t1")) in
  includes (cat ["PIC: "; "qa"]) (messageLine m) = true ∧
  (includes (cat ["PIC: "; "qa"]) (nullish (ob_summary (om_body m)) "") = false →
   ∃ base, messageLine m = cat [base; " — PIC: "; "qa"]).
Proof. intros m. apply (assignment_line_names_pic m "qa"); done. Defined.

Lemma agentColor_total_witness :
  (∀ p c r, code_point_heads "qa" = p ++ c :: r →
     0 ≤ foldl hash_step 0 p * 31 + c < 2 ^ 53) ∧
  ∃ color, agentColor "qa" = Some color ∧ color ∈ AGENT_PALETTE.
Proof. apply agentColor_total. repeat constructor; vm_compute; intros H; discriminate H. Defined.

(** ** Theorems: rooms and staff *)

(** [m] names [id] as assignee, person in charge, asker or asked. *)
Definition names_in_room (m : OfficeMessage) (id : jsstr) : Prop :=
  let b := om_body m in
  ob_assigned_to b = Some id ∨ ob_pic b = Some id ∨ ob_from b = Some id ∨ ob_to b = Some id.

Lemma involved_step_spec s m id :
  id ≠ [] → id ∈ involved_step s m ↔ id ∈ s ∨ names_in_room m id.
Proof.
  intros Hid. unfold involved_step, names_in_room. set (b := om_body m).
  assert (∀ o X, id ∈ match present o with Some x => {[x]} ∪ X | None => X end ↔
            o = Some id ∨ id ∈ (X : gset jsstr)) as Hadd.
  { intros o X. destruct (present o) as [x|] eqn:E.
    - apply present_spec in E as [-> ?]. set_solver.
    - split; [by right|]. intros [->|?]; [|done]. by rewrite present_id in E. }
  rewrite !Hadd. tauto.
Qed.

Lemma involved_spec ms id : id ≠ [] → id ∈ involved ms ↔ ∃ m, m ∈ ms ∧ names_in_room m id.
Proof.
  intros Hid. unfold involved.
  assert (∀ s, id ∈ foldl involved_step s ms ↔ id ∈ s ∨ ∃ m, m ∈ ms ∧ names_in_room m id) as H.
  { induction ms as [|m ms IH]; intros s; cbn; [set_solver|].
    rewrite IH, involved_step_spec by done. set_solver. }
  rewrite H. set_solver.
Qed.

(** With a room selected, the desks dimmed are exactly those of the listed staff that no
    event of the room names as assignee, person in charge, asker or asked; with no room
    selected no desk is dimmed. *)
Theorem dimmed_iff_uninvolved room ms ids id :
  id ≠ [] →
  id ∈ dimmedIds room ms ids ↔
  truthy_opt room = true ∧ id ∈ ids ∧ ∀ m, m ∈ ms → ¬ names_in_room m id.
Proof.
  intros Hid. unfold dimmedIds. pose proof (truthy_opt_present room) as Ht.
  destruct (present room) as [r|].
  - rewrite elem_of_list_to_set, list_elem_of_filter, involved_spec by done.
    split; [intros [H1 H2]; split; [by apply Ht|]; split; [done|]; intros m Hm Hn; apply H1; eauto|].
    intros (_ & H1 & H2). split; [|done]. intros (m & Hm & Hn). by apply (H2 m).
  - split; [set_solver|]. intros [H _]. apply Ht in H as [? H]. done.
Qed.

Lemma dimmed_iff_uninvolved_witness :
  "qa" ∈ dimmedIds (Some "t1") [] ["qa"; "pm"] ↔
  truthy_opt (Some "t1") = true ∧ "qa" ∈ ["qa"; "pm"] ∧
  ∀ m, m ∈ @nil OfficeMessage → ¬ names_in_room m "qa".
Proof. apply dimmed_iff_uninvolved. done. Defined.

(** ** Theorems: the artifact panel *)

(** [o] addresses step [x] of task [t]. *)
Definition addresses (o : opened) (t : RoomArtifactTask) (x : RoomArtifactStep) : Prop :=
  o = {| op_taskId := rt_task_id t; op_seq := rs_seq x; op_stepId := rs_step_id x |}.

Lemma offers_artifact_task t o :
  offers (artifact_task t) (OpenStep o) ↔ ∃ x, x ∈ delivered t ∧ addresses o t x.
Proof.
  unfold artifact_task. split.
  - intros H. inv_offers. unfold artifact_item in *. inv_offers. simplify_eq. by eexists.
  - intros (x & Hx & ->). rewrite offers_when. split.
    { destruct (delivered t); [set_solver|done]. }
    rewrite offers_El. right. rewrite offers_cons. right. rewrite offers_El. right.
    rewrite offers_map. exists x. split; [done|]. unfold artifact_item.
    rewrite offers_El. right. rewrite offers_El. left. eexists. split; [by left|done].
Qed.

(** The panel opens exactly the delivered steps of the loaded room: the viewer can be
    opened on a step iff a room is selected and the loaded tasks contain that step, done, and
    a work or rework step. *)
Theorem panel_opens_delivered s o :
  offers (ArtifactPanel s) (OpenStep o) ↔
  is_Some (present (ap_room s)) ∧
  ∃ t x, t ∈ panel_tasks s ∧ x ∈ rt_steps t ∧ addresses o t x ∧
    rs_status x = "done" ∧ (rs_step_type x = "work" ∨ rs_step_type x = "rework").
Proof.
  unfold ArtifactPanel. destruct (present (ap_room s)) as [r|].
  - transitivity (∃ t, t ∈ panel_tasks s ∧ offers (artifact_task t) (OpenStep o)).
    + split.
      * intros H. inv_offers; [eauto|done].
      * intros (t & Ht & H). rewrite offers_El. right. rewrite !offers_app. right. right. left.
        apply offers_flat_map. eauto.
    + setoid_rewrite offers_artifact_task. unfold delivered.
      setoid_rewrite list_elem_of_filter. naive_solver.
  - split; [|by intros [[??] _]]. intros H. inv_offers.
Qed.

(** Whatever answers come, the loaded tasks are the answer of a request the panel made for a
    room it was given, and no request is ever made while no room is selected. *)
Definition panel_inv (srv : jsstr → RoomArtifactsPayload → Prop) (s : PanelState)
    (q : list PanelReq) : Prop :=
  (∀ r, GetRoomArtifacts r ∈ q → r ≠ []) ∧
  (∀ d, ap_data s = Some d → ∃ r, r ≠ [] ∧ srv r d).

Definition serves (srv : jsstr → RoomArtifactsPayload → Prop) room ms : answers (artifact_panel room ms) :=
  λ r a, match r, a with GetRoomArtifacts x, Ok d => srv x d | _, Err _ => True end.

Lemma panel_effect_inv srv s q :
  panel_inv srv s q → panel_inv srv (fst (panel_effect s)) (q ++ snd (panel_effect s)).
Proof.
  intros [Hq Hd]. unfold panel_effect. destruct (present (ap_room s)) as [r|] eqn:E; cbn.
  - apply present_spec in E as [_ Hr]. split; [|done].
    intros r'. rewrite elem_of_app, list_elem_of_singleton. intros [?|[=->]]; auto.
  - rewrite app_nil_r. done.
Qed.

#[export] Instance panel_inv_holds srv room ms : Invariant (serves srv room ms) (panel_inv srv).
Proof.
  split.
  - apply (panel_effect_inv srv _ []). split; [set_solver|done].
  - intros e s q Hi _. cbn. destruct e as [room' ms'|o|]; cbn.
    + case_match; cbn; [rewrite app_nil_r; exact Hi|]. by apply panel_effect_inv.
    + rewrite app_nil_r. exact Hi.
    + rewrite app_nil_r. exact Hi.
  - intros [r] a s q1 q2 Ha [Hq Hd]. cbn in *. rewrite app_nil_r. split; cbn.
    + intros r' Hr. apply Hq. set_solver.
    + intros d E. destruct a as [d'|]; [|done]. injection E as ->. exists r. split; [|done].
      apply Hq. set_solver.
Qed.

(** The panel can be left showing another room's results.  For any two rooms and any
    payloads the server may give for them, selecting the second room before the answer for the
    first has come leads, when the answers come in the other order, to a state without
    requests in flight that shows the first room's payload under the second room. *)
Theorem panel_stale_room (srv : jsstr → RoomArtifactsPayload → Prop) a b ms da db :
  a ≠ [] → b ≠ [] → a ≠ b → srv a da → srv b db →
  ∃ s, reachable (serves srv (Some a) ms) (World (C := artifact_panel (Some a) ms) s []) ∧
       ap_room s = Some b ∧ ap_data s = Some da.
Proof.
  intros Ha Hb Hab Hda Hdb.
  set (S := serves srv (Some a) ms).
  assert (reachable S (init_world _)) as H0 by constructor.
  unfold init_world in H0. cbn in H0. unfold panel_mount, panel_effect in H0. cbn in H0.
  rewrite (proj2 (truthy_spec a) Ha) in H0. cbn in H0.
  pose proof (run_event S (PanelProps (Some b) ms) _ _ H0 (or_intror I)) as H1. cbn in H1.
  rewrite bool_decide_false in H1 by congruence. cbn in H1.
  unfold panel_effect in H1. cbn in H1. rewrite (proj2 (truthy_spec b) Hb) in H1. cbn in H1.
  pose proof (run_response S [GetRoomArtifacts a] (GetRoomArtifacts b) [] (Ok db) _ H1 Hdb) as H2.
  cbn in H2.
  pose proof (run_response S [] (GetRoomArtifacts a) [] (Ok da) _ H2 Hda) as H3. cbn in H3.
  eexists. split; [exact H3|]. done.
Qed.

Definition one_task (title : jsstr) : RoomArtifactsPayload :=
  {| rap_tasks := [{| rt_task_id := title; rt_title := title; rt_pic_id := ""; rt_status := "done";
       rt_steps := [] |}] |}.

Lemma panel_stale_room_witness :
  ∃ s, reachable (serves (λ r d, d = one_task r) (Some ("a" : jsstr)) [])
         (World (C := artifact_panel (Some ("a" : jsstr)) []) s []) ∧
       ap_room s = Some ("b" : jsstr) ∧ ap_data s = Some (one_task "a").
Proof. apply (panel_stale_room _ "a" "b" [] (one_task "a") (one_task "b")); done. Defined.
