(* ===== verification/Uri.v ===== *)
(** Percent encoding of URL segments: [encodeURIComponent] of the ECMAScript library, which the
    client applies to ids in paths, and its left inverse. *)

From S2P Require Import Prelude.

(** ** Code points and their UTF-8 bytes *)

Definition is_lead (c : Z) : bool := (55296 <=? c) && (c <=? 56319).
Definition is_trail (c : Z) : bool := (56320 <=? c) && (c <=? 57343).

(** The code points of a string; [None] on a lone surrogate. *)
Fixpoint code_points (s : jsstr) : option (list Z) :=
  match s with
  | [] => Some []
  | c :: r =>
      if is_lead c then
        match r with
        | d :: r' =>
            if is_trail d
            then l ← code_points r'; Some (65536 + (c - 55296) * 1024 + (d - 56320) :: l)
            else None
        | [] => None
        end
      else if is_trail c then None
      else l ← code_points r; Some (c :: l)
  end.

Definition utf8_bytes (cp : Z) : list Z :=
  if cp <? 128 then [cp]
  else if cp <? 2048 then [192 + cp / 64; 128 + cp mod 64]
  else if cp <? 65536 then [224 + cp / 4096; 128 + cp / 64 mod 64; 128 + cp mod 64]
  else [240 + cp / 262144; 128 + cp / 4096 mod 64; 128 + cp / 64 mod 64; 128 + cp mod 64].

(** ** Percent encoding *)

(** [uriUnescaped]: letters, digits and [-_.!~*'()]. *)
Definition unescaped (b : Z) : bool :=
  ((48 <=? b) && (b <=? 57)) || ((65 <=? b) && (b <=? 90)) || ((97 <=? b) && (b <=? 122))
  || bool_decide (b ∈ [45; 95; 46; 33; 126; 42; 39; 40; 41]).
Definition hex_digit (n : Z) : Z := if n <? 10 then 48 + n else 55 + n.
Definition percent (b : Z) : jsstr :=
  if unescaped b then [b] else [37; hex_digit (b / 16); hex_digit (b mod 16)].

(** [encodeURIComponent(s)]; [None]: it throws a [URIError]. *)
Definition encodeURIComponent (s : jsstr) : option jsstr :=
  l ← code_points s; Some (flat_map percent (flat_map utf8_bytes l)).

(** ** The left inverse *)

Definition hex_value (c : Z) : Z := if c <? 58 then c - 48 else c - 55.
Fixpoint unpercent (fuel : nat) (s : jsstr) : list Z :=
  match fuel, s with
  | S k, c :: r =>
      if c =? 37 then
        match r with
        | a :: b :: r' => (hex_value a * 16 + hex_value b) :: unpercent k r'
        | _ => []
        end
      else c :: unpercent k r
  | _, _ => []
  end.

Definition units_of (cp : Z) : jsstr :=
  if cp <? 65536 then [cp]
  else [55296 + (cp - 65536) / 1024; 56320 + (cp - 65536) mod 1024].

Fixpoint utf8_decode (fuel : nat) (l : list Z) : list Z :=
  match fuel with
  | O => []
  | S k =>
      match l with
      | [] => []
      | a :: r =>
          if a <? 128 then a :: utf8_decode k r
          else if a <? 224 then
            match r with
            | b :: r' => ((a - 192) * 64 + (b - 128)) :: utf8_decode k r'
            | _ => []
            end
          else if a <? 240 then
            match r with
            | b :: c :: r' =>
                ((a - 224) * 4096 + (b - 128) * 64 + (c - 128)) :: utf8_decode k r'
            | _ => []
            end
          else
            match r with
            | b :: c :: d :: r' =>
                ((a - 240) * 262144 + (b - 128) * 4096 + (c - 128) * 64 + (d - 128))
                :: utf8_decode k r'
            | _ => []
            end
      end
  end.

Definition decodeURIComponent (s : jsstr) : jsstr :=
  let b := unpercent (length s) s in flat_map units_of (utf8_decode (length b) b).

(** ** Lemmas *)

Definition byte (b : Z) : Prop := 0 ≤ b < 256.
Definition unit16 (c : Z) : Prop := 0 ≤ c < 65536.
Definition code_point (c : Z) : Prop := 0 ≤ c < 1114112.

Ltac div_lia := Z.to_euclidean_division_equations; lia.

Lemma code_points_spec s l :
  Forall unit16 s → code_points s = Some l → Forall code_point l ∧ flat_map units_of l = s.
Proof.
  remember (length s) as n eqn:En. assert (Hn : (length s ≤ n)%nat) by lia. clear En.
  revert s l Hn. induction n as [|n IH]; intros [|c s] l Hn Hs E; cbn in Hn; try lia.
  { by injection E as <-. }
  { by injection E as <-. }
  inversion Hs as [|? ? Hc Hs']; subst. unfold unit16 in Hc. cbn in E.
  destruct (is_lead c) eqn:El.
  - destruct s as [|d s]; [done|]. destruct (is_trail d) eqn:Et; [|done].
    apply bind_Some in E as (l' & E & [= <-]).
    inversion Hs' as [|? ? Hd Hs'']; subst. cbn in Hn.
    destruct (IH s l' ltac:(lia) Hs'' E) as [H1 H2]. unfold is_lead, is_trail in *.
    split; [constructor; [unfold code_point; lia|done]|]. cbn. rewrite H2.
    unfold units_of. rewrite (proj2 (Z.ltb_ge _ _)) by lia. cbn. f_equal; [|f_equal]; div_lia.
  - destruct (is_trail c) eqn:Et; [done|]. apply bind_Some in E as (l' & E & [= <-]).
    destruct (IH s l' ltac:(lia) Hs' E) as [H1 H2].
    split; [constructor; [unfold code_point; lia|done]|]. cbn. rewrite H2.
    unfold units_of. by rewrite (proj2 (Z.ltb_lt _ _)) by lia.
Qed.

Lemma utf8_bytes_byte cp : code_point cp → Forall byte (utf8_bytes cp).
Proof.
  unfold code_point, byte, utf8_bytes. intros H.
  repeat case_match; repeat constructor; div_lia.
Qed.

Lemma utf8_decode_bytes k cp r :
  code_point cp → utf8_decode (S k) (utf8_bytes cp ++ r) = cp :: utf8_decode k r.
Proof.
  unfold code_point, utf8_bytes. intros H.
  repeat case_match; cbn [app utf8_decode];
    repeat match goal with |- context [?a <? ?b] =>
      first [rewrite (proj2 (Z.ltb_lt a b)) by div_lia
            |rewrite (proj2 (Z.ltb_ge a b)) by div_lia] end;
    f_equal; div_lia.
Qed.

Lemma utf8_decode_all l k :
  Forall code_point l → (length l ≤ k)%nat → utf8_decode k (flat_map utf8_bytes l) = l.
Proof.
  revert k. induction l as [|c l IH]; intros k Hl Hk; [by destruct k|].
  inversion Hl; subst. destruct k as [|k]; cbn in Hk; [lia|].
  cbn [flat_map]. rewrite utf8_decode_bytes by done. f_equal. apply IH; [done|lia].
Qed.

Lemma percent_spec b : byte b →
  percent b = [b] ∧ b ≠ 37 ∨
  ∃ x y, percent b = [37; x; y] ∧ hex_value x * 16 + hex_value y = b.
Proof.
  intros H. set (f := λ b, match percent b with
    | [c] => (c =? b) && negb (c =? 37)
    | [c; x; y] => (c =? 37) && (hex_value x * 16 + hex_value y =? b)
    | _ => false end).
  assert (f b = true) as Hf by (apply (forall_range_spec 0 256); [by vm_compute|exact H]).
  unfold f in Hf. destruct (percent b) as [|c [|x [|y [|]]]]; try done.
  - left. assert (c = b ∧ c ≠ 37) as [-> ?] by lia. done.
  - right. exists x, y. assert (c = 37) as -> by lia. split; [done|lia].
Qed.

Lemma unpercent_percent k l :
  Forall byte l → (length (flat_map percent l) ≤ k)%nat → unpercent k (flat_map percent l) = l.
Proof.
  revert k. induction l as [|b l IH]; intros k Hl Hk; [by destruct k|].
  inversion Hl; subst. cbn [flat_map] in *.
  destruct (percent_spec b ltac:(done)) as [[E Hb]|(x & y & E & Hb)]; rewrite E in *;
    cbn in Hk; destruct k as [|k]; try lia; cbn [app unpercent].
  - rewrite (proj2 (Z.eqb_neq b 37)) by done. f_equal. apply IH; [done|lia].
  - cbn. rewrite Hb. f_equal. apply IH; [done|]. cbn in Hk. lia.
Qed.

Lemma length_utf8 l : (length l ≤ length (flat_map utf8_bytes l))%nat.
Proof.
  induction l as [|c l IH]; cbn; [lia|]. rewrite length_app.
  assert (1 ≤ length (utf8_bytes c))%nat; [|lia]. unfold utf8_bytes. repeat case_match; cbn; lia.
Qed.

(** The characters of a percent-encoded string. *)
Definition uri_char (c : Z) : Prop := c = 37 ∨ unescaped c = true.

Lemma percent_chars b : byte b → Forall uri_char (percent b).
Proof.
  intros H. assert (forallb (λ c, (c =? 37) || unescaped c) (percent b) = true) as Hf.
  { apply (forall_range_spec 0 256 (λ b, forallb (λ c, (c =? 37) || unescaped c) (percent b)));
      [by vm_compute|exact H]. }
  rewrite forallb_forall in Hf. apply Forall_forall. intros c Hc%list_elem_of_In.
  specialize (Hf c Hc). unfold uri_char. destruct (c =? 37) eqn:E; [left; lia|by right].
Qed.

(** [encodeURIComponent] loses nothing and gives one path segment.  Decoding the encoding
    of a string of UTF-16 units gives it back, so different ids have different encodings; and
    the encoding has no character but the unescaped ones and the percent sign: no slash, no
    question mark, no hash. *)
Lemma encode_segment s e :
  Forall unit16 s → encodeURIComponent s = Some e →
  decodeURIComponent e = s ∧ Forall uri_char e ∧ (47 ∉ e ∧ 63 ∉ e ∧ 35 ∉ e).
Proof.
  intros Hs H. unfold encodeURIComponent in H. apply bind_Some in H as (l & El & [= <-]).
  destruct (code_points_spec s l Hs El) as [Hl Hu].
  assert (Forall byte (flat_map utf8_bytes l)) as Hb.
  { clear -Hl. induction Hl; cbn; [done|]. apply Forall_app. split; [by apply utf8_bytes_byte|done]. }
  assert (Forall uri_char (flat_map percent (flat_map utf8_bytes l))) as Hc.
  { clear -Hb. induction Hb; cbn; [done|]. apply Forall_app. split; [by apply percent_chars|done]. }
  split; [|split; [done|]].
  - unfold decodeURIComponent. rewrite unpercent_percent by done.
    rewrite utf8_decode_all; [done..|apply length_utf8].
  - rewrite Forall_forall in Hc.
    split_and!; intros [Hin|Hin]%Hc; vm_compute in Hin; discriminate Hin.
Qed.

Example encode_example : encodeURIComponent "qa/à" = Some ("qa%2F%C3%A0" : jsstr).
Proof. vm_compute. reflexivity. Qed.

(** Different strings have different encodings. *)
Lemma encode_inj a b e :
  Forall unit16 a → Forall unit16 b →
  encodeURIComponent a = Some e → encodeURIComponent b = Some e → a = b.
Proof.
  intros Ha Hb Ea Eb. destruct (encode_segment a e Ha Ea) as [<- _].
  by destruct (encode_segment b e Hb Eb) as [<- _].
Qed.
