(* ===== verification/Json.v ===== *)
(** [JSON.stringify], the text of a JSON value on one line or indented by two spaces, and
    [JSON.parse], which reads it back. *)

From S2P Require Import Prelude JsNumber Types Uri.

Definition hex4 (c : Z) : jsstr :=
  let h (n : Z) := if n <? 10 then 48 + n else 87 + n in
  [h (c / 4096); h (c / 256 mod 16); h (c / 16 mod 16); h (c mod 16)].

(** Quoting: the short escapes, [\u00XX] for the other controls and [\uDXXX] for a surrogate
    without its pair. *)
Fixpoint json_chars (s : jsstr) : jsstr :=
  match s with
  | [] => []
  | c :: r =>
      if c =? 34 then [92; 34] ++ json_chars r
      else if c =? 92 then [92; 92] ++ json_chars r
      else if c =? 8 then [92; 98] ++ json_chars r
      else if c =? 12 then [92; 102] ++ json_chars r
      else if c =? 10 then [92; 110] ++ json_chars r
      else if c =? 13 then [92; 114] ++ json_chars r
      else if c =? 9 then [92; 116] ++ json_chars r
      else if c <? 32 then [92; 117] ++ hex4 c ++ json_chars r
      else if (55296 <=? c) && (c <=? 56319) then
        match r with
        | d :: r' =>
            if (56320 <=? d) && (d <=? 57343) then c :: d :: json_chars r'
            else [92; 117] ++ hex4 c ++ json_chars r
        | [] => [92; 117] ++ hex4 c
        end
      else if (56320 <=? c) && (c <=? 57343) then [92; 117] ++ hex4 c ++ json_chars r
      else c :: json_chars r
  end.
Definition json_quote (s : jsstr) : jsstr := cat [dq; json_chars s; dq].

Definition indent (n : nat) : jsstr := replicate (2 * n) 32.

(** [items] between brackets, one per line, [n] levels deep. *)
Definition json_block (n : nat) (open close : jsstr) (items : list jsstr) : jsstr :=
  match items with
  | [] => open ++ close
  | _ => open ++ [10] ++ join [44; 10] (map (app (indent (S n))) items) ++ [10] ++ indent n ++ close
  end.

Fixpoint json_pretty (n : nat) (v : json) : jsstr :=
  match v with
  | JNull => "null"
  | JBool b => if b then "true" else "false"
  | JNum x => match x with SpecFloat.S754_nan | SpecFloat.S754_infinity _ => "null"
              | _ => num_str x end
  | JStr s => json_quote s
  | JArr l => json_block n "[" "]" (map (json_pretty (S n)) l)
  | JObj l =>
      json_block n "{" "}"
        (map (λ kv, json_quote (fst kv) ++ ": " ++ json_pretty (S n) (snd kv)) l)
  end.

(** [JSON.stringify(v)]. *)
Fixpoint json_text (v : json) : jsstr :=
  match v with
  | JArr l => "[" ++ join "," (map json_text l) ++ "]"
  | JObj l => "{" ++ join "," (map (λ kv, json_quote (fst kv) ++ ":" ++ json_text (snd kv)) l) ++ "}"
  | _ => json_pretty 0 v
  end.

Example text_example :
  json_text (JObj [("id", JStr "a"); ("l", JArr [JNum (num_Z 1); JNull])]) =
  cat ["{"; dq; "id"; dq; ":"; dq; "a"; dq; ","; dq; "l"; dq; ":[1,null]}"].
Proof. vm_compute. reflexivity. Qed.

Example pretty_example :
  json_pretty 0 (JObj [("id", JStr "a"); ("l", JArr [JNum (num_Z 1)]); ("o", JObj [])]) =
  join [10] [[123]; cat ["  "; dq; "id"; dq; ": "; dq; "a"; dq; ","]; cat ["  "; dq; "l"; dq; ": ["];
    "    1"; "  ],"; cat ["  "; dq; "o"; dq; ": {}"]; [125]].
Proof. vm_compute. reflexivity. Qed.

(** ** [JSON.parse] *)

(** White space between tokens, and the units a number token is made of. *)
Definition json_ws (c : Z) : bool := (c =? 32) || (c =? 9) || (c =? 10) || (c =? 13).
Fixpoint skip_ws (s : jsstr) : jsstr :=
  match s with
  | c :: r => if json_ws c then skip_ws r else s
  | [] => []
  end.
Definition is_digit (c : Z) : bool := (48 <=? c) && (c <=? 57).
Definition num_unit (c : Z) : bool :=
  is_digit c || (c =? 43) || (c =? 45) || (c =? 46) || (c =? 101) || (c =? 69).

(** The longest run of units with a property, and the rest. *)
Fixpoint span (p : Z → bool) (s : jsstr) : jsstr * jsstr :=
  match s with
  | c :: r => if p c then let '(a, b) := span p r in (c :: a, b) else ([], s)
  | [] => ([], [])
  end.

(** JSONNumber: an optional minus sign, an integer part without a leading zero, an optional
    fraction, an optional exponent. *)
Definition json_exponent (s : jsstr) : bool :=
  match s with
  | [] => true
  | c :: r =>
      let r := match r with d :: t => if (d =? 43) || (d =? 45) then t else r | [] => r end in
      ((c =? 101) || (c =? 69)) && negb (bool_decide (r = [])) && forallb is_digit r
  end.
Definition json_fraction (s : jsstr) : bool :=
  match s with
  | 46 :: r => let '(f, t) := span is_digit r in negb (bool_decide (f = [])) && json_exponent t
  | _ => json_exponent s
  end.
Definition json_number (s : jsstr) : bool :=
  let '(i, t) := span is_digit (match s with 45 :: r => r | _ => s end) in
  match i with
  | [] => false
  | c :: r => (negb (c =? 48) || bool_decide (r = [])) && json_fraction t
  end.

(** The units of a string up to its closing quote, and what follows it; a control unit or an
    unknown escape is a [SyntaxError]. *)
Definition unescape (c : Z) : option Z :=
  if (c =? 34) || (c =? 92) || (c =? 47) then Some c
  else if c =? 98 then Some 8 else if c =? 102 then Some 12 else if c =? 110 then Some 10
  else if c =? 114 then Some 13 else if c =? 116 then Some 9 else None.
Definition unit_cons (c : Z) (o : option (jsstr * jsstr)) : option (jsstr * jsstr) :=
  match o with Some (t, r) => Some (c :: t, r) | None => None end.
Fixpoint string_body (s : jsstr) : option (jsstr * jsstr) :=
  match s with
  | [] => None
  | c :: r =>
      if c =? 34 then Some ([], r)
      else if c =? 92 then
        match r with
        | e :: r1 =>
            if e =? 117 then
              match r1 with
              | h1 :: h2 :: h3 :: h4 :: r2 =>
                  match hex_dig h1, hex_dig h2, hex_dig h3, hex_dig h4 with
                  | Some a, Some b, Some x, Some y =>
                      unit_cons (a * 4096 + b * 256 + x * 16 + y) (string_body r2)
                  | _, _, _, _ => None
                  end
              | _ => None
              end
            else match unescape e with Some u => unit_cons u (string_body r1) | None => None end
        | [] => None
        end
      else if c <? 32 then None
      else unit_cons c (string_body r)
  end.

Definition literal (w : jsstr) (v : json) (s : jsstr) : option (json * jsstr) :=
  if starts_with w s then Some (v, drop (length w) s) else None.

Definition json_scalar (s : jsstr) : option (json * jsstr) :=
  match s with
  | 110 :: _ => literal "null" JNull s
  | 116 :: _ => literal "true" (JBool true) s
  | 102 :: _ => literal "false" (JBool false) s
  | _ => let '(t, r) := span num_unit s in
         if json_number t then Some (JNum (num_of_str t), r) else None
  end.

(** A value, the elements of an array after its bracket and the members of an object after its
    brace.  A call that hands on the text it was given, from the elements to one of them, is paid
    for by the comma or bracket that ends the element, so in a text that is JSON the length bounds
    the depth of calls; a text that is not JSON has no value anyway. *)
Fixpoint parse_value (n : nat) (s : jsstr) : option (json * jsstr) :=
  match n with
  | O => None
  | S n =>
      match skip_ws s with
      | 34 :: r => '(t, r) ← string_body r; Some (JStr t, r)
      | 91 :: r =>
          match skip_ws r with
          | 93 :: r => Some (JArr [], r)
          | _ => '(l, r) ← parse_elems n r; Some (JArr l, r)
          end
      | 123 :: r =>
          match skip_ws r with
          | 125 :: r => Some (JObj [], r)
          | _ => '(l, r) ← parse_members n r; Some (JObj l, r)
          end
      | t => json_scalar t
      end
  end
with parse_elems (n : nat) (s : jsstr) : option (list json * jsstr) :=
  match n with
  | O => None
  | S n =>
      '(v, r) ← parse_value n s;
      match skip_ws r with
      | 44 :: r => '(l, r) ← parse_elems n r; Some (v :: l, r)
      | 93 :: r => Some ([v], r)
      | _ => None
      end
  end
with parse_members (n : nat) (s : jsstr) : option (list (jsstr * json) * jsstr) :=
  match n with
  | O => None
  | S n =>
      match skip_ws s with
      | 34 :: r =>
          '(k, r) ← string_body r;
          match skip_ws r with
          | 58 :: r =>
              '(v, r) ← parse_value n r;
              match skip_ws r with
              | 44 :: r => '(l, r) ← parse_members n r; Some ((k, v) :: l, r)
              | 125 :: r => Some ([(k, v)], r)
              | _ => None
              end
          | _ => None
          end
      | _ => None
      end
  end.

(** [JSON.parse(s)]; [None]: a [SyntaxError].  The members of an object are in the order of the
    text, a repeated key as often as it occurs (reading a key takes the last, [json_get]). *)
Definition json_parse (s : jsstr) : option json :=
  '(v, r) ← parse_value (S (length s)) s;
  match skip_ws r with [] => Some v | _ => None end.

Example parse_example :
  json_parse (cat ["{ "; dq; "a"; dq; " : [1.5e1, "; dq; "\u00e0\n"; dq; ", null, true] }"]) =
  Some (JObj [("a", JArr [JNum (num_Z 15); JStr [224; 10]; JNull; JBool true])]).
Proof. vm_compute. reflexivity. Qed.

Example parse_rejects :
  map json_parse ["01"; "[1,]"; "{}x"; "nul"; "1."; "-"; ""] = replicate 7 None.
Proof. vm_compute. reflexivity. Qed.

(** ** Theorems: reading back what is written *)

#[export] Instance num_eq_dec : EqDecision num.
Proof. solve_decision. Defined.

(** The numbers whose text reads back as the number: not NaN, infinite or the negative zero. *)
Definition num_reads (x : num) : bool :=
  forallb num_unit (num_str x) && json_number (num_str x)
  && bool_decide (num_of_str (num_str x) = x).

(** The values JSON can carry: strings of UTF-16 units and numbers that read back. *)
Fixpoint json_ok (v : json) : Prop :=
  match v with
  | JNull | JBool _ => True
  | JNum x => num_reads x = true
  | JStr s => Forall unit16 s
  | JArr l => Forall id (map json_ok l)
  | JObj l => Forall id (map (λ kv, Forall unit16 (fst kv) ∧ json_ok (snd kv)) l)
  end.

(** The same as a test. *)
Definition unit16b (c : Z) : bool := (0 <=? c) && (c <? 65536).
Fixpoint json_okb (v : json) : bool :=
  match v with
  | JNull | JBool _ => true
  | JNum x => num_reads x
  | JStr s => forallb unit16b s
  | JArr l => forallb json_okb l
  | JObj l => forallb (λ kv, forallb unit16b (fst kv) && json_okb (snd kv)) l
  end.

Fixpoint json_size (v : json) : nat :=
  match v with
  | JArr l => S (list_sum (map (λ v, S (json_size v)) l))
  | JObj l => S (list_sum (map (λ kv, S (json_size (snd kv))) l))
  | _ => 1
  end.

Lemma json_nested_ind (P : json → Prop) :
  P JNull → (∀ b, P (JBool b)) → (∀ x, P (JNum x)) → (∀ s, P (JStr s)) →
  (∀ l, Forall P l → P (JArr l)) → (∀ l, Forall (λ kv, P (snd kv)) l → P (JObj l)) →
  ∀ v, P v.
Proof.
  intros Hn Hb Hx Hs Ha Ho. fix IH 1.
  intros [|b|x|s|l|l]; [exact Hn|apply Hb|apply Hx|apply Hs| |].
  - apply Ha. induction l as [|v l IHl]; constructor; [apply IH|exact IHl].
  - apply Ho. induction l as [|[k v] l IHl]; constructor; [apply IH|exact IHl].
Qed.

(** *** Strings *)

Lemma hex_dig_digit n : 0 ≤ n < 16 → hex_dig (if n <? 10 then 48 + n else 87 + n) = Some n.
Proof.
  intros H. unfold hex_dig. destruct (Z.ltb_spec n 10).
  all:
  repeat match goal with |- context [if ?b then _ else _] => destruct b eqn:? end;
    try (f_equal; lia); exfalso; lia.
Qed.

Lemma string_body_hex4 c r :
  unit16 c → string_body (92 :: 117 :: hex4 c ++ r) = unit_cons c (string_body r).
Proof.
  unfold unit16. intros H. unfold hex4. cbn [app string_body].
  change (92 =? 34) with false. change (92 =? 92) with true. change (117 =? 117) with true.
  cbv iota. rewrite !hex_dig_digit by div_lia. f_equal. div_lia.
Qed.

(** The characters of a quoted string read back, a surrogate pair at a time. *)
Lemma string_body_chars s r :
  Forall unit16 s → string_body (json_chars s ++ 34 :: r) = Some (s, r).
Proof.
  remember (length s) as n eqn:En. assert (Hn : (length s ≤ n)%nat) by lia. clear En.
  revert s Hn. induction n as [|n IH]; intros [|c s] Hn Hs; cbn in Hn; try lia; try done.
  inversion Hs as [|? ? Hc Hs']; subst.
  assert (string_body (json_chars s ++ 34 :: r) = Some (s, r)) as E by (apply IH; [lia|done]).
  assert (string_body (92 :: 117 :: hex4 c ++ json_chars s ++ 34 :: r) = Some (c :: s, r)) as Eh
    by (by rewrite string_body_hex4, E).
  assert (string_body (c :: json_chars s ++ 34 :: r) = Some (c :: s, r) ∨
          (c =? 34) || (c =? 92) || (c <? 32) = true) as Er.
  { destruct ((c =? 34) || (c =? 92) || (c <? 32)) eqn:Eb; [by right|left].
    apply orb_false_iff in Eb as [[E1 E2]%orb_false_iff E3]. cbn [string_body].
    by rewrite E1, E2, E3, E. }
  cbn [json_chars].
  destruct (c =? 34) eqn:E1; [assert (c = 34) as -> by lia; cbn; by rewrite E|].
  destruct (c =? 92) eqn:E2; [assert (c = 92) as -> by lia; cbn; by rewrite E|].
  destruct (c =? 8) eqn:E3; [assert (c = 8) as -> by lia; cbn; by rewrite E|].
  destruct (c =? 12) eqn:E4; [assert (c = 12) as -> by lia; cbn; by rewrite E|].
  destruct (c =? 10) eqn:E5; [assert (c = 10) as -> by lia; cbn; by rewrite E|].
  destruct (c =? 13) eqn:E6; [assert (c = 13) as -> by lia; cbn; by rewrite E|].
  destruct (c =? 9) eqn:E7; [assert (c = 9) as -> by lia; cbn; by rewrite E|].
  destruct (c <? 32) eqn:E8; [rewrite <- app_assoc; exact Eh|].
  destruct Er as [Er|Er]; [|done].
  destruct ((55296 <=? c) && (c <=? 56319)).
  - destruct s as [|d s]; [exact Eh|].
    destruct ((56320 <=? d) && (d <=? 57343)) eqn:Ed; [|rewrite <- app_assoc; exact Eh].
    inversion Hs'; subst. cbn in Hn. cbn [app string_body].
    rewrite E1, E2, E8, (proj2 (Z.eqb_neq d 34)), (proj2 (Z.eqb_neq d 92)),
      (proj2 (Z.ltb_ge d 32)) by lia.
    by rewrite IH by (done || lia).
  - destruct ((56320 <=? c) && (c <=? 57343)); [rewrite <- app_assoc; exact Eh|exact Er].
Qed.

(** *** Tokens and lists *)

(** What may follow a value: nothing a number could go on with. *)
Definition stops (r : jsstr) : Prop := match r with [] => True | c :: _ => num_unit c = false end.

(** [t] is a text of [v]: with enough fuel, and whatever follows that does not prolong a number,
    it reads as [v] and leaves what follows. *)
Definition reads (t : jsstr) (v : json) : Prop :=
  ∀ n r, (json_size v ≤ n)%nat → stops r → parse_value n (t ++ r) = Some (v, r).
Definition member_reads (t : jsstr) (kv : jsstr * json) : Prop :=
  ∃ w t', Forall (λ c, json_ws c = true) w ∧ Forall unit16 (fst kv) ∧
    t = json_quote (fst kv) ++ 58 :: w ++ t' ∧ reads t' (snd kv).

Lemma skip_ws_app w s : Forall (λ c, json_ws c = true) w → skip_ws (w ++ s) = skip_ws s.
Proof. induction 1 as [|c w Hc _ IH]; [done|]. cbn. by rewrite Hc. Qed.

Lemma parse_value_ws n w s :
  Forall (λ c, json_ws c = true) w → parse_value n (w ++ s) = parse_value n s.
Proof. intros Hw. destruct n; [done|]. cbn [parse_value]. by rewrite skip_ws_app. Qed.

Lemma span_all p t r :
  forallb p t = true → match r with [] => True | c :: _ => p c = false end →
  span p (t ++ r) = (t, r).
Proof.
  intros Ht Hr. induction t as [|c t IH]; cbn in *.
  - destruct r as [|c r]; [done|]. cbn. by rewrite Hr.
  - apply andb_true_iff in Ht as [-> Ht]. by rewrite IH.
Qed.

Lemma json_number_head t :
  json_number t = true → ∃ c t', t = c :: t' ∧ (c = 45 ∨ is_digit c = true).
Proof.
  destruct t as [|c t]; [done|]. intros H. exists c, t. split; [done|].
  destruct (Z.eqb_spec c 45) as [->|Hc]; [by left|right].
  destruct (is_digit c) eqn:E; [done|exfalso]. unfold json_number in H.
  assert (span is_digit (match c :: t with 45 :: r => r | _ => c :: t end) = ([], c :: t)) as E'.
  { transitivity (span is_digit (c :: t)); [|cbn; by rewrite E].
    destruct c as [|p|p]; try done. repeat (destruct p as [p|p|]; try done). }
  by rewrite E' in H.
Qed.

(** A number token is no other token. *)
Lemma scalar_number c (t : jsstr) :
  (c = 45 ∨ is_digit c = true) →
  json_ws c = false ∧
  (∀ n, parse_value (S n) (c :: t) =
    let '(u, r) := span num_unit (c :: t) in
    if json_number u then Some (JNum (num_of_str u), r) else None).
Proof.
  intros Hc. assert (45 ≤ c ≤ 57 ∧ c ≠ 46 ∧ c ≠ 47) as Hr.
  { destruct Hc as [->|Hc]; [lia|]. unfold is_digit in Hc. lia. }
  assert (json_ws c = false) as Hw by (unfold json_ws; lia).
  split; [done|]. intros n. cbn [parse_value skip_ws]. rewrite Hw.
  assert (c = 45 ∨ c = 48 ∨ c = 49 ∨ c = 50 ∨ c = 51 ∨ c = 52 ∨ c = 53 ∨ c = 54 ∨ c = 55
          ∨ c = 56 ∨ c = 57) as Hin by lia.
  repeat (destruct Hin as [->|Hin]; [reflexivity|]). subst c. reflexivity.
Qed.

Lemma reads_ws w t v : Forall (λ c, json_ws c = true) w → reads t v → reads (w ++ t) v.
Proof. intros Hw Ht n r Hn Hr. rewrite <- app_assoc, parse_value_ws by done. by apply Ht. Qed.

Lemma quote_app s r : json_quote s ++ r = 34 :: json_chars s ++ 34 :: r.
Proof. unfold json_quote, cat. cbn. by rewrite <- app_assoc. Qed.

Lemma reads_scalar v :
  json_ok v → (match v with JArr _ | JObj _ => False | _ => True end) →
  reads (json_pretty 0 v) v.
Proof.
  intros Hv Hs [|n] r Hn Hr; [by destruct v; inversion Hn|].
  destruct v as [|[]|x|s|l|l]; try done.
  - cbn [json_ok] in Hv. apply andb_true_iff in Hv as [[Hu Ht]%andb_true_iff Hx].
    apply bool_decide_eq_true in Hx.
    assert (json_pretty 0 (JNum x) = num_str x) as ->
      by (clear -Ht; by destruct x as [?|[]| |]).
    destruct (json_number_head _ Ht) as (c & t & E & Hc). rewrite E in *.
    destruct (scalar_number c (t ++ r) Hc) as [_ Ep].
    change ((c :: t) ++ r) with (c :: t ++ r). rewrite Ep.
    change (c :: t ++ r) with ((c :: t) ++ r). rewrite span_all by done. by rewrite Ht, Hx.
  - cbn [json_pretty]. rewrite quote_app. cbn. by rewrite string_body_chars.
Qed.

Definition ws_run (w : jsstr) : Prop := Forall (λ c, json_ws c = true) w.
Definition sizes (l : list json) : nat := list_sum (map (λ v, S (json_size v)) l).

Lemma ws_stops c : json_ws c = true → num_unit c = false.
Proof. unfold json_ws, num_unit, is_digit. lia. Qed.
Lemma stops_ws w c r : ws_run w → num_unit c = false → stops (w ++ c :: r).
Proof. intros [|d w' Hd _] Hc; cbn; [done|by apply ws_stops]. Qed.

Lemma parse_elems_ws n w s : ws_run w → parse_elems n (w ++ s) = parse_elems n s.
Proof. intros Hw. destruct n; [done|]. cbn [parse_elems]. by rewrite parse_value_ws. Qed.
Lemma parse_members_ws n w s : ws_run w → parse_members n (w ++ s) = parse_members n s.
Proof. intros Hw. destruct n; [done|]. cbn [parse_members]. by rewrite skip_ws_app. Qed.

(** The elements after the bracket of an array; likewise the members of an object below. *)
Lemma elems_read w w' items l r n :
  ws_run w → ws_run w' → items ≠ [] → Forall2 reads items l → (sizes l ≤ n)%nat →
  parse_elems n (join (44 :: w) items ++ w' ++ 93 :: r) = Some (l, r).
Proof.
  intros Hw Hw' Hne Hl. revert n Hne.
  induction Hl as [|t v ts l Ht Hl IH]; intros n Hne Hn; [done|].
  unfold sizes in *. cbn [map list_sum foldr] in Hn. destruct n as [|n]; [lia|].
  cbn [parse_elems]. destruct ts as [|t' ts].
  - inversion Hl; subst. cbn [join]. rewrite Ht; [|lia|by apply stops_ws].
    cbn [mbind option_bind]. rewrite skip_ws_app by done. done.
  - rewrite join_cons, <- !app_assoc by done. rewrite Ht; [|lia|done].
    cbn [mbind option_bind app skip_ws]. change (json_ws 44) with false. cbv iota.
    rewrite parse_elems_ws, IH; [done|done|unfold list_sum in *; lia|done].
Qed.

Lemma members_read w w' items l r n :
  ws_run w → ws_run w' → items ≠ [] → Forall2 member_reads items l →
  (sizes (map snd l) ≤ n)%nat →
  parse_members n (join (44 :: w) items ++ w' ++ 125 :: r) = Some (l, r).
Proof.
  intros Hw Hw' Hne Hl. revert n Hne.
  induction Hl as [|t [k v] ts l Ht Hl IH]; intros n Hne Hn; [done|].
  unfold sizes in *. cbn [map list_sum foldr snd] in Hn. destruct n as [|n]; [lia|].
  destruct Ht as (u & t' & Hu & Hk & -> & Ht). cbn [fst snd] in *.
  cbn [parse_members]. destruct ts as [|t2 ts].
  - inversion Hl; subst. cbn [join]. rewrite <- app_assoc, quote_app. cbn [skip_ws].
    change (json_ws 34) with false. cbv iota. rewrite string_body_chars by done.
    cbn [mbind option_bind app skip_ws]. change (json_ws 58) with false. cbv iota.
    rewrite <- app_assoc, parse_value_ws, Ht; [|lia|by apply stops_ws|done].
    cbn [mbind option_bind]. rewrite skip_ws_app by done. done.
  - rewrite join_cons, <- !app_assoc, quote_app by done. cbn [skip_ws].
    change (json_ws 34) with false. cbv iota. rewrite string_body_chars by done.
    cbn [mbind option_bind app skip_ws]. change (json_ws 58) with false. cbv iota.
    rewrite <- !app_assoc, parse_value_ws, Ht; [|lia|done|done].
    cbn [mbind option_bind app skip_ws]. change (json_ws 44) with false. cbv iota.
    rewrite parse_members_ws, IH; [done|done|unfold list_sum in *; lia|done].
Qed.

(** The first unit of a text, and of a list of texts. *)
Lemma skip_ws_head a c t b : skip_ws a = c :: t → ∃ x, skip_ws (a ++ b) = c :: x.
Proof.
  induction a as [|d a IH]; intros E; [done|]. cbn in *. destruct (json_ws d); [auto|].
  injection E as -> _. eauto.
Qed.
Lemma skip_ws_join sep t ts c u b :
  skip_ws t = c :: u → ∃ x, skip_ws (join sep (t :: ts) ++ b) = c :: x.
Proof.
  intros E. destruct ts; [by eapply skip_ws_head|].
  rewrite join_cons, <- app_assoc by done. by eapply skip_ws_head.
Qed.
Lemma reads_head t v : reads t v → ∃ c u, skip_ws t = c :: u ∧ c ≠ 93.
Proof.
  intros H. specialize (H (S (json_size v)) [] ltac:(lia) I). rewrite app_nil_r in H.
  cbn [parse_value] in H. destruct (skip_ws t) as [|c u]; [done|].
  exists c, u. split; [done|]. by intros ->.
Qed.

(** A text of an array or an object: its brackets around the texts of its parts, with white
    space between the tokens. *)
Definition bracketed (o c : Z) (w1 w w' : jsstr) (items : list jsstr) : jsstr :=
  match items with [] => [o; c] | _ => o :: w1 ++ join (44 :: w) items ++ w' ++ [c] end.

Lemma reads_arr w1 w w' items l :
  ws_run w1 → ws_run w → ws_run w' → Forall2 reads items l →
  reads (bracketed 91 93 w1 w w' items) (JArr l).
Proof.
  intros H1 Hw Hw' Hl [|n] r Hn Hr; [inversion Hn|].
  destruct items as [|t ts]; [inversion Hl; subst; done|].
  cbn [bracketed parse_value app skip_ws]. change (json_ws 91) with false. cbv iota.
  rewrite <- !app_assoc, (skip_ws_app w1) by done. cbn [app].
  assert (∃ c u, skip_ws t = c :: u ∧ c ≠ 93) as (c & u & Ec & Hc)
    by (inversion Hl; subst; by eapply reads_head).
  destruct (skip_ws_join (44 :: w) t ts c u (w' ++ 93 :: r) Ec) as [x ->].
  rewrite parse_elems_ws, elems_read with (l := l) by (done || cbn in Hn; unfold sizes; lia).
  cbn [mbind option_bind].
  destruct c as [|p|p]; try done. repeat (destruct p as [p|p|]; try done).
Qed.

Lemma reads_obj w1 w w' items l :
  ws_run w1 → ws_run w → ws_run w' → Forall2 member_reads items l →
  reads (bracketed 123 125 w1 w w' items) (JObj l).
Proof.
  intros H1 Hw Hw' Hl [|n] r Hn Hr; [inversion Hn|].
  destruct items as [|t ts]; [inversion Hl; subst; done|].
  cbn [bracketed parse_value app skip_ws]. change (json_ws 123) with false. cbv iota.
  rewrite <- !app_assoc, (skip_ws_app w1) by done. cbn [app].
  assert (∃ u, skip_ws t = 34 :: u) as [u Ec].
  { inversion Hl as [|? kv ? ? Ht]; subst. destruct Ht as (? & ? & _ & _ & -> & _).
    rewrite quote_app. eauto. }
  destruct (skip_ws_join (44 :: w) t ts 34 u (w' ++ 125 :: r) Ec) as [x ->].
  assert (sizes (map snd l) ≤ n)%nat as Hs
    by (unfold sizes; rewrite map_map; cbn in Hn; lia).
  by rewrite parse_members_ws, members_read with (l := l).
Qed.

(** *** The two texts of a value *)

Lemma join_shift w c items :
  items ≠ [] → join [c; 10] (map (app w) items) = w ++ join (c :: 10 :: w) items.
Proof.
  induction items as [|t ts IH]; intros H; [done|]. destruct ts as [|t' ts]; [done|].
  cbn [map]. rewrite !join_cons by done. cbn [map] in IH. rewrite IH by done.
  rewrite (join_cons (c :: 10 :: w) t) by done.
  by rewrite <- !app_assoc.
Qed.

Lemma block_bracketed n (o c : Z) items :
  json_block n [o] [c] items =
    bracketed o c (10 :: indent (S n)) (10 :: indent (S n)) (10 :: indent n) items.
Proof.
  destruct items as [|t ts]; [done|]. unfold json_block, bracketed.
  rewrite join_shift by done. cbn [app]. by rewrite <- !app_assoc.
Qed.

Lemma indent_ws n : ws_run (indent n).
Proof. unfold indent, ws_run. induction (2 * n)%nat; by constructor. Qed.
Lemma ws_nil : ws_run [].
Proof. constructor. Qed.
Lemma ws_cons c w : json_ws c = true → ws_run w → ws_run (c :: w).
Proof. by constructor. Qed.
#[local] Hint Resolve indent_ws ws_nil ws_cons : core.
#[local] Hint Extern 1 (json_ws _ = true) => reflexivity : core.

Lemma Forall_id {A} (P : A → Prop) l : Forall id (map P l) ↔ Forall P l.
Proof. rewrite Forall_map. done. Qed.

(** The indented text reads as the value, at every depth. *)
Lemma pretty_reads v : json_ok v → ∀ k, reads (json_pretty k v) v.
Proof.
  induction v as [|b|x|s|l IH|l IH] using json_nested_ind; intros Hv k;
    try (by apply reads_scalar).
  - change (json_pretty k (JArr l)) with (json_block k [91] [93] (map (json_pretty (S k)) l)).
    rewrite block_bracketed. apply reads_arr; auto.
    cbn [json_ok] in Hv. rewrite Forall_id in Hv. rewrite Forall_forall in IH, Hv.
    apply Forall2_fmap_l, Forall_Forall2_diag, Forall_forall. intros v Hin. by apply IH, Hv.
  - change (json_pretty k (JObj l)) with (json_block k [123] [125]
      (map (λ kv, json_quote (fst kv) ++ ": " ++ json_pretty (S k) (snd kv)) l)).
    rewrite block_bracketed. apply reads_obj; auto.
    cbn [json_ok] in Hv. rewrite Forall_id in Hv. rewrite Forall_forall in IH, Hv.
    apply Forall2_fmap_l, Forall_Forall2_diag, Forall_forall. intros kv Hin.
    destruct (Hv kv Hin) as [Hk Hok].
    exists [32], (json_pretty (S k) (snd kv)). split_and!; auto; apply ws_nil || (apply ws_cons; auto).
Qed.

(** The compact text likewise. *)
Lemma text_reads v : json_ok v → reads (json_text v) v.
Proof.
  induction v as [|b|x|s|l IH|l IH] using json_nested_ind; intros Hv;
    try (by apply reads_scalar).
  - assert (json_text (JArr l) = bracketed 91 93 [] [] [] (map json_text l)) as ->
      by (by destruct l).
    apply reads_arr; auto.
    cbn [json_ok] in Hv. rewrite Forall_id in Hv. rewrite Forall_forall in IH, Hv.
    apply Forall2_fmap_l, Forall_Forall2_diag, Forall_forall. intros v Hin. by apply IH, Hv.
  - assert (json_text (JObj l) = bracketed 123 125 [] [] []
      (map (λ kv, json_quote (fst kv) ++ ":" ++ json_text (snd kv)) l)) as -> by (by destruct l).
    apply reads_obj; auto.
    cbn [json_ok] in Hv. rewrite Forall_id in Hv. rewrite Forall_forall in IH, Hv.
    apply Forall2_fmap_l, Forall_Forall2_diag, Forall_forall. intros kv Hin.
    destruct (Hv kv Hin) as [Hk Hok].
    exists [], (json_text (snd kv)). split_and!; auto; apply ws_nil || (apply ws_cons; auto).
Qed.

(** A text is at least as long as its value's size, the fuel it takes to read it. *)
Lemma bracketed_length o c w1 w w' items (ms : list nat) :
  Forall2 (λ t m, (m ≤ length t)%nat) items ms →
  (S (list_sum (map S ms)) ≤ length (bracketed o c w1 w w' items))%nat.
Proof.
  intros H. destruct items as [|t ts]; [inversion H; cbn; lia|]. cbn [bracketed length].
  rewrite !length_app. cbn [length].
  assert (list_sum (map S ms) ≤ S (length (join (44%Z :: w) (t :: ts))))%nat; [|lia].
  revert ms H. generalize dependent t.
  induction ts as [|t' ts IH]; intros t ms H; inversion H as [|? m ? ms' Hm H']; subst.
  - inversion H'; subst. cbn. lia.
  - rewrite join_cons, !length_app by done. specialize (IH t' ms' H').
    cbn [map list_sum foldr length]. unfold list_sum in *. lia.
Qed.

Lemma pretty_length v : ∀ k, json_ok v → (json_size v ≤ length (json_pretty k v))%nat.
Proof.
  assert (∀ x, json_ok (JNum x) → 1 ≤ length (num_str x))%nat as Hx.
  { intros x [[_ Ht]%andb_true_iff _]%andb_true_iff.
    destruct (json_number_head _ Ht) as (c & t & -> & _). cbn. lia. }
  induction v as [|[]|x|s|l IH|l IH] using json_nested_ind; intros k Hv;
    try (apply Nat.leb_le; reflexivity).
  - specialize (Hx x Hv). destruct x; try exact Hx; apply Nat.leb_le; reflexivity.
  - change (json_pretty k (JArr l)) with (json_block k [91] [93] (map (json_pretty (S k)) l)).
    rewrite block_bracketed. cbn [json_size].
    rewrite <- (map_map json_size S). apply bracketed_length.
    apply Forall2_fmap, Forall_Forall2_diag. cbn [json_ok] in Hv. rewrite Forall_id in Hv.
    rewrite Forall_forall in *. auto.
  - change (json_pretty k (JObj l)) with (json_block k [123] [125]
      (map (λ kv, json_quote (fst kv) ++ ": " ++ json_pretty (S k) (snd kv)) l)).
    rewrite block_bracketed. cbn [json_size].
    rewrite <- (map_map (λ kv, json_size (snd kv)) S). apply bracketed_length.
    apply Forall2_fmap, Forall_Forall2_diag. cbn [json_ok] in Hv. rewrite Forall_id in Hv.
    rewrite Forall_forall in *. intros kv Hin. rewrite !length_app.
    specialize (IH kv Hin (S k) (proj2 (Hv kv Hin))). lia.
Qed.

Lemma text_length v : json_ok v → (json_size v ≤ length (json_text v))%nat.
Proof.
  induction v as [|b|x|s|l IH|l IH] using json_nested_ind; intros Hv;
    try (apply (pretty_length _ 0 Hv)).
  - assert (json_text (JArr l) = bracketed 91 93 [] [] [] (map json_text l)) as ->
      by (by destruct l).
    cbn [json_size]. rewrite <- (map_map json_size S). apply bracketed_length.
    apply Forall2_fmap, Forall_Forall2_diag. cbn [json_ok] in Hv. rewrite Forall_id in Hv.
    rewrite Forall_forall in *. auto.
  - assert (json_text (JObj l) = bracketed 123 125 [] [] []
      (map (λ kv, json_quote (fst kv) ++ ":" ++ json_text (snd kv)) l)) as -> by (by destruct l).
    cbn [json_size]. rewrite <- (map_map (λ kv, json_size (snd kv)) S). apply bracketed_length.
    apply Forall2_fmap, Forall_Forall2_diag. cbn [json_ok] in Hv. rewrite Forall_id in Hv.
    rewrite Forall_forall in *. intros kv Hin. rewrite !length_app.
    specialize (IH kv Hin (proj2 (Hv kv Hin))). lia.
Qed.

Lemma reads_parse t v : reads t v → (json_size v ≤ length t)%nat → json_parse t = Some v.
Proof.
  intros H Hn. unfold json_parse. specialize (H (S (length t)) [] ltac:(lia) I).
  rewrite app_nil_r in H. by rewrite H.
Qed.

(** What is written reads back: the text on one line, which a request carries, and the
    indented text, which a dialog shows. *)
Lemma parse_text v : json_ok v → json_parse (json_text v) = Some v.
Proof. intros H. by apply reads_parse, text_length; [apply text_reads|]. Qed.
Lemma parse_pretty v : json_ok v → json_parse (json_pretty 0 v) = Some v.
Proof. intros H. by apply reads_parse, pretty_length; [apply pretty_reads|]. Qed.

Lemma pretty_inj v w :
  json_ok v → json_ok w → json_pretty 0 v = json_pretty 0 w → v = w.
Proof. intros Hv Hw E. apply parse_pretty in Hv, Hw. congruence. Qed.

(** The test decides what JSON can carry. *)
Lemma units_tested s : forallb unit16b s = true → Forall unit16 s.
Proof.
  rewrite forallb_forall, Forall_forall. intros H c Hc. apply list_elem_of_In in Hc.
  specialize (H c Hc). unfold unit16b, unit16 in *. lia.
Qed.
Lemma json_ok_tested v : json_okb v = true → json_ok v.
Proof.
  induction v as [|b|x|s|l IH|l IH] using json_nested_ind; cbn [json_ok json_okb]; try done.
  - apply units_tested.
  - rewrite forallb_forall, Forall_id. rewrite !Forall_forall in *. intros H v Hv.
    by apply IH, H, list_elem_of_In.
  - rewrite forallb_forall, Forall_id. rewrite !Forall_forall in *. intros H kv Hv.
    apply list_elem_of_In in Hv as Hin. apply H, andb_true_iff in Hin as [H1 H2].
    split; [by apply units_tested|by apply IH].
Qed.
