(* ===== verification/ApiClient.v ===== *)
(** The fetch surface of the client (web/src/api/client.ts): the requests each member of [api]
    makes, and the mapping of the server's responses to values and rejections. *)

From S2P Require Import Prelude JsNumber Uri Json React Types.

(** ** Requests *)

Inductive method := GET | POST | PUT | PATCH | DELETE.

Definition doc_text (d : knowledge_doc) : jsstr :=
  match d with Soul => "soul" | Project => "project" end.

(** The members of [api], with their arguments. *)
Inductive call :=
| getAgents
| getAgentStatus (id : jsstr)
| getRuns (id : jsstr)
| getCost (id : jsstr)
| getMemory (id audience : jsstr)
| getAutomation (id : jsstr)
| getAudit (id : jsstr)
| getApprovals (id : jsstr)
| approve (id : jsstr) (approvalId : Z)
| reject (id : jsstr) (approvalId : Z)
| getConfig (id : jsstr)
| saveProfile (id text : jsstr)
| saveMarkdown (id : jsstr) (which : knowledge_doc) (text : jsstr)
| triggerRun (id kind audience : jsstr) (dry_run : bool)
| getPacks
| createAgent (spec : CreateAgentSpec)
| setAgentEnabled (id : jsstr) (enabled : bool)
| deleteAgent (id : jsstr)
| getUnregisteredProfiles
| registerExistingProfile (id : jsstr)
| getIntegrationHealth
| getTeamAlerts
| getCompany
| saveCompany (name : jsstr) (coordinatorId : option jsstr) (teamTaskCapUsd : option num)
    (teamTaskAutoConfirm : option bool)
| getAssignableStaff
| assignPreview (brief roomId : jsstr)
| getWorkrooms
| roomChat (roomId message : jsstr)
| roomConfirmAdjust (roomId taskId amendmentId : jsstr)
| getCoordinatorHealth
| getRoomArtifacts (roomId : jsstr)
| getStepArtifact (taskId : jsstr) (seq : Z)
| assignConfirm (taskId planHash : jsstr)
| assignCancel (taskId : jsstr)
| getStaffTemplates
| opsChatAvailable
| opsChat (message : jsstr)
| getTasks
| cancelTask (agentId : jsstr) (taskId : Z)
| getMe
| login (username password : jsstr)
| logout
| setupStatus
| setupEnv (values : gmap jsstr jsstr)
| setupTest (group : jsstr)
| setupFinish (username password : jsstr)
| bindTelegram (agentId token : jsstr) (chatIds : list jsstr)
| telegramRecentChats (agentId token : jsstr)
| getKnowledge (agentId : jsstr) (doc : knowledge_doc)
| putKnowledgeForm (agentId : jsstr) (doc : knowledge_doc) (fields : gmap jsstr jsstr)
| putKnowledgeRaw (agentId : jsstr) (doc : knowledge_doc) (raw : jsstr)
| getSkills (agentId : jsstr)
| putSkills (agentId : jsstr) (names : list jsstr)
| listCompanyDocs
| getCompanyDoc (slug : jsstr)
| createCompanyDoc (title body updated : jsstr)
| updateCompanyDoc (slug title body updated : jsstr)
| deleteCompanyDoc (slug : jsstr)
| getAgentCompanyDocs (agentId : jsstr)
| putAgentCompanyDocs (agentId : jsstr) (slugs : list jsstr)
| getOfficeRooms.

Record http_request := { rq_method : method; rq_path : jsstr; rq_body : option json }.

(** JSON bodies: a field that is [undefined] is left out; the members of a finite map are
    listed in the map's order. *)
Definition field (k : jsstr) (v : option json) : list (jsstr * json) :=
  match v with Some v => [(k, v)] | None => [] end.
Definition jstrs (l : list jsstr) : json := JArr (map JStr l).
Definition jmap (m : gmap jsstr jsstr) : json :=
  JObj (map (λ kv, (fst kv, JStr (snd kv))) (map_to_list m)).
Definition jobj (l : list (jsstr * jsstr)) : json := JObj (map (λ kv, (fst kv, JStr (snd kv))) l).
Definition jnullable (o : option jsstr) : json :=
  match o with Some s => JStr s | None => JNull end.

Definition bindings_json (b : CreateAgentBindings) : json :=
  JObj (
    field "jira" (option_map (λ k, JObj (field "project_key" (option_map JStr k))) (b_jira b))
    ++ field "confluence" (option_map (λ c, JObj (
         field "space_key" (option_map JStr (cb_space_key c))
         ++ field "space_id" (option_map JStr (cb_space_id c))
         ++ field "okr_page_id" (option_map JStr (cb_okr_page_id c)))) (b_confluence b))
    ++ field "github" (option_map (λ r, JObj (field "repo" (option_map JStr r))) (b_github b))
    ++ field "slack" (option_map (λ s, JObj (
         field "report_channel" (option_map JStr (sb_report_channel s))
         ++ field "stakeholder_channel" (option_map JStr (sb_stakeholder_channel s))
         ++ field "external_channels" (option_map jstrs (sb_external_channels s)))) (b_slack b))).

Definition spec_json (s : CreateAgentSpec) : json :=
  JObj ([("id", JStr (sp_id s)); ("name", JStr (sp_name s)); ("domain", JStr (sp_domain s));
         ("reports", jstrs (sp_reports s)); ("schedule", jobj (sp_schedule s));
         ("bindings", bindings_json (sp_bindings s))]
        ++ field "persona" (option_map JStr (sp_persona s))
        ++ field "web_search" (option_map JBool (sp_web_search s))).

Definition request_of (p : jsstr) : option http_request :=
  Some {| rq_method := GET; rq_path := p; rq_body := None |}.
Definition send (m : method) (p : jsstr) (b : option json) : option http_request :=
  Some {| rq_method := m; rq_path := p; rq_body := b |}.
(** What [fetch] puts on the wire as the body: the JSON text of the payload, or nothing. *)
Definition body_text (rq : http_request) : option jsstr := json_text <$> rq_body rq.
Definition post := send POST.
Definition put := send PUT.

(** The request of a call; [None]: [encodeURIComponent] throws. *)
Definition route (c : call) : option http_request :=
  match c with
  | getAgents => request_of "/api/agents"
  | getAgentStatus id => request_of (cat ["/api/agents/"; id; "/status"])
  | getRuns id => request_of (cat ["/api/runs/"; id])
  | getCost id => request_of (cat ["/api/cost/"; id])
  | getMemory id audience =>
      e ← encodeURIComponent audience; request_of (cat ["/api/memory/"; id; "?audience="; e])
  | getAutomation id => request_of (cat ["/api/automation/"; id])
  | getAudit id => request_of (cat ["/api/audit/"; id])
  | getApprovals id => request_of (cat ["/api/agents/"; id; "/approvals"])
  | approve id n => post (cat ["/api/agents/"; id; "/approvals/"; id_text n; "/approve"]) None
  | reject id n => post (cat ["/api/agents/"; id; "/approvals/"; id_text n; "/reject"]) None
  | getConfig id => request_of (cat ["/api/agents/"; id; "/config"])
  | saveProfile id text =>
      post (cat ["/api/agents/"; id; "/config/profile"]) (Some (JObj [("text", JStr text)]))
  | saveMarkdown id which text =>
      post (cat ["/api/agents/"; id; "/config/"; doc_text which])
        (Some (JObj [("text", JStr text)]))
  | triggerRun id kind audience dry_run =>
      post (cat ["/api/agents/"; id; "/trigger"])
        (Some (JObj [("kind", JStr kind); ("audience", JStr audience); ("dry_run", JBool dry_run)]))
  | getPacks => request_of "/api/packs"
  | createAgent spec => post "/api/agents/create" (Some (spec_json spec))
  | setAgentEnabled id enabled =>
      send PATCH (cat ["/api/agents/"; id; "/enabled"]) (Some (JObj [("enabled", JBool enabled)]))
  | deleteAgent id => send DELETE (cat ["/api/agents/"; id]) None
  | getUnregisteredProfiles => request_of "/api/agents/unregistered"
  | registerExistingProfile id => post (cat ["/api/agents/"; id; "/register"]) (Some (JObj []))
  | getIntegrationHealth => request_of "/api/health/integrations"
  | getTeamAlerts => request_of "/api/team/alerts"
  | getCompany => request_of "/api/company"
  | saveCompany name coordinatorId cap auto =>
      post "/api/company" (Some (JObj (
        [("name", JStr name); ("coordinator_id", jnullable coordinatorId)]
        ++ field "team_task_cap_usd" (option_map JNum cap)
        ++ field "team_task_auto_confirm" (option_map JBool auto))))
  | getAssignableStaff => request_of "/api/office/assign/staff"
  | assignPreview brief roomId =>
      post "/api/office/assign/preview"
        (Some (JObj [("brief", JStr brief); ("room_id", JStr roomId)]))
  | getWorkrooms => request_of "/api/office/workrooms"
  | roomChat roomId message =>
      post (cat ["/api/office/rooms/"; roomId; "/chat"]) (Some (JObj [("message", JStr message)]))
  | roomConfirmAdjust roomId taskId amendmentId =>
      post (cat ["/api/office/rooms/"; roomId; "/chat/confirm-adjust"])
        (Some (JObj [("task_id", JStr taskId); ("amendment_id", JStr amendmentId)]))
  | getCoordinatorHealth => request_of "/api/health/coordinator"
  | getRoomArtifacts roomId => request_of (cat ["/api/office/rooms/"; roomId; "/artifacts"])
  | getStepArtifact taskId seq =>
      request_of (cat ["/api/office/tasks/"; taskId; "/steps/"; id_text seq; "/artifact"])
  | assignConfirm taskId planHash =>
      post "/api/office/assign/confirm"
        (Some (JObj [("task_id", JStr taskId); ("plan_hash", JStr planHash)]))
  | assignCancel taskId =>
      post "/api/office/assign/cancel" (Some (JObj [("task_id", JStr taskId)]))
  | getStaffTemplates => request_of "/api/staff-templates"
  | opsChatAvailable => request_of "/api/ops/chat/available"
  | opsChat message => post "/api/ops/chat" (Some (JObj [("message", JStr message)]))
  | getTasks => request_of "/api/tasks"
  | cancelTask agentId taskId =>
      e ← encodeURIComponent agentId;
      post (cat ["/api/tasks/"; e; "/"; id_text taskId; "/cancel"]) None
  | getMe => request_of "/api/me"
  | login username password =>
      post "/api/login" (Some (JObj [("username", JStr username); ("password", JStr password)]))
  | logout => post "/api/logout" None
  | setupStatus => request_of "/api/setup/status"
  | setupEnv values => post "/api/setup/env" (Some (jmap values))
  | setupTest group => post (cat ["/api/setup/test/"; group]) None
  | setupFinish username password =>
      post "/api/setup/finish"
        (Some (JObj [("username", JStr username); ("password", JStr password)]))
  | bindTelegram agentId token chatIds =>
      e ← encodeURIComponent agentId;
      post (cat ["/api/agents/"; e; "/telegram"])
        (Some (JObj [("token", JStr token); ("chat_ids", jstrs chatIds)]))
  | telegramRecentChats agentId token =>
      e ← encodeURIComponent agentId;
      post (cat ["/api/agents/"; e; "/telegram/updates"]) (Some (JObj [("token", JStr token)]))
  | getKnowledge agentId doc =>
      e ← encodeURIComponent agentId;
      request_of (cat ["/api/agents/"; e; "/knowledge/"; doc_text doc])
  | putKnowledgeForm agentId doc fields =>
      e ← encodeURIComponent agentId;
      put (cat ["/api/agents/"; e; "/knowledge/"; doc_text doc])
        (Some (JObj [("fields", jmap fields)]))
  | putKnowledgeRaw agentId doc raw =>
      e ← encodeURIComponent agentId;
      put (cat ["/api/agents/"; e; "/knowledge/"; doc_text doc]) (Some (JObj [("raw", JStr raw)]))
  | getSkills agentId =>
      e ← encodeURIComponent agentId; request_of (cat ["/api/agents/"; e; "/skills"])
  | putSkills agentId names =>
      e ← encodeURIComponent agentId;
      put (cat ["/api/agents/"; e; "/skills"]) (Some (JObj [("names", jstrs names)]))
  | listCompanyDocs => request_of "/api/company-docs"
  | getCompanyDoc slug =>
      e ← encodeURIComponent slug; request_of (cat ["/api/company-docs/"; e])
  | createCompanyDoc title body updated =>
      post "/api/company-docs"
        (Some (JObj [("title", JStr title); ("body", JStr body); ("updated", JStr updated)]))
  | updateCompanyDoc slug title body updated =>
      e ← encodeURIComponent slug;
      put (cat ["/api/company-docs/"; e])
        (Some (JObj [("title", JStr title); ("body", JStr body); ("updated", JStr updated)]))
  | deleteCompanyDoc slug =>
      e ← encodeURIComponent slug; send DELETE (cat ["/api/company-docs/"; e]) None
  | getAgentCompanyDocs agentId =>
      e ← encodeURIComponent agentId; request_of (cat ["/api/agents/"; e; "/company-docs"])
  | putAgentCompanyDocs agentId slugs =>
      e ← encodeURIComponent agentId;
      put (cat ["/api/agents/"; e; "/company-docs"]) (Some (JObj [("slugs", jstrs slugs)]))
  | getOfficeRooms => request_of "/api/office/rooms"
  end.

(** ** Responses *)

(** What [fetch] gives: a rejection (its message), or a response whose body parses as JSON or
    rejects with a [SyntaxError] (its message). *)
Inductive response :=
| FetchFails (message : jsstr)
| Responds (status : Z) (body : json + jsstr).

Definition res_ok (status : Z) : bool := (200 <=? status) && (status <=? 299).

Definition json_body (body : json + jsstr) : result json :=
  match body with inl v => Ok v | inr msg => Err (JsError msg) end.

(** The outcome of a call, and whether it invoked the handler of [setUnauthorizedHandler]. *)
Record outcome := { oc_result : result json; oc_unauthorized : bool }.

Definition friendlyError (status : Z) (detail : option jsstr) : jsstr :=
  let base :=
    if 500 <=? status then "Máy chủ đang gặp lỗi, thử lại sau."
    else if status =? 404 then "Không tìm thấy dữ liệu."
    else if status =? 403 then "Bạn không có quyền làm việc này."
    else cat ["Có lỗi ("; z_str status; ")."] in
  match present detail with
  | Some d => if bool_decide (d = z_str status) then base else cat [base; " ("; d; ")"]
  | None => base
  end.

Definition unauthorized : outcome :=
  {| oc_result := Err (ApiError 401 "chưa đăng nhập"); oc_unauthorized := true |}.

Definition request (res : response) : outcome :=
  match res with
  | FetchFails msg => {| oc_result := Err (JsError msg); oc_unauthorized := false |}
  | Responds status body =>
      if status =? 401 then unauthorized
      else if negb (res_ok status)
      then {| oc_result := Err (ApiError status (friendlyError status None));
              oc_unauthorized := false |}
      else {| oc_result := json_body body; oc_unauthorized := false |}
  end.

(** Truthiness of a JSON value. *)
Definition json_truthy (v : json) : bool :=
  match v with
  | JNull => false
  | JBool b => b
  | JNum x => negb (num_is_nan x || num_eqb x (num_Z 0))
  | JStr s => truthy s
  | JArr _ | JObj _ => true
  end.

(** [j.detail] of a parsed body: absent for a value that is no object; on [null] the access
    throws, which the [catch] turns into no detail as well. *)
Definition json_get (k : jsstr) (v : json) : option json :=
  match v with
  | JObj l => option_map snd (find (λ kv, bool_decide (fst kv = k)) (rev l))
  | _ => None
  end.

Definition error_detail (body : json + jsstr) : option json :=
  match body with
  | inl j => d ← json_get "detail" j; if json_truthy d then Some d else None
  | inr _ => None
  end.

Definition mutate (path : jsstr) (res : response) : outcome :=
  match res with
  | FetchFails msg => {| oc_result := Err (JsError msg); oc_unauthorized := false |}
  | Responds status body =>
      if (status =? 401) && negb (bool_decide (path = "/api/login")) then unauthorized
      else if negb (res_ok status)
      then {| oc_result := Err (ApiError status
                match error_detail body with
                | Some d => js_String d
                | None => friendlyError status None
                end);
              oc_unauthorized := false |}
      else {| oc_result := json_body body; oc_unauthorized := false |}
  end.

(** A call against a server: [None] when the URL cannot be built. *)
Definition perform (server : http_request → response) (c : call) : option outcome :=
  rq ← route c;
  Some match rq_method rq with
       | GET => request (server rq)
       | _ => mutate (rq_path rq) (server rq)
       end.

(** ** Theorems: outcomes *)

(** The texts of integers play no role in the shape of a path. *)
Ltac any_number :=
  repeat match goal with
  | H : context [id_text ?n] |- _ => revert H; let t := fresh "t" in generalize (id_text n) as t; intros t H
  | |- context [id_text ?n] => let t := fresh "t" in generalize (id_text n) as t; intros t
  end.

Definition is_login (c : call) : bool := match c with login _ _ => true | _ => false end.

Lemma route_login c rq :
  route c = Some rq → rq_path rq = "/api/login" ↔ is_login c = true.
Proof.
  intros H. destruct c; cbn [is_login]; (split; [|try done]); intros Hp; try done;
    cbn [route] in H; try (apply bind_Some in H as (? & _ & H));
    injection H as <-; any_number; vm_compute in Hp; try discriminate Hp; vm_compute; reflexivity.
Qed.

Lemma route_login_post c rq : route c = Some rq → is_login c = true → rq_method rq = POST.
Proof. destruct c; try done. by intros [= <-] _. Qed.

Lemma route_get c rq : route c = Some rq → rq_method rq = GET → rq_body rq = None.
Proof.
  intros H. destruct c; cbn [route] in H; try (apply bind_Some in H as (? & _ & H));
    by injection H as <-.
Qed.

(** [o] is the outcome of response [res] for a call that is the login or not. *)
Definition maps_response (is_log : bool) (res : response) (o : outcome) : Prop :=
  (∀ v, oc_result o = Ok v ↔ ∃ status, res = Responds status (inl v) ∧ res_ok status = true) ∧
  (oc_unauthorized o = true ↔ is_log = false ∧ ∃ body, res = Responds 401 body) ∧
  (∀ status body, res = Responds status body → res_ok status = false →
     ∃ msg, oc_result o = Err (ApiError status msg)) ∧
  (∀ msg, res = FetchFails msg → oc_result o = Err (JsError msg)).

Lemma maps_fail b msg : maps_response b (FetchFails msg) {| oc_result := Err (JsError msg); oc_unauthorized := false |}.
Proof. split_and!; cbn; [|split|..]; naive_solver. Qed.

Lemma maps_unauthorized body : maps_response false (Responds 401 body) unauthorized.
Proof.
  split_and!; cbn; [intros v; split; [done|]|split; [eauto|done]|..].
  - by intros (status & [= <- _] & ?).
  - intros ? ? [= <- <-] _. eauto.
  - done.
Qed.

Lemma maps_error b status body msg :
  res_ok status = false → (status = 401 → b = true) →
  maps_response b (Responds status body)
    {| oc_result := Err (ApiError status msg); oc_unauthorized := false |}.
Proof.
  intros Hs Hb. split_and!; cbn; [intros v; split; [done|]|split; [done|]|..].
  - intros (? & [= <- _] & ?). congruence.
  - intros (? & ? & [= -> _]). rewrite Hb in *; done.
  - intros ? ? [= <- <-] _. eauto.
  - done.
Qed.

Lemma maps_ok b status body :
  res_ok status = true →
  maps_response b (Responds status body) {| oc_result := json_body body; oc_unauthorized := false |}.
Proof.
  intros Hs. split_and!; cbn; [intros v; split|split; [done|]|..].
  - destruct body; cbn; [intros [= ->]; eauto|done].
  - by intros (? & [= <- ->] & _).
  - by intros (_ & ? & [= -> _]).
  - intros ? ? [= <- <-] ?. congruence.
  - done.
Qed.

Lemma request_maps res : maps_response false res (request res).
Proof.
  destruct res as [msg|status body]; cbn; [apply maps_fail|].
  destruct (Z.eqb_spec status 401) as [->|Hn]; [apply maps_unauthorized|].
  destruct (res_ok status) eqn:E; cbn; [by apply maps_ok|by apply maps_error].
Qed.

Lemma mutate_maps path res :
  maps_response (bool_decide (path = "/api/login")) res (mutate path res).
Proof.
  destruct res as [msg|status body]; cbn; [apply maps_fail|].
  destruct (bool_decide (path = "/api/login")); cbn; rewrite ?andb_false_r, ?andb_true_r.
  - destruct (res_ok status) eqn:E; cbn; [by apply maps_ok|by apply maps_error].
  - destruct (Z.eqb_spec status 401) as [->|Hn]; [apply maps_unauthorized|].
    destruct (res_ok status) eqn:E; cbn; [by apply maps_ok|by apply maps_error].
Qed.

(** C29: The outcome of every call, for every server.  A call resolves exactly with the JSON value
    of a 2xx response; the session handler is invoked exactly on a 401 of a call other than the
    login; any other non-2xx response is a rejection that carries its status; and a failed
    fetch is a rejection with its message. *)
Theorem perform_outcome server c rq o :
  route c = Some rq → perform server c = Some o →
  maps_response (is_login c) (server rq) o.
Proof.
  intros Hr H. unfold perform in H. rewrite Hr in H. injection H as <-.
  pose proof (route_login c rq Hr) as Hl. pose proof (route_login_post c rq Hr) as Hp.
  assert (bool_decide (rq_path rq = "/api/login") = is_login c) as Hb.
  { apply eq_true_iff_eq. by rewrite bool_decide_eq_true. }
  rewrite <- Hb. destruct (rq_method rq) eqn:Hm; try apply mutate_maps.
  rewrite Hb. destruct (is_login c); [by specialize (Hp eq_refl)|]. apply request_maps.
Qed.

Lemma perform_outcome_witness :
  maps_response false (Responds 401 (inr "Unexpected token"))
    {| oc_result := Err (ApiError 401 "chưa đăng nhập"); oc_unauthorized := true |}.
Proof.
  apply (perform_outcome (λ _, Responds 401 (inr "Unexpected token")) (getAgentStatus "pm")
    {| rq_method := GET; rq_path := "/api/agents/pm/status"; rq_body := None |});
    vm_compute; reflexivity.
Defined.

(** ** Theorems: messages *)

Definition non_empty_error (r : result json) : Prop :=
  match r with Err (ApiError _ msg) => msg ≠ [] | _ => True end.

Lemma friendlyError_ne status detail : friendlyError status detail ≠ [].
Proof.
  unfold friendlyError. set (base := if 500 <=? status then _ else _).
  assert (base ≠ []) as Hb.
  { unfold base. repeat case_match; vm_compute; discriminate. }
  assert (∀ l, cat (base :: l) ≠ []) by (intros l E; apply app_nil in E as [E _]; done).
  repeat case_match; auto.
Qed.

(** The message of a rejected write: the server's own detail when it is a non-empty string, and
    else a line that is not empty. *)
Lemma mutate_message path status body :
  res_ok status = false → (status = 401 → path = "/api/login") →
  ∃ msg, oc_result (mutate path (Responds status body)) = Err (ApiError status msg) ∧
    (∀ d, error_detail body = Some d → msg = js_String d) ∧
    (error_detail body = None → msg = friendlyError status None).
Proof.
  intros Hs H401. cbn. rewrite Hs. cbn.
  assert ((status =? 401) && negb (bool_decide (path = "/api/login")) = false) as ->.
  { destruct (Z.eqb_spec status 401) as [E|]; [|done]. by rewrite bool_decide_true by auto. }
  cbn. eexists. split; [done|]. destruct (error_detail body); naive_solver.
Qed.

Definition is_obj (v : json) : bool := match v with JObj _ => true | _ => false end.

Lemma json_get_single k v : json_get k (JObj [(k, v)]) = Some v.
Proof. cbn. by rewrite bool_decide_true. Qed.

Lemma js_String_objs l :
  forallb is_obj l = true → js_String (JArr l) = join "," (replicate (length l) "[object Object]").
Proof.
  intros H. cbn [js_String]. f_equal. induction l as [|v l IH]; cbn in *; [done|].
  apply andb_true_iff in H as [Hv H]. rewrite IH by done. by destruct v.
Qed.

(** A rejected write shows the server's detail when that is a non-empty string; but when the
    detail is a list of objects, the form in which request validation errors come, the message
    is the text "[object Object]" once per error, whatever the errors say. *)
Theorem validation_detail_unreadable path status d :
  res_ok status = false → status ≠ 401 →
  (∀ s, d = JStr s → s ≠ [] →
    oc_result (mutate path (Responds status (inl (JObj [("detail", d)])))) =
      Err (ApiError status s)) ∧
  (∀ l, d = JArr l → forallb is_obj l = true →
    oc_result (mutate path (Responds status (inl (JObj [("detail", d)])))) =
      Err (ApiError status (join "," (replicate (length l) "[object Object]")))).
Proof.
  intros Hs H401.
  destruct (mutate_message path status (inl (JObj [("detail", d)])) Hs ltac:(done))
    as (msg & E & Hd & _).
  unfold error_detail in Hd. rewrite json_get_single in Hd. cbn [mbind option_bind] in Hd.
  rewrite E. split.
  - intros s -> Hne. cbn [json_truthy] in Hd. rewrite (proj2 (truthy_spec s) Hne) in Hd.
    by rewrite (Hd _ eq_refl).
  - intros l -> Hl. rewrite (Hd _ eq_refl). by rewrite js_String_objs.
Qed.

Lemma validation_detail_unreadable_witness :
  let d := JArr [JObj [("msg", JStr "Field required")]] in
  (∀ s, d = JStr s → s ≠ [] →
    oc_result (mutate "/api/company" (Responds 422 (inl (JObj [("detail", d)])))) =
      Err (ApiError 422 s)) ∧
  (∀ l, d = JArr l → forallb is_obj l = true →
    oc_result (mutate "/api/company" (Responds 422 (inl (JObj [("detail", d)])))) =
      Err (ApiError 422 (join "," (replicate (length l) "[object Object]")))).
Proof. apply validation_detail_unreadable; [vm_compute; reflexivity|discriminate]. Defined.

(** ** Theorems: addressing *)

(** The agent a call is about. *)
Definition agent_of (c : call) : option jsstr :=
  match c with
  | getAgentStatus id | getRuns id | getCost id | getMemory id _ | getAutomation id
  | getAudit id | getApprovals id | approve id _ | reject id _ | getConfig id
  | saveProfile id _ | saveMarkdown id _ _ | triggerRun id _ _ _ | setAgentEnabled id _
  | deleteAgent id | registerExistingProfile id | cancelTask id _ | bindTelegram id _ _
  | telegramRecentChats id _ | getKnowledge id _ | putKnowledgeForm id _ _
  | putKnowledgeRaw id _ _ | getSkills id | putSkills id _ | getAgentCompanyDocs id
  | putAgentCompanyDocs id _ => Some id
  | _ => None
  end.

(** The part of a URL in front of the query, and the third segment of its path. *)
Fixpoint until_unit (c : Z) (s : jsstr) : jsstr :=
  match s with
  | [] => []
  | d :: r => if d =? c then [] else d :: until_unit c r
  end.
Definition third_segment (url : jsstr) : option jsstr := split_on 47 (until_unit 63 url) !! 3%nat.

(** Ids made of unescaped characters, as every id of the agent pattern is. *)
Definition plain_id (id : jsstr) : Prop := Forall (λ c, unescaped c = true) id.

Lemma unescaped_unit c : unescaped c = true →
  33 ≤ c < 127 ∧ c ≠ 47 ∧ c ≠ 63 ∧ percent c = [c].
Proof.
  intros H. unfold percent. rewrite H. unfold unescaped in H.
  destruct (bool_decide_reflect (c ∈ [45; 95; 46; 33; 126; 42; 39; 40; 41])) as [Hc|_].
  - rewrite !elem_of_cons, elem_of_nil in Hc. split_and!; try done; lia.
  - split_and!; try done; lia.
Qed.

Lemma encode_plain id : plain_id id → encodeURIComponent id = Some id.
Proof.
  intros H. unfold encodeURIComponent.
  assert (code_points id = Some id) as ->.
  { induction H as [|c id Hc _ IH]; [done|]. apply unescaped_unit in Hc. cbn.
    unfold is_lead, is_trail. destruct ((55296 <=? c) && (c <=? 56319)) eqn:E; [lia|].
    destruct ((56320 <=? c) && (c <=? 57343)) eqn:E'; [lia|]. by rewrite IH. }
  cbn. f_equal. induction H as [|c id Hc _ IH]; [done|].
  apply unescaped_unit in Hc as (? & _ & _ & Hp). cbn. unfold utf8_bytes at 1.
  rewrite (proj2 (Z.ltb_lt c 128)) by lia. cbn. by rewrite Hp, IH.
Qed.

Lemma until_unit_app c a r : no_unit c a → until_unit c (a ++ r) = a ++ until_unit c r.
Proof.
  unfold no_unit. induction a as [|d a IH]; intros H; cbn; [done|].
  apply not_elem_of_cons in H as [Hd Ha]. rewrite (proj2 (Z.eqb_neq d c)) by done.
  by rewrite IH.
Qed.

(** The third segment of [/api/x/id], followed by nothing, another segment or a query. *)
Lemma third_segment_spec x id r :
  no_unit 47 x → no_unit 63 x → plain_id id → (∀ c, head r = Some c → c = 47 ∨ c = 63) →
  third_segment ("/api/" ++ x ++ 47 :: id ++ r) = Some id.
Proof.
  intros Hx Hx' Hid Hr. unfold third_segment.
  assert (no_unit 47 id ∧ no_unit 63 id) as [Hi Hi'].
  { unfold plain_id in Hid. rewrite Forall_forall in Hid.
    split; intros Hin; apply Hid, unescaped_unit in Hin as (? & ? & ? & ?); done. }
  rewrite until_unit_app by (apply (bool_decide_unpack _); vm_compute; exact I).
  rewrite until_unit_app by done. cbn [until_unit].
  change (47 =? 63) with false. cbv iota. rewrite until_unit_app by done.
  assert (until_unit 63 r = [] ∨ ∃ r', until_unit 63 r = 47 :: r') as Hu.
  { destruct r as [|c r]; [by left|]. destruct (Hr c eq_refl) as [->| ->]; cbn; eauto. }
  change ("/api/" ++ x ++ 47 :: id ++ until_unit 63 r)
    with ([] ++ 47 :: "api" ++ 47 :: (x ++ 47 :: id ++ until_unit 63 r)).
  rewrite split_on_app by (intros H; inversion H).
  rewrite split_on_app by (apply (bool_decide_unpack _); vm_compute; exact I).
  rewrite split_on_app by done. cbn [lookup list_lookup].
  destruct Hu as [->|[r' ->]].
  - rewrite app_nil_r, split_on_none by done. done.
  - by rewrite split_on_app.
Qed.

Lemma third_at x p id r :
  p = "/api/" ++ x ++ [47] → bool_decide (no_unit 47 x ∧ no_unit 63 x) = true → plain_id id →
  (∀ c, head r = Some c → c = 47 ∨ c = 63) →
  third_segment (p ++ id ++ r) = Some id.
Proof.
  intros -> [H1 H2]%bool_decide_eq_true Hid Hr. rewrite <- !app_assoc.
  exact (third_segment_spec x id r H1 H2 Hid Hr).
Qed.

(** Every request about an agent addresses that agent and no other.  For every call that
    takes an agent id, read or write, and every id of the characters agent ids are made of, the
    URL is built and the third segment of its path is the id. *)
Theorem request_addresses_agent c id :
  agent_of c = Some id → plain_id id → (∀ aud, c = getMemory id aud → is_Some (encodeURIComponent aud)) →
  ∃ rq, route c = Some rq ∧ third_segment (rq_path rq) = Some id.
Proof.
  intros Ha Hid Hm. pose proof (encode_plain id Hid) as He.
  destruct c; try discriminate Ha; injection Ha as ->; cbn [route]; rewrite ?He;
    cbn [mbind option_bind];
    try (destruct (Hm _ eq_refl) as [e ->]; cbn [mbind option_bind]);
    eexists; (split; [reflexivity|]); cbn [rq_path]; unfold cat; cbn [concat];
    (let seg x := apply (third_at x);
       [by vm_compute|by vm_compute|exact Hid|intros ? [= <-]; auto] in
     first [seg "agents"|seg "runs"|seg "cost"|seg "memory"|seg "automation"|seg "audit"
           |seg "tasks"]).
Qed.

Lemma request_addresses_agent_witness :
  ∃ rq, route (approve "pm-1" 4) = Some rq ∧ third_segment (rq_path rq) = Some ("pm-1" : jsstr).
Proof.
  apply (request_addresses_agent (approve "pm-1" 4) "pm-1"); [done|repeat constructor|done].
Defined.
