(* ===== verification/Python.v ===== *)
(** What the server's code uses of Python: the text of values, dictionaries, [str.strip],
    [int] of a text, and searching and replacing with the [re] module.  Texts are sequences of
    units as in the rest of the library, one per character of the basic plane. *)

From S2P Require Import Prelude JsNumber Types Json ApiClient.

(** ** Text *)

(** [str.isspace]. *)
Definition py_space (c : Z) : bool :=
  ((9 <=? c) && (c <=? 13)) || ((28 <=? c) && (c <=? 32)) || (c =? 133) || (c =? 160)
  || (c =? 5760) || ((8192 <=? c) && (c <=? 8202)) || (c =? 8232) || (c =? 8233) || (c =? 8239)
  || (c =? 8287) || (c =? 12288).

(** [str.strip()]. *)
Fixpoint lstrip (s : jsstr) : jsstr :=
  match s with c :: r => if py_space c then lstrip r else s | [] => [] end.
Definition strip (s : jsstr) : jsstr := rev (lstrip (rev (lstrip s))).

Definition upper (c : Z) : bool := (65 <=? c) && (c <=? 90).
Definition lower_ascii (c : Z) : bool := (97 <=? c) && (c <=? 122).
Definition alnum (c : Z) : bool := upper c || lower_ascii c || is_digit c.

(** What is left to the interpreter: [str(v)] of a value that is no string, [repr] of a string,
    and the tables of Unicode beyond ASCII: [\w], and the value of a decimal digit, [\d]. *)
Class Python := {
  py_text : json → jsstr;
  py_repr : jsstr → jsstr;
  py_word : Z → bool;
  py_digit : Z → option Z;
  py_word_ascii c : c < 128 → py_word c = alnum c || (c =? 95);
  py_digit_ascii c : c < 128 → py_digit c = (if is_digit c then Some (c - 48) else None)
}.

(** ** Values *)

(** Truthiness: an empty list or mapping is false. *)
Definition py_truthy (v : json) : bool :=
  match v with JArr l => negb (Nat.eqb (length l) 0) | JObj l => negb (Nat.eqb (length l) 0)
  | JNum x => negb (num_eqb x (num_Z 0)) | _ => json_truthy v end.

(** The items of a JSON object as a dict: a repeated key keeps its place and takes the last
    value. *)
Section Dict.
Context {A : Type}.
Fixpoint dict_set (k : jsstr) (v : A) (l : list (jsstr * A)) : list (jsstr * A) :=
  match l with
  | [] => [(k, v)]
  | (k', v') :: r => if bool_decide (k' = k) then (k, v) :: r else (k', v') :: dict_set k v r
  end.
Definition dict_of (l : list (jsstr * A)) : list (jsstr * A) :=
  foldl (λ d kv, dict_set (fst kv) (snd kv) d) [] l.

Lemma dict_set_new k v l : k ∉ map fst l → dict_set k v l = l ++ [(k, v)].
Proof.
  induction l as [|[k' v'] l IH]; intros H; [done|]. cbn in *.
  apply not_elem_of_cons in H as [H1 H2]. rewrite bool_decide_false by congruence. by rewrite IH.
Qed.

Lemma dict_of_id l : NoDup (map fst l) → dict_of l = l.
Proof.
  intros H. unfold dict_of.
  assert (∀ acc, NoDup (map fst (acc ++ l)) →
    foldl (λ d kv, dict_set (fst kv) (snd kv) d) acc l = acc ++ l) as Hg; [|by apply Hg].
  clear H. induction l as [|[k v] l IH]; intros acc H; cbn [foldl]; [by rewrite app_nil_r|].
  cbn [fst snd]. rewrite dict_set_new.
  - rewrite IH; rewrite <- app_assoc; done.
  - rewrite map_app in H. apply NoDup_app in H as (_ & H & _). intros Hin. apply (H k Hin). by left.
Qed.

Lemma dict_set_elem k v l x : x ∈ dict_set k v l → x = (k, v) ∨ x ∈ l.
Proof.
  induction l as [|[k' v'] l IH]; cbn; [set_solver|]. destruct (bool_decide _); set_solver.
Qed.

Lemma dict_of_elem l x : x ∈ dict_of l → x ∈ l.
Proof.
  unfold dict_of. assert (∀ acc, x ∈ foldl (λ d kv, dict_set (fst kv) (snd kv) d) acc l →
    x ∈ acc ∨ x ∈ l) as H; [|intros [?%elem_of_nil|]%H; done].
  induction l as [|[k v] l IH]; intros acc; cbn; [auto|].
  intros [[->|H]%dict_set_elem|H]%IH; set_solver.
Qed.
End Dict.

(** Iterating a value: the elements of a list, the characters of a string, the keys of a
    mapping; anything else raises. *)
Definition py_iter (v : json) : option (list json) :=
  match v with
  | JArr l => Some l
  | JStr s => Some (map (λ c, JStr [c]) s)
  | JObj l => Some (map (λ kv, JStr (fst kv)) (dict_of l))
  | _ => None
  end.

Section Host.
Context {P : Python}.

(** [str(v)]. *)
Definition py_str (v : json) : jsstr := match v with JStr s => s | _ => py_text v end.

(** [str(d.get(k, default))]. *)
Definition get_str (k d : jsstr) (v : json) : jsstr :=
  match json_get k v with Some x => py_str x | None => d end.
(** [d.get(k)]: absent is [None]. *)
Definition get_none (k : jsstr) (v : json) : json := default JNull (json_get k v).

(** [int(s)]: blanks around, a sign, digits with single underscores between them. *)
Fixpoint int_digits (acc : Z) (after_digit : bool) (s : jsstr) : option Z :=
  match s with
  | [] => if after_digit then Some acc else None
  | c :: r =>
      match py_digit c with
      | Some d => int_digits (10 * acc + d) true r
      | None => if (c =? 95) && after_digit then int_digits acc false r else None
      end
  end.
Definition int_of_text (s : jsstr) : option Z :=
  match strip s with
  | 45 :: r => option_map Z.opp (int_digits 0 false r)
  | 43 :: r => int_digits 0 false r
  | t => int_digits 0 false t
  end.

(** ** Regular expressions

    A pattern is a sequence of repeated character classes and word boundaries. *)

Inductive piece :=
| Rep (p : Z → bool) (least : nat) (most : option nat)
| Edge.

Definition one (p : Z → bool) : piece := Rep p 1 (Some 1%nat).
Definition lit (s : jsstr) : list piece := map (λ c, one (Z.eqb c)) s.

Definition wordy (c : option Z) : bool := match c with Some c => py_word c | None => false end.
(** [\b], between what comes before and what comes after. *)
Definition edge (prev : option Z) (s : jsstr) : bool := xorb (wordy prev) (wordy (head s)).

(** How many units the class can take. *)
Fixpoint run_length (p : Z → bool) (most : option nat) (s : jsstr) : nat :=
  match s with
  | [] => 0
  | c :: r =>
      match most with
      | Some O => 0
      | Some (S n) => if p c then S (run_length p (Some n) r) else 0
      | None => if p c then S (run_length p None r) else 0
      end
  end.

(** The unit before what is left after [k] units. *)
Definition before (prev : option Z) (k : nat) (s : jsstr) : option Z :=
  match k with O => prev | S k => nth_error s k end.

(** A match at the front, as Python finds it: as many repetitions as possible first.  The
    result is how many units it takes. *)
Fixpoint match_here (ps : list piece) (prev : option Z) (s : jsstr) : option nat :=
  match ps with
  | [] => Some 0%nat
  | Edge :: ps => if edge prev s then match_here ps prev s else None
  | Rep p least most :: ps =>
      (fix back (k : nat) : option nat :=
         if Nat.ltb k least then None
         else match match_here ps (before prev k s) (drop k s) with
              | Some n => Some (k + n)%nat
              | None => match k with O => None | S k => back k end
              end) (run_length p most s)
  end.

(** [rx.search(s)]. *)
Fixpoint search (ps : list piece) (prev : option Z) (s : jsstr) : bool :=
  match match_here ps prev s with
  | Some _ => true
  | None => match s with [] => false | c :: r => search ps (Some c) r end
  end.

(** [rx.sub(by, s)], for a pattern that takes at least one unit: what a match takes is skipped. *)
Fixpoint sub_from (ps : list piece) (by_ : jsstr) (skip : nat) (prev : option Z) (s : jsstr) : jsstr :=
  match s with
  | [] => []
  | c :: r =>
      match skip with
      | S n => sub_from ps by_ n (Some c) r
      | O => match match_here ps prev s with
             | Some (S n) => by_ ++ sub_from ps by_ n (Some c) r
             | _ => c :: sub_from ps by_ 0 (Some c) r
             end
      end
  end.
Definition sub (ps : list piece) (by_ s : jsstr) : jsstr := sub_from ps by_ 0 None s.
End Host.

(** An interpreter whose tables end with ASCII, for examples. *)
#[export] Instance plain_python : Python := {|
  py_text := js_String; py_repr s := cat ["'"; s; "'"];
  py_word c := alnum c || (c =? 95);
  py_digit c := if is_digit c then Some (c - 48) else None;
  py_word_ascii _ _ := eq_refl; py_digit_ascii _ _ := eq_refl
|}.

Example search_backtracks :
  search (lit "BEGIN " ++ [Rep (λ c, upper c || (c =? 32)) 0 None] ++ lit "KEY") None
    "-BEGIN RSA KEY-" = true.
Proof. vm_compute. reflexivity. Qed.
Example search_edges :
  map (search [Edge; Rep is_digit 2 (Some 3%nat); Edge] None) ["a12"; "a 12 b"; "1234"; "x-123"]%js
  = [false; true; false; true].
Proof. vm_compute. reflexivity. Qed.
Example sub_greedy : sub (lit "k-" ++ [Rep alnum 2 None]) "*" "a k-123, k-1 k-4x!" = "a *, k-1 *!"%js.
Proof. vm_compute. reflexivity. Qed.
Example int_texts :
  map int_of_text [" 12 "; "+1_0"; "-3"; "1__0"; "_1"; ""; "1.5"]%js
  = [Some 12; Some 10; Some (-3); None; None; None; None].
Proof. vm_compute. reflexivity. Qed.
