(* ===== verification/Gateway.v ===== *)
(** The action gateway (src/actions/action_gateway.py) over its stores (approval_store.py,
    dedup_store.py, the audit log), with the trust ladder (auto_approve_policy.py) and the
    dispatch of approved actions (approved_dispatch.py).

    A method is a program of operations on the stores, each of which is atomic, as the
    statements of the database are.  Any number of methods run at once, on gateways over the
    same stores, their operations interleaved in any order and stopped anywhere; a run alone is
    the special case. *)

From S2P Require Import Prelude JsNumber Types Json ApiClient Python Policy.

(** ** The stores *)

Inductive status := Pending | Approved | Rejected.
#[export] Instance status_eq_dec : EqDecision status.
Proof. solve_decision. Defined.
Definition status_text (s : status) : jsstr :=
  match s with Pending => "pending" | Approved => "approved" | Rejected => "rejected" end.

(** A row of [approvals]; [PendingApproval] is its view. *)
Record approval := {
  ap_id : Z; ap_action : json; ap_reason : jsstr; ap_status : status; ap_rationale : jsstr;
  ap_created_at : jsstr
}.

Record AuditEntry := {
  ae_action_type : jsstr; ae_tool : jsstr; ae_verdict : jsstr; ae_reason : jsstr;
  ae_params : json; ae_result_summary : jsstr; ae_dry_run : bool; ae_rationale : jsstr
}.

(** Everything a gateway keeps: the rows in the order of their ids, the keys of the dedup store,
    the lines of the audit log, and the recent calls of each gateway object. *)
Record vault := {
  va_rows : list approval; va_keys : gset jsstr; va_audit : list AuditEntry;
  va_recent : gmap nat (list Z)
}.
Definition empty_vault : vault :=
  {| va_rows := []; va_keys := ∅; va_audit := []; va_recent := ∅ |}.

Definition put_rows (r : list approval) (v : vault) : vault :=
  {| va_rows := r; va_keys := va_keys v; va_audit := va_audit v; va_recent := va_recent v |}.
Definition set_keys (k : gset jsstr) (v : vault) : vault :=
  {| va_rows := va_rows v; va_keys := k; va_audit := va_audit v; va_recent := va_recent v |}.

(** [WHERE id = ?]: the ids are 1, 2, and so on. *)
Definition row_index (id : Z) : option nat := if 1 <=? id then Some (Z.to_nat (id - 1)) else None.
Definition row (id : Z) (v : vault) : option approval := n ← row_index id; va_rows v !! n.
Definition with_status (s : status) (r : approval) : approval :=
  {| ap_id := ap_id r; ap_action := ap_action r; ap_reason := ap_reason r; ap_status := s;
     ap_rationale := ap_rationale r; ap_created_at := ap_created_at r |}.
(** [UPDATE approvals SET status = ? WHERE id = ?]. *)
Definition update_status (id : Z) (s : status) (v : vault) : vault :=
  match row_index id with
  | Some n => put_rows (alter (with_status s) n (va_rows v)) v
  | None => v
  end.
Definition is_pending (r : approval) : bool := bool_decide (ap_status r = Pending).

(** *** The rate limit *)

Definition RATE_LIMIT_MAX : nat := 10.
Definition RATE_LIMIT_WINDOW : Z := 60000000.             (* microseconds *)

Fixpoint drop_old (cutoff : Z) (l : list Z) : list Z :=
  match l with t :: r => if t <? cutoff then drop_old cutoff r else l | [] => [] end.
(** Whether a call is within the limit, and the recent calls afterwards. *)
Definition within_limit (now : Z) (recent : list Z) : bool * list Z :=
  let l := drop_old (now - RATE_LIMIT_WINDOW) recent in
  if Nat.leb RATE_LIMIT_MAX (length l) then (false, l) else (true, l ++ [now]).

(** ** Operations *)

(** What carries out an action in the world. *)
Inductive executor := SlackPost | JiraTool | LinearComment | EmailSend | OtherExecutor (name : jsstr).
#[export] Instance executor_eq_dec : EqDecision executor.
Proof. solve_decision. Defined.

Inductive operation :=
| Look                                        (* at the file system, for an attachment *)
| Enqueue (action : json) (reason rationale : jsstr)
| Get (id : Z)
| SetStatus (id : Z) (s : status)
| Transition (id : Z) (s : status)            (* [transition_if_pending] *)
| ListPending
| Claim (key : jsstr)
| Release (key : jsstr)
| Audit (e : AuditEntry)
| Admit (gw : nat)                            (* [_recent_calls] of a gateway *)
| Today                                       (* the local date *)
| Run (x : executor) (action : json).

Definition answer (o : operation) : Type :=
  match o with
  | Look => files
  | Enqueue _ _ _ => Z
  | Get _ => option approval
  | Transition _ _ | Claim _ | Admit _ => bool
  | SetStatus _ _ | Release _ | Audit _ => unit
  | ListPending => list approval
  | Today => jsstr
  | Run _ _ => jsstr + jsstr                  (* the text of the exception, or the summary *)
  end.

(** What the world adds to an operation: the clock, the file system, the date, and what comes of
    carrying an action out. *)
Record instant := {
  in_monotonic : Z; in_now : jsstr; in_today : jsstr; in_files : files;
  in_run : executor → json → jsstr + jsstr
}.

Section Host.
Context {P : Python}.

Definition redact_entry (e : AuditEntry) : AuditEntry :=
  {| ae_action_type := redact_text (ae_action_type e); ae_tool := redact_text (ae_tool e);
     ae_verdict := redact_text (ae_verdict e); ae_reason := redact_text (ae_reason e);
     ae_params := redact (ae_params e); ae_result_summary := redact_text (ae_result_summary e);
     ae_dry_run := ae_dry_run e; ae_rationale := redact_text (ae_rationale e) |}.

(** [AuditLog.record]. *)
Definition audit_record (e : AuditEntry) (v : vault) : vault :=
  {| va_rows := va_rows v; va_keys := va_keys v; va_audit := va_audit v ++ [redact_entry e];
     va_recent := va_recent v |}.

(** [ApprovalStore.enqueue]. *)
Definition enqueue (i : instant) (action : json) (reason rationale : jsstr) (v : vault) : Z * vault :=
  let id := Z.of_nat (length (va_rows v)) + 1 in
  (id, put_rows (va_rows v ++ [{| ap_id := id; ap_action := redact action; ap_reason := reason;
                                  ap_status := Pending; ap_rationale := rationale;
                                  ap_created_at := in_now i |}]) v).

(** [ApprovalStore.transition_if_pending]. *)
Definition transition_if_pending (id : Z) (s : status) (v : vault) : bool * vault :=
  match row id v with
  | Some r => if is_pending r then (true, update_status id s v) else (false, v)
  | None => (false, v)
  end.

(** [DedupStore.claim]. *)
Definition claim (key : jsstr) (v : vault) : bool * vault :=
  if bool_decide (key ∈ va_keys v) then (false, v) else (true, set_keys ({[key]} ∪ va_keys v) v).

(** One operation on the stores. *)
Definition perform_op (i : instant) (o : operation) (v : vault) : answer o * vault :=
  match o with
  | Look => (in_files i, v)
  | Enqueue action reason rationale => enqueue i action reason rationale v
  | Get id => (row id v, v)
  | SetStatus id s => (tt, update_status id s v)
  | Transition id s => transition_if_pending id s v
  | ListPending => (List.filter is_pending (va_rows v), v)
  | Claim key => claim key v
  | Release key => (tt, set_keys (va_keys v ∖ {[key]}) v)
  | Audit e => (tt, audit_record e v)
  | Admit gw =>
      let '(b, l) := within_limit (in_monotonic i) (default [] (va_recent v !! gw)) in
      (b, {| va_rows := va_rows v; va_keys := va_keys v; va_audit := va_audit v;
             va_recent := <[gw := l]> (va_recent v) |})
  | Today => (in_today i, v)
  | Run x action => (in_run i x action, v)
  end.
End Host.

(** ** Programs *)

Inductive prog (A : Type) :=
| Ret (x : A)
| Do (o : operation) (k : answer o → prog A).
Arguments Ret {A} x.
Arguments Do {A} o k.

Fixpoint bind {A B} (p : prog A) (f : A → prog B) : prog B :=
  match p with Ret x => f x | Do o k => Do o (λ r, bind (k r) f) end.

(** A program that may raise. *)
Definition comp (A : Type) : Type := prog (py A).
Definition raise {A} (e : exn) : comp A := Ret (inl e).
Definition give {A} (x : A) : comp A := Ret (inr x).
Definition and_then {A B} (p : comp A) (f : A → comp B) : comp B :=
  bind p (λ r, match r with inl e => raise e | inr x => f x end).

Declare Scope gateway_scope.
Notation "'let*' x := o 'in' p" := (Do o (λ x, p))
  (at level 200, x pattern, o at level 100, p at level 200) : gateway_scope.
Notation "'let?' x := p 'in' q" := (and_then p (λ x, q))
  (at level 200, x pattern, p at level 100, q at level 200) : gateway_scope.
Open Scope gateway_scope.

(** ** The trust ladder *)

Inductive semantic_type := slack_post | email_send.
#[export] Instance semantic_type_eq_dec : EqDecision semantic_type.
Proof. solve_decision. Defined.
Definition semantic_text (t : semantic_type) : jsstr :=
  match t with slack_post => "slack_post" | email_send => "email_send" end.

(** The validated block [auto_approve] of a profile (profile/loader.py). *)
Record grant := {
  ga_enabled : bool; ga_max_per_day : Z; ga_destinations : option (list jsstr)
}.
Record auto_config := {
  au_actions : semantic_type → option grant;
  au_trusted_telegram : list jsstr
}.

Definition RATIONALE_PREFIX : jsstr := "auto_approve:".

(** Where an action comes from: a schedule, or a chat message with its sender. *)
Inductive action_origin := Scheduled | FromChat (sender_id transport chat_id : jsstr).

Definition slot_key (t : semantic_type) (date : jsstr) (seq : Z) : jsstr :=
  cat ["auto-slot:"; semantic_text t; ":"; date; ":"; z_str seq].

Section Ladder.
Context {P : Python}.

(** [_action_semantic_type]. *)
Definition action_semantic_type (action : json) : option semantic_type :=
  let atype := action_type action in
  if bool_decide (atype = "email_send"%js) then Some email_send
  else if bool_decide (atype = "mcp_tool"%js) && includes "post_message" (tool_of action)
  then Some slack_post else None.

(** [str(d.get(k) or "")] of a dictionary that may be a falsy value. *)
Definition or_empty (k : jsstr) (d : json) : jsstr :=
  let v := get_none k d in if py_truthy v then py_str v else "".

(** [_action_destination]. *)
Definition action_destination (action : json) (t : semantic_type) : py jsstr :=
  let args := get_none "args" action in
  let from_args (k : jsstr) : py jsstr :=
    if py_truthy args
    then match args with JObj _ => inr (or_empty k args) | _ => inl AttributeError end
    else inr "" in
  match t with
  | slack_post => from_args "channel"
  | email_send =>
      let to := get_none "to" action in
      if py_truthy to then inr (py_str to) else from_args "to"
  end.

(** [evaluate]: the rationale under which an action may run without a person, if it may. *)
Definition evaluate (action : json) (config : auto_config) (o : action_origin) : py (option jsstr) :=
  match action_semantic_type action with
  | None => inr None
  | Some t =>
      match au_actions config t with
      | None => inr None
      | Some gr =>
          if negb (ga_enabled gr) then inr None
          else match action_destination action t with
               | inl e => inl e
               | inr dest =>
                   if match ga_destinations gr with Some l => negb (memb dest l) | None => false end
                   then inr None
                   else match o with
                        | Scheduled =>
                            inr (Some (cat [RATIONALE_PREFIX; "scheduled:"; semantic_text t]))
                        | FromChat sender transport chat =>
                            if negb (bool_decide (transport = "telegram"%js)) then inr None
                            else if negb (truthy sender && truthy chat && bool_decide (chat = sender))
                            then inr None
                            else if negb (memb sender (au_trusted_telegram config)) then inr None
                            else inr (Some (cat [RATIONALE_PREFIX; "trusted_sender:"; sender]))
                        end
               end
      end
  end.

(** The first free slot of the day among [seq], [seq+1], ...: [n] of them. *)
Fixpoint claim_slot (t : semantic_type) (date : jsstr) (seq : Z) (n : nat) : prog bool :=
  match n with
  | O => Ret false
  | S n =>
      let* b := Claim (slot_key t date seq) in
      if b then Ret true else claim_slot t date (seq + 1) n
  end.

(** [claim_daily_slot]. *)
Definition claim_daily_slot (action : json) (config : auto_config) : prog bool :=
  match action_semantic_type action with
  | None => Ret false
  | Some t =>
      match au_actions config t with
      | None => Ret false
      | Some gr =>
          if ga_max_per_day gr <=? 0 then Ret false
          else let* date := Today in claim_slot t date 1 (Z.to_nat (ga_max_per_day gr))
      end
  end.

(** [_try_auto_approve]; the configuration is absent when the ladder is off. *)
Definition try_auto_approve (auto : option auto_config) (action : json) (o : action_origin) :
    comp (option jsstr) :=
  match auto with
  | None => give None
  | Some config =>
      match evaluate action config o with
      | inl e => raise e
      | inr None => give None
      | inr (Some rationale) =>
          bind (claim_daily_slot action config) (λ b, give (if b then Some rationale else None))
      end
  end.
End Ladder.

(** ** The gateway *)

Inductive result_status := Executed | DryRun | Skipped | Deduplicated | PendingApproval.
Record GatewayResult := {
  gs_status : result_status; gs_summary : jsstr; gs_approval_id : option Z
}.

(** A gateway object: its identity, and what it was built with. *)
Record gateway := {
  gw_id : nat;
  gw_write_disabled : bool; gw_dry_run : bool;
  gw_external_channels : list jsstr;
  gw_allowlist : option allowlist;
  gw_auto_approve : option auto_config;
  gw_artifact_root : jsstr
}.

(** A handler raises by itself, or has an executor carry the action out. *)
Definition action_handler : Type := json → jsstr + executor.

Section Gateway.
Context {P : Python}.
Context (digest : json → jsstr).               (* sha256 of the canonical JSON, in hexadecimal *)

Definition MUTATING_TYPES : list jsstr := ["mcp_tool"; "gh_cli"; "email_send"; "telegram_send"].

(** [_label]. *)
Definition label (action : json) : py jsstr :=
  let atype := default (JStr "?") (json_get "type" action) in
  let eq (t : jsstr) := match atype with JStr s => bool_decide (s = t) | _ => false end in
  if eq "mcp_tool" then inr (cat [get_str "server" "?" action; ":"; get_str "tool" "?" action])
  else if eq "gh_cli" then
    match default (JArr []) (json_get "argv" action) with
    | JArr l => inr (cat ["gh "; join " " (map py_str (take 3 l))])
    | JStr s => inr (cat ["gh "; join " " (map (λ c, [c]) (take 3 s))])
    | _ => inl TypeError
    end
  else if eq "email_send" then inr (cat ["email:"; get_str "to" "?" action])
  else if eq "telegram_send" then inr (cat ["telegram:"; get_str "chat_id" "?" action])
  else inr (py_str atype).

(** [_action_dedup_key]. *)
Definition action_dedup_key (action : json) : py jsstr :=
  match json_get "dedup_hint" action with
  | Some (JStr ((_ :: _) as hint)) =>
      match label action with
      | inl e => inl e
      | inr tool => inr (cat ["hint:"; tool; ":"; hint])
      end
  | _ => inr (digest action)
  end.

(** [_record]. *)
Definition record {A} (atype tool verdict reason : jsstr) (action : json) (rationale : jsstr)
    (dry : bool) (result : jsstr) (p : prog A) : prog A :=
  let* _ := Audit {| ae_action_type := atype; ae_tool := tool; ae_verdict := verdict;
                     ae_reason := reason; ae_params := action; ae_result_summary := result;
                     ae_dry_run := dry; ae_rationale := rationale |} in p.

Definition done_with (s : result_status) (summary : jsstr) : comp GatewayResult :=
  give {| gs_status := s; gs_summary := summary; gs_approval_id := None |}.

Definition category_text (c : BlockCategory) : jsstr :=
  match c with
  | DATA_LOSS => "data_loss" | CREDENTIAL => "credential" | SECURITY => "security"
  | NOT_ALLOWLISTED => "not_allowlisted"
  end.

Definition not_a_dict : exn := ValueError "action must be a dict".
Definition not_mutating : exn := ValueError "ActionGateway only handles mutating actions".

Definition is_dict (v : json) : bool := match v with JObj _ => true | _ => false end.

(** The checks every method begins with: the type of the action, its label, its class. *)
Definition vetted (g : gateway) (action : json) : comp (jsstr * jsstr * BlockVerdict) :=
  if negb (is_dict action) then raise not_a_dict
  else if negb (memb (action_type action) MUTATING_TYPES) then raise not_mutating
  else match label action with
       | inl e => raise e
       | inr tool =>
           let* fs := Look in
           match classify action (gw_allowlist g) fs (Some (gw_artifact_root g)) with
           | inl e => raise e
           | inr v => give (action_type action, tool, v)
           end
       end.

(** From the key on: reserve it, carry the action out, give the key back if nothing ran. *)
Definition carry_out (h : option action_handler) (action : json) (rationale atype tool : jsstr) :
    comp GatewayResult :=
  match action_dedup_key action with
  | inl e => raise e
  | inr key =>
      let* new := Claim key in
      if negb new then
        record atype tool "skipped" "duplicate action" action rationale false ""
          (done_with Deduplicated (cat ["duplicate "; tool; " skipped"]))
      else
        match h with
        | None =>
            let* _ := Release key in
            record atype tool "skipped" "no handler (Phase 0)" action rationale false ""
              (done_with Skipped (cat ["no handler for "; tool]))
        | Some h =>
            let failed (exc : jsstr) :=
              let* _ := Release key in
              record atype tool "deny" (cat ["handler error: "; exc]) action rationale false ""
                (raise (RuntimeError (cat ["Handler for "; tool; " failed: "; exc]))) in
            match h action with
            | inl exc => failed exc
            | inr x =>
                let* r := Run x action in
                match r with
                | inl exc => failed exc
                | inr summary =>
                    record atype tool "allow" "executed" action rationale false summary
                      (done_with Executed summary)
                end
            end
        end
  end.

(** From the verdict on; an approved action passes a block that only says it is not listed. *)
Definition past_verdict (g : gateway) (h : option action_handler) (action : json) (rationale : jsstr)
    (approved : bool) (atype tool : jsstr) (v : BlockVerdict) : comp GatewayResult :=
  let denied (reason : jsstr) (e : exn) : comp GatewayResult :=
    record atype tool "deny" reason action rationale false "" (raise e) in
  let pass : comp GatewayResult :=
    if gw_write_disabled g then denied "kill switch on" WriteDisabledError
    else if gw_dry_run g then
      record atype tool "dry_run" "DRY_RUN on" action rationale true ""
        (done_with DryRun (cat ["[dry-run] would run "; tool]))
    else
      let* ok := Admit (gw_id g) in
      if negb ok then denied "rate limit" RateLimitedError
      else carry_out h action rationale atype tool in
  match v with
  | Allowed => pass
  | Blocked c reason =>
      if approved && bool_decide (c = NOT_ALLOWLISTED) then pass
      else denied reason (HardBlockedError
             (cat ["Lớp A hard-block ("; category_text c; "): "; reason]))
  end.

(** [execute_approved], and [_execute] with [approved=True]. *)
Definition execute_approved (g : gateway) (h : option action_handler) (action : json) (rationale : jsstr) :
    comp GatewayResult :=
  let? (atype, tool, v) := vetted g action in
  past_verdict g h action rationale true atype tool v.

(** Queueing for a person. *)
Definition queue (action : json) (reason rationale atype tool : jsstr) : comp GatewayResult :=
  let* id := Enqueue action reason rationale in
  record atype tool "pending" reason action rationale false ""
    (give {| gs_status := PendingApproval;
             gs_summary := cat [tool; " queued for approval (id="; z_str id; "): "; reason];
             gs_approval_id := Some id |}).

(** [execute]. *)
Definition execute (g : gateway) (h : option action_handler) (action : json) (rationale : jsstr) :
    comp GatewayResult :=
  let? (atype, tool, v) := vetted g action in
  match needs_interrupt action (gw_external_channels g) with
  | inl e => raise e
  | inr (Interrupt reason) =>
      if is_hard_deny v then past_verdict g h action rationale false atype tool v
      else
        let? auto :=
          match h with
          | Some _ => try_auto_approve (gw_auto_approve g) action Scheduled
          | None => give None
          end in
        match auto with
        | Some auto => execute_approved g h action auto
        | None => queue action reason rationale atype tool
        end
  | inr NoInterrupt => past_verdict g h action rationale false atype tool v
  end.

(** [enqueue_for_approval]. *)
Definition enqueue_for_approval (g : gateway) (action : json) (reason rationale : jsstr)
    (sender_id transport chat_id : jsstr) (auto_handler : option action_handler) : comp GatewayResult :=
  let? (atype, tool, v) := vetted g action in
  match v with
  | Blocked _ denial =>
      record atype tool "deny" denial action rationale false ""
        (done_with Skipped (cat ["hard-denied, not queued: "; denial]))
  | Allowed =>
      let? auto :=
        match auto_handler with
        | Some _ => try_auto_approve (gw_auto_approve g) action (FromChat sender_id transport chat_id)
        | None => give None
        end in
      match auto with
      | Some auto => execute_approved g auto_handler action auto
      | None => queue action reason rationale atype tool
      end
  end.

(** [approve]. *)
Definition approve (g : gateway) (id : Z) (h : action_handler) : comp GatewayResult :=
  let* pending := Get id in
  match pending with
  | None => raise (ValueError (cat ["No approval with id="; z_str id; "."]))
  | Some r =>
      let* won := Transition id Approved in
      if negb won then
        raise (ValueError (cat ["Approval id="; z_str id; " is already ";
                                py_repr (status_text (ap_status r)); "."]))
      else
        bind (execute_approved g (Some h) (ap_action r) (cat ["approved (id="; z_str id; ")"]))
          (λ res, match res with
                  | inr x => give x
                  | inl e => let* _ := SetStatus id Pending in raise e
                  end)
  end.

(** [reject]. *)
Definition reject (id : Z) : comp unit :=
  let* pending := Get id in
  let* _ := SetStatus id Rejected in
  match pending with
  | None => give tt
  | Some r =>
      match label (ap_action r) with
      | inl e => raise e
      | inr tool =>
          record (action_type (ap_action r)) tool "reject"
            (cat ["rejected approval id="; z_str id]) (ap_action r) "" false "" (give tt)
      end
  end.
End Gateway.

(** ** The dispatch of approved actions *)

(** Which servers the agent's configuration declares. *)
Record reporting_config := { rc_linear : bool; rc_smtp : bool }.

Section Dispatch.
Context {P : Python}.

(** [dispatch_approved_action]: compared as the action spells them. *)
Definition dispatch_approved_action (config : reporting_config) : action_handler := λ action,
  let eq (k v : jsstr) :=
    match json_get k action with Some (JStr s) => bool_decide (s = v) | _ => false end in
  let mcp (server : jsstr) := eq "type" "mcp_tool" && eq "server" server in
  if mcp "slack" then inr SlackPost
  else if mcp "jira" then inr JiraTool
  else if mcp "linear" then
    if rc_linear config then inr LinearComment
    else inl "linear MCP server not declared; cannot dispatch approved comment."
  else if eq "type" "email_send" then
    if rc_smtp config then inr EmailSend
    else inl "smtp not configured; cannot dispatch approved email."
  else
    let named (k : jsstr) := let v := get_none k action in if py_truthy v then Some v else None in
    let label := match named "tool" with
                 | Some v => v
                 | None => match named "argv" with Some v => v | None => get_none "type" action end
                 end in
    inl (cat ["No live handler wired for approved action: "; py_repr_of label]).
End Dispatch.

(** ** Methods at work

    A call of a method, what it returns, and the calls at work on the stores of one agent. *)

Inductive gw_call :=
| CallExecute (g : gateway) (h : option action_handler) (action : json) (rationale : jsstr)
| CallApproved (g : gateway) (h : option action_handler) (action : json) (rationale : jsstr)
| CallEnqueue (g : gateway) (action : json) (reason rationale sender_id transport chat_id : jsstr)
    (h : option action_handler)
| CallApprove (g : gateway) (id : Z) (h : action_handler)
| CallReject (id : Z).

(** [reject] returns nothing. *)
Definition returned : Type := py (option GatewayResult).

(** What a call has obtained so far: the row it read, the approval it has taken, the key it
    holds, the slot it has used, the files it saw last, and whether its action was carried out.
    No step depends on it. *)
Record hold := {
  ho_row : option approval; ho_approval : option Z; ho_key : option jsstr; ho_slot : option jsstr;
  ho_files : option files; ho_ran : bool
}.
Definition nothing_held : hold :=
  {| ho_row := None; ho_approval := None; ho_key := None; ho_slot := None; ho_files := None;
     ho_ran := false |}.

Definition slot_prefix : jsstr := "auto-slot:".
Definition is_slot (key : jsstr) : bool := starts_with slot_prefix key.

Definition set_row (r : option approval) (h : hold) : hold :=
  {| ho_row := r; ho_approval := ho_approval h; ho_key := ho_key h; ho_slot := ho_slot h;
     ho_files := ho_files h; ho_ran := ho_ran h |}.
Definition set_approval (a : option Z) (h : hold) : hold :=
  {| ho_row := ho_row h; ho_approval := a; ho_key := ho_key h; ho_slot := ho_slot h;
     ho_files := ho_files h; ho_ran := ho_ran h |}.
Definition set_key (k : option jsstr) (h : hold) : hold :=
  {| ho_row := ho_row h; ho_approval := ho_approval h; ho_key := k; ho_slot := ho_slot h;
     ho_files := ho_files h; ho_ran := ho_ran h |}.
Definition set_slot (k : option jsstr) (h : hold) : hold :=
  {| ho_row := ho_row h; ho_approval := ho_approval h; ho_key := ho_key h; ho_slot := k;
     ho_files := ho_files h; ho_ran := ho_ran h |}.
Definition set_files (fs : option files) (h : hold) : hold :=
  {| ho_row := ho_row h; ho_approval := ho_approval h; ho_key := ho_key h; ho_slot := ho_slot h;
     ho_files := fs; ho_ran := ho_ran h |}.
Definition set_ran (b : bool) (h : hold) : hold :=
  {| ho_row := ho_row h; ho_approval := ho_approval h; ho_key := ho_key h; ho_slot := ho_slot h;
     ho_files := ho_files h; ho_ran := b |}.

Definition after (o : operation) : answer o → hold → hold :=
  match o as o return answer o → hold → hold with
  | Look => λ fs, set_files (Some fs)
  | Get _ => set_row
  | Transition id _ => λ b h, if b then set_approval (Some id) h else h
  | SetStatus _ Pending => λ _, set_approval None
  | Claim key => λ b h,
      if b then if is_slot key then set_slot (Some key) h else set_key (Some key) h else h
  | Release _ => λ _, set_key None
  | Run _ _ => λ r h, match r with inr _ => set_ran true h | inl _ => h end
  | _ => λ _ h, h
  end.

(** Something carried out: by which call, holding what, and with which outcome. *)
Record carried := {
  ca_thread : nat; ca_call : gw_call; ca_hold : hold; ca_executor : executor; ca_action : json;
  ca_outcome : jsstr + jsstr
}.

Record thread := { th_call : gw_call; th_rest : prog returned; th_hold : hold }.
Record site := { si_vault : vault; si_threads : list thread; si_carried : list carried }.
Definition empty_site : site := {| si_vault := empty_vault; si_threads := []; si_carried := [] |}.

Section Site.
Context {P : Python}.
Context (digest : json → jsstr).

Definition as_returned (p : comp GatewayResult) : prog returned :=
  bind p (λ r, Ret (match r with inl e => inl e | inr x => inr (Some x) end)).

Definition program (c : gw_call) : prog returned :=
  match c with
  | CallExecute g h action rationale => as_returned (execute digest g h action rationale)
  | CallApproved g h action rationale => as_returned (execute_approved digest g h action rationale)
  | CallEnqueue g action reason rationale sender transport chat h =>
      as_returned (enqueue_for_approval digest g action reason rationale sender transport chat h)
  | CallApprove g id h => as_returned (approve digest g id h)
  | CallReject id => bind (reject id) (λ r, Ret (match r with inl e => inl e | inr _ => inr None end))
  end.

(** A new call, or one operation of a call. *)
Inductive move := Start (c : gw_call) | Advance (n : nat) (i : instant).

Definition carried_by (n : nat) (t : thread) (o : operation) : answer o → list carried :=
  match o as o return answer o → list carried with
  | Run x action => λ r, [{| ca_thread := n; ca_call := th_call t; ca_hold := th_hold t;
                             ca_executor := x; ca_action := action; ca_outcome := r |}]
  | _ => λ _, []
  end.

Definition take_step (m : move) (s : site) : site :=
  match m with
  | Start c =>
      {| si_vault := si_vault s;
         si_threads := si_threads s ++ [{| th_call := c; th_rest := program c; th_hold := nothing_held |}];
         si_carried := si_carried s |}
  | Advance n i =>
      match si_threads s !! n with
      | Some t =>
          match th_rest t with
          | Ret _ => s
          | Do o k =>
              let '(r, v) := perform_op i o (si_vault s) in
              {| si_vault := v;
                 si_threads := <[n := {| th_call := th_call t; th_rest := k r;
                                         th_hold := after o r (th_hold t) |}]> (si_threads s);
                 si_carried := si_carried s ++ carried_by n t o r |}
          end
      | None => s
      end
  end.

Definition site_step (s s' : site) : Prop := ∃ m, s' = take_step m s.
Definition at_work (s : site) : Prop := rtc site_step empty_site s.

Definition moves (l : list move) (s : site) : site := foldl (λ s m, take_step m s) s l.

Lemma moves_steps l s : rtc site_step s (moves l s).
Proof.
  revert s. induction l as [|m l IH]; intros s; [apply rtc_refl|].
  eapply rtc_l; [by exists m|]. apply IH.
Qed.

(** An invariant of the sites. *)
Lemma at_work_inv (I : site → Prop) s :
  I empty_site → (∀ m s, I s → I (take_step m s)) → at_work s → I s.
Proof.
  intros H0 Hs Hw. apply (rtc_ind_r (R := site_step) I empty_site); [done| |done].
  intros y z _ [m ->] Hy. by apply Hs.
Qed.
End Site.
