(* ===== verification/Guards.v ===== *)
(** What the action gateway guards, whatever is at work on its stores and in whatever order: a
    discipline on the operations of every method ([permitted]), shown method by method, and the
    invariants of the stores that the discipline keeps. *)

From S2P Require Import Prelude JsNumber Types Json ApiClient Python Policy Gateway.

Section Guards.
Context {P : Python}.
Context (digest : json → jsstr).

(** ** The discipline *)

Definition writes_on (g : gateway) : Prop := gw_write_disabled g = false ∧ gw_dry_run g = false.

(** The class of an action, for a gateway and the files seen last. *)
Definition classed (g : gateway) (action : json) (h : hold) (v : BlockVerdict) : Prop :=
  ∃ fs, ho_files h = Some fs ∧
    classify action (gw_allowlist g) fs (Some (gw_artifact_root g)) = inr v.
(** Not stopped by the red line. *)
Definition cleared (g : gateway) (action : json) (h : hold) : Prop :=
  ∃ v, classed g action h v ∧ is_hard_deny v = false.

Definition interrupts (g : gateway) (action : json) : Prop :=
  ∃ reason, needs_interrupt action (gw_external_channels g) = inr (Interrupt reason).

(** The slots that the ladder of a gateway has for an action. *)
Definition slot_of (g : gateway) (action : json) (key : jsstr) : Prop :=
  ∃ c t gr date seq, gw_auto_approve g = Some c ∧ action_semantic_type action = Some t ∧
    au_actions c t = Some gr ∧ 1 ≤ seq ≤ ga_max_per_day gr ∧ key = slot_key t date seq.
Definition granted (g : gateway) (action : json) (o : action_origin) : Prop :=
  ∃ c r, gw_auto_approve g = Some c ∧ evaluate action c o = inr (Some r).
(** Run without a person: granted, and within the day's slots. *)
Definition trusted (g : gateway) (action : json) (o : action_origin) (h : hold) : Prop :=
  granted g action o ∧ ∃ key, ho_slot h = Some key ∧ slot_of g action key.

(** When a call may have an action carried out. *)
Definition authorised (c : gw_call) (h : hold) (x : executor) (action : json) : Prop :=
  match c with
  | CallExecute g hd a _ =>
      action = a ∧ writes_on g ∧ (∃ d, hd = Some d ∧ d a = inr x) ∧
      ((classed g a h Allowed ∧ needs_interrupt a (gw_external_channels g) = inr NoInterrupt) ∨
       (interrupts g a ∧ cleared g a h ∧ trusted g a Scheduled h))
  | CallApproved g hd a _ =>
      action = a ∧ writes_on g ∧ (∃ d, hd = Some d ∧ d a = inr x) ∧ cleared g a h
  | CallEnqueue g a _ _ sender transport chat hd =>
      action = a ∧ writes_on g ∧ (∃ d, hd = Some d ∧ d a = inr x) ∧ cleared g a h ∧
      trusted g a (FromChat sender transport chat) h
  | CallApprove g id d =>
      ho_approval h = Some id ∧ writes_on g ∧ d action = inr x ∧ cleared g action h ∧
      ∃ r, ho_row h = Some r ∧ ap_action r = action
  | CallReject _ => False
  end.

(** When a call may queue an action. *)
Definition queueable (c : gw_call) (h : hold) (action : json) : Prop :=
  match c with
  | CallExecute g _ a _ => action = a ∧ interrupts g a ∧ cleared g a h
  | CallEnqueue g a _ _ _ _ _ _ => action = a ∧ classed g a h Allowed
  | _ => False
  end.

Definition call_slot (c : gw_call) (key : jsstr) : Prop :=
  match c with
  | CallExecute g _ a _ | CallEnqueue g a _ _ _ _ _ _ => slot_of g a key
  | _ => False
  end.

Definition permitted (c : gw_call) (h : hold) (o : operation) : Prop :=
  match o with
  | Enqueue action _ _ => queueable c h action
  | Get id => match c with CallApprove _ id' _ => id = id' | _ => True end
  | SetStatus id Pending => ho_approval h = Some id ∧ ho_ran h = false
  | SetStatus id Rejected => c = CallReject id
  | SetStatus id Approved => False
  | Transition id s =>
      s = Approved ∧ ho_approval h = None ∧ ho_ran h = false ∧ ∃ g d, c = CallApprove g id d
  | Claim key =>
      if is_slot key then ho_slot h = None ∧ call_slot c key
      else ho_key h = None ∧ ho_ran h = false
  | Release key => ho_key h = Some key ∧ ho_ran h = false ∧ is_slot key = false
  | Run x action =>
      authorised c h x action ∧ ho_ran h = false ∧
      ∃ key, ho_key h = Some key ∧ is_slot key = false ∧ action_dedup_key digest action = inr key
  | Look | ListPending | Audit _ | Admit _ | Today => True
  end.

(** Every operation of the program is permitted, whatever the answers, and [Q] holds of what it
    returns and has obtained. *)
Fixpoint keeps {A} (c : gw_call) (h : hold) (p : prog A) (Q : A → hold → Prop) : Prop :=
  match p with
  | Ret x => Q x h
  | Do o k => permitted c h o ∧ ∀ r, keeps c (after o r h) (k r) Q
  end.

Lemma keeps_mono {A} c h (p : prog A) (Q Q' : A → hold → Prop) :
  keeps c h p Q → (∀ x h', Q x h' → Q' x h') → keeps c h p Q'.
Proof.
  revert h. induction p as [x|o k IH]; intros h H HQ; cbn in *; [by apply HQ|].
  destruct H as [H1 H2]. split; [done|]. intros r. by apply IH.
Qed.

Lemma keeps_bind {A B} c h (p : prog A) (f : A → prog B) Q :
  keeps c h p (λ x h', keeps c h' (f x) Q) → keeps c h (bind p f) Q.
Proof.
  revert h. induction p as [x|o k IH]; intros h H; cbn in *; [done|].
  destruct H as [H1 H2]. split; [done|]. intros r. by apply IH.
Qed.

Lemma keeps_then {A B} c h (p : comp A) (f : A → comp B) Q :
  keeps c h p (λ r h', match r with inl e => Q (inl e) h' | inr x => keeps c h' (f x) Q end) →
  keeps c h (and_then p f) Q.
Proof.
  intros H. apply keeps_bind. eapply keeps_mono; [exact H|]. intros r h' Hr. by destruct r.
Qed.

Lemma keeps_record {A} c h t tool v r a why dry res (p : prog A) Q :
  keeps c h p Q → keeps c h (record t tool v r a why dry res p) Q.
Proof. intros H. by split. Qed.

(** ** The methods keep it *)

Ltac holds := cbn [set_row set_approval set_key set_slot set_files set_ran ho_row ho_approval ho_key
                   ho_slot ho_files ho_ran after] in *.

(** [vetted] only looks: afterwards the files seen last are those it classified under. *)
Lemma vetted_keeps c h g action Q :
  (∀ e fs, Q (inl e) h ∧ Q (inl e) (set_files fs h)) →
  (∀ fs v, is_dict action = true →
     classify action (gw_allowlist g) fs (Some (gw_artifact_root g)) = inr v →
     ∀ t tool, Q (inr (t, tool, v)) (set_files (Some fs) h)) →
  keeps c h (vetted g action) Q.
Proof.
  intros He Hv. unfold vetted. destruct (is_dict action) eqn:Ed; [|by apply (He _ None)].
  destruct (memb _ _); [|by apply (He _ None)]. cbn [negb].
  destruct (label action) as [e|tool]; [by apply (He _ None)|].
  split; [done|]. intros fs. cbn [after]. destruct (classify _ _ _ _) as [e|v] eqn:Ec; [apply He|].
  cbn. by apply Hv.
Qed.

(** What runs next may run the action: nothing is held or has run, and it is authorised. *)
Definition fit (c : gw_call) (h : hold) (hd : option action_handler) (action : json) : Prop :=
  ho_key h = None ∧ ho_ran h = false ∧
  ∀ d x key, hd = Some d → d action = inr x → authorised c (set_key (Some key) h) x action.

(** A failure leaves no trace of a run, and keeps what was obtained before. *)
Definition ends (h : hold) {A} (r : py A) (h' : hold) : Prop :=
  ho_approval h' = ho_approval h ∧ match r with inl _ => ho_ran h' = false | inr _ => True end.

(** The key of an action is none of the slots: a hint is marked as one, a digest is hexadecimal. *)
Hypothesis digest_no_slot : ∀ a, is_slot (digest a) = false.

Lemma dedup_key_no_slot action key : action_dedup_key digest action = inr key → is_slot key = false.
Proof.
  unfold action_dedup_key. intros H. destruct (json_get "dedup_hint" action) as [v|].
  - destruct v as [| | |s|l|l]; [by injection H as <-|by injection H as <-|by injection H as <-| |
      by injection H as <-|by injection H as <-].
    destruct s as [|z s]; [by injection H as <-|]. destruct (label action); [done|].
    injection H as <-. reflexivity.
  - by injection H as <-.
Qed.

Lemma carry_out_keeps c h hd action why t tool :
  fit c h hd action → keeps c h (carry_out digest hd action why t tool) (ends h).
Proof.
  intros (Hk & Hr & Ha). unfold carry_out.
  destruct (action_dedup_key digest action) as [e|key] eqn:Ek; [by split|].
  pose proof (dedup_key_no_slot _ _ Ek) as Hs.
  split; [cbn; by rewrite Hs|]. intros []; cbn [after negb]; [|by apply keeps_record]. rewrite Hs.
  destruct hd as [d|]; [|split; [done|]; intros []; by apply keeps_record].
  assert (∀ exc : jsstr, keeps c (set_key (Some key) h)
    (let* _ := Release key in
     record t tool "deny" (cat ["handler error: "; exc]) action why false ""
       (raise (A := GatewayResult) (RuntimeError (cat ["Handler for "; tool; " failed: "; exc]))))
    (ends h)) as Hf.
  { intros exc. split; [done|]. intros []. by apply keeps_record. }
  destruct (d action) as [exc|x] eqn:Ed; [apply Hf|]. split.
  - split; [by eapply Ha|]. split; [done|]. by exists key.
  - intros [exc|sum]; cbn [after]; [apply Hf|]. by apply keeps_record.
Qed.

Lemma past_verdict_keeps c h g hd action why approved t tool v :
  ho_ran h = false →
  (writes_on g → v = Allowed ∨ (approved = true ∧ is_hard_deny v = false) → fit c h hd action) →
  keeps c h (past_verdict digest g hd action why approved t tool v) (ends h).
Proof.
  intros Hr Hf. unfold past_verdict.
  assert (∀ r e, keeps c h (record t tool "deny" r action why false "" (raise (A := GatewayResult) e))
            (ends h)) as Hd by (intros r e; by apply keeps_record).
  assert (v = Allowed ∨ (approved = true ∧ is_hard_deny v = false) →
    keeps c h (if gw_write_disabled g
      then record t tool "deny" "kill switch on" action why false "" (raise WriteDisabledError)
      else if gw_dry_run g
      then record t tool "dry_run" "DRY_RUN on" action why true ""
             (done_with DryRun (cat ["[dry-run] would run "; tool]))
      else let* ok := Admit (gw_id g) in
           if negb ok then record t tool "deny" "rate limit" action why false "" (raise RateLimitedError)
           else carry_out digest hd action why t tool) (ends h)) as Hp.
  { intros Hv. destruct (gw_write_disabled g) eqn:Ew; [apply Hd|].
    destruct (gw_dry_run g) eqn:Edr; [by apply keeps_record|]. split; [done|]. intros [].
    - cbn [negb after]. apply carry_out_keeps, Hf; [by split|done].
    - apply Hd. }
  destruct v as [|cat reason]; [apply Hp; by left|].
  destruct (approved && bool_decide (cat = NOT_ALLOWLISTED)) eqn:E; [|apply Hd].
  apply andb_true_iff in E as [-> ->%bool_decide_eq_true]. apply Hp. by right.
Qed.

Lemma execute_approved_keeps c h g hd action why :
  ho_ran h = false →
  (∀ fs, writes_on g → cleared g action (set_files (Some fs) h) → fit c (set_files (Some fs) h) hd action) →
  keeps c h (execute_approved digest g hd action why) (ends h).
Proof.
  intros Hr Hf. apply keeps_then, vetted_keeps; [by split|]. intros fs v _ Hc t tool.
  apply (past_verdict_keeps c (set_files (Some fs) h)); [done|].
  intros Hl Hv. apply Hf; [done|]. exists v. split; [by exists fs|]. destruct Hv as [->|[_ ?]]; done.
Qed.

Lemma slot_key_is_slot t date seq : is_slot (slot_key t date seq) = true.
Proof. reflexivity. Qed.

Lemma claim_slot_keeps c h t date n seq :
  ho_slot h = None → (∀ i, seq ≤ i < seq + Z.of_nat n → call_slot c (slot_key t date i)) →
  keeps c h (claim_slot t date seq n) (λ b h',
    if b then ∃ i, h' = set_slot (Some (slot_key t date i)) h ∧ seq ≤ i < seq + Z.of_nat n else h' = h).
Proof.
  intros Hs. revert seq. induction n as [|n IH]; intros seq Hc; [done|]. split.
  - cbn [permitted]. rewrite slot_key_is_slot. split; [done|]. apply Hc. lia.
  - intros []; cbn [after].
    + rewrite slot_key_is_slot. exists seq. split; [done|lia].
    + eapply keeps_mono; [apply IH; intros i Hi; apply Hc; lia|].
      intros [] h'; [|done]. intros (i & -> & Hi). exists i. split; [done|lia].
Qed.

Lemma try_auto_keeps c h g action o :
  ho_slot h = None → (∀ key, slot_of g action key → call_slot c key) →
  keeps c h (try_auto_approve (gw_auto_approve g) action o) (λ r h',
    match r with
    | inr (Some _) => ∃ key, h' = set_slot (Some key) h ∧ slot_of g action key ∧ granted g action o
    | _ => h' = h
    end).
Proof.
  intros Hs Hc. unfold try_auto_approve. destruct (gw_auto_approve g) as [config|] eqn:Eg; [|done].
  destruct (evaluate action config o) as [e|[why|]] eqn:Ee; [done| |done].
  apply keeps_bind. unfold claim_daily_slot.
  destruct (action_semantic_type action) as [t|] eqn:Et; [|done].
  destruct (au_actions config t) as [gr|] eqn:Ea; [|done].
  destruct (Z.leb_spec (ga_max_per_day gr) 0); [done|]. split; [done|]. intros date. cbn [after].
  assert (∀ i, 1 ≤ i < 1 + Z.of_nat (Z.to_nat (ga_max_per_day gr)) → slot_of g action (slot_key t date i))
    as Hi. { intros i Hi. exists config, t, gr, date, i. repeat (split; [done|]). split; [lia|done]. }
  eapply keeps_mono; [apply claim_slot_keeps; [done|]; intros i Hr; by apply Hc, Hi|].
  intros [] h'; cbn; [|done]. intros (i & -> & Hr). exists (slot_key t date i).
  split; [done|]. split; [by apply Hi|]. by exists config, why.
Qed.

Lemma queue_keeps c h action reason why t tool (Q : py GatewayResult → hold → Prop) :
  queueable c h action → (∀ r, Q r h) → keeps c h (queue action reason why t tool) Q.
Proof. intros Hq HQ. split; [done|]. intros id. apply keeps_record, HQ. Qed.

Definition any_end {A} (_ : A) (_ : hold) : Prop := True.

Lemma ends_any h {A} c h0 (p : comp A) : keeps c h0 p (ends h) → keeps c h0 p any_end.
Proof. intros H. by eapply keeps_mono. Qed.

Lemma execute_keeps g hd action why :
  keeps (CallExecute g hd action why) nothing_held (execute digest g hd action why) any_end.
Proof.
  apply keeps_then, vetted_keeps; [done|]. intros fs v _ Hc t tool.
  assert (∀ k, classed g action (set_files (Some fs) k) v) as Hv by (intros k; by exists fs).
  destruct (needs_interrupt action (gw_external_channels g)) as [e|[|reason]] eqn:Ei; [done| |].
  - eapply ends_any, past_verdict_keeps; [done|]. intros Hl Ha. split; [done|]. split; [done|].
    intros d x key Hd Hx. split; [done|]. split; [done|]. split; [by exists d|]. left. split; [|done].
    destruct Ha as [->|[? _]]; [exact (Hv _)|done].
  - assert (interrupts g action) as Hi by (by exists reason). destruct (is_hard_deny v) eqn:Eh.
    + eapply ends_any, past_verdict_keeps; [done|]. intros _ [->|[? _]]; done.
    + destruct hd as [d|]; [|refine (queue_keeps _ _ action reason why t tool any_end _ _); [|done];
        split; [done|]; split; [done|]; by exists v].
      apply keeps_then. eapply keeps_mono; [apply try_auto_keeps; [done|]; done|].
      intros [e|[auto|]] h'; [done| |].
      * intros (key & -> & Hk & Hg). eapply ends_any, execute_approved_keeps; [done|].
        intros fs' Hl Hcl. split; [done|]. split; [done|]. intros d' x k Hd Hx.
        split; [done|]. split; [done|]. split; [by exists d'|]. right. split; [done|].
        split; [exact Hcl|]. split; [done|]. by exists key.
      * intros ->. apply queue_keeps; [|done]. split; [done|]. split; [done|]. by exists v.
Qed.

Lemma enqueue_keeps g action reason why sender transport chat hd :
  keeps (CallEnqueue g action reason why sender transport chat hd) nothing_held
    (enqueue_for_approval digest g action reason why sender transport chat hd) any_end.
Proof.
  apply keeps_then, vetted_keeps; [done|]. intros fs v _ Hc t tool.
  destruct v as [|cat denial]; [|by apply keeps_record].
  assert (classed g action (set_files (Some fs) nothing_held) Allowed) as Hv by (by exists fs).
  destruct hd as [d|]; [|by refine (queue_keeps _ _ action reason why t tool any_end _ _)].
  apply keeps_then. eapply keeps_mono; [apply try_auto_keeps; [done|]; done|].
  intros [e|[auto|]] h'; [done| |].
  - intros (key & -> & Hk & Hg). eapply ends_any, execute_approved_keeps; [done|].
    intros fs' Hl Hcl. split; [done|]. split; [done|]. intros d' x k Hd Hx.
    split; [done|]. split; [done|]. split; [by exists d'|]. split; [exact Hcl|].
    split; [done|]. by exists key.
  - intros ->. by apply queue_keeps.
Qed.

Lemma approve_keeps g id d :
  keeps (CallApprove g id d) nothing_held (approve digest g id d) any_end.
Proof.
  split; [done|]. intros [r|]; cbn [after]; [|done].
  split; [by split; [|split; [|split; [|by exists g, d]]]|]. intros []; cbn [negb after]; [|done].
  apply keeps_bind. eapply keeps_mono; [apply execute_approved_keeps; [done|]|].
  - intros fs Hl Hcl. split; [done|]. split; [done|]. intros d' x key [= <-] Hx.
    split; [done|]. split; [done|]. split; [done|]. split; [exact Hcl|]. by exists r.
  - intros [e|x] h' [Ha Hr]; [|done]. split; [|done]. by split; [rewrite Ha|].
Qed.

Lemma reject_keeps id : keeps (CallReject id) nothing_held (reject id) any_end.
Proof.
  split; [done|]. intros pending; cbn [after]. split; [done|]. intros [].
  destruct pending as [r|]; [|done]. destruct (label (ap_action r)); [done|]. by apply keeps_record.
Qed.

Lemma approved_keeps g hd action why :
  keeps (CallApproved g hd action why) nothing_held (execute_approved digest g hd action why) any_end.
Proof.
  eapply ends_any, execute_approved_keeps; [done|]. intros fs Hl Hcl. split; [done|]. split; [done|].
  intros d x key Hd Hx. split; [done|]. split; [done|]. split; [by exists d|]. exact Hcl.
Qed.

(** Every method keeps the discipline. *)
Theorem program_keeps c : keeps c nothing_held (program digest c) any_end.
Proof.
  destruct c; apply keeps_bind.
  - eapply keeps_mono; [apply execute_keeps|]. done.
  - eapply keeps_mono; [apply approved_keeps|]. done.
  - eapply keeps_mono; [apply enqueue_keeps|]. done.
  - eapply keeps_mono; [apply approve_keeps|]. done.
  - eapply keeps_mono; [apply reject_keeps|]. done.
Qed.
End Guards.

(** ** One step of a site *)

Section Steps.
Context {P : Python}.
Context (digest : json → jsstr).

Definition succeeded (ca : carried) : bool :=
  match ca_outcome ca with inr _ => true | inl _ => false end.

(** A step starts a call, does nothing, or is an operation of a call, with the answer that the
    stores give it. *)
Lemma take_step_cases m s :
  (∃ c, take_step digest m s = {| si_vault := si_vault s;
     si_threads := si_threads s ++ [{| th_call := c; th_rest := program digest c; th_hold := nothing_held |}];
     si_carried := si_carried s |}) ∨
  take_step digest m s = s ∨
  ∃ n i t o k, si_threads s !! n = Some t ∧ th_rest t = Do o k ∧
    let r := fst (perform_op i o (si_vault s)) in
    take_step digest m s = {| si_vault := snd (perform_op i o (si_vault s));
      si_threads := <[n := {| th_call := th_call t; th_rest := k r; th_hold := after o r (th_hold t) |}]>
                      (si_threads s);
      si_carried := si_carried s ++ carried_by n t o r |}.
Proof.
  destruct m as [c|n i]; [left; by exists c|]. right. cbn.
  destruct (si_threads s !! n) as [t|] eqn:Et; [|by left].
  destruct (th_rest t) as [x|o k] eqn:Ek; [by left|]. right. exists n, i, t, o, k.
  split; [done|]. split; [done|]. by destruct (perform_op i o (si_vault s)).
Qed.

(** ** Tokens

    Three things that only one call has at a time: a key of the dedup store, an approval, a slot
    of the day.  They are taken in the stores; a call that fails gives its key and its approval
    back, one that has run never does. *)

Section Token.
Context {K : Type} (tok : hold → option K) (free : K → vault → Prop).

Definition ran_with (ca : carried) : option K := if succeeded ca then tok (ca_hold ca) else None.

Definition exclusive (s : site) : Prop :=
  (∀ n t k, si_threads s !! n = Some t → tok (th_hold t) = Some k → ¬ free k (si_vault s)) ∧
  (∀ n m t t' k, si_threads s !! n = Some t → si_threads s !! m = Some t' →
     tok (th_hold t) = Some k → tok (th_hold t') = Some k → n = m) ∧
  (∀ ca k, ca ∈ si_carried s → ran_with ca = Some k →
     ¬ free k (si_vault s) ∧
     ∀ n t, si_threads s !! n = Some t → tok (th_hold t) = Some k → ho_ran (th_hold t) = true) ∧
  NoDup (omap ran_with (si_carried s)).

(** What an operation has to respect. *)
Definition respects (o : operation) (r : answer o) (h : hold) (v v' : vault) : Prop :=
  (∀ k, tok (after o r h) = Some k → tok h = Some k ∨ free k v ∧ ¬ free k v') ∧
  (∀ k, ¬ free k v → free k v' → tok h = Some k ∧ ho_ran h = false ∧ tok (after o r h) ≠ Some k) ∧
  (ho_ran h = true → ho_ran (after o r h) = true) ∧
  ∀ n t ca, th_hold t = h → ca ∈ carried_by n t o r → succeeded ca = true →
    ho_ran h = false ∧ ho_ran (after o r h) = true ∧ tok (after o r h) = tok h.

Lemma carried_by_one n t o r ca : ca ∈ carried_by n t o r → carried_by n t o r = [ca] ∧ ca_hold ca = th_hold t.
Proof.
  destruct o; cbn; intros H; try (by apply elem_of_nil in H).
  apply list_elem_of_singleton in H as ->. done.
Qed.

Lemma exclusive_step n t o k0 r v' s :
  exclusive s → si_threads s !! n = Some t → respects o r (th_hold t) (si_vault s) v' →
  exclusive {| si_vault := v';
    si_threads := <[n := {| th_call := th_call t; th_rest := k0; th_hold := after o r (th_hold t) |}]>
                    (si_threads s);
    si_carried := si_carried s ++ carried_by n t o r |}.
Proof.
  intros (H1 & H2 & H3 & H4) Ht (R1 & R2 & R3 & R4).
  assert (∀ m t', <[n := {| th_call := th_call t; th_rest := k0; th_hold := after o r (th_hold t) |}]>
                    (si_threads s) !! m = Some t' →
    m = n ∧ th_hold t' = after o r (th_hold t) ∨ m ≠ n ∧ si_threads s !! m = Some t') as Hin.
  { intros m t' Hm. apply list_lookup_insert_Some in Hm as [(<- & <- & _)|[? ?]]; auto. }
  assert (∀ k, tok (after o r (th_hold t)) = Some k → ¬ free k v') as Hn.
  { intros k Hk Hf. destruct (R1 k Hk) as [Ho|[_ ?]]; [|done].
    destruct (R2 k (H1 n t k Ht Ho) Hf) as (_ & _ & ?). done. }
  assert (∀ ca k, ca ∈ carried_by n t o r → ran_with ca = Some k →
    tok (th_hold t) = Some k ∧ ho_ran (th_hold t) = false ∧ ho_ran (after o r (th_hold t)) = true ∧
    tok (after o r (th_hold t)) = tok (th_hold t)) as Hnew.
  { unfold ran_with. intros ca k Hca Hk. destruct (succeeded ca) eqn:Es; [|done].
    destruct (carried_by_one n t o r ca Hca) as [_ Eh]. rewrite Eh in Hk.
    split; [done|]. by apply (R4 n t ca). }
  split; [|split; [|split]]; cbn [si_vault si_threads si_carried].
  - intros m t' k [[-> Eh]|[Hm Hm']]%Hin Hk; [rewrite Eh in Hk; by apply Hn|].
    intros Hf. destruct (R2 k (H1 m t' k Hm' Hk) Hf) as (Ho & _). by apply Hm, (H2 m n t' t k).
  - intros m m' t1 t2 k [[-> E1]|[Hm1 Hm1']]%Hin [[-> E2]|[Hm2 Hm2']]%Hin Hk1 Hk2; [done| | |by eauto].
    + rewrite E1 in Hk1. destruct (R1 k Hk1) as [Ho|[Hf _]]; [by eauto|].
      by destruct (H1 m' t2 k Hm2' Hk2).
    + rewrite E2 in Hk2. destruct (R1 k Hk2) as [Ho|[Hf _]]; [by eauto|].
      by destruct (H1 m t1 k Hm1' Hk1).
  - intros ca k Hca Hk. apply elem_of_app in Hca as [Hca|Hca].
    + destruct (H3 ca k Hca Hk) as [Hnf Hran]. split.
      * intros Hf. destruct (R2 k Hnf Hf) as (Ho & Hr & _). by rewrite (Hran n t Ht Ho) in Hr.
      * intros m t' [[-> Eh]|[Hm Hm']]%Hin Hk'; [|by eauto]. rewrite Eh in *.
        destruct (R1 k Hk') as [Ho|[Hf _]]; [|done]. by apply R3, (Hran n t).
    + destruct (Hnew ca k Hca Hk) as (Ho & Hr & Ha & Et). split; [apply Hn; by rewrite Et|].
      intros m t' [[-> Eh]|[Hm Hm']]%Hin Hk'; [by rewrite Eh|]. by destruct Hm; apply (H2 m n t' t k).
  - rewrite omap_app. apply NoDup_app. split; [done|]. split.
    + intros k (ca & Hca & Hk)%list_elem_of_omap (ca' & Hca' & Hk')%list_elem_of_omap.
      destruct (Hnew ca' k Hca' Hk') as (Ho & Hr & _). destruct (H3 ca k Hca Hk) as [_ Hran].
      by rewrite (Hran n t Ht Ho) in Hr.
    + destruct (carried_by n t o r) as [|ca l] eqn:Ec; [constructor|].
      destruct (carried_by_one n t o r ca) as [El _]; [rewrite Ec; by left|].
      rewrite Ec in El. injection El as ->. cbn. destruct (ran_with ca); [apply NoDup_singleton|constructor].
Qed.
End Token.

(** The start of a call takes nothing. *)
Lemma exclusive_start {K} (tok : hold → option K) free c p s :
  tok nothing_held = None → exclusive tok free s →
  exclusive tok free {| si_vault := si_vault s;
    si_threads := si_threads s ++ [{| th_call := c; th_rest := p; th_hold := nothing_held |}];
    si_carried := si_carried s |}.
Proof.
  intros Hn (H1 & H2 & H3 & H4).
  assert (∀ n t k, (si_threads s ++ [{| th_call := c; th_rest := p; th_hold := nothing_held |}]) !! n = Some t →
    tok (th_hold t) = Some k → si_threads s !! n = Some t) as Hin.
  { intros n t k Hl Hk. apply lookup_app_Some in Hl as [Hl|[_ Hl]]; [done|].
    apply list_lookup_singleton_Some in Hl as [_ <-]. cbn in Hk. by rewrite Hn in Hk. }
  split; [|split; [|split]]; cbn [si_vault si_threads si_carried]; [by eauto| | |done].
  - intros n m t t' k Ht Hm Hk Hk'. eauto.
  - intros ca k Hca Hk. destruct (H3 ca k Hca Hk) as [? Hr]. split; [done|]. intros n t Ht Ht'. eauto.
Qed.

Definition free_key (slot : bool) (k : jsstr) (v : vault) : Prop := is_slot k = slot ∧ k ∉ va_keys v.
Definition free_approval (id : Z) (v : vault) : Prop := ∀ r, row id v = Some r → ap_status r = Pending.

Lemma perform_op_keys i o v :
  match o with
  | Claim k => fst (claim k v) = negb (bool_decide (k ∈ va_keys v)) ∧
      va_keys (snd (perform_op i o v)) = {[k]} ∪ va_keys v
  | Release k => va_keys (snd (perform_op i o v)) = va_keys v ∖ {[k]}
  | _ => va_keys (snd (perform_op i o v)) = va_keys v
  end.
Proof.
  destruct o; cbn; try done.
  - unfold update_status. by destruct (row_index id).
  - unfold transition_if_pending. destruct (row id v) as [r|]; [|done]. destruct (is_pending r); [|done].
    unfold update_status. cbn. by destruct (row_index id).
  - unfold claim. destruct (bool_decide_reflect (key ∈ va_keys v)); [|done]. cbn. split; [done|set_solver].
  - by destruct (within_limit _ _).
Qed.

(** What a call is left with by an operation that takes or gives nothing. *)
Lemma respects_same {K} (tok : hold → option K) free o r h v v' :
  (∀ k, free k v' → free k v) → tok (after o r h) = tok h →
  (ho_ran h = true → ho_ran (after o r h) = true) →
  (∀ x a, o = Run x a → ho_ran h = false) →
  respects tok free o r h v v'.
Proof.
  intros Hf Ht Hr Hx. split; [|split; [|split]].
  - intros k Hk. left. by rewrite Ht in Hk.
  - intros k Hn Hk. by destruct Hn; apply Hf.
  - done.
  - intros n t ca Eh Hca Hs. destruct o; cbn in Hca; try (by apply elem_of_nil in Hca).
    apply list_elem_of_singleton in Hca as ->. split; [by eapply Hx|]. split; [|done].
    unfold succeeded in Hs. cbn in Hs. destruct r; [done|]. reflexivity.
Qed.

(** The key or the slot of a call. *)
Definition store_tok (slot : bool) (h : hold) : option jsstr := if slot then ho_slot h else ho_key h.

Lemma store_respects slot c h o i v :
  permitted digest c h o →
  respects (store_tok slot) (free_key slot) o (fst (perform_op i o v)) h v (snd (perform_op i o v)).
Proof.
  intros Hp. pose proof (perform_op_keys i o v) as Hk.
  assert (va_keys (snd (perform_op i o v)) = va_keys v → ∀ k, free_key slot k (snd (perform_op i o v)) →
    free_key slot k v) as Hs by (unfold free_key; by intros ->).
  destruct o as [|a w1 w2|id|id st|id st| |key|key|en|gw| |x a];
    try (apply respects_same; [by apply Hs|by destruct slot|done|done]).
  - apply respects_same; [by apply Hs|by destruct st, slot|by destruct st|done].
  - apply respects_same; [by apply Hs|..|done]; cbn; destruct (fst _); by try destruct slot.
  - destruct Hk as [E Hk]. change (fst (perform_op i (Claim key) v)) with (fst (claim key v)).
    destruct (bool_decide_reflect (key ∈ va_keys v)) as [Hin|Hin]; rewrite E; cbn [negb].
    { apply respects_same; [|done..]. unfold free_key. rewrite Hk. set_solver. }
    split; [|split; [|split; [|by intros ? ? ? ? ?%elem_of_nil]]]; unfold free_key; rewrite ?Hk.
    + intros k. cbn [after]. destruct slot, (is_slot key) eqn:Es; cbn; try (by left); intros [= <-]; right;
        set_solver.
    + intros k Hn [? Hf]. destruct Hn. split; [done|set_solver].
    + cbn [after]. by destruct (is_slot key).
  - destruct Hp as (Hh & Hr & Es).
    split; [|split; [|split; [done|by intros ? ? ? ? ?%elem_of_nil]]]; unfold free_key; rewrite ?Hk.
    + intros k. destruct slot; [by left|done].
    + intros k Hn [Ek Hf]. assert (k = key) as ->.
      { apply dec_stable. intros Hne. apply Hn. split; [done|set_solver]. }
      rewrite Es in Ek. subst slot. done.
  - destruct Hp as (_ & Hr & _). apply respects_same; [by apply Hs|..|done]; cbn; destruct (in_run i x a); by try destruct slot.
Qed.

Lemma row_update id id' st v :
  row id (update_status id' st v) = if bool_decide (row_index id = row_index id') then
    with_status st <$> row id v else row id v.
Proof.
  unfold row, update_status. destruct (row_index id') as [n|] eqn:En.
  - destruct (row_index id) as [m|] eqn:Em; cbn; [|by rewrite bool_decide_false].
    destruct (decide (m = n)) as [->|Hne].
    + rewrite bool_decide_true by done. by rewrite list_lookup_alter_eq.
    + rewrite bool_decide_false by congruence. by rewrite list_lookup_alter_ne.
  - destruct (row_index id) as [m|] eqn:Em; cbn; [by rewrite bool_decide_false|by rewrite bool_decide_true].
Qed.

Lemma row_index_inj id id' n : row_index id = Some n → row_index id' = Some n → id = id'.
Proof.
  unfold row_index. destruct (Z.leb_spec 1 id), (Z.leb_spec 1 id'); try done. intros [= E1] [= E2]. lia.
Qed.

(** A status other than pending frees no approval. *)
Lemma update_frees id st v k :
  st ≠ Pending → free_approval k (update_status id st v) → free_approval k v.
Proof.
  intros Hst Hf r Hr. specialize (Hf (if bool_decide (row_index k = row_index id) then with_status st r else r)).
  rewrite row_update, Hr in Hf. destruct (bool_decide _); [by destruct Hst; apply Hf|by apply Hf].
Qed.

Lemma perform_op_rows i o v :
  match o with
  | Enqueue a reason why => va_rows (snd (perform_op i o v)) = va_rows v ++ [
      {| ap_id := Z.of_nat (length (va_rows v)) + 1; ap_action := redact a; ap_reason := reason;
         ap_status := Pending; ap_rationale := why; ap_created_at := in_now i |}]
  | SetStatus id st => snd (perform_op i o v) = update_status id st v
  | Transition id st =>
      (fst (transition_if_pending id st v) = true ∧ snd (perform_op i o v) = update_status id st v ∧
       ∃ r, row id v = Some r ∧ ap_status r = Pending) ∨
      (fst (transition_if_pending id st v) = false ∧ snd (perform_op i o v) = v)
  | _ => va_rows (snd (perform_op i o v)) = va_rows v
  end.
Proof.
  destruct o; cbn; try done.
  - unfold transition_if_pending. destruct (row id v) as [r|]; [|by right].
    unfold is_pending. destruct (bool_decide_reflect (ap_status r = Pending)); [left|by right]. eauto.
  - unfold claim. by destruct (bool_decide _).
  - by destruct (within_limit _ _).
Qed.

Lemma approval_respects c h o i v :
  permitted digest c h o →
  respects ho_approval free_approval o (fst (perform_op i o v)) h v (snd (perform_op i o v)).
Proof.
  intros Hp. pose proof (perform_op_rows i o v) as Hk.
  assert (va_rows (snd (perform_op i o v)) = va_rows v → ∀ k, free_approval k (snd (perform_op i o v)) →
    free_approval k v) as Hs by (unfold free_approval, row; by intros ->).
  destruct o as [|a w1 w2|id|id st|id st| |key|key|en|gw| |x a];
    try (apply respects_same; [by apply Hs|done..]).
  - apply respects_same; [|done..]. intros k Hf r Hr. apply Hf. unfold row in *. rewrite Hk.
    destruct (row_index k); [|done]. cbn in *. by apply lookup_app_l_Some.
  - rewrite Hk. destruct st; [|done|by apply respects_same; [by intros k; apply update_frees|done..]].
    destruct Hp as [Hh Hr]. split; [done|split; [|split; [done|by intros ? ? ? ? ?%elem_of_nil]]].
    intros k Hn Hf. split; [|done]. rewrite Hh. f_equal. symmetry. apply dec_stable. intros Hne.
    apply Hn. intros r Hkr. apply Hf. rewrite row_update. rewrite bool_decide_false; [done|].
    intros Ei. unfold row in Hkr. destruct (row_index k) as [n|] eqn:En; [|done].
    by apply Hne, (row_index_inj k id n).
  - destruct Hp as (-> & Hh & Hr & _).
    change (fst (perform_op i (Transition id Approved) v)) with (fst (transition_if_pending id Approved v)).
    destruct Hk as [(-> & -> & r & Er & Epr)|[-> ->]]; [|by apply respects_same].
    split; [|split; [|split; [done|by intros ? ? ? ? ?%elem_of_nil]]].
    + intros k [= <-]. right. split; [intros r'; rewrite Er; by intros [= <-]|].
      intros Hf. specialize (Hf (with_status Approved r)). rewrite row_update, bool_decide_true, Er in Hf by done.
      by specialize (Hf eq_refl).
    + intros k Hn Hf. destruct Hn. by apply (update_frees id Approved v k).
  - apply respects_same; [by apply Hs|..|done]; cbn; destruct (fst _); by try destruct (is_slot key).
  - destruct Hp as (_ & Hr & _). apply respects_same; [by apply Hs|..|done]; cbn; by destruct (in_run i x a).
Qed.

(** ** What stays of the rows *)

(** All but the status. *)
Definition same_row (r r' : approval) : Prop :=
  ap_id r' = ap_id r ∧ ap_action r' = ap_action r ∧ ap_reason r' = ap_reason r ∧
  ap_rationale r' = ap_rationale r ∧ ap_created_at r' = ap_created_at r.
Definition kept (r : approval) (v : vault) : Prop := ∃ r', row (ap_id r) v = Some r' ∧ same_row r r'.
Definition well_numbered (v : vault) : Prop := ∀ id r, row id v = Some r → ap_id r = id.

Lemma same_row_trans r1 r2 r3 : same_row r1 r2 → same_row r2 r3 → same_row r1 r3.
Proof. unfold same_row. intuition congruence. Qed.

Lemma row_update_kept id st v k r :
  row k v = Some r → ∃ r', row k (update_status id st v) = Some r' ∧ same_row r r'.
Proof. intros Hr. rewrite row_update, Hr. destruct (bool_decide _); eexists; split; done. Qed.

Lemma row_kept i o v id r :
  row id v = Some r → ∃ r', row id (snd (perform_op i o v)) = Some r' ∧ same_row r r'.
Proof.
  intros Hr. pose proof (perform_op_rows i o v) as Hk.
  assert (va_rows (snd (perform_op i o v)) = va_rows v → ∃ r', row id (snd (perform_op i o v)) = Some r' ∧ same_row r r')
    as Hs by (intros E; exists r; by rewrite <- Hr; unfold row; rewrite E).
  destruct o; try (by apply Hs).
  - exists r. split; [|done]. unfold row in *. rewrite Hk. destruct (row_index id); [|done].
    by apply lookup_app_l_Some.
  - rewrite Hk. by apply row_update_kept.
  - destruct Hk as [(_ & -> & _)|[_ ->]]; [by apply row_update_kept|by exists r].
Qed.

Lemma update_numbered id st v : well_numbered v → well_numbered (update_status id st v).
Proof.
  intros Hn k r. rewrite row_update. destruct (bool_decide _); [|apply Hn].
  destruct (row k v) as [r0|] eqn:Er; [|done]. intros [= <-]. by apply Hn in Er.
Qed.

Lemma perform_op_numbered i o v : well_numbered v → well_numbered (snd (perform_op i o v)).
Proof.
  intros Hn. pose proof (perform_op_rows i o v) as Hk.
  assert (va_rows (snd (perform_op i o v)) = va_rows v → well_numbered (snd (perform_op i o v))) as Hs
    by (intros E k r Hr; apply Hn; by unfold row in *; rewrite E in Hr).
  destruct o; try (by apply Hs).
  - intros k r Hr. unfold row in Hr. rewrite Hk in Hr. destruct (row_index k) as [n|] eqn:En; [|done].
    cbn in Hr. apply lookup_app_Some in Hr as [Hr|[Hl Hr]].
    { apply Hn. unfold row. by rewrite En. }
    apply list_lookup_singleton_Some in Hr as [Hr <-]. cbn. unfold row_index in En.
    destruct (Z.leb_spec 1 k); [|done]. injection En as <-. lia.
  - rewrite Hk. by apply update_numbered.
  - destruct Hk as [(_ & -> & _)|[_ ->]]; [by apply update_numbered|done].
Qed.

(** ** The invariant *)

Hypothesis digest_no_slot : ∀ a, is_slot (digest a) = false.

(** The row a call to approve has read is that of its approval. *)
Definition own_row (c : gw_call) (h : hold) (v : vault) : Prop :=
  ∀ r, ho_row h = Some r → kept r v ∧ match c with CallApprove _ id _ => ap_id r = id | _ => True end.

Definition well_guarded (s : site) : Prop :=
  (∀ n t, si_threads s !! n = Some t →
     keeps digest (th_call t) (th_hold t) (th_rest t) any_end ∧ own_row (th_call t) (th_hold t) (si_vault s)) ∧
  (∀ ca, ca ∈ si_carried s →
     permitted digest (ca_call ca) (ca_hold ca) (Run (ca_executor ca) (ca_action ca)) ∧
     own_row (ca_call ca) (ca_hold ca) (si_vault s)) ∧
  well_numbered (si_vault s) ∧
  exclusive (store_tok false) (free_key false) s ∧ exclusive (store_tok true) (free_key true) s ∧
  exclusive ho_approval free_approval s.

Lemma own_row_step c h v i o :
  well_numbered v → own_row c h v → permitted digest c h o →
  own_row c (after o (fst (perform_op i o v)) h) (snd (perform_op i o v)).
Proof.
  intros Hn Ho Hp r Hr.
  assert (kept r v ∧ match c with CallApprove _ id _ => ap_id r = id | _ => True end) as [Hk Hc].
  { destruct o as [|a w1 w2|id|id st|id st| |key|key|en|gw| |x a]; try (by apply Ho).
    - cbn in Hr. assert (ap_id r = id) as Hid by (by apply Hn). split.
      + exists r. split; [by rewrite Hid|done].
      + destruct c; try done. cbn in Hp. congruence.
    - apply Ho. by destruct st.
    - apply Ho. cbn in Hr. by destruct (fst _).
    - apply Ho. cbn in Hr. destruct (fst _); [by destruct (is_slot key)|done].
    - apply Ho. cbn in Hr. by destruct (in_run i x a). }
  split; [|done]. destruct Hk as (r1 & Hr1 & H1). destruct (row_kept i o v _ _ Hr1) as (r2 & Hr2 & H2).
  exists r2. split; [done|]. by eapply same_row_trans.
Qed.

Lemma own_row_kept c h v i o : own_row c h v → own_row c h (snd (perform_op i o v)).
Proof.
  intros Ho r Hr. destruct (Ho r Hr) as [(r1 & Hr1 & H1) Hc].
  destruct (row_kept i o v _ _ Hr1) as (r2 & Hr2 & H2). split; [|done]. exists r2.
  split; [done|]. by eapply same_row_trans.
Qed.

Lemma well_guarded_step m s : well_guarded s → well_guarded (take_step digest m s).
Proof.
  intros (H1 & H2 & H3 & H4 & H5 & H6).
  destruct (take_step_cases m s) as [(c & ->)|[->|(n & i & t & o & k & Ht & Ek & ->)]]; [| |].
  - split; [|split; [done|split; [done|]]].
    + intros n t Hl. apply lookup_app_Some in Hl as [Hl|[_ Hl]]; [by apply H1 in Hl|].
      apply list_lookup_singleton_Some in Hl as [_ <-]. cbn. split; [|done].
      by apply program_keeps.
    + split; [|split]; by apply exclusive_start.
  - by split.
  - destruct (H1 n t Ht) as [Hk Ho]. rewrite Ek in Hk. destruct Hk as [Hp Hk].
    split; [|split; [|split; [by apply perform_op_numbered|]]]; cbn [si_vault si_threads si_carried].
    + intros m' t' Hm. apply list_lookup_insert_Some in Hm as [(-> & <- & _)|[_ Hm]].
      * split; [apply Hk|by apply own_row_step].
      * destruct (H1 m' t' Hm). split; [done|by apply own_row_kept].
    + intros ca [Hca|Hca]%elem_of_app.
      * destruct (H2 ca Hca). split; [done|by apply own_row_kept].
      * destruct o; cbn in Hca; try (by apply elem_of_nil in Hca).
        apply list_elem_of_singleton in Hca as ->. split; [done|by apply own_row_kept].
    + split; [|split]; (apply exclusive_step; [done|done|]).
      * by eapply (store_respects false).
      * by eapply (store_respects true).
      * by eapply approval_respects.
Qed.

Lemma exclusive_empty {K} (tok : hold → option K) free : exclusive tok free empty_site.
Proof.
  split; [done|]. split; [done|]. split; [by intros ca k ?%elem_of_nil|constructor].
Qed.

Lemma at_work_guarded s : at_work digest s → well_guarded s.
Proof.
  apply at_work_inv; [|apply well_guarded_step].
  split; [done|]. split; [by intros ca ?%elem_of_nil|]. split.
  - intros id r. unfold row. by destruct (row_index id).
  - split; [|split]; apply exclusive_empty.
Qed.

(** ** Theorems *)

Lemma NoDup_omap_index {A B} (f : A → option B) l i j x y k :
  NoDup (omap f l) → l !! i = Some x → l !! j = Some y → f x = Some k → f y = Some k → i = j.
Proof.
  revert i j. induction l as [|z l IH]; intros i j Hd Hi Hj Hx Hy; [done|].
  assert (∀ m w, l !! m = Some w → f w = Some k → k ∈ omap f l) as Hin.
  { intros m w Hm Hw. apply list_elem_of_omap. exists w. split; [by eapply list_elem_of_lookup_2|done]. }
  destruct i as [|i], j as [|j]; cbn in Hi, Hj; [done| | |].
  - injection Hi as ->. cbn in Hd. rewrite Hx in Hd. apply NoDup_cons in Hd as [Hn _].
    by destruct Hn; eapply Hin.
  - injection Hj as ->. cbn in Hd. rewrite Hy in Hd. apply NoDup_cons in Hd as [Hn _].
    by destruct Hn; eapply Hin.
  - f_equal. eapply IH; eauto. cbn in Hd. destruct (f z); [by apply NoDup_cons in Hd as [_ ?]|done].
Qed.

Definition approves (ca : carried) : option Z :=
  match ca_call ca with CallApprove _ id _ => Some id | _ => None end.

(** C3: The red line holds under any interleaving.  Whatever calls are at work on the stores, in
    whatever order their operations come and wherever they stop: an action is carried out only
    with writes enabled and not in a dry run, by the handler of a call for it, and only if its
    class, under the files last looked at, is not a red line; from [execute], only if it is
    allowed and needs no person, or if the trust ladder granted it and it used one of the day's
    slots; from [enqueue_for_approval], only if the ladder granted it to the sender; from
    [approve], only the action of the approval taken; and [reject] carries nothing out. *)
Theorem red_line s ca :
  at_work digest s → ca ∈ si_carried s →
  authorised (ca_call ca) (ca_hold ca) (ca_executor ca) (ca_action ca).
Proof. intros (_ & H & _)%at_work_guarded Hca. by apply H in Hca as [(? & _) _]. Qed.

(** The run of an approval is of the row taken. *)
Lemma approved_row s n ca id :
  well_guarded s → si_carried s !! n = Some ca → approves ca = Some id →
  ho_approval (ca_hold ca) = Some id ∧
  ∃ r, row id (si_vault s) = Some r ∧ ap_action r = ca_action ca.
Proof.
  intros (_ & H & _) Hn Ha. destruct (H ca) as [(Hau & _) Ho]; [by eapply list_elem_of_lookup_2|].
  unfold approves in Ha. destruct (ca_call ca) as [| | |g id' d|]; try done. injection Ha as ->.
  destruct Hau as (Hap & _ & _ & _ & r & Er & Ea). split; [done|].
  destruct (Ho r Er) as [(r' & Hr' & E) Hid]. rewrite Hid in Hr'. exists r'. split; [done|].
  destruct E as (_ & -> & _). done.
Qed.

Lemma approved_apart s i j ca ca' id :
  well_guarded s → si_carried s !! i = Some ca → si_carried s !! j = Some ca' →
  succeeded ca = true → succeeded ca' = true → approves ca = Some id → approves ca' = Some id → i = j.
Proof.
  intros Hw Hi Hj Hs Hs' Ha Ha'.
  destruct (approved_row s i ca id Hw Hi Ha) as [H1 _], (approved_row s j ca' id Hw Hj Ha') as [H2 _].
  destruct Hw as (_ & _ & _ & _ & _ & _ & _ & _ & Hd).
  eapply (NoDup_omap_index (ran_with ho_approval)); eauto; unfold ran_with; by rewrite ?Hs, ?Hs'.
Qed.

(** C4: An approval is carried out at most once, and it is the action that was queued.  Under any
    interleaving of approvals, rejections and failures: of two successful runs for one approval,
    both are the same; its row is then no longer pending, and has the action that ran. *)
Theorem approval_runs_once s i j ca ca' id :
  at_work digest s → si_carried s !! i = Some ca → si_carried s !! j = Some ca' →
  succeeded ca = true → succeeded ca' = true → approves ca = Some id → approves ca' = Some id →
  i = j ∧ ∃ r, row id (si_vault s) = Some r ∧ ap_status r ≠ Pending ∧ ap_action r = ca_action ca.
Proof.
  intros Hw%at_work_guarded Hi Hj Hs Hs' Ha Ha'. split; [by eapply approved_apart|].
  destruct (approved_row s i ca id Hw Hi Ha) as (Hap & r & Hr & Hact). exists r. split; [done|]. split; [|done].
  intros Hp. destruct Hw as (_ & _ & _ & _ & _ & _ & _ & H3 & _).
  destruct (H3 ca id) as [Hf _]; [by eapply list_elem_of_lookup_2|unfold ran_with; by rewrite Hs|].
  apply Hf. intros r0 Hr0. congruence.
Qed.

(** C5: No action is carried out twice.  Under any interleaving of calls, on any number of gateways
    over the same stores: of two successful runs of actions with the same idempotency key, both
    are the same run. *)
Theorem key_runs_once s i j ca ca' key :
  at_work digest s → si_carried s !! i = Some ca → si_carried s !! j = Some ca' →
  succeeded ca = true → succeeded ca' = true →
  action_dedup_key digest (ca_action ca) = inr key → action_dedup_key digest (ca_action ca') = inr key →
  i = j.
Proof.
  intros (_ & H & _ & Hx & _)%at_work_guarded Hi Hj Hs Hs' Hk Hk'. destruct Hx as (_ & _ & _ & H4).
  assert (∀ n x, si_carried s !! n = Some x → succeeded x = true →
    action_dedup_key digest (ca_action x) = inr key → ran_with (store_tok false) x = Some key) as Hr.
  { intros n x Hl Ex Kx. destruct (H x) as [(_ & _ & k & Hk0 & _ & Ek) _]; [by eapply list_elem_of_lookup_2|].
    unfold ran_with. rewrite Ex. cbn. congruence. }
  eapply NoDup_omap_index; eauto.
Qed.

(** A run of this type on this day without a person, within [m] slots. *)
Definition auto_run (t : semantic_type) (date : jsstr) (m : Z) (ca : carried) : Prop :=
  succeeded ca = true ∧ ∃ seq, 1 ≤ seq ≤ m ∧ ho_slot (ca_hold ca) = Some (slot_key t date seq).

Lemma auto_runs_bounded s t date m l :
  exclusive (store_tok true) (free_key true) s → 0 ≤ m → l `sublist_of` si_carried s → Forall (auto_run t date m) l →
  Z.of_nat (length l) ≤ m.
Proof.
  intros (_ & _ & _ & Hd) Hm Hl Hf.
  assert (omap (ran_with (store_tok true)) l ⊆ map (λ i, slot_key t date (Z.of_nat i)) (seq 1 (Z.to_nat m)) ∧
    length (omap (ran_with (store_tok true)) l) = length l) as [Hsub Hlen].
  { clear Hl Hd. induction Hf as [|ca l (Hs & i & Hi & Ei) _ [IH1 IH2]]; [split; [by intros ? ?%elem_of_nil|done]|].
    assert (omap (ran_with (store_tok true)) (ca :: l) =
      slot_key t date i :: omap (ran_with (store_tok true)) l) as ->
      by (cbn; unfold ran_with at 1; rewrite Hs; cbn [store_tok]; by rewrite Ei).
    split; [|by cbn [length]; rewrite IH2].
    intros k [->|Hk]%elem_of_cons; [|by apply IH1]. apply list_elem_of_fmap. exists (Z.to_nat i).
    split; [f_equal; lia|]. apply elem_of_seq. lia. }
  rewrite <- Hlen. etransitivity; [apply inj_le, (submseteq_length _ (map (λ i, slot_key t date (Z.of_nat i))
    (seq 1 (Z.to_nat m))))|rewrite length_map, length_seq; lia].
  apply NoDup_submseteq; [|done]. eapply sublist_NoDup; [exact Hd|].
  clear -Hl. induction Hl as [|x l1 l2 _ IH|x l1 l2 _ IH]; cbn; [done|..]; destruct (ran_with _ x); try done;
    by constructor.
Qed.

Lemma trusted_auto_run g action o ca :
  trusted g action o (ca_hold ca) → succeeded ca = true →
  ∃ c t gr date, gw_auto_approve g = Some c ∧ action_semantic_type action = Some t ∧
    au_actions c t = Some gr ∧ auto_run t date (ga_max_per_day gr) ca.
Proof.
  intros (_ & key & Hk & c & t & gr & date & i & Hc & Ht & Hg & Hi & ->) Hs.
  exists c, t, gr, date. repeat (split; [done|]). by exists i.
Qed.

(** C9: The ladder's cap.  Whatever is at work: a Lớp B action that [execute] carries out without a
    person, and any action that [enqueue_for_approval] does, has used one of the slots its grant
    has for the day; and however the calls overlap, no more than [m] runs of a type on a day use
    the first [m] slots. *)
Theorem daily_cap s :
  at_work digest s →
  (∀ ca g a, ca ∈ si_carried s → succeeded ca = true →
     (∃ hd why, ca_call ca = CallExecute g hd a why ∧ interrupts g a) ∨
     (∃ reason why sender transport chat hd, ca_call ca = CallEnqueue g a reason why sender transport chat hd) →
     ∃ c t gr date, gw_auto_approve g = Some c ∧ action_semantic_type a = Some t ∧
       au_actions c t = Some gr ∧ auto_run t date (ga_max_per_day gr) ca) ∧
  (∀ t date m l, 0 ≤ m → l `sublist_of` si_carried s → Forall (auto_run t date m) l →
     Z.of_nat (length l) ≤ m).
Proof.
  intros (_ & H & _ & _ & Hx & _)%at_work_guarded. split.
  - intros ca g a Hca Hs Hc. destruct (H ca Hca) as [(Hau & _) _].
    destruct Hc as [(hd & why & Ec & reason & Hi)|(reason & why & sender & transport & chat & hd & Ec)];
      rewrite Ec in Hau.
    + destruct Hau as (_ & _ & _ & [[_ Hn]|(_ & _ & Ht)]); [congruence|]. by eapply trusted_auto_run.
    + destruct Hau as (_ & _ & _ & _ & Ht). by eapply trusted_auto_run.
  - intros t date m l Hm. by apply auto_runs_bounded.
Qed.
End Steps.

(** ** Runs *)

Definition demo_digest (v : json) : jsstr := 35 :: json_text v.
Lemma demo_digest_no_slot a : is_slot (demo_digest a) = false.
Proof. reflexivity. Qed.

Definition demo_gateway (n : nat) : gateway :=
  {| gw_id := n; gw_write_disabled := false; gw_dry_run := false; gw_external_channels := ["C-ext" : jsstr];
     gw_allowlist := None; gw_auto_approve := None; gw_artifact_root := "/data/artifacts" |}.
Definition demo_instant : instant :=
  {| in_monotonic := 0; in_now := "now"; in_today := "2025-01-01"; in_files := no_files;
     in_run _ _ := inr "sent" |}.
Definition failing_instant : instant :=
  {| in_monotonic := 0; in_now := "now"; in_today := "2025-01-01"; in_files := no_files;
     in_run _ _ := inl "connection refused" |}.
Definition mail (subject : jsstr) : json :=
  JObj [("type" : jsstr, JStr "email_send"); ("to" : jsstr, jstrs ["a@b.c"]);
        ("subject" : jsstr, JStr subject); ("body" : jsstr, JStr "Text")].
Definition mailer : action_handler := λ _, inr EmailSend.

(** [k] operations of the call [n]. *)
Definition goes_on (n k : nat) : list move := replicate k (Advance n demo_instant).

(** An e-mail is queued, approved and sent. *)
Definition mail_moves : list move :=
  Start (CallExecute (demo_gateway 0) (Some mailer) (mail "Hi") "report") :: goes_on 0 3
  ++ Start (CallApprove (demo_gateway 1) 1 mailer) :: goes_on 1 7.
Definition mail_site : site := moves demo_digest mail_moves empty_site.
Lemma mail_site_at_work : at_work demo_digest mail_site.
Proof. apply moves_steps. Qed.

Definition mail_carried : carried :=
  {| ca_thread := 1; ca_call := CallApprove (demo_gateway 1) 1 mailer;
     ca_hold := {| ho_row := Some {| ap_id := 1; ap_action := mail "Hi";
                     ap_reason := "Lớp B: gửi email cần người duyệt"; ap_status := Pending;
                     ap_rationale := "report"; ap_created_at := "now" |};
                   ho_approval := Some 1; ho_key := Some (demo_digest (mail "Hi")); ho_slot := None;
                   ho_files := Some no_files; ho_ran := false |};
     ca_executor := EmailSend; ca_action := mail "Hi"; ca_outcome := inr "sent" |}.
Lemma mail_was_carried : si_carried mail_site = [mail_carried].
Proof. vm_compute. reflexivity. Qed.

Lemma red_line_witness :
  authorised (ca_call mail_carried) (ca_hold mail_carried) (ca_executor mail_carried) (ca_action mail_carried).
Proof.
  apply (red_line demo_digest demo_digest_no_slot mail_site); [exact mail_site_at_work|].
  rewrite mail_was_carried. by left.
Defined.

Lemma approval_runs_once_witness :
  0%nat = 0%nat ∧ ∃ r, row 1 (si_vault mail_site) = Some r ∧ ap_status r ≠ Pending ∧
    ap_action r = ca_action mail_carried.
Proof.
  apply (approval_runs_once demo_digest demo_digest_no_slot mail_site 0 0 mail_carried mail_carried 1);
    [exact mail_site_at_work|by rewrite mail_was_carried..|reflexivity|reflexivity|reflexivity|reflexivity].
Defined.

Lemma key_runs_once_witness : 0%nat = 0%nat.
Proof.
  apply (key_runs_once demo_digest demo_digest_no_slot mail_site 0 0 mail_carried mail_carried
           (demo_digest (mail "Hi")));
    [exact mail_site_at_work|by rewrite mail_was_carried..|reflexivity|reflexivity|reflexivity|reflexivity].
Defined.

(** With one slot a day the second e-mail of the day waits for a person. *)
Definition ladder : auto_config :=
  {| au_actions t := match t with
       | email_send => Some {| ga_enabled := true; ga_max_per_day := 1; ga_destinations := None |}
       | slack_post => Some {| ga_enabled := true; ga_max_per_day := 1;
                               ga_destinations := Some ["C-ext" : jsstr] |} end;
     au_trusted_telegram := [] |}.
Definition ladder_gateway : gateway :=
  {| gw_id := 0; gw_write_disabled := false; gw_dry_run := false; gw_external_channels := ["C-ext" : jsstr];
     gw_allowlist := None; gw_auto_approve := Some ladder; gw_artifact_root := "/data/artifacts" |}.
Definition auto_call (subject : jsstr) : gw_call :=
  CallExecute ladder_gateway (Some mailer) (mail subject) "report".
Definition auto_site : site :=
  moves demo_digest (Start (auto_call "A") :: Start (auto_call "B") :: goes_on 0 8 ++ goes_on 1 8) empty_site.
Definition auto_carried : carried :=
  {| ca_thread := 0; ca_call := auto_call "A";
     ca_hold := {| ho_row := None; ho_approval := None; ho_key := Some (demo_digest (mail "A"));
                   ho_slot := Some (slot_key email_send "2025-01-01" 1);
                   ho_files := Some no_files; ho_ran := false |};
     ca_executor := EmailSend; ca_action := mail "A"; ca_outcome := inr "sent" |}.
Lemma auto_was_carried : si_carried auto_site = [auto_carried].
Proof. vm_compute. reflexivity. Qed.
Example second_is_queued : map ap_action (va_rows (si_vault auto_site)) = [mail "B"].
Proof. vm_compute. reflexivity. Qed.

Lemma daily_cap_witness :
  (∃ c t gr date, gw_auto_approve ladder_gateway = Some c ∧ action_semantic_type (mail "A") = Some t ∧
     au_actions c t = Some gr ∧ auto_run t date (ga_max_per_day gr) auto_carried) ∧
  Z.of_nat (length [auto_carried]) ≤ 1.
Proof.
  destruct (daily_cap demo_digest demo_digest_no_slot auto_site) as [H1 H2]; [apply moves_steps|].
  rewrite auto_was_carried in *. split.
  - apply (H1 auto_carried ladder_gateway (mail "A")); [by left|reflexivity|]. left.
    exists (Some mailer), "report"%js. split; [reflexivity|]. eexists. vm_compute. reflexivity.
  - apply (H2 email_send "2025-01-01"); [lia|reflexivity|]. constructor; [|constructor].
    split; [reflexivity|]. exists 1. split; [lia|reflexivity].
Defined.

(** ** What the guards do not keep *)

(** A rejection can be undone, and the rejected action carried out.  An approval is under way
    when the operator rejects it: the rejection is recorded and returns; then the executor fails,
    and the failing call puts the approval back in the queue, where the next approval finds it. *)
Definition rejected_moves : list move :=
  Start (CallExecute (demo_gateway 0) (Some mailer) (mail "Hi") "report") :: goes_on 0 3
  ++ Start (CallApprove (demo_gateway 1) 1 mailer) :: goes_on 1 2
  ++ Start (CallReject 1) :: goes_on 2 3.
Definition rejected_site : site := moves demo_digest rejected_moves empty_site.
Definition revived_site : site :=
  moves demo_digest (replicate 7 (Advance 1 failing_instant)
    ++ Start (CallApprove (demo_gateway 2) 1 mailer) :: goes_on 3 7) rejected_site.

Theorem rejection_undone :
  at_work demo_digest rejected_site ∧
  (∃ t, si_threads rejected_site !! 2%nat = Some t ∧ th_call t = CallReject 1 ∧
        th_rest t = Ret (inr None)) ∧
  si_carried rejected_site = [] ∧ rtc (site_step demo_digest) rejected_site revived_site ∧
  ∃ ca, ca ∈ si_carried revived_site ∧ succeeded ca = true ∧ approves ca = Some 1.
Proof.
  split; [apply moves_steps|]. split; [eexists; split; [vm_compute; reflexivity|by split]|].
  split; [vm_compute; reflexivity|]. split; [apply moves_steps|].
  assert (Forall (λ ca, approves ca = Some 1) (si_carried revived_site) ∧
    existsb succeeded (si_carried revived_site) = true) as [Ha Hs].
  { split; [|vm_compute; reflexivity]. vm_compute. repeat constructor. }
  apply existsb_exists in Hs as (ca & Hin%list_elem_of_In & Hs). exists ca. split; [done|]. split; [done|].
  by rewrite Forall_forall in Ha; apply Ha.
Qed.

(** The ladder carries out what the allowlist denies.  A scheduled message to a granted channel
    by a tool that is on no allowlist runs without a person: the block is passed as if one had
    approved it. *)
Definition foreign_post : json :=
  JObj [("type" : jsstr, JStr "mcp_tool"); ("server" : jsstr, JStr "teams");
        ("tool" : jsstr, JStr "post_message"); ("args" : jsstr, JObj [("channel" : jsstr, JStr "C-ext")])].
Definition foreign_site : site :=
  moves demo_digest (Start (CallExecute ladder_gateway (Some (λ _, inr (OtherExecutor "teams"))) foreign_post "report")
    :: goes_on 0 8) empty_site.

Theorem ladder_passes_allowlist :
  at_work demo_digest foreign_site ∧
  (∃ ca, si_carried foreign_site = [ca] ∧ succeeded ca = true ∧ ca_action ca = foreign_post) ∧
  va_rows (si_vault foreign_site) = [] ∧
  ∀ fs root, ∃ reason, classify foreign_post None fs root = inr (Blocked NOT_ALLOWLISTED reason).
Proof.
  split; [apply moves_steps|]. split; [eexists; split; [vm_compute; reflexivity|by split]|].
  split; [vm_compute; reflexivity|]. intros fs root. eexists. vm_compute. reflexivity.
Qed.

(** In a dry run an approval is used up: nothing is carried out, and nothing is pending any
    more. *)
Definition dry_gateway : gateway :=
  {| gw_id := 1; gw_write_disabled := false; gw_dry_run := true; gw_external_channels := [];
     gw_allowlist := None; gw_auto_approve := None; gw_artifact_root := "/data/artifacts" |}.
Definition dry_site : site :=
  moves demo_digest (Start (CallExecute (demo_gateway 0) (Some mailer) (mail "Hi") "report") :: goes_on 0 3
    ++ Start (CallApprove dry_gateway 1 mailer) :: goes_on 1 4) empty_site.
Theorem dry_run_uses_up :
  at_work demo_digest dry_site ∧ si_carried dry_site = [] ∧
  (∃ t x, si_threads dry_site !! 1%nat = Some t ∧ th_rest t = Ret (inr (Some x)) ∧ gs_status x = DryRun) ∧
  List.filter is_pending (va_rows (si_vault dry_site)) = [].
Proof.
  split; [apply moves_steps|]. split; [vm_compute; reflexivity|].
  split; [|vm_compute; reflexivity]. eexists _, _. split; [vm_compute; reflexivity|by split].
Qed.

(** The rate limit is a gateway object's own, and the web builds one for every approval: eleven
    approvals at one instant are all carried out, where one gateway stops after ten. *)
Definition burst (gw : nat → nat) : list move :=
  flat_map (λ n, Start (CallExecute (demo_gateway 0) None (mail (z_str (Z.of_nat n))) "") :: goes_on n 3) (seq 0 11)
  ++ flat_map (λ n, Start (CallApprove (demo_gateway (gw n)) (Z.of_nat n + 1) mailer) :: goes_on (11 + n) 7) (seq 0 11).
Theorem limit_misses_web :
  length (si_carried (moves demo_digest (burst (λ n, S n)) empty_site)) = 11%nat ∧
  length (si_carried (moves demo_digest (burst (λ _, 1%nat)) empty_site)) = RATE_LIMIT_MAX.
Proof. split; vm_compute; reflexivity. Qed.
