(* ===== verification/Masking.v ===== *)
(** What the masking of secrets (src/actions/secret_patterns.py) is for: nothing that the
    detector finds is in what the masking leaves, so that nothing the gateway writes down holds a
    detectable secret; and it changes nothing else. *)

From S2P Require Import Prelude JsNumber Types Json ApiClient Python Policy Gateway.
From S2P Require Import Guards.

Section Matching.
Context {P : Python}.

(** ** What a pattern matches

    [fits ps prev l s]: after the unit [prev], the pattern takes [l] and [s] is left. *)

Definition last_or (prev : option Z) (l : jsstr) : option Z :=
  match last l with Some c => Some c | None => prev end.

Inductive fits : list piece → option Z → jsstr → jsstr → Prop :=
| fits_nil prev s : fits [] prev [] s
| fits_edge ps prev l s :
    edge prev (l ++ s) = true → fits ps prev l s → fits (Edge :: ps) prev l s
| fits_rep p least most ps prev l l' s :
    Forall (λ c, p c = true) l → (least ≤ length l)%nat →
    match most with Some m => (length l ≤ m)%nat | None => True end →
    fits ps (last_or prev l) l' s → fits (Rep p least most :: ps) prev (l ++ l') s.

Lemma last_or_app prev l l' : last_or prev (l ++ l') = last_or (last_or prev l) l'.
Proof. unfold last_or. rewrite last_app. by destruct (last l'). Qed.

Lemma last_or_cons prev c l : last_or prev (c :: l) = last_or (Some c) l.
Proof. exact (last_or_app prev [c] l). Qed.

Lemma before_last prev k s : (k ≤ length s)%nat → before prev k s = last_or prev (take k s).
Proof.
  destruct k as [|k]; [done|]. revert prev k. induction s as [|c s IH]; intros prev k H; cbn in *; [lia|].
  rewrite last_or_cons. destruct k as [|k]; [done|]. cbn. rewrite <- (IH (Some c) k) by lia. done.
Qed.

Lemma run_length_spec p most s k :
  (k ≤ run_length p most s)%nat ↔
  (k ≤ length s)%nat ∧ Forall (λ c, p c = true) (take k s) ∧
  match most with Some m => (k ≤ m)%nat | None => True end.
Proof.
  revert most k. induction s as [|c s IH]; intros most [|k]; cbn [run_length length take].
  - split; [|lia]. intros _. split; [done|]. split; [constructor|]. destruct most; [lia|done].
  - split; lia.
  - split; [|lia]. intros _. split; [lia|]. split; [constructor|]. destruct most; [lia|done].
  - rewrite Forall_cons. destruct most as [[|m]|]; [split; lia| |]; destruct (p c); split; try lia;
      try (intros (_ & [? _] & _); discriminate).
    + intros H. apply le_S_n, IH in H as (? & ? & ?). repeat split; try done; lia.
    + intros (H1 & [_ H2] & H3). apply le_n_S, IH. repeat split; try done; lia.
    + intros H. apply le_S_n, IH in H as (? & ? & ?). repeat split; try done; lia.
    + intros (H1 & [_ H2] & H3). apply le_n_S, IH. repeat split; try done; lia.
Qed.

(** The matcher finds a match, and finds one where there is one. *)
Lemma match_sound ps prev s n :
  match_here ps prev s = Some n → (n ≤ length s)%nat ∧ fits ps prev (take n s) (drop n s).
Proof.
  revert prev s n. induction ps as [|[p least most|] ps IH]; intros prev s n; cbn [match_here].
  - intros [= <-]. split; [lia|constructor].
  - pose proof (proj1 (run_length_spec p most s (run_length p most s)) (le_n _)) as Hr. revert Hr.
    generalize (run_length p most s). intros k. induction k as [|k IHk]; intros (H1 & H2 & H3).
    + destruct (Nat.ltb_spec 0 least); [done|].
      destruct (match_here ps _ _) as [m|] eqn:Em; [|done]. intros [= <-].
      apply IH in Em as [Hm Hf]. split; [done|]. by apply (fits_rep _ _ _ _ _ [] _ _ H2).
    + destruct (Nat.ltb_spec (S k) least); [done|].
      destruct (match_here ps _ _) as [m|] eqn:Em.
      * intros [= <-]. apply IH in Em as [Hm Hf]. rewrite length_drop in Hm. split; [lia|].
        change (S (k + m)) with (S k + m)%nat. rewrite <- (take_take_drop s (S k) m), <- drop_drop.
        rewrite before_last in Hf by done.
        apply fits_rep; [done| | |done]; rewrite length_take; [lia|destruct most; [lia|done]].
      * apply IHk. split; [lia|]. split; [|destruct most; [lia|done]].
        replace (take k s) with (take k (take (S k) s)) by (rewrite take_take; f_equal; lia).
        by apply Forall_take.
  - destruct (edge prev s) eqn:Ee; [|done]. intros H. apply IH in H as [Hn Hf]. split; [done|].
    constructor; [by rewrite take_drop|done].
Qed.

Lemma match_complete ps prev l s : fits ps prev l s → is_Some (match_here ps prev (l ++ s)).
Proof.
  induction 1 as [|ps prev l s He _ IH|p least most ps prev l l' s Hp Hl Hm _ IH]; cbn [match_here].
  - by eexists.
  - by rewrite He.
  - assert (length l ≤ run_length p most ((l ++ l') ++ s))%nat as Hk.
    { apply run_length_spec. rewrite <- app_assoc, take_app_length, length_app. split; [lia|done]. }
    revert Hk. generalize (run_length p most ((l ++ l') ++ s)). intros k. induction k as [|k IHk]; intros Hk.
    + assert (l = []) as -> by (apply length_zero_iff_nil; lia).
      destruct (Nat.ltb_spec 0 least); [cbn in Hl; lia|]. destruct IH as [n Hn].
      change (match_here ps (before prev 0 (([] ++ l') ++ s)) (drop 0 (([] ++ l') ++ s)) = Some n) in Hn.
      rewrite Hn. by eexists.
    + destruct (Nat.ltb_spec (S k) least); [lia|].
      destruct (match_here ps (before _ (S k) _) _) as [n|] eqn:En; [by eexists|].
      destruct (decide (length l = S k)) as [E|]; [|apply IHk; lia]. exfalso. revert En.
      rewrite <- app_assoc, <- E, before_last, take_app_length, drop_app_length by (rewrite length_app; lia).
      destruct IH as [n Hn]. by rewrite Hn.
Qed.

Lemma search_spec ps prev s :
  search ps prev s = true ↔ ∃ a m b, s = a ++ m ++ b ∧ fits ps (last_or prev a) m b.
Proof.
  split.
  - revert prev. induction s as [|c s IH]; intros prev; cbn [search];
      destruct (match_here ps prev _) as [n|] eqn:Em; try done.
    + intros _. apply match_sound in Em as [_ Hf]. exists [], (take n []), (drop n []).
      by rewrite take_drop.
    + intros _. apply match_sound in Em as [_ Hf]. exists [], (take n (c :: s)), (drop n (c :: s)).
      by rewrite app_nil_l, take_drop.
    + intros (a & m & b & -> & Hf)%IH. exists (c :: a), m, b. by rewrite last_or_cons.
  - intros (a & m & b & -> & Hf). revert prev Hf. induction a as [|c a IH]; intros prev Hf.
    + change (last_or prev []) with prev in Hf. apply match_complete in Hf as [n Hn].
      rewrite app_nil_l. destruct (m ++ b); cbn [search]; by rewrite Hn.
    + rewrite last_or_cons in Hf. cbn. destruct (match_here ps prev _); [done|]. by apply IH.
Qed.

(** ** What replacing leaves

    [left_by ps prev s out]: the scan that begins at [s], after [prev], leaves [out]. *)

Inductive left_by (ps : list piece) (mark : jsstr) : option Z → jsstr → jsstr → Prop :=
| left_nil prev : left_by ps mark prev [] []
| left_kept prev c s out :
    match_here ps prev (c :: s) = None →
    left_by ps mark (Some c) s out → left_by ps mark prev (c :: s) (c :: out)
| left_marked prev l s out :
    l ≠ [] → fits ps prev l s →
    left_by ps mark (last_or prev l) s out → left_by ps mark prev (l ++ s) (mark ++ out).

Lemma sub_skip ps mark prev l s :
  sub_from ps mark (length l) prev (l ++ s) = sub_from ps mark 0 (last_or prev l) s.
Proof.
  revert prev. induction l as [|c l IH]; intros prev; [done|].
  rewrite last_or_cons. cbn. apply IH.
Qed.

Definition takes_some (ps : list piece) : Prop := ∀ prev s, ¬ fits ps prev [] s.

Lemma sub_left_by ps mark prev s :
  takes_some ps → left_by ps mark prev s (sub_from ps mark 0 prev s).
Proof.
  intros Hne. remember (length s) as n eqn:En. revert prev s En.
  induction (lt_wf n) as [n _ IH]. intros prev [|c s] ->; cbn [sub_from]; [constructor|].
  destruct (match_here ps prev (c :: s)) as [[|k]|] eqn:Em.
  - apply match_sound in Em as [_ []%Hne].
  - apply match_sound in Em as [Hk Hf]. cbn in Hk.
    assert (length (take k s) = k) as El by (rewrite length_take; lia).
    replace (sub_from ps mark k (Some c) s)
      with (sub_from ps mark 0 (last_or prev (take (S k) (c :: s))) (drop (S k) (c :: s))).
    + rewrite <- (take_drop (S k) (c :: s)) at 1. apply left_marked; [done|done|].
      eapply IH; [|reflexivity]. rewrite length_drop. cbn. lia.
    + cbn [take drop]. by rewrite last_or_cons, <- sub_skip, El, take_drop.
  - constructor; [done|]. eapply IH; [|reflexivity]. cbn. lia.
Qed.

(** A text that the mark cannot be part of: it lacks [star], with which the mark begins and ends,
    and has a unit that the mark lacks. *)
Definition apart (star : Z) (mark m : jsstr) : Prop := star ∉ m ∧ ∃ c, c ∈ m ∧ c ∉ mark.

(** A pattern whose matches are apart from the mark. *)
Definition foreign (star : Z) (mark : jsstr) (ps : list piece) : Prop :=
  ∀ prev m s, fits ps prev m s → apart star mark m.

Section Factor.
Context (ps : list piece) (star : Z) (mark : jsstr).

(** A text apart from the mark, at the front of what is left, was at the front of the scanned. *)
Lemma left_front prev s out m b :
  left_by ps mark prev s out → head mark = Some star → star ∉ m → out = m ++ b →
  ∃ b', s = m ++ b' ∧ left_by ps mark (last_or prev m) b' b.
Proof.
  intros Hl Hh. revert m b. induction Hl as [prev|prev c s out Hk Hl IH|prev l s out Hn Hf Hl IH];
    intros m b Hm E.
  - symmetry in E. apply app_eq_nil in E as [-> ->]. exists []. split; [done|constructor].
  - destruct m as [|x m].
    + cbn in E. subst b. exists (c :: s). split; [done|]. by constructor.
    + injection E as -> E. apply not_elem_of_cons in Hm as [_ Hm].
      destruct (IH m b Hm E) as (b' & -> & Hb). exists b'. split; [done|]. by rewrite last_or_cons.
  - destruct m as [|x m]; cbn in E.
    + subst b. exists (l ++ s). split; [done|]. by constructor.
    + destruct mark as [|y mk]; [done|]. injection Hh as ->. injection E as -> _.
      apply not_elem_of_cons in Hm as [? _]. done.
Qed.

(** A pattern that asks for a word boundary at both ends of a match, and one that asks for none. *)
Definition edged (qs : list piece) : Prop :=
  ∀ prev m s, fits qs prev m s → edge prev (m ++ s) = true ∧ edge (last_or prev m) s = true.
Definition unedged (qs : list piece) : Prop :=
  ∀ prev prev' m s s', fits qs prev m s → fits qs prev' m s'.
(** A pattern whose matches depend on what is around them by these two boundaries only. *)
Definition local (qs : list piece) : Prop :=
  ∀ prev prev' m s s', fits qs prev m s → edge prev' (m ++ s') = true →
    edge (last_or prev' m) s' = true → fits qs prev' m s'.

Lemma edge_front prev m s s' : m ≠ [] → edge prev (m ++ s) = edge prev (m ++ s').
Proof. by destruct m. Qed.

Lemma left_back prev s out :
  left_by ps mark prev s out → edged ps → edge prev out = true → edge prev s = true.
Proof.
  destruct 1 as [prev|prev c s out Hk Hl|prev l s out Hn Hf Hl]; [done|done|]. intros He _.
  by apply He in Hf as [Hf _].
Qed.

Context (Hhead : head mark = Some star) (Hlast : last mark = Some star).

(** So was one anywhere in what is left, at a place where the scan found no match, and between
    boundaries if it is between boundaries in what is left. *)
Lemma left_factor prev po s out a m b :
  left_by ps mark prev s out → po = prev ∨ (edged ps → edge prev s = true) →
  apart star mark m → out = a ++ m ++ b →
  ∃ a' b', s = a' ++ m ++ b' ∧ match_here ps (last_or prev a') (m ++ b') = None ∧
    left_by ps mark (last_or prev (a' ++ m)) b' b ∧
    (edged ps → edge (last_or po a) (m ++ b) = true → edge (last_or prev a') (m ++ b') = true).
Proof.
  intros Hl Hpo [Hs (x & Hx & Hxm)]. revert po Hpo a.
  assert (m ≠ []) as Hm by (by intros ->; apply elem_of_nil in Hx).
  induction Hl as [prev|prev c s out Hk Hl IH|prev l s out Hn Hf Hl IH]; intros po Hpo a E.
  - by destruct a, m.
  - destruct a as [|c' a].
    + destruct (left_front prev (c :: s) (c :: out) m b) as (b' & E' & Hb); [by constructor|done..|].
      exists [], b'. cbn [app] in *. rewrite <- E'. repeat (split; [done|]). intros He Hed.
      destruct Hpo as [->|Hpo]; [|by apply Hpo].
      change (edge prev (m ++ b) = true) in Hed. change (edge prev (c :: s) = true).
      rewrite E'. by rewrite (edge_front _ _ _ b).
    + injection E as <- E. destruct (IH (Some c) (or_introl eq_refl) a E) as (a' & b' & -> & H1 & H2 & H3).
      exists (c :: a'), b'. cbn [app]. rewrite !last_or_cons. done.
  - assert (∀ k, a = mark ++ k → out = k ++ m ++ b → ∃ a' b', l ++ s = a' ++ m ++ b' ∧
      match_here ps (last_or prev a') (m ++ b') = None ∧
      left_by ps mark (last_or prev (a' ++ m)) b' b ∧
      (edged ps → edge (last_or po a) (m ++ b) = true → edge (last_or prev a') (m ++ b') = true))
      as Hk.
    { intros k -> Ek. destruct (IH (Some star)) with (a := k) as (a' & b' & -> & H1 & H2 & H3); [|done|].
      - right. intros He. by apply (He prev l).
      - exists (l ++ a'), b'. split; [by rewrite <- app_assoc|].
        rewrite <- (app_assoc l a' m), !(last_or_app prev l), (last_or_app po mark k).
        repeat (split; [done|]).
        replace (last_or po mark) with (Some star); [done|]. unfold last_or. by rewrite Hlast. }
    apply app_eq_app in E as (k & [[E1 E]|[E1 E]]); [|by apply (Hk k)].
    destruct k as [|y k]; [apply (Hk []); [by rewrite app_nil_r in *|done]|]. exfalso.
    assert (star ∈ y :: k) as Hin by (rewrite E1, last_app_cons in Hlast; by apply last_Some_elem_of).
    rewrite E1 in Hxm. apply app_eq_app in E as (k' & [[-> _]|[E _]]).
    + by apply Hs, elem_of_app; left.
    + apply Hxm, elem_of_app. right. rewrite E. apply elem_of_app. by left.
Qed.

(** Nothing that a pattern matches is left by it. *)
Lemma sub_cleans t :
  foreign star mark ps → unedged ps ∨ edged ps ∧ local ps →
  search ps None (sub ps mark t) = false.
Proof.
  intros Hf Hu. apply not_true_is_false. intros (a & m & b & E & Hm)%search_spec.
  assert (left_by ps mark None t (sub ps mark t)) as Hl.
  { apply sub_left_by. intros prev s [_ (c & []%elem_of_nil & _)]%Hf. }
  destruct (left_factor None None t _ a m b Hl (or_introl eq_refl) (Hf _ _ _ Hm) E)
    as (a' & b' & -> & Hn & Hb & He).
  assert (fits ps (last_or None a') m b') as Hfit.
  { destruct Hu as [Hu|[Hed Hlo]]; [by eapply Hu|].
    destruct (Hed _ _ _ Hm) as [H1 H2]. eapply Hlo; [done|by apply He|].
    rewrite <- last_or_app. eapply left_back; [done..|]. revert H2. rewrite <- !last_or_app.
    destruct (last m) as [c|] eqn:Ec.
    - unfold last_or. by rewrite !last_app, Ec.
    - apply last_None in Ec as ->. by apply Hf in Hm as [_ (c & []%elem_of_nil & _)]. }
  apply match_complete in Hfit as [n Hfit]. by rewrite Hn in Hfit.
Qed.

(** A pattern finds nothing in what another leaves, if it found nothing before. *)
Lemma sub_adds_nothing qs t :
  takes_some ps → foreign star mark qs → unedged qs →
  search qs None t = false → search qs None (sub ps mark t) = false.
Proof.
  intros Hne Hf Hu Ht. apply not_true_is_false. intros (a & m & b & E & Hm)%search_spec.
  destruct (left_factor None None t _ a m b (sub_left_by ps mark None t Hne) (or_introl eq_refl)
              (Hf _ _ _ Hm) E) as (a' & b' & -> & _).
  apply not_false_iff_true in Ht; [done|]. apply search_spec. exists a', m, b'. split; [done|].
  by eapply Hu.
Qed.
End Factor.

(** ** The patterns of secrets *)

Definition is_rep (pc : piece) : bool := match pc with Rep _ _ _ => true | Edge => false end.

Lemma reps_unedged ps : forallb is_rep ps = true → unedged ps.
Proof.
  intros Hr prev prev' m s s' H. revert prev' Hr. induction H as [| |p least most ps prev l l' s Hp Hl Hm _ IH];
    intros prev' Hr; cbn in Hr; [constructor|done|]. by apply fits_rep; [..|apply IH].
Qed.

Lemma fits_app ps qs prev m s :
  fits (ps ++ qs) prev m s ↔ ∃ l l', m = l ++ l' ∧ fits ps prev l (l' ++ s) ∧ fits qs (last_or prev l) l' s.
Proof.
  split.
  - revert prev m. induction ps as [|pc ps IH]; intros prev m.
    + intros H. exists [], m. split; [done|]. split; [constructor|done].
    + cbn. inversion 1 as [|? ? ? ? He Hf|p least most ? ? l l' ? Hp Hl Hm Hf]; subst;
        apply IH in Hf as (l1 & l2 & -> & H1 & H2).
      * exists l1, l2. split; [done|]. split; [|done]. constructor; [by rewrite app_assoc|done].
      * exists (l ++ l1), l2. rewrite <- app_assoc, last_or_app. split; [done|]. split; [|done].
        by constructor.
  - intros (l & l' & -> & H & H'). revert prev l H H'. induction ps as [|pc ps IH]; intros prev l H H'.
    + by inversion H; subst.
    + cbn. inversion H as [|? ? ? ? He Hf|p least most ? ? k k' ? Hp Hl Hm Hf]; subst.
      * constructor; [by rewrite <- app_assoc|by apply IH].
      * rewrite <- app_assoc. apply fits_rep; [done..|]. apply IH; [done|].
        by rewrite <- last_or_app.
Qed.

Lemma bounded_edged ps :
  forallb is_rep ps = true → edged (Edge :: ps ++ [Edge]) ∧ local (Edge :: ps ++ [Edge]).
Proof.
  intros Hr.
  assert (∀ prev m s, fits (Edge :: ps ++ [Edge]) prev m s →
    edge prev (m ++ s) = true ∧ fits ps prev m s ∧ edge (last_or prev m) s = true) as Hf.
  { intros prev m s H. inversion H as [|? ? ? ? He Hb|]; subst. split; [done|].
    apply fits_app in Hb as (l & l' & -> & H1 & H2). inversion H2 as [|? ? ? ? He' Hb|]; subst.
    inversion Hb; subst. by rewrite app_nil_r in *. }
  split; [by intros prev m s (? & _ & ?)%Hf|].
  intros prev prev' m s s' (_ & H & _)%Hf H1 H2. constructor; [done|]. apply fits_app.
  exists m, []. rewrite app_nil_r. split; [done|]. split; [by eapply reps_unedged|].
  constructor; [done|constructor].
Qed.

(** What tells that the matches of a pattern are apart from a mark. *)
Definition foreignb (star : Z) (mark : jsstr) (ps : list piece) : bool :=
  forallb (λ pc, match pc with Rep p _ _ => negb (p star) | Edge => true end) ps &&
  existsb (λ pc, match pc with Rep p (S _) _ => forallb (λ c, negb (p c)) mark | _ => false end) ps.

Lemma fits_units ps prev m s c :
  fits ps prev m s → c ∈ m → ∃ p a b, Rep p a b ∈ ps ∧ p c = true.
Proof.
  induction 1 as [|ps prev l s _ _ IH|p least most ps prev l l' s Hp Hl Hm _ IH]; intros Hc.
  - by apply elem_of_nil in Hc.
  - destruct (IH Hc) as (p & a & b & H & Hpc). exists p, a, b. split; [by right|done].
  - apply elem_of_app in Hc as [Hc|Hc].
    + exists p, least, most. split; [by left|]. by eapply Forall_forall in Hp.
    + destruct (IH Hc) as (p' & a & b & H & Hpc). exists p', a, b. split; [by right|done].
Qed.

Lemma fits_takes ps prev m s p n most :
  fits ps prev m s → Rep p (S n) most ∈ ps → ∃ c, c ∈ m ∧ p c = true.
Proof.
  induction 1 as [|ps prev l s _ _ IH|q least b ps prev l l' s Hp Hl Hm _ IH]; intros Hin.
  - by apply elem_of_nil in Hin.
  - apply elem_of_cons in Hin as [?|Hin]; [done|by apply IH].
  - apply elem_of_cons in Hin as [E|Hin].
    + injection E as <- <- <-. destruct l as [|c l]; [cbn in Hl; lia|].
      exists c. apply Forall_cons in Hp as [Hp _]. split; [by left|done].
    + destruct (IH Hin) as (c & Hc & Hpc). exists c. split; [apply elem_of_app; by right|done].
Qed.

Lemma foreignb_spec star mark ps : foreignb star mark ps = true → foreign star mark ps.
Proof.
  intros [Ha He]%andb_true_iff prev m s H. rewrite forallb_forall in Ha. split.
  - intros Hs. destruct (fits_units _ _ _ _ _ H Hs) as (p & a & b & Hin & Hp).
    apply list_elem_of_In, Ha in Hin. by rewrite Hp in Hin.
  - apply existsb_exists in He as ([p [|n] b|] & Hin & Hf); [done| |done].
    apply list_elem_of_In in Hin. destruct (fits_takes _ _ _ _ _ _ _ H Hin) as (c & Hc & Hp).
    exists c. split; [done|]. intros Hm%list_elem_of_In. rewrite forallb_forall in Hf.
    apply Hf in Hm. by rewrite Hp in Hm.
Qed.

Lemma digit_ascii c : c < 128 → digit c = is_digit c.
Proof. intros H. unfold digit. rewrite py_digit_ascii by done. by destruct (is_digit c). Qed.

Lemma secrets_foreign : Forall (λ rx, foreign 42 REDACTED (snd rx)) SECRET_REGEXES.
Proof.
  repeat (apply Forall_cons; split; [apply foreignb_spec; first [by vm_compute|idtac]|]); [|constructor].
  apply andb_true_iff. split.
  - cbn [snd app lit map exactly forallb]. rewrite digit_ascii by done. by vm_compute.
  - apply existsb_exists. exists (one (Z.eqb 58)). split; [do 2 right; by left|by vm_compute].
Qed.

(** All patterns but the last have no boundaries, the last has two. *)
Lemma secrets_split : ∃ l rx body,
  SECRET_REGEXES = l ++ [rx] ∧ Forall (λ rx, unedged (snd rx)) l ∧
  snd rx = Edge :: body ++ [Edge] ∧ forallb is_rep body = true.
Proof.
  exists (take 14 SECRET_REGEXES), (nth 14 SECRET_REGEXES ([] : jsstr, [])).
  eexists ([Rep digit 8 (Some 10%nat)] ++ lit ":" ++ exactly 35 dashed_).
  split; [done|]. split; [|done].
  repeat (apply Forall_cons; split; [by apply reps_unedged|]). constructor.
Qed.

Lemma foreign_takes star mark ps : foreign star mark ps → takes_some ps.
Proof. by intros Hf prev s [_ (c & []%elem_of_nil & _)]%Hf. Qed.

Definition finds (text : jsstr) (rx : jsstr * list piece) : Prop := search (snd rx) None text = true.

Lemma find_secret_None t : find_secret t = None ↔ Forall (λ rx, ¬ finds t rx) SECRET_REGEXES.
Proof.
  unfold find_secret, finds. induction SECRET_REGEXES as [|rx l IH]; cbn.
  - split; [constructor|done].
  - rewrite Forall_cons, <- IH. destruct (search (snd rx) None t); [|by intuition].
    split; [done|]. intros [[] _]. done.
Qed.

(** Masking with a list of patterns of which all but the last have no boundaries. *)
Lemma masked_finds_none t l :
  Forall (λ rx, foreign 42 REDACTED (snd rx)) l → Forall (λ rx, unedged (snd rx)) l →
  Forall (λ rx, ¬ finds (foldl (λ m rx, sub (snd rx) REDACTED m) t l) rx) l.
Proof.
  induction l as [|rx l IH] using rev_ind; [constructor|].
  intros [Hf [Hfr _]%Forall_cons]%Forall_app [Hu [Hur _]%Forall_cons]%Forall_app.
  rewrite foldl_app. cbn. specialize (IH Hf Hu). apply Forall_app. split.
  - rewrite Forall_forall in *. intros rx' Hin. unfold finds. rewrite sub_adds_nothing with (star := 42);
      [done|done|done|by eapply foreign_takes|by apply Hf|by apply Hu|].
    by apply not_true_is_false, IH.
  - apply Forall_cons. split; [|constructor]. unfold finds.
    rewrite sub_cleans with (star := 42); [done|done|done|done|by left].
Qed.

Lemma redact_text_clean t : find_secret (redact_text t) = None.
Proof.
  apply find_secret_None. unfold redact_text. pose proof secrets_foreign as Hf.
  destruct secrets_split as (l & rx & body & E & Hu & Erx & Hb). rewrite E in *.
  apply Forall_app in Hf as [Hf [Hfr _]%Forall_cons].
  rewrite foldl_app. cbn. pose proof (masked_finds_none t l Hf Hu) as Hl. apply Forall_app. split.
  - rewrite Forall_forall in *. intros rx' Hin. unfold finds. rewrite sub_adds_nothing with (star := 42);
      [done|done|done|by eapply foreign_takes|by apply Hf|by apply Hu|].
    by apply not_true_is_false, Hl.
  - apply Forall_cons. split; [|constructor]. unfold finds.
    rewrite sub_cleans with (star := 42); [done..|]. right. rewrite Erx. by apply bounded_edged.
Qed.

Lemma first_some_None {A} (l : list (option A)) : (∀ x, x ∈ l → x = None) → first_some l = None.
Proof.
  induction l as [|x l IH]; [done|]. intros H. rewrite (H x) by (by left). apply IH.
  intros y Hy. apply H. by right.
Qed.

Lemma mark_clean : find_secret REDACTED = None.
Proof.
  apply find_secret_None. eapply Forall_impl; [apply secrets_foreign|].
  intros rx Hf (a & m & b & E & Hm)%search_spec. apply Hf in Hm as [_ (c & Hc & Hn)].
  apply Hn. rewrite E. apply elem_of_app. right. apply elem_of_app. by left.
Qed.

(** What is masked shows no secret: neither a key that bears one, nor one in a text. *)
Theorem redact_clean v : contains_secret (redact v) = None.
Proof.
  induction v as [|b|x|s|l IH|l IH] using json_nested_ind; cbn [redact contains_secret]; try done.
  - by rewrite redact_text_clean.
  - apply first_some_None. intros x Hx. rewrite map_map in Hx.
    apply list_elem_of_In, in_map_iff in Hx as (v & <- & Hv%list_elem_of_In).
    rewrite Forall_forall in IH. by apply IH.
  - apply first_some_None. intros x ([k [v found]] & <- & Hx)%list_elem_of_In%in_map_iff.
    apply list_elem_of_In, dict_of_elem in Hx. rewrite map_map in Hx.
    apply list_elem_of_In, in_map_iff in Hx as ([k' v'] & [= <- <- <-] & Hx%list_elem_of_In).
    apply dict_of_elem, list_elem_of_In, in_map_iff in Hx as ([k0 v0] & [= <- <-] & Hx%list_elem_of_In).
    cbn [fst snd]. destruct (key_is_secret k0).
    { change (option_map (λ p, cat ["value matches secret pattern "; py_repr p]) (find_secret REDACTED) = None).
      by rewrite mark_clean. }
    cbn [andb].
    rewrite Forall_forall in IH. by apply (IH (k0, v0)).
Qed.

(** *** What masking keeps *)

Lemma sub_nothing ps mark prev s :
  search ps prev s = false → sub_from ps mark 0 prev s = s.
Proof.
  revert prev. induction s as [|c s IH]; intros prev; cbn [search sub_from]; [done|].
  destruct (match_here ps prev (c :: s)); [done|]. intros H. by rewrite IH.
Qed.

Lemma redact_text_same t : find_secret t = None → redact_text t = t.
Proof.
  rewrite find_secret_None. unfold redact_text. induction SECRET_REGEXES as [|rx l IH]; [done|].
  intros [Hrx Hl]%Forall_cons. cbn. unfold sub. rewrite sub_nothing; [by apply IH|].
  by apply not_true_is_false.
Qed.

(** A value whose mappings have distinct keys, none of them naming a secret. *)
Fixpoint unmarked (v : json) : Prop :=
  match v with
  | JArr l => Forall id (map unmarked l)
  | JObj l => NoDup (map fst l) ∧ Forall id (map (λ kv, key_is_secret (fst kv) = false ∧ unmarked (snd kv)) l)
  | _ => True
  end.

Lemma first_some_all {A} (l : list (option A)) x : first_some l = None → x ∈ l → x = None.
Proof.
  induction l as [|[y|] l IH]; cbn; [intros _ []%elem_of_nil|done|].
  intros H [->|Hx]%elem_of_cons; auto.
Qed.

Lemma redact_same v : unmarked v → contains_secret v = None → redact v = v.
Proof.
  induction v as [|b|x|s|l IH|l IH] using json_nested_ind; cbn [redact contains_secret unmarked]; try done.
  - intros _ H. rewrite redact_text_same; [done|]. by destruct (find_secret s).
  - rewrite Forall_map, Forall_forall. intros Hu Hc. f_equal. rewrite Forall_forall in IH.
    rewrite <- (map_id l) at 2. apply map_ext_in. intros v Hv%list_elem_of_In. apply IH; [done|by apply Hu|].
    eapply first_some_all; [done|]. by apply list_elem_of_fmap_2.
  - rewrite Forall_map, !Forall_forall in *. intros [Hn Hu] Hc. f_equal.
    rewrite !dict_of_id in * by (rewrite map_map; done). rewrite map_map in *.
    rewrite <- (map_id l) at 2. apply map_ext_in. intros [k v] Hv%list_elem_of_In. cbn [fst snd].
    destruct (Hu _ Hv) as [Hk Huv]. cbn [fst snd] in *. rewrite Hk. f_equal. apply (IH (k, v)); [done|done|].
    apply (first_some_all _ _ Hc), list_elem_of_fmap. exists (k, v). cbn [fst snd]. by rewrite Hk.
Qed.
End Matching.

(** ** What the gateway writes down *)

Section Written.
Context {P : Python}.

Definition shows_secret (t : jsstr) : Prop := is_Some (find_secret t).

(** An audit line without a secret in any of its fields. *)
Definition clean_entry (e : AuditEntry) : Prop :=
  Forall (λ t, ¬ shows_secret t) [ae_action_type e; ae_tool e; ae_verdict e; ae_reason e;
                                  ae_result_summary e; ae_rationale e] ∧
  contains_secret (ae_params e) = None.
Definition clean_row (r : approval) : Prop := contains_secret (ap_action r) = None.
Definition clean_vault (v : vault) : Prop :=
  Forall clean_row (va_rows v) ∧ Forall clean_entry (va_audit v).

Lemma redact_entry_clean e : clean_entry (redact_entry e).
Proof.
  assert (∀ t, ¬ shows_secret (redact_text t)) as H.
  { intros t. unfold shows_secret. rewrite redact_text_clean. by intros [? ?]. }
  split; [|apply redact_clean]. repeat (apply Forall_cons; split; [apply H|]). constructor.
Qed.

Lemma update_status_clean id st v : clean_vault v → clean_vault (update_status id st v).
Proof.
  intros [Hr Ha]. unfold update_status. destruct (row_index id) as [n|]; [|done]. split; [|done].
  cbn. apply Forall_alter; done.
Qed.

Lemma perform_op_clean i o v : clean_vault v → clean_vault (snd (perform_op i o v)).
Proof.
  intros Hv. destruct o; cbn; try done.
  - split; [|apply Hv]. apply Forall_app. split; [apply Hv|].
    apply Forall_cons. split; [apply redact_clean|constructor].
  - by apply update_status_clean.
  - unfold transition_if_pending. destruct (row id v) as [r|]; [|done].
    destruct (is_pending r); [by apply update_status_clean|done].
  - unfold claim. by destruct (bool_decide _).
  - split; [apply Hv|]. apply Forall_app. split; [apply Hv|].
    apply Forall_cons. split; [apply redact_entry_clean|constructor].
  - by destruct (within_limit _ _).
Qed.

(** C7: Nothing the gateway writes down holds a secret that the detector finds: whatever is at
    work on the stores, no queued action has one under a key or in a text, and no field of an audit
    line has one.  So an action that is approved later leaks none that was queued with it. *)
Theorem nothing_secret_written (digest : json → jsstr) s :
  at_work digest s → clean_vault (si_vault s).
Proof.
  apply (at_work_inv digest (λ s, clean_vault (si_vault s))); [by split; constructor|]. intros m s' Hs.
  destruct (take_step_cases digest m s') as [(c & ->)|[->|(n & i & t & o & k & _ & _ & ->)]]; [done|done|].
  by apply perform_op_clean.
Qed.

End Written.

Lemma nothing_secret_written_witness : clean_vault (si_vault mail_site).
Proof. apply (nothing_secret_written demo_digest mail_site). exact mail_site_at_work. Defined.

(** ** Gaps *)

(** Masking goes by the name of a key, whatever its value, where the check passes an empty one: a
    message that is allowed, with an empty token among its arguments, is queued with the mark in
    its place, and the mark is what the executor is given once the message is approved. *)
Definition token_post : json :=
  JObj [("type" : jsstr, JStr "mcp_tool"); ("server" : jsstr, JStr "slack");
        ("tool" : jsstr, JStr "post_message");
        ("args" : jsstr, JObj [("channel" : jsstr, JStr "C-ext"); ("text" : jsstr, JStr "Hi");
                               ("client_token" : jsstr, JStr "")])].
Definition masked_site : site :=
  moves demo_digest (Start (CallExecute (demo_gateway 0) (Some (λ _, inr SlackPost)) token_post "report")
    :: goes_on 0 3 ++ Start (CallApprove (demo_gateway 1) 1 (λ _, inr SlackPost)) :: goes_on 1 7) empty_site.
Theorem masking_alters_allowed :
  at_work demo_digest masked_site ∧
  (∀ fs root, classify token_post None fs root = inr Allowed) ∧
  ∃ ca args, si_carried masked_site = [ca] ∧ succeeded ca = true ∧ ca_action ca ≠ token_post ∧
    json_get "args" (ca_action ca) = Some args ∧ json_get "client_token" args = Some (JStr REDACTED).
Proof.
  split; [apply moves_steps|]. split; [intros fs root; vm_compute; reflexivity|].
  eexists _, _. split; [vm_compute; reflexivity|]. split; [done|]. split; [discriminate|].
  split; [vm_compute; reflexivity|vm_compute; reflexivity].
Qed.

(** The action of a row is masked, the reason beside it is not, although the audit line of the
    same call masks it. *)
Definition leaky_reason : jsstr := "asked with AKIA0123456789ABCDEF".
Definition leaky_site : site :=
  moves demo_digest (Start (CallEnqueue (demo_gateway 0) (mail "Hi") leaky_reason "" "" "" "" None)
    :: goes_on 0 3) empty_site.
Theorem reason_left_unmasked :
  at_work demo_digest leaky_site ∧
  (∃ r, va_rows (si_vault leaky_site) = [r] ∧ shows_secret (ap_reason r)) ∧
  (∃ e, va_audit (si_vault leaky_site) = [e] ∧ ae_reason e = "asked with ***REDACTED***"%js).
Proof.
  split; [apply moves_steps|].
  split; eexists; (split; [vm_compute; reflexivity|]); vm_compute; [by eexists|reflexivity].
Qed.
