(* ===== verification/Outcomes.v ===== *)
(** What each method of the action gateway leaves behind, whatever the stores and the world
    answer: the lines of the audit log, and whether the action was carried out. *)

From S2P Require Import Prelude JsNumber Types Json ApiClient Python Policy Gateway.

(** An operation with its answer. *)
Record happening := Happening { hp_op : operation; hp_answer : answer hp_op }.

(** The verdicts written to the audit log, with the actions they are about. *)
Definition audited (tr : list happening) : list (jsstr * json) :=
  omap (λ x, match hp_op x with Audit e => Some (ae_verdict e, ae_params e) | _ => None end) tr.

(** Whether an executor has been called, and has succeeded. *)
Definition carried_out (x : happening) : bool :=
  let 'Happening o r := x in
  match o as o return answer o → bool with
  | Run _ _ => λ r, match r with inr _ => true | inl _ => false end
  | _ => λ _, false
  end r.
Definition successes (tr : list happening) : nat := length (List.filter carried_out tr).

(** [Q] holds of what the program returns and of all that has happened, on every run. *)
Fixpoint every {A} (p : prog A) (tr : list happening) (Q : list happening → A → Prop) : Prop :=
  match p with
  | Ret x => Q tr x
  | Do o k => ∀ r, every (k r) (tr ++ [Happening o r]) Q
  end.

Lemma every_mono {A} (p : prog A) tr (Q Q' : list happening → A → Prop) :
  every p tr Q → (∀ tr' x, Q tr' x → Q' tr' x) → every p tr Q'.
Proof.
  revert tr. induction p as [x|o k IH]; intros tr H HQ; cbn in *; [by apply HQ|].
  intros r. by apply IH.
Qed.

Lemma every_bind {A B} (p : prog A) (f : A → prog B) tr Q :
  every p tr (λ tr' x, every (f x) tr' Q) → every (bind p f) tr Q.
Proof.
  revert tr. induction p as [x|o k IH]; intros tr H; cbn in *; [done|]. intros r. by apply IH.
Qed.

Lemma every_then {A B} (p : comp A) (f : A → comp B) tr Q :
  every p tr (λ tr' r, match r with inl e => Q tr' (inl e) | inr x => every (f x) tr' Q end) →
  every (and_then p f) tr Q.
Proof. intros H. apply every_bind. eapply every_mono; [exact H|]. intros tr' r Hr. by destruct r. Qed.

(** What happened so far: these lines, and so many successes. *)
Definition so_far (lines : list (jsstr * json)) (n : nat) (tr : list happening) : Prop :=
  audited tr = lines ∧ successes tr = n.

Lemma so_far_more lines n tr o r :
  so_far lines n tr →
  so_far (lines ++ audited [Happening o r]) (n + successes [Happening o r]) (tr ++ [Happening o r]).
Proof.
  intros [Ha Hs]. unfold so_far, audited, successes in *. split.
  - rewrite omap_app. by rewrite Ha.
  - rewrite List.filter_app, length_app. by rewrite Hs.
Qed.

Definition quiet (o : operation) : bool := match o with Audit _ | Run _ _ => false | _ => true end.
Lemma so_far_quiet lines n tr o r :
  quiet o = true → so_far lines n tr → so_far lines n (tr ++ [Happening o r]).
Proof.
  intros Hq H. apply (so_far_more lines n tr o r) in H. rewrite <- (app_nil_r lines), <- (Nat.add_0_r n).
  by destruct o.
Qed.

Section Outcomes.
Context {P : Python}.
Context (digest : json → jsstr).

Lemma every_record {A} t tool v r a why dry res (p : prog A) tr lines n Q :
  so_far lines n tr → (∀ tr', so_far (lines ++ [(v, a)]) n tr' → every p tr' Q) →
  every (record t tool v r a why dry res p) tr Q.
Proof.
  intros Hs HQ []. apply HQ. rewrite <- (Nat.add_0_r n).
  exact (so_far_more lines n tr (Audit _) tt Hs).
Qed.

Definition verdict_text (s : result_status) : jsstr :=
  match s with
  | Executed => "allow" | DryRun => "dry_run" | Skipped | Deduplicated => "skipped"
  | PendingApproval => "pending"
  end.

(** What a method is to leave behind: one line for every outcome but an action it cannot read,
    and a success exactly when it says so. *)
Definition accounted (action : json) (tr : list happening) (r : py GatewayResult) : Prop :=
  match r with
  | inr x => so_far [(verdict_text (gs_status x), action)]
               (match gs_status x with Executed => 1 | _ => 0 end) tr
  | inl (TypeError | AttributeError | OverflowError | ValueError _ | OtherError _) => so_far [] 0 tr
  | inl (HardBlockedError _ | WriteDisabledError | RateLimitedError | RuntimeError _) =>
      so_far [("deny" : jsstr, action)] 0 tr
  end.

Definition unread (e : exn) : bool :=
  match e with TypeError | AttributeError | OverflowError | ValueError _ | OtherError _ => true | _ => false end.

Lemma accounted_unread action tr e : unread e = true → so_far [] 0 tr → accounted action tr (inl e).
Proof. by destruct e. Qed.

Lemma label_unread action e : label action = inl e → unread e = true.
Proof.
  unfold label. repeat case_match; intros [= <-]; done.
Qed.
Lemma classify_unread action l fs root e : classify action l fs root = inl e → unread e = true.
Proof.
  unfold classify, hard_deny, hard_deny_mcp, valid_version. intros H.
  repeat (case_match; simplify_eq; try done).
Qed.
Lemma interrupt_unread action l e : needs_interrupt action l = inl e → unread e = true.
Proof.
  unfold needs_interrupt, args_str. intros H. repeat (case_match; simplify_eq; try done).
Qed.
Lemma evaluate_unread action c o e : evaluate action c o = inl e → unread e = true.
Proof.
  unfold evaluate, action_destination. intros H. repeat (case_match; simplify_eq; try done).
Qed.
Lemma key_unread action e : action_dedup_key digest action = inl e → unread e = true.
Proof.
  unfold action_dedup_key. intros H. repeat (case_match; simplify_eq; try done). by eapply label_unread.
Qed.

Lemma vetted_accounted g action tr Q :
  so_far [] 0 tr → (∀ e tr', unread e = true → so_far [] 0 tr' → Q tr' (inl e)) →
  (∀ x tr', so_far [] 0 tr' → Q tr' (inr x)) → every (vetted g action) tr Q.
Proof.
  intros Hs He Hx. unfold vetted. destruct (is_dict action); [|by apply He].
  destruct (memb _ _); [|by apply He]. cbn [negb].
  destruct (label action) as [e|tool] eqn:El; [apply label_unread in El; by apply He|].
  intros fs. apply (so_far_quiet _ _ _ Look fs) in Hs; [|done].
  destruct (classify _ _ _ _) as [e|v] eqn:Ec; [apply classify_unread in Ec; by apply He|by apply Hx].
Qed.

Ltac quietly := apply so_far_quiet; [done|].

Lemma carry_out_accounted h action why t tool tr :
  so_far [] 0 tr → every (carry_out digest h action why t tool) tr (accounted action).
Proof.
  intros Hs. unfold carry_out.
  destruct (action_dedup_key digest action) as [e|key] eqn:Ek;
    [apply key_unread in Ek; by apply accounted_unread|].
  intros new. assert (so_far [] 0 (tr ++ [Happening (Claim key) new])) as Hs1 by by quietly.
  destruct new; cbn [negb]; [|by eapply every_record; [exact Hs1|]].
  assert (∀ exc tr', so_far [] 0 tr' → every
    (let* _ := Release key in
     record t tool "deny" (cat ["handler error: "; exc]) action why false ""
       (raise (A := GatewayResult) (RuntimeError (cat ["Handler for "; tool; " failed: "; exc]))))
    tr' (accounted action)) as Hf.
  { intros exc tr' H []. eapply every_record; [by quietly|done]. }
  destruct h as [d|]; [|intros []; eapply every_record; [by quietly|done]].
  destruct (d action) as [exc|x]; [by apply Hf|]. intros r.
  pose proof (so_far_more _ _ _ (Run x action) r Hs1) as Hr. destruct r as [exc|sum]; [by apply Hf|].
  by eapply every_record; [exact Hr|].
Qed.

Lemma past_verdict_accounted g h action why approved t tool v tr :
  so_far [] 0 tr → every (past_verdict digest g h action why approved t tool v) tr (accounted action).
Proof.
  intros Hs. unfold past_verdict.
  assert (every (if gw_write_disabled g
      then record t tool "deny" "kill switch on" action why false "" (raise WriteDisabledError)
      else if gw_dry_run g
      then record t tool "dry_run" "DRY_RUN on" action why true ""
             (done_with DryRun (cat ["[dry-run] would run "; tool]))
      else let* ok := Admit (gw_id g) in
           if negb ok then record t tool "deny" "rate limit" action why false "" (raise RateLimitedError)
           else carry_out digest h action why t tool) tr (accounted action)) as Hp.
  { destruct (gw_write_disabled g); [by eapply every_record|].
    destruct (gw_dry_run g); [by eapply every_record|]. intros [].
    - apply carry_out_accounted. by quietly.
    - eapply every_record; [by quietly|done]. }
  destruct v as [|c reason]; [done|]. destruct (_ && _); [done|]. by eapply every_record.
Qed.

Lemma execute_approved_accounted g h action why tr :
  so_far [] 0 tr → every (execute_approved digest g h action why) tr (accounted action).
Proof.
  intros Hs. apply every_then, vetted_accounted; [done|by intros e tr'; apply accounted_unread|].
  intros [[t tool] v] tr' Hs'. by apply past_verdict_accounted.
Qed.

(** The ladder writes no line and carries nothing out. *)
Lemma claim_slot_quiet t date seq n tr Q :
  so_far [] 0 tr → (∀ b tr', so_far [] 0 tr' → Q tr' b) → every (claim_slot t date seq n) tr Q.
Proof.
  revert seq tr. induction n as [|n IH]; intros seq tr Hs HQ; [by apply HQ|].
  intros []; [apply HQ; by quietly|]. apply IH; [by quietly|done].
Qed.
Lemma try_auto_accounted auto action o tr Q :
  so_far [] 0 tr → (∀ e tr', unread e = true → so_far [] 0 tr' → Q tr' (inl e)) →
  (∀ x tr', so_far [] 0 tr' → Q tr' (inr x)) → every (try_auto_approve auto action o) tr Q.
Proof.
  intros Hs He Hx. unfold try_auto_approve. destruct auto as [config|]; [|by apply Hx].
  destruct (evaluate action config o) as [e|[why|]] eqn:Ee;
    [apply evaluate_unread in Ee; by apply He| |by apply Hx].
  apply every_bind. unfold claim_daily_slot.
  destruct (action_semantic_type action) as [t|]; [|by apply Hx].
  destruct (au_actions config t) as [gr|]; [|by apply Hx].
  destruct (ga_max_per_day gr <=? 0); [by apply Hx|]. intros date.
  apply claim_slot_quiet; [by quietly|]. intros b tr' Hs'. by apply Hx.
Qed.

Lemma queue_accounted action reason why t tool tr :
  so_far [] 0 tr → every (queue action reason why t tool) tr (accounted action).
Proof. intros Hs id. eapply every_record; [by quietly|done]. Qed.

(** C6: Every decision of the gateway is in the audit log, and nothing else happens.  On every run of
    [execute] and of [execute_approved], whatever the stores, the handler and the world answer:
    exactly one line is written, with the verdict that belongs to the outcome (allow, deny,
    dry_run, skipped, pending) and the action itself, and none only if the action could not be
    read; and an executor has succeeded exactly once if the outcome says executed, and never
    otherwise. *)
Theorem every_outcome_audited g h action why :
  every (execute digest g h action why) [] (accounted action) ∧
  every (execute_approved digest g h action why) [] (accounted action).
Proof.
  split; [|by apply execute_approved_accounted].
  apply every_then, vetted_accounted; [done|by intros e tr'; apply accounted_unread|].
  intros [[t tool] v] tr Hs.
  destruct (needs_interrupt action (gw_external_channels g)) as [e|[|reason]] eqn:Ei.
  - apply interrupt_unread in Ei. by apply accounted_unread.
  - by apply past_verdict_accounted.
  - destruct (is_hard_deny v); [by apply past_verdict_accounted|].
    destruct h as [d|]; [|by apply (queue_accounted action reason why t tool tr)].
    apply every_then, try_auto_accounted; [done|by intros e tr'; apply accounted_unread|].
    intros [auto|] tr' Hs'; [by apply execute_approved_accounted|by apply queue_accounted].
Qed.
End Outcomes.

(** ** Approving from the web (src/server/routes_ops_json.py, ops_helpers.py) *)

(** A registered agent with its loaded profile: the settings and the configuration that the
    handlers use. *)
Record loaded := {
  ld_write_disabled : bool; ld_dry_run : bool; ld_external_channels : list jsstr;
  ld_config : reporting_config; ld_artifact_root : jsstr
}.

(** [build_gateway]: a gateway of its own for every request. *)
Definition build_gateway (n : nat) (l : loaded) : gateway :=
  {| gw_id := n; gw_write_disabled := ld_write_disabled l; gw_dry_run := ld_dry_run l;
     gw_external_channels := ld_external_channels l; gw_allowlist := None; gw_auto_approve := None;
     gw_artifact_root := ld_artifact_root l |}.

Inductive ops_answer :=
| Listed (agent : jsstr) (pending : list approval)
| ApprovedThen (agent : jsstr) (id : Z) (pending : list approval)
| RejectedThen (agent : jsstr) (id : Z) (pending : list approval)
| HttpError (code : Z) (detail : jsstr)
| Crashes (e : exn).

Section Ops.
Context {P : Python}.
Context (digest : json → jsstr) (agents : jsstr → option loaded).

(** [require_agent]. *)
Definition require_agent (agent : jsstr) (f : loaded → prog ops_answer) : prog ops_answer :=
  match agents agent with
  | Some l => f l
  | None => Ret (HttpError 404 (cat ["unknown agent "; py_repr agent]))
  end.

(** [list_approvals]; [_pending_json] is the list. *)
Definition list_approvals (agent : jsstr) : prog ops_answer :=
  require_agent agent (λ _, let* pending := ListPending in Ret (Listed agent pending)).

Definition approve_error (e : exn) : ops_answer :=
  match e with
  | ValueError m => HttpError 400 m
  | HardBlockedError m => HttpError 403 m
  | RuntimeError m => HttpError 502 (cat ["post failed (still pending, retry): "; m])
  | WriteDisabledError => HttpError 502
      "post failed (still pending, retry): AGENT_WRITE_DISABLED is on; all mutations are refused."
  | RateLimitedError => HttpError 502
      "post failed (still pending, retry): Rate limit: more than 10 mutations in 60s."
  | _ => Crashes e
  end.

(** [approve]. *)
Definition approve_route (n : nat) (agent : jsstr) (id : Z) : prog ops_answer :=
  require_agent agent (λ l,
    bind (approve digest (build_gateway n l) id (dispatch_approved_action (ld_config l))) (λ r,
      match r with
      | inl e => Ret (approve_error e)
      | inr _ => let* pending := ListPending in Ret (ApprovedThen agent id pending)
      end)).

(** [reject]. *)
Definition reject_route (agent : jsstr) (id : Z) : prog ops_answer :=
  require_agent agent (λ _,
    bind (reject id) (λ r,
      match r with
      | inl e => Ret (Crashes e)
      | inr _ => let* pending := ListPending in Ret (RejectedThen agent id pending)
      end)).

(** The approval is put back in the queue. *)
Definition put_back (id : Z) (tr : list happening) : Prop :=
  ∃ tr', tr = tr' ++ [Happening (SetStatus id Pending) tt].

Definition approve_leaves (id : Z) (tr : list happening) (r : py GatewayResult) : Prop :=
  ∃ action, accounted action tr r ∧ match r with inl e => unread e = false → put_back id tr | inr _ => True end.

Lemma accounted_quiet action tr o r e :
  quiet o = true → accounted action tr (inl e) → accounted action (tr ++ [Happening o r]) (inl e).
Proof. intros Hq. destruct e; cbn; by apply so_far_quiet. Qed.

Lemma approve_accounted g id h :
  every (approve digest g id h) [] (approve_leaves id).
Proof.
  intros [r|]; [|by exists JNull]. intros []; cbn [negb]; [|by exists JNull].
  apply every_bind. eapply every_mono; [apply execute_approved_accounted; done|].
  intros tr [e|x] Ha; [|by exists (ap_action r)]. intros []. exists (ap_action r).
  split; [by apply accounted_quiet|]. by exists tr.
Qed.

(** C8: The answer of the web to an approval tells what became of it.  On every run: 404 is an agent
    that is not registered, and nothing is touched; 200 is one line in the audit log with the
    verdict of the outcome, and the action was carried out once if that is allow, and not at all
    if it is dry_run or skipped; 403 and 502 are one deny line, nothing carried out, and the
    approval back in the queue; 400 and a crash leave no line and carry nothing out. *)
Theorem approve_answered n agent id :
  every (approve_route n agent id) [] (λ tr a,
    match a with
    | ApprovedThen agent' id' _ => agent' = agent ∧ id' = id ∧ is_Some (agents agent) ∧
        ∃ action x, so_far [(verdict_text (gs_status x), action)]
                      (match gs_status x with Executed => 1 | _ => 0 end) tr
    | HttpError code _ =>
        (code = 404 ∧ agents agent = None ∧ tr = []) ∨ (code = 400 ∧ so_far [] 0 tr) ∨
        ((code = 403 ∨ code = 502) ∧ put_back id tr ∧ ∃ action, so_far [("deny" : jsstr, action)] 0 tr)
    | Crashes _ => so_far [] 0 tr
    | Listed _ _ | RejectedThen _ _ _ => False
    end).
Proof.
  unfold approve_route, require_agent. destruct (agents agent) as [l|]; [|by left].
  apply every_bind. eapply every_mono; [apply approve_accounted|]. intros tr [e|x] (action & Ha & Hb).
  - destruct e; cbn in *; try done; try (right; left; by split); right; right;
      (split; [auto|]); split; try (by apply Hb); by exists action.
  - intros pending. split; [done|]. split; [done|]. split; [done|]. exists action, x. by apply so_far_quiet.
Qed.
End Ops.

