(* ===== verification/Server.v ===== *)
(** The web server's side of the API (src/server): the routes its routers declare, the order in
    which the application includes them, what each handler's signature reads from the body, and
    the session gate in front of them all.  Which request the framework takes to which route is
    the framework's business, so it is an argument with its documented law; what is proved is
    that the requests of the client (ApiClient) arrive where they are meant to. *)

From S2P Require Import Prelude JsNumber Uri Json React Types ApiClient.

(** ** The handlers *)

Inductive endpoint :=
(* auth.py *)
| auth_login | auth_logout | auth_me
(* routes_setup.py *)
| setup_setup_status | setup_setup_env | setup_setup_test | setup_setup_finish
(* routes_agents.py *)
| agents_get_agents | agents_get_agent_status
(* routes_runs.py *)
| runs_trigger_run | runs_stream
(* routes_visualize.py *)
| visualize_get_runs | visualize_get_cost | visualize_get_memory | visualize_get_automation
| visualize_get_audit
(* routes_ops_json.py *)
| ops_list_approvals | ops_approve | ops_reject | ops_get_config | ops_save_profile | ops_save_md
(* routes_agents_admin.py *)
| admin_get_packs | admin_post_create_agent | admin_get_unregistered_profiles
| admin_post_register_existing | admin_patch_agent_enabled | admin_delete_agent
| admin_get_integration_health | admin_get_team_alerts
(* routes_company.py *)
| company_get_company | company_post_company | company_get_staff_templates
(* routes_office_assign.py *)
| assign_get_assignable_staff | assign_post_preview | assign_post_confirm | assign_post_cancel
(* routes_office_room_chat.py *)
| room_get_workrooms | room_post_room_chat | room_post_confirm_adjust
| room_get_coordinator_health
(* routes_office_artifacts.py *)
| artifacts_get_room_artifacts | artifacts_get_step_artifact
(* routes_ops_chat.py *)
| chat_ops_chat_available | chat_ops_chat
(* routes_agent_company_docs.py, routes_agent_knowledge.py, routes_agent_telegram.py *)
| studio_get_agent_company_docs | studio_put_agent_company_docs
| studio_get_knowledge | studio_put_knowledge | studio_get_skills | studio_put_skills
| studio_bind_telegram | studio_telegram_recent_chats
(* routes_company_docs.py *)
| docs_list_company_docs | docs_get_company_doc | docs_create_company_doc
| docs_update_company_doc | docs_delete_company_doc
(* routes_tasks.py *)
| tasks_list_all_tasks | tasks_cancel_task
(* routes_office_stream.py *)
| office_list_rooms | office_stream_room
(* app.py *)
| app_spa | app_health.

#[export] Instance endpoint_eq_dec : EqDecision endpoint.
Proof. solve_decision. Defined.
#[export] Instance method_eq_dec : EqDecision method.
Proof. solve_decision. Defined.

(** ** The routes *)

(** A segment of a path template: a literal, a parameter [{name}], or the rest of the path
    [{name:path}]. *)
Inductive seg := Lit (s : jsstr) | Par | Rest.
Definition seg_of (s : jsstr) : seg :=
  if starts_with "{" s then (if includes ":path}" s then Rest else Par) else Lit s.

Record route_decl := { rd_method : method; rd_path : list seg; rd_handler : endpoint }.

(** [@router.get(path)] of a router with a prefix. *)
Definition at_ (prefix : jsstr) (m : method) (path : jsstr) (h : endpoint) : route_decl :=
  {| rd_method := m; rd_path := map seg_of (split_on 47 (prefix ++ path)); rd_handler := h |}.

Definition auth_router : list route_decl := [
  at_ [] POST "/api/login" auth_login;
  at_ [] POST "/api/logout" auth_logout;
  at_ [] GET "/api/me" auth_me].

Definition setup_router : list route_decl :=
  let r := at_ "/api/setup" in [
  r GET "/status" setup_setup_status;
  r POST "/env" setup_setup_env;
  r POST "/test/{group}" setup_setup_test;
  r POST "/finish" setup_setup_finish].

Definition agents_router : list route_decl :=
  let r := at_ "/api/agents" in [
  r GET [] agents_get_agents;
  r GET "/{agent_id}/status" agents_get_agent_status].

Definition runs_router : list route_decl := [
  at_ [] POST "/api/agents/{agent_id}/trigger" runs_trigger_run;
  at_ [] GET "/api/runs/{run_id}/stream" runs_stream].

Definition visualize_router : list route_decl :=
  let r := at_ "/api" in [
  r GET "/runs/{agent_id}" visualize_get_runs;
  r GET "/cost/{agent_id}" visualize_get_cost;
  r GET "/memory/{agent_id}" visualize_get_memory;
  r GET "/automation/{agent_id}" visualize_get_automation;
  r GET "/audit/{agent_id}" visualize_get_audit].

Definition ops_router : list route_decl :=
  let r := at_ "/api/agents" in [
  r GET "/{agent_id}/approvals" ops_list_approvals;
  r POST "/{agent_id}/approvals/{approval_id}/approve" ops_approve;
  r POST "/{agent_id}/approvals/{approval_id}/reject" ops_reject;
  r GET "/{agent_id}/config" ops_get_config;
  r POST "/{agent_id}/config/profile" ops_save_profile;
  r POST "/{agent_id}/config/{md}" ops_save_md].

Definition admin_router : list route_decl :=
  let r := at_ "/api" in [
  r GET "/packs" admin_get_packs;
  r POST "/agents/create" admin_post_create_agent;
  r GET "/agents/unregistered" admin_get_unregistered_profiles;
  r POST "/agents/{agent_id}/register" admin_post_register_existing;
  r PATCH "/agents/{agent_id}/enabled" admin_patch_agent_enabled;
  r DELETE "/agents/{agent_id}" admin_delete_agent;
  r GET "/health/integrations" admin_get_integration_health;
  r GET "/team/alerts" admin_get_team_alerts].

Definition company_router : list route_decl :=
  let r := at_ "/api" in [
  r GET "/company" company_get_company;
  r POST "/company" company_post_company;
  r GET "/staff-templates" company_get_staff_templates].

Definition assign_router : list route_decl :=
  let r := at_ "/api/office/assign" in [
  r GET "/staff" assign_get_assignable_staff;
  r POST "/preview" assign_post_preview;
  r POST "/confirm" assign_post_confirm;
  r POST "/cancel" assign_post_cancel].

Definition room_chat_router : list route_decl :=
  let r := at_ "/api/office" in [
  r GET "/workrooms" room_get_workrooms;
  r POST "/rooms/{room_id}/chat" room_post_room_chat;
  r POST "/rooms/{room_id}/chat/confirm-adjust" room_post_confirm_adjust].

Definition health_router : list route_decl :=
  [at_ "/api/health" GET "/coordinator" room_get_coordinator_health].

Definition artifacts_router : list route_decl :=
  let r := at_ "/api/office" in [
  r GET "/rooms/{room_id}/artifacts" artifacts_get_room_artifacts;
  r GET "/tasks/{task_id}/steps/{seq}/artifact" artifacts_get_step_artifact].

Definition ops_chat_router : list route_decl :=
  let r := at_ "/api/ops" in [
  r GET "/chat/available" chat_ops_chat_available;
  r POST "/chat" chat_ops_chat].

(** The studio modules hang their endpoints on one router, in the order they are imported. *)
Definition studio_router : list route_decl :=
  let r := at_ "/api/agents" in [
  r GET "/{agent_id}/company-docs" studio_get_agent_company_docs;
  r PUT "/{agent_id}/company-docs" studio_put_agent_company_docs;
  r GET "/{agent_id}/knowledge/{doc}" studio_get_knowledge;
  r PUT "/{agent_id}/knowledge/{doc}" studio_put_knowledge;
  r GET "/{agent_id}/skills" studio_get_skills;
  r PUT "/{agent_id}/skills" studio_put_skills;
  r POST "/{agent_id}/telegram" studio_bind_telegram;
  r POST "/{agent_id}/telegram/updates" studio_telegram_recent_chats].

Definition company_docs_router : list route_decl :=
  let r := at_ "/api/company-docs" in [
  r GET [] docs_list_company_docs;
  r GET "/{slug}" docs_get_company_doc;
  r POST [] docs_create_company_doc;
  r PUT "/{slug}" docs_update_company_doc;
  r DELETE "/{slug}" docs_delete_company_doc].

Definition tasks_router : list route_decl :=
  let r := at_ "/api/tasks" in [
  r GET [] tasks_list_all_tasks;
  r POST "/{agent_id}/{task_id}/cancel" tasks_cancel_task].

Definition office_stream_router : list route_decl := [
  at_ [] GET "/api/office/rooms" office_list_rooms;
  at_ [] GET "/api/office/rooms/{room_id}/stream" office_stream_room].

(** The application: its routers in the order they are included, the catch-all that serves the
    single-page client, and the probe registered on the finished application. *)
Definition create_app : list route_decl :=
  auth_router ++ setup_router ++ agents_router ++ runs_router ++ visualize_router ++ ops_router
  ++ admin_router ++ company_router ++ assign_router ++ room_chat_router ++ health_router
  ++ artifacts_router ++ ops_chat_router ++ studio_router ++ company_docs_router ++ tasks_router
  ++ office_stream_router ++ [at_ [] GET "/{full_path:path}" app_spa].
Definition fastapi_app : list route_decl := create_app ++ [at_ [] GET "/health" app_health].

(** ** The framework *)

(** Matching as the framework documents it: a literal segment matches itself, a parameter one
    non-empty segment, [:path] whatever is left; the routes are tried in order. *)
Fixpoint match_segs (t : list seg) (p : list jsstr) : option (list jsstr) :=
  match t, p with
  | [], [] => Some []
  | [Rest], _ :: _ => Some [join [47] p]
  | Lit a :: t, b :: p => if bool_decide (a = b) then match_segs t p else None
  | Par :: t, b :: p => if truthy b then cons b <$> match_segs t p else None
  | _, _ => None
  end.
Fixpoint first_match (rs : list route_decl) (m : method) (p : list jsstr) :
    option (endpoint * list jsstr) :=
  match rs with
  | [] => None
  | r :: rs =>
      if bool_decide (rd_method r = m) then
        match match_segs (rd_path r) p with
        | Some args => Some (rd_handler r, args)
        | None => first_match rs m p
        end
      else first_match rs m p
  end.

(** What the server relies on: a request is dispatched to the first route that matches its
    method and its percent-decoded path, with the texts of the parameters; and a parameter
    declared [int] is read from a decimal text. *)
Class Framework := {
  fw_dispatch : list route_decl → method → jsstr → option (endpoint * list jsstr);
  fw_int : jsstr → option Z;
  fw_first : ∀ rs m p, fw_dispatch rs m p = first_match rs m (split_on 47 p);
  fw_decimal : ∀ z, 0 ≤ z → fw_int (z_str z) = Some z }.

(** What [fetch] makes of the path of a relative URL (the URL standard): tabs and line ends are
    dropped, what follows a [?] or [#] is not path, a backslash is a slash, and segments of one and
    two dots are resolved, however their dots are written. *)
Definition path_text (url : jsstr) : jsstr :=
  map (λ c, if c =? 92 then 47 else c)
    (until_unit 63 (until_unit 35 (List.filter (λ c, negb ((c =? 9) || (c =? 10) || (c =? 13))) url))).
Definition single_dot (s : jsstr) : bool := memb s ["."; "%2e"; "%2E"].
Definition double_dot (s : jsstr) : bool :=
  memb s [".."; ".%2e"; ".%2E"; "%2e."; "%2E."; "%2e%2e"; "%2e%2E"; "%2E%2e"; "%2E%2E"].
Definition dots (s : jsstr) : bool := single_dot s || double_dot s.

(** [acc] is the path so far, the last segment first. *)
Fixpoint resolve_dots (acc l : list jsstr) : list jsstr :=
  match l with
  | [] => rev acc
  | s :: r =>
      let acc' := if double_dot s then tail acc else if single_dot s then acc else s :: acc in
      match r with
      | [] => rev (if dots s then [] :: acc' else acc')
      | _ => resolve_dots acc' r
      end
  end.
Definition remove_dots (p : jsstr) : jsstr := 47 :: join [47] (resolve_dots [] (tail (split_on 47 p))).

(** The path of a URL of the server's own, as the server sees it. *)
Definition url_path (url : jsstr) : jsstr := decodeURIComponent (remove_dots (path_text url)).

Example path_dots :
  map url_path ["/api/a/../b?x=/.."; "/api/./a/.."; "/a/%2E%2e/../b"; "/a\b#c"; "/"]%js
  = ["/api/b"; "/api/"; "/b"; "/a/b"; "/"]%js.
Proof. vm_compute. reflexivity. Qed.

(** ** The bodies the handlers read *)

Inductive ptype := PStr | PBool | PFloat | PStrs | PDict.
Record body_param := { bp_name : jsstr; bp_type : ptype; bp_null : bool; bp_required : bool }.

(** The body of a handler: none, an object with the declared members, or any object. *)
Inductive body_sig := NoBody | Embedded (l : list body_param) | AnyObject.

Definition need (n : jsstr) (t : ptype) : body_param :=
  {| bp_name := n; bp_type := t; bp_null := false; bp_required := true |}.
Definition opt (n : jsstr) (t : ptype) : body_param :=
  {| bp_name := n; bp_type := t; bp_null := false; bp_required := false |}.
Definition opt_null (n : jsstr) (t : ptype) : body_param :=
  {| bp_name := n; bp_type := t; bp_null := true; bp_required := false |}.

Definition signature (h : endpoint) : body_sig :=
  match h with
  | auth_login => Embedded [opt "username" PStr; opt "password" PStr]
  | setup_setup_env => AnyObject
  | setup_setup_finish => Embedded [need "password" PStr; opt "username" PStr]
  | runs_trigger_run => Embedded [opt "kind" PStr; opt "audience" PStr; opt "dry_run" PBool]
  | ops_save_profile => Embedded [need "text" PStr]
  | ops_save_md => Embedded [need "text" PStr]
  | admin_post_create_agent =>
      Embedded [opt "id" PStr; opt "domain" PStr; opt "reports" PStrs; opt "schedule" PDict;
                opt "name" PStr; opt "web_search" PBool; opt "bindings" PDict; opt "persona" PStr]
  | admin_patch_agent_enabled => Embedded [need "enabled" PBool]
  | company_post_company =>
      Embedded [need "name" PStr; opt_null "coordinator_id" PStr;
                opt_null "team_task_cap_usd" PFloat; opt_null "team_task_auto_confirm" PBool]
  | assign_post_preview => Embedded [need "brief" PStr; opt "room_id" PStr]
  | assign_post_confirm => Embedded [need "task_id" PStr; need "plan_hash" PStr]
  | assign_post_cancel => Embedded [need "task_id" PStr]
  | room_post_room_chat => Embedded [need "message" PStr]
  | room_post_confirm_adjust => Embedded [need "task_id" PStr; need "amendment_id" PStr]
  | chat_ops_chat => Embedded [need "message" PStr]
  | studio_put_agent_company_docs => Embedded [need "slugs" PStrs]
  | studio_put_knowledge => Embedded [opt_null "fields" PDict; opt_null "raw" PStr]
  | studio_put_skills => Embedded [need "names" PStrs]
  | studio_bind_telegram => Embedded [need "token" PStr; opt "chat_ids" PStrs]
  | studio_telegram_recent_chats => Embedded [need "token" PStr]
  | docs_create_company_doc | docs_update_company_doc =>
      Embedded [need "title" PStr; opt "body" PStr; opt "updated" PStr]
  | _ => NoBody
  end.

Definition is_str (v : json) : bool := match v with JStr _ => true | _ => false end.
Definition accepts (p : body_param) (v : json) : bool :=
  match v, bp_type p with
  | JNull, _ => bp_null p
  | JStr _, PStr | JBool _, PBool | JNum _, PFloat | JObj _, PDict => true
  | JArr l, PStrs => forallb is_str l
  | _, _ => false
  end.

(** A body the handler takes whole: every required member is there, and every member is one it
    reads, of the declared type, so that nothing is refused and nothing is ignored. *)
Definition body_taken (s : body_sig) (b : option json) : bool :=
  match s, b with
  | NoBody, (None | Some (JObj [])) => true
  | AnyObject, Some (JObj _) => true
  | Embedded ps, Some (JObj l) =>
      forallb (λ p, negb (bp_required p) || memb (bp_name p) (map fst l)) ps
      && forallb (λ kv, existsb (λ p, bool_decide (bp_name p = fst kv) && accepts p (snd kv)) ps) l
  | _, _ => false
  end.

(** ** The session gate *)

Definition PUBLIC_PREFIXES : list jsstr :=
  ["/api/login"; "/api/logout"; "/api/me"; "/api/setup/status"; "/health"; "/assets/"; "/static/";
   "/favicon"; "/icons"].

Inductive gate_answer := Next | Unauthorized | Shell.

(** [AuthMiddleware.dispatch]: [enabled] is [auth_enabled()], [user] the session's user. *)
Definition dispatch (enabled : bool) (user : option jsstr) (path : jsstr) : gate_answer :=
  if negb enabled then Next
  else if bool_decide (path = [47]) || existsb (λ p, starts_with p path) PUBLIC_PREFIXES then Next
  else if truthy_opt user then Next
  else if starts_with "/api/" path then Unauthorized
  else Shell.

(** The server in front of the client: the gate, and behind it the handlers ([inner]); [shell]
    is the page it hands back to an unauthenticated navigation. *)
Definition gated (enabled : bool) (user : option jsstr) (shell : response)
    (inner : http_request → response) (rq : http_request) : response :=
  match dispatch enabled user (url_path (rq_path rq)) with
  | Next => inner rq
  | Unauthorized => Responds 401 (inl (JObj [("detail", JStr "chưa đăng nhập")]))
  | Shell => shell
  end.

(** ** Theorems: requests reach their handlers *)

(** The handler a call of the client is meant for, and the values of its path parameters. *)
Definition handler_of (c : call) : endpoint :=
  match c with
  | getAgents => agents_get_agents
  | getAgentStatus _ => agents_get_agent_status
  | getRuns _ => visualize_get_runs
  | getCost _ => visualize_get_cost
  | getMemory _ _ => visualize_get_memory
  | getAutomation _ => visualize_get_automation
  | getAudit _ => visualize_get_audit
  | getApprovals _ => ops_list_approvals
  | approve _ _ => ops_approve
  | reject _ _ => ops_reject
  | getConfig _ => ops_get_config
  | saveProfile _ _ => ops_save_profile
  | saveMarkdown _ _ _ => ops_save_md
  | triggerRun _ _ _ _ => runs_trigger_run
  | getPacks => admin_get_packs
  | createAgent _ => admin_post_create_agent
  | setAgentEnabled _ _ => admin_patch_agent_enabled
  | deleteAgent _ => admin_delete_agent
  | getUnregisteredProfiles => admin_get_unregistered_profiles
  | registerExistingProfile _ => admin_post_register_existing
  | getIntegrationHealth => admin_get_integration_health
  | getTeamAlerts => admin_get_team_alerts
  | getCompany => company_get_company
  | saveCompany _ _ _ _ => company_post_company
  | getAssignableStaff => assign_get_assignable_staff
  | assignPreview _ _ => assign_post_preview
  | getWorkrooms => room_get_workrooms
  | roomChat _ _ => room_post_room_chat
  | roomConfirmAdjust _ _ _ => room_post_confirm_adjust
  | getCoordinatorHealth => room_get_coordinator_health
  | getRoomArtifacts _ => artifacts_get_room_artifacts
  | getStepArtifact _ _ => artifacts_get_step_artifact
  | assignConfirm _ _ => assign_post_confirm
  | assignCancel _ => assign_post_cancel
  | getStaffTemplates => company_get_staff_templates
  | opsChatAvailable => chat_ops_chat_available
  | opsChat _ => chat_ops_chat
  | getTasks => tasks_list_all_tasks
  | cancelTask _ _ => tasks_cancel_task
  | getMe => auth_me
  | login _ _ => auth_login
  | logout => auth_logout
  | setupStatus => setup_setup_status
  | setupEnv _ => setup_setup_env
  | setupTest _ => setup_setup_test
  | setupFinish _ _ => setup_setup_finish
  | bindTelegram _ _ _ => studio_bind_telegram
  | telegramRecentChats _ _ => studio_telegram_recent_chats
  | getKnowledge _ _ => studio_get_knowledge
  | putKnowledgeForm _ _ _ | putKnowledgeRaw _ _ _ => studio_put_knowledge
  | getSkills _ => studio_get_skills
  | putSkills _ _ => studio_put_skills
  | listCompanyDocs => docs_list_company_docs
  | getCompanyDoc _ => docs_get_company_doc
  | createCompanyDoc _ _ _ => docs_create_company_doc
  | updateCompanyDoc _ _ _ _ => docs_update_company_doc
  | deleteCompanyDoc _ => docs_delete_company_doc
  | getAgentCompanyDocs _ => studio_get_agent_company_docs
  | putAgentCompanyDocs _ _ => studio_put_agent_company_docs
  | getOfficeRooms => office_list_rooms
  end.

Definition params_of (c : call) : list jsstr :=
  match c with
  | getAgentStatus id | getRuns id | getCost id | getMemory id _ | getAutomation id
  | getAudit id | getApprovals id | getConfig id | saveProfile id _ | triggerRun id _ _ _
  | setAgentEnabled id _ | deleteAgent id | registerExistingProfile id | bindTelegram id _ _
  | telegramRecentChats id _ | getSkills id | putSkills id _ | getAgentCompanyDocs id
  | putAgentCompanyDocs id _ => [id]
  | approve id n | reject id n | cancelTask id n => [id; id_text n]
  | saveMarkdown id which _ => [id; doc_text which]
  | getKnowledge id doc | putKnowledgeForm id doc _ | putKnowledgeRaw id doc _ =>
      [id; doc_text doc]
  | roomChat r _ | roomConfirmAdjust r _ _ | getRoomArtifacts r => [r]
  | getStepArtifact t seq => [t; id_text seq]
  | setupTest g => [g]
  | getCompanyDoc s | updateCompanyDoc s _ _ _ | deleteCompanyDoc s => [s]
  | _ => []
  end.

(** The ids among them. *)
Definition ids_of (c : call) : list jsstr :=
  match c with
  | approve id _ | reject id _ | cancelTask id _ | saveMarkdown id _ _ | getKnowledge id _
  | putKnowledgeForm id _ _ | putKnowledgeRaw id _ _ => [id]
  | getStepArtifact t _ => [t]
  | _ => params_of c
  end.

(** A segment that a path may have as it is: an id, or the text of a number ([1e+21]). *)
Definition seg_char (c : Z) : bool := (c =? 43) || unescaped c.
Definition plain_seg (s : jsstr) : Prop := Forall (λ c, seg_char c = true) s.
Definition clean_seg (s : jsstr) : Prop := plain_seg s ∧ s ≠ [] ∧ dots s = false.

(** Calls whose ids are non-empty and made of unescaped characters, as every agent id, task and
    room id and slug is; and those whose ids are not [.] or [..] either. *)
Definition unescaped_ids (c : call) : Prop := Forall (λ s, plain_id s ∧ s ≠ []) (ids_of c).
Definition clean_id (s : jsstr) : Prop := plain_id s ∧ s ≠ [] ∧ dots s = false.
Definition clean (c : call) : Prop := Forall clean_id (ids_of c).

(** *** Segments *)

Lemma plain_id_seg s : plain_id s → plain_seg s.
Proof.
  intros H. eapply Forall_impl; [exact H|]. intros c Hc. unfold seg_char. by rewrite Hc, orb_true_r.
Qed.

Lemma dots_head s : dots s = true → ∃ c r, s = c :: r ∧ (c = 46 ∨ c = 37).
Proof.
  unfold dots, single_dot, double_dot. rewrite orb_true_iff, !memb_spec, !elem_of_cons, elem_of_nil.
  intros H. destruct_or!; subst; try done; eexists _, _; (split; [reflexivity|]); (by left) || by right.
Qed.

(** Of the unescaped ids only these two are resolved away. *)
Lemma plain_dots s : plain_id s → dots s = true → s = "."%js ∨ s = ".."%js.
Proof.
  intros Hs. unfold dots, single_dot, double_dot.
  rewrite orb_true_iff, !memb_spec, !elem_of_cons, elem_of_nil. intros H.
  destruct_or!; subst; try done; try (by left); try (by right); exfalso;
    unfold plain_id in Hs; rewrite Forall_forall in Hs;
    (assert (unescaped 37 = true) by (apply Hs, (bool_decide_unpack _); vm_compute; exact I); done).
Qed.

(** *** Integers in paths *)

(** The texts of numbers. *)
Definition numeral (s : jsstr) : Prop := plain_seg s ∧ ∃ c r, s = c :: r ∧ c ≠ 46 ∧ c ≠ 37 ∧ c < 91.

Lemma numeral_clean s : numeral s → clean_seg s.
Proof.
  intros [Hs (c & r & -> & H1 & H2 & _)]. split; [done|]. split; [done|]. apply not_true_is_false.
  intros (c' & r' & [= <- <-] & [|])%dots_head; done.
Qed.

Lemma numeral_app s t : numeral s → plain_seg t → numeral (s ++ t).
Proof.
  intros [Hs (c & r & -> & H)] Ht. split; [by apply Forall_app|]. by exists c, (r ++ t).
Qed.
Lemma numeral_cons c s : seg_char c = true → c ≠ 46 ∧ c ≠ 37 ∧ c < 91 → plain_seg s → numeral (c :: s).
Proof. intros Hc H Hs. split; [by constructor|]. by exists c, s. Qed.

Lemma digits_numeral k z acc :
  0 ≤ z → plain_seg acc → k ≠ O → numeral (digits_fuel k z acc).
Proof.
  revert z acc. induction k as [|k IH]; intros z acc Hz Ha Hne; cbn [digits_fuel]; [done|].
  assert (∀ d, 0 ≤ d < 10 → seg_char (48 + d) = true) as Hd by (unfold seg_char, unescaped; lia).
  destruct (Z.ltb_spec z 10); [apply numeral_cons; [by apply Hd|lia|done]|].
  assert (plain_seg ((48 + z mod 10) :: acc)) as Hn by (constructor; [apply Hd; div_lia|done]).
  destruct k as [|k].
  - cbn. apply numeral_cons; [apply Hd; div_lia|div_lia|done].
  - apply IH; [div_lia|done|done].
Qed.

Lemma nat_digits_numeral z : 0 ≤ z → numeral (nat_digits z).
Proof. intros H. by apply digits_numeral; [|constructor|]. Qed.
Lemma z_str_numeral z : numeral (z_str z).
Proof.
  unfold z_str. destruct (Z.ltb_spec z 0); [|by apply nat_digits_numeral].
  apply numeral_cons; [done|done|]. by apply nat_digits_numeral; lia.
Qed.

Lemma numeral_take n s : (0 < n)%nat → numeral s → numeral (take n s).
Proof.
  intros Hn [Hs (c & r & -> & H)]. split; [by apply Forall_take|]. destruct n as [|n]; [lia|].
  by exists c, (take n r).
Qed.
Lemma zeros_plain n : plain_seg (replicate n 48).
Proof. by apply Forall_replicate. Qed.

Lemma plain_app s t : plain_seg s → plain_seg t → plain_seg (s ++ t).
Proof. intros Hs Ht. by apply Forall_app. Qed.
Lemma plain_drop n s : plain_seg s → plain_seg (drop n s).
Proof. apply Forall_drop. Qed.
Ltac plain :=
  repeat first [assumption | apply zeros_plain | apply plain_app | apply plain_drop
               | by repeat constructor].

Lemma dec_layout_numeral s k n : 0 ≤ s → numeral (dec_layout s k n).
Proof.
  intros Hs. pose proof (nat_digits_numeral s Hs) as Hd. pose proof Hd as [Hp _]. unfold dec_layout.
  pose proof (nat_digits_numeral (Z.abs (n - 1)) (Z.abs_nonneg _)) as [He _].
  assert (numeral (take 1 (nat_digits s))) as H1 by (apply numeral_take; [lia|done]).
  assert (plain_seg (if n - 1 <? 0 then "-" else "+")) as Hsign by (destruct (n - 1 <? 0); plain).
  assert (numeral (if k =? 1 then nat_digits s ++ "e" ++ (if n - 1 <? 0 then "-" else "+") ++ nat_digits (Z.abs (n - 1))
    else take 1 (nat_digits s) ++ "." ++ drop 1 (nat_digits s) ++ "e" ++
         (if n - 1 <? 0 then "-" else "+") ++ nat_digits (Z.abs (n - 1)))) as Hx
    by (destruct (k =? 1); apply numeral_app; plain).
  destruct ((k <=? n) && (n <=? 21)); [apply numeral_app; plain|].
  destruct ((0 <? n) && (n <=? 21)) eqn:En.
  { apply numeral_app; [|plain]. apply numeral_take; [|done]. lia. }
  destruct ((-6 <? n) && (n <=? 0)); [|exact Hx].
  apply numeral_app; [by apply numeral_cons; [| |repeat constructor]|plain].
Qed.

Lemma dec_digits_nonneg k n a b : 0 ≤ a → 0 < b → 0 ≤ dec_digits k n a b.
Proof.
  intros Ha Hb. unfold dec_digits. destruct (Z.leb_spec 0 (n - k)); [|apply Z.div_pos; [|lia]].
  - assert (0 < 10 ^ (n - k)) by (apply Z.pow_pos_nonneg; lia). apply Z.div_pos; nia.
  - assert (0 < 10 ^ (- (n - k))) by (apply Z.pow_pos_nonneg; lia). nia.
Qed.
Lemma shortest_nonneg f k n a b x : 0 ≤ a → 0 < b → 0 ≤ fst (shortest f k n a b x).
Proof.
  intros Ha Hb. revert k. induction f as [|f IH]; intros k; cbn [shortest]; [by apply dec_digits_nonneg|].
  destruct (num_eqb _ _); [by apply dec_digits_nonneg|apply IH].
Qed.

Lemma pos_str_numeral m e : numeral (pos_str m e).
Proof.
  unfold pos_str. assert (0 ≤ fst (frac m e) ∧ 0 < snd (frac m e)) as [Ha Hb].
  { unfold frac. destruct (Z.leb_spec 0 e); cbn [fst snd].
    - assert (0 < 2 ^ e) by (apply Z.pow_pos_nonneg; lia). nia.
    - assert (0 < 2 ^ (- e)) by (apply Z.pow_pos_nonneg; lia). lia. }
  destruct (frac m e) as [a b]. cbn [fst snd] in *.
  match goal with |- context [shortest ?f ?k ?n ?a ?b ?x] =>
    pose proof (shortest_nonneg f k n a b x Ha Hb) as Hs; destruct (shortest f k n a b x) as [s k'] end.
  destruct (s =? 10 ^ k'); apply dec_layout_numeral; [lia|done].
Qed.

Lemma num_str_numeral x : numeral (num_str x).
Proof.
  destruct x as [[]|[]| |[] m e]; cbn [num_str];
    try (by split; [repeat constructor|eexists _, _; split; [reflexivity|done]]).
  - apply numeral_cons; [done|done|]. apply pos_str_numeral.
  - apply pos_str_numeral.
Qed.

Lemma id_text_numeral n : numeral (id_text n).
Proof. unfold id_text. destruct (_ <=? _); [apply z_str_numeral|apply num_str_numeral]. Qed.
Lemma id_text_clean n : clean_seg (id_text n).
Proof. apply numeral_clean, id_text_numeral. Qed.
Lemma id_text_exact n : Z.abs n ≤ MAX_SAFE → id_text n = z_str n.
Proof. intros H. unfold id_text. by rewrite (proj2 (Z.leb_le _ _) H). Qed.

(** The decimal text of a non-negative integer reads back. *)
Lemma digits_read k z acc :
  0 ≤ z < 2 ^ Z.of_nat k → base_from 10 0 (digits_fuel k z acc) = base_from 10 z acc.
Proof.
  assert (∀ d, 0 ≤ d < 10 → hex_dig (48 + d) = Some d ∧ (d <? 10) = true) as Hd.
  { intros d Hd. unfold hex_dig. destruct ((48 <=? 48 + d) && (48 + d <=? 57)) eqn:E; [|lia].
    split; [f_equal|]; lia. }
  revert z acc. induction k as [|k IH]; intros z acc Hz; cbn [digits_fuel].
  { assert (z = 0) as -> by (cbn in Hz; lia). done. }
  rewrite Nat2Z.inj_succ, Z.pow_succ_r in Hz by lia.
  destruct (Z.ltb_spec z 10).
  - cbn [base_from]. destruct (Hd z) as [-> ->]; [lia|done].
  - rewrite IH by div_lia. cbn [base_from]. destruct (Hd (z mod 10)) as [-> ->]; [div_lia|].
    f_equal. div_lia.
Qed.

Lemma z_str_read z : 0 ≤ z → base_digits 10 (z_str z) = Some z.
Proof.
  intros H. unfold z_str. destruct (Z.ltb_spec z 0) as [|_]; [lia|]. unfold nat_digits.
  set (k := S (Z.to_nat (Z.log2 z))).
  assert (digits_fuel k z [] ≠ []) as Hne
    by (destruct (digits_numeral k z []) as [_ (c & r & -> & _)]; [lia|by constructor|done|done]).
  transitivity (base_from 10 0 (digits_fuel k z [])); [by destruct (digits_fuel k z [])|].
  rewrite digits_read; [done|]. split; [lia|]. unfold k.
  destruct (Z.eqb_spec z 0) as [->|]; [done|].
  rewrite Nat2Z.inj_succ, Z2Nat.id by apply Z.log2_nonneg. apply Z.log2_spec. lia.
Qed.

Lemma params_plain c : unescaped_ids c → Forall (λ s, plain_seg s ∧ s ≠ []) (params_of c).
Proof.
  unfold unescaped_ids. assert (∀ d, plain_seg (doc_text d) ∧ doc_text d ≠ []) as Hd
    by (intros []; (split; [repeat constructor|done])).
  assert (∀ n, plain_seg (id_text n) ∧ id_text n ≠ []) as Hn
    by (intros n; by destruct (id_text_clean n) as (? & ? & _)).
  assert (∀ s, plain_id s ∧ s ≠ [] → plain_seg s ∧ s ≠ []) as Hp
    by (intros s [? ?]; split; [by apply plain_id_seg|done]).
  destruct c; cbn [ids_of params_of]; intros Hc; try (by eapply Forall_impl);
    apply Forall_cons_1 in Hc as [Hid _]; repeat constructor;
    apply Hp, Hid || apply Hn || apply Hd.
Qed.

Lemma clean_unescaped c : clean c → unescaped_ids c.
Proof. intros H. eapply Forall_impl; [exact H|]. by intros s (? & ? & _). Qed.

Lemma clean_params c : clean c → Forall clean_seg (params_of c).
Proof.
  intros Hc. apply Forall_forall. intros s Hs.
  pose proof (params_plain c (clean_unescaped c Hc)) as Hp. rewrite Forall_forall in Hp.
  destruct (Hp s Hs) as [H1 H2]. split; [done|]. split; [done|].
  assert (∀ d, dots (doc_text d) = false) as Hd by (intros []; done).
  unfold clean in Hc. rewrite Forall_forall in Hc.
  destruct c; cbn [ids_of params_of] in *; try (by apply Hc);
    apply elem_of_cons in Hs as [->|Hs]; try (by apply Hc; left);
    apply list_elem_of_singleton in Hs as ->; apply Hd || apply id_text_clean.
Qed.

(** The route of a handler, and its path with the parameters filled in. *)
Definition template (h : endpoint) : list seg :=
  match find (λ r, bool_decide (rd_handler r = h)) fastapi_app with Some r => rd_path r | None => [] end.
Fixpoint fill (t : list seg) (args : list jsstr) : list jsstr :=
  match t, args with
  | Lit s :: t, _ => s :: fill t args
  | _ :: t, a :: args => a :: fill t args
  | _ :: t, [] => [] :: fill t []
  | [], _ => []
  end.

(** The URL of a call is the path of its handler's route, filled in with its arguments, and a
    query or nothing. *)
Lemma route_fill c rq :
  route c = Some rq → unescaped_ids c →
  ∃ q, rq_path rq = join [47] (fill (template (handler_of c)) (params_of c)) ++ q ∧
    (q = [] ∨ head q = Some 63).
Proof.
  intros H Hc. unfold unescaped_ids in Hc.
  destruct c; cbn [ids_of params_of] in Hc; repeat (apply Forall_cons_1 in Hc as [[? _] Hc]);
    cbn [route] in H; rewrite ?encode_plain in H by done; cbn [mbind option_bind] in H;
    try (apply bind_Some in H as (e & _ & H)); injection H as <-; cbn [rq_path params_of]; any_number.
  all: unfold cat; cbn [concat]; repeat match goal with d : knowledge_doc |- _ => destruct d end.
  all: try (exists []; rewrite ?app_nil_r; split; [vm_compute; reflexivity|by left]).
  exists ("?audience=" ++ e). rewrite ?app_nil_r. split; [vm_compute; reflexivity|by right].
Qed.

(** A path of segments and slashes is its own decoding. *)
Definition path_char (c : Z) : bool := (c =? 47) || seg_char c.

Lemma path_char_range c : path_char c = true → 33 ≤ c < 127 ∧ c ≠ 37 ∧ c ≠ 35 ∧ c ≠ 63 ∧ c ≠ 92.
Proof.
  unfold path_char, seg_char. intros [->%Z.eqb_eq|[->%Z.eqb_eq|Hc]%orb_true_iff]%orb_true_iff; [lia..|].
  assert (∀ d, unescaped d = false → c ≠ d) as Hd by (intros d Hd ->; by rewrite Hd in Hc).
  pose proof (unescaped_unit _ Hc) as (? & ? & ? & ?).
  split; [done|]. repeat split; by apply Hd.
Qed.

Lemma decode_path p : forallb path_char p = true → decodeURIComponent p = p.
Proof.
  intros H. assert (∀ c, path_char c = true → 33 ≤ c < 127 ∧ c ≠ 37) as Hc
    by (intros c (? & ? & _)%path_char_range; done).
  rewrite forallb_forall in H. unfold decodeURIComponent.
  assert (∀ k, (length p ≤ k)%nat → unpercent k p = p) as Hu.
  { induction p as [|c p IH]; intros k Hk; [by destruct k|].
    destruct k as [|k]; cbn in Hk; [lia|]. cbn [unpercent].
    rewrite (proj2 (Z.eqb_neq c 37)) by (apply Hc, H; by left).
    rewrite IH; [done|intros; apply H; by right|lia]. }
  rewrite Hu by lia.
  assert (∀ k, (length p ≤ k)%nat → flat_map units_of (utf8_decode k p) = p) as Hd; [|by apply Hd].
  clear Hu. induction p as [|c p IH]; intros k Hk; [by destruct k|].
  destruct k as [|k]; cbn in Hk; [lia|]. cbn [utf8_decode].
  assert (33 ≤ c < 127) by (apply Hc, H; by left).
  rewrite (proj2 (Z.ltb_lt c 128)) by lia. cbn [flat_map]. unfold units_of at 1.
  rewrite (proj2 (Z.ltb_lt c 65536)) by lia. cbn [app].
  rewrite IH; [done|intros; apply H; by right|lia].
Qed.

Lemma plain_path s : plain_seg s → forallb path_char s = true.
Proof.
  intros H. apply forallb_forall. intros c Hc%list_elem_of_In.
  unfold plain_seg in H. rewrite Forall_forall in H. unfold path_char. by rewrite H, orb_true_r.
Qed.
Lemma plain_segment s : plain_seg s → no_unit 47 s.
Proof. unfold plain_seg. rewrite Forall_forall. intros H Hin. by apply H in Hin. Qed.

(** The segments of a template filled with plain parameters. *)
Definition lit_ok (s : seg) : bool :=
  match s with Lit s => forallb unescaped s && negb (dots s) | _ => true end.

Lemma fill_spec (P : jsstr → Prop) t args :
  forallb lit_ok t = true → (∀ s, plain_id s → dots s = false → P s) → P [] → Forall P args →
  Forall P (fill t args).
Proof.
  intros Ht Hl Hn. revert args. induction t as [|[s| |] t IH]; intros args Ha; cbn in *; [done|..].
  - apply andb_true_iff in Ht as [[Hs Hd]%andb_true_iff Ht]. constructor; [|by apply IH].
    apply Hl; [|by apply negb_true_iff]. apply Forall_forall. intros c Hc.
    rewrite forallb_forall in Hs. by apply Hs, list_elem_of_In.
  - destruct Ha as [|a args Ha Has]; constructor; try done; by apply IH.
  - destruct Ha as [|a args Ha Has]; constructor; try done; by apply IH.
Qed.

Lemma templates_plain h : forallb lit_ok (template h) = true.
Proof. destruct h; vm_compute; reflexivity. Qed.

Lemma fill_plain h args : Forall plain_seg args → Forall plain_seg (fill (template h) args).
Proof.
  intros Ha. apply fill_spec; [apply templates_plain| |by constructor|done].
  intros s Hs _. by apply plain_id_seg.
Qed.
Lemma fill_no_dots h args :
  Forall (λ s, dots s = false) args → Forall (λ s, dots s = false) (fill (template h) args).
Proof. intros Ha. apply fill_spec; [apply templates_plain|done|done|done]. Qed.

Lemma fill_rooted h args : ∃ l, fill (template h) args = [] :: l ∧ l ≠ [].
Proof. destruct h; eexists; (split; [vm_compute; reflexivity|by destruct args]). Qed.

Lemma join_path l : Forall plain_seg l → forallb path_char (join [47] l) = true.
Proof.
  induction 1 as [|x l Hx Hl IH]; [done|]. destruct l as [|y l].
  - by apply plain_path.
  - rewrite join_cons, !forallb_app, IH, plain_path by done. done.
Qed.

Lemma resolve_no_dots acc l : Forall (λ s, dots s = false) l → resolve_dots acc l = rev acc ++ l.
Proof.
  revert acc. induction l as [|s l IH]; intros acc H; cbn [resolve_dots]; [by rewrite app_nil_r|].
  apply Forall_cons in H as [Hs Hl]. rewrite Hs. unfold dots in Hs. apply orb_false_iff in Hs as [-> ->].
  destruct l as [|s' l]; [done|]. rewrite IH by done. cbn [rev]. by rewrite <- app_assoc.
Qed.

Lemma resolve_plain acc l : Forall plain_seg acc → Forall plain_seg l → Forall plain_seg (resolve_dots acc l).
Proof.
  assert (∀ l, Forall plain_seg l → Forall plain_seg (rev l)) as Hr
    by (intros l'; apply List.Forall_rev).
  revert acc. induction l as [|s l IH]; intros acc Ha Hl; cbn [resolve_dots]; [by apply Hr|].
  apply Forall_cons in Hl as [Hs Hl].
  assert (Forall plain_seg (if double_dot s then tail acc else if single_dot s then acc else s :: acc)) as Hacc.
  { destruct (double_dot s); [by destruct Ha|]. destruct (single_dot s); [done|by constructor]. }
  destruct l as [|s' l]; [|by apply IH]. apply Hr. destruct (dots s); [by repeat constructor|done].
Qed.

(** What is in front of the query, of a path of plain segments. *)
Lemma path_text_plain p q :
  forallb path_char p = true → (q = [] ∨ head q = Some 63) → path_text (p ++ q) = p.
Proof.
  rewrite forallb_forall. intros Hp Hq. unfold path_text.
  assert (∀ c, c ∈ p → path_char c = true) as Hc by (intros c Hc%list_elem_of_In; by apply Hp).
  rewrite List.filter_app.
  assert (List.filter (λ c, negb ((c =? 9) || (c =? 10) || (c =? 13))) p = p) as ->.
  { clear Hp. induction p as [|c p IH]; [done|]. cbn [List.filter].
    pose proof (path_char_range c (Hc c ltac:(by left))). rewrite IH by (intros; apply Hc; by right).
    destruct (negb _) eqn:E; [done|lia]. }
  assert (no_unit 35 p) as H35 by (intros Hin; by apply Hc in Hin).
  assert (no_unit 63 p) as H63 by (intros Hin; by apply Hc in Hin).
  rewrite until_unit_app, until_unit_app by done.
  match goal with |- context [until_unit 63 (until_unit 35 ?x)] =>
    assert (until_unit 63 (until_unit 35 x) = []) as -> end.
  { destruct Hq as [->|Hq]; [done|]. destruct q as [|c q]; [done|]. by injection Hq as ->. }
  rewrite app_nil_r. transitivity (map id p); [|apply map_id]. apply map_ext_in.
  intros c Hin%list_elem_of_In. pose proof (path_char_range c (Hc c Hin)).
  by rewrite (proj2 (Z.eqb_neq c 92)) by lia.
Qed.

(** What the server sees of a URL made of plain segments and a query. *)
Lemma url_path_join l q :
  Forall plain_seg l → l ≠ [] → (q = [] ∨ head q = Some 63) →
  url_path (join [47] ([] :: l) ++ q) = join [47] ([] :: resolve_dots [] l).
Proof.
  intros Hl Hne Hq. unfold url_path, remove_dots.
  assert (Forall plain_seg ([] :: l)) as Hl' by (constructor; [constructor|done]).
  rewrite path_text_plain by (try apply join_path; done).
  rewrite split_on_join; [|done|eapply Forall_impl; [exact Hl'|]; apply plain_segment]. cbn [tail].
  assert (resolve_dots [] l ≠ []) as Hr.
  { destruct l as [|s l]; [done|]. clear. cbn [resolve_dots].
    assert (∀ acc l, l ≠ [] → resolve_dots acc l ≠ []) as Hr; [|exact (Hr [] (s :: l) ltac:(done))].
    clear. intros acc l. revert acc. induction l as [|s l IH]; intros acc Hn; [done|]. cbn [resolve_dots].
    destruct l as [|s' l]; [|by apply IH]. unfold dots.
    destruct (double_dot s), (single_dot s); cbn [orb rev]; intros [_ ?]%app_eq_nil; done. }
  destruct (resolve_dots [] l) as [|s r] eqn:E; [done|]. rewrite (join_cons _ []) by done. cbn [app].
  apply decode_path. cbn [forallb]. rewrite join_path; [done|].
  rewrite <- E. by apply resolve_plain; [constructor|].
Qed.

(** The path of a call on the server. *)
Lemma call_path c rq :
  route c = Some rq → unescaped_ids c →
  url_path (rq_path rq) =
    join [47] ([] :: resolve_dots [] (tail (fill (template (handler_of c)) (params_of c)))).
Proof.
  intros H Hc. destruct (route_fill c rq H Hc) as (q & -> & Hq).
  assert (Forall plain_seg (fill (template (handler_of c)) (params_of c))) as Hp.
  { apply fill_plain. eapply Forall_impl; [by apply params_plain|]. by intros ? [? _]. }
  destruct (fill_rooted (handler_of c) (params_of c)) as (l & El & Hl). rewrite El in *.
  apply Forall_cons in Hp as [_ Hp]. by apply url_path_join.
Qed.

Lemma clean_path c rq :
  route c = Some rq → clean c →
  url_path (rq_path rq) = join [47] (fill (template (handler_of c)) (params_of c)).
Proof.
  intros H Hc. rewrite (call_path c rq H (clean_unescaped c Hc)).
  assert (Forall (λ s, dots s = false) (fill (template (handler_of c)) (params_of c))) as Hd.
  { apply fill_no_dots. eapply Forall_impl; [by apply clean_params|]. by intros ? (_ & _ & ?). }
  destruct (fill_rooted (handler_of c) (params_of c)) as (l & El & _). rewrite El in *.
  apply Forall_cons in Hd as [_ Hd]. cbn [tail]. by rewrite resolve_no_dots.
Qed.

(** Only the routes of the path's length count, the catch-all apart. *)
Definition is_rest (s : seg) : bool := match s with Rest => true | _ => false end.
Definition fits (p : list jsstr) (r : route_decl) : bool :=
  existsb is_rest (rd_path r) || Nat.eqb (length (rd_path r)) (length p).

Lemma match_segs_fits t p args :
  match_segs t p = Some args → existsb is_rest t || Nat.eqb (length t) (length p) = true.
Proof.
  revert p args. induction t as [|[s| |] t IH]; intros [|b p] args H; cbn in *; try done.
  - case_bool_decide; [by eapply IH|done].
  - destruct (truthy b); [|done]. destruct (match_segs t p) eqn:E; [by eapply IH|done].
Qed.

Lemma first_match_fits rs m p : first_match rs m p = first_match (List.filter (fits p) rs) m p.
Proof.
  induction rs as [|r rs IH]; [done|]. cbn [first_match List.filter].
  destruct (match_segs (rd_path r) p) as [args|] eqn:E.
  - unfold fits at 1. rewrite (match_segs_fits _ _ _ E). cbn [first_match]. by rewrite E, IH.
  - destruct (fits p r); cbn [first_match]; rewrite ?E, <- IH; by destruct (bool_decide _).
Qed.

(** No earlier route takes a call's path: the first match is the handler, with the arguments. *)
Lemma first_match_call c rq :
  route c = Some rq → clean c →
  first_match fastapi_app (rq_method rq) (fill (template (handler_of c)) (params_of c)) =
    Some (handler_of c, params_of c).
Proof.
  intros H Hc%clean_params.
  assert (∀ s, clean_seg s → truthy s = true) as Ht by (intros s (_ & Hs & _); by apply truthy_spec).
  rewrite first_match_fits.
  destruct c; cbn [params_of] in *; repeat (apply Forall_cons_1 in Hc as [?%Ht Hc]);
    cbn [route] in H; try (apply bind_Some in H as (e & _ & H)); injection H as <-;
    cbn [rq_method]; any_number;
    repeat match goal with
      | d : knowledge_doc |- _ => destruct d
      | Hs : truthy (doc_text _) = true |- _ => clear Hs
      | Hs : truthy ?s = true |- _ => destruct s; [discriminate Hs|clear Hs]
      end;
    vm_compute; reflexivity.
Qed.

Lemma fill_ne h args : fill (template h) args ≠ [].
Proof. destruct h; vm_compute; discriminate. Qed.

(** The concrete framework of the witnesses. *)
Definition first_match_framework : Framework := {|
  fw_dispatch := λ rs m p, first_match rs m (split_on 47 p);
  fw_int := base_digits 10;
  fw_first := λ rs m p, eq_refl;
  fw_decimal := z_str_read |}.

Lemma call_reaches {F : Framework} c rq :
  route c = Some rq → clean c →
  fw_dispatch fastapi_app (rq_method rq) (url_path (rq_path rq)) = Some (handler_of c, params_of c).
Proof.
  intros H Hc. rewrite fw_first, (clean_path c rq H Hc).
  rewrite split_on_join; [by apply first_match_call|apply fill_ne|].
  assert (Forall plain_seg (fill (template (handler_of c)) (params_of c))) as Hp.
  { apply fill_plain. eapply Forall_impl; [by apply clean_params|]. by intros ? [? _]. }
  eapply Forall_impl; [exact Hp|]. apply plain_segment.
Qed.

(** C16: Every request of the client reaches the handler it is meant for.  Whatever framework
    dispatches by the documented rules, the server's routes, in the order they are declared, take
    the method and path of every call of the API whose ids are clean (not empty, of unescaped
    characters, and neither [.] nor [..], which a URL resolves away) to that call's handler with
    that call's ids, in order: no other route comes first, no id is mistaken for a literal segment
    or a literal for an id; and a non-negative integer id that a double holds exactly reads back as
    itself. *)
Theorem requests_reach_handlers {F : Framework} c rq :
  route c = Some rq → clean c →
  fw_dispatch fastapi_app (rq_method rq) (url_path (rq_path rq)) = Some (handler_of c, params_of c) ∧
  (∀ id n, (c = approve id n ∨ c = reject id n ∨ c = cancelTask id n ∨ c = getStepArtifact id n) →
    0 ≤ n ≤ MAX_SAFE → ∃ s, params_of c !! 1%nat = Some s ∧ fw_int s = Some n).
Proof.
  intros H Hc. split; [by apply call_reaches|].
  intros id n Hn Hpos. exists (z_str n). rewrite fw_decimal by lia. rewrite <- (id_text_exact n) by lia.
  destruct Hn as [->|[->|[->| ->]]]; done.
Qed.

Definition demo_request : http_request :=
  {| rq_method := POST; rq_path := "/api/tasks/pm-1/12/cancel"; rq_body := None |}.

Lemma requests_reach_handlers_witness :
  let c := cancelTask "pm-1" 12 in
  fw_dispatch (Framework := first_match_framework) fastapi_app (rq_method demo_request)
    (url_path (rq_path demo_request)) = Some (handler_of c, params_of c) ∧
  (∀ id n, (c = approve id n ∨ c = reject id n ∨ c = cancelTask id n ∨ c = getStepArtifact id n) →
    0 ≤ n ≤ MAX_SAFE → ∃ s, params_of c !! 1%nat = Some s ∧ fw_int (Framework := first_match_framework) s = Some n).
Proof.
  apply (requests_reach_handlers (F := first_match_framework) (cancelTask "pm-1" 12) demo_request);
    [vm_compute; reflexivity|].
  constructor; [split; [repeat constructor|by split]|constructor].
Defined.

(** The two event streams likewise. *)
Lemma streams_reach_handlers {F : Framework} id :
  clean_id id →
  fw_dispatch fastapi_app GET (url_path (cat ["/api/runs/"; id; "/stream"])) = Some (runs_stream, [id]) ∧
  fw_dispatch fastapi_app GET (url_path (cat ["/api/office/rooms/"; id; "/stream"])) =
    Some (office_stream_room, [id]).
Proof.
  intros (Hid%plain_id_seg & Hne & Hd). rewrite !fw_first.
  assert (∀ l, Forall plain_seg l → Forall (λ s, dots s = false) l → l ≠ [] →
    split_on 47 (url_path (join [47] ([] :: l))) = [] :: l) as Hs.
  { intros l Hl Hld Hn. rewrite <- (app_nil_r (join [47] ([] :: l))), url_path_join by auto.
    rewrite resolve_no_dots by done. apply split_on_join; [done|]. constructor; [by intros ?%elem_of_nil|].
    eapply Forall_impl; [exact Hl|]. apply plain_segment. }
  change (cat ["/api/runs/"; id; "/stream"]) with (join [47] [[]; "api"; "runs"; id; "stream"]).
  change (cat ["/api/office/rooms/"; id; "/stream"])
    with (join [47] [[]; "api"; "office"; "rooms"; id; "stream"]).
  rewrite (Hs ["api"; "runs"; id; "stream"]), (Hs ["api"; "office"; "rooms"; id; "stream"]);
    try done; try (repeat constructor; done).
  destruct id as [|x id]; [done|]. split; rewrite first_match_fits; vm_compute; reflexivity.
Qed.

(** An id is put into a path as it is, and a URL resolves its dots: of the room [..], which the
    address bar can name, the artifacts are asked for under another path, and the request ends at
    the catch-all of the client's pages, which has nothing there. *)
Theorem dotted_room_misrouted {F : Framework} rq :
  route (getRoomArtifacts "..") = Some rq →
  url_path (rq_path rq) = "/api/office/artifacts"%js ∧
  fw_dispatch fastapi_app GET (url_path (rq_path rq)) = Some (app_spa, ["api/office/artifacts" : jsstr]).
Proof.
  intros [= <-]. split; [vm_compute; reflexivity|]. rewrite fw_first. vm_compute. reflexivity.
Qed.

(** ** Theorems: bodies *)

Lemma jstrs_strs l : forallb is_str (map JStr l) = true.
Proof. induction l; cbn; auto. Qed.

Lemma payload_taken c rq : route c = Some rq → body_taken (signature (handler_of c)) (rq_body rq) = true.
Proof.
  intros H. destruct c; cbn [route] in H; try (apply bind_Some in H as (e & _ & H));
    injection H as <-; cbn [rq_body handler_of signature]; try reflexivity.
  - unfold spec_json. cbn. rewrite jstrs_strs. destruct (sp_persona spec), (sp_web_search spec); reflexivity.
  - destruct coordinatorId, teamTaskCapUsd, teamTaskAutoConfirm; reflexivity.
  - cbn. by rewrite jstrs_strs.
  - cbn. by rewrite jstrs_strs.
  - cbn. by rewrite jstrs_strs.
Qed.

(** C17: What a handler reads from the body is what the call carries.  The text the client puts on
    the wire parses as the payload of the call, with nothing lost or altered by quoting, provided
    its strings are of UTF-16 units and its numbers are doubles that their texts name; and the
    payload fits the handler's declared body: every required member is present, and no member is
    of a type it refuses or one it does not read. *)
Theorem bodies_arrive c rq :
  route c = Some rq → (∀ v, rq_body rq = Some v → json_ok v) →
  (t ← body_text rq; json_parse t) = rq_body rq ∧
  (body_text rq = None ↔ rq_body rq = None) ∧
  body_taken (signature (handler_of c)) (t ← body_text rq; json_parse t) = true.
Proof.
  intros H Hok. pose proof (payload_taken c rq H) as Ht. unfold body_text.
  destruct (rq_body rq) as [v|]; [|done].
  change (t ← json_text <$> Some v; json_parse t) with (json_parse (json_text v)).
  rewrite (parse_text v) by auto. done.
Qed.

Lemma bodies_arrive_witness :
  let rq := {| rq_method := POST; rq_path := "/api/ops/chat";
               rq_body := Some (JObj [("message", JStr (cat ["dừng "; dq; "pm"; dq; [10]]))]) |} in
  (t ← body_text rq; json_parse t) = rq_body rq ∧
  (body_text rq = None ↔ rq_body rq = None) ∧
  body_taken (signature chat_ops_chat) (t ← body_text rq; json_parse t) = true.
Proof.
  apply (bodies_arrive (opsChat (cat ["dừng "; dq; "pm"; dq; [10]]))); [vm_compute; reflexivity|].
  intros v [= <-]. repeat constructor; apply (bool_decide_unpack _); vm_compute; exact I.
Defined.

(** ** Theorems: the session gate *)

(** The calls whose path begins with a public prefix.  [getMemory] is one of them: the prefix
    "/api/me", meant for the session probe, is also a prefix of "/api/memory/" (and not of what
    "/api/memory/.." is resolved to). *)
Definition ungated (c : call) : bool :=
  match c with
  | login _ _ | logout | getMe | setupStatus => true
  | getMemory id _ => negb (bool_decide (id = ".."%js))
  | _ => false
  end.

(** One segment of a path, resolved. *)
Lemma resolve_step acc s r : dots s = false → r ≠ [] → resolve_dots acc (s :: r) = resolve_dots (s :: acc) r.
Proof.
  intros H Hr. cbn [resolve_dots]. unfold dots in *. apply orb_false_iff in H as [-> ->]. by destruct r.
Qed.
Lemma resolve_last acc s : dots s = false → resolve_dots acc [s] = rev (s :: acc).
Proof. intros H. exact (resolve_no_dots acc [s] ltac:(by repeat constructor)). Qed.
Lemma resolve_here acc r : r ≠ [] → resolve_dots acc ("."%js :: r) = resolve_dots acc r.
Proof. by destruct r. Qed.
Lemma resolve_up acc r : r ≠ [] → resolve_dots acc (".."%js :: r) = resolve_dots (tail acc) r.
Proof. by destruct r. Qed.

(** No number begins as the rest of a public prefix does. *)
Lemma dispatch_number t r : numeral t → dispatch true None ("/api/" ++ t ++ r) = Unauthorized.
Proof.
  intros [_ (c & s & -> & _ & _ & Hc)].
  assert (∀ p d q, 91 ≤ d → p = "/api/" ++ d :: q → starts_with p ("/api/" ++ (c :: s) ++ r) = false) as Hd.
  { intros p d q Hd ->. change ((d =? c) && starts_with q (s ++ r) = false).
    by rewrite (proj2 (Z.eqb_neq d c)) by lia. }
  unfold dispatch, PUBLIC_PREFIXES. cbn [negb existsb truthy_opt].
  rewrite (Hd "/api/login" 108 "ogin"), (Hd "/api/logout" 108 "ogout"), (Hd "/api/me" 109 "e"),
    (Hd "/api/setup/status" 115 "etup/status") by (done || lia).
  reflexivity.
Qed.

Lemma dispatch_call c rq :
  route c = Some rq → unescaped_ids c →
  dispatch true None (url_path (rq_path rq)) = if ungated c then Next else Unauthorized.
Proof.
  intros H Hc. rewrite (call_path c rq H Hc). clear H rq.
  assert (∀ n, dots (id_text n) = false) as Hn by (intros n; by destruct (id_text_clean n) as (_ & _ & ?)).
  assert (∀ s, plain_id s ∧ s ≠ [] → s = "."%js ∨ s = ".."%js ∨ dots s = false) as Ht.
  { intros s [Hs _]. destruct (dots s) eqn:Ed; [|by right; right].
    destruct (plain_dots s Hs Ed) as [->| ->]; auto. }
  unfold unescaped_ids in Hc.
  destruct c; cbn [ids_of params_of] in *;
    try (apply Forall_cons_1 in Hc as [[->|[->|Hd]]%Ht _]);
    match goal with |- context [template ?h] =>
      let t := eval vm_compute in (template h) in change (template h) with t end;
    cbn [fill tail];
    repeat match goal with d : knowledge_doc |- _ => destruct d end;
    repeat first [ rewrite resolve_here by done | rewrite resolve_up by done
                 | rewrite resolve_step by (done || apply Hn || exact Hd)
                 | rewrite resolve_last by (done || apply Hn || exact Hd) ];
    clear Hn Ht;
    try match goal with |- context [cancelTask ".." ?n] =>
      exact (dispatch_number (id_text n) "/cancel" (id_text_numeral n)) end;
    try match goal with |- context [ungated (getMemory ?i _)] =>
      is_var i; cbn [ungated]; rewrite (bool_decide_false (i = ".."%js)) by (intros ->; by vm_compute in Hd) end;
    any_number; vm_compute; reflexivity.
Qed.

(** C18: When the session has expired every call of the client but five is answered by the gate
    and turned into the login screen, whatever the handlers behind the gate would answer: the
    call rejects as unauthorised and notifies the shell.  The five are the ones whose path begins
    with a public prefix: logging in and out, the session probe, the state of the setup, and,
    because the prefix of the probe is also a prefix of its path, the memory of an agent, which
    the server hands out without a session (for any id but [..], which the URL resolves away).
    The ids are not empty and of unescaped characters. *)
Theorem expired_session_leads_to_login shell inner c rq :
  route c = Some rq → unescaped_ids c →
  perform (gated true None shell inner) c = if ungated c then perform inner c else Some unauthorized.
Proof.
  intros H Hc. unfold perform. rewrite H. cbn [mbind option_bind]. unfold gated.
  rewrite (dispatch_call c rq H Hc). destruct (ungated c) eqn:Eu; [done|]. f_equal.
  destruct (rq_method rq); try reflexivity; unfold mutate;
    (rewrite bool_decide_false; [reflexivity|]); intros E;
    apply (route_login c rq H) in E; by destruct c.
Qed.

Lemma expired_session_leads_to_login_witness :
  perform (gated true None (FetchFails []) (λ _, Responds 200 (inl (JObj [])))) (getMemory "pm" "internal") =
    perform (λ _, Responds 200 (inl (JObj []))) (getMemory "pm" "internal").
Proof.
  apply (expired_session_leads_to_login (FetchFails []) (λ _, Responds 200 (inl (JObj [])))
    (getMemory "pm" "internal")
    {| rq_method := GET; rq_path := "/api/memory/pm?audience=internal"; rq_body := None |});
    [vm_compute; reflexivity|].
  constructor; [split; [repeat constructor|discriminate]|constructor].
Defined.

(** With a session, or with authentication off, the gate changes nothing. *)
Lemma open_session_passes enabled user shell inner rq :
  enabled = false ∨ truthy_opt user = true → gated enabled user shell inner rq = inner rq.
Proof.
  intros H. unfold gated, dispatch. destruct enabled; [|done]. destruct H as [|H]; [done|].
  rewrite H. cbn. by destruct (_ || _).
Qed.

(** The probe is registered on the application after the catch-all, which takes its path: a
    request of /health is answered with the page of the client. *)
Lemma health_is_shadowed {F : Framework} :
  fw_dispatch fastapi_app GET (url_path "/health") = Some (app_spa, ["health" : jsstr]).
Proof. rewrite fw_first. vm_compute. reflexivity. Qed.
