(* ===== verification/Auth.v ===== *)
(** Logging in on the server (src/server/auth.py): the check of the credentials and the limit on
    failed attempts.  The handler waits for the body of the request between the limit and the
    check, so an attempt is two steps and other attempts can come between them.  The password
    check and the text of a value that is no string are arguments; instants are integers of the
    clock's unit, sixty seconds being [LOGIN_WINDOW]. *)

From S2P Require Import Prelude JsNumber Types Json React ApiClient.

Definition LOGIN_MAX : nat := 5.
Definition LOGIN_WINDOW : Z := 60000000.                (* microseconds *)

(** ** The limit *)

(** [_login_attempts]: the instants of the failed attempts of each address. *)
Definition attempts : Type := gmap jsstr (list Z).
Definition attempts_of (ip : jsstr) (m : attempts) : list Z := default [] (m !! ip).

Definition recent (now : Z) (l : list Z) : list Z := List.filter (λ t, now - t <? LOGIN_WINDOW) l.

(** [_rate_limited]: the old attempts are forgotten on the way. *)
Definition rate_limited (ip : jsstr) (now : Z) (m : attempts) : bool * attempts :=
  let l := recent now (attempts_of ip m) in
  (Nat.leb LOGIN_MAX (length l), <[ip := l]> m).
(** [_record_attempt]. *)
Definition record_attempt (ip : jsstr) (now : Z) (m : attempts) : attempts :=
  <[ip := attempts_of ip m ++ [now]]> m.

(** ** The handler *)

(** What the server answers; [Crashed] is an exception of the handler's own. *)
Inductive login_answer :=
| Accepted (session : option jsstr)                    (* the user put in the session *)
| TooMany                                               (* 429 *)
| NotJson                                               (* 400 *)
| Wrong                                                 (* 401 *)
| Crashed.

Section Login.
Context (auth_enabled : bool) (expected_user : jsstr).
Context (verify : jsstr → bool).                        (* _verify(password, hashed) *)
Context (py_str : json → jsstr).                        (* str(v) *)
Context (py_truthy : json → bool).

(** Up to the wait: an answer, or none yet. *)
Definition login_begin (ip : jsstr) (now : Z) (m : attempts) : option login_answer * attempts :=
  if negb auth_enabled then (Some (Accepted None), m)
  else let '(limited, m') := rate_limited ip now m in
       (if limited then Some TooMany else None, m').

(** [str(body.get(k) or "")]. *)
Definition body_text_of (k : jsstr) (body : json) : jsstr :=
  match json_get k body with Some v => if py_truthy v then py_str v else "" | None => "" end.

(** After it, with the body as JSON if it is. *)
Definition login_end (ip : jsstr) (now : Z) (body : option json) (m : attempts) :
    login_answer * attempts :=
  match body with
  | None => (NotJson, m)
  | Some (JObj _ as v) =>
      let username := body_text_of "username" v in
      if bool_decide (username = expected_user) && verify (body_text_of "password" v)
      then (Accepted (Some username), m)
      else (Wrong, record_attempt ip now m)
  | Some _ => (Crashed, m)
  end.

(** ** Attempts in sequence, and interleaved *)

(** One attempt: where it comes from, when it arrives and when its body is there. *)
Record attempt := { at_ip : jsstr; at_arrives : Z; at_reads : Z; at_body : option json }.

Definition login_attempt (x : attempt) (m : attempts) : login_answer * attempts :=
  match login_begin (at_ip x) (at_arrives x) m with
  | (Some a, m') => (a, m')
  | (None, m') => login_end (at_ip x) (at_reads x) (at_body x) m'
  end.

(** Each attempt is over before the next arrives. *)
Fixpoint logins (l : list attempt) (m : attempts) : list (attempt * login_answer) * attempts :=
  match l with
  | [] => ([], m)
  | x :: l =>
      let '(a, m1) := login_attempt x m in
      let '(r, m2) := logins l m1 in ((x, a) :: r, m2)
  end.

(** The steps of attempts that overlap: the waiting ones are kept in a list. *)
Inductive attempt_event := Arrives (x : attempt) | BodyRead (n : nat).

Record login_server := { ls_attempts : attempts; ls_waiting : list attempt;
                         ls_answers : list (attempt * login_answer) }.

Definition login_step (e : attempt_event) (s : login_server) : login_server :=
  match e with
  | Arrives x =>
      match login_begin (at_ip x) (at_arrives x) (ls_attempts s) with
      | (Some a, m) => {| ls_attempts := m; ls_waiting := ls_waiting s;
                          ls_answers := ls_answers s ++ [(x, a)] |}
      | (None, m) => {| ls_attempts := m; ls_waiting := ls_waiting s ++ [x];
                        ls_answers := ls_answers s |}
      end
  | BodyRead n =>
      match ls_waiting s !! n with
      | Some x =>
          let '(a, m) := login_end (at_ip x) (at_reads x) (at_body x) (ls_attempts s) in
          {| ls_attempts := m; ls_waiting := delete n (ls_waiting s);
             ls_answers := ls_answers s ++ [(x, a)] |}
      | None => s
      end
  end.

(** ** Theorems: the limit *)

(** The refused passwords of an address, by the instant of their refusal. *)
Definition refused (ip : jsstr) (r : list (attempt * login_answer)) : list Z :=
  omap (λ xa, match snd xa with
              | Wrong => if bool_decide (at_ip (fst xa) = ip) then Some (at_reads (fst xa)) else None
              | _ => None
              end) r.
Definition in_window (s : Z) (t : Z) : bool := (s <=? t) && (t <? s + LOGIN_WINDOW).

(** The attempts follow each other from the instant [t] on. *)
Fixpoint in_order (t : Z) (l : list attempt) : Prop :=
  match l with
  | [] => True
  | x :: l => t ≤ at_arrives x ∧ at_arrives x ≤ at_reads x ∧ in_order (at_reads x) l
  end.

(** *** The limit remembers *)

(** What the server keeps of an address's refusals [past], as far as instants from [now] on can
    tell. *)
Definition remembers (ip : jsstr) (now : Z) (m : attempts) (past : list Z) : Prop :=
  ∀ now', now ≤ now' → recent now' (attempts_of ip m) = recent now' past.

Lemma recent_recent now now' l : now ≤ now' → recent now' (recent now l) = recent now' l.
Proof.
  intros H. unfold recent. induction l as [|t l IH]; [done|]. cbn.
  destruct (Z.ltb_spec (now - t) LOGIN_WINDOW) as [H1|H1]; cbn; rewrite IH; [done|].
  by destruct (Z.ltb_spec (now' - t) LOGIN_WINDOW); [lia|].
Qed.
Lemma recent_app now l1 l2 : recent now (l1 ++ l2) = recent now l1 ++ recent now l2.
Proof. apply List.filter_app. Qed.
Lemma attempts_insert ip ip' l (m : attempts) :
  attempts_of ip (<[ip' := l]> m) = if bool_decide (ip' = ip) then l else attempts_of ip m.
Proof.
  unfold attempts_of, attempts in *. case_bool_decide as H; [by rewrite H, lookup_insert_eq|by rewrite lookup_insert_ne].
Qed.

Lemma attempts_none ip : attempts_of ip ∅ = [].
Proof. unfold attempts_of, attempts. by rewrite lookup_empty. Qed.

Lemma remembers_limited ip ip' now a m past :
  remembers ip now m past → now ≤ a → remembers ip a (snd (rate_limited ip' a m)) past.
Proof.
  intros H Ha now' Hn. cbn. rewrite attempts_insert. case_bool_decide as E; [subst ip'|apply H; lia].
  rewrite recent_recent by done. apply H. lia.
Qed.
Lemma remembers_record ip ip' now f m past :
  remembers ip now m past → now ≤ f →
  remembers ip f (record_attempt ip' f m) (if bool_decide (ip' = ip) then past ++ [f] else past).
Proof.
  intros H Hf now' Hn. unfold record_attempt. rewrite attempts_insert.
  case_bool_decide as E; [subst ip'|apply H; lia].
  rewrite !recent_app, H by lia. done.
Qed.

(** A step of one attempt, as the limit sees it. *)
Lemma login_remembers ip now x m past :
  remembers ip now m past → now ≤ at_arrives x → at_arrives x ≤ at_reads x →
  let '(a, m') := login_attempt x m in
  let new := refused ip [(x, a)] in
  remembers ip (at_reads x) m' (past ++ new) ∧
  (new = [] ∨ new = [at_reads x] ∧ (length (recent (at_arrives x) past) < LOGIN_MAX)%nat).
Proof.
  intros H Ha Hf. unfold login_attempt, login_begin.
  assert (∀ m', remembers ip (at_arrives x) m' past → remembers ip (at_reads x) m' (past ++ [])) as Hk
    by (intros m' Hm now' Hn; rewrite app_nil_r; apply Hm; lia).
  destruct auth_enabled; cbn [negb].
  2: { split; [|by left]. apply Hk. intros now' Hn. apply H. lia. }
  pose proof (remembers_limited ip (at_ip x) now (at_arrives x) m past H Ha) as Hm.
  unfold rate_limited in *. cbn [snd] in Hm.
  destruct (Nat.leb LOGIN_MAX (length (recent (at_arrives x) (attempts_of (at_ip x) m)))) eqn:El.
  { split; [by apply Hk|by left]. }
  apply Nat.leb_gt in El. set (m' := <[at_ip x := _]> m) in *. unfold login_end.
  destruct (at_body x) as [[| | | | |o]|]; try (split; [by apply Hk|by left]).
  destruct (bool_decide _ && _); [split; [by apply Hk|by left]|].
  pose proof (remembers_record ip (at_ip x) (at_arrives x) (at_reads x) m' past Hm Hf) as Hr.
  unfold refused. cbn [omap list_omap fst snd]. case_bool_decide as E.
  - split; [exact Hr|right]. split; [done|]. rewrite <- (H (at_arrives x) Ha), <- E. done.
  - split; [by rewrite app_nil_r|by left].
Qed.

Lemma window_recent s a past :
  a < s + LOGIN_WINDOW →
  (length (List.filter (in_window s) past) ≤ length (recent a past))%nat.
Proof.
  intros Ha. unfold recent, in_window. induction past as [|t past IH]; [done|]. cbn.
  destruct (Z.leb_spec s t); cbn [andb]; destruct (Z.ltb_spec (a - t) LOGIN_WINDOW);
    try destruct (Z.ltb_spec t (s + LOGIN_WINDOW)); cbn; lia.
Qed.

Lemma logins_capped ip t l m past :
  in_order t l → remembers ip t m past →
  (∀ s, (length (List.filter (in_window s) past) ≤ LOGIN_MAX)%nat) →
  ∀ s, (length (List.filter (in_window s) (past ++ refused ip (fst (logins l m)))) ≤ LOGIN_MAX)%nat.
Proof.
  revert t m past. induction l as [|x l IH]; intros t m past Ho Hm Hp s.
  { cbn. rewrite app_nil_r. apply Hp. }
  destruct Ho as (Ha & Hf & Ho). cbn [logins].
  pose proof (login_remembers ip t x m past Hm Ha Hf) as H. destruct (login_attempt x m) as [a m'].
  destruct H as [H Hn]. specialize (IH _ m' _ Ho H). destruct (logins l m') as [r m2].
  cbn [fst] in *. replace (refused ip ((x, a) :: r)) with (refused ip [(x, a)] ++ refused ip r)
    by (unfold refused; cbn; by destruct (match a with Wrong => _ | _ => _ end)).
  rewrite app_assoc. apply IH. clear IH s. intros s.
  destruct Hn as [-> |[-> Hlt]]; [rewrite app_nil_r; apply Hp|].
  rewrite List.filter_app, length_app. cbn [List.filter].
  unfold in_window at 2. destruct (Z.leb_spec s (at_reads x)); cbn [andb];
    [|specialize (Hp s); cbn; lia].
  destruct (Z.ltb_spec (at_reads x) (s + LOGIN_WINDOW)); [|specialize (Hp s); cbn; lia].
  pose proof (window_recent s (at_arrives x) past ltac:(lia)). cbn. lia.
Qed.

(** C22: Guessing passwords is capped.  When attempts do not overlap, no address gets more than
    five of them refused within any sixty seconds, whatever the attempts are and wherever they
    come from: the rest are turned away unchecked. *)
Theorem refusals_capped ip t l s :
  in_order t l →
  (length (List.filter (in_window s) (refused ip (fst (logins l ∅)))) ≤ LOGIN_MAX)%nat.
Proof.
  intros Ho. apply (logins_capped ip t l ∅ []); [done| |].
  - intros now' _. by rewrite attempts_none.
  - intros s'. cbn. lia.
Qed.

(** *** Overlapping attempts *)

(** The attempt is refused when it is checked. *)
Definition guess (x : attempt) : Prop := ∀ m, fst (login_end (at_ip x) (at_reads x) (at_body x) m) = Wrong.

Definition serve (l : list attempt_event) (s : login_server) : login_server := foldl (λ s e, login_step e s) s l.

(** No address has failed yet. *)
Definition fresh (m : attempts) : Prop := ∀ ip, attempts_of ip m = [].

Lemma arrivals l m w r :
  auth_enabled = true → fresh m →
  ∃ m', serve (map Arrives l) {| ls_attempts := m; ls_waiting := w; ls_answers := r |} =
    {| ls_attempts := m'; ls_waiting := w ++ l; ls_answers := r |}.
Proof.
  intros He. revert m w. induction l as [|x l IH]; intros m w Hm; cbn.
  { exists m. by rewrite app_nil_r. }
  unfold login_begin, rate_limited. rewrite He, Hm. cbn [negb recent List.filter length Nat.leb LOGIN_MAX].
  destruct (IH (<[at_ip x := []]> m) (w ++ [x])) as [m' E].
  { intros ip. rewrite attempts_insert. case_bool_decide; [done|apply Hm]. }
  exists m'. unfold serve in E. by rewrite <- app_assoc in E.
Qed.

Lemma bodies l m r :
  Forall guess l →
  ls_answers (serve (replicate (length l) (BodyRead 0))
    {| ls_attempts := m; ls_waiting := l; ls_answers := r |}) = r ++ map (λ x, (x, Wrong)) l.
Proof.
  intros H. revert m r. induction H as [|x l Hx _ IH]; intros m r; cbn; [by rewrite app_nil_r|].
  specialize (Hx m). destruct (login_end _ _ _ m) as [a m']. cbn in Hx. subst a.
  unfold serve in IH. rewrite IH. by rewrite <- app_assoc.
Qed.

(** The cap does not hold for attempts that overlap.  However many guesses arrive before the body
    of the first has been read, from one address or several: every one of them is checked, none
    is turned away. *)
Theorem overlapping_guesses_checked l :
  auth_enabled = true → Forall guess l →
  ls_answers (serve (map Arrives l ++ replicate (length l) (BodyRead 0))
    {| ls_attempts := ∅; ls_waiting := []; ls_answers := [] |}) = map (λ x, (x, Wrong)) l.
Proof.
  intros He Hl. unfold serve. rewrite foldl_app.
  destruct (arrivals l ∅ [] [] He) as [m' E]; [exact attempts_none|].
  unfold serve in E. rewrite E. apply (bodies l m' [] Hl).
Qed.
End Login.

(** Seven guesses of one address within a minute: one second apart, and all at once. *)
Definition a_guess (t : Z) : attempt :=
  {| at_ip := "10.0.0.9"; at_arrives := t; at_reads := t + 1;
     at_body := Some (JObj [("username", JStr "admin"); ("password", JStr "x")]) |}.
Definition seven : list attempt := map (λ i, a_guess (i * 1000000)) [0; 1; 2; 3; 4; 5; 6].
Definition demo_verify (p : jsstr) : bool := bool_decide (p = "secret"%js).
Definition demo_str (v : json) : jsstr := match v with JStr s => s | _ => [] end.

Lemma refusals_capped_witness :
  (length (List.filter (in_window 0)
     (refused "10.0.0.9" (fst (logins true "admin" demo_verify demo_str json_truthy seven ∅)))) ≤ 5)%nat.
Proof.
  apply (refusals_capped true "admin" demo_verify demo_str json_truthy "10.0.0.9" 0 seven 0).
  repeat (split; [apply (bool_decide_unpack _); vm_compute; exact I|]). exact I.
Defined.

(** In sequence five are checked and two turned away; overlapping, all seven are checked. *)
Lemma seven_guesses :
  map snd (fst (logins true "admin" demo_verify demo_str json_truthy seven ∅)) =
    replicate 5 Wrong ++ [TooMany; TooMany] ∧
  map snd (ls_answers (serve true "admin" demo_verify demo_str json_truthy
    (map Arrives seven ++ replicate 7 (BodyRead 0))
    {| ls_attempts := ∅; ls_waiting := []; ls_answers := [] |})) = replicate 7 Wrong.
Proof. split; vm_compute; reflexivity. Qed.
