(* ===== verification/Streams.v ===== *)
(** The event streams of the client: the office room stream (hooks/use-office-stream.ts) and
    the progress stream of a run (hooks/use-sse.ts).

    The state of a hook is its [useState] cells, its refs and the [EventSource] it holds, given
    by its URL.  An event source that was closed, or never opened, delivers nothing. *)

From S2P Require Import Prelude Uri React Types ApiClient.

(** ** useOfficeStream *)

Record office_stream := {
  os_room : option jsstr;           (* the argument roomId *)
  os_source : option jsstr;         (* the URL of the open event source *)
  os_messages : list OfficeMessage;
  os_connected : bool;
  os_errored : bool;
  os_seen : gset Z                  (* the ref seenSeqs *)
}.

(** [StreamFrame None] is a frame that [JSON.parse] or the access to [seq] rejects. *)
Inductive stream_event :=
| StreamRoom (roomId : option jsstr)
| StreamOpen
| StreamFrame (m : option OfficeMessage)
| StreamError.

Definition no_stream : office_stream :=
  {| os_room := None; os_source := None; os_messages := []; os_connected := false;
     os_errored := false; os_seen := ∅ |}.

(** The cleanup of the effect: an effect that opened no source left none. *)
Definition stream_cleanup (s : office_stream) : office_stream :=
  match os_source s with
  | None => s
  | Some _ => {| os_room := os_room s; os_source := None; os_messages := os_messages s;
                 os_connected := false; os_errored := os_errored s; os_seen := os_seen s |}
  end.

(** The effect on a new room id.  The state is reset before the URL is built; when the id has
    no encoding the effect throws there. *)
Definition stream_effect (roomId : option jsstr) (s : office_stream) : office_stream :=
  match present roomId with
  | None => {| os_room := roomId; os_source := None; os_messages := os_messages s;
               os_connected := os_connected s; os_errored := os_errored s;
               os_seen := os_seen s |}
  | Some r =>
      {| os_room := roomId;
         os_source := option_map (λ e, cat ["/api/office/rooms/"; e; "/stream"])
                        (encodeURIComponent r);
         os_messages := []; os_connected := false; os_errored := false; os_seen := ∅ |}
  end.

Definition with_connection (connected errored : bool) (s : office_stream) : office_stream :=
  {| os_room := os_room s; os_source := os_source s; os_messages := os_messages s;
     os_connected := connected; os_errored := errored; os_seen := os_seen s |}.

(** [es.onmessage]: a sequence number seen before is dropped. *)
Definition stream_message (m : OfficeMessage) (s : office_stream) : office_stream :=
  if decide (om_seq m ∈ os_seen s) then s
  else {| os_room := os_room s; os_source := os_source s; os_messages := os_messages s ++ [m];
          os_connected := os_connected s; os_errored := os_errored s;
          os_seen := {[om_seq m]} ∪ os_seen s |}.

Definition stream_step (s : office_stream) (e : stream_event) : office_stream :=
  match e with
  | StreamRoom r =>
      if decide (r = os_room s) then s else stream_effect r (stream_cleanup s)
  | StreamOpen => if os_source s then with_connection true (os_errored s) s else s
  | StreamFrame (Some m) => if os_source s then stream_message m s else s
  | StreamFrame None => s
  | StreamError => if os_source s then with_connection false true s else s
  end.

Definition stream_mount (roomId : option jsstr) : office_stream := stream_effect roomId no_stream.
Definition stream_run (roomId : option jsstr) (es : list stream_event) : office_stream :=
  foldl stream_step (stream_mount roomId) es.

(** ** useSse *)

(** A frame of a run's stream: text that is no JSON, or a JSON value. *)
Inductive sse_frame := BadFrame | GoodFrame (v : json).

Record sse := {
  sse_run : option jsstr;
  sse_open : bool;                  (* the event source is open *)
  sse_events : list json;
  sse_done : bool;
  sse_errored : bool;
  sse_terminated : bool             (* the variable [terminated] of the effect *)
}.

Inductive sse_event := SseRun (runId : option jsstr) | SseFrame (f : sse_frame) | SseDrop.

Definition sse_effect (runId : option jsstr) (s : sse) : sse :=
  match present runId with
  | None => {| sse_run := runId; sse_open := false; sse_events := sse_events s;
               sse_done := sse_done s; sse_errored := sse_errored s;
               sse_terminated := sse_terminated s |}
  | Some _ => {| sse_run := runId; sse_open := true; sse_events := []; sse_done := false;
                 sse_errored := false; sse_terminated := false |}
  end.

(** [parsed.event === 'terminal'], which throws on [null] and is false on other non-objects. *)
Definition is_terminal (v : json) : bool :=
  match json_get "event" v with
  | Some (JStr e) => bool_decide (e = "terminal")
  | _ => false
  end.

Definition sse_message (v : json) (s : sse) : sse :=
  let t := is_terminal v in
  {| sse_run := sse_run s; sse_open := if t then false else sse_open s;
     sse_events := sse_events s ++ [v]; sse_done := if t then true else sse_done s;
     sse_errored := sse_errored s; sse_terminated := if t then true else sse_terminated s |}.

Definition sse_drop (s : sse) : sse :=
  {| sse_run := sse_run s; sse_open := false; sse_events := sse_events s; sse_done := true;
     sse_errored := if sse_terminated s then sse_errored s else true;
     sse_terminated := sse_terminated s |}.

Definition sse_step (s : sse) (e : sse_event) : sse :=
  match e with
  | SseRun r => if decide (r = sse_run s) then s else sse_effect r s
  | SseFrame (GoodFrame v) => if sse_open s then sse_message v s else s
  | SseFrame BadFrame => s
  | SseDrop => if sse_open s then sse_drop s else s
  end.

Definition no_sse : sse :=
  {| sse_run := None; sse_open := false; sse_events := []; sse_done := false;
     sse_errored := false; sse_terminated := false |}.
Definition sse_run_events (runId : option jsstr) (es : list sse_event) : sse :=
  foldl sse_step (sse_effect runId no_sse) es.

(** ** Specification of the office stream *)

(** The messages delivered by a list of events of one room. *)
Definition frames (es : list stream_event) : list OfficeMessage :=
  omap (λ e, match e with StreamFrame m => m | _ => None end) es.

(** The first message of each sequence number, in order. *)
Fixpoint firsts (seen : gset Z) (l : list OfficeMessage) : list OfficeMessage :=
  match l with
  | [] => []
  | m :: r => if decide (om_seq m ∈ seen) then firsts seen r
              else m :: firsts ({[om_seq m]} ∪ seen) r
  end.

Definition same_room (e : stream_event) : Prop := match e with StreamRoom _ => False | _ => True end.

(** ** Theorems: the office stream *)

Lemma firsts_NoDup seen l :
  NoDup (map om_seq (firsts seen l)) ∧ ∀ m, m ∈ firsts seen l → om_seq m ∉ seen.
Proof.
  revert seen. induction l as [|m l IH]; intros seen; cbn; [split; [constructor|set_solver]|].
  destruct (decide (om_seq m ∈ seen)); [apply IH|].
  destruct (IH ({[om_seq m]} ∪ seen)) as [H1 H2]. split; cbn.
  - constructor; [|done]. intros (m' & E & Hm')%list_elem_of_fmap. apply H2 in Hm'. set_solver.
  - intros m' [->|Hm']%elem_of_cons; [done|]. apply H2 in Hm'. set_solver.
Qed.

Lemma firsts_complete seen l m :
  m ∈ l → om_seq m ∈ seen ∨ ∃ m', m' ∈ firsts seen l ∧ om_seq m' = om_seq m.
Proof.
  revert seen. induction l as [|x l IH]; intros seen Hm; [set_solver|]. cbn.
  apply elem_of_cons in Hm as [->|Hm].
  - destruct (decide (om_seq x ∈ seen)); [by left|]. right. exists x. split; [by left|done].
  - destruct (decide (om_seq x ∈ seen)); [by apply IH|].
    destruct (IH ({[om_seq x]} ∪ seen) Hm) as [H|(m' & H & E)].
    + apply elem_of_union in H as [->%elem_of_singleton|?]; [|by left].
      right. exists x. split; [by left|done].
    + right. exists m'. split; [by right|done].
Qed.

Lemma stream_fold s es :
  is_Some (os_source s) → Forall same_room es →
  let s' := foldl stream_step s es in
  os_room s' = os_room s ∧ os_source s' = os_source s ∧
  os_messages s' = os_messages s ++ firsts (os_seen s) (frames es).
Proof.
  revert s. induction es as [|e es IH]; intros s [u Hu] He; cbn;
    [by rewrite app_nil_r|]. inversion He as [|? ? H1 H2]; subst.
  destruct e as [r| |[m|]|]; [done|..]; cbn; rewrite ?Hu.
  - destruct (IH (with_connection true (os_errored s) s) ltac:(eauto) H2) as (-> & -> & ->).
    done.
  - unfold stream_message. destruct (decide (om_seq m ∈ os_seen s)); cbn.
    + destruct (IH s ltac:(eauto) H2) as (-> & -> & ->). done.
    + match goal with |- context [foldl stream_step ?s0 es] =>
        destruct (IH s0 ltac:(cbn; eauto) H2) as (-> & -> & ->) end.
      cbn. by rewrite <- app_assoc.
  - destruct (IH s ltac:(eauto) H2) as (-> & -> & ->). done.
  - destruct (IH (with_connection false true s) ltac:(eauto) H2) as (-> & -> & ->). done.
Qed.

(** C30: The timeline of a room is its stream without duplicates.  After any events of the source
    (frames, malformed frames, drops, reconnects that replay the room), the messages are exactly
    the first message of each sequence number delivered since the room was selected, in order of
    arrival: nothing twice, nothing lost, nothing of the room shown before. *)
Theorem timeline_is_stream room r u before es :
  present (Some room) = Some r → encodeURIComponent r = Some u → Forall same_room es →
  os_room (stream_run None before) ≠ Some room →
  let s := foldl stream_step (stream_run None (before ++ [StreamRoom (Some room)])) es in
  os_messages s = firsts ∅ (frames es) ∧
  os_source s = Some (cat ["/api/office/rooms/"; u; "/stream"]) ∧
  NoDup (map om_seq (os_messages s)) ∧
  ∀ m, m ∈ frames es → ∃ m', m' ∈ os_messages s ∧ om_seq m' = om_seq m.
Proof.
  intros Hp He Hes Hne s.
  assert (stream_run None (before ++ [StreamRoom (Some room)]) =
    stream_effect (Some room) (stream_cleanup (stream_run None before))) as Hr.
  { unfold stream_run in *. rewrite foldl_app. cbn [foldl stream_step].
    rewrite decide_False; [done|]. intros E. by apply Hne. }
  unfold s. clear s. rewrite Hr. unfold stream_effect. rewrite Hp, He. cbn [option_map].
  match goal with |- context [foldl stream_step ?s0 es] =>
    destruct (stream_fold s0 es ltac:(cbn; eauto) Hes) as (_ & -> & ->) end.
  cbn. split; [done|]. split; [done|]. destruct (firsts_NoDup ∅ (frames es)) as [H1 _].
  split; [done|]. intros m Hm. by destruct (firsts_complete ∅ _ m Hm) as [?|?]; [set_solver|].
Qed.

Definition ping (n : Z) (text : jsstr) : OfficeMessage := Msg n "" "pm" (KOther text) empty_body.

Lemma timeline_is_stream_witness :
  let es := [StreamOpen; StreamFrame (Some (ping 1 "a")); StreamError; StreamOpen;
             StreamFrame (Some (ping 1 "b")); StreamFrame None; StreamFrame (Some (ping 2 "c"))] in
  let s := foldl stream_step (stream_run None ([] ++ [StreamRoom (Some ("t1" : jsstr))])) es in
  os_messages s = firsts ∅ (frames es) ∧
  os_source s = Some (cat ["/api/office/rooms/"; "t1"; "/stream"]) ∧
  NoDup (map om_seq (os_messages s)) ∧
  ∀ m, m ∈ frames es → ∃ m', m' ∈ os_messages s ∧ om_seq m' = om_seq m.
Proof.
  intros es s. apply (timeline_is_stream "t1" "t1" "t1" [] es);
    [done|vm_compute; reflexivity|repeat constructor|done].
Defined.

Lemma errored_stays s es :
  Forall same_room es → os_errored s = true → os_errored (foldl stream_step s es) = true.
Proof.
  revert s. induction es as [|e es IH]; intros s He Hs; cbn; [done|].
  inversion He; subst. apply IH; [done|].
  destruct e as [r| |[m|]|]; cbn; try done; destruct (os_source s); try done.
  unfold stream_message. by case_decide.
Qed.

(** An error of the stream is never withdrawn.  Once a connection has dropped, every later
    state of the same room reports the error, also when the source has reconnected and new
    messages arrive: the flags [connected] and [errored] are then both set, and the screen keeps
    saying that the connection is lost. *)
Theorem error_survives_reconnect s es :
  is_Some (os_source s) → Forall same_room es →
  let s' := foldl stream_step s ([StreamError; StreamOpen] ++ es) in
  os_errored s' = true ∧ (StreamError ∉ es → os_connected s' = true).
Proof.
  intros [u Hu] He s'. unfold s'. rewrite foldl_app. cbn. rewrite Hu. cbn. rewrite Hu. split.
  - by apply errored_stays.
  - set (s1 := with_connection true true _).
    assert (os_connected s1 = true) as Hc by done. clearbody s1. clear s'.
    revert s1 Hc. induction es as [|e es IH]; intros s1 Hc Hn; [done|].
    inversion He; subst. cbn. apply IH; [done| |set_solver].
    destruct e as [r| |[m|]|]; cbn; try done; [by destruct (os_source s1)| |set_solver].
    destruct (os_source s1); [|done]. unfold stream_message. by case_decide.
Qed.

Lemma error_survives_reconnect_witness :
  let s := stream_run (Some ("office" : jsstr)) [StreamOpen] in
  let es := [StreamFrame (Some (ping 1 "a"))] in
  let s' := foldl stream_step s ([StreamError; StreamOpen] ++ es) in
  os_errored s' = true ∧ (StreamError ∉ es → os_connected s' = true).
Proof.
  intros s es. apply error_survives_reconnect; [by eexists|repeat constructor].
Defined.

(** ** Theorems: the progress stream *)

Definition same_run (e : sse_event) : Prop := match e with SseRun _ => False | _ => True end.
Definition terminal_event (e : sse_event) : bool :=
  match e with SseFrame (GoodFrame v) => is_terminal v | _ => false end.
Definition ends_stream (e : sse_event) : bool :=
  match e with SseDrop => true | _ => terminal_event e end.

Lemma sse_closed s es : sse_open s = false → Forall same_run es → foldl sse_step s es = s.
Proof.
  revert s. induction es as [|e es IH]; intros s Hs He; [done|]. inversion He; subst. cbn.
  assert (sse_step s e = s) as -> by (destruct e as [r|[|v]|]; cbn; by rewrite ?Hs).
  by apply IH.
Qed.

(** An open stream is not done and not failed, and stays so until an event ends it. *)
Lemma sse_live s es :
  sse_open s = true → sse_done s = false → sse_errored s = false → sse_terminated s = false →
  Forall same_run es → Forall (λ e, ends_stream e = false) es →
  let s' := foldl sse_step s es in
  sse_open s' = true ∧ sse_done s' = false ∧ sse_errored s' = false ∧ sse_terminated s' = false.
Proof.
  revert s. induction es as [|e es IH]; intros s H1 H2 H3 H4 H5 H6; [done|].
  inversion H5; inversion H6; subst. cbn. apply IH; try done;
    destruct e as [r|[|v]|]; cbn in *; try done; rewrite H1; unfold sse_message; cbn;
    by match goal with H : is_terminal v = false |- _ => rewrite ?H end.
Qed.

(** A run is shown as failed exactly when its connection dropped first.  For the events of a
    run's stream up to and after the first one that ends it: before that event the hook is
    neither done nor failed; from it on it is done, and failed iff that event was a drop and not
    a terminal frame, whatever still follows. *)
Theorem run_failure_iff_dropped run es e rest :
  run ≠ [] → Forall same_run (es ++ e :: rest) →
  Forall (λ e, ends_stream e = false) es → ends_stream e = true →
  let before := sse_run_events (Some run) es in
  let after := sse_run_events (Some run) (es ++ e :: rest) in
  (sse_done before = false ∧ sse_errored before = false) ∧
  sse_done after = true ∧ (sse_errored after = true ↔ e = SseDrop).
Proof.
  intros Hrun Hs Hes He before after. apply Forall_app in Hs as [Hs1 Hs2].
  inversion Hs2 as [|? ? Hse Hs3]; subst.
  assert (sse_effect (Some run) no_sse = {| sse_run := Some run; sse_open := true;
    sse_events := []; sse_done := false; sse_errored := false; sse_terminated := false |}) as E0.
  { unfold sse_effect. cbn. by rewrite (proj2 (truthy_spec run) Hrun). }
  destruct (sse_live (sse_effect (Some run) no_sse) es) as (H1 & H2 & H3 & H4);
    try (rewrite E0; reflexivity); try done.
  split; [done|]. unfold after, sse_run_events. rewrite foldl_app. cbn.
  destruct e as [r|[|v]|]; [done|done|..]; cbn in He |- *; rewrite H1.
  - rewrite sse_closed; unfold sse_message; cbn; rewrite ?He; [|done..].
    rewrite H3. split; [done|]. split; discriminate.
  - rewrite sse_closed; unfold sse_drop; cbn; [|done..]. rewrite H4. done.
Qed.

Lemma run_failure_iff_dropped_witness :
  let frame := SseFrame (GoodFrame (JObj [("event", JStr "node")])) in
  let last := SseFrame (GoodFrame (JObj [("event", JStr "terminal")])) in
  let before := sse_run_events (Some ("r1" : jsstr)) [frame] in
  let after := sse_run_events (Some ("r1" : jsstr)) ([frame] ++ last :: [SseDrop]) in
  (sse_done before = false ∧ sse_errored before = false) ∧
  sse_done after = true ∧ (sse_errored after = true ↔ last = SseDrop).
Proof.
  intros frame last. apply (run_failure_iff_dropped "r1" [frame] last [SseDrop]);
    [done|repeat constructor|repeat constructor|vm_compute; reflexivity].
Defined.
