(* ===== verification/OfficeUnified.v ===== *)
(** The workroom office screen: views/office-unified/office-unified.tsx with the 3D canvas's
    desk list (office-3d/office-canvas.tsx), the health banner
    (office-unified/coordinator-health-banner.tsx) and the choice of the table in place of the
    canvas (office-3d/use-3d-fallback.ts). *)

From S2P Require Import Prelude JsNumber Uri React Types ApiClient OfficeState OfficeFeed Streams.

(** ** The fallback to a table *)

(** [MOBILE_UA_RE.test(ua)]: one of the words occurs, ASCII letters in any case. *)
Definition ascii_lower (s : jsstr) : jsstr :=
  map (λ c, if (65 <=? c) && (c <=? 90) then c + 32 else c) s.
Definition MOBILE_WORDS : list jsstr := ["android"; "iphone"; "ipad"; "ipod"; "mobile"].
Definition isMobileUserAgent (ua : option jsstr) : bool :=
  match ua with
  | None => false
  | Some s => existsb (λ w, includes w (ascii_lower s)) MOBILE_WORDS
  end.

(** The media query's answer; [None] without [window.matchMedia]. *)
Definition prefersReducedMotion (media : option bool) : bool := nullish media false.
Definition shouldUseFallback (media : option bool) (ua : option jsstr) : bool :=
  prefersReducedMotion media || isMobileUserAgent ua.

(** ** The desks of the canvas *)

(** [visible.indexOf(x)]; [None] for [-1]. *)
Fixpoint index_of (x : jsstr) (l : list jsstr) : option nat :=
  match l with
  | [] => None
  | y :: r => if decide (x = y) then Some O else option_map S (index_of x r)
  end.

(** One desk: its place in the ring of visible desks, the place of the colleague it walks to,
    and whether it is dimmed. *)
Record canvas_desk := {
  cd_id : jsstr;
  cd_index : nat;
  cd_desk : AgentDeskState;
  cd_consult : option nat;
  cd_dimmed : bool
}.

Definition canvas_desk_of (visible : list jsstr) (desks : desk_map) (dimmed : gset jsstr)
    (i : nat) (id : jsstr) : option canvas_desk :=
  d ← desks !! id;
  Some {| cd_id := id; cd_index := i; cd_desk := d;
          cd_consult := c ← present (d_consultWith d); index_of c visible;
          cd_dimmed := bool_decide (id ∈ dimmed) |}.

Definition canvas_desks (agentIds : list jsstr) (desks : desk_map)
    (rosterIds : option (list jsstr)) (dimmed : gset jsstr) : list canvas_desk :=
  let visible := visibleDesks agentIds rosterIds in
  omap id (imap (canvas_desk_of visible desks dimmed) visible).

Definition desk_node {E} (total : nat) (c : canvas_desk) : node E :=
  Comp "AgentDesk" [
    AStr "position" (cat [z_str (Z.of_nat (cd_index c)); "/"; z_str (Z.of_nat total)]);
    AStr "label" (cd_id c);
    AStr "consultPos" match cd_consult c with Some i => z_str (Z.of_nat i) | None => "" end;
    ABool "dimmed" (cd_dimmed c)].

Definition OfficeCanvas {E} (agentIds : list jsstr) (desks : desk_map)
    (rosterIds : option (list jsstr)) (dimmed : gset jsstr) : list (node E) :=
  [El "div" [AStr "className" "office-3d-canvas-wrap"] [
    El "Canvas" [] (
      [Comp "OfficeFloor" []; Comp "OfficeProps" []; Comp "CoordinatorDesk" []]
      ++ map (desk_node (length (visibleDesks agentIds rosterIds)))
           (canvas_desks agentIds desks rosterIds dimmed)
      ++ [Comp "OrbitControls" []])]].

(** ** The health banner *)

Definition health_banner {E} (health : option CoordinatorHealthPayload) : list (node E) :=
  match health with
  | None => []
  | Some h =>
      if ch_alive h then [] else
      match ch_reason h with
      | ReasonNoCoordinator =>
          [El "div" [AStr "className" "office-health-banner office-health-warn"] [
            Txt "Chưa cấu hình trưởng phòng (điều phối viên) — vào Cài đặt / Setup để chọn, đội chưa thể nhận việc."]]
      | _ =>
          [El "div" [AStr "className" "office-health-banner office-health-dead"] [
            Txt "Bộ điều phối chưa chạy — việc đã giao sẽ KHÔNG tiến triển. Khởi động bằng:";
            Txt " "; El "code" [] [Txt "uv run python -m src.runtime.service"];
            Txt " (hoặc cài dịch vụ nền theo mục A.2 của hướng dẫn)."]]
      end
  end.

(** ** The screen *)

Definition OFFICE_ROOM_ID : jsstr := "office".
Definition PANEL_COLLAPSE_KEY : jsstr := "office3dCollapsed".

Record screen := {
  ou_room : option jsstr;                       (* the query parameter room *)
  ou_rooms : list Workroom;
  ou_collapsed : bool;
  ou_storage : storage;
  ou_refused : bool;                            (* whether a write to it throws *)
  ou_fallback : bool;
  ou_office : office_stream;
  ou_feed : office_stream;                      (* useOfficeStream(activeRoom ?? 'office') *)
  ou_roster : option (list jsstr);
  ou_signal : Z;                                (* the ref lastRoomSignal *)
  ou_health : option CoordinatorHealthPayload   (* state of the banner *)
}.

Inductive screen_event :=
| SelectRoom (roomId : option jsstr)            (* the list, or a task created in the composer *)
| ToggleCollapsed
| Navigate (room : option jsstr)                (* the query parameter changes *)
| OfficeStream (e : stream_event)
| RoomStream (e : stream_event)
| MotionChange (media : option bool) (ua : option jsstr)
| StorageFull (b : bool).                       (* whether the browser refuses writes from now on *)

(** [HealthTimer] is the interval of the banner's poll. *)
Inductive screen_req := GetStaff | GetRooms | GetHealth | HealthTimer.
Definition screen_resp (r : screen_req) : Type :=
  match r with
  | GetStaff => AssignStaffPayload
  | GetRooms => WorkroomsPayload
  | GetHealth => CoordinatorHealthPayload
  | HealthTimer => unit
  end.

Definition room_signal (ms : list OfficeMessage) : Z := maxSeqOf ms ["assignment"; "milestone"].

Definition set_room (room : option jsstr) (s : screen) : screen :=
  {| ou_room := room; ou_rooms := ou_rooms s; ou_collapsed := ou_collapsed s;
     ou_storage := ou_storage s; ou_refused := ou_refused s; ou_fallback := ou_fallback s;
     ou_office := ou_office s;
     ou_feed := stream_step (ou_feed s) (StreamRoom (Some (nullish room OFFICE_ROOM_ID)));
     ou_roster := ou_roster s; ou_signal := ou_signal s; ou_health := ou_health s |}.

(** An event of the office stream, with the effect keyed on its messages. *)
Definition office_event (e : stream_event) (s : screen) : screen * list screen_req :=
  let o := stream_step (ou_office s) e in
  let signal := room_signal (os_messages o) in
  let grows := ou_signal s <? signal in
  ({| ou_room := ou_room s; ou_rooms := ou_rooms s; ou_collapsed := ou_collapsed s;
      ou_storage := ou_storage s; ou_refused := ou_refused s; ou_fallback := ou_fallback s; ou_office := o;
      ou_feed := ou_feed s; ou_roster := ou_roster s;
      ou_signal := if grows then signal else ou_signal s; ou_health := ou_health s |},
   if grows then [GetRooms] else []).

(** The hook of the fallback: the preference of motion changes while the screen is shown. *)
Definition use3dFallback (media : option bool) (ua : option jsstr) (s : screen) : screen :=
  {| ou_room := ou_room s; ou_rooms := ou_rooms s; ou_collapsed := ou_collapsed s;
     ou_storage := ou_storage s; ou_refused := ou_refused s; ou_fallback := shouldUseFallback media ua;
     ou_office := ou_office s; ou_feed := ou_feed s; ou_roster := ou_roster s;
     ou_signal := ou_signal s; ou_health := ou_health s |}.

Definition storage_full (b : bool) (s : screen) : screen :=
  {| ou_room := ou_room s; ou_rooms := ou_rooms s; ou_collapsed := ou_collapsed s;
     ou_storage := ou_storage s; ou_refused := b; ou_fallback := ou_fallback s;
     ou_office := ou_office s; ou_feed := ou_feed s; ou_roster := ou_roster s;
     ou_signal := ou_signal s; ou_health := ou_health s |}.

Definition screen_handle (e : screen_event) (s : screen) : screen * list screen_req :=
  match e with
  | SelectRoom r => (set_room (present r) s, [])
  | Navigate r => (set_room r s, [])
  | ToggleCollapsed =>
      ({| ou_room := ou_room s; ou_rooms := ou_rooms s; ou_collapsed := negb (ou_collapsed s);
          ou_storage := storage_set (ou_refused s) (ou_storage s) PANEL_COLLAPSE_KEY
                          (if ou_collapsed s then "0" else "1");
          ou_refused := ou_refused s;
          ou_fallback := ou_fallback s; ou_office := ou_office s; ou_feed := ou_feed s;
          ou_roster := ou_roster s; ou_signal := ou_signal s; ou_health := ou_health s |}, [])
  | OfficeStream e => office_event e s
  | RoomStream e =>
      ({| ou_room := ou_room s; ou_rooms := ou_rooms s; ou_collapsed := ou_collapsed s;
          ou_storage := ou_storage s; ou_refused := ou_refused s; ou_fallback := ou_fallback s;
     ou_office := ou_office s;
          ou_feed := stream_step (ou_feed s) e; ou_roster := ou_roster s;
          ou_signal := ou_signal s; ou_health := ou_health s |}, [])
  | MotionChange media ua => (use3dFallback media ua s, [])
  | StorageFull b => (storage_full b s, [])
  end.

Definition set_fetched (rooms : list Workroom) (roster : option (list jsstr))
    (health : option CoordinatorHealthPayload) (s : screen) : screen :=
  {| ou_room := ou_room s; ou_rooms := rooms; ou_collapsed := ou_collapsed s;
     ou_storage := ou_storage s; ou_refused := ou_refused s; ou_fallback := ou_fallback s;
     ou_office := ou_office s;
     ou_feed := ou_feed s; ou_roster := roster; ou_signal := ou_signal s; ou_health := health |}.

(** The banner's [poll], at its mount and whenever its interval fires. *)
Definition health_poll : list screen_req := [GetHealth; HealthTimer].
Definition set_health (a : result CoordinatorHealthPayload) (s : screen) : screen :=
  match a with
  | Ok h => set_fetched (ou_rooms s) (ou_roster s) (Some h) s
  | Err _ => s
  end.

Definition screen_resume (r : screen_req) :
    result (screen_resp r) → screen → screen * list screen_req :=
  match r return result (screen_resp r) → screen → screen * list screen_req with
  | GetStaff => λ a s,
      (set_fetched (ou_rooms s)
         match a with Ok p => Some (map so_id (asp_staff p)) | Err _ => None end
         (ou_health s) s, [])
  | GetRooms => λ a s,
      match a with
      | Ok p => (set_fetched (wp_rooms p) (ou_roster s) (ou_health s) s, [])
      | Err _ => (s, [])
      end
  | GetHealth => λ a s, (set_health a s, [])
  | HealthTimer => λ _ s, (s, health_poll)
  end.

Definition screen_mount (room : option jsstr) (st : storage) (media : option bool)
    (ua : option jsstr) : screen * list screen_req :=
  ({| ou_room := room; ou_rooms := [];
      ou_collapsed := bool_decide (storage_get st PANEL_COLLAPSE_KEY = Some "1"%js);
      ou_storage := st; ou_refused := false; ou_fallback := shouldUseFallback media ua;
      ou_office := stream_mount (Some OFFICE_ROOM_ID);
      ou_feed := stream_mount (Some (nullish room OFFICE_ROOM_ID));
      ou_roster := None; ou_signal := 0; ou_health := None |},
   health_poll ++ [GetStaff; GetRooms]).

Definition OfficeUnified (s : screen) : list (node screen_event) :=
  let agentIds := agentIdsInOrder (os_messages (ou_office s)) in
  let desks := deriveAgentDesks (os_messages (ou_office s)) in
  let dimmed := dimmedIds (ou_room s) (os_messages (ou_feed s)) agentIds in
  [El "section" [AStr "className" "office-unified"] (
    [El "h2" [] [Txt "Văn phòng"]]
    ++ health_banner (ou_health s)
    ++ [El "p" [AStr "className" "ops-chat-hint"] [
          Txt (cat ["Chọn phòng việc bên trái để xem hoạt động và chat trong việc đó; "; dq;
                    "Toàn cảnh"; dq; " xem cả đội. Giao việc mới: gõ "]);
          El "code" [] [Txt "@tên-nhân-sự"]; Txt " để chỉ định PIC, ";
          El "code" [] [Txt "@all"]; Txt "/bỏ trống để đội tự chọn."];
        El "button" [AStr "type" "button"; AStr "className" "chip office-3d-toggle";
                     AOn (OnClick ToggleCollapsed)]
          [Txt (if ou_collapsed s then "Hiện không gian 3D" else "Thu gọn không gian 3D")]]
    ++ when (negb (ou_collapsed s))
         [El "div" [AStr "className" "office-unified-main"]
            (if ou_fallback s then AgentStatusTable agentIds desks
             else OfficeCanvas agentIds desks (ou_roster s) dimmed)]
    ++ [El "div" [AStr "className" "office-unified-layout office-columns"] (
          map (map_node SelectRoom) (WorkroomList (ou_rooms s) (ou_room s))
          ++ ActivityFeed (os_messages (ou_feed s)) (os_connected (ou_feed s))
               (os_errored (ou_feed s))
          ++ [Comp "ArtifactPanel" [AStr "activeRoom" (nullish (ou_room s) "")]]);
        Comp "AssignComposer" [AStr "activeRoom" (nullish (ou_room s) "");
                               AOn (OnText (λ taskId, SelectRoom (Some taskId)))]])].

Definition screen_env (s : screen) (e : screen_event) : Prop :=
  match e with
  | Navigate _ | MotionChange _ _ | StorageFull _ => True
  | OfficeStream e | RoomStream e => same_room e
  | _ => False
  end.

Definition office_screen (room : option jsstr) (st : storage) (media : option bool)
    (ua : option jsstr) : component :=
  {| c_state := screen; c_event := screen_event; c_req := screen_req; c_resp := screen_resp;
     c_init := screen_mount room st media ua; c_view := OfficeUnified; c_env := screen_env;
     c_handle := screen_handle; c_resume := screen_resume |}.

(** ** Theorems: the canvas *)

Lemma index_of_lookup x l i : index_of x l = Some i → l !! i = Some x.
Proof.
  revert i. induction l as [|y l IH]; intros i; cbn; [done|].
  destruct (decide (x = y)) as [->|]; [by intros [= <-]|].
  destruct (index_of x l) as [j|]; [|done]. cbn. intros [= <-]. by apply IH.
Qed.

Lemma index_of_None x l : index_of x l = None ↔ x ∉ l.
Proof.
  induction l as [|y l IH]; cbn; [set_solver|].
  destruct (decide (x = y)) as [->|]; [set_solver|].
  destruct (index_of x l); cbn; set_solver.
Qed.

Lemma elem_canvas_desks ids desks roster dimmed c :
  c ∈ canvas_desks ids desks roster dimmed ↔
  ∃ i id, visibleDesks ids roster !! i = Some id ∧
    canvas_desk_of (visibleDesks ids roster) desks dimmed i id = Some c.
Proof.
  unfold canvas_desks. rewrite list_elem_of_omap. split.
  - intros (o & Ho & E). apply elem_of_lookup_imap in Ho as (i & id & -> & Hi). eauto.
  - intros (i & id & Hi & E). exists (Some c). split; [|done].
    apply elem_of_lookup_imap. eauto.
Qed.

Lemma elem_visible ids roster x :
  x ∈ visibleDesks ids roster ↔ x ∈ ids ∧ ∀ l, roster = Some l → x ∈ l.
Proof.
  unfold visibleDesks. destruct roster as [l|]; [|naive_solver].
  rewrite list_elem_of_filter, elem_of_list_to_set. naive_solver.
Qed.

(** The canvas shows the current staff, each in its own place.  A desk is drawn for an id
    exactly when the stream names the id, the desk map has it and the roster, once loaded, lists
    it; its place is its index among the visible desks, below their number; and a consulting
    desk walks to the place of its colleague, or stays where it is when the colleague is not
    visible. *)
Theorem canvas_shows_roster ids desks roster dimmed :
  let visible := visibleDesks ids roster in
  (∀ x, (∃ c, c ∈ canvas_desks ids desks roster dimmed ∧ cd_id c = x) ↔
        x ∈ ids ∧ is_Some (desks !! x) ∧ ∀ l, roster = Some l → x ∈ l) ∧
  ∀ c, c ∈ canvas_desks ids desks roster dimmed →
    visible !! cd_index c = Some (cd_id c) ∧ (cd_index c < length visible)%nat ∧
    desks !! cd_id c = Some (cd_desk c) ∧
    (∀ b, present (d_consultWith (cd_desk c)) = Some b →
       match cd_consult c with Some j => visible !! j = Some b | None => b ∉ visible end).
Proof.
  intros visible. split.
  - intros x. setoid_rewrite elem_canvas_desks. fold visible. split.
    + intros (c & (i & id & Hi & E) & <-). apply bind_Some in E as (d & Hd & [= <-]). cbn.
      apply list_elem_of_lookup_2, elem_visible in Hi as [H1 H2]. eauto.
    + intros (H1 & [d Hd] & H2).
      destruct (list_elem_of_lookup_1 visible x) as [i Hi]; [by apply elem_visible|].
      eexists. split; [exists i, x; split; [done|]|].
      * unfold canvas_desk_of. rewrite Hd. reflexivity.
      * done.
  - intros c (i & id & Hi & E)%elem_canvas_desks. fold visible in Hi, E.
    apply bind_Some in E as (d & Hd & [= <-]). cbn.
    split; [done|]. split; [by eapply lookup_lt_Some|]. split; [done|]. intros b ->. cbn.
    destruct (index_of b visible) as [j|] eqn:Ej; [by apply index_of_lookup|].
    by apply index_of_None.
Qed.

(** ** Theorems: the screen *)

Definition stream_inv (s : office_stream) : Prop :=
  NoDup (map om_seq (os_messages s)) ∧ ∀ m, m ∈ os_messages s → om_seq m ∈ os_seen s.

Lemma stream_inv_step s e : stream_inv s → stream_inv (stream_step s e).
Proof.
  intros [H1 H2]. destruct e as [r| |[m|]|]; cbn; [|by destruct (os_source s)| |done|by destruct (os_source s)].
  - destruct (decide _); [done|]. unfold stream_effect, stream_cleanup.
    destruct (present r), (os_source s); split; cbn; try done; try constructor; set_solver.
  - destruct (os_source s); [|done]. unfold stream_message.
    destruct (decide (om_seq m ∈ os_seen s)) as [|Hn]; [done|]. split; cbn.
    + rewrite map_app. apply NoDup_app. split; [done|]. split; [|apply NoDup_singleton].
      intros x (m' & -> & Hm')%list_elem_of_fmap Hx. apply list_elem_of_singleton in Hx.
      apply Hn. rewrite <- Hx. by apply H2.
    + intros m' [Hm'|Hm']%elem_of_app; [set_solver|]. apply list_elem_of_singleton in Hm'.
      set_solver.
Qed.

(** A stream grows by at most one message, with a new number. *)
Lemma stream_grows s e :
  same_room e →
  os_room (stream_step s e) = os_room s ∧
  (os_messages (stream_step s e) = os_messages s ∨
   ∃ m, e = StreamFrame (Some m) ∧ is_Some (os_source s) ∧ om_seq m ∉ os_seen s ∧
        os_messages (stream_step s e) = os_messages s ++ [m]).
Proof.
  destruct e as [r| |[m|]|]; [done|..]; intros _; cbn.
  - by destruct (os_source s); auto.
  - destruct (os_source s) eqn:E; [|by auto]. unfold stream_message.
    destruct (decide (om_seq m ∈ os_seen s)); [by auto|]. split; [done|]. right. eauto.
  - auto.
  - by destruct (os_source s); auto.
Qed.

Lemma maxSeqOf_snoc ms m kinds :
  maxSeqOf (ms ++ [m]) kinds =
  if decide (kind_text (om_kind m) ∈ kinds) then Z.max (maxSeqOf ms kinds) (om_seq m)
  else maxSeqOf ms kinds.
Proof.
  unfold maxSeqOf. rewrite filter_app, foldl_app. rewrite filter_cons, filter_nil.
  by destruct (decide _).
Qed.

Definition screen_inv (s : screen) (q : list screen_req) : Prop :=
  os_room (ou_office s) = Some OFFICE_ROOM_ID ∧
  os_room (ou_feed s) = Some (nullish (ou_room s) OFFICE_ROOM_ID) ∧
  stream_inv (ou_office s) ∧ stream_inv (ou_feed s) ∧
  ou_signal s = room_signal (os_messages (ou_office s)).

Lemma stream_inv_mount r : stream_inv (stream_mount r).
Proof.
  unfold stream_mount, stream_effect. destruct (present r); split; cbn; try constructor; set_solver.
Qed.

Lemma set_room_feed room s :
  os_room (stream_step s (StreamRoom room)) = room.
Proof.
  cbn. destruct (decide (room = os_room s)) as [->|]; [done|].
  unfold stream_effect. by destruct (present room).
Qed.

(** The screen's own controls. *)
Lemma office_offers s e :
  offers (OfficeUnified s) e → e = ToggleCollapsed ∨ ∃ r, e = SelectRoom r.
Proof.
  intros H. unfold OfficeUnified, ActivityFeed, health_banner, AgentStatusTable, OfficeCanvas in H.
  inv_offers; try (unfold status_row, desk_node, feed_entry in *; inv_offers); eauto.
Qed.

Lemma screen_env_room s e e' :
  allowed (C := office_screen None None None None) s e →
  e = OfficeStream e' ∨ e = RoomStream e' → same_room e'.
Proof.
  intros [H|H] [-> | ->]; try done; apply office_offers in H as [?|[? ?]]; done.
Qed.

Lemma office_signal s e :
  ou_signal s = room_signal (os_messages (ou_office s)) → same_room e →
  ou_signal (fst (office_event e s)) =
    room_signal (os_messages (ou_office (fst (office_event e s)))).
Proof.
  intros H He. destruct (stream_grows (ou_office s) e He) as [_ Hm]. cbn.
  set (sig := room_signal _). destruct (ou_signal s <? sig) eqn:E; [done|].
  unfold sig in *. clear sig. rewrite H in *. destruct Hm as [->|(m & _ & _ & _ & Hm)]; [done|].
  rewrite Hm in *. unfold room_signal in *. rewrite maxSeqOf_snoc in *.
  destruct (decide _); [lia|done].
Qed.

Lemma screen_inv_make s q :
  os_room (ou_office s) = Some OFFICE_ROOM_ID →
  os_room (ou_feed s) = Some (nullish (ou_room s) OFFICE_ROOM_ID) →
  stream_inv (ou_office s) → stream_inv (ou_feed s) →
  ou_signal s = room_signal (os_messages (ou_office s)) → screen_inv s q.
Proof. unfold screen_inv. auto. Qed.

#[export] Instance screen_inv_holds room st media ua :
  Invariant (C := office_screen room st media ua) any screen_inv.
Proof.
  split.
  - apply screen_inv_make; try apply stream_inv_mount; try done.
    cbn. unfold stream_mount, stream_effect. by destruct (present _).
  - intros e s q (H1 & H2 & H3 & H4 & H5) Ha. pose proof (screen_env_room s e) as He.
    destruct e as [r| |r|e|e|media' ua'|b];
      try (specialize (He e Ha ltac:(auto)) as He'; clear He; rename He' into He).
    + apply screen_inv_make; try done; [apply set_room_feed|by apply stream_inv_step].
    + by apply screen_inv_make.
    + apply screen_inv_make; try done; [apply set_room_feed|by apply stream_inv_step].
    + destruct (stream_grows (ou_office s) e He) as [Hr _].
      apply screen_inv_make; try done; [cbn; by rewrite Hr|by apply stream_inv_step|].
      by apply office_signal.
    + destruct (stream_grows (ou_feed s) e He) as [Hr _].
      apply screen_inv_make; try done; [cbn; by rewrite Hr|by apply stream_inv_step].
    + by apply screen_inv_make.
    + by apply screen_inv_make.
  - intros r a s q1 q2 _ (H1 & H2 & H3 & H4 & H5).
    destruct r, a; by apply screen_inv_make.
Qed.

Notation screen_world := (world (office_screen None None None None)).

(** The screen shows one office and the selected room.  In every reachable state, whatever
    was selected, navigated to, streamed and fetched, the desks come from the stream of the room
    [office], the feed from the stream of the selected room (of [office] when none is), and
    neither shows a sequence number twice. *)
Theorem screen_streams_follow_selection (w : screen_world) :
  reachable any w →
  let s := w_state w in
  os_room (ou_office s) = Some OFFICE_ROOM_ID ∧
  os_room (ou_feed s) = Some (nullish (ou_room s) OFFICE_ROOM_ID) ∧
  NoDup (map om_seq (os_messages (ou_office s))) ∧
  NoDup (map om_seq (os_messages (ou_feed s))).
Proof.
  intros Hw s. destruct (invariant_holds (C := office_screen None None None None) any screen_inv w Hw) as (H1 & H2 & [H3 _] & [H4 _] & _).
  done.
Qed.

(** A run: the room "t1" is selected in the URL and both streams deliver. *)
Definition demo_events : list (c_event (office_screen None None None None)) :=
  [Navigate (Some ("t1" : jsstr)); OfficeStream (StreamFrame (Some (ping 1 "a")));
   RoomStream (StreamFrame (Some (ping 1 "a"))); RoomStream (StreamFrame (Some (ping 1 "a")))].

Definition demo_world : screen_world := play (map Do demo_events) (init_world _).

Lemma screen_streams_follow_selection_witness :
  let s := w_state demo_world in
  os_room (ou_office s) = Some OFFICE_ROOM_ID ∧
  os_room (ou_feed s) = Some (nullish (ou_room s) OFFICE_ROOM_ID) ∧
  NoDup (map om_seq (os_messages (ou_office s))) ∧
  NoDup (map om_seq (os_messages (ou_feed s))).
Proof.
  apply (screen_streams_follow_selection demo_world).
  apply play_reachable; [apply reach_init|]. repeat (split; [right; exact I|]). exact I.
Defined.

(** The room list is loaded again exactly for news about rooms.  In every reachable state an
    event of the office stream requests the list iff it delivers an assignment or a milestone
    whose number is new, positive and greater than that of every assignment and milestone
    before. *)
Theorem rooms_refetched_iff_news (w : screen_world) e :
  reachable any w → same_room e →
  let s := w_state w in
  GetRooms ∈ snd (screen_handle (OfficeStream e) s) ↔
  ∃ m, e = StreamFrame (Some m) ∧ is_Some (os_source (ou_office s)) ∧
       om_seq m ∉ os_seen (ou_office s) ∧
       kind_text (om_kind m) ∈ (["assignment"; "milestone"] : list jsstr) ∧
       room_signal (os_messages (ou_office s)) < om_seq m.
Proof.
  intros Hw He s. destruct (invariant_holds (C := office_screen None None None None) any screen_inv w Hw) as (_ & _ & _ & _ & Hs).
  fold s in Hs. cbn [screen_handle]. unfold office_event. cbn [snd]. rewrite Hs.
  unfold room_signal. clear Hs.
  transitivity (maxSeqOf (os_messages (ou_office s)) ["assignment"; "milestone"] <
    maxSeqOf (os_messages (stream_step (ou_office s) e)) ["assignment"; "milestone"]).
  { case_match eqn:E; apply Z.ltb_lt in E || apply Z.ltb_ge in E; [set_solver by lia|].
    split; [set_solver|lia]. }
  split.
  - destruct (stream_grows (ou_office s) e He) as [_ [E|(m & He' & Hu & Hn & E)]]; rewrite E;
      [lia|].
    rewrite maxSeqOf_snoc. intros H. exists m. destruct (decide _); [|lia].
    split_and!; try done. lia.
  - intros (m & -> & [u Hu] & Hn & Hk & Hm). cbn [stream_step]. rewrite Hu. unfold stream_message.
    rewrite decide_False by done. cbn [os_messages]. rewrite maxSeqOf_snoc, decide_True by done. lia.
Qed.

Lemma rooms_refetched_iff_news_witness :
  let e := StreamFrame (Some (Msg 3 "" "pm" KAssignment empty_body)) in
  let s := fst (screen_mount None None None None) in
  GetRooms ∈ snd (screen_handle (OfficeStream e) s) ↔
  ∃ m, e = StreamFrame (Some m) ∧ is_Some (os_source (ou_office s)) ∧
       om_seq m ∉ os_seen (ou_office s) ∧
       kind_text (om_kind m) ∈ (["assignment"; "milestone"] : list jsstr) ∧
       room_signal (os_messages (ou_office s)) < om_seq m.
Proof.
  intros e s. apply (rooms_refetched_iff_news (init_world (office_screen None None None None)));
    [apply reach_init|exact I].
Defined.
