(* ===== verification/Wizard.v ===== *)
(** The state machine of the create-agent wizard (wizard/use-create-agent-wizard.ts) and its two
    text generators (wizard/env-template.ts, wizard/persona-template.ts). *)

From S2P Require Import Prelude Types.

(** ** JavaScript objects used as maps, in insertion order *)

Fixpoint obj_set (k v : jsstr) (l : list (jsstr * jsstr)) : list (jsstr * jsstr) :=
  match l with
  | [] => [(k, v)]
  | (k', v') :: r => if decide (k' = k) then (k, v) :: r else (k', v') :: obj_set k v r
  end.
Definition obj_delete (k : jsstr) (l : list (jsstr * jsstr)) : list (jsstr * jsstr) :=
  filter (λ kv, kv.1 ≠ k) l.

(** ** The state *)

Record WizardState := {
  ws_step : Z;
  ws_pack : option Pack;
  ws_id : jsstr;
  ws_name : jsstr;
  ws_role : jsstr;
  ws_goals : jsstr;
  ws_persona : jsstr;
  ws_personaEdited : bool;
  ws_webSearch : bool;
  ws_reports : list jsstr;
  ws_schedule : list (jsstr * jsstr);
  ws_jiraProjectKey : jsstr;
  ws_confluenceSpaceKey : jsstr;
  ws_confluenceSpaceId : jsstr;
  ws_confluenceOkrPageId : jsstr;
  ws_githubRepo : jsstr;
  ws_slackReportChannel : jsstr;
  ws_slackStakeholderChannel : jsstr;
  ws_slackExternalChannels : jsstr
}.

(** [{...s, ...PACK_SCOPED_RESET}]: what is only valid for the pack that produced it. *)
Definition PACK_SCOPED_RESET (s : WizardState) : WizardState :=
  {| ws_step := ws_step s; ws_pack := ws_pack s; ws_id := ws_id s; ws_name := ws_name s;
     ws_role := ws_role s; ws_goals := ws_goals s; ws_persona := ws_persona s;
     ws_personaEdited := ws_personaEdited s; ws_webSearch := ws_webSearch s; ws_reports := [];
     ws_schedule := []; ws_jiraProjectKey := ""; ws_confluenceSpaceKey := "";
     ws_confluenceSpaceId := ""; ws_confluenceOkrPageId := ""; ws_githubRepo := "";
     ws_slackReportChannel := ""; ws_slackStakeholderChannel := "";
     ws_slackExternalChannels := "" |}.

Definition INITIAL : WizardState :=
  {| ws_step := 0; ws_pack := None; ws_id := ""; ws_name := ""; ws_role := ""; ws_goals := "";
     ws_persona := ""; ws_personaEdited := false; ws_webSearch := false; ws_reports := [];
     ws_schedule := []; ws_jiraProjectKey := ""; ws_confluenceSpaceKey := "";
     ws_confluenceSpaceId := ""; ws_confluenceOkrPageId := ""; ws_githubRepo := "";
     ws_slackReportChannel := ""; ws_slackStakeholderChannel := "";
     ws_slackExternalChannels := "" |}.

(** [{...s, pack}]. *)
Definition with_pack (pack : Pack) (s : WizardState) : WizardState :=
  {| ws_step := ws_step s; ws_pack := Some pack; ws_id := ws_id s; ws_name := ws_name s;
     ws_role := ws_role s; ws_goals := ws_goals s; ws_persona := ws_persona s;
     ws_personaEdited := ws_personaEdited s; ws_webSearch := ws_webSearch s;
     ws_reports := ws_reports s; ws_schedule := ws_schedule s;
     ws_jiraProjectKey := ws_jiraProjectKey s; ws_confluenceSpaceKey := ws_confluenceSpaceKey s;
     ws_confluenceSpaceId := ws_confluenceSpaceId s;
     ws_confluenceOkrPageId := ws_confluenceOkrPageId s; ws_githubRepo := ws_githubRepo s;
     ws_slackReportChannel := ws_slackReportChannel s;
     ws_slackStakeholderChannel := ws_slackStakeholderChannel s;
     ws_slackExternalChannels := ws_slackExternalChannels s |}.

Definition selectPack (pack : Pack) (s : WizardState) : WizardState :=
  PACK_SCOPED_RESET (with_pack pack s).

Definition goTo (step : Z) (s : WizardState) : WizardState :=
  {| ws_step := step; ws_pack := ws_pack s; ws_id := ws_id s; ws_name := ws_name s;
     ws_role := ws_role s; ws_goals := ws_goals s; ws_persona := ws_persona s;
     ws_personaEdited := ws_personaEdited s; ws_webSearch := ws_webSearch s;
     ws_reports := ws_reports s; ws_schedule := ws_schedule s;
     ws_jiraProjectKey := ws_jiraProjectKey s; ws_confluenceSpaceKey := ws_confluenceSpaceKey s;
     ws_confluenceSpaceId := ws_confluenceSpaceId s;
     ws_confluenceOkrPageId := ws_confluenceOkrPageId s; ws_githubRepo := ws_githubRepo s;
     ws_slackReportChannel := ws_slackReportChannel s;
     ws_slackStakeholderChannel := ws_slackStakeholderChannel s;
     ws_slackExternalChannels := ws_slackExternalChannels s |}.

Definition applyTemplate (t : StaffTemplate) (pack : Pack) (s : WizardState) : WizardState :=
  {| ws_step := ws_step s; ws_pack := Some pack; ws_id := ws_id s; ws_name := ws_name s;
     ws_role := tm_role t; ws_goals := ws_goals s; ws_persona := tm_persona t;
     ws_personaEdited := truthy (trim (tm_persona t)); ws_webSearch := tm_web_search t;
     ws_reports := filter (λ k, k ∈ pk_report_kinds pack) (tm_reports t);
     ws_schedule := []; ws_jiraProjectKey := ""; ws_confluenceSpaceKey := "";
     ws_confluenceSpaceId := ""; ws_confluenceOkrPageId := ""; ws_githubRepo := "";
     ws_slackReportChannel := ""; ws_slackStakeholderChannel := "";
     ws_slackExternalChannels := "" |}.

Definition set_reports (reports : list jsstr) (schedule : list (jsstr * jsstr))
    (s : WizardState) : WizardState :=
  {| ws_step := ws_step s; ws_pack := ws_pack s; ws_id := ws_id s; ws_name := ws_name s;
     ws_role := ws_role s; ws_goals := ws_goals s; ws_persona := ws_persona s;
     ws_personaEdited := ws_personaEdited s; ws_webSearch := ws_webSearch s;
     ws_reports := reports; ws_schedule := schedule;
     ws_jiraProjectKey := ws_jiraProjectKey s; ws_confluenceSpaceKey := ws_confluenceSpaceKey s;
     ws_confluenceSpaceId := ws_confluenceSpaceId s;
     ws_confluenceOkrPageId := ws_confluenceOkrPageId s; ws_githubRepo := ws_githubRepo s;
     ws_slackReportChannel := ws_slackReportChannel s;
     ws_slackStakeholderChannel := ws_slackStakeholderChannel s;
     ws_slackExternalChannels := ws_slackExternalChannels s |}.

Definition toggleReport (kind : jsstr) (s : WizardState) : WizardState :=
  if memb kind (ws_reports s)
  then set_reports (filter (λ k, k ≠ kind) (ws_reports s)) (obj_delete kind (ws_schedule s)) s
  else set_reports (ws_reports s ++ [kind]) (ws_schedule s) s.

Definition setCronFor (kind : jsstr) (cron : option jsstr) (s : WizardState) : WizardState :=
  set_reports (ws_reports s)
    match present cron with
    | Some c => obj_set kind c (ws_schedule s)
    | None => obj_delete kind (ws_schedule s)
    end s.

(** [update(key, value)] for the text fields of the steps 2 and 4. *)
Inductive text_field :=
| FId | FName | FRole | FGoals | FPersona | FJira | FSpaceKey | FSpaceId | FOkrPage | FRepo
| FReportChannel | FStakeholder | FExternal.

Definition update (f : text_field) (v : jsstr) (s : WizardState) : WizardState :=
  let pick (g : text_field) (old : jsstr) : jsstr :=
    match f, g with
    | FId, FId | FName, FName | FRole, FRole | FGoals, FGoals | FPersona, FPersona
    | FJira, FJira | FSpaceKey, FSpaceKey | FSpaceId, FSpaceId | FOkrPage, FOkrPage
    | FRepo, FRepo | FReportChannel, FReportChannel | FStakeholder, FStakeholder
    | FExternal, FExternal => v
    | _, _ => old
    end in
  {| ws_step := ws_step s; ws_pack := ws_pack s; ws_id := pick FId (ws_id s);
     ws_name := pick FName (ws_name s); ws_role := pick FRole (ws_role s);
     ws_goals := pick FGoals (ws_goals s); ws_persona := pick FPersona (ws_persona s);
     ws_personaEdited := ws_personaEdited s; ws_webSearch := ws_webSearch s;
     ws_reports := ws_reports s; ws_schedule := ws_schedule s;
     ws_jiraProjectKey := pick FJira (ws_jiraProjectKey s);
     ws_confluenceSpaceKey := pick FSpaceKey (ws_confluenceSpaceKey s);
     ws_confluenceSpaceId := pick FSpaceId (ws_confluenceSpaceId s);
     ws_confluenceOkrPageId := pick FOkrPage (ws_confluenceOkrPageId s);
     ws_githubRepo := pick FRepo (ws_githubRepo s);
     ws_slackReportChannel := pick FReportChannel (ws_slackReportChannel s);
     ws_slackStakeholderChannel := pick FStakeholder (ws_slackStakeholderChannel s);
     ws_slackExternalChannels := pick FExternal (ws_slackExternalChannels s) |}.

(** [update('personaEdited', true)]. *)
Definition mark_edited (s : WizardState) : WizardState :=
  {| ws_step := ws_step s; ws_pack := ws_pack s; ws_id := ws_id s; ws_name := ws_name s;
     ws_role := ws_role s; ws_goals := ws_goals s; ws_persona := ws_persona s;
     ws_personaEdited := true; ws_webSearch := ws_webSearch s;
     ws_reports := ws_reports s; ws_schedule := ws_schedule s;
     ws_jiraProjectKey := ws_jiraProjectKey s; ws_confluenceSpaceKey := ws_confluenceSpaceKey s;
     ws_confluenceSpaceId := ws_confluenceSpaceId s;
     ws_confluenceOkrPageId := ws_confluenceOkrPageId s; ws_githubRepo := ws_githubRepo s;
     ws_slackReportChannel := ws_slackReportChannel s;
     ws_slackStakeholderChannel := ws_slackStakeholderChannel s;
     ws_slackExternalChannels := ws_slackExternalChannels s |}.

(** ** Derived values *)

Definition externalChannelsList (s : WizardState) : list jsstr :=
  filter (λ c, truthy c = true) (map trim (split_on 44 (ws_slackExternalChannels s))).

Definition stakeholderChannelMissing (s : WizardState) : bool :=
  truthy (trim (ws_slackStakeholderChannel s))
  && negb (memb (trim (ws_slackStakeholderChannel s)) (externalChannelsList s)).

(** [...(x.trim() ? {f: x.trim()} : {})]. *)
Definition trimmed_field (x : jsstr) : option jsstr := present (Some (trim x)).
Definition non_empty_list (l : list jsstr) : option (list jsstr) :=
  if Nat.ltb 0 (length l) then Some l else None.

Definition build_bindings (s : WizardState) : CreateAgentBindings :=
  {| b_jira := option_map Some (trimmed_field (ws_jiraProjectKey s));
     b_confluence :=
       if truthy (trim (ws_confluenceSpaceKey s)) || truthy (trim (ws_confluenceSpaceId s))
          || truthy (trim (ws_confluenceOkrPageId s))
       then Some {| cb_space_key := trimmed_field (ws_confluenceSpaceKey s);
                    cb_space_id := trimmed_field (ws_confluenceSpaceId s);
                    cb_okr_page_id := trimmed_field (ws_confluenceOkrPageId s) |}
       else None;
     b_github := option_map Some (trimmed_field (ws_githubRepo s));
     b_slack :=
       if truthy (trim (ws_slackReportChannel s)) || truthy (trim (ws_slackStakeholderChannel s))
          || Nat.ltb 0 (length (externalChannelsList s))
       then Some {| sb_report_channel := trimmed_field (ws_slackReportChannel s);
                    sb_stakeholder_channel := trimmed_field (ws_slackStakeholderChannel s);
                    sb_external_channels := non_empty_list (externalChannelsList s) |}
       else None |}.

Definition buildSpec (s : WizardState) : CreateAgentSpec :=
  {| sp_id := to_lower (trim (ws_id s));
     sp_name := js_or (trim (ws_name s)) (trim (ws_id s));
     sp_domain := match ws_pack s with Some p => pk_id p | None => "" end;
     sp_reports := ws_reports s;
     sp_schedule := ws_schedule s;
     sp_bindings := build_bindings s;
     sp_persona := trimmed_field (ws_persona s);
     sp_web_search := if ws_webSearch s then Some true else None |}.

(** [ID_PATTERN.test(s)]: a lower-case letter or a digit, then letters, digits, [_] and [-]. *)
Definition id_start (c : Z) : bool := ((97 <=? c) && (c <=? 122)) || ((48 <=? c) && (c <=? 57)).
Definition id_char (c : Z) : bool := id_start c || (c =? 95) || (c =? 45).
Definition ID_PATTERN (s : jsstr) : bool :=
  match s with [] => false | c :: r => id_start c && forallb id_char r end.

Definition canAdvanceFrom (s : WizardState) (step : Z) : bool :=
  if step =? 0 then true
  else if step =? 1 then match ws_pack s with Some _ => true | None => false end
  else if step =? 2 then truthy (trim (ws_id s)) && ID_PATTERN (ws_id s) && truthy (trim (ws_name s))
  else if step =? 3 then true
  else if step =? 4 then true
  else false.

(** ** The persona template *)

Definition generateSoulMarkdown (role goals : jsstr) : jsstr :=
  let trimmedRole := trim role in
  let goalLines :=
    join [10] (map (λ g, cat ["- "; g])
      (filter (λ g, truthy g = true) (map trim (split_on 10 (trim goals))))) in
  join [10] [
    "# SOUL"; "";
    cat ["You are an agent acting as: "; js_or trimmedRole "(role not set)"; "."]; "";
    "## Goals"; js_or goalLines "- (no goals set)"; ""; "## Voice";
    "- Be concise and factual in reports.";
    "- Ask for approval before any external-facing action."].

(** ** The environment template *)

Definition SERVER_ENV_VARS : gmap jsstr (list jsstr * jsstr) := list_to_map [
  ("jira", (["ATLASSIAN_SITE_NAME"; "ATLASSIAN_USER_EMAIL"; "ATLASSIAN_API_TOKEN"],
            "Shared Atlassian API token (also covers Confluence)."));
  ("confluence", (["ATLASSIAN_SITE_NAME"; "ATLASSIAN_USER_EMAIL"; "ATLASSIAN_API_TOKEN"],
            "Shared Atlassian API token (also covers Jira)."));
  ("slack", (["SLACK_XOXC_TOKEN"; "SLACK_XOXD_TOKEN"; "SLACK_TEAM_DOMAIN"],
            "Slack browser-session tokens."));
  ("github", ([], "No .env token — run `gh auth login` on the server instead."));
  ("linear", (["LINEAR_API_KEY"], "Linear personal API key."))].

(** The inner loop over the names of one server. *)
Definition env_name (st : list jsstr * gset jsstr) (name : jsstr) : list jsstr * gset jsstr :=
  if decide (name ∈ st.2) then st else (st.1 ++ [cat [name; "="]], {[name]} ∪ st.2).
Definition env_server (st : list jsstr * gset jsstr) (server : jsstr) : list jsstr * gset jsstr :=
  match SERVER_ENV_VARS !! server with
  | None => st
  | Some (names, note) => foldl env_name (st.1 ++ [cat ["# "; server; ": "; note]], st.2) names
  end.
Definition env_lines (servers : list jsstr) : list jsstr :=
  (foldl env_server
     (["# .env additions for this agent — set VALUES on the server only."], ∅) servers).1.
Definition buildEnvTemplate (servers : list jsstr) : jsstr :=
  let lines := env_lines servers in
  join [10] (if Nat.eqb (length lines) 1
             then lines ++ ["# (no extra tokens needed for this pack)"] else lines).

(** ** Theorems: the environment template *)

Arguments SERVER_ENV_VARS : simpl never.

Definition comment (l : jsstr) : Prop := starts_with "#" l = true.
#[global] Instance comment_dec l : Decision (comment l).
Proof. unfold comment. apply _. Defined.

Definition entry_ok (server : jsstr) (e : list jsstr * jsstr) : Prop :=
  no_unit 10 server ∧ no_unit 10 e.2 ∧
  Forall (λ n : jsstr, n ≠ [] ∧ ¬ comment n ∧ no_unit 10 n) e.1.

Lemma table_ok server e : SERVER_ENV_VARS !! server = Some e → entry_ok server e.
Proof.
  intros H.
  assert (bool_decide (map_Forall entry_ok SERVER_ENV_VARS) = true) as Hall
    by (unfold entry_ok; vm_compute; reflexivity).
  apply bool_decide_eq_true in Hall. by apply (Hall server e).
Qed.

Definition assigned (lines : list jsstr) : list jsstr := filter (λ l, ¬ comment l) lines.
Definition name_line (n : jsstr) : jsstr := cat [n; "="].

(** The loop invariant: the assigned names are the names seen, each once. *)
Definition env_inv (st : list jsstr * gset jsstr) : Prop :=
  ∃ names, assigned st.1 = map name_line names ∧ NoDup names ∧
           (∀ n, n ∈ names ↔ n ∈ st.2) ∧ Forall (no_unit 10) st.1 ∧ st.1 ≠ [].

Lemma not_comment_line n : n ≠ [] → ¬ comment n → ¬ comment (name_line n).
Proof. destruct n as [|c n]; [done|]. unfold comment. cbn. done. Qed.

Lemma no_unit_app c a b : no_unit c a → no_unit c b → no_unit c (a ++ b).
Proof. unfold no_unit. rewrite elem_of_app. tauto. Qed.

Lemma env_name_inv st (n : jsstr) :
  n ≠ [] → ¬ comment n → no_unit 10 n → env_inv st →
  env_inv (env_name st n) ∧ (env_name st n).2 = {[n]} ∪ st.2.
Proof.
  intros H1 H2 H3 Hi. pose proof Hi as (names & E & Hnd & Hseen & Hl & Hne). unfold env_name.
  case_decide as Hn; [split; [exact Hi|set_solver]|].
  split; [|done]. exists (names ++ [n]). cbn. split_and!.
  - unfold assigned in *. rewrite filter_app, E, map_app. f_equal.
    rewrite filter_cons, decide_True by (by apply not_comment_line). done.
  - apply NoDup_app. split; [done|]. split; [|apply NoDup_singleton].
    intros x Hx ->%list_elem_of_singleton. apply Hn, Hseen, Hx.
  - set_solver.
  - apply Forall_app. split; [done|]. constructor; [|done]. unfold cat. cbn [concat].
    apply no_unit_app; [done|]. apply (bool_decide_unpack _). by vm_compute.
  - by destruct st.1.
Qed.

Lemma env_names_inv st names :
  Forall (λ n : jsstr, n ≠ [] ∧ ¬ comment n ∧ no_unit 10 n) names → env_inv st →
  env_inv (foldl env_name st names) ∧ (foldl env_name st names).2 = list_to_set names ∪ st.2.
Proof.
  intros H. revert st. induction H as [|n names (H1 & H2 & H3) _ IH]; intros st Hi; cbn;
    [split; [done|set_solver]|].
  destruct (env_name_inv st n H1 H2 H3 Hi) as [Hi' E].
  destruct (IH _ Hi') as [Hi'' E']. split; [done|]. rewrite E', E. clear.
  apply leibniz_equiv. intros x. rewrite !elem_of_union, !elem_of_list_to_set, elem_of_singleton.
  tauto.
Qed.

Definition needs (servers : list jsstr) (n : jsstr) : Prop :=
  ∃ server e, server ∈ servers ∧ SERVER_ENV_VARS !! server = Some e ∧ n ∈ e.1.

Lemma needs_cons s servers n : needs (s :: servers) n ↔ needs [s] n ∨ needs servers n.
Proof.
  split.
  - intros (x & e & [->|Hx]%elem_of_cons & H); [left|right]; exists s + exists x; exists e;
      (split; [|done]); [by left|done].
  - intros [(x & e & ->%list_elem_of_singleton & H)|(x & e & Hx & H)];
      [exists s, e|exists x, e]; (split; [|done]); [by left|by right].
Qed.

Lemma env_server_inv st (server : jsstr) :
  env_inv st →
  env_inv (env_server st server) ∧
  ∀ n, n ∈ (env_server st server).2 ↔ n ∈ st.2 ∨ needs [server] n.
Proof.
  intros Hi. unfold env_server, needs.
  destruct (SERVER_ENV_VARS !! server) as [[names note]|] eqn:E.
  - pose proof (table_ok _ _ E) as (H1 & H2 & H3). cbn in H2, H3.
    destruct (env_names_inv (st.1 ++ [cat ["# "; server; ": "; note]], st.2) names H3) as [Hi' E'].
    + destruct Hi as (ns & En & Hnd & Hs & Hl & Hne). exists ns. cbn. split_and!; try done.
      * unfold assigned in *. rewrite filter_app, En, filter_cons, decide_False by (intros Hc; by apply Hc).
        by rewrite app_nil_r.
      * apply Forall_app. split; [done|]. constructor; [|done]. unfold cat. cbn [concat].
        repeat apply no_unit_app; try done; apply (bool_decide_unpack _); by vm_compute.
      * by destruct st.1.
    + split; [done|]. intros n. rewrite E'. cbn. rewrite elem_of_union, elem_of_list_to_set. split.
      * intros [H|H]; [|by left]. right. exists server, (names, note). split; [by left|done].
      * intros [H|(s' & e & Hs & E2 & H)]; [by right|].
        apply list_elem_of_singleton in Hs as ->. rewrite E in E2. injection E2 as <-. by left.
  - split; [done|]. intros n. split; [by left|].
    intros [H|(s' & e & Hs & E2 & _)]; [done|].
    apply list_elem_of_singleton in Hs as ->. congruence.
Qed.

Lemma env_servers_inv st servers :
  env_inv st →
  env_inv (foldl env_server st servers) ∧
  ∀ n, n ∈ (foldl env_server st servers).2 ↔ n ∈ st.2 ∨ needs servers n.
Proof.
  revert st. induction servers as [|server servers IH]; intros st Hi; cbn.
  - split; [done|]. intros n. split; [by left|]. intros [H|(s' & e & H & _)]; [done|].
    by apply elem_of_nil in H.
  - destruct (env_server_inv st server Hi) as [Hi' E]. destruct (IH _ Hi') as [Hi'' E'].
    split; [done|]. intros n. rewrite E', E, (needs_cons server servers). tauto.
Qed.

(** The .env template lists exactly the variables the servers need, once each, and no value.
    The lines of the text that are no comments are [NAME=] for a duplicate-free list of names:
    the names of the table entries of the given servers. *)
Theorem env_template_names servers :
  ∃ names, assigned (split_on 10 (buildEnvTemplate servers)) = map name_line names ∧
           NoDup names ∧ ∀ n, n ∈ names ↔ needs servers n.
Proof.
  unfold buildEnvTemplate, env_lines. set (st0 := (_, _)).
  assert (env_inv st0) as H0.
  { exists []. unfold st0. split_and!; [vm_compute; reflexivity|constructor|set_solver| |done].
    constructor; [|done]. apply (bool_decide_unpack _). by vm_compute. }
  destruct (env_servers_inv st0 servers H0) as [(names & E & Hnd & Hs & Hl & Hne) Hn].
  exists names. split; [|split; [done|]].
  - destruct (Nat.eqb _ 1).
    + rewrite split_on_join; [|by destruct (foldl _ _ _).1|].
      * unfold assigned in *. rewrite filter_app, E, filter_cons, decide_False.
        { by rewrite app_nil_r. }
        intros Hc. by apply Hc.
      * apply Forall_app. split; [done|]. constructor; [|done].
        apply (bool_decide_unpack _). by vm_compute.
    + by rewrite split_on_join.
  - intros n. rewrite Hs, Hn. cbn. rewrite elem_of_empty. naive_solver.
Qed.

(** ** Theorems: the state *)

Definition identity_ok (s : WizardState) : Prop :=
  ID_PATTERN (ws_id s) = true ∧ trim (ws_name s) ≠ [].
Definition pack_kinds (s : WizardState) : list jsstr :=
  match ws_pack s with Some p => pk_report_kinds p | None => [] end.

(** The reports are kinds of the pack, the schedule maps some of them to non-empty crons, and
    the steps behind have been completed. *)
Record state_ok (s : WizardState) : Prop := {
  so_reports : ∀ k, k ∈ ws_reports s → k ∈ pack_kinds s;
  so_schedule : ∀ k c, (k, c) ∈ ws_schedule s → k ∈ ws_reports s ∧ c ≠ [];
  so_keys : NoDup (map fst (ws_schedule s));
  so_steps : 0 ≤ ws_step s ≤ 5;
  so_pack : 2 ≤ ws_step s → is_Some (ws_pack s);
  so_identity : 3 ≤ ws_step s → identity_ok s
}.

Lemma elem_obj_set k v l x y :
  (x, y) ∈ obj_set k v l → (x = k ∧ y = v) ∨ (x, y) ∈ l.
Proof.
  induction l as [|[k' v'] l IH]; cbn; [set_solver|].
  destruct (decide (k' = k)); rewrite !elem_of_cons; naive_solver.
Qed.

Lemma obj_set_keys k v l x : x ∈ map fst (obj_set k v l) → x = k ∨ x ∈ map fst l.
Proof.
  induction l as [|[k' v'] l IH]; cbn; [set_solver|].
  destruct (decide (k' = k)) as [->|]; cbn; rewrite !elem_of_cons; naive_solver.
Qed.

Lemma NoDup_obj_set k v l : NoDup (map fst l) → NoDup (map fst (obj_set k v l)).
Proof.
  induction l as [|[k' v'] l IH]; cbn; [intros _; apply NoDup_singleton|].
  intros [Hn Hl]%NoDup_cons. destruct (decide (k' = k)) as [->|Hk]; cbn;
    apply NoDup_cons; [done|]. split; [|by apply IH].
  intros [?|?]%obj_set_keys; [congruence|done].
Qed.

Lemma NoDup_obj_delete k l : NoDup (map fst l) → NoDup (map fst (obj_delete k l)).
Proof.
  unfold obj_delete. induction l as [|[k' v'] l IH]; [done|]. cbn [map fst].
  intros [Hn Hl]%NoDup_cons. rewrite filter_cons. destruct (decide _); cbn; [|by apply IH].
  apply NoDup_cons. split; [|by apply IH]. intros Hin. apply Hn.
  apply list_elem_of_fmap in Hin as (kv & -> & Hkv). apply list_elem_of_filter in Hkv as [_ Hkv].
  apply list_elem_of_fmap. eauto.
Qed.

Lemma elem_obj_delete k l x y : (x, y) ∈ obj_delete k l ↔ x ≠ k ∧ (x, y) ∈ l.
Proof. unfold obj_delete. by rewrite list_elem_of_filter. Qed.

Lemma selectPack_ok p s : state_ok s → state_ok (selectPack p s).
Proof.
  intros [? ? ? ? ? ?]. split; cbn; [intros k H|intros k c H| | | |]; try done;
    try (by apply elem_of_nil in H); constructor.
Qed.

Lemma applyTemplate_ok t p s : state_ok s → state_ok (applyTemplate t p s).
Proof.
  intros [? ? ? ? ? ?]. split; cbn; [|intros k c []%elem_of_nil|constructor|done|by eexists|done].
  by intros k [? _]%list_elem_of_filter.
Qed.

Lemma goTo_ok n s :
  state_ok s → 0 ≤ n ≤ 5 → (2 ≤ n → is_Some (ws_pack s)) → (3 ≤ n → identity_ok s) →
  state_ok (goTo n s).
Proof. intros [? ? ? ? ? ?]. by split. Qed.

Lemma toggleReport_ok k s : state_ok s → k ∈ pack_kinds s → state_ok (toggleReport k s).
Proof.
  intros [? Hs ? ? ? ?] Hk. unfold toggleReport. destruct (memb k (ws_reports s)); split; cbn;
    try done.
  - intros k' [_ ?]%list_elem_of_filter. auto.
  - intros k' c [Hn H']%elem_obj_delete. apply Hs in H' as [? ?]. split; [|done].
    by apply list_elem_of_filter.
  - by apply NoDup_obj_delete.
  - intros k' [?| ->%list_elem_of_singleton]%elem_of_app; auto.
  - intros k' c H'. apply Hs in H' as [? ?]. split; [|done]. apply elem_of_app. by left.
Qed.

Lemma setCronFor_ok k cron s : state_ok s → k ∈ ws_reports s → state_ok (setCronFor k cron s).
Proof.
  intros [? Hs ? ? ? ?] Hk. unfold setCronFor. destruct (present cron) as [c|] eqn:Ec;
    split; cbn; try done.
  - intros k' c' [[-> ->]|H']%elem_obj_set; [|by apply Hs].
    apply present_spec in Ec as [_ ?]. done.
  - by apply NoDup_obj_set.
  - intros k' c' [Hn H']%elem_obj_delete. by apply Hs.
  - by apply NoDup_obj_delete.
Qed.

(** A field outside the identity step leaves the identity alone, and inside it the step is 2. *)
Lemma update_ok f v s :
  state_ok s → (f = FId ∨ f = FName → ws_step s < 3) → state_ok (update f v s).
Proof.
  intros [? ? ? ? ? Hi] Hf. split; cbn; try done. intros H3. specialize (Hi H3).
  unfold identity_ok in *. destruct f; cbn in *; try done; specialize (Hf ltac:(auto)); lia.
Qed.

Lemma mark_edited_ok s : state_ok s → state_ok (mark_edited s).
Proof. intros [? ? ? ? ? ?]. by split. Qed.

(** ** Theorems: the spec *)

Lemma id_char_range c : id_char c = true →
  c = 45 ∨ c = 95 ∨ 48 ≤ c ≤ 57 ∨ 97 ≤ c ≤ 122.
Proof. unfold id_char, id_start. lia. Qed.

Lemma id_char_lower c : id_char c = true → is_ws c = false ∧ lower_unit c = [c].
Proof.
  intros H%id_char_range. split; [unfold is_ws; lia|]. unfold lower_unit.
  destruct ((65 <=? c) && (c <=? 90)) eqn:E; [lia|].
  by rewrite (proj2 (Z.ltb_lt c 192)) by lia.
Qed.

Lemma ID_PATTERN_chars s : ID_PATTERN s = true → s ≠ [] ∧ Forall (λ c, id_char c = true) s.
Proof.
  destruct s as [|c s]; [done|]. cbn. intros [Hc Hs]%andb_true_iff. split; [done|].
  constructor; [unfold id_char; by rewrite Hc|].
  apply Forall_forall. intros x Hx. rewrite forallb_forall in Hs.
  by apply Hs, list_elem_of_In.
Qed.

(** A valid id is posted as typed. *)
Lemma ID_PATTERN_spec s : ID_PATTERN s = true → to_lower (trim s) = s ∧ token s.
Proof.
  intros [Hn Hs]%ID_PATTERN_chars.
  assert (token s) as Ht.
  { split; [done|]. eapply Forall_impl; [exact Hs|]. intros c Hc. by apply id_char_lower. }
  split; [|done]. rewrite (token_trimmed s Ht). clear -Hs. unfold to_lower.
  induction Hs as [|c s Hc _ IH]; [done|]. cbn. rewrite IH.
  by rewrite (proj2 (id_char_lower c Hc)).
Qed.

(** What the server may rely on in a posted spec. *)
Record spec_ok (p : Pack) (sp : CreateAgentSpec) : Prop := {
  spk_id : ID_PATTERN (sp_id sp) = true;
  spk_name : sp_name sp ≠ [];
  spk_domain : sp_domain sp = pk_id p;
  spk_reports : ∀ k, k ∈ sp_reports sp → k ∈ pk_report_kinds p;
  spk_schedule : ∀ k c, (k, c) ∈ sp_schedule sp → k ∈ sp_reports sp ∧ c ≠ [];
  spk_keys : NoDup (map fst (sp_schedule sp));
  spk_persona : sp_persona sp ≠ Some []
}.

Lemma trimmed_field_ne x : trimmed_field x ≠ Some [].
Proof. unfold trimmed_field. cbn. by destruct (trim x). Qed.

Lemma buildSpec_ok s p :
  state_ok s → 3 ≤ ws_step s → ws_pack s = Some p →
  spec_ok p (buildSpec s) ∧ sp_id (buildSpec s) = ws_id s.
Proof.
  intros [H1 H2 H3 H4 H5 H6] Hstep Hp. destruct (H6 Hstep) as [Hid Hname].
  destruct (ID_PATTERN_spec _ Hid) as [El Ht]. unfold pack_kinds in H1. rewrite Hp in H1.
  split; [|done]. split; cbn.
  - by rewrite El.
  - unfold js_or. by rewrite (proj2 (truthy_spec _) Hname).
  - by rewrite Hp.
  - done.
  - done.
  - done.
  - apply trimmed_field_ne.
Qed.
