(* ===== verification/WizardView.v ===== *)
(** The create-agent wizard as a component: views/CreateAgent.tsx with its six steps
    (wizard/staff-template-picker.tsx, components/DomainPicker.tsx, wizard/IdentityStep.tsx,
    wizard/ReportsStep.tsx, wizard/BindingsStep.tsx, wizard/ReviewStep.tsx).

    The state is the shared wizard state and the local state of the step on display.  A change
    of step unmounts one step and mounts another with its initial state; [wd_mount] counts the
    mounts, and a request carries the count under which it was issued, since the answer to a
    request of an unmounted step changes nothing. *)

From S2P Require Import Prelude React Types Labels Json ApiClient Wizard.

(** ** State *)

Record PickerState := {
  tp_list : list StaffTemplate; tp_packs : list Pack; tp_loading : bool; tp_error : option jsstr }.
Record DomainState := { dp_packs : list Pack; dp_loading : bool; dp_error : option jsstr }.
Record ReviewState := {
  rv_busy : bool; rv_error : option jsstr; rv_result : option CreateAgentResult;
  rv_copied : bool }.

(** The local state of the step on display; for the third step, of the schedule builders of the
    checked kinds. *)
Inductive local_state :=
| LPicker (s : PickerState)
| LDomain (s : DomainState)
| LIdentity
| LReports (builders : gmap jsstr SchedState)
| LBindings
| LReview (s : ReviewState).

Record wizard := { wd_state : WizardState; wd_local : local_state; wd_mount : nat }.

Inductive wizard_event :=
| Choose (t : StaffTemplate)
| Skip
| PickPack (p : Pack)
| Edit (f : text_field) (v : jsstr)
| ToggleKind (kind : jsstr)
| Schedule (kind : jsstr) (e : SchedEvent)
| Back
| Next
| Create
| CopyEnv.

(** Requests of the step mounted as number [n]. *)
Inductive wizard_req :=
| LoadTemplates (n : nat)               (* Promise.all of both lists *)
| LoadPacks (n : nat)
| PostAgent (n : nat) (spec : CreateAgentSpec)
| WriteClipboard (n : nat) (text : jsstr).
Definition wizard_resp (r : wizard_req) : Type :=
  match r with
  | LoadTemplates _ => StaffTemplatesPayload * PacksPayload
  | LoadPacks _ => PacksPayload
  | PostAgent _ _ => CreateAgentResult
  | WriteClipboard _ _ => unit
  end%type.

(** ** Mounting a step *)

Definition kinds_of (s : WizardState) : list jsstr :=
  match ws_pack s with Some p => pk_report_kinds p | None => [] end.
Definition servers_of (s : WizardState) : list jsstr :=
  match ws_pack s with Some p => pk_servers p | None => [] end.

(** The builders of the checked kinds, in their initial state. *)
Definition fresh_builders (s : WizardState) : gmap jsstr SchedState :=
  list_to_map (map (λ k, (k, sched_init)) (filter (λ k, memb k (ws_reports s) = true) (kinds_of s))).

Definition mount_step (n : nat) (s : WizardState) : local_state * list wizard_req :=
  if ws_step s =? 0
  then (LPicker {| tp_list := []; tp_packs := []; tp_loading := true; tp_error := None |},
        [LoadTemplates n])
  else if ws_step s =? 1
  then (LDomain {| dp_packs := []; dp_loading := true; dp_error := None |}, [LoadPacks n])
  else if ws_step s =? 2 then (LIdentity, [])
  else if ws_step s =? 3 then (LReports (fresh_builders s), [])
  else if ws_step s =? 4 then (LBindings, [])
  else (LReview {| rv_busy := false; rv_error := None; rv_result := None; rv_copied := false |}, []).

(** [goTo(step)] from a handler of [w]. *)
Definition go (step : Z) (s : WizardState) (w : wizard) : wizard * list wizard_req :=
  let s' := goTo step s in
  if step =? ws_step (wd_state w)
  then ({| wd_state := s'; wd_local := wd_local w; wd_mount := wd_mount w |}, [])
  else let '(l, reqs) := mount_step (S (wd_mount w)) s' in
       ({| wd_state := s'; wd_local := l; wd_mount := S (wd_mount w) |}, reqs).

Definition with_state (s : WizardState) (w : wizard) : wizard :=
  {| wd_state := s; wd_local := wd_local w; wd_mount := wd_mount w |}.
Definition with_local (l : local_state) (w : wizard) : wizard :=
  {| wd_state := wd_state w; wd_local := l; wd_mount := wd_mount w |}.

(** ** Handlers *)

(** [choose(template)] of the template picker, with [onApply] of the wizard. *)
Definition unknown_domain (t : StaffTemplate) : jsstr :=
  cat ["mẫu "; dq; tm_role t; dq; " dùng loại nhân sự "; dq; tm_domain t; dq;
       " chưa cài — chọn thủ công"].
Definition choose (t : StaffTemplate) (p : PickerState) (w : wizard) : wizard * list wizard_req :=
  match find (λ k, bool_decide (pk_id k = tm_domain t)) (tp_packs p) with
  | None =>
      (with_local (LPicker {| tp_list := tp_list p; tp_packs := tp_packs p;
                              tp_loading := tp_loading p;
                              tp_error := Some (unknown_domain t) |}) w, [])
  | Some pack => go 2 (applyTemplate t pack (wd_state w)) w
  end.

(** The [onChange] handlers of the identity step; those of the binding fields only update. *)
Definition regenerate (role goals : jsstr) (edited : bool) (s : WizardState) : WizardState :=
  if edited then s else update FPersona (generateSoulMarkdown role goals) s.
Definition edit (f : text_field) (v : jsstr) (s : WizardState) : WizardState :=
  match f with
  | FId => update FId (to_lower v) s
  | FRole => regenerate v (ws_goals s) (ws_personaEdited s) (update FRole v s)
  | FGoals => regenerate (ws_role s) v (ws_personaEdited s) (update FGoals v s)
  | FPersona => update FPersona v (mark_edited s)
  | _ => update f v s
  end.

(** Checking a kind mounts its builder, unchecking unmounts it. *)
Definition toggle_builder (kind : jsstr) (s : WizardState) (b : gmap jsstr SchedState) :
    gmap jsstr SchedState :=
  if memb kind (ws_reports s) then delete kind b else <[kind := sched_init]> b.

Definition set_review (busy : bool) (error : option jsstr) (result : option CreateAgentResult)
    (copied : bool) (w : wizard) : wizard :=
  with_local (LReview {| rv_busy := busy; rv_error := error; rv_result := result;
                         rv_copied := copied |}) w.

Definition wizard_handle (e : wizard_event) (w : wizard) : wizard * list wizard_req :=
  let s := wd_state w in
  match e, wd_local w with
  | Choose t, LPicker p => choose t p w
  | Skip, _ => go 1 s w
  | PickPack p, _ => (with_state (selectPack p s) w, [])
  | Edit f v, _ => (with_state (edit f v s) w, [])
  | ToggleKind k, LReports b =>
      ({| wd_state := toggleReport k s; wd_local := LReports (toggle_builder k s b);
          wd_mount := wd_mount w |}, [])
  | Schedule k e, LReports b =>
      match b !! k with
      | Some sc =>
          let '(sc', cron) := sched_handle e sc in
          ({| wd_state := setCronFor k cron s; wd_local := LReports (<[k := sc']> b);
              wd_mount := wd_mount w |}, [])
      | None => (w, [])
      end
  | Back, _ => go (ws_step s - 1) s w
  | Next, _ => go (ws_step s + 1) s w
  | Create, LReview r =>
      (set_review true None (rv_result r) (rv_copied r) w, [PostAgent (wd_mount w) (buildSpec s)])
  | CopyEnv, LReview _ => (w, [WriteClipboard (wd_mount w) (buildEnvTemplate (servers_of s))])
  | _, _ => (w, [])
  end.

(** The mount count of a request. *)
Definition req_mount (r : wizard_req) : nat :=
  match r with
  | LoadTemplates n | LoadPacks n | PostAgent n _ | WriteClipboard n _ => n
  end.

Definition wizard_resume (r : wizard_req) :
    result (wizard_resp r) → wizard → wizard * list wizard_req :=
  match r return result (wizard_resp r) → wizard → wizard * list wizard_req with
  | LoadTemplates n => λ a w,
      match wd_local w with
      | LPicker p =>
          if Nat.eqb n (wd_mount w) then
            (with_local (LPicker
               match a with
               | Ok (t, k) => {| tp_list := tp_templates t; tp_packs := pp_packs k;
                                 tp_loading := false; tp_error := tp_error p |}
               | Err e => {| tp_list := tp_list p; tp_packs := tp_packs p; tp_loading := false;
                             tp_error := Some (error_message e "không tải được mẫu nhân sự") |}
               end) w, [])
          else (w, [])
      | _ => (w, [])
      end
  | LoadPacks n => λ a w,
      match wd_local w with
      | LDomain d =>
          if Nat.eqb n (wd_mount w) then
            (with_local (LDomain
               match a with
               | Ok k => {| dp_packs := pp_packs k; dp_loading := false; dp_error := dp_error d |}
               | Err e => {| dp_packs := dp_packs d; dp_loading := false;
                             dp_error := Some (error_message e "không tải được loại nhân sự") |}
               end) w, [])
          else (w, [])
      | _ => (w, [])
      end
  | PostAgent n _ => λ a w,
      match wd_local w with
      | LReview r =>
          if Nat.eqb n (wd_mount w) then
            (match a with
             | Ok res => set_review false (rv_error r) (Some res) (rv_copied r) w
             | Err e => set_review false (Some (error_message e "tạo thất bại")) (rv_result r)
                          (rv_copied r) w
             end, [])
          else (w, [])
      | _ => (w, [])
      end
  | WriteClipboard n _ => λ a w,
      match wd_local w with
      | LReview r =>
          if Nat.eqb n (wd_mount w) then
            (match a with
             | Ok _ => set_review (rv_busy r) (rv_error r) (rv_result r) true w
             | Err _ => w
             end, [])
          else (w, [])
      | _ => (w, [])
      end
  end.

(** ** Views of the steps *)

Definition template_card (t : StaffTemplate) : node wizard_event :=
  El "div" [AStr "className" "staff-template-card"] [
    El "strong" [] [Txt (tm_role t)];
    El "div" [AStr "className" "muted"] [Txt "loại nhân sự: "; Txt (tm_domain t)];
    El "div" [AStr "className" "muted"] [
      Txt "báo cáo: ";
      Txt (if Nat.ltb 0 (length (tm_reports t)) then join ", " (tm_reports t) else "không có")];
    El "button" [AStr "type" "button"; AOn (OnClick (Choose t))] [Txt "Dùng mẫu này"]].

Definition skip_nav : node wizard_event :=
  El "div" [AStr "className" "wizard-nav"] [
    El "button" [AStr "type" "button"; AOn (OnClick Skip)] [Txt "Bỏ qua, tự chọn"]].

Definition error_line {E} (error : option jsstr) : list (node E) :=
  match present error with
  | Some m => [El "p" [AStr "className" "error"] [Txt "Lỗi: "; Txt m]]
  | None => []
  end.

Definition StaffTemplatePicker (p : PickerState) : list (node wizard_event) :=
  if tp_loading p then [El "p" [] [Txt "Đang tải…"]]
  else if truthy_opt (tp_error p) && Nat.eqb (length (tp_list p)) 0
  then [El "section" [] (error_line (tp_error p) ++ [skip_nav])]
  else [El "section" [] (
    [El "h3" [] [Txt "Bước 0: Chọn mẫu nhân sự (không bắt buộc)"]]
    ++ error_line (tp_error p)
    ++ [if Nat.eqb (length (tp_list p)) 0
        then El "p" [AStr "className" "muted"]
               [Txt "Chưa có mẫu nhân sự nào — tự chọn ở bước tiếp theo."]
        else El "div" [AStr "className" "staff-template-grid"] (map template_card (tp_list p));
        skip_nav])].

Definition kind_text_of (k : jsstr) : jsstr := labelFor KIND_LABEL (Some k).

Definition domain_option (selected : option jsstr) (p : Pack) : node wizard_event :=
  El "label" [AStr "className" "domain-picker-option"] [
    El "input" [AStr "type" "radio"; AStr "name" "domain"; AStr "value" (pk_id p);
                ABool "checked" (bool_decide (selected = Some (pk_id p)));
                AOn (OnCheck (λ _, PickPack p))] [];
    Txt " "; El "strong" [] [Txt (pk_name p)]; Txt " ";
    El "span" [AStr "className" "muted"] [Txt "("; Txt (pk_id p); Txt ")"];
    El "div" [AStr "className" "muted"] [
      Txt "báo cáo: "; Txt (js_or (join ", " (map kind_text_of (pk_report_kinds p))) "không có")]].

Definition DomainPicker (selected : option jsstr) (d : DomainState) : list (node wizard_event) :=
  if dp_loading d then [El "p" [] [Txt "Đang tải…"]]
  else if truthy_opt (dp_error d) then error_line (dp_error d)
  else if Nat.eqb (length (dp_packs d)) 0
  then [El "p" [AStr "className" "muted"] [Txt "Chưa cài loại nhân sự nào."]]
  else [El "fieldset" [AStr "className" "domain-picker"] (
    El "legend" [] [Txt "Chọn loại nhân sự"] :: map (domain_option selected) (dp_packs d))].

(** A labelled text input. *)
Definition text_input (label : jsstr) (f : text_field) (value : jsstr)
    (more : list (attr wizard_event)) : node wizard_event :=
  El "label" [] [
    Txt label; Txt " ";
    El "input" ([AStr "value" value; AOn (OnText (Edit f))] ++ more) []].

Definition IdentityStep (s : WizardState) : list (node wizard_event) :=
  let idValid := bool_decide (ws_id s = "") || ID_PATTERN (ws_id s) in
  [El "section" [] (
    [El "h3" [] [Txt "Bước 2: Danh tính"];
     text_input "Mã agent (chữ thường, không dấu, ví dụ: sales-pm):" FId (ws_id s)
       [AStr "placeholder" "sales-pm"]]
    ++ when (negb idValid)
         [El "p" [AStr "className" "error"]
            [Txt "Mã chỉ gồm chữ thường/số/gạch, bắt đầu bằng chữ hoặc số (vd: sales-pm)"]]
    ++ [El "br" [] [];
        text_input "Tên hiển thị:" FName (ws_name s) [AStr "placeholder" "PM Kinh doanh"];
        El "h4" [] [Txt "Gợi ý tính cách (không bắt buộc)"];
        text_input "Vai trò:" FRole (ws_role s)
          [AStr "placeholder" "quản lý dự án cho đội Kinh doanh"];
        El "br" [] [];
        El "label" [] [
          Txt "Mục tiêu (mỗi dòng một ý):"; Txt " ";
          El "textarea" [AStr "value" (ws_goals s); AOn (OnText (Edit FGoals));
                         AStr "rows" "3"] []];
        El "h4" [] [Txt "SOUL.md (chỉnh được)"];
        El "textarea" [AStr "className" "persona-textarea"; AStr "value" (ws_persona s);
                       AOn (OnText (Edit FPersona)); AStr "rows" "8"] []])].

Definition report_kind (s : WizardState) (b : gmap jsstr SchedState) (kind : jsstr) :
    node wizard_event :=
  El "div" [AStr "className" "reports-step-kind"] (
    [El "label" [] [
       El "input" [AStr "type" "checkbox"; ABool "checked" (memb kind (ws_reports s));
                   AOn (OnCheck (λ _, ToggleKind kind))] [];
       Txt " "; Txt (kind_text_of kind)]]
    ++ when (memb kind (ws_reports s))
         match b !! kind with
         | Some sc => map (map_node (Schedule kind)) (ScheduleBuilder kind sc)
         | None => []
         end).

Definition ReportsStep (s : WizardState) (b : gmap jsstr SchedState) : list (node wizard_event) :=
  [El "section" [] (
    [El "h3" [] [Txt "Bước 3: Báo cáo + lịch chạy"]]
    ++ when (Nat.eqb (length (kinds_of s)) 0)
         [El "p" [AStr "className" "muted"] [Txt "Loại nhân sự này chưa có báo cáo nào."]]
    ++ map (report_kind s b) (kinds_of s))].

Definition BindingsStep (s : WizardState) : list (node wizard_event) :=
  let servers : gset jsstr := list_to_set (servers_of s) in
  let group (server legend : jsstr) (fields : list (node wizard_event)) :=
    when (bool_decide (server ∈ servers))
      [El "fieldset" [] (El "legend" [] [Txt legend] :: fields)] in
  [El "section" [] (
    [El "h3" [] [Txt "Bước 4: Kết nối (không bắt buộc)"]]
    ++ group "jira" "Jira" [text_input "Mã dự án (project key):" FJira (ws_jiraProjectKey s) []]
    ++ group "confluence" "Confluence" [
         text_input "Mã space:" FSpaceKey (ws_confluenceSpaceKey s) []; Txt " ";
         text_input "ID space:" FSpaceId (ws_confluenceSpaceId s) []; Txt " ";
         text_input "ID trang OKR:" FOkrPage (ws_confluenceOkrPageId s) []]
    ++ group "github" "GitHub" [text_input "Repo (owner/name):" FRepo (ws_githubRepo s) []]
    ++ group "slack" "Slack" (
         [text_input "Kênh báo cáo:" FReportChannel (ws_slackReportChannel s) []; Txt " ";
          text_input "Kênh cho khách/sếp:" FStakeholder (ws_slackStakeholderChannel s) []; Txt " ";
          text_input "Kênh bên ngoài (cách nhau dấu phẩy):" FExternal (ws_slackExternalChannels s)
            [AStr "placeholder" "C123,C456"]]
         ++ when (stakeholderChannelMissing s)
              [El "p" [AStr "className" "muted"]
                 [Txt "Gợi ý: kênh khách/sếp thường cũng nằm trong danh sách kênh bên ngoài"]])
    ++ when (Nat.eqb (size servers) 0)
         [El "p" [AStr "className" "muted"] [Txt "Loại nhân sự này không cần kết nối ghi."]])].

Definition ReviewStep (spec : CreateAgentSpec) (servers : list jsstr) (r : ReviewState) :
    list (node wizard_event) :=
  [El "section" [] (
    [El "h3" [] [Txt "Bước 5: Xem lại + tạo"];
     El "pre" [AStr "className" "review-spec"] [Txt (json_pretty 0 (spec_json spec))];
     El "div" [AStr "className" "token-setup-box"] [
       El "h4" [] [Txt "Cài đặt token"];
       El "p" [AStr "className" "muted"] [
         Txt "Đây chỉ là TÊN biến môi trường — đừng nhập giá trị bí mật ở đây. Người phụ trách kỹ thuật sẽ điền giá trị thật vào file .env trên máy chủ."];
       El "pre" [AStr "className" "env-template"] [Txt (buildEnvTemplate servers)];
       El "button" [AStr "type" "button"; AOn (OnClick CopyEnv)]
         [Txt (if rv_copied r then "Đã chép!" else "Chép mẫu .env")]]]
    ++ error_line (rv_error r)
    ++ match rv_result r with
       | None =>
           [El "button" [AStr "type" "button"; ADisabled (rv_busy r); AOn (OnClick Create)]
              [Txt (if rv_busy r then "Đang tạo…" else "Tạo agent")]]
       | Some res =>
           [El "p" [AStr "className" "ok"] [
              Txt "Đã tạo agent "; El "strong" [] [Txt (cr_id res)]; Txt "."; Txt " ";
              El "a" [AStr "href" (cat ["/agents/"; cr_id res])] [Txt "Mở trang agent"];
              Txt " để gắn bot Telegram (nhắn được ngay) và quản lý."]]
       end)].

Definition STEP_LABELS : list jsstr :=
  ["Mẫu nhân sự"; "Loại nhân sự"; "Danh tính"; "Báo cáo"; "Kết nối"; "Xem lại"].

Definition step_label (step : Z) (i : nat) (label : jsstr) : node wizard_event :=
  El "li" (if step =? Z.of_nat i then [AStr "className" "wizard-step-active"] else [])
    [Txt (z_str (Z.of_nat i)); Txt ". "; Txt label].

Definition step_view (w : wizard) : list (node wizard_event) :=
  let s := wd_state w in
  match wd_local w with
  | LPicker p => StaffTemplatePicker p
  | LDomain d => DomainPicker (option_map pk_id (ws_pack s)) d
  | LIdentity => IdentityStep s
  | LReports b => ReportsStep s b
  | LBindings => BindingsStep s
  | LReview r => ReviewStep (buildSpec s) (servers_of s) r
  end.

Definition CreateAgent (w : wizard) : list (node wizard_event) :=
  let s := wd_state w in
  [El "section" [] (
    [El "h2" [] [Txt "Tạo nhân sự ảo"];
     El "ol" [AStr "className" "wizard-steps"] (imap (step_label (ws_step s)) STEP_LABELS)]
    ++ step_view w
    ++ [El "div" [AStr "className" "wizard-nav"] (
          when (0 <? ws_step s)
            [El "button" [AStr "type" "button"; AOn (OnClick Back)] [Txt "Quay lại"]]
          ++ [Txt " "]
          ++ when ((0 <? ws_step s) && (ws_step s <? 5))
               [El "button" [AStr "type" "button";
                             ADisabled (negb (canAdvanceFrom s (ws_step s)));
                             AOn (OnClick Next)] [Txt "Tiếp"]])])].

Definition create_agent : component :=
  {| c_state := wizard; c_event := wizard_event; c_req := wizard_req; c_resp := wizard_resp;
     c_init :=
       ({| wd_state := INITIAL; wd_local := fst (mount_step 0 INITIAL); wd_mount := 0 |},
        snd (mount_step 0 INITIAL));
     c_view := CreateAgent; c_env := λ _ _, False;
     c_handle := wizard_handle; c_resume := wizard_resume |}.

(** ** What each step offers *)

Lemma error_line_offers {E} o (e : E) : offers (error_line o) e ↔ False.
Proof. unfold error_line. split; [|done]. intros H. inv_offers. Qed.

Lemma picker_offers p e :
  offers (StaffTemplatePicker p) e → e = Skip ∨ ∃ t, t ∈ tp_list p ∧ e = Choose t.
Proof.
  intros H. unfold StaffTemplatePicker, skip_nav in H. inv_offers;
    try by (rewrite error_line_offers in H).
  all: try by left.
  unfold template_card in H. inv_offers. eauto.
Qed.

Lemma domain_offers sel d e :
  offers (DomainPicker sel d) e → ∃ p, p ∈ dp_packs d ∧ e = PickPack p.
Proof.
  intros H. unfold DomainPicker in H. inv_offers; try by (rewrite error_line_offers in H).
  unfold domain_option in H. inv_offers. eauto.
Qed.

Lemma text_input_offers l f v m e :
  flat_map attr_handler m = [] → offers [text_input l f v m] e → ∃ x, e = Edit f x.
Proof.
  intros Hm H. unfold text_input in H. inv_offers; [eauto|].
  rewrite Hm in H. inv_offers.
Qed.

Ltac inv_inputs :=
  inv_offers;
  repeat match goal with
  | H : offers [text_input _ _ _ _] _ |- _ => apply text_input_offers in H as [? ->]; [|done]
  end.

Definition identity_field (f : text_field) : Prop :=
  f = FId ∨ f = FName ∨ f = FRole ∨ f = FGoals ∨ f = FPersona.

Lemma identity_offers s e :
  offers (IdentityStep s) e → ∃ f v, identity_field f ∧ e = Edit f v.
Proof. intros H. unfold IdentityStep, identity_field in *. inv_inputs; eauto 10. Qed.

Lemma bindings_offers s e :
  offers (BindingsStep s) e → ∃ f v, ¬ identity_field f ∧ e = Edit f v.
Proof.
  intros H. unfold BindingsStep, identity_field in *. inv_inputs;
    eexists _, _; (split; [|reflexivity]); naive_solver.
Qed.

Lemma reports_offers s b e :
  offers (ReportsStep s b) e →
  ∃ k, k ∈ kinds_of s ∧
    (e = ToggleKind k ∨ ∃ sc ev, e = Schedule k ev ∧ k ∈ ws_reports s ∧ b !! k = Some sc).
Proof.
  intros H. unfold ReportsStep in H. inv_offers. unfold report_kind in H. inv_offers; [eauto|].
  eexists. split; [eassumption|]. right. eexists _, _. split; [eassumption|].
  split; [by apply memb_spec|eassumption].
Qed.

Lemma review_offers spec servers r e :
  offers (ReviewStep spec servers r) e →
  e = CopyEnv ∨ e = Create ∧ rv_busy r = false ∧ rv_result r = None.
Proof.
  intros H. unfold ReviewStep in H. inv_offers; try by (rewrite error_line_offers in H).
  all: eauto.
Qed.

Lemma wizard_offers w e :
  offers (CreateAgent w) e →
  offers (step_view w) e ∨ (e = Back ∧ 0 < ws_step (wd_state w)) ∨
  (e = Next ∧ 0 < ws_step (wd_state w) < 5 ∧
   canAdvanceFrom (wd_state w) (ws_step (wd_state w)) = true).
Proof.
  intros H. unfold CreateAgent in H. inv_offers; auto.
  - unfold step_label in H. destruct (_ =? _) in H; inv_offers.
  - right; left. split; [done|lia].
  - right; right. split; [done|]. split; [lia|].
    match goal with H : negb _ = false |- _ => by apply negb_false_iff in H end.
Qed.

(** ** The invariant *)

(** The step on display is the step of the state; only checked kinds have a builder. *)
Definition local_ok (w : wizard) : Prop :=
  let step := ws_step (wd_state w) in
  match wd_local w with
  | LPicker _ => step = 0
  | LDomain _ => step = 1
  | LIdentity => step = 2
  | LReports b => step = 3 ∧ ∀ k, is_Some (b !! k) → k ∈ ws_reports (wd_state w)
  | LBindings => step = 4
  | LReview _ => step = 5
  end.

(** The creations requested by the mounted step, and how many its state allows. *)
Definition own_post (n : nat) (r : wizard_req) : bool :=
  match r with PostAgent m _ => Nat.eqb m n | _ => false end.
Definition own_posts (n : nat) (q : list wizard_req) : nat := length (List.filter (own_post n) q).
Definition posts_allowed (l : local_state) : nat :=
  match l with LReview r => if rv_busy r then 1 else 0 | _ => 0 end%nat.

Definition flight_ok (w : wizard) (q : list wizard_req) : Prop :=
  Forall (λ r, (req_mount r ≤ wd_mount w)%nat) q ∧
  (own_posts (wd_mount w) q ≤ posts_allowed (wd_local w))%nat.

Definition wizard_inv (w : wizard) (q : list wizard_req) : Prop :=
  state_ok (wd_state w) ∧ local_ok w ∧ flight_ok w q.

Lemma own_posts_app n q1 q2 : own_posts n (q1 ++ q2) = (own_posts n q1 + own_posts n q2)%nat.
Proof. unfold own_posts. by rewrite List.filter_app, length_app. Qed.

Lemma own_posts_none n q : Forall (λ r, (req_mount r < n)%nat) q → own_posts n q = 0%nat.
Proof.
  unfold own_posts. induction 1 as [|r q Hr _ IH]; cbn; [done|].
  assert (own_post n r = false) as ->; [|done].
  destruct r; cbn in *; try done. apply Nat.eqb_neq. lia.
Qed.

Lemma fresh_builders_checked s k :
  is_Some (fresh_builders s !! k) → k ∈ ws_reports s.
Proof.
  unfold fresh_builders. intros [sc H%elem_of_list_to_map_2].
  apply list_elem_of_fmap in H as (k' & [= -> _] & H).
  apply list_elem_of_filter in H as [H _]. by apply memb_spec.
Qed.

Lemma mount_step_ok n s :
  0 ≤ ws_step s ≤ 5 →
  local_ok {| wd_state := s; wd_local := fst (mount_step n s); wd_mount := n |} ∧
  Forall (λ r, req_mount r = n) (snd (mount_step n s)) ∧ own_posts n (snd (mount_step n s)) = 0%nat.
Proof.
  intros Hs. unfold mount_step.
  assert (∀ r, req_mount r = n → own_post n r = false → 
    Forall (λ r, req_mount r = n) [r] ∧ own_posts n [r] = 0%nat) as H1.
  { intros r Hr Ho. split; [by constructor|]. unfold own_posts. cbn. by rewrite Ho. }
  assert (Forall (λ r, req_mount r = n) [] ∧ own_posts n [] = 0%nat) as H0 by done.
  destruct (Z.eqb_spec (ws_step s) 0) as [E|]; [split; [exact E|by apply H1]|].
  destruct (Z.eqb_spec (ws_step s) 1) as [E|]; [split; [exact E|by apply H1]|].
  destruct (Z.eqb_spec (ws_step s) 2) as [E|]; [split; [exact E|exact H0]|].
  destruct (Z.eqb_spec (ws_step s) 3) as [E|].
  { split; [|exact H0]. split; [exact E|apply fresh_builders_checked]. }
  destruct (Z.eqb_spec (ws_step s) 4) as [E|]; (split; [|exact H0]); [exact E|].
  unfold local_ok. cbn. lia.
Qed.

(** A change of step keeps the invariant when the new step may be entered. *)
Lemma go_ok n s w q :
  wizard_inv w q → state_ok (goTo n s) → n ≠ ws_step (wd_state w) →
  wizard_inv (fst (go n s w)) (q ++ snd (go n s w)).
Proof.
  intros (_ & _ & Hq & _) Hs Hn. unfold go. rewrite (proj2 (Z.eqb_neq _ _) Hn).
  destruct (mount_step_ok (S (wd_mount w)) (goTo n s) (so_steps _ Hs)) as (H1 & H2 & H3).
  destruct (mount_step (S (wd_mount w)) (goTo n s)) as [l reqs]. cbn [fst snd] in *.
  split; [done|]. split; [done|]. split; cbn [wd_mount wd_local].
  - apply Forall_app. split; eapply Forall_impl; try done; cbn; intros; lia.
  - rewrite own_posts_app, H3, own_posts_none; [lia|].
    eapply Forall_impl; [done|]. cbn. intros; lia.
Qed.

(** A change of the shared state only. *)
Lemma with_state_ok s w q :
  wizard_inv w q → state_ok s → ws_step s = ws_step (wd_state w) →
  ws_reports s = ws_reports (wd_state w) ∨ ws_step s ≠ 3 →
  wizard_inv (with_state s w) (q ++ []).
Proof.
  intros (_ & Hl & Hq) Hs Hstep Hr. rewrite app_nil_r. split; [done|]. split; [|done].
  unfold local_ok in *. cbn. rewrite Hstep. destruct (wd_local w); try done.
  destruct Hl as [? Hl]. split; [done|]. destruct Hr as [->|]; [done|congruence].
Qed.

Lemma edit_ok f v s :
  state_ok s → (identity_field f → ws_step s = 2) → state_ok (edit f v s).
Proof.
  intros Hs Hf. unfold edit, regenerate, identity_field in *.
  assert (∀ g x s, state_ok s → g ≠ FId → g ≠ FName → state_ok (update g x s)) as Hu.
  { intros g x s' H ? ?. apply update_ok; naive_solver. }
  destruct f; cbv iota.
  1,2: apply update_ok; [done|intros _; rewrite Hf; [lia|auto]].
  3: by apply Hu; [apply mark_edited_ok|..].
  1,2: destruct (ws_personaEdited s); [by apply Hu|by apply Hu; [apply Hu|..]].
  all: by apply Hu.
Qed.

Lemma edit_fixed f v s :
  ws_step (edit f v s) = ws_step s ∧ ws_reports (edit f v s) = ws_reports s.
Proof. unfold edit, regenerate. destruct f; cbn; try done; by case_match. Qed.

(** Replacing the local state by one of the same step, with the posts it issues. *)
Lemma with_local_ok l w q reqs :
  wizard_inv w q → local_ok (with_local l w) →
  Forall (λ r, req_mount r = wd_mount w) reqs →
  (own_posts (wd_mount w) q + own_posts (wd_mount w) reqs ≤ posts_allowed l)%nat →
  wizard_inv (with_local l w) (q ++ reqs).
Proof.
  intros (Hs & _ & Hq & _) Hl Hr Hp. split; [done|]. split; [done|]. split; cbn [wd_mount wd_local with_local].
  - apply Forall_app. split; [done|]. eapply Forall_impl; [done|]. cbn. intros; lia.
  - by rewrite own_posts_app.
Qed.

Lemma kinds_pack s : kinds_of s = pack_kinds s.
Proof. done. Qed.

(** Where an offered event can come from, with the step it belongs to. *)
Lemma step_events w e :
  local_ok w → offers (step_view w) e →
  match e with
  | Choose t => ∃ p, wd_local w = LPicker p ∧ t ∈ tp_list p
  | Skip => ∃ p, wd_local w = LPicker p
  | PickPack p => ∃ d, wd_local w = LDomain d ∧ p ∈ dp_packs d
  | Edit f _ => identity_field f ∧ wd_local w = LIdentity ∨ ¬ identity_field f ∧ wd_local w = LBindings
  | ToggleKind k => ∃ b, wd_local w = LReports b ∧ k ∈ kinds_of (wd_state w)
  | Schedule k _ => ∃ b, wd_local w = LReports b ∧ is_Some (b !! k) ∧ k ∈ ws_reports (wd_state w)
  | Back | Next => False
  | Create => ∃ r, wd_local w = LReview r ∧ rv_busy r = false ∧ rv_result r = None
  | CopyEnv => ∃ r, wd_local w = LReview r
  end.
Proof.
  intros Hl. unfold step_view. destruct (wd_local w) as [p|d| |b| |r] eqn:E; intros H.
  - apply picker_offers in H as [->|(t & Ht & ->)]; eauto.
  - apply domain_offers in H as (p & Hp & ->). eauto.
  - apply identity_offers in H as (f & v & Hf & ->). auto.
  - apply reports_offers in H as (k & Hk & [->|(sc & ev & -> & Hr & Hb)]); eauto.
  - apply bindings_offers in H as (f & v & Hf & ->). auto.
  - apply review_offers in H as [->|[-> [Hb Hr]]]; eauto.
Qed.

Lemma wizard_event_ok e w q :
  wizard_inv w q → offers (CreateAgent w) e →
  wizard_inv (fst (wizard_handle e w)) (q ++ snd (wizard_handle e w)).
Proof.
  intros Hi Ho. pose proof Hi as (Hs & Hl & Hq & Hp).
  pose proof (so_steps _ Hs) as Hrange.
  apply wizard_offers in Ho as [Ho|[[-> Hb]|[-> [Hn Hc]]]].
  - apply step_events in Ho; [|done].
    destruct e as [t| |p|f v|k|k ev| | | |]; cbn [wizard_handle]; try done.
    + destruct Ho as (p & E & _). rewrite E. unfold choose.
      destruct (find _ _) as [pack|].
      * unfold local_ok in Hl. rewrite E in Hl. apply go_ok; [done| |lia].
        apply goTo_ok; [by apply applyTemplate_ok|lia|by eexists|lia].
      * apply with_local_ok; [done|unfold local_ok in *; by rewrite E in Hl|constructor|].
        rewrite E in Hp. cbn in *. lia.
    + destruct Ho as (p & E). unfold local_ok in Hl. rewrite E in Hl.
      apply go_ok; [done|apply goTo_ok; try done; lia|lia].
    + destruct Ho as (d & E & _). unfold local_ok in Hl. rewrite E in Hl.
      apply with_state_ok; [done|by apply selectPack_ok|done|right; cbn; lia].
    + destruct (edit_fixed f v (wd_state w)) as [E1 E2].
      apply with_state_ok; [done| |done|by left]. apply edit_ok; [done|].
      unfold local_ok in Hl. intros Hf. destruct Ho as [[_ E]|[? _]]; [by rewrite E in Hl|done].
    + destruct Ho as (b & E & Hk). rewrite E, app_nil_r. cbn.
      unfold local_ok in Hl. rewrite E in Hl. destruct Hl as [Hl Hb].
      split; [by apply toggleReport_ok|]. rewrite E in Hp. split; [|by split].
      unfold local_ok, toggleReport, toggle_builder. cbn.
      destruct (memb k (ws_reports (wd_state w))); cbn; (split; [done|]); intros k' Hk'.
      * destruct (decide (k' = k)) as [->|Hne]; [by rewrite lookup_delete_eq in Hk'; destruct Hk'|].
        rewrite lookup_delete_ne in Hk' by done. apply list_elem_of_filter. auto.
      * destruct (decide (k' = k)) as [->|Hne]; [set_solver|].
        rewrite lookup_insert_ne in Hk' by done. apply elem_of_app. auto.
    + destruct Ho as (b & E & [sc Hsc] & Hk). rewrite E. cbn. rewrite Hsc.
      destruct (sched_handle ev sc) as [sc' cron]. cbn. rewrite app_nil_r.
      unfold local_ok in Hl. rewrite E in Hl. destruct Hl as [Hl Hb].
      split; [by apply setCronFor_ok|]. rewrite E in Hp. split; [|by split].
      split; [done|]. cbn. intros k' Hk'.
      destruct (decide (k' = k)) as [->|Hne]; [done|].
      rewrite lookup_insert_ne in Hk' by done. auto.
    + destruct Ho as (r & E & Hbusy & _). rewrite E in *. cbn [posts_allowed] in Hp.
      rewrite Hbusy in Hp. apply with_local_ok; [done| |by repeat constructor|].
      * unfold local_ok in *. by rewrite E in Hl.
      * cbn [posts_allowed rv_busy]. unfold own_posts at 2. cbn. rewrite Nat.eqb_refl. cbn. lia.
    + destruct Ho as (r & E). rewrite E. cbn. split; [done|]. split; [done|]. split.
      * apply Forall_app. split; [done|]. by repeat constructor.
      * rewrite own_posts_app. unfold own_posts at 2. cbn. lia.
  - cbn [wizard_handle]. apply go_ok; [done| |lia].
    apply goTo_ok; [done|lia|..]; intros; [apply Hs|apply (so_identity _ Hs)]; lia.
  - cbn [wizard_handle]. apply go_ok; [done| |lia].
    apply goTo_ok; [done|lia|..]; intros Hge.
    + destruct (Z_le_gt_dec 2 (ws_step (wd_state w))) as [?|?]; [by apply Hs|].
      assert (ws_step (wd_state w) = 1) as E1 by lia. rewrite E1 in Hc. cbn in Hc.
      by destruct (ws_pack (wd_state w)).
    + destruct (Z_le_gt_dec 3 (ws_step (wd_state w))) as [?|?]; [by apply Hs|].
      assert (ws_step (wd_state w) = 2) as E1 by lia. rewrite E1 in Hc. cbn in Hc.
      apply andb_true_iff in Hc as [[_ Hid]%andb_true_iff Hname].
      split; [done|]. by apply truthy_spec.
Qed.

Lemma own_posts_middle n q1 r q2 :
  own_posts n (q1 ++ r :: q2) = (own_posts n (q1 ++ q2) + (if own_post n r then 1 else 0))%nat.
Proof.
  rewrite !own_posts_app. unfold own_posts. cbn. destruct (own_post n r); cbn; lia.
Qed.

(** The answer to a request leaves the shared state and the mount count; only the answer to the
    creation of the mounted step lowers the number of creations its state allows. *)
Lemma wizard_resume_spec r a w :
  let w' := fst (wizard_resume r a w) in
  snd (wizard_resume r a w) = [] ∧ wd_state w' = wd_state w ∧ wd_mount w' = wd_mount w ∧
  (local_ok w → local_ok w') ∧
  (posts_allowed (wd_local w) ≤
     posts_allowed (wd_local w') + (if own_post (wd_mount w) r then 1 else 0))%nat.
Proof.
  cbn zeta. destruct r as [n|n|n sp|n t]; cbn [wizard_resume own_post];
    destruct (wd_local w) as [p|d| |b| |rv] eqn:E; cbn [fst snd];
    try (rewrite E; split_and!; try done; lia);
    destruct (Nat.eqb n (wd_mount w)); cbn [fst snd];
    try (rewrite E; split_and!; try done; lia);
    destruct a as [a|err]; unfold local_ok; cbn; rewrite ?E;
    try destruct a; cbn; split_and!; try done; destruct (rv_busy rv); cbn; lia.
Qed.

#[export] Instance wizard_inv_holds : Invariant (C := create_agent) any wizard_inv.
Proof.
  split.
  - split; [|split; [done|split; [by repeat constructor|done]]].
    split; cbn; try done; try lia; try constructor; set_solver.
  - intros e w q Hi [Ho|[]]. by apply wizard_event_ok.
  - intros r a w q1 q2 _ (Hs & Hl & Hq & Hp).
    destruct (wizard_resume_spec r a w) as (E1 & E2 & E3 & E4 & E5).
    change (wizard_inv (fst (wizard_resume r a w)) (q1 ++ q2 ++ snd (wizard_resume r a w))).
    rewrite E1, app_nil_r.
    split; [by rewrite E2|]. split; [by apply E4|]. split; rewrite E3.
    + apply Forall_app in Hq as [H1 H2]. inversion H2; subst. by apply Forall_app.
    + rewrite own_posts_middle in Hp. cbv zeta in E5.
      destruct (own_post (wd_mount w) r); cbn in Hp |- *; lia.
Qed.

(** A change of step requests lists only. *)
Lemma go_requests n s w m sp : PostAgent m sp ∈ snd (go n s w) → False.
Proof.
  unfold go. destruct (_ =? _); [intros H; by apply elem_of_nil in H|].
  unfold mount_step. repeat destruct (_ =? _); cbn; rewrite ?elem_of_cons, ?elem_of_nil; naive_solver.
Qed.

(** ** Theorems *)

Notation wizard_world := (world create_agent).

(** What a creation request carries. *)
Lemma post_from_review (w : wizard_world) n sp :
  reachable any w → issues any w (PostAgent n sp) →
  (∃ r, wd_local (w_state w) = LReview r) ∧
  sp = buildSpec (wd_state (w_state w)) ∧ sp_id sp = ws_id (wd_state (w_state w)) ∧
  own_posts (wd_mount (w_state w)) (w_flight w) = 0%nat ∧
  ∃ p, ws_pack (wd_state (w_state w)) = Some p ∧ spec_ok p sp.
Proof.
  intros Hw Hi. pose proof (invariant_holds (C := create_agent) any wizard_inv w Hw) as Hinv.
  apply issues_inv in Hi as [(e & [Ho|[]] & Hr)|(r & a & _ & Hr)].
  - destruct w as [w q]. cbn [w_state w_flight] in *. destruct Hinv as (Hs & Hl & Hf & Hp).
    change (PostAgent n sp ∈ snd (wizard_handle e w)) in Hr.
    assert (∃ r, e = Create ∧ sp = buildSpec (wd_state w) ∧ wd_local w = LReview r ∧ rv_busy r = false)
      as (r & -> & -> & El & Hb).
    { apply wizard_offers in Ho as [Ho|[[-> ?]|[-> ?]]];
        [|by apply go_requests in Hr|by apply go_requests in Hr].
      apply step_events in Ho; [|done].
      destruct e as [t| |p|f v|k|k ev| | | |]; cbn [wizard_handle] in Hr.
      - destruct (wd_local w); try (by apply elem_of_nil in Hr). unfold choose in Hr.
        destruct (find _ _); [by apply go_requests in Hr|by apply elem_of_nil in Hr].
      - by apply go_requests in Hr.
      - by apply elem_of_nil in Hr.
      - by apply elem_of_nil in Hr.
      - destruct (wd_local w); by apply elem_of_nil in Hr.
      - destruct (wd_local w); try (by apply elem_of_nil in Hr). destruct (_ !! k) as [sc|]; [|by apply elem_of_nil in Hr].
        destruct (sched_handle ev sc). by apply elem_of_nil in Hr.
      - by apply go_requests in Hr.
      - by apply go_requests in Hr.
      - destruct Ho as (r & El & Hb & _). rewrite El in Hr. apply list_elem_of_singleton in Hr.
        injection Hr as -> ->. eauto.
      - destruct (wd_local w); try (by apply elem_of_nil in Hr); by apply list_elem_of_singleton in Hr. }
    unfold local_ok in Hl. rewrite El in Hl, Hp. cbn [posts_allowed] in Hp. rewrite Hb in Hp.
    destruct (so_pack _ Hs ltac:(lia)) as [p Hpk].
    destruct (buildSpec_ok _ p Hs ltac:(lia) Hpk) as [H1 H2].
    split; [by exists r|]. split; [done|]. split; [done|]. split; [lia|]. by exists p.
  - destruct (wizard_resume_spec r a (w_state w)) as (E & _).
    change (PostAgent n sp ∈ snd (wizard_resume r a (w_state w))) in Hr. rewrite E in Hr.
    by apply elem_of_nil in Hr.
Qed.

Lemma post_is_valid (w : wizard_world) n sp :
  reachable any w → issues any w (PostAgent n sp) →
  sp = buildSpec (wd_state (w_state w)) ∧ sp_id sp = ws_id (wd_state (w_state w)) ∧
  own_posts (wd_mount (w_state w)) (w_flight w) = 0%nat ∧
  ∃ p, ws_pack (wd_state (w_state w)) = Some p ∧ spec_ok p sp.
Proof. intros Hw Hi. by destruct (post_from_review w n sp Hw Hi). Qed.

(** C14: The wizard only posts a valid agent.  Whatever the operator did before, a creation
    request carries the spec of the form: an id of the id pattern, posted as typed; a display
    name; the selected pack as domain; only report kinds of that pack; at most one non-empty
    cron per report, and none for an unchecked report.  It is issued only while no other creation
    of the same review is in flight. *)
Theorem wizard_posts_valid (w : wizard_world) n sp :
  reachable any w → issues any w (PostAgent n sp) →
  sp = buildSpec (wd_state (w_state w)) ∧ sp_id sp = ws_id (wd_state (w_state w)) ∧
  own_posts (wd_mount (w_state w)) (w_flight w) = 0%nat ∧
  ∃ p, ws_pack (wd_state (w_state w)) = Some p ∧ spec_ok p sp.
Proof. exact (post_is_valid w n sp). Qed.

(** A run of the wizard up to a creation in flight: a template is applied, the identity filled
    in, the remaining steps passed. *)
Definition demo_pack : Pack :=
  {| pk_id := "pm"; pk_name := "PM"; pk_report_kinds := ["daily"; "weekly"];
     pk_servers := ["jira"] |}.
Definition demo_template : StaffTemplate :=
  {| tm_role_id := "pm"; tm_role := "PM"; tm_domain := "pm"; tm_reports := ["daily"; "gone"];
     tm_bindings_hint := []; tm_persona := "# SOUL"; tm_web_search := false |}.
Definition demo_lists : StaffTemplatesPayload * PacksPayload :=
  ({| tp_templates := [demo_template] |}, {| pp_packs := [demo_pack] |}).

Definition to_reports : list (action create_agent) :=
  [Answer (C := create_agent) 0 (LoadTemplates 0) (Ok demo_lists);
   Do (C := create_agent) (Choose demo_template); Do (C := create_agent) (Edit FId "qa");
   Do (C := create_agent) (Edit FName "QA"); Do (C := create_agent) Next;
   Do (C := create_agent) (Schedule "daily" (ToggleDay 1))].
Definition to_review : list (action create_agent) :=
  to_reports ++ [Do (C := create_agent) Next; Do (C := create_agent) Next].

(** Control [n] of the view fires the event. *)
Ltac fires_nth n :=
  left; eapply (offers_nth _ n); [vm_compute; reflexivity|cbn [fires]; first [reflexivity|exists true; reflexivity|eexists; reflexivity]].

Lemma to_reports_reachable : reachable any (play to_reports (init_world create_agent)).
Proof.
  apply play_reachable; [apply reach_init|].
  split; [split; [reflexivity|exact I]|].
  split; [fires_nth 0%nat|]. split; [fires_nth 0%nat|]. split; [fires_nth 1%nat|].
  split; [fires_nth 6%nat|]. split; [fires_nth 2%nat|]. exact I.
Defined.

Lemma to_review_reachable : reachable any (play to_review (init_world create_agent)).
Proof.
  unfold to_review. rewrite play_app. apply play_reachable; [exact to_reports_reachable|].
  split; [fires_nth 11%nat|]. split; [fires_nth 2%nat|]. exact I.
Defined.

Lemma wizard_posts_valid_witness :
  let w := play to_review (init_world create_agent) in
  let sp := buildSpec (wd_state (w_state w)) in
  sp = buildSpec (wd_state (w_state w)) ∧ sp_id sp = ws_id (wd_state (w_state w)) ∧
  own_posts (wd_mount (w_state w)) (w_flight w) = 0%nat ∧
  ∃ p, ws_pack (wd_state (w_state w)) = Some p ∧ spec_ok p sp.
Proof.
  intros w sp. apply (wizard_posts_valid w 4%nat sp to_review_reachable).
  apply (issues_event any w Create); [fires_nth 1%nat|]. vm_compute. left.
Defined.

(** The controls the navigation offers. *)
Lemma offers_back w : 0 < ws_step (wd_state w) → offers (CreateAgent w) Back.
Proof.
  intros H. unfold CreateAgent. rewrite offers_El. right. rewrite !offers_app. right. right.
  rewrite offers_El. right. rewrite offers_app. left. rewrite offers_when. split; [lia|].
  rewrite offers_El. left. exists (OnClick Back). split; [cbn; by left|done].
Qed.

Lemma offers_next w :
  0 < ws_step (wd_state w) < 5 → canAdvanceFrom (wd_state w) (ws_step (wd_state w)) = true →
  offers (CreateAgent w) Next.
Proof.
  intros H Hc. unfold CreateAgent. rewrite offers_El. right. rewrite !offers_app. right. right.
  rewrite offers_El. right. rewrite !offers_app. right. right. rewrite offers_when. split; [lia|].
  rewrite offers_El. left. exists (OnClick Next). rewrite Hc. split; [cbn; by left|done].
Qed.

Lemma offers_create w r :
  wd_local w = LReview r → rv_busy r = false → rv_result r = None → offers (CreateAgent w) Create.
Proof.
  intros E Hb Hr. unfold CreateAgent. rewrite offers_El. right. rewrite !offers_app. right. left.
  unfold step_view. rewrite E. unfold ReviewStep. rewrite offers_El. right. rewrite Hr.
  rewrite !offers_app. right. right. rewrite offers_El. left. rewrite Hb.
  exists (OnClick Create). split; [cbn; by left|done].
Qed.

(** One event of a reachable wizard. *)
Lemma wizard_does e w q w1 reqs :
  reachable any (World (C := create_agent) w q) → offers (CreateAgent w) e →
  wizard_handle e w = (w1, reqs) → reachable any (World (C := create_agent) w1 (q ++ reqs)).
Proof.
  intros Hw Ho E. pose proof (run_event (C := create_agent) any e w q Hw (or_introl Ho)) as H.
  change (c_handle create_agent e w) with (wizard_handle e w) in H. by rewrite E in H.
Qed.

(** The same agent can be requested twice.  From every reachable state of the review, also
    while a creation is in flight, one step back and forth mounts a review whose button is
    enabled again, and pressing it posts the same spec once more while the first request is
    still unanswered. *)
Theorem create_can_be_repeated (w : wizard_world) r sp n :
  reachable any w → wd_local (w_state w) = LReview r →
  PostAgent n sp ∈ w_flight w → sp = buildSpec (wd_state (w_state w)) →
  ∃ (w' : wizard_world) m, reachable any w' ∧ PostAgent n sp ∈ w_flight w' ∧ PostAgent m sp ∈ w_flight w' ∧ n ≠ m.
Proof.
  intros Hw El Hn Hsp. pose proof (invariant_holds (C := create_agent) any wizard_inv w Hw)
    as (Hs & Hl & Hq & _).
  unfold local_ok in Hl. rewrite El in Hl. rewrite Forall_forall in Hq. specialize (Hq _ Hn).
  destruct w as [[s l k] q]. cbn in *. subst l.
  set (rv := {| rv_busy := false; rv_error := None; rv_result := None; rv_copied := false |}).
  eapply wizard_does in Hw; [|by apply offers_back; cbn; lia|].
  2:{ cbn [wizard_handle wd_state]. unfold go. cbn. rewrite Hl. reflexivity. }
  eapply wizard_does in Hw; [|apply offers_next; [cbn; lia|done]|reflexivity].
  eapply wizard_does in Hw; [|by apply (offers_create _ rv)|reflexivity].
  eexists _, (S (S k)). split; [exact Hw|]. cbn.
  rewrite !app_nil_r, !elem_of_app. split; [by left|]. split; [|lia].
  right. rewrite Hsp. by apply list_elem_of_singleton.
Qed.

Lemma create_can_be_repeated_witness :
  let w := play (to_review ++ [Do (C := create_agent) Create]) (init_world create_agent) in
  let sp := buildSpec (wd_state (w_state w)) in
  ∃ (w' : wizard_world) m, reachable any w' ∧ PostAgent 4 sp ∈ w_flight w' ∧
    PostAgent m sp ∈ w_flight w' ∧ (4 ≠ m)%nat.
Proof.
  intros w sp. eapply (create_can_be_repeated w); [|vm_compute; reflexivity| |reflexivity].
  - unfold w. rewrite play_app. apply play_reachable; [exact to_review_reachable|]. split; [fires_nth 1%nat|exact I].
  - vm_compute. left.
Defined.

(** The schedule builder forgets what the wizard keeps.  Take any reachable state of the
    reports step with a scheduled report.  One step forth and back leaves the schedule in place,
    but the builder of the report then says that the report runs manually only, and the next
    change of its time removes the schedule, whatever time is chosen. *)
Theorem builder_forgets_schedule (w : wizard_world) b k c :
  reachable any w → wd_local (w_state w) = LReports b →
  (k, c) ∈ ws_schedule (wd_state (w_state w)) →
  ∃ (w' : wizard_world) b' sc, reachable any w' ∧ wd_local (w_state w') = LReports b' ∧ b' !! k = Some sc ∧
    (k, c) ∈ ws_schedule (wd_state (w_state w')) ∧
    buildCron (sc_time sc) (sc_days sc) = None ∧
    ∀ t, k ∉ map fst (ws_schedule (wd_state (fst (wizard_handle (Schedule k (HandleTime t)) (w_state w'))))).
Proof.
  intros Hw El Hk. pose proof (invariant_holds (C := create_agent) any wizard_inv w Hw)
    as (Hs & Hl & _).
  unfold local_ok in Hl. rewrite El in Hl. destruct Hl as [Hl _].
  destruct (so_schedule _ Hs k c Hk) as [Hr _]. pose proof (so_reports _ Hs k Hr) as Hkk.
  destruct w as [[s l m] q]. cbn in *. subst l.
  assert (fresh_builders (goTo 3 (goTo 4 s)) !! k = Some sched_init) as Hf.
  { unfold fresh_builders. apply elem_of_list_to_map_1'.
    - intros y (k' & [= _ ->] & _)%list_elem_of_fmap. done.
    - apply list_elem_of_fmap. exists k. split; [done|]. apply list_elem_of_filter.
      split; [by apply memb_spec|exact Hkk]. }
  eapply wizard_does in Hw; [|apply offers_next; cbn; rewrite Hl; [lia|done]|].
  2:{ cbn [wizard_handle wd_state]. unfold go. cbn. rewrite Hl. reflexivity. }
  eapply wizard_does in Hw; [|by apply offers_back; cbn; lia|reflexivity].
  eexists _, _, sched_init. split; [exact Hw|]. cbn. split; [reflexivity|].
  split; [exact Hf|]. split; [exact Hk|]. split; [done|]. intros t.
  match goal with |- context [?b !! k] =>
    change (b !! k) with (fresh_builders (goTo 3 (goTo 4 s)) !! k) end.
  rewrite Hf. cbn.
  intros Hin. apply list_elem_of_fmap in Hin as ([k' c'] & E & Hin). cbn in E. subst k'.
  apply elem_obj_delete in Hin as [Hin _]. done.
Qed.

Lemma builder_forgets_schedule_witness :
  let w := play to_reports (init_world create_agent) in
  ∃ (w' : wizard_world) b' sc, reachable any w' ∧ wd_local (w_state w') = LReports b' ∧
    b' !! ("daily" : jsstr) = Some sc ∧
    (("daily" : jsstr), ("0 9 * * 1" : jsstr)) ∈ ws_schedule (wd_state (w_state w')) ∧
    buildCron (sc_time sc) (sc_days sc) = None ∧
    ∀ t, ("daily" : jsstr) ∉ map fst (ws_schedule (wd_state
      (fst (wizard_handle (Schedule "daily" (HandleTime t)) (w_state w'))))).
Proof.
  intros w. eapply (builder_forgets_schedule w); [exact to_reports_reachable|vm_compute; reflexivity|].
  vm_compute. left.
Defined.

(** A persona edited by hand is never overwritten by the helper.  Once the operator has typed
    in the persona, every event except typing there again and applying a template keeps both the
    text and the mark, in particular every change of the role and of the goals. *)
Theorem persona_edits_kept e w :
  ws_personaEdited (wd_state w) = true →
  (∀ v, e ≠ Edit FPersona v) → (∀ t, e ≠ Choose t) →
  let w' := fst (wizard_handle e w) in
  ws_personaEdited (wd_state w') = true ∧ ws_persona (wd_state w') = ws_persona (wd_state w).
Proof.
  intros He Hp Ht.
  assert (∀ n, wd_state (fst (go n (wd_state w) w)) = goTo n (wd_state w)) as Hgo.
  { intros n. unfold go. destruct (_ =? _); [done|]. by destruct (mount_step _ _). }
  destruct e as [t| |p|f v|k|k ev| | | |]; cbn [wizard_handle]; try rewrite Hgo; try done.
  - by destruct (Ht t).
  - destruct f; cbn; rewrite ?He; cbn; rewrite ?He; try done. by destruct (Hp v).
  - destruct (wd_local w); try done. cbn. unfold toggleReport. by destruct (memb _ _).
  - destruct (wd_local w); try done. destruct (_ !! k) as [sc|]; [|done].
    by destruct (sched_handle ev sc).
  - by destruct (wd_local w).
  - by destruct (wd_local w).
Qed.

Lemma persona_edits_kept_witness :
  let w := w_state (play to_reports (init_world create_agent)) in
  let w' := fst (wizard_handle (Edit FRole "QA") w) in
  ws_personaEdited (wd_state w') = true ∧ ws_persona (wd_state w') = ws_persona (wd_state w).
Proof. intros w. apply (persona_edits_kept (Edit FRole "QA") w); [vm_compute; reflexivity|done..]. Defined.
