(* ===== verification/Work.v ===== *)
(** The approvals of the fleet: the aggregate of pending approvals (hooks/use-pending-approvals.ts),
    the auto-approved runs (hooks/use-auto-approved.ts), the confirm dialog
    (components/ConfirmDialog.tsx) and the work page that approves and rejects
    (views/Work.tsx). *)

From S2P Require Import Prelude JsNumber React Types Json Labels ApiClient ActionSummary.

(** ** The confirm dialog *)

Definition json_str (v : json) : option jsstr := match v with JStr s => Some s | _ => None end.
Definition json_strs (v : json) : option (list jsstr) :=
  match v with JArr l => mapM json_str l | _ => None end.
Definition json_recipients (v : json) : option recipients :=
  match v with
  | JStr s => Some (ToOne s)
  | _ => option_map ToMany (json_strs v)
  end.
Definition json_dict (v : json) : option (gmap jsstr json) :=
  match v with JObj l => Some (list_to_map (rev l)) | _ => None end.

(** The field [k] of an object, read by [f]. *)
Definition read_field {A} (f : json → option A) (k : jsstr) (v : json) : option A :=
  match json_get k v with Some x => f x | None => None end.

(** An action as the summary reads it: the fields of [PendingAction]. *)
Definition action_of (v : json) : PendingAction :=
  {| pa_type := read_field json_str "type" v; pa_server := read_field json_str "server" v;
     pa_tool := read_field json_str "tool" v; pa_args := read_field json_dict "args" v;
     pa_argv := read_field json_strs "argv" v; pa_to := read_field json_recipients "to" v;
     pa_subject := read_field json_str "subject" v |}.

Definition EXTERNAL_NOTE : jsstr := "Hành động này gửi thông tin RA NGOÀI công ty.".

(** The key handler of the dialog listens on the window while the dialog is mounted. *)
Definition ConfirmDialog {E} (item : ApprovalItem) (busy : bool) (onApprove onCancel : E) :
    list (node E) :=
  let summary := summarizeAction (action_of (ai_action item)) (ai_reason item) in
  [El "div" [AStr "className" "confirm-dialog"; AStr "role" "dialog"; ABool "aria-modal" true;
             AStr "aria-label" (cat ["Duyệt việc "; id_text (ai_id item)]);
             AOn (OnKey (λ k _, if bool_decide (k = "Escape"%js) && negb busy
                                then Some onCancel else None))] (
    [El "h3" [] [Txt "Duyệt việc #"; Txt (id_text (ai_id item))];
     El "p" [] [Txt "Duyệt để agent thực hiện hành động này thật:"];
     El "p" [AStr "className" (if su_external summary then "confirm-summary confirm-external"
                               else "confirm-summary")] [Txt (su_text summary)]]
    ++ when (su_external summary)
         [El "p" [AStr "className" "confirm-external-note"] [Txt EXTERNAL_NOTE]]
    ++ [El "details" [AStr "className" "action-detail-wrap"] [
          El "summary" [] [Txt "Chi tiết kỹ thuật"];
          El "pre" [AStr "className" "action-detail"]
            [Txt (json_pretty 0 (ai_action item))]];
        El "div" [AStr "className" "confirm-actions"] [
          El "button" [AStr "type" "button"; AStr "className" "btn btn-primary"; ADisabled busy;
                       AOn (OnClick onApprove)]
            [Txt (if busy then "Đang thực hiện…" else "Duyệt & thực hiện")];
          Txt " ";
          El "button" [AStr "type" "button"; AStr "className" "btn"; ADisabled busy;
                       AOn (OnClick onCancel)] [Txt "Huỷ"]]])].

(** ** What the operator reads decides what is sent *)

(** The texts of the elements of one tag in a view. *)
Fixpoint texts_in {E} (tag : jsstr) (n : node E) : list jsstr :=
  match n with
  | El t _ kids => when (bool_decide (t = tag)) [text_of n] ++ flat_map (texts_in tag) kids
  | _ => []
  end.

Lemma texts_in_same {E} tag l (kids : list (node E)) :
  texts_in tag (El tag l kids) = text_all kids :: flat_map (texts_in tag) kids.
Proof. cbn. by rewrite bool_decide_true. Qed.
Lemma texts_in_other {E} tag t l (kids : list (node E)) :
  t ≠ tag → texts_in tag (El t l kids) = flat_map (texts_in tag) kids.
Proof. intros H. cbn. by rewrite bool_decide_false. Qed.
Lemma texts_in_cons {E} tag (n : node E) v :
  flat_map (texts_in tag) (n :: v) = texts_in tag n ++ flat_map (texts_in tag) v.
Proof. reflexivity. Qed.
Lemma texts_in_Txt {E} tag s : texts_in (E := E) tag (Txt s) = [].
Proof. reflexivity. Qed.
Lemma texts_in_when {E} tag c (v : list (node E)) :
  flat_map (texts_in tag) v = [] → flat_map (texts_in tag) (when c v) = [].
Proof. by destruct c. Qed.
Ltac texts :=
  repeat (rewrite texts_in_cons || rewrite texts_in_Txt || rewrite flat_map_app
          || rewrite texts_in_same || rewrite texts_in_other by done);
  rewrite ?app_nil_r; cbn [flat_map app].

Lemma texts_in_dialog {E} item busy (a c : E) :
  flat_map (texts_in "pre") (ConfirmDialog item busy a c) =
  [json_pretty 0 (ai_action item)].
Proof.
  unfold ConfirmDialog. texts.
  destruct (su_external _); cbn [when]; texts; cbn [text_all map concat text_of];
    by rewrite ?app_nil_r.
Qed.

Lemma texts_in_all {A E} tag (f : A → node E) l :
  (∀ x, texts_in tag (f x) = []) → flat_map (texts_in tag) (map f l) = [].
Proof. intros H. induction l as [|x l IH]; [done|]. cbn. by rewrite H, IH. Qed.

(** ** The work page *)

Record AgentApproval := { aa_agentId : jsstr; aa_item : ApprovalItem }.
Record AutoApprovedRow := { aar_agentId : jsstr; aar_kind : jsstr; aar_timestamp : jsstr }.

Record work := {
  wk_items : list AgentApproval;
  wk_loading : bool;
  wk_error : option jsstr;
  wk_rows : list AutoApprovedRow;
  wk_confirming : option AgentApproval;
  wk_busy : bool;
  wk_opError : option jsstr
}.

Inductive op := OpApprove | OpReject.

(** [RejectClick it b]: the answer of [window.confirm] is [b]. *)
Inductive work_event :=
| Review (it : AgentApproval)
| RejectClick (it : AgentApproval) (confirmed : bool)
| Approve
| CancelDialog.

(** [refresh] is called by the mount and the interval ([Poll]) or awaited by [act] ([AfterOp]). *)
Inductive caller := Poll | AfterOp.

(** The requests: the list of agents and then the approvals of all of them, [Promise.all]; the
    same for the runs of the auto-approved block; an operation; the two intervals. *)
Inductive work_req :=
| ListAgents (c : caller)
| ListApprovals (c : caller) (ids : list jsstr)
| PollTimer
| AutoAgents
| AutoRuns (ids : list jsstr)
| AutoTimer
| SendOp (k : op) (agentId : jsstr) (id : Z).

Definition work_resp (r : work_req) : Type :=
  match r with
  | ListAgents _ | AutoAgents => list AgentSummary
  | ListApprovals _ _ => list (result ApprovalsPayload)
  | AutoRuns _ => list (result RunsPayload)
  | PollTimer | AutoTimer => unit
  | SendOp _ _ _ => ApprovalsPayload
  end.

Definition set_list (items : list AgentApproval) (error : option jsstr) (busy : bool) (w : work) :
    work :=
  {| wk_items := items; wk_loading := false; wk_error := error; wk_rows := wk_rows w;
     wk_confirming := wk_confirming w; wk_busy := busy; wk_opError := wk_opError w |}.
Definition set_op (confirming : option AgentApproval) (busy : bool) (opError : option jsstr)
    (w : work) : work :=
  {| wk_items := wk_items w; wk_loading := wk_loading w; wk_error := wk_error w;
     wk_rows := wk_rows w; wk_confirming := confirming; wk_busy := busy; wk_opError := opError |}.
Definition set_rows (rows : list AutoApprovedRow) (w : work) : work :=
  {| wk_items := wk_items w; wk_loading := wk_loading w; wk_error := wk_error w;
     wk_rows := rows; wk_confirming := wk_confirming w; wk_busy := wk_busy w;
     wk_opError := wk_opError w |}.

(** [act(item, kind)] up to its first [await]. *)
Definition act (k : op) (it : AgentApproval) (w : work) : work * list work_req :=
  (set_op (wk_confirming w) true None w, [SendOp k (aa_agentId it) (ai_id (aa_item it))]).

Definition work_handle (e : work_event) (w : work) : work * list work_req :=
  match e with
  | Review it => (set_op (Some it) (wk_busy w) (wk_opError w) w, [])
  | RejectClick it confirmed => if confirmed then act OpReject it w else (w, [])
  | Approve => match wk_confirming w with Some it => act OpApprove it w | None => (w, []) end
  | CancelDialog => (set_op None (wk_busy w) (wk_opError w) w, [])
  end.

(** [per.flat()]: the pending items of each agent that answered, with the agent's id. *)
Definition collect (ids : list jsstr) (per : list (result ApprovalsPayload)) : list AgentApproval :=
  concat (zip_with (λ id a, match a with
    | Ok r => map (λ p, {| aa_agentId := id; aa_item := p |}) (apl_pending r)
    | Err _ => []
    end) ids per).

(** After [refresh], [act] is over. *)
Definition busy_after (c : caller) (w : work) : bool :=
  match c with Poll => wk_busy w | AfterOp => false end.

Definition auto_rows (today : jsstr) (ids : list jsstr) (per : list (result RunsPayload)) :
    list AutoApprovedRow :=
  concat (zip_with (λ id a, match a with
    | Ok r =>
        map (λ e, {| aar_agentId := id; aar_kind := nullish (re_kind e) "?";
                     aar_timestamp := nullish (re_ts e) "" |})
          (filter (λ e, nullish (re_auto_approved e) false = true ∧
                        take 10 (nullish (re_ts e) "") = today) (rp_runs r))
    | Err _ => []
    end) ids per).

Section WorkPage.
Context {loc : Locale}.
(** [new Date().toISOString().slice(0, 10)] when the page was mounted. *)
Context (today : jsstr).

Definition work_resume (r : work_req) : result (work_resp r) → work → work * list work_req :=
  match r return result (work_resp r) → work → work * list work_req with
  | ListAgents c => λ a w,
      match a with
      | Ok agents => (w, [ListApprovals c (map as_id agents)])
      | Err e => (set_list (wk_items w) (Some (error_message e "lỗi")) (busy_after c w) w, [])
      end
  | ListApprovals c ids => λ a w,
      match a with
      | Ok per => (set_list (collect ids per) None (busy_after c w) w, [])
      | Err e => (set_list (wk_items w) (Some (error_message e "lỗi")) (busy_after c w) w, [])
      end
  | PollTimer => λ _ w, (w, [ListAgents Poll; PollTimer])
  | AutoAgents => λ a w,
      match a with
      | Ok agents => (w, [AutoRuns (map as_id agents)])
      | Err _ => (w, [])
      end
  | AutoRuns ids => λ a w,
      match a with Ok per => (set_rows (auto_rows today ids per) w, []) | Err _ => (w, []) end
  | AutoTimer => λ _ w, (w, [AutoAgents; AutoTimer])
  | SendOp _ _ _ => λ a w,
      match a with
      | Ok _ => (set_op None true (wk_opError w) w, [ListAgents AfterOp])
      | Err e => (set_op (wk_confirming w) false (Some (error_message e "thao tác thất bại")) w, [])
      end
  end.

Definition work_row (busy : bool) (it : AgentApproval) : node work_event :=
  El "li" [] [
    El "div" [] [
      El "strong" [] [Txt (aa_agentId it)]; Txt " · "; Txt (ai_reason (aa_item it));
      El "span" [AStr "className" "muted"]
        [Txt " · "; Txt (formatDateTime (Some (ai_created_at (aa_item it))))]];
    El "div" [AStr "className" "agent-actions"] [
      El "button" [AStr "type" "button"; AStr "className" "btn btn-primary";
                   AOn (OnClick (Review it))] [Txt "Xem & duyệt"];
      El "button" [AStr "type" "button"; AStr "className" "btn btn-danger"; ADisabled busy;
                   AOn (OnCheck (RejectClick it))] [Txt "Từ chối"]]].

Definition auto_row (r : AutoApprovedRow) : node work_event :=
  El "li" [] [
    El "strong" [] [Txt (aar_agentId r)]; Txt " · báo cáo "; Txt (aar_kind r);
    El "span" [AStr "className" "muted"]
      [Txt " · "; Txt (take 5 (drop 11 (aar_timestamp r)))]].

Definition Work (w : work) : list (node work_event) :=
  let n := z_str (Z.of_nat (length (wk_items w))) in
  [El "section" [AStr "className" "work-page"] (
    [El "h2" [] [Txt "Việc"];
     El "section" [AStr "className" "work-approvals"] (
       [El "h3" [] (Txt "Cần bạn duyệt " ::
          when (Nat.ltb 0 (length (wk_items w))) [El "span" [AStr "className" "badge"] [Txt n]])]
       ++ match present (wk_error w) with
          | Some e => [El "p" [AStr "className" "error"] [Txt "Lỗi: "; Txt e]]
          | None => []
          end
       ++ [if wk_loading w then El "p" [] [Txt "Đang tải…"]
           else if Nat.eqb (length (wk_items w)) 0
           then El "p" [AStr "className" "muted"] [Txt "Không có việc nào chờ duyệt. 🎉"]
           else El "ul" [AStr "className" "approval-list"] (map (work_row (wk_busy w)) (wk_items w))]
       ++ match present (wk_opError w) with
          | Some e => [El "p" [AStr "className" "error"] [Txt e]]
          | None => []
          end);
     El "section" [AStr "className" "work-tasks"] [
       El "h3" [] [Txt "Việc đã giao cho từng nhân sự"]; Comp "Tasks" []]]
    ++ when (Nat.ltb 0 (length (wk_rows w)))
         [El "section" [AStr "className" "work-auto-approved"] [
            El "h3" [] [Txt "Đã tự duyệt hôm nay (";
                        Txt (z_str (Z.of_nat (length (wk_rows w)))); Txt ")"];
            El "p" [AStr "className" "muted"] [
              Txt "Các hành động agent tin cậy đã tự chạy (trong hạn mức bạn đặt) — không cần bạn duyệt."];
            El "ul" [AStr "className" "auto-approved-list"] (map auto_row (wk_rows w))]]
    ++ match wk_confirming w with
       | Some it => ConfirmDialog (aa_item it) (wk_busy w) Approve CancelDialog
       | None => []
       end)].

Definition work_page : component :=
  {| c_state := work; c_event := work_event; c_req := work_req; c_resp := work_resp;
     c_init := ({| wk_items := []; wk_loading := true; wk_error := None; wk_rows := [];
                   wk_confirming := None; wk_busy := false; wk_opError := None |},
                [ListAgents Poll; PollTimer; AutoAgents; AutoTimer]);
     c_view := Work; c_env := λ _ _, False; c_handle := work_handle; c_resume := work_resume |}.

(** ** The invariant *)

(** [listed id p]: the server has given [p] as pending for agent [id]. *)
Context (listed : jsstr → ApprovalItem → Prop).

Definition lists_only (r : c_req work_page) : result (c_resp work_page r) → Prop :=
  match r return result (work_resp r) → Prop with
  | ListApprovals _ ids => λ a, match a with
      | Ok per => ∀ i id x, ids !! i = Some id → per !! i = Some (Ok x) →
                    ∀ p, p ∈ apl_pending x → listed id p
      | Err _ => True
      end
  | _ => λ _, True
  end.

(** The part of [act] that a request in flight belongs to. *)
Definition of_op (r : work_req) : bool :=
  match r with
  | SendOp _ _ _ | ListAgents AfterOp | ListApprovals AfterOp _ => true
  | _ => false
  end.
Definition ops (q : list work_req) : nat := length (List.filter of_op q).

Definition known (it : AgentApproval) : Prop := listed (aa_agentId it) (aa_item it).

Definition work_inv (w : work) (q : list work_req) : Prop :=
  (∀ it, it ∈ wk_items w → known it) ∧ (∀ it, wk_confirming w = Some it → known it) ∧
  ops q = (if wk_busy w then 1 else 0)%nat.

Lemma ops_app q1 q2 : ops (q1 ++ q2) = (ops q1 + ops q2)%nat.
Proof. unfold ops. by rewrite List.filter_app, length_app. Qed.
Lemma ops_middle q1 r q2 : ops (q1 ++ r :: q2) = (ops (q1 ++ q2) + (if of_op r then 1 else 0))%nat.
Proof. rewrite !ops_app. unfold ops. cbn. destruct (of_op r); cbn; lia. Qed.

Lemma collect_known ids per it :
  (∀ i id x, ids !! i = Some id → per !! i = Some (Ok x) → ∀ p, p ∈ apl_pending x → listed id p) →
  it ∈ collect ids per → known it.
Proof.
  revert per. induction ids as [|id ids IH]; intros [|a per] H; cbn; try (by intros ?%elem_of_nil).
  intros [Hit|Hit]%elem_of_app.
  - destruct a as [x|]; [|by apply elem_of_nil in Hit].
    apply list_elem_of_fmap in Hit as (p & -> & Hp). by apply (H 0%nat id x).
  - apply (IH per); [|done]. intros i. apply (H (S i)).
Qed.

(** Where the events of the page come from. *)
Lemma work_offers w e :
  offers (Work w) e →
  match e with
  | Review it => it ∈ wk_items w
  | RejectClick it _ => it ∈ wk_items w ∧ wk_busy w = false
  | Approve => is_Some (wk_confirming w) ∧ wk_busy w = false
  | CancelDialog => is_Some (wk_confirming w) ∧ wk_busy w = false
  end.
Proof.
  intros H. unfold Work in H. inv_offers.
  all: try (unfold work_row, auto_row in H; inv_offers; done).
  all: unfold ConfirmDialog in H; inv_offers; rewrite ?orb_false_r in *; try (split; [by eexists|done]).
  destruct (bool_decide _ && negb (wk_busy w)) eqn:Hb; [|done]. simplify_eq.
  split; [by eexists|]. by apply andb_true_iff in Hb as [_ ?%negb_true_iff].
Qed.

Lemma act_ok k it w q :
  work_inv w q → known it → wk_busy w = false →
  work_inv (fst (act k it w)) (q ++ snd (act k it w)).
Proof.
  intros (H1 & H2 & H3) Hk Hb. split; [done|]. split; [done|]. cbn.
  rewrite ops_app, H3, Hb. done.
Qed.

#[export] Instance work_inv_holds : Invariant (C := work_page) lists_only work_inv.
Proof.
  split.
  - split; [set_solver|]. split; [done|]. done.
  - intros e w q Hi [Ho|[]]. pose proof Hi as (H1 & H2 & H3). apply work_offers in Ho.
    destruct e as [it|it b| |]; cbn.
    + rewrite app_nil_r. split; [done|]. split; [|done]. intros it' [= <-]. by apply H1.
    + destruct Ho as [Hit Hb]. destruct b; [apply act_ok; auto|]. by rewrite app_nil_r.
    + destruct Ho as [[it Hit] Hb]. rewrite Hit. apply act_ok; auto.
    + rewrite app_nil_r. by split.
  - intros r a w q1 q2 Hsrv (H1 & H2 & H3). rewrite ops_middle in H3.
    change (work_inv (fst (work_resume r a w)) (q1 ++ q2 ++ snd (work_resume r a w))).
    rewrite app_assoc.
    destruct r as [c|c ids| | |ids| |k a0 i]; destruct a as [x|err]; cbn [work_resume fst snd].
    all: rewrite ?ops_app in *; cbn [of_op] in H3.
    all: try (split; [exact H1|split; [exact H2|]]; rewrite ?ops_app; cbn; try destruct c; cbn in *;
              destruct (wk_busy w); lia).
    + split; [|split; [exact H2|]].
      * intros it Hit. eapply collect_known; [|exact Hit]. exact Hsrv.
      * rewrite !ops_app. cbn. destruct c; cbn in *; destruct (wk_busy w); lia.
    + split; [exact H1|split; [done|]]. rewrite !ops_app. cbn in *. destruct (wk_busy w); lia.
Qed.

(** The requests of an event are those of the operation it starts. *)
Lemma work_issues (w : world work_page) k a i :
  reachable lists_only w → issues lists_only w (SendOp k a i) →
  ∃ it, known it ∧ aa_agentId it = a ∧ ai_id (aa_item it) = i ∧ wk_busy (w_state w) = false ∧
    match k with
    | OpApprove => wk_confirming (w_state w) = Some it
    | OpReject => it ∈ wk_items (w_state w)
    end.
Proof.
  intros Hw Hi. pose proof (invariant_holds lists_only work_inv w Hw) as (H1 & H2 & _).
  destruct w as [w q]. cbn [w_state w_flight] in *.
  apply issues_inv in Hi as [(e & [Ho|[]] & Hr)|(r & x & _ & Hr)]; cbn [w_state] in *.
  - change (SendOp k a i ∈ snd (work_handle e w)) in Hr. apply work_offers in Ho.
    destruct e as [it|it b| |]; cbn in Hr; try (by apply elem_of_nil in Hr).
    + destruct b; [|by apply elem_of_nil in Hr]. apply list_elem_of_singleton in Hr.
      injection Hr as -> -> ->. destruct Ho. exists it. auto.
    + destruct Ho as [[it E] Hb]. rewrite E in Hr. apply list_elem_of_singleton in Hr.
      injection Hr as -> -> ->. exists it. auto 10.
  - change (SendOp k a i ∈ snd (work_resume r x w)) in Hr.
    destruct r as [c|c ids| | |ids| |k' a' i']; destruct x; cbn in Hr;
      rewrite ?elem_of_cons, ?elem_of_nil in Hr; naive_solver.
Qed.

(** C11: No approval or rejection misses its target.  If the server only ever lists, for an agent,
    approvals that are pending for that agent, then every operation the page sends is for an
    approval the server has listed for that very agent; it is sent while no other operation is
    under way; and an approval is the one whose dialog is open. *)
Theorem ops_hit_listed (w : world work_page) k a i :
  reachable lists_only w → issues lists_only w (SendOp k a i) →
  (∃ p, listed a p ∧ ai_id p = i) ∧ ops (w_flight w) = 0%nat ∧
  (k = OpApprove → ∃ it, wk_confirming (w_state w) = Some it ∧
     aa_agentId it = a ∧ ai_id (aa_item it) = i).
Proof.
  intros Hw Hi. pose proof (invariant_holds lists_only work_inv w Hw) as (_ & _ & H3).
  destruct (work_issues w k a i Hw Hi) as (it & Hk & <- & <- & Hb & Hc).
  rewrite Hb in H3. split; [by exists (aa_item it)|]. split; [done|]. intros ->. by exists it.
Qed.

(** The only [pre] on the page is that of the dialog. *)
Lemma texts_in_work w :
  flat_map (texts_in "pre") (Work w) =
  match wk_confirming w with
  | Some it => [json_pretty 0 (ai_action (aa_item it))]
  | None => []
  end.
Proof.
  assert (∀ b it, texts_in "pre" (work_row b it) = []) as Hrow by (intros; unfold work_row; by texts).
  assert (∀ r, texts_in "pre" (auto_row r) = []) as Hauto by (intros; unfold auto_row; by texts).
  unfold Work. texts. rewrite !texts_in_when by (texts; rewrite ?texts_in_all by auto; done).
  assert (flat_map (texts_in "pre")
      match wk_confirming w with
      | Some it => ConfirmDialog (aa_item it) (wk_busy w) Approve CancelDialog
      | None => []
      end = match wk_confirming w with
      | Some it => [json_pretty 0 (ai_action (aa_item it))]
      | None => []
      end) as -> by (destruct (wk_confirming w); [apply texts_in_dialog|done]).
  generalize (match wk_confirming w with
      | Some it => [json_pretty 0 (ai_action (aa_item it))] | None => [] end) as l.
  intros l. destruct (present (wk_error w)), (present (wk_opError w)), (wk_loading w),
    (length (wk_items w) =? 0)%nat; texts; rewrite ?texts_in_all by auto; done.
Qed.

(** C12: What is approved is what is shown.  Whenever the page can send an approval, it shows the
    summary of that very action, the JSON text of the whole action the server listed (with every
    field it has, whether the summary reads it or not), and the note that the action leaves the
    company whenever the summary is marked external. *)
Theorem approved_is_shown (w : world work_page) a i :
  reachable lists_only w → issues lists_only w (SendOp OpApprove a i) →
  ∃ it, aa_agentId it = a ∧ ai_id (aa_item it) = i ∧
    let s := summarizeAction (action_of (ai_action (aa_item it))) (ai_reason (aa_item it)) in
    let shown t := includes t (text_all (Work (w_state w))) = true in
    shown (su_text s) ∧ shown (json_pretty 0 (ai_action (aa_item it))) ∧
    (su_external s = true → shown EXTERNAL_NOTE).
Proof.
  intros Hw Hi. destruct (work_issues w _ a i Hw Hi) as (it & _ & <- & <- & _ & Hc).
  exists it. split; [done|]. split; [done|]. intros s shown.
  assert (∀ t, includes t (text_all (ConfirmDialog (aa_item it) (wk_busy (w_state w)) Approve CancelDialog)) = true →
    shown t) as Hd.
  { intros t Ht. unfold shown, Work. apply shown_cons; left. apply shown_El.
    apply shown_app; right. apply shown_app; right. by rewrite Hc. }
  split; [|split; [|intros Hx]]; apply Hd; unfold ConfirmDialog; fold s;
    apply shown_cons; left; apply shown_El.
  - apply shown_app; left. do 2 (apply shown_cons; right). apply shown_cons; left.
    apply shown_El, shown_cons. left. apply shown_Txt.
  - apply shown_app; right. apply shown_app; right. apply shown_cons; left.
    apply shown_El, shown_cons. right. apply shown_cons; left. apply shown_El, shown_cons; left.
    apply shown_Txt.
  - rewrite Hx. apply shown_app; right. apply shown_app; left. cbn [when].
    apply shown_cons; left. apply shown_El, shown_cons; left. apply shown_Txt.
Qed.

(** The dialog's JSON decides what is approved.  Whenever the page can send an approval, there
    is exactly one detail text on the page, and parsing that text gives back the very action that
    is approved: no two actions are shown by the same text.  (The action has strings of UTF-16
    units and numbers that their shortest texts name.) *)
Theorem approved_action_reads_back (w : world work_page) a i :
  reachable lists_only w → issues lists_only w (SendOp OpApprove a i) →
  ∃ it t, aa_agentId it = a ∧ ai_id (aa_item it) = i ∧
    flat_map (texts_in "pre") (Work (w_state w)) = [t] ∧
    (json_ok (ai_action (aa_item it)) → json_parse t = Some (ai_action (aa_item it))).
Proof.
  intros Hw Hi. destruct (work_issues w _ a i Hw Hi) as (it & _ & <- & <- & _ & Hc).
  exists it, (json_pretty 0 (ai_action (aa_item it))).
  split; [done|]. split; [done|]. split; [by rewrite texts_in_work, Hc|intros Hok; by apply parse_pretty].
Qed.

End WorkPage.

(** ** Witnesses *)

Definition demo_agent : AgentSummary :=
  {| as_id := "pm"; as_name := "PM"; as_enabled := true; as_last_run := None;
     as_report_kinds := None |}.
Definition demo_approval : ApprovalItem :=
  {| ai_id := 7; ai_reason := "weekly"; ai_status := "pending"; ai_created_at := "2025-01-01";
     ai_action := JObj [("type" : jsstr, JStr "email_send"); ("to" : jsstr, jstrs ["a@x.vn"]);
                        ("subject" : jsstr, JStr "Weekly"); ("body" : jsstr, JStr "All is well.")] |}.
Definition demo_payload : ApprovalsPayload :=
  {| apl_agent_id := "pm"; apl_pending := [demo_approval]; apl_approved := None;
     apl_rejected := None |}.
Definition demo_listed (id : jsstr) (p : ApprovalItem) : Prop := id = "pm"%js ∧ p = demo_approval.
Definition demo_it : AgentApproval := {| aa_agentId := "pm"; aa_item := demo_approval |}.

Notation demo_page := (@work_page plain_locale "2025-01-01").

Definition to_dialog : list (action demo_page) :=
  [Answer (C := demo_page) 0 (ListAgents Poll) (Ok [demo_agent]);
   Answer (C := demo_page) 3 (ListApprovals Poll ["pm"]) (Ok [Ok demo_payload]);
   Do (C := demo_page) (Review demo_it)].

Lemma to_dialog_reachable :
  reachable (@lists_only plain_locale "2025-01-01" demo_listed)
    (play to_dialog (init_world demo_page)).
Proof.
  apply play_reachable; [apply reach_init|].
  split; [split; [reflexivity|exact I]|]. split; [split; [reflexivity|]|].
  - intros [|i] id x Hid Hx p Hp; [|by destruct i].
    injection Hid as <-. injection Hx as <-. apply list_elem_of_singleton in Hp. done.
  - split; [|exact I]. left.
    eapply (offers_nth _ 0); [vm_compute; reflexivity|reflexivity].
Defined.

Lemma approval_issued :
  issues (@lists_only plain_locale "2025-01-01" demo_listed)
    (play to_dialog (init_world demo_page)) (SendOp OpApprove "pm" 7).
Proof.
  apply (issues_event (C := demo_page) _ _ Approve); [|vm_compute; left]. left.
  eapply (offers_nth _ 3); [vm_compute; reflexivity|reflexivity].
Defined.

Lemma ops_hit_listed_witness :
  let w := play to_dialog (init_world demo_page) in
  (∃ p, demo_listed "pm" p ∧ ai_id p = 7) ∧ ops (w_flight w) = 0%nat ∧
  (OpApprove = OpApprove → ∃ it, wk_confirming (w_state w) = Some it ∧
     aa_agentId it = "pm" ∧ ai_id (aa_item it) = 7).
Proof.
  apply (@ops_hit_listed plain_locale "2025-01-01" demo_listed
    (play to_dialog (init_world demo_page)) OpApprove "pm" 7);
    [exact to_dialog_reachable|exact approval_issued].
Defined.

Lemma approved_is_shown_witness :
  let w := play to_dialog (init_world demo_page) in
  ∃ it, aa_agentId it = "pm" ∧ ai_id (aa_item it) = 7 ∧
    let s := summarizeAction (action_of (ai_action (aa_item it))) (ai_reason (aa_item it)) in
    let shown t := includes t (text_all (@Work plain_locale (w_state w))) = true in
    shown (su_text s) ∧ shown (json_pretty 0 (ai_action (aa_item it))) ∧
    (su_external s = true → shown EXTERNAL_NOTE).
Proof.
  apply (@approved_is_shown plain_locale "2025-01-01" demo_listed
    (play to_dialog (init_world demo_page)) "pm" 7);
    [exact to_dialog_reachable|exact approval_issued].
Defined.

Lemma approved_action_reads_back_witness :
  let w := play to_dialog (init_world demo_page) in
  ∃ it t, aa_agentId it = "pm" ∧ ai_id (aa_item it) = 7 ∧
    flat_map (texts_in "pre") (@Work plain_locale (w_state w)) = [t] ∧
    (json_ok (ai_action (aa_item it)) → json_parse t = Some (ai_action (aa_item it))).
Proof.
  apply (@approved_action_reads_back plain_locale "2025-01-01" demo_listed
    (play to_dialog (init_world demo_page)) "pm" 7);
    [exact to_dialog_reachable|exact approval_issued].
Defined.

(** The action of the run reads back from its text. *)
Lemma demo_reads_back :
  json_parse (json_pretty 0 (ai_action demo_approval)) = Some (ai_action demo_approval).
Proof. vm_compute. reflexivity. Qed.
