(* ===== verification/Approvals.v ===== *)
(** The approvals of one agent (views/Approvals.tsx) over the data of the selected agent
    (hooks/use-agent-data.ts). *)

From S2P Require Import Prelude JsNumber React Types Labels ApiClient ActionSummary Work.

(** ** useAgentData *)

(** [ad_run] counts the runs of the effect: the answer to a fetch of an earlier run is ignored,
    since its cleanup has set [cancelled]. *)
Record agent_data (T : Type) := {
  ad_selected : option jsstr;
  ad_data : option T;
  ad_loading : bool;
  ad_error : option jsstr;
  ad_run : nat
}.
Arguments ad_selected {T} _.
Arguments ad_data {T} _.
Arguments ad_loading {T} _.
Arguments ad_error {T} _.
Arguments ad_run {T} _.

Section AgentData.
Context {T : Type}.

(** The effect for a selection, and the fetch it starts (its run and agent). *)
Definition data_effect (selected : option jsstr) (d : agent_data T) :
    agent_data T * list (nat * jsstr) :=
  let n := S (ad_run d) in
  match present selected with
  | None => ({| ad_selected := selected; ad_data := None; ad_loading := false;
                ad_error := ad_error d; ad_run := n |}, [])
  | Some id => ({| ad_selected := selected; ad_data := ad_data d; ad_loading := true;
                   ad_error := None; ad_run := n |}, [(n, id)])
  end.

Definition data_init : agent_data T :=
  {| ad_selected := None; ad_data := None; ad_loading := true; ad_error := None; ad_run := 0 |}.

(** The effect runs when the selection changes. *)
Definition data_select (selected : option jsstr) (d : agent_data T) :
    agent_data T * list (nat * jsstr) :=
  if decide (selected = ad_selected d) then (d, []) else data_effect selected d.

Definition data_answer (n : nat) (a : result T) (d : agent_data T) : agent_data T :=
  if Nat.eqb n (ad_run d) then
    match a with
    | Ok x => {| ad_selected := ad_selected d; ad_data := Some x; ad_loading := false;
                 ad_error := ad_error d; ad_run := ad_run d |}
    | Err e => {| ad_selected := ad_selected d; ad_data := ad_data d; ad_loading := false;
                  ad_error := Some (error_message e "request failed"); ad_run := ad_run d |}
    end
  else d.

End AgentData.

(** ** The view *)

Record approvals := {
  av_agent : agent_data ApprovalsPayload;
  av_confirming : option ApprovalItem;
  av_pending : option (list ApprovalItem);
  av_busy : bool;
  av_opError : option jsstr
}.

(** [SelectAgent] comes from the agent context; [Refuse p b]: [window.confirm] answers [b]. *)
Inductive approvals_event :=
| SelectAgent (selected : option jsstr)
| OpenDialog (p : ApprovalItem)
| Refuse (p : ApprovalItem) (confirmed : bool)
| Confirm
| Close.

Inductive approvals_req :=
| Fetch (n : nat) (id : jsstr)
| RunOp (k : op) (id : jsstr) (approvalId : Z).

Definition with_data (d : agent_data ApprovalsPayload) (s : approvals) : approvals :=
  {| av_agent := d; av_confirming := av_confirming s; av_pending := av_pending s;
     av_busy := av_busy s; av_opError := av_opError s |}.
Definition with_dialog (c : option ApprovalItem) (s : approvals) : approvals :=
  {| av_agent := av_agent s; av_confirming := c; av_pending := av_pending s;
     av_busy := av_busy s; av_opError := av_opError s |}.

(** [run(fn)] up to its [await]. *)
Definition run (k : op) (id : jsstr) (n : Z) (s : approvals) : approvals * list approvals_req :=
  ({| av_agent := av_agent s; av_confirming := av_confirming s; av_pending := av_pending s;
      av_busy := true; av_opError := None |}, [RunOp k id n]).

Definition fetches (q : list (nat * jsstr)) : list approvals_req :=
  map (λ x, Fetch (fst x) (snd x)) q.

Definition approvals_handle (e : approvals_event) (s : approvals) :
    approvals * list approvals_req :=
  match e with
  | SelectAgent sel =>
      (with_data (fst (data_select sel (av_agent s))) s, fetches (snd (data_select sel (av_agent s))))
  | OpenDialog p => (with_dialog (Some p) s, [])
  | Close => (with_dialog None s, [])
  | Refuse p confirmed =>
      match present (ad_selected (av_agent s)) with
      | Some id => if confirmed then run OpReject id (ai_id p) s else (s, [])
      | None => (s, [])
      end
  | Confirm =>
      match av_confirming s, present (ad_selected (av_agent s)) with
      | Some p, Some id => run OpApprove id (ai_id p) s
      | _, _ => (s, [])
      end
  end.

Definition approvals_resume (r : approvals_req) (a : result ApprovalsPayload) (s : approvals) :
    approvals * list approvals_req :=
  match r with
  | Fetch n _ => (with_data (data_answer n a (av_agent s)) s, [])
  | RunOp _ _ _ =>
      (match a with
       | Ok res => {| av_agent := av_agent s; av_confirming := None;
                      av_pending := Some (apl_pending res); av_busy := false;
                      av_opError := av_opError s |}
       | Err e => {| av_agent := av_agent s; av_confirming := av_confirming s;
                     av_pending := av_pending s; av_busy := false;
                     av_opError := Some (error_message e "action failed") |}
       end, [])
  end.

(** [pending ?? data?.pending ?? []]. *)
Definition rows (s : approvals) : list ApprovalItem :=
  match av_pending s with
  | Some l => l
  | None => match ad_data (av_agent s) with Some d => apl_pending d | None => [] end
  end.

Definition approval_row `{Locale} (busy : bool) (p : ApprovalItem) : node approvals_event :=
  El "tr" [] [
    El "td" [AStr "data-label" "Mã"] [Txt (id_text (ai_id p))];
    El "td" [AStr "data-label" "Hành động"]
      [Txt (su_text (summarizeAction (action_of (ai_action p)) (ai_reason p)))];
    El "td" [AStr "data-label" "Lý do"] [Txt (ai_reason p)];
    El "td" [AStr "data-label" "Lúc"] [Txt (formatDateTime (Some (ai_created_at p)))];
    El "td" [] [
      El "button" [AStr "type" "button"; AStr "className" "btn"; ADisabled busy;
                   AOn (OnClick (OpenDialog p))] [Txt "Xem & duyệt"];
      Txt " ";
      El "button" [AStr "type" "button"; AStr "className" "btn btn-danger"; ADisabled busy;
                   AOn (OnCheck (Refuse p))] [Txt "Từ chối"]]].

Definition Approvals `{Locale} (s : approvals) : list (node approvals_event) :=
  let d := av_agent s in
  if ad_loading d then [El "p" [] [Txt "Đang tải…"]] else
  match present (ad_error d) with
  | Some e => [El "p" [AStr "className" "error"] [Txt "Lỗi: "; Txt e]]
  | None =>
      [El "section" [] (
        [El "h2" [] [Txt "Việc chờ duyệt"]]
        ++ match present (av_opError s) with
           | Some e => [El "p" [AStr "className" "error"] [Txt "Lỗi: "; Txt e]]
           | None => []
           end
        ++ [if Nat.eqb (length (rows s)) 0
            then El "p" [AStr "className" "muted"] [Txt "Không có việc nào chờ duyệt."]
            else El "table" [AStr "className" "proposals-table"] [
              El "thead" [] [El "tr" [] [
                El "th" [] [Txt "Mã"]; El "th" [] [Txt "Hành động"]; El "th" [] [Txt "Lý do"];
                El "th" [] [Txt "Lúc"]; El "th" [] []]];
              El "tbody" [] (map (approval_row (av_busy s)) (rows s))]]
        ++ match av_confirming s, present (ad_selected d) with
           | Some p, Some _ => ConfirmDialog p (av_busy s) Confirm Close
           | _, _ => []
           end)]
  end.

Definition approvals_mount (selected : option jsstr) : approvals * list approvals_req :=
  let '(d, q) := data_effect selected data_init in
  ({| av_agent := d; av_confirming := None; av_pending := None; av_busy := false;
      av_opError := None |}, fetches q).

Definition approvals_view `{Locale} (selected : option jsstr) : component :=
  {| c_state := approvals; c_event := approvals_event; c_req := approvals_req;
     c_resp := λ _, ApprovalsPayload; c_init := approvals_mount selected; c_view := Approvals;
     c_env := λ _ e, match e with SelectAgent _ => True | _ => False end;
     c_handle := approvals_handle; c_resume := approvals_resume |}.

(** ** Theorems: the data of the selected agent *)

Section Data.
Context {T : Type}.

(** The data shown is the answer for the selected agent.  Whatever agents are selected one
    after the other and in whatever order their answers come, an answer is taken over only when
    the effect has not run again since its request was made. *)
Theorem late_answer_ignored (d : agent_data T) sel id n a :
  present sel = Some id → sel ≠ ad_selected d → (n ≤ ad_run d)%nat →
  let d' := fst (data_select sel d) in
  snd (data_select sel d) = [(S (ad_run d), id)] ∧ data_answer n a d' = d' ∧
  ∀ x, ad_data (data_answer (S (ad_run d)) (Ok x) d') = Some x ∧
       ad_loading (data_answer (S (ad_run d)) (Ok x) d') = false.
Proof.
  intros Hp Hne Hn d'. unfold d', data_select. rewrite decide_False by done.
  unfold data_effect. rewrite Hp. cbn. split; [done|]. split.
  - unfold data_answer. cbn. by rewrite (proj2 (Nat.eqb_neq n (S (ad_run d)))) by lia.
  - intros x. unfold data_answer. cbn. by rewrite Nat.eqb_refl.
Qed.
End Data.

Lemma late_answer_ignored_witness :
  let d := {| ad_selected := Some ("pm" : jsstr); ad_data := @None Z; ad_loading := true;
              ad_error := None; ad_run := 1 |} in
  let d' := fst (data_select (Some ("qa" : jsstr)) d) in
  snd (data_select (Some ("qa" : jsstr)) d) = [(2%nat, "qa" : jsstr)] ∧
  data_answer 1 (Ok 5) d' = d' ∧
  ∀ x, ad_data (data_answer 2 (Ok x) d') = Some x ∧ ad_loading (data_answer 2 (Ok x) d') = false.
Proof. intros d. apply (late_answer_ignored d (Some ("qa" : jsstr)) "qa" 1 (Ok 5)); done || lia. Defined.

(** ** Theorems: the target of an operation *)

Section View.
Context {loc : Locale} (selected : option jsstr).

Definition obeys (listed : jsstr → ApprovalItem → Prop) : answers (approvals_view selected) :=
  λ r a, match r, a with
         | Fetch _ id, Ok x | RunOp _ id _, Ok x => ∀ p, p ∈ apl_pending x → listed id p
         | _, Err _ => True
         end.

(** A row of the table can be refused and opened. *)
Lemma approval_offered s p :
  ad_loading (av_agent s) = false → present (ad_error (av_agent s)) = None →
  av_busy s = false → p ∈ rows s →
  offers (Approvals s) (OpenDialog p) ∧ offers (Approvals s) (Refuse p true).
Proof.
  intros H1 H2 H3 Hp. unfold Approvals. rewrite H1, H2, !offers_El, !offers_app, !offers_El.
  destruct (Nat.eqb (length (rows s)) 0) eqn:E.
  { apply Nat.eqb_eq in E. destruct (rows s); [by apply elem_of_nil in Hp|done]. }
  assert (∀ e, offers [approval_row (av_busy s) p] e → offers
    [El "table" [AStr "className" "proposals-table"] [
              El "thead" [] [El "tr" [] [
                El "th" [] [Txt "Mã"]; El "th" [] [Txt "Hành động"]; El "th" [] [Txt "Lý do"];
                El "th" [] [Txt "Lúc"]; El "th" [] []]];
              El "tbody" [] (map (approval_row (av_busy s)) (rows s))]] e) as H.
  { intros e He. rewrite offers_El. right. rewrite offers_cons. right. rewrite offers_El. right.
    rewrite offers_map. eauto. }
  rewrite H3 in *.
  split; right; right; right; left; apply H; unfold approval_row.
  - eapply (offers_nth _ 0); [reflexivity|reflexivity].
  - eapply (offers_nth _ 1); [reflexivity|by exists true].
Qed.

(** The dialog can be confirmed. *)
Lemma confirm_offered s p id :
  ad_loading (av_agent s) = false → present (ad_error (av_agent s)) = None →
  av_busy s = false → av_confirming s = Some p → present (ad_selected (av_agent s)) = Some id →
  offers (Approvals s) Confirm.
Proof.
  intros H1 H2 H3 H4 H5. unfold Approvals. rewrite H1, H2, H4, H5, H3.
  rewrite offers_El, !offers_app. right. right. right. right. unfold ConfirmDialog.
  rewrite offers_El, !offers_app. right. right. right. rewrite offers_cons. right.
  eapply (offers_nth _ 0); [reflexivity|reflexivity].
Qed.
End View.

Definition pending_of (id : jsstr) (l : list ApprovalItem) : ApprovalsPayload :=
  {| apl_agent_id := id; apl_pending := l; apl_approved := None; apl_rejected := None |}.

(** An approval can be sent to the wrong agent.  For any two agents and approvals [p], [q] of
    the first one only: after an operation on the first agent, its remaining approvals stay on
    the table when the second agent is selected and loaded, and approving [q] there posts [q]'s
    number to the second agent, which was never asked for it. *)
Theorem approval_crosses_agents {loc : Locale}
    (listed : jsstr → ApprovalItem → Prop) (a b : jsstr) p q :
  a ≠ [] → b ≠ [] → a ≠ b → listed a p → listed a q →
  ∃ w : world (approvals_view (Some a)),
    reachable (obeys (Some a) listed) w ∧ w_flight w = [] ∧
    ad_selected (av_agent (w_state w)) = Some b ∧
    option_map apl_pending (ad_data (av_agent (w_state w))) = Some [] ∧
    issues (obeys (Some a) listed) w (RunOp OpApprove b (ai_id q)).
Proof.
  intros Ha Hb Hab Hp Hq.
  assert (present (Some a) = Some a) as Ea by by apply present_spec.
  assert (present (Some b) = Some b) as Eb by by apply present_spec.
  assert (reachable (obeys (Some a) listed) (init_world (approvals_view (Some a)))) as H by constructor.
  unfold init_world in H. cbn [c_init approvals_view] in H. unfold approvals_mount, data_effect in H.
  rewrite Ea in H. cbn [fst snd fetches map data_init ad_run ad_data] in H.
  (* the first agent's approval [p] loads and is refused; [q] remains *)
  eapply (run_response_to (C := approvals_view (Some a)) _ [] (Fetch 1 a) [] (Ok (pending_of a [p]))) in H; [|by intros ? ->%list_elem_of_singleton|reflexivity].
  eapply (run_event_to (C := approvals_view (Some a)) _ (Refuse p true)) in H;
    [|left; by apply (approval_offered _ p); [..|left]|cbn; rewrite (proj2 (truthy_spec a) Ha); reflexivity].
  eapply (run_response_to (C := approvals_view (Some a)) _ [] (RunOp OpReject a (ai_id p)) [] (Ok (pending_of a [q]))) in H;
    [|by intros ? ->%list_elem_of_singleton|reflexivity].
  (* the second agent is selected and has none *)
  eapply (run_event_to (C := approvals_view (Some a)) _ (SelectAgent (Some b))) in H; [|by right|].
  2:{ cbn [c_handle approvals_view approvals_handle]. unfold data_select.
      rewrite decide_False by (cbn; congruence). unfold data_effect. rewrite Eb. reflexivity. }
  eapply (run_response_to (C := approvals_view (Some a)) _ [] (Fetch 2 b) [] (Ok (pending_of b []))) in H;
    [|by intros ? ?%elem_of_nil|reflexivity].
  eapply (run_event_to (C := approvals_view (Some a)) _ (OpenDialog q)) in H;
    [|left; by apply (approval_offered _ q); [..|left]|reflexivity].
  eexists. split; [exact H|]. split; [reflexivity|]. split; [reflexivity|]. split; [reflexivity|].
  apply (issues_event (C := approvals_view (Some a)) _ _ Confirm).
  - left. by eapply confirm_offered.
  - cbn. rewrite (proj2 (truthy_spec b) Hb). left.
Qed.

Lemma approval_crosses_agents_witness :
  ∃ w : world (@approvals_view plain_locale (Some ("pm" : jsstr))),
    reachable (@obeys plain_locale (Some ("pm" : jsstr)) demo_listed) w ∧ w_flight w = [] ∧
    ad_selected (av_agent (w_state w)) = Some ("qa" : jsstr) ∧
    option_map apl_pending (ad_data (av_agent (w_state w))) = Some [] ∧
    issues (@obeys plain_locale (Some ("pm" : jsstr)) demo_listed) w (RunOp OpApprove "qa" 7).
Proof.
  apply (@approval_crosses_agents plain_locale demo_listed "pm" "qa" demo_approval demo_approval);
    done.
Defined.
