(* ===== verification/Composer.v ===== *)
(** The task composer of the office screen (views/office-unified/assign-composer.tsx). *)

From stdpp Require Import relations.
From S2P Require Import Prelude React Behaviour Types ApiClient.

(** ** The mention list *)

Definition mention_char (c : Z) : bool :=
  ((65 <=? c) && (c <=? 90)) || ((97 <=? c) && (c <=? 122)) || ((48 <=? c) && (c <=? 57))
  || (c =? 95) || (c =? 46) || (c =? 45).

(** The token of the mention pattern: an at sign and then letters, digits, underscores, dots and
    hyphens; the group holds what follows the sign. *)
Definition mention_token (t : jsstr) : option jsstr :=
  match t with
  | c :: r => if (c =? 64) && forallb mention_char r then Some r else None
  | [] => None
  end.

Definition ALL_OPTION : StaffOption := {| so_id := "all"; so_domain := "đội tự chọn PIC" |}.

Definition filterStaffForMention (brief : jsstr) (staff : list StaffOption) : list StaffOption :=
  match mention_token (until_ws (trim_start brief)) with
  | None => []
  | Some m =>
      if existsb is_ws (trim_start brief) then [] else
      let q := to_lower m in
      let pool := ALL_OPTION :: staff in
      if negb (truthy q) then pool else
      let starts := filter (λ s, starts_with q (to_lower (so_id s)) = true) pool in
      let contains := filter (λ s, starts_with q (to_lower (so_id s)) = false ∧
                                   includes q (to_lower (so_id s)) = true) pool in
      starts ++ contains
  end.

(** ** The composer *)

Inductive phase :=
| PIdle
| PPreviewing
| PPreview (data : AssignPreviewPayload)
| PAdjust (data : RoomChatPayload)
| PReply (text : jsstr)
| PConfirming
| PDone (text : jsstr) (auto : bool)
| PError (message : jsstr).

Record composer := {
  cm_room : option jsstr;               (* prop activeRoom *)
  cm_brief : jsstr;
  cm_staff : list StaffOption;
  cm_phase : phase;
  cm_fetched : bool                     (* the ref fetchedStaff *)
}.

Inductive composer_event :=
| RoomProp (room : option jsstr)
| FocusInput
| TypeBrief (v : jsstr)
| Submit
| ApplyMention (id : jsstr)
| ConfirmPlan (data : AssignPreviewPayload)
| CancelPlan (data : AssignPreviewPayload)
| ConfirmAdjust (data : RoomChatPayload)
| Dismiss.

(** [AssignConfirm room data]: [room] is the active room when the button was pressed.
    [TaskCreated] is the call of [onTaskCreated]. *)
Inductive composer_req :=
| LoadStaff
| RoomChat (room message : jsstr)
| AssignPreview (brief : jsstr)
| RoomConfirmAdjust (room taskId amendmentId : jsstr)
| AssignConfirm (room : option jsstr) (data : AssignPreviewPayload)
| AssignCancel (taskId : jsstr)
| TaskCreated (taskId : jsstr).

Definition composer_resp (r : composer_req) : Type :=
  match r with
  | LoadStaff => AssignStaffPayload
  | RoomChat _ _ => RoomChatPayload
  | AssignPreview _ => AssignPreviewPayload
  | RoomConfirmAdjust _ _ _ | AssignConfirm _ _ => jsstr
  | AssignCancel _ => bool
  | TaskCreated _ => unit
  end.

Definition set_phase (p : phase) (s : composer) : composer :=
  {| cm_room := cm_room s; cm_brief := cm_brief s; cm_staff := cm_staff s; cm_phase := p;
     cm_fetched := cm_fetched s |}.
Definition set_brief (b : jsstr) (s : composer) : composer :=
  {| cm_room := cm_room s; cm_brief := b; cm_staff := cm_staff s; cm_phase := cm_phase s;
     cm_fetched := cm_fetched s |}.

Definition ensureStaff (s : composer) : composer * list composer_req :=
  if cm_fetched s then (s, [])
  else ({| cm_room := cm_room s; cm_brief := cm_brief s; cm_staff := cm_staff s;
           cm_phase := cm_phase s; cm_fetched := true |}, [LoadStaff]).

Definition submit (s : composer) : composer * list composer_req :=
  match cm_phase s with
  | PPreview _ | PAdjust _ | PPreviewing | PConfirming => (s, [])
  | _ =>
      if negb (truthy (trim (cm_brief s))) then (s, []) else
      (set_phase PPreviewing s,
       [match present (cm_room s) with
        | Some r => RoomChat r (trim (cm_brief s))
        | None => AssignPreview (trim (cm_brief s))
        end])
  end.

Definition confirmAdjust (data : RoomChatPayload) (s : composer) : composer * list composer_req :=
  match cm_phase s, present (cm_room s) with
  | PAdjust _, Some r =>
      (set_phase PConfirming s,
       [RoomConfirmAdjust r (nullish (rc_task_id data) "") (nullish (rc_amendment_id data) "")])
  | _, _ => (s, [])
  end.

Definition confirm (data : AssignPreviewPayload) (s : composer) : composer * list composer_req :=
  match cm_phase s with
  | PPreview _ => (set_phase PConfirming s, [AssignConfirm (cm_room s) data])
  | _ => (s, [])
  end.

Definition cancel (data : AssignPreviewPayload) (s : composer) : composer * list composer_req :=
  (set_phase PIdle s, [AssignCancel (pv_task_id data)]).

Definition composer_handle (e : composer_event) (s : composer) : composer * list composer_req :=
  match e with
  | RoomProp r =>
      ({| cm_room := r; cm_brief := cm_brief s; cm_staff := cm_staff s; cm_phase := cm_phase s;
          cm_fetched := cm_fetched s |}, [])
  | FocusInput => ensureStaff s
  | TypeBrief v =>
      (match cm_phase s with
       | PError _ | PDone _ _ => set_phase PIdle (set_brief v s)
       | _ => set_brief v s
       end, [])
  | Submit => submit s
  | ApplyMention id => (set_brief (cat ["@"; id; " "]) s, [])
  | ConfirmPlan data => confirm data s
  | CancelPlan data => cancel data s
  | ConfirmAdjust data => confirmAdjust data s
  | Dismiss => (set_phase PIdle s, [])
  end.

(** The draft a room's new task is previewed as. *)
Definition room_preview (d : RoomChatPayload) : AssignPreviewPayload :=
  {| pv_preview_text := nullish (rc_preview_text d) ""; pv_task_id := nullish (rc_task_id d) "";
     pv_plan_hash := nullish (rc_plan_hash d) ""; pv_pic_id := nullish (rc_pic_id d) "";
     pv_auto_confirmed := false |}.

Definition chat_answer (d : RoomChatPayload) (s : composer) : composer :=
  match rc_intent d with
  | IntentQuestion => set_brief "" (set_phase (PReply (nullish (rc_reply d) "")) s)
  | IntentAdjust =>
      if truthy_opt (rc_amendment_id d) then set_phase (PAdjust d) s
      else set_brief "" (set_phase (PReply (nullish (rc_reply d) "")) s)
  | IntentNewTask =>
      if nullish (rc_auto_confirmed d) false
      then set_brief "" (set_phase (PDone (nullish (rc_preview_text d) "") true) s)
      else set_phase (PPreview (room_preview d)) s
  end.

Definition created (taskId : jsstr) : list composer_req :=
  if truthy taskId then [TaskCreated taskId] else [].

Definition composer_resume (r : composer_req) :
    result (composer_resp r) → composer → composer * list composer_req :=
  match r return result (composer_resp r) → composer → composer * list composer_req with
  | LoadStaff => λ a s,
      ({| cm_room := cm_room s; cm_brief := cm_brief s;
          cm_staff := match a with Ok p => asp_staff p | Err _ => [] end;
          cm_phase := cm_phase s; cm_fetched := cm_fetched s |}, [])
  | RoomChat _ _ => λ a s,
      (match a with
       | Ok d => chat_answer d s
       | Err e => set_phase (PError (error_message e "gửi thất bại")) s
       end, [])
  | AssignPreview _ => λ a s,
      match a with
      | Ok d =>
          if pv_auto_confirmed d
          then (set_brief "" (set_phase (PDone (pv_preview_text d) true) s), created (pv_task_id d))
          else (set_phase (PPreview d) s, [])
      | Err e => (set_phase (PError (error_message e "giao việc thất bại")) s, [])
      end
  | RoomConfirmAdjust _ _ _ => λ a s,
      (match a with
       | Ok text => set_brief "" (set_phase (PDone text false) s)
       | Err e => set_phase (PError (error_message e "xác nhận sửa thất bại")) s
       end, [])
  | AssignConfirm room d => λ a s,
      match a with
      | Ok text =>
          (set_brief "" (set_phase (PDone text false) s),
           if truthy_opt room then [] else created (pv_task_id d))
      | Err e => (set_phase (PError (error_message e "xác nhận thất bại")) s, [])
      end
  | AssignCancel _ | TaskCreated _ => λ _ s, (s, [])
  end.

(** ** The view *)

Definition is_previewing (p : phase) : bool := match p with PPreviewing => true | _ => false end.

Definition mention_item (s : StaffOption) : node composer_event :=
  El "li" [] [
    El "button" [AStr "type" "button"; AOn (OnClick (ApplyMention (so_id s)))] [
      Txt "@"; Txt (so_id s); Txt " ";
      El "span" [AStr "className" "office-composer-domain"]
        [Txt "("; Txt (so_domain s); Txt ")"]]].

Definition phase_view (p : phase) : list (node composer_event) :=
  match p with
  | PIdle | PPreviewing => []
  | PPreview d =>
      [El "div" [AStr "className" "office-composer-preview"] [
        El "pre" [] [Txt (pv_preview_text d)];
        El "div" [AStr "className" "office-composer-actions"] [
          El "button" [AStr "type" "button"; AStr "className" "primary";
                       AOn (OnClick (ConfirmPlan d))] [Txt "Xác nhận giao việc"];
          El "button" [AStr "type" "button"; AOn (OnClick (CancelPlan d))] [Txt "Huỷ"]]]]
  | PReply text =>
      [El "div" [AStr "className" "office-composer-preview office-composer-reply"]
         [El "pre" [] [Txt text]]]
  | PAdjust d =>
      [El "div" [AStr "className" "office-composer-preview"] [
        El "pre" [] [Txt (nullish (rc_preview_text d) "")];
        El "div" [AStr "className" "office-composer-actions"] [
          El "button" [AStr "type" "button"; AStr "className" "primary";
                       AOn (OnClick (ConfirmAdjust d))] [Txt "Xác nhận sửa kế hoạch"];
          El "button" [AStr "type" "button"; AOn (OnClick Dismiss)] [Txt "Bỏ qua"]]]]
  | PConfirming => [El "p" [AStr "className" "office-room-status"] [Txt "Đang xác nhận…"]]
  | PDone text auto =>
      [El "div" [AStr "className" "office-composer-preview office-composer-done"] (
         [El "pre" [] [Txt text]]
         ++ when auto [El "p" [AStr "className" "office-room-status"]
              [Txt "Đã tự xác nhận (chế độ tự xác nhận đang bật)."]])]
  | PError message => [El "p" [AStr "className" "error"] [Txt "Lỗi: "; Txt message]]
  end.

Definition placeholder (room : option jsstr) : jsstr :=
  if truthy_opt room
  then cat ["Chat trong phòng việc… (hỏi tiến độ / "; dq; "chỉnh: …"; dq; " / "; dq; "giao …"; dq;
            " việc mới)"]
  else "Giao việc… (@tên-nhân-sự để chỉ định PIC, @all hoặc bỏ trống để đội tự chọn)".

Definition AssignComposer (s : composer) : list (node composer_event) :=
  let mentions := filterStaffForMention (cm_brief s) (cm_staff s) in
  [El "div" [AStr "className" "office-composer"] (
    [El "div" [AStr "className" "office-composer-row"] [
       El "input" [AStr "type" "text"; AStr "value" (cm_brief s);
                   AStr "placeholder" (placeholder (cm_room s));
                   AOn (OnFocus FocusInput); AOn (OnText TypeBrief);
                   AOn (OnKey (λ k _, if bool_decide (k = "Enter"%js) then Some Submit else None))] [];
       El "button" [AStr "type" "button"; AOn (OnClick Submit);
                    ADisabled (is_previewing (cm_phase s))]
         [Txt (if is_previewing (cm_phase s) then "Đang xử lý…"
               else if truthy_opt (cm_room s) then "Gửi" else "Giao việc")]]]
    ++ when (Nat.ltb 0 (length mentions))
         [El "ul" [AStr "className" "office-composer-mentions"; AStr "role" "listbox"]
            (map mention_item mentions)]
    ++ phase_view (cm_phase s))].

Definition assign_composer (room : option jsstr) : component :=
  {| c_state := composer; c_event := composer_event; c_req := composer_req;
     c_resp := composer_resp;
     c_init := ({| cm_room := room; cm_brief := ""; cm_staff := []; cm_phase := PIdle;
                   cm_fetched := false |}, []);
     c_view := AssignComposer; c_env := λ _ e, match e with RoomProp _ => True | _ => False end;
     c_handle := composer_handle; c_resume := composer_resume |}.

(** ** Theorems: the mention list *)

Lemma elem_mentions brief staff m x :
  mention_token (until_ws (trim_start brief)) = Some m → existsb is_ws (trim_start brief) = false →
  x ∈ filterStaffForMention brief staff ↔
  x ∈ ALL_OPTION :: staff ∧ includes (to_lower m) (to_lower (so_id x)) = true.
Proof.
  intros Hm Hw. unfold filterStaffForMention. rewrite Hm, Hw. cbv zeta.
  destruct (to_lower m) as [|c q] eqn:E.
  - cbn [truthy negb]. split; [|by intros [? _]]. intros Hx. split; [done|].
    apply includes_spec. exists [], (to_lower (so_id x)). done.
  - cbn [truthy negb]. rewrite elem_of_app, !list_elem_of_filter.
    assert (starts_with (c :: q) (to_lower (so_id x)) = true →
      includes (c :: q) (to_lower (so_id x)) = true) as Hs.
    { intros (r & ->)%starts_with_spec. apply includes_spec. by exists [], r. }
    destruct (starts_with (c :: q) (to_lower (so_id x))); naive_solver.
Qed.

(** The mention list is complete and ranked.  While the brief is one mention token, the list
    is exactly the staff, with the entry for all, whose id contains what follows the sign, in
    any case; and an id that starts with it is never listed after one that does not.  As soon as
    the brief has white space after the token, or is no mention, nothing is listed. *)
Theorem mentions_spec brief staff :
  (∀ m, mention_token (until_ws (trim_start brief)) = Some m →
     existsb is_ws (trim_start brief) = false →
     (∀ x, x ∈ filterStaffForMention brief staff ↔
        x ∈ ALL_OPTION :: staff ∧ includes (to_lower m) (to_lower (so_id x)) = true) ∧
     ∃ l1 l2, filterStaffForMention brief staff = l1 ++ l2 ∧
       Forall (λ x, starts_with (to_lower m) (to_lower (so_id x)) = true) l1 ∧
       Forall (λ x, starts_with (to_lower m) (to_lower (so_id x)) = false) l2) ∧
  (mention_token (until_ws (trim_start brief)) = None ∨ existsb is_ws (trim_start brief) = true →
     filterStaffForMention brief staff = []).
Proof.
  split.
  - intros m Hm Hw. split; [intros x; by apply elem_mentions|].
    unfold filterStaffForMention. rewrite Hm, Hw. cbv zeta.
    destruct (to_lower m) as [|c q]; cbn [truthy negb].
    + exists (ALL_OPTION :: staff), []. rewrite app_nil_r. split; [done|]. split; [|done].
      by apply Forall_forall.
    + eexists _, _. split; [reflexivity|].
      split; apply Forall_forall; intros x Hx; apply list_elem_of_filter in Hx; tauto.
  - intros [H|H]; unfold filterStaffForMention; rewrite H; [done|]. by destruct (mention_token _).
Qed.

(** ** Theorems: the composer *)

(** The requests [submit] and the confirmations wait for. *)
Definition waited (r : composer_req) : bool :=
  match r with
  | RoomChat _ _ | AssignPreview _ | RoomConfirmAdjust _ _ _ | AssignConfirm _ _ => true
  | _ => false
  end.
Definition waits (p : phase) : bool :=
  match p with PPreviewing | PConfirming => true | _ => false end.
Definition waiting (q : list composer_req) : nat := length (List.filter waited q).

Definition composer_inv (s : composer) (q : list composer_req) : Prop :=
  waiting q = (if waits (cm_phase s) then 1 else 0)%nat.

Lemma waiting_app q1 q2 : waiting (q1 ++ q2) = (waiting q1 + waiting q2)%nat.
Proof. unfold waiting. by rewrite List.filter_app, length_app. Qed.

(** Where the composer's events come from. *)
Lemma composer_offers s e :
  offers (AssignComposer s) e →
  match e with
  | RoomProp _ => False
  | ConfirmPlan d | CancelPlan d => cm_phase s = PPreview d
  | ConfirmAdjust d => cm_phase s = PAdjust d
  | Dismiss => ∃ d, cm_phase s = PAdjust d
  | FocusInput | TypeBrief _ | Submit | ApplyMention _ => True
  end.
Proof.
  intros H. unfold AssignComposer in H. inv_offers; try done.
  - case_bool_decide; [by simplify_eq|done].
  - unfold mention_item in H. by inv_offers.
  - unfold phase_view in H. destruct (cm_phase s); inv_offers; eauto.
Qed.

(** An event starts at most one waited-for request, and then waits for it. *)
Lemma composer_event_waits e s :
  allowed (C := assign_composer None) s e →
  let '(s', reqs) := composer_handle e s in
  (waiting reqs = 0%nat ∧ waits (cm_phase s') = waits (cm_phase s)) ∨
  (waiting reqs = 1%nat ∧ waits (cm_phase s) = false ∧ waits (cm_phase s') = true).
Proof.
  intros Ha. assert (match e with RoomProp _ => True | _ => offers (AssignComposer s) e end) as Ho
    by (destruct Ha as [Ha|Ha], e; done).
  clear Ha. destruct e; cbn; try (apply composer_offers in Ho); auto.
  - unfold ensureStaff. destruct (cm_fetched s); by left.
  - destruct (cm_phase s) eqn:E; cbn; rewrite ?E; by left.
  - unfold submit. destruct (cm_phase s) eqn:E; cbn; rewrite ?E; cbn; auto;
      (destruct (negb _); cbn; rewrite ?E; auto; right; split; [by destruct (present _)|done]).
  - unfold confirm. rewrite Ho. right. done.
  - rewrite Ho. left. done.
  - unfold confirmAdjust. rewrite Ho. destruct (present _); [right; done|left; by rewrite Ho].
  - destruct Ho as [d ->]. left. done.
Qed.

(** An answer ends the wait for its own request and changes no phase otherwise. *)
Lemma composer_answer_waits r a s :
  let '(s', reqs) := composer_resume r a s in
  waiting reqs = 0%nat ∧
  (if waited r then waits (cm_phase s') = false else cm_phase s' = cm_phase s).
Proof.
  destruct r as [|room m|b|room t am|room d|t|t]; cbn; try done.
  - split; [done|]. destruct a as [d|e]; [|done]. unfold chat_answer.
    destruct (rc_intent d); [done|by destruct (truthy_opt _)|by destruct (nullish _ _)].
  - destruct a as [d|e]; [|done]. destruct (pv_auto_confirmed d); [|done]. split; [|done].
    unfold created. by destruct (truthy _).
  - by destruct a.
  - destruct a as [text|e]; [|done]. split; [|done]. unfold created.
    destruct (truthy_opt room); [done|]. by destruct (truthy _).
Qed.

#[export] Instance composer_inv_holds room : Invariant (C := assign_composer room) any composer_inv.
Proof.
  split.
  - done.
  - intros e s q Hi Ha. unfold composer_inv in *.
    change (waiting (q ++ snd (composer_handle e s)) =
      (if waits (cm_phase (fst (composer_handle e s))) then 1 else 0)%nat).
    rewrite waiting_app. pose proof (composer_event_waits e s Ha) as H.
    destruct (composer_handle e s) as [s' reqs]. cbn [fst snd]. destruct H as [[-> ->]|(-> & E & ->)].
    + rewrite Hi. destruct (waits _); done.
    + rewrite Hi, E. done.
  - intros r a s q1 q2 _ Hi. unfold composer_inv in *.
    change (waiting (q1 ++ q2 ++ snd (composer_resume r a s)) =
      (if waits (cm_phase (fst (composer_resume r a s))) then 1 else 0)%nat).
    rewrite !waiting_app in *. pose proof (composer_answer_waits r a s) as H.
    destruct (composer_resume r a s) as [s' reqs]. cbn [fst snd]. destruct H as [-> H].
    unfold waiting in Hi at 2. cbn in Hi. destruct (waited r); cbn in Hi.
    + rewrite H. destruct (waits (cm_phase s)); unfold waiting in *; lia.
    + rewrite H. unfold waiting in *. lia.
Qed.

Notation composer_world := (world (assign_composer None)).

(** A previewed plan is never lost.  In every reachable state that shows the preview of a
    plan, each step, event or answer, keeps showing that plan, or confirms it, or cancels it on
    the server: submitting again, typing, switching rooms and late answers do not replace it. *)
Theorem drafts_are_resolved (w : world (assign_composer None)) d new w' :
  reachable any w → cm_phase (w_state w) = PPreview d → step any w new w' →
  cm_phase (w_state w') = PPreview d ∨
  (∃ room, AssignConfirm room d ∈ new) ∨ AssignCancel (pv_task_id d) ∈ new.
Proof.
  intros Hw Hd Hs. pose proof (invariant_holds (C := assign_composer None) any composer_inv w Hw) as Hi.
  unfold composer_inv in Hi. rewrite Hd in Hi. cbn [waits] in Hi.
  destruct Hs as [e s q s' new Ha Hh|q1 r q2 a s s' new _ Hh]; cbn [w_state w_flight] in *.
  - assert (match e with RoomProp _ => True | _ => offers (AssignComposer s) e end) as Ho
      by (destruct Ha as [Ha|Ha], e; done).
    destruct e; cbn in Hh; try (apply composer_offers in Ho); rewrite ?Hd in *; simplify_eq; auto.
    + unfold ensureStaff in Hh. destruct (cm_fetched s); simplify_eq; auto.
    + unfold submit in Hh. rewrite Hd in Hh. simplify_eq. auto.
    + unfold confirm in Hh. rewrite Hd in Hh. simplify_eq. right. left. eexists. by left.
    + unfold cancel in Hh. simplify_eq. right. right. by left.
    + by destruct Ho.
  - left. pose proof (composer_answer_waits r a s) as H.
    change (composer_resume r a s = (s', new)) in Hh. rewrite Hh in H. destruct H as [_ H].
    rewrite waiting_app in Hi. unfold waiting in Hi. cbn in Hi.
    destruct (waited r); cbn in Hi; [lia|]. by rewrite H.
Qed.

(** The composer's run: a brief is typed and submitted and the plan comes back. *)
Definition demo_plan : AssignPreviewPayload :=
  {| pv_preview_text := "1. viết"; pv_task_id := "t1"; pv_plan_hash := "h"; pv_pic_id := "qa";
     pv_auto_confirmed := false |}.
Definition to_preview : list (action (assign_composer None)) :=
  [Do (C := assign_composer None) (TypeBrief "@qa viết"); Do (C := assign_composer None) Submit;
   Answer (C := assign_composer None) 0 (AssignPreview "@qa viết") (Ok demo_plan)].

Lemma to_preview_legal :
  legal_all (C := assign_composer None) any to_preview (init_world (assign_composer None)).
Proof.
  split; [left; eapply (offers_nth _ 1); [vm_compute; reflexivity|eexists; reflexivity]|].
  split; [left; eapply (offers_nth _ 3); [vm_compute; reflexivity|reflexivity]|].
  split; [split; [vm_compute; reflexivity|exact I]|exact I].
Defined.

Lemma to_preview_reachable : reachable any (play to_preview (init_world (assign_composer None))).
Proof. apply play_reachable; [apply reach_init|exact to_preview_legal]. Defined.

Lemma drafts_are_resolved_witness :
  let w := play to_preview (init_world (assign_composer None)) in
  let w' := do_action (Do (C := assign_composer None) (CancelPlan demo_plan)) w in
  cm_phase (w_state w') = PPreview demo_plan ∨
  (∃ room, AssignConfirm room demo_plan ∈ [AssignCancel "t1"]) ∨
  AssignCancel (pv_task_id demo_plan) ∈ [AssignCancel "t1"].
Proof.
  intros w w'. apply (drafts_are_resolved w demo_plan [AssignCancel "t1"] w').
  - exact to_preview_reachable.
  - vm_compute. reflexivity.
  - apply (step_event (assign_composer None) any (CancelPlan demo_plan)).
    + left. eapply (offers_nth _ 5); [vm_compute; reflexivity|reflexivity].
    + vm_compute. reflexivity.
Defined.

Lemma mentions_spec_witness :
  filterStaffForMention "@qa viết" [{| so_id := "qa"; so_domain := "qa" |}] = [].
Proof. apply mentions_spec. right. vm_compute. reflexivity. Defined.

(** A plan is confirmed as it is shown, once.  Whenever the composer can confirm a plan on the
    server, the plan is the one on display, its text is shown, and no other submission or
    confirmation is in flight. *)
Theorem plan_confirmed_as_shown (w : composer_world) room d :
  reachable any w → issues any w (AssignConfirm room d) →
  cm_phase (w_state w) = PPreview d ∧ room = cm_room (w_state w) ∧ waiting (w_flight w) = 0%nat ∧
  includes (pv_preview_text d) (text_all (AssignComposer (w_state w))) = true.
Proof.
  intros Hw Hi. pose proof (invariant_holds (C := assign_composer None) any composer_inv w Hw) as Hinv.
  unfold composer_inv in Hinv. destruct w as [s q]. cbn [w_state w_flight] in *.
  apply issues_inv in Hi as [(e & Ha & Hr)|(r & a & _ & Hr)]; cbn [w_state] in *.
  - assert (match e with RoomProp _ => True | _ => offers (AssignComposer s) e end) as Ho
      by (destruct Ha as [Ha|Ha], e; done).
    change (AssignConfirm room d ∈ snd (composer_handle e s)) in Hr.
    assert (e = ConfirmPlan d ∧ room = cm_room s) as [-> ->].
    { destruct e; cbn in Hr; try (by apply elem_of_nil in Hr).
      - unfold ensureStaff in Hr. destruct (cm_fetched s); set_solver.
      - unfold submit in Hr. repeat case_match; set_solver.
      - unfold confirm in Hr. repeat case_match; set_solver.
      - set_solver.
      - unfold confirmAdjust in Hr. repeat case_match; set_solver. }
    apply composer_offers in Ho. rewrite Ho in Hinv. split; [done|]. split; [done|].
    split; [done|]. unfold AssignComposer. rewrite Ho.
    apply shown_cons; left. apply shown_El. apply shown_app; right. apply shown_app; right.
    apply shown_cons; left. apply shown_El, shown_cons; left. apply shown_El, shown_cons; left.
    apply shown_Txt.
  - change (AssignConfirm room d ∈ snd (composer_resume r a s)) in Hr.
    destruct r, a; cbn in Hr; unfold created in Hr; repeat case_match; set_solver.
Qed.

Lemma plan_confirmed_as_shown_witness :
  let w := play to_preview (init_world (assign_composer None)) in
  cm_phase (w_state w) = PPreview demo_plan ∧ None = cm_room (w_state w) ∧
  waiting (w_flight w) = 0%nat ∧
  includes (pv_preview_text demo_plan) (text_all (AssignComposer (w_state w))) = true.
Proof.
  intros w. apply (plan_confirmed_as_shown w None demo_plan to_preview_reachable).
  apply (issues_event (C := assign_composer None) any _ (ConfirmPlan demo_plan)).
  - left. eapply (offers_nth _ 4); [vm_compute; reflexivity|reflexivity].
  - vm_compute. left.
Defined.

Lemma adjust_offered s d : cm_phase s = PAdjust d → offers (AssignComposer s) (ConfirmAdjust d).
Proof.
  intros E. unfold AssignComposer. rewrite E, offers_El, !offers_app. right. right. right.
  eapply (offers_nth _ 0); [reflexivity|reflexivity].
Qed.

(** A plan change can be confirmed in the wrong room.  For any two rooms and any change the
    first room proposes, selecting the second room keeps the change on display, and confirming
    it there posts it to the second room. *)
Theorem adjust_follows_room (a b : jsstr) d :
  a ≠ [] → b ≠ [] → rc_intent d = IntentAdjust → truthy_opt (rc_amendment_id d) = true →
  ∃ w : world (assign_composer (Some a)),
    reachable any w ∧ cm_room (w_state w) = Some b ∧ cm_phase (w_state w) = PAdjust d ∧
    w_flight w = [] ∧
    issues any w (RoomConfirmAdjust b (nullish (rc_task_id d) "") (nullish (rc_amendment_id d) "")).
Proof.
  intros Ha Hb Hi Hd.
  assert (reachable any (init_world (assign_composer (Some a)))) as H by constructor.
  eapply (run_event_to (C := assign_composer (Some a)) _ (TypeBrief "x")) in H;
    [|left; eapply (offers_nth _ 1); [reflexivity|by eexists]|reflexivity].
  eapply (run_event_to (C := assign_composer (Some a)) _ Submit) in H;
    [|left; eapply (offers_nth _ 3); [reflexivity|reflexivity]|].
  2:{ cbn. unfold submit. cbn. rewrite (proj2 (truthy_spec a) Ha). reflexivity. }
  eapply (run_response_to (C := assign_composer (Some a)) _ [] (RoomChat a "x") [] (Ok d)) in H;
    [|done|].
  2:{ cbn. unfold chat_answer. rewrite Hi, Hd. reflexivity. }
  eapply (run_event_to (C := assign_composer (Some a)) _ (RoomProp (Some b))) in H;
    [|by right|reflexivity].
  eexists. split; [exact H|]. split; [done|]. split; [done|]. split; [done|].
  apply (issues_event (C := assign_composer (Some a)) any _ (ConfirmAdjust d)).
  - left. by apply adjust_offered.
  - cbn. unfold confirmAdjust. cbn. rewrite (proj2 (truthy_spec b) Hb). cbn. left.
Qed.

Definition demo_change : RoomChatPayload :=
  {| rc_intent := IntentAdjust; rc_reply := None; rc_preview_text := Some ("thêm bước" : jsstr);
     rc_task_id := Some ("t1" : jsstr); rc_plan_hash := None; rc_pic_id := None;
     rc_amendment_id := Some ("am1" : jsstr); rc_auto_confirmed := None |}.

Lemma adjust_follows_room_witness :
  ∃ w : world (assign_composer (Some ("t1" : jsstr))),
    reachable any w ∧ cm_room (w_state w) = Some ("t2" : jsstr) ∧
    cm_phase (w_state w) = PAdjust demo_change ∧ w_flight w = [] ∧
    issues any w (RoomConfirmAdjust "t2" "t1" "am1").
Proof. apply (adjust_follows_room "t1" "t2" demo_change); done. Defined.

(** ** Theorems: the contract of the composer *)

(** What the composer may send about drafts, and when: a brief only while nothing is on display
    to decide; a confirmation or a cancellation of the plan on display; a confirmation of the
    plan change on display. *)
Inductive draft_msg :=
| MSubmit
| MConfirm (d : AssignPreviewPayload)
| MCancel (taskId : jsstr)
| MChange (taskId amendmentId : jsstr).

Inductive draft_state :=
| DFree | DWaiting | DPlan (d : AssignPreviewPayload) | DChange (c : RoomChatPayload) | DConfirming.

Inductive draft_step : draft_state → list draft_msg → draft_state → Prop :=
| ds_submit : draft_step DFree [MSubmit] DWaiting
| ds_answer u : u ≠ DWaiting → u ≠ DConfirming → draft_step DWaiting [] u
| ds_confirm d : draft_step (DPlan d) [MConfirm d] DConfirming
| ds_cancel d : draft_step (DPlan d) [MCancel (pv_task_id d)] DFree
| ds_change c :
    draft_step (DChange c) [MChange (nullish (rc_task_id c) "") (nullish (rc_amendment_id c) "")]
      DConfirming
| ds_dismiss c : draft_step (DChange c) [] DFree
| ds_confirmed : draft_step DConfirming [] DFree.

Definition drafting : protocol draft_msg := Protocol draft_state DFree draft_step.

Definition draft_of (p : phase) : draft_state :=
  match p with
  | PPreviewing => DWaiting
  | PPreview d => DPlan d
  | PAdjust c => DChange c
  | PConfirming => DConfirming
  | PIdle | PReply _ | PDone _ _ | PError _ => DFree
  end.

Definition sent (r : composer_req) : option draft_msg :=
  match r with
  | RoomChat _ _ | AssignPreview _ => Some MSubmit
  | AssignConfirm _ d => Some (MConfirm d)
  | AssignCancel t => Some (MCancel t)
  | RoomConfirmAdjust _ t m => Some (MChange t m)
  | LoadStaff | TaskCreated _ => None
  end.

(** The request the composer waits for belongs to its phase. *)
Definition in_phase (p : phase) (r : composer_req) : Prop :=
  match r with
  | RoomChat _ _ | AssignPreview _ => p = PPreviewing
  | RoomConfirmAdjust _ _ _ | AssignConfirm _ _ => p = PConfirming
  | _ => True
  end.

Definition phase_inv (s : composer) (q : list composer_req) : Prop :=
  composer_inv s q ∧ Forall (in_phase (cm_phase s)) q.

Lemma not_waited_in_phase p r : waited r = false → in_phase p r.
Proof. by destruct r. Qed.

(** Without a wait, every request in flight fits every phase. *)
Lemma idle_in_phase p q : waiting q = 0%nat → Forall (in_phase p) q.
Proof.
  induction q as [|r q IH]; [constructor|]. unfold waiting. cbn. intros H.
  destruct (waited r) eqn:Hr; [done|]. constructor; [by apply not_waited_in_phase|by apply IH].
Qed.

(** An event of a waiting composer leaves its phase alone. *)
Lemma waiting_event e s :
  allowed (C := assign_composer None) s e → waits (cm_phase s) = true →
  cm_phase (fst (composer_handle e s)) = cm_phase s ∧ omap sent (snd (composer_handle e s)) = [] ∧
  waiting (snd (composer_handle e s)) = 0%nat.
Proof.
  intros Ha Hw. assert (match e with RoomProp _ => True | _ => offers (AssignComposer s) e end) as Ho
    by (destruct Ha as [Ha|Ha], e; done).
  destruct e; cbn; try (apply composer_offers in Ho); try done.
  - unfold ensureStaff. by destruct (cm_fetched s).
  - by destruct (cm_phase s) eqn:E; cbn; rewrite ?E.
  - unfold submit. by destruct (cm_phase s) eqn:E; cbn; rewrite ?E.
  - by rewrite Ho in Hw.
  - by rewrite Ho in Hw.
  - by rewrite Ho in Hw.
  - destruct Ho as [d Ho]. by rewrite Ho in Hw.
Qed.

#[export] Instance phase_inv_holds : Invariant (C := assign_composer None) any phase_inv.
Proof.
  split.
  - by split; [|constructor].
  - intros e s q [Hi Hf] Ha. split; [by apply (@inv_event _ _ _ (composer_inv_holds None))|].
    change (Forall (in_phase (cm_phase (fst (composer_handle e s)))) (q ++ snd (composer_handle e s))).
    unfold composer_inv in Hi. destruct (waits (cm_phase s)) eqn:Hw.
    + destruct (waiting_event e s Ha Hw) as (-> & _ & Hn).
      apply Forall_app. split; [done|by apply idle_in_phase].
    + apply Forall_app. split; [by apply idle_in_phase|].
      clear Hi Hf Ha. destruct e; cbn; try (by constructor); try (by repeat constructor).
      * unfold ensureStaff. destruct (cm_fetched s); by repeat constructor.
      * unfold submit. destruct (cm_phase s); cbn; try (by constructor);
          (destruct (negb _); [by constructor|]); destruct (present _); by repeat constructor.
      * unfold confirm. destruct (cm_phase s); by repeat constructor.
      * unfold confirmAdjust. repeat case_match; by repeat constructor.
  - intros r a s q1 q2 Hsrv [Hi Hf].
    split; [by apply (@inv_response _ _ _ (composer_inv_holds None))|].
    change (Forall (in_phase (cm_phase (fst (composer_resume r a s))))
              (q1 ++ q2 ++ snd (composer_resume r a s))).
    unfold composer_inv in Hi. pose proof (composer_answer_waits r a s) as H.
    rewrite waiting_app in Hi. unfold waiting in Hi at 2. cbn in Hi.
    destruct (composer_resume r a s) as [s' new]. destruct H as [Hn H]. cbn [fst snd].
    apply Forall_app in Hf as [Hf1 Hf2]. inversion Hf2 as [|? ? _ Hf3]; subst.
    rewrite app_assoc. apply Forall_app. split; [|by apply idle_in_phase].
    destruct (waited r).
    + apply idle_in_phase. rewrite waiting_app. cbn in Hi. unfold waiting in *.
      destruct (waits (cm_phase s)); lia.
    + rewrite H. apply Forall_app. done.
Qed.

#[export] Instance composer_implements :
  Implements (C := assign_composer None) any sent drafting (λ s, draft_of (cm_phase s)).
Proof.
  split; [done|]. intros w new w' Hw Hs.
  pose proof (invariant_holds (C := assign_composer None) any phase_inv w Hw) as [_ Hf].
  destruct Hs as [e s q s' new Ha Hh|q1 r q2 a s s' new _ Hh]; cbn [w_state w_flight] in *.
  - change (composer_handle e s = (s', new)) in Hh.
    destruct (waits (cm_phase s)) eqn:Hw'.
    { right. pose proof (waiting_event e s Ha Hw') as H. rewrite Hh in H. cbn [fst snd] in H. destruct H as (E1 & E2 & _).
      split; [exact E2|by rewrite E1]. }
    assert (match e with RoomProp _ => True | _ => offers (AssignComposer s) e end) as Ho
      by (destruct Ha as [Ha|Ha], e; done).
    destruct e; cbn in Hh; try (apply composer_offers in Ho); simplify_eq; try (by right).
    + unfold ensureStaff in Hh. destruct (cm_fetched s); simplify_eq; by right.
    + right. split; [done|]. by destruct (cm_phase s) eqn:E; cbn; rewrite ?E.
    + unfold submit in Hh. destruct (cm_phase s) eqn:E; try done; simplify_eq; cbn;
        rewrite ?E; try (by right);
        (destruct (negb _); simplify_eq; [right; by rewrite ?E|]);
        left; destruct (present _); apply ds_submit.
    + unfold confirm in Hh. rewrite Ho in Hh. simplify_eq. left. cbn. rewrite Ho. apply ds_confirm.
    + unfold cancel in Hh. simplify_eq. left. cbn. rewrite Ho. apply ds_cancel.
    + unfold confirmAdjust in Hh. rewrite Ho in Hh.
      destruct (present _); simplify_eq; [left; cbn; rewrite Ho; apply ds_change|by right].
    + destruct Ho as [d Ho]. left. cbn. rewrite Ho. apply ds_dismiss.
  - change (composer_resume r a s = (s', new)) in Hh.
    apply Forall_app in Hf as [_ Hf]. inversion Hf as [|? ? Hr _]; subst. clear Hf.
    pose proof (composer_answer_waits r a s) as H. rewrite Hh in H. destruct H as [Hn H].
    assert (omap sent new = []) as E0.
    { clear -Hh. destruct r, a; cbn in Hh; repeat case_match; unfold created in *;
        repeat case_match; simplify_eq; done. }
    destruct (waited r) eqn:Ew; [|right; split; [exact E0|by rewrite H]].
    replace (omap sent new) with (@nil draft_msg) by (symmetry; exact E0).
    left. destruct r; try done; cbn in Hr; rewrite Hr; cbn.
    + apply ds_answer; destruct (cm_phase s'); try done; congruence.
    + apply ds_answer; by destruct (cm_phase s').
    + assert (draft_of (cm_phase s') = DFree) as -> by (destruct a; cbn in Hh; by simplify_eq).
      apply ds_confirmed.
    + assert (draft_of (cm_phase s') = DFree) as -> by (destruct a; cbn in Hh; by simplify_eq).
      apply ds_confirmed.
Qed.

(** C24: The composer implements the drafting contract.  Every sequence of briefs, confirmations,
    cancellations and changes it can send to the server, whatever the user does and however the
    answers come, is one the contract allows: a brief is sent only while nothing waits for a
    decision, a plan is confirmed or cancelled only as it was received, once. *)
Theorem composer_refines_drafting t (w : composer_world) :
  trace (C := assign_composer None) any sent t w → p_trace drafting t (draft_of (cm_phase (w_state w))).
Proof. apply (implements_traces (C := assign_composer None) any sent drafting (λ s, draft_of (cm_phase s))). Qed.

(** Answers start nothing the composer waits for again. *)
#[export] Instance composer_ranked : Ranked (assign_composer None).
Proof.
  refine {| rank := (λ r : c_req (assign_composer None),
                       match r with RoomChat _ _ | AssignPreview _ | RoomConfirmAdjust _ _ _
                                  | AssignConfirm _ _ => 1 | _ => 0 end)%nat |}.
  intros r a s. change (snd (c_resume (assign_composer None) r a s)) with (snd (composer_resume r a s)).
  destruct r, a; cbn; repeat case_match; unfold created; repeat case_match; repeat constructor.
Defined.

(** C32: The composer never hangs.  From every reachable state no infinite sequence of answers is
    possible, and when the last request in flight has been answered, in whatever order and with
    whatever values or errors, the composer neither previews nor confirms: it shows a result, an
    error, or a plan to decide. *)
Theorem composer_settles (w : composer_world) :
  reachable any w →
  Acc (flip (answered any)) w ∧
  ∀ w', rtc (answered any) w w' → w_flight w' = [] → waits (cm_phase (w_state w')) = false.
Proof.
  intros Hw. split; [apply (answers_terminate any)|]. intros w' Hr Hf.
  pose proof (invariant_holds (C := assign_composer None) any composer_inv w'
                (answers_reachable any w w' Hw Hr)) as Hi.
  unfold composer_inv in Hi. rewrite Hf in Hi. by destruct (waits _).
Qed.

(** A brief is previewed and confirmed. *)
Lemma composer_refines_drafting_witness :
  let w := play to_preview (init_world (assign_composer None)) in
  p_trace drafting [MSubmit] (draft_of (cm_phase (w_state w))).
Proof.
  apply (composer_refines_drafting [MSubmit]).
  exact (play_trace (C := assign_composer None) any sent to_preview []
           (init_world (assign_composer None)) (trace_start _ _ _) to_preview_legal).
Defined.

Lemma composer_settles_witness :
  let w := play to_preview (init_world (assign_composer None)) in
  Acc (flip (answered any)) w ∧
  ∀ w', rtc (answered any) w w' → w_flight w' = [] → waits (cm_phase (w_state w')) = false.
Proof. intros w. apply (composer_settles w to_preview_reachable). Defined.
