(* ===== verification/Setup.v ===== *)
(** The first-run setup wizard (views/Setup.tsx, views/setup-company-step.tsx). *)

From S2P Require Import Prelude React Types ApiClient.

(** ** The key groups *)

Record Field := { fd_key : jsstr; fd_label : jsstr; fd_password : bool }.
Record Group := {
  gr_id : jsstr; gr_title : jsstr; gr_fields : list Field; gr_testable : bool;
  gr_hint : option jsstr }.

Definition secret (k l : jsstr) : Field := {| fd_key := k; fd_label := l; fd_password := true |}.
Definition plain (k l : jsstr) : Field := {| fd_key := k; fd_label := l; fd_password := false |}.

Definition GROUPS : list Group := [
  {| gr_id := "openrouter"; gr_title := "OpenRouter (bộ não LLM)";
     gr_fields := [secret "OPENROUTER_API_KEY" "API key"]; gr_testable := true;
     gr_hint := Some "Lấy key tại openrouter.ai → Keys."%js |};
  {| gr_id := "atlassian"; gr_title := "Atlassian (Jira + Confluence)";
     gr_fields := [plain "ATLASSIAN_SITE_NAME" "Site (vd acme.atlassian.net)";
                   plain "ATLASSIAN_USER_EMAIL" "Email";
                   secret "ATLASSIAN_API_TOKEN" "API token";
                   plain "JIRA_PROJECT_KEY" "Mã Jira project (vd SCRUM)"];
     gr_testable := true; gr_hint := None |};
  {| gr_id := "slack"; gr_title := "Slack";
     gr_fields := [secret "SLACK_XOXC_TOKEN" "xoxc token"; secret "SLACK_XOXD_TOKEN" "xoxd token";
                   plain "SLACK_TEAM_DOMAIN" "Team domain (vd acme.slack.com)";
                   plain "SLACK_REPORT_CHANNEL" "Kênh báo cáo (id hoặc #tên)"];
     gr_testable := true; gr_hint := None |};
  {| gr_id := "github"; gr_title := "GitHub";
     gr_fields := [plain "GITHUB_REPO" "Repo (owner/tên)"]; gr_testable := true;
     gr_hint := Some "Đăng nhập GitHub CLI trên máy chủ: chạy `gh auth login` một lần."%js |};
  {| gr_id := "websearch"; gr_title := "Tìm kiếm web (tuỳ chọn)";
     gr_fields := [secret "TAVILY_API_KEY" "Tavily API key";
                   secret "BRAVE_API_KEY" "Brave Search API key"];
     gr_testable := false;
     gr_hint := Some (cat ["Chỉ cần cho nhân sự bật "; dq; "tìm kiếm web"; dq;
                           ". Bỏ trống nếu không dùng."]) |}].

Definition n_groups : Z := 5.

(** ** State *)

Record setup := {
  su_step : Z;
  su_values : gmap jsstr jsstr;
  su_testResult : gmap jsstr (bool * jsstr);      (* ok, detail *)
  su_busy : bool;
  su_error : option jsstr;
  su_password : jsstr;
  su_username : jsstr;
  su_finished : bool;
  su_companyName : jsstr;
  su_coordinatorId : jsstr;
  su_agents : list AgentSummary
}.

Inductive setup_event :=
| SetField (key v : jsstr)
| TestGroup (g : Group)
| NextGroup (g : Group)
| BackStep
| SetCompanyName (v : jsstr)
| SetCoordinator (v : jsstr)
| SaveCompany
| SetUsername (v : jsstr)
| SetPassword (v : jsstr)
| Finish.

(** What follows the write of a group's values: the group's test, or the next step. *)
Inductive goal := ThenTest (g : Group) | ThenNext.

Record TestResult := { te_group : jsstr; te_ok : bool; te_detail : jsstr; te_hint : jsstr }.

Inductive setup_req :=
| LoadAgents
| PostCompany (name : jsstr) (coordinator : option jsstr)
| WriteEnv (then_ : goal) (values : gmap jsstr jsstr)
| RunTest (g : Group)
| PostFinish (username password : jsstr)
| DoneTimer                                        (* setTimeout(onDone, 6000) *)
| OnDone.                                          (* the parent's callback *)

Definition setup_resp (r : setup_req) : Type :=
  match r with
  | LoadAgents => list AgentSummary
  | RunTest _ => TestResult
  | PostCompany _ _ => CompanyPayload
  | WriteEnv _ _ | PostFinish _ _ | DoneTimer | OnDone => unit
  end.

Definition companyStep (s : setup) : bool := su_step s =? n_groups.
Definition passwordStep (s : setup) : bool := su_step s =? n_groups + 1.

Definition set_busy (busy : bool) (error : option jsstr) (s : setup) : setup :=
  {| su_step := su_step s; su_values := su_values s; su_testResult := su_testResult s;
     su_busy := busy; su_error := error; su_password := su_password s;
     su_username := su_username s; su_finished := su_finished s;
     su_companyName := su_companyName s; su_coordinatorId := su_coordinatorId s;
     su_agents := su_agents s |}.

(** [setStep], with the effect keyed on [companyStep]. *)
Definition set_step (step : Z) (s : setup) : setup * list setup_req :=
  let s' :=
    {| su_step := step; su_values := su_values s; su_testResult := su_testResult s;
       su_busy := su_busy s; su_error := su_error s; su_password := su_password s;
       su_username := su_username s; su_finished := su_finished s;
       su_companyName := su_companyName s; su_coordinatorId := su_coordinatorId s;
       su_agents := su_agents s |} in
  (s', if companyStep s' && negb (companyStep s) then [LoadAgents] else []).

Definition set_inputs (values : gmap jsstr jsstr) (password username company coordinator : jsstr)
    (s : setup) : setup :=
  {| su_step := su_step s; su_values := values; su_testResult := su_testResult s;
     su_busy := su_busy s; su_error := su_error s; su_password := password;
     su_username := username; su_finished := su_finished s;
     su_companyName := company; su_coordinatorId := coordinator; su_agents := su_agents s |}.

Definition set_tested (id : jsstr) (r : bool * jsstr) (s : setup) : setup :=
  {| su_step := su_step s; su_values := su_values s;
     su_testResult := <[id := r]> (su_testResult s);
     su_busy := su_busy s; su_error := su_error s; su_password := su_password s;
     su_username := su_username s; su_finished := su_finished s;
     su_companyName := su_companyName s; su_coordinatorId := su_coordinatorId s;
     su_agents := su_agents s |}.

Definition set_agents (l : list AgentSummary) (s : setup) : setup :=
  {| su_step := su_step s; su_values := su_values s; su_testResult := su_testResult s;
     su_busy := su_busy s; su_error := su_error s; su_password := su_password s;
     su_username := su_username s; su_finished := su_finished s;
     su_companyName := su_companyName s; su_coordinatorId := su_coordinatorId s;
     su_agents := l |}.

Definition set_finished (s : setup) : setup :=
  {| su_step := su_step s; su_values := su_values s; su_testResult := su_testResult s;
     su_busy := su_busy s; su_error := su_error s; su_password := su_password s;
     su_username := su_username s; su_finished := true;
     su_companyName := su_companyName s; su_coordinatorId := su_coordinatorId s;
     su_agents := su_agents s |}.

(** ** Handlers *)

(** [toWrite]: the fields of the group whose value is not blank. *)
Definition to_write (g : Group) (values : gmap jsstr jsstr) : gmap jsstr jsstr :=
  foldl (λ m f, match values !! fd_key f with
                | Some v => if truthy (trim v) then <[fd_key f := v]> m else m
                | None => m
                end) ∅ (gr_fields g).

(** What follows [saveGroup(g)]. *)
Definition proceed (t : goal) (s : setup) : setup * list setup_req :=
  match t with
  | ThenTest g => (s, [RunTest g])
  | ThenNext => let '(s', reqs) := set_step (su_step s + 1) s in (set_busy false (su_error s') s', reqs)
  end.

(** [test] and [next] from a button: without values to write, [saveGroup] is done at once. *)
Definition save_then (g : Group) (t : goal) (s : setup) : setup * list setup_req :=
  let s' := set_busy true None s in
  if decide (to_write g (su_values s) = ∅) then proceed t s'
  else (s', [WriteEnv t (to_write g (su_values s))]).

Definition setup_handle (e : setup_event) (s : setup) : setup * list setup_req :=
  let inputs v p u c k := (set_inputs v p u c k s, []) in
  match e with
  | SetField key v => inputs (<[key := v]> (su_values s)) (su_password s) (su_username s)
                        (su_companyName s) (su_coordinatorId s)
  | SetCompanyName v => inputs (su_values s) (su_password s) (su_username s) v (su_coordinatorId s)
  | SetCoordinator v => inputs (su_values s) (su_password s) (su_username s) (su_companyName s) v
  | SetUsername v => inputs (su_values s) (su_password s) v (su_companyName s) (su_coordinatorId s)
  | SetPassword v => inputs (su_values s) v (su_username s) (su_companyName s) (su_coordinatorId s)
  | BackStep => set_step (su_step s - 1) s
  | TestGroup g => save_then g (ThenTest g) s
  | NextGroup g => save_then g ThenNext s
  | SaveCompany =>
      (set_busy true None s,
       [PostCompany (trim (su_companyName s)) (present (Some (su_coordinatorId s)))])
  | Finish =>
      if Nat.ltb (length (su_password s)) 6
      then (set_busy (su_busy s) (Some "Mật khẩu tối thiểu 6 ký tự."%js) s, [])
      else (set_busy true None s, [PostFinish (su_username s) (su_password s)])
  end.

Definition write_fallback (t : goal) : jsstr :=
  match t with ThenTest _ => "kiểm tra thất bại" | ThenNext => "lưu thất bại" end.

Definition setup_resume (r : setup_req) :
    result (setup_resp r) → setup → setup * list setup_req :=
  match r return result (setup_resp r) → setup → setup * list setup_req with
  | LoadAgents => λ a s, (set_agents match a with Ok l => l | Err _ => [] end s, [])
  | PostCompany _ _ => λ a s,
      match a with
      | Ok _ => proceed ThenNext s
      | Err e => (set_busy false (Some (api_error_message e "lưu tên công ty thất bại")) s, [])
      end
  | WriteEnv t _ => λ a s,
      match a with
      | Ok _ => proceed t s
      | Err e => (set_busy false (Some (api_error_message e (write_fallback t))) s, [])
      end
  | RunTest g => λ a s,
      match a with
      | Ok r => (set_busy false (su_error s) (set_tested (gr_id g) (te_ok r, te_detail r) s), [])
      | Err e => (set_busy false (Some (api_error_message e "kiểm tra thất bại")) s, [])
      end
  | PostFinish _ _ => λ a s,
      match a with
      | Ok _ => (set_finished s, [DoneTimer])
      | Err e => (set_busy false (Some (api_error_message e "hoàn tất thất bại")) s, [])
      end
  | DoneTimer => λ _ s, (s, [OnDone])
  | OnDone => λ _ s, (s, [])
  end.

(** ** The view *)

Definition setup_error {E} (error : option jsstr) : list (node E) :=
  match present error with
  | Some m => [El "p" [AStr "className" "error"] [Txt m]]
  | None => []
  end.

Definition SetupCompanyStep (s : setup) : list (node setup_event) :=
  [El "h1" [] [Txt "Công ty"];
   El "p" [AStr "className" "setup-hint"]
     [Txt "Đặt tên công ty và chọn trưởng phòng điều phối (không bắt buộc)."];
   El "label" [] [
     Txt "Tên công ty";
     El "input" [AStr "value" (su_companyName s); AOn (OnText SetCompanyName);
                 AStr "placeholder" "Acme JSC"] []];
   El "label" [] [
     Txt "Trưởng phòng điều phối (không bắt buộc)";
     El "select" [AStr "value" (su_coordinatorId s); AOn (OnText SetCoordinator)] (
       El "option" [AStr "value" ""] [Txt "(chưa chọn)"]
       :: map (λ a, El (E := setup_event) "option" [AStr "value" (as_id a)]
                      [Txt (as_name a); Txt " ("; Txt (as_id a); Txt ")"]) (su_agents s))]]
  ++ setup_error (su_error s)
  ++ [El "div" [AStr "className" "setup-actions"] [
        El "button" [AStr "type" "button"; ADisabled (su_busy s); AOn (OnClick BackStep)]
          [Txt "Quay lại"];
        El "button" [AStr "type" "button"; AStr "className" "setup-primary"; ADisabled (su_busy s);
                     AOn (OnClick SaveCompany)] [Txt "Tiếp tục"]]].

Definition field_view (values : gmap jsstr jsstr) (f : Field) : node setup_event :=
  El "label" [] [
    Txt (fd_label f);
    El "input" [AStr "type" (if fd_password f then "password" else "text");
                AStr "value" (nullish (values !! fd_key f) "");
                AOn (OnText (SetField (fd_key f)))] []].

Definition group_view (g : Group) (s : setup) : list (node setup_event) :=
  [El "h1" [] [Txt (gr_title g)]]
  ++ match present (gr_hint g) with
     | Some h => [El "p" [AStr "className" "setup-hint"] [Txt h]]
     | None => []
     end
  ++ map (field_view (su_values s)) (gr_fields g)
  ++ match (su_testResult s !! gr_id g : option (prod bool jsstr)) with
     | Some (ok, detail) =>
         [El "p" [AStr "className" (if ok then "setup-ok" else "error")]
            [Txt (if ok then "✓ Kết nối OK" else "✗ "); Txt detail]]
     | None => []
     end
  ++ setup_error (su_error s)
  ++ [El "div" [AStr "className" "setup-actions"] (
        when (gr_testable g)
          [El "button" [AStr "type" "button"; ADisabled (su_busy s); AOn (OnClick (TestGroup g))]
             [Txt "Kiểm tra kết nối"]]
        ++ when (0 <? su_step s)
             [El "button" [AStr "type" "button"; ADisabled (su_busy s); AOn (OnClick BackStep)]
                [Txt "Quay lại"]]
        ++ [El "button" [AStr "type" "button"; AStr "className" "setup-primary";
                         ADisabled (su_busy s); AOn (OnClick (NextGroup g))] [Txt "Tiếp tục"]])].

Definition password_view (s : setup) : list (node setup_event) :=
  [El "h1" [] [Txt "Đặt mật khẩu đăng nhập"];
   El "p" [AStr "className" "setup-hint"]
     [Txt "Mật khẩu này bảo vệ dashboard — bạn dùng để đăng nhập."];
   El "label" [] [
     Txt "Tên đăng nhập";
     El "input" [AStr "value" (su_username s); AOn (OnText SetUsername)] []];
   El "label" [] [
     Txt "Mật khẩu (tối thiểu 6 ký tự)";
     El "input" [AStr "type" "password"; AStr "value" (su_password s);
                 AOn (OnText SetPassword)] []]]
  ++ setup_error (su_error s)
  ++ [El "div" [AStr "className" "setup-actions"] [
        El "button" [AStr "type" "button"; ADisabled (su_busy s); AOn (OnClick BackStep)]
          [Txt "Quay lại"];
        El "button" [AStr "type" "button"; AStr "className" "setup-primary";
                     ADisabled (su_busy s || Nat.ltb (length (su_password s)) 6);
                     AOn (OnClick Finish)] [Txt "Hoàn tất & khởi động"]]].

(** [GROUPS[step]]; a step outside the groups would make the render throw. *)
Definition group_at (step : Z) : option Group :=
  if 0 <=? step then GROUPS !! Z.to_nat step else None.

Definition Setup (s : setup) : list (node setup_event) :=
  if su_finished s then
    [El "div" [AStr "className" "setup-screen"] [
      El "div" [AStr "className" "setup-box"] [
        El "h1" [] [Txt "Đang khởi động lại…"];
        El "p" [] [Txt "Đã lưu cấu hình. Dịch vụ đang khởi động lại — đợi vài giây rồi đăng nhập."]]]]
  else
    [El "div" [AStr "className" "setup-screen"] [
      El "div" [AStr "className" "setup-box"] (
        [El "div" [AStr "className" "setup-progress"]
           [Txt "Bước "; Txt (z_str (su_step s + 1)); Txt "/"; Txt (z_str (n_groups + 2))]]
        ++ (if companyStep s then SetupCompanyStep s
            else if negb (passwordStep s) then
              match group_at (su_step s) with Some g => group_view g s | None => @nil (node setup_event) end
            else password_view s))]].

Definition setup_wizard : component :=
  {| c_state := setup; c_event := setup_event; c_req := setup_req; c_resp := setup_resp;
     c_init := ({| su_step := 0; su_values := ∅; su_testResult := ∅; su_busy := false;
                   su_error := None; su_password := ""; su_username := "admin";
                   su_finished := false; su_companyName := ""; su_coordinatorId := "";
                   su_agents := [] |}, []);
     c_view := Setup; c_env := λ _ _, False; c_handle := setup_handle; c_resume := setup_resume |}.

(** ** Theorems: the values written *)

Definition field_of (g : Group) (k : jsstr) : Prop := ∃ f, f ∈ gr_fields g ∧ fd_key f = k.

Definition written (values : gmap jsstr jsstr) (k : jsstr) (old : option jsstr) : option jsstr :=
  match values !! k with
  | Some v => if truthy (trim v) then Some v else old
  | None => old
  end.

Lemma written_idem values k o : written values k (written values k o) = written values k o.
Proof. unfold written. destruct (values !! k) as [v|]; [|done]. by destruct (truthy (trim v)). Qed.

Lemma lookup_write_loop values l (m : gmap jsstr jsstr) k :
  foldl (λ m f, match values !! fd_key f with
                | Some v => if truthy (trim v) then <[fd_key f := v]> m else m
                | None => m end) m l !! k =
  if decide (k ∈ map fd_key l) then written values k (m !! k) else m !! k.
Proof.
  revert m. induction l as [|f l IH]; intros m; [by rewrite decide_False by apply not_elem_of_nil|].
  cbn [foldl map]. rewrite IH. clear IH. set (m' := match values !! fd_key f with Some _ => _ | None => _ end).
  assert (m' !! k = if decide (k = fd_key f) then written values k (m !! k) else m !! k) as ->.
  { unfold m', written. destruct (decide (k = fd_key f)) as [->|Hk].
    - destruct (values !! fd_key f) as [v|]; [|done]. destruct (truthy (trim v)); [|done].
      by rewrite lookup_insert_eq.
    - destruct (values !! fd_key f) as [v|]; [|done]. destruct (truthy (trim v)); [|done].
      by rewrite lookup_insert_ne by congruence. }
  destruct (decide (k ∈ map fd_key l)) as [Hl|Hl].
  - rewrite (decide_True (P := k ∈ fd_key f :: map fd_key l)) by by right.
    destruct (decide (k = fd_key f)); [apply written_idem|done].
  - destruct (decide (k = fd_key f)) as [->|Hk].
    + by rewrite decide_True by by left.
    + rewrite decide_False; [done|]. by intros [?|?]%elem_of_cons.
Qed.

Lemma lookup_to_write g values k v :
  to_write g values !! k = Some v ↔ field_of g k ∧ values !! k = Some v ∧ trim v ≠ [].
Proof.
  unfold to_write. rewrite lookup_write_loop. rewrite lookup_empty. unfold written, field_of.
  destruct (decide (k ∈ map fd_key (gr_fields g))) as [Hk|Hk].
  - assert (∃ f, f ∈ gr_fields g ∧ fd_key f = k) as Hf
      by (apply list_elem_of_fmap in Hk as (f & -> & Hf); eauto).
    destruct (values !! k) as [w|]; [|naive_solver].
    destruct (truthy (trim w)) eqn:E; [apply truthy_spec in E; naive_solver|].
    split; [done|]. intros (_ & [= <-] & Hn). by apply truthy_spec in Hn as Hn'; rewrite E in Hn'.
  - split; [done|]. intros [(f & Hf & <-) _]. destruct Hk. by apply list_elem_of_fmap_2.
Qed.

(** ** Theorems: the wizard *)

Definition blocking (r : setup_req) : bool :=
  match r with PostCompany _ _ | WriteEnv _ _ | RunTest _ | PostFinish _ _ => true | _ => false end.
Definition blocked (q : list setup_req) : nat := length (List.filter blocking q).

(** The step a request was sent from. *)
Definition req_step (r : setup_req) (step : Z) : Prop :=
  match r with
  | WriteEnv _ _ | RunTest _ => 0 ≤ step < n_groups
  | PostCompany _ _ => step = n_groups
  | PostFinish _ _ => step = n_groups + 1
  | _ => True
  end.

Record setup_inv (s : setup) (q : list setup_req) : Prop := {
  si_step : 0 ≤ su_step s ≤ n_groups + 1;
  si_blocked : blocked q = (if su_busy s && negb (su_finished s) then 1 else 0)%nat;
  si_finished : su_finished s = true → su_busy s = true;
  si_flight : Forall (λ r, req_step r (su_step s)) q
}.

Lemma blocked_app q1 q2 : blocked (q1 ++ q2) = (blocked q1 + blocked q2)%nat.
Proof. unfold blocked. by rewrite List.filter_app, length_app. Qed.

(** Nothing waits for the server: all its requests may be sent from any step. *)
Lemma unblocked_step q n m :
  blocked q = 0%nat → Forall (λ r, req_step r n) q → Forall (λ r, req_step r m) q.
Proof.
  unfold blocked. intros Hb Hq. induction Hq as [|r q Hr Hq IH]; [constructor|].
  cbn in Hb. destruct r; cbn in Hb; try discriminate Hb; constructor; auto; exact I.
Qed.

Lemma group_at_range n g : group_at n = Some g → 0 ≤ n < n_groups ∧ g ∈ GROUPS.
Proof.
  unfold group_at. destruct (Z.leb_spec 0 n); [|done]. intros Hg.
  pose proof (lookup_lt_Some _ _ _ Hg) as Hl. cbn in Hl. unfold n_groups.
  split; [lia|]. by eapply list_elem_of_lookup_2.
Qed.

Definition input_event (e : setup_event) : Prop :=
  match e with
  | SetField _ _ | SetCompanyName _ | SetCoordinator _ | SetUsername _ | SetPassword _ => True
  | _ => False
  end.

Lemma setup_error_offers {E} o (e : E) : offers (setup_error o) e ↔ False.
Proof. unfold setup_error. split; [|done]. intros H. inv_offers. Qed.

(** Where the events of the wizard come from. *)
Lemma setup_offers s e :
  offers (Setup s) e → su_finished s = false ∧ (input_event e ∨
  su_busy s = false ∧
  match e with
  | TestGroup g | NextGroup g => group_at (su_step s) = Some g
  | BackStep => 0 < su_step s
  | SaveCompany => su_step s = n_groups
  | Finish => su_step s = n_groups + 1 ∧ (6 ≤ length (su_password s))%nat
  | _ => False
  end).
Proof.
  intros H. unfold Setup in H. destruct (su_finished s) eqn:Ef; inv_offers; (split; [done|]).
  - unfold SetupCompanyStep in H. apply Z.eqb_eq in Heqb. unfold n_groups in *.
    inv_offers; try (by rewrite setup_error_offers in H); try (by left); right;
      (split; [done|]); lia.
  - unfold group_view, field_view in H. inv_offers; try (by rewrite setup_error_offers in H);
      try (by left); right; (split; [done|]); done || lia.
  - unfold password_view in H. unfold passwordStep in *.
    apply negb_false_iff, Z.eqb_eq in Heqb0.
    inv_offers; try (by rewrite setup_error_offers in H); try (by left); right.
    + split; [done|]. unfold n_groups in *. lia.
    + apply orb_false_iff in H0 as [Hb Hl]. split; [done|]. split; [done|].
      apply Nat.ltb_ge in Hl. lia.
Qed.

(** A step change keeps the rest of the state; it asks for the agents at most. *)
Lemma set_step_spec n s :
  let '(s', reqs) := set_step n s in
  su_step s' = n ∧ su_busy s' = su_busy s ∧ su_finished s' = su_finished s ∧
  blocked reqs = 0%nat ∧ ∀ m, Forall (λ r, req_step r m) reqs.
Proof.
  unfold set_step. cbn. destruct (_ && _); (split_and!; try done); intros m;
    repeat constructor.
Qed.

(** From a state whose last blocking request has just been answered (or never sent), going on
    leads to one that waits for at most one again. *)
Lemma proceed_ok t s q :
  0 ≤ su_step s < n_groups + 1 → su_finished s = false → su_busy s = true → blocked q = 0%nat →
  Forall (λ r, req_step r (su_step s)) q → (∀ g, t = ThenTest g → su_step s < n_groups) →
  setup_inv (fst (proceed t s)) (q ++ snd (proceed t s)).
Proof.
  intros Hs Hf Hb Hq Hr Ht. destruct t as [g|]; cbn [proceed].
  - split; cbn [fst snd]; [lia| |congruence|].
    + rewrite blocked_app, Hq, Hf, Hb. done.
    + apply Forall_app. split; [done|]. constructor; [|done]. cbn. specialize (Ht g eq_refl). lia.
  - pose proof (set_step_spec (su_step s + 1) s) as H.
    destruct (set_step (su_step s + 1) s) as [s' reqs]. destruct H as (E1 & E2 & E3 & E4 & E5).
    split; cbn [fst snd set_busy su_step su_busy su_finished]; rewrite ?E1, ?E3, ?Hf.
    + lia.
    + rewrite blocked_app, Hq, E4. done.
    + done.
    + apply Forall_app. split; [by eapply unblocked_step|]. apply E5.
Qed.

Lemma save_then_ok g t s q :
  setup_inv s q → su_finished s = false → su_busy s = false → group_at (su_step s) = Some g →
  setup_inv (fst (save_then g t s)) (q ++ snd (save_then g t s)).
Proof.
  intros [H1 H2 H3 H4] Hf Hb Hg. apply group_at_range in Hg as [Hg _]. rewrite Hb in H2. cbn in H2.
  unfold save_then. destruct (decide _).
  - by apply proceed_ok; cbn; try done; lia.
  - split; cbn; [lia| |done|].
    + rewrite blocked_app, H2, Hf. done.
    + apply Forall_app. split; [done|]. constructor; [|done]. cbn. lia.
Qed.

Lemma input_ok e s q :
  setup_inv s q → input_event e → setup_inv (fst (setup_handle e s)) (q ++ snd (setup_handle e s)).
Proof.
  intros [H1 H2 H3 H4] He. destruct e; try done; cbn; rewrite app_nil_r; by split.
Qed.

Lemma send_ok r s q :
  setup_inv s q → su_finished s = false → su_busy s = false → blocking r = true →
  req_step r (su_step s) → setup_inv (set_busy true None s) (q ++ [r]).
Proof.
  intros [H1 H2 H3 H4] Hf Hb Hr Hs. rewrite Hb in H2. cbn in H2. split; cbn; [lia| |done|].
  - rewrite blocked_app, H2, Hf. unfold blocked. cbn. by rewrite Hr.
  - apply Forall_app. split; [done|]. by constructor.
Qed.

Lemma setup_event_ok e s q :
  setup_inv s q → offers (Setup s) e →
  setup_inv (fst (setup_handle e s)) (q ++ snd (setup_handle e s)).
Proof.
  intros Hi Ho. apply setup_offers in Ho as [Hf [Hin|[Hb Ho]]]; [by apply input_ok|].
  pose proof Hi as [H1 H2 H3 H4].
  destruct e as [k v|g|g| |v|v| |v|v|]; try done; cbn [setup_handle].
  - by apply save_then_ok.
  - by apply save_then_ok.
  - pose proof (set_step_spec (su_step s - 1) s) as H.
    destruct (set_step (su_step s - 1) s) as [s' reqs]. destruct H as (E1 & E2 & E3 & E4 & E5).
    rewrite Hb in H2. cbn in H2.
    split; cbn [fst snd]; rewrite ?E1, ?E2, ?E3, ?Hf, ?Hb; [lia| |done|].
    + rewrite blocked_app, H2, E4. done.
    + apply Forall_app. split; [by eapply unblocked_step|apply E5].
  - by apply send_ok.
  - destruct Ho as [Hs Hl]. destruct (Nat.ltb_spec (length (su_password s)) 6); [lia|].
    by apply send_ok.
Qed.

Lemma blocked_middle q1 r q2 :
  blocked (q1 ++ r :: q2) = (blocked (q1 ++ q2) + (if blocking r then 1 else 0))%nat.
Proof. rewrite !blocked_app. unfold blocked. cbn. destruct (blocking r); cbn; lia. Qed.

(** After a failure the wizard is idle again. *)
Lemma idle_ok s q e :
  0 ≤ su_step s ≤ n_groups + 1 → su_finished s = false → blocked q = 0%nat →
  Forall (λ r, req_step r (su_step s)) q → setup_inv (set_busy false e s) (q ++ []).
Proof. intros H1 H2 H3 H4. rewrite app_nil_r. split; cbn; try done. by rewrite H2. Qed.

Lemma setup_resume_ok r a s q :
  0 ≤ su_step s ≤ n_groups + 1 →
  (blocked q + (if blocking r then 1 else 0))%nat = (if su_busy s && negb (su_finished s) then 1 else 0)%nat →
  (su_finished s = true → su_busy s = true) → req_step r (su_step s) →
  Forall (λ r, req_step r (su_step s)) q →
  setup_inv (fst (setup_resume r a s)) (q ++ snd (setup_resume r a s)).
Proof.
  intros H1 H2 H3 Hr Hq.
  assert (blocking r = true → su_busy s = true ∧ su_finished s = false ∧ blocked q = 0%nat) as Hb.
  { intros E. rewrite E in H2. destruct (su_busy s), (su_finished s); cbn in H2; lia || done. }
  destruct r as [|name co|t vs|g|u p| |]; cbn [setup_resume]; cbn in Hr.
  + rewrite app_nil_r. split; try done. cbn in H2. cbn. lia.
  + destruct (Hb eq_refl) as (? & ? & ?).
    destruct a as [x|e]; [by apply proceed_ok; try done; lia|by apply idle_ok].
  + destruct (Hb eq_refl) as (? & ? & ?).
    destruct a as [x|e]; [by apply proceed_ok; try done; lia|by apply idle_ok].
  + destruct (Hb eq_refl) as (? & ? & ?). destruct a as [x|e]; cbn [fst snd]; [|by apply idle_ok].
    by apply idle_ok.
  + destruct (Hb eq_refl) as (? & ? & Hq0). destruct a as [x|e]; [|by apply idle_ok].
    split; cbn; try done.
    * rewrite blocked_app, Hq0, andb_false_r. done.
    * apply Forall_app. split; [done|]. by repeat constructor.
  + split; try done; cbn; [rewrite blocked_app; cbn in *; lia|].
    apply Forall_app. split; [done|]. by repeat constructor.
  + split; try done; cbn; [rewrite blocked_app; cbn in *; lia|].
    apply Forall_app. split; [done|constructor].
Qed.

#[export] Instance setup_inv_holds : Invariant (C := setup_wizard) any setup_inv.
Proof.
  split.
  - split; cbn; [unfold n_groups; lia|done..|constructor].
  - intros e s q Hi [Ho|[]]. by apply setup_event_ok.
  - intros r a s q1 q2 _ [H1 H2 H3 H4]. rewrite blocked_middle in H2.
    change (setup_inv (fst (setup_resume r a s)) (q1 ++ q2 ++ snd (setup_resume r a s))).
    rewrite app_assoc. apply Forall_app in H4 as [Hq1 Hq2]. inversion Hq2; subst.
    apply setup_resume_ok; try done. by apply Forall_app.
Qed.

Notation setup_world := (world setup_wizard).

(** The requests an offered event can issue. *)
Lemma setup_issues (w : setup_world) r :
  reachable any w → issues any w r → blocking r = true →
  blocked (w_flight w) = 0%nat ∨ ∃ t vs, WriteEnv t vs ∈ w_flight w ∧ ∃ g, r = RunTest g.
Proof.
  intros Hw Hi Hr. pose proof (invariant_holds (C := setup_wizard) any setup_inv w Hw) as [_ H2 _ _].
  apply issues_inv in Hi as [(e & [Ho|[]] & Hin)|(r' & a & Hf & Hin)].
  - left. apply setup_offers in Ho as [Hf [He|[Hb _]]].
    + change (r ∈ snd (setup_handle e (w_state w))) in Hin.
      destruct e; try done; by apply elem_of_nil in Hin.
    + by rewrite Hb in H2.
  - right. change (r ∈ snd (setup_resume r' a (w_state w))) in Hin.
    destruct r' as [|name co|t vs|g|u p| |]; destruct a; cbn in Hin;
      try destruct t; cbn in Hin; repeat case_match;
      first [by apply elem_of_nil in Hin | apply list_elem_of_singleton in Hin as ->];
      try discriminate Hr; eauto 10.
Qed.

(** What a write to the environment holds. *)
Lemma write_is_typed (w : setup_world) t m :
  reachable any w → issues any w (WriteEnv t m) →
  ∃ g, group_at (su_step (w_state w)) = Some g ∧ m ≠ ∅ ∧
    (∀ k v, m !! k = Some v ↔
       field_of g k ∧ su_values (w_state w) !! k = Some v ∧ trim v ≠ []) ∧
    blocked (w_flight w) = 0%nat.
Proof.
  intros Hw Hi. destruct (setup_issues w _ Hw Hi eq_refl) as [Hq|(? & ? & _ & ? & ?)]; [|done].
  apply issues_inv in Hi as [(e & [Ho|[]] & Hin)|(r' & a & Hf & Hin)].
  - change (WriteEnv t m ∈ snd (setup_handle e (w_state w))) in Hin.
    apply setup_offers in Ho as [Hf [He|[Hb Ho]]];
      [destruct e; try done; by apply elem_of_nil in Hin|].
    assert (∀ g t', group_at (su_step (w_state w)) = Some g →
      WriteEnv t m ∈ snd (save_then g t' (w_state w)) → m = to_write g (su_values (w_state w)) ∧ m ≠ ∅)
      as Hs.
    { intros g t' Hg. unfold save_then. destruct (decide _) as [|Hne].
      - destruct t'; cbn; [intros ?%list_elem_of_singleton; done|].
        destruct (_ && _); [intros ?%list_elem_of_singleton; done|by intros ?%elem_of_nil].
      - intros H%list_elem_of_singleton. by injection H as -> ->. }
    destruct e as [k v|g|g| |v|v| |v|v|]; try done; cbn [setup_handle] in Hin.
    + destruct (Hs g _ Ho Hin) as [-> Hne]. exists g. split; [done|]. split; [done|].
      split; [intros k v; apply lookup_to_write|done].
    + destruct (Hs g _ Ho Hin) as [-> Hne]. exists g. split; [done|]. split; [done|].
      split; [intros k v; apply lookup_to_write|done].
    + unfold set_step in Hin. cbn in Hin. destruct (_ && _) in Hin;
        [by apply list_elem_of_singleton in Hin|by apply elem_of_nil in Hin].
    + by apply list_elem_of_singleton in Hin.
    + destruct (Nat.ltb _ 6); [by apply elem_of_nil in Hin|by apply list_elem_of_singleton in Hin].
  - change (WriteEnv t m ∈ snd (setup_resume r' a (w_state w))) in Hin.
    destruct r' as [|name co|t' vs|g|u p| |]; destruct a; cbn in Hin;
      try destruct t'; cbn in Hin; repeat case_match; set_solver.
Qed.

(** The wizard writes what was typed for the group on display, and nothing else.  A write to
    the environment happens at a group's step; it holds exactly the fields of that group that
    have a value which is not blank, with the value as typed; and it is sent only while no other
    request of the wizard is under way. *)
Theorem setup_writes_typed (w : setup_world) t m :
  reachable any w → issues any w (WriteEnv t m) →
  ∃ g, group_at (su_step (w_state w)) = Some g ∧ m ≠ ∅ ∧
    (∀ k v, m !! k = Some v ↔
       field_of g k ∧ su_values (w_state w) !! k = Some v ∧ trim v ≠ []) ∧
    blocked (w_flight w) = 0%nat.
Proof. exact (write_is_typed w t m). Qed.

Lemma finish_issued (w : setup_world) u p :
  reachable any w → issues any w (PostFinish u p) →
  su_step (w_state w) = 6 ∧ (6 ≤ length p)%nat ∧ p = su_password (w_state w) ∧
  u = su_username (w_state w) ∧ blocked (w_flight w) = 0%nat.
Proof.
  intros Hw Hi. pose proof (invariant_holds (C := setup_wizard) any setup_inv w Hw) as [H1 H2 _ _].
  destruct (setup_issues w _ Hw Hi eq_refl) as [Hq|(? & ? & _ & ? & ?)]; [|done].
  apply issues_inv in Hi as [(e & [Ho|[]] & Hin)|(r' & a & Hf & Hin)].
  - change (PostFinish u p ∈ snd (setup_handle e (w_state w))) in Hin.
    apply setup_offers in Ho as [Hf [He|[Hb Ho]]];
      [destruct e; try done; by apply elem_of_nil in Hin|].
    destruct e as [k v|g|g| |v|v| |v|v|]; try done; cbn [setup_handle] in Hin;
      unfold save_then, proceed, set_step in Hin; cbn in Hin; repeat case_match; cbn in Hin;
      set_solver.
  - change (PostFinish u p ∈ snd (setup_resume r' a (w_state w))) in Hin.
    destruct r' as [|name co|t' vs|g|u' p'| |]; destruct a; cbn in Hin;
      try destruct t'; cbn in Hin; repeat case_match; set_solver.
Qed.

(** The setup is finished only from its last step, with a password of at least six units and
    the name typed, and only while nothing else is under way; until then, in every reachable
    state, the step is one of the seven steps and at most one request is under way. *)
Theorem setup_finish_guarded (w : setup_world) :
  reachable any w →
  (0 ≤ su_step (w_state w) ≤ 6 ∧ (blocked (w_flight w) ≤ 1)%nat) ∧
  ∀ u p, issues any w (PostFinish u p) →
    su_step (w_state w) = 6 ∧ (6 ≤ length p)%nat ∧ p = su_password (w_state w) ∧
    u = su_username (w_state w) ∧ blocked (w_flight w) = 0%nat.
Proof.
  intros Hw. split; [|intros u p; by apply finish_issued].
  pose proof (invariant_holds (C := setup_wizard) any setup_inv w Hw) as [H1 H2 _ _].
  unfold n_groups in H1. split; [lia|destruct (su_busy _ && _); lia].
Qed.

(** ** Witnesses *)

Definition to_typed : list (action setup_wizard) :=
  [Do (C := setup_wizard) (SetField "OPENROUTER_API_KEY" "sk-1")].

Lemma to_typed_reachable : reachable any (play to_typed (init_world setup_wizard)).
Proof.
  apply play_reachable; [apply reach_init|].
  split; [left; eapply (offers_nth _ 0); [vm_compute; reflexivity|eexists; reflexivity]|exact I].
Defined.

Definition typed_values : gmap jsstr jsstr := {["OPENROUTER_API_KEY"%js := "sk-1"%js]}.

Lemma setup_writes_typed_witness :
  let w := play to_typed (init_world setup_wizard) in
  ∃ g, group_at (su_step (w_state w)) = Some g ∧ typed_values ≠ ∅ ∧
    (∀ k v, typed_values !! k = Some v ↔
       field_of g k ∧ su_values (w_state w) !! k = Some v ∧ trim v ≠ []) ∧
    blocked (w_flight w) = 0%nat.
Proof.
  intros w. apply (setup_writes_typed w ThenNext typed_values to_typed_reachable).
  eapply (issues_event (C := setup_wizard) any _ (NextGroup _)).
  - left. eapply (offers_nth _ 2); [vm_compute; reflexivity|reflexivity].
  - vm_compute. left.
Defined.

Lemma setup_finish_guarded_witness :
  let w := play to_typed (init_world setup_wizard) in
  (0 ≤ su_step (w_state w) ≤ 6 ∧ (blocked (w_flight w) ≤ 1)%nat) ∧
  ∀ u p, issues any w (PostFinish u p) →
    su_step (w_state w) = 6 ∧ (6 ≤ length p)%nat ∧ p = su_password (w_state w) ∧
    u = su_username (w_state w) ∧ blocked (w_flight w) = 0%nat.
Proof. intros w. apply (setup_finish_guarded w to_typed_reachable). Defined.
