(* ===== verification/EnvFile.v ===== *)
(** The environment file of the server (src/server/env_writer.py) and the guards of the first-run
    setup (src/server/routes_setup.py): which keys may be written, how the values are merged into
    the file, and which keys the wizard is told are set.  Texts are as Python reads them, one
    unit per character of the basic plane. *)

From S2P Require Import Prelude Json React ApiClient Python Setup.

(** ** Text *)

(** The separators of [str.splitlines]. *)
Definition line_break (c : Z) : bool :=
  ((10 <=? c) && (c <=? 13)) || ((28 <=? c) && (c <=? 30)) || (c =? 133) || (c =? 8232)
  || (c =? 8233).

Fixpoint splitlines (s : jsstr) : list jsstr :=
  match s with
  | [] => []
  | c :: r =>
      if line_break c then
        [] :: match r with
              | d :: r' => if (c =? 13) && (d =? 10) then splitlines r' else splitlines r
              | [] => []
              end
      else match splitlines r with x :: l => (c :: x) :: l | [] => [[c]] end
  end.

(** [str(v).strip() == ""]. *)
Definition blank (s : jsstr) : bool := forallb py_space s.

(** [[A-Z][A-Z0-9_]*]. *)
Definition key_unit (c : Z) : bool := upper c || is_digit c || (c =? 95).
Definition key_name (s : jsstr) : bool :=
  match s with c :: r => upper c && forallb key_unit r | [] => false end.

(** [re.match(r"^\s*([A-Z][A-Z0-9_]*)=(.*)$", line)]: the key a line assigns, and its value. *)
Definition assignment (line : jsstr) : option (jsstr * jsstr) :=
  let '(_, t) := span py_space line in
  let '(k, r) := span key_unit t in
  match r with
  | 61 :: v => if key_name k then Some (k, v) else None
  | _ => None
  end.

(** ** Which keys may be written *)

Definition SETUP_WRITABLE_KEYS : list jsstr := [
  "OPENROUTER_API_KEY"; "OPENROUTER_MODEL";
  "ATLASSIAN_SITE_NAME"; "ATLASSIAN_USER_EMAIL"; "ATLASSIAN_API_TOKEN";
  "SLACK_XOXC_TOKEN"; "SLACK_XOXD_TOKEN"; "SLACK_TEAM_DOMAIN";
  "SLACK_REPORT_CHANNEL"; "SLACK_STAKEHOLDER_CHANNEL"; "SLACK_EXTERNAL_CHANNELS";
  "JIRA_PROJECT_KEY"; "GITHUB_REPO";
  "CONFLUENCE_SPACE_KEY"; "CONFLUENCE_SPACE_ID"; "OKR_CONFLUENCE_PAGE_ID";
  "TAVILY_API_KEY"; "BRAVE_API_KEY"].
Definition FINISH_WRITABLE_KEYS : list jsstr :=
  ["WEB_AUTH_USERNAME"; "WEB_AUTH_PASSWORD_HASH"; "WEB_SESSION_SECRET"].

(** [$] also matches before a final newline. *)
Definition chomp (s : jsstr) : jsstr := match rev s with 10 :: r => rev r | _ => s end.
Definition KEY_RE (s : jsstr) : bool := key_name s || key_name (chomp s).
Definition telegram_name (s : jsstr) : bool :=
  let suffix : jsstr := "_TELEGRAM_BOT_TOKEN" in
  let n := (length s - length suffix)%nat in
  bool_decide (drop n s = suffix) && Nat.ltb 0 n && forallb key_unit (take n s).
Definition TELEGRAM_TOKEN_RE (s : jsstr) : bool := telegram_name s || telegram_name (chomp s).

Definition is_writable (allow : list jsstr) (allow_telegram_token : bool) (key : jsstr) : bool :=
  if negb (KEY_RE key) then false
  else if memb key allow then true
  else allow_telegram_token && TELEGRAM_TOKEN_RE key.

(** ** The merge *)

(** A Python dict of strings: its items in order. *)
Abbreviation items := (list (jsstr * jsstr)).
Definition get (k : jsstr) (l : items) : option jsstr :=
  snd <$> find (λ kv, bool_decide (fst kv = k)) l.
Definition pop (k : jsstr) (l : items) : items := List.filter (λ kv, negb (bool_decide (fst kv = k))) l.
Definition line_of (kv : jsstr * jsstr) : jsstr := cat [fst kv; "="; snd kv].

(** The lines of the file with the given values in place, and the values without a line. *)
Fixpoint merge_lines (lines : list jsstr) (remaining : items) : list jsstr * items :=
  match lines with
  | [] => ([], remaining)
  | line :: lines =>
      match k ← fst <$> assignment line; v ← get k remaining; Some (k, v) with
      | Some (k, v) =>
          let '(out, rest) := merge_lines lines (pop k remaining) in (line_of (k, v) :: out, rest)
      | None => let '(out, rest) := merge_lines lines remaining in (line :: out, rest)
      end
  end.

Inductive merged := DisallowedEnvKey (key : jsstr) | Written (text : option jsstr).

(** [merge_env]: [file] is the text of the file, if there is one.  The first key that may not be
    written refuses them all; blank values are left out; without values nothing is written. *)
Definition merge_env (allow : list jsstr) (allow_telegram_token : bool) (updates : items)
    (file : option jsstr) : merged :=
  match find (λ kv, negb (is_writable allow allow_telegram_token (fst kv))) updates with
  | Some (key, _) => DisallowedEnvKey key
  | None =>
      match List.filter (λ kv, negb (blank (snd kv))) updates with
      | [] => Written file
      | clean =>
          let '(out, rest) := merge_lines (match file with Some t => splitlines t | None => [] end) clean in
          Written (Some (join [10] (out ++ map line_of rest) ++ [10]))
      end
  end.

(** [read_key_presence]: whether each key has a value that is not blank. *)
Definition read_key_presence (keys : list jsstr) (file : option jsstr) : gmap jsstr bool :=
  foldl (λ m line, match assignment line with
                   | Some (k, v) => if bool_decide (is_Some (m !! k)) then <[k := negb (blank v)]> m else m
                   | None => m
                   end)
    (list_to_map (map (λ k, (k, false)) keys))
    (match file with Some t => splitlines t | None => [] end).

Example merge_example :
  merge_env SETUP_WRITABLE_KEYS false
    [("GITHUB_REPO", "me/x"); ("SLACK_TEAM_DOMAIN", " "); ("OPENROUTER_API_KEY", "sk")]%js
    (Some (cat ["# keys"; [10]; "OPENROUTER_API_KEY=old"; [10]; "PORT=1"])) =
  Written (Some (cat ["# keys"; [10]; "OPENROUTER_API_KEY=sk"; [10]; "PORT=1"; [10];
                      "GITHUB_REPO=me/x"; [10]])).
Proof. vm_compute. reflexivity. Qed.

(** ** The guards of the setup *)

(** [_guard]: the wizard is locked once the marker exists or authentication is configured, and
    it answers only the machine it runs on. *)
Inductive guarded := Locked | NotLocal | Open.
Definition wizard_locked (marker auth_enabled : bool) : bool := marker || auth_enabled.
Definition guard (marker auth_enabled : bool) (client : option jsstr) : guarded :=
  if wizard_locked marker auth_enabled then Locked
  else if memb (nullish client []) ["127.0.0.1"; "::1"; "localhost"; "testclient"] then Open
  else NotLocal.

Definition TEST_GROUPS : list jsstr := ["openrouter"; "atlassian"; "slack"; "github"].

(** ** Theorems: the merge *)

Definition unbroken (s : jsstr) : bool := forallb (λ c, negb (line_break c)) s.

Lemma splitlines_unbroken s : Forall (λ l, unbroken l = true) (splitlines s).
Proof.
  remember (length s) as n eqn:En. assert (Hn : (length s ≤ n)%nat) by lia. clear En.
  revert s Hn. induction n as [|n IH]; intros [|c s] Hn; cbn in Hn; try lia; try by constructor.
  cbn [splitlines]. destruct (line_break c) eqn:Ec.
  - constructor; [done|]. destruct s as [|d s]; [constructor|]. cbn in Hn.
    destruct (_ && _); apply IH; cbn; lia.
  - specialize (IH s ltac:(lia)).
    destruct (splitlines s) as [|x l]; [|inversion IH; subst]; (constructor; [|done]);
      cbn; rewrite Ec; done.
Qed.

Lemma splitlines_cons l r :
  unbroken l = true → splitlines (l ++ 10 :: r) = l :: splitlines r.
Proof.
  induction l as [|c l IH]; intros H; cbn in *.
  - by destruct r.
  - apply andb_true_iff in H as [Hc Hl]. apply negb_true_iff in Hc. by rewrite Hc, IH.
Qed.

Lemma splitlines_join l :
  l ≠ [] → Forall (λ x, unbroken x = true) l → splitlines (join [10] l ++ [10]) = l.
Proof.
  intros Hn Hl. induction Hl as [|x l Hx Hl IH]; [done|]. destruct l as [|y l].
  - by apply splitlines_cons.
  - rewrite join_cons, <- !app_assoc by done. cbn [app]. rewrite splitlines_cons by done.
    f_equal. by apply IH.
Qed.

Lemma span_stop p t (r : jsstr) :
  forallb p t = true → (∀ c r', r = c :: r' → p c = false) → span p (t ++ r) = (t, r).
Proof.
  intros Ht Hr. apply span_all; [done|]. destruct r; [done|by eapply Hr].
Qed.

Lemma assignment_line k v : key_name k = true → assignment (line_of (k, v)) = Some (k, v).
Proof.
  intros Hk. unfold assignment, line_of, cat. cbn [fst snd concat]. rewrite app_nil_r.
  destruct k as [|c k]; [done|]. pose proof Hk as [Hc Hk']%andb_true_iff.
  change ("=" ++ v) with (61 :: v).
  assert (span py_space ((c :: k) ++ 61 :: v) = ([], (c :: k) ++ 61 :: v)) as ->.
  { apply (span_stop py_space []); [done|]. intros d r [= <- _]. unfold upper in Hc.
    unfold py_space. lia. }
  rewrite span_stop; [by rewrite Hk| |by intros ? ? [= <- _]].
  cbn [forallb]. rewrite Hk', andb_true_r. unfold key_unit. by rewrite Hc.
Qed.

(** The text after the sign of the last line that assigns a key, which [read_key_presence] tests. *)
Fixpoint value (k : jsstr) (lines : list jsstr) : option jsstr :=
  match lines with
  | [] => None
  | line :: lines =>
      match value k lines, assignment line with
      | Some v, _ => Some v
      | None, Some (k', v) => if bool_decide (k' = k) then Some v else None
      | None, None => None
      end
  end.
Definition lines_of (file : option jsstr) : list jsstr :=
  match file with Some t => splitlines t | None => [] end.
Definition key_of (line : jsstr) : option jsstr := fst <$> assignment line.

(** A line that assigns one of some keys. *)
Definition assigns (ks : list jsstr) (line : jsstr) : bool :=
  match assignment line with Some (k, _) => memb k ks | None => false end.
Definition once (k : jsstr) (lines : list jsstr) : Prop :=
  (length (List.filter (assigns [k]) lines) ≤ 1)%nat.

Lemma value_none k lines : List.filter (assigns [k]) lines = [] → value k lines = None.
Proof.
  induction lines as [|line lines IH]; [done|]. cbn [List.filter value]. unfold assigns at 1.
  destruct (assignment line) as [[k' v]|] eqn:E.
  - destruct (memb k' [k]) eqn:Em; [done|]. intros H. rewrite IH by done.
    rewrite bool_decide_false; [done|]. intros ->. unfold memb in Em.
    apply bool_decide_eq_false in Em. apply Em. by left.
  - intros H. by rewrite IH.
Qed.

Lemma get_In k v l : NoDup (map fst l) → get k l = Some v ↔ (k, v) ∈ l.
Proof.
  unfold get. induction l as [|[k' v'] l IH]; intros Hd; cbn in *.
  - split; [done|by intros ?%elem_of_nil].
  - inversion Hd as [|? ? Hk Hd']; subst. rewrite elem_of_cons. case_bool_decide as E.
    + cbn in E. subst k'. split; [intros [= ->]; by left|]. intros [[= ->]|Hin]; [done|].
      destruct Hk. apply list_elem_of_fmap. by exists (k, v).
    + rewrite IH by done. split; [by right|]. intros [[= <- <-]|]; [done|done].
Qed.

Lemma get_pop k k' l : get k (pop k' l) = if bool_decide (k = k') then None else get k l.
Proof.
  unfold get, pop. induction l as [|[a v] l IH]; cbn; [by case_bool_decide|].
  destruct (bool_decide_reflect (a = k')) as [->|Ha]; cbn.
  - rewrite IH. case_bool_decide; [done|]. rewrite bool_decide_false; [done|]. congruence.
  - destruct (bool_decide_reflect (a = k)) as [->|Hk]; [by rewrite bool_decide_false|exact IH].
Qed.

Lemma pop_incl k (P : jsstr * jsstr → Prop) l : Forall P l → Forall P (pop k l).
Proof. rewrite !Forall_forall. intros H x Hx. apply H. apply list_elem_of_In, filter_In in Hx as [Hx _]. by apply list_elem_of_In. Qed.
Lemma pop_NoDup k l : NoDup (map fst l) → NoDup (map fst (pop k l)).
Proof.
  induction l as [|[a v] l IH]; cbn; [done|]. intros [Ha Hd]%NoDup_cons.
  destruct (negb _); cbn; [|by apply IH]. apply NoDup_cons. split; [|by apply IH].
  intros Hin. apply Ha. apply list_elem_of_fmap in Hin as (x & -> & Hx).
  apply list_elem_of_fmap. exists x. split; [done|].
  apply list_elem_of_In, filter_In in Hx as [Hx _]. by apply list_elem_of_In.
Qed.

Definition keys_ok (l : items) : Prop := NoDup (map fst l) ∧ Forall (λ kv, key_name (fst kv) = true) l.

Lemma keys_pop k l : keys_ok l → keys_ok (pop k l).
Proof. intros [Hd Hk]. split; [by apply pop_NoDup|by apply pop_incl]. Qed.

Lemma get_cons k a v l : get k ((a, v) :: l) = if bool_decide (a = k) then Some v else get k l.
Proof. unfold get. cbn [find fst]. by case_bool_decide. Qed.

Lemma value_new k l : keys_ok l → value k (map line_of l) = get k l.
Proof.
  intros [Hd Hk]. induction l as [|[a v] l IH]; [done|].
  apply Forall_cons in Hk as [Ha Hk]. apply NoDup_cons in Hd as [Hn Hd].
  cbn [map value]. rewrite assignment_line, IH, get_cons by done.
  destruct (bool_decide_reflect (a = k)) as [->|]; [|by destruct (get k l)].
  destruct (get k l) as [w|] eqn:E; [|done]. apply get_In in E; [|done].
  destruct Hn. apply list_elem_of_fmap. by exists (k, w).
Qed.

Lemma get_key a v l : keys_ok l → get a l = Some v → key_name a = true.
Proof.
  intros [Hd Hk] Hg. apply get_In in Hg; [|done]. rewrite Forall_forall in Hk. by apply (Hk _ Hg).
Qed.

Lemma keyless line : assignment line = None → key_of line = None.
Proof. unfold key_of. by intros ->. Qed.
Lemma keyed line k v : assignment line = Some (k, v) → key_of line = Some k.
Proof. unfold key_of. by intros ->. Qed.

(** The last line of a key holds the new value, when it is the only one, or is as it was. *)
Lemma merge_value k lines rem :
  keys_ok rem → (is_Some (get k rem) → once k lines) →
  let '(out, rest) := merge_lines lines rem in
  value k (out ++ map line_of rest) =
    match get k rem with Some v => Some v | None => value k lines end.
Proof.
  revert rem. induction lines as [|line lines IH]; intros rem Hrem Hone; cbn [merge_lines].
  { cbn [app]. rewrite value_new by done. by destruct (get k rem). }
  assert (once k (line :: lines) → once k lines) as Hdrop.
  { unfold once. cbn [List.filter]. destruct (assigns _ line); cbn; lia. }
  destruct (assignment line) as [[a w]|] eqn:Ea; cbn [fmap option_fmap option_map mbind option_bind fst].
  - destruct (get a rem) as [v|] eqn:Ev; cbn [mbind option_bind].
    + assert (is_Some (get k (pop a rem)) → once k lines) as Hp.
      { intros [x Hb]. rewrite get_pop in Hb. case_bool_decide; [done|]. eauto. }
      specialize (IH (pop a rem) (keys_pop a rem Hrem) Hp). revert IH.
      destruct (merge_lines lines (pop a rem)) as [out rest]. intros IH. cbv beta iota in IH. cbn [app value].
      rewrite IH, assignment_line, get_pop, Ea by (by eapply get_key).
      case_bool_decide as E.
      * subst k. assert (value a lines = None) as ->; [|by rewrite bool_decide_true, Ev].
        apply value_none. specialize (Hone (ex_intro _ v Ev)). unfold once in Hone.
        cbn [List.filter] in Hone. unfold assigns at 1 in Hone. rewrite Ea in Hone.
        unfold memb in Hone. rewrite bool_decide_true in Hone by (by left).
        cbn in Hone. destruct (List.filter _ lines); [done|cbn in Hone; lia].
      * rewrite !(bool_decide_false (a = k)) by congruence.
        by destruct (get k rem), (value k lines).
    + specialize (IH rem Hrem ltac:(auto)). revert IH.
      destruct (merge_lines lines rem) as [out rest]. intros IH. cbv beta iota in IH.
      cbn [app value]. rewrite IH, Ea. by destruct (get k rem).
  - specialize (IH rem Hrem ltac:(auto)). revert IH.
    destruct (merge_lines lines rem) as [out rest]. intros IH. cbv beta iota in IH.
    cbn [app value]. rewrite IH, Ea. by destruct (get k rem).
Qed.

Lemma filter_all {A} (p : A → bool) l : (∀ x, x ∈ l → p x = true) → List.filter p l = l.
Proof.
  induction l as [|x l IH]; intros H; [done|]. cbn. rewrite H by (by left).
  f_equal. apply IH. intros y Hy. apply H. by right.
Qed.
Lemma filter_none {A} (p : A → bool) l : (∀ x, x ∈ l → p x = false) → List.filter p l = [].
Proof.
  induction l as [|x l IH]; intros H; [done|]. cbn. rewrite H by (by left).
  apply IH. intros y Hy. apply H. by right.
Qed.

(** What becomes of a line after the lines [before]: the first line of a key that is written holds
    the new value, every other line is as it was. *)
Definition in_place (updates : items) (before : list jsstr) (line : jsstr) : jsstr :=
  match key_of line with
  | Some k => if memb k (omap key_of before) then line
              else match get k updates with Some v => line_of (k, v) | None => line end
  | None => line
  end.
(** The updates whose key no line assigns. *)
Definition without_line (lines : list jsstr) (updates : items) : items :=
  List.filter (λ kv, negb (memb (fst kv) (omap key_of lines))) updates.

Lemma without_pop a lines updates :
  a ∈ omap key_of lines → without_line lines (pop a updates) = without_line lines updates.
Proof.
  intros Ha. unfold without_line, pop. induction updates as [|[k v] l IH]; [done|]. cbn.
  case_bool_decide as E; cbn; [|by rewrite IH]. subst k.
  by rewrite (proj2 (memb_spec _ _) Ha).
Qed.
Lemma keys_cons a line lines : key_of line = Some a → omap key_of (line :: lines) = a :: omap key_of lines.
Proof. intros H. cbn. by rewrite H. Qed.
Lemma without_cons_key a line lines updates :
  key_of line = Some a → without_line (line :: lines) updates = without_line lines (pop a updates).
Proof.
  intros Hk. unfold without_line, pop, memb. rewrite (keys_cons a) by done.
  induction updates as [|[k v] l IH]; [done|]. cbn. case_bool_decide as E.
  - cbn. rewrite IH. case_bool_decide; [done|]. cbn. rewrite bool_decide_true; [done|].
    apply elem_of_cons in E as [->|E]; [done|exact E].
  - apply not_elem_of_cons in E as [E1 E2]. rewrite (bool_decide_false (k = a)) by done. cbn.
    rewrite bool_decide_false by done. cbn. by rewrite IH.
Qed.
Lemma pop_absent a (updates : items) : get a updates = None → pop a updates = updates.
Proof.
  unfold pop. induction updates as [|[k v] l IH]; [done|]. rewrite get_cons. case_bool_decide; [done|].
  intros H'. cbn. rewrite bool_decide_false by done. cbn. by rewrite IH.
Qed.

(** The merge, line by line: the old lines in place, and after them the keys without a line. *)
Lemma merge_in_place lines rem :
  let '(out, rest) := merge_lines lines rem in
  length out = length lines ∧
  (∀ i line, lines !! i = Some line → out !! i = Some (in_place rem (take i lines) line)) ∧
  rest = without_line lines rem.
Proof.
  revert rem. induction lines as [|line lines IH]; intros rem; cbn [merge_lines].
  { split; [done|]. split; [done|]. unfold without_line. induction rem as [|kv rem IHr]; [done|].
    cbn. f_equal. exact IHr. }
  destruct (assignment line) as [[a w]|] eqn:Ea; cbn [fmap option_fmap option_map mbind option_bind fst].
  2:{ specialize (IH rem). apply keyless in Ea. destruct (merge_lines lines rem) as [out rest].
    destruct IH as (Hl & Ho & ->). split; [cbn; by rewrite Hl|]. split.
    - intros [|i] x Hx; [injection Hx as <-; unfold in_place; by rewrite Ea|].
      change (out !! i = Some (in_place rem (line :: take i lines) x)). rewrite (Ho i x Hx). unfold in_place. cbn. by rewrite Ea.
    - unfold without_line. cbn. by rewrite Ea. }
  apply keyed in Ea. rewrite (without_cons_key a) by done.
  destruct (get a rem) as [v|] eqn:Ev; cbn [mbind option_bind].
  - specialize (IH (pop a rem)). destruct (merge_lines lines (pop a rem)) as [out rest].
    destruct IH as (Hl & Ho & ->). split; [cbn; by rewrite Hl|]. split; [|done].
    intros [|i] x Hx; [injection Hx as <-; unfold in_place; cbn; by rewrite Ea, Ev|].
    change (out !! i = Some (in_place rem (line :: take i lines) x)). rewrite (Ho i x Hx). f_equal. unfold in_place. destruct (key_of x) as [k|]; [|done].
    rewrite (keys_cons a), get_pop by done. unfold memb. destruct (bool_decide_reflect (k = a)) as [->|Hk].
    + rewrite (bool_decide_true (a ∈ a :: _)) by (by left). by case_bool_decide.
    + by rewrite (bool_decide_ext (k ∈ a :: omap key_of (take i lines)) (k ∈ omap key_of (take i lines)))
        by (rewrite elem_of_cons; naive_solver).
  - rewrite pop_absent by done. specialize (IH rem). destruct (merge_lines lines rem) as [out rest].
    destruct IH as (Hl & Ho & ->). split; [cbn; by rewrite Hl|]. split; [|done].
    intros [|i] x Hx; [injection Hx as <-; unfold in_place; cbn; by rewrite Ea, Ev|].
    change (out !! i = Some (in_place rem (line :: take i lines) x)). rewrite (Ho i x Hx). f_equal. unfold in_place. destruct (key_of x) as [k|]; [|done].
    rewrite (keys_cons a) by done. unfold memb. destruct (decide (k = a)) as [->|Hk].
    + rewrite Ev. by repeat case_bool_decide.
    + by rewrite (bool_decide_ext (k ∈ a :: omap key_of (take i lines)) (k ∈ omap key_of (take i lines)))
        by (rewrite elem_of_cons; naive_solver).
Qed.

Lemma setup_keys_named k : memb k SETUP_WRITABLE_KEYS = true → key_name k = true.
Proof.
  intros H%bool_decide_eq_true.
  assert (forallb key_name SETUP_WRITABLE_KEYS = true) as Hf by (vm_compute; reflexivity).
  rewrite forallb_forall in Hf. by apply Hf, list_elem_of_In.
Qed.

Lemma setup_writable k :
  is_writable SETUP_WRITABLE_KEYS false k = true ↔ k ∈ SETUP_WRITABLE_KEYS.
Proof.
  unfold is_writable. split.
  - destruct (KEY_RE k); cbn [negb]; [|done]. destruct (memb k _) eqn:E; [|done].
    by apply memb_spec in E.
  - intros H%memb_spec. unfold KEY_RE. rewrite (setup_keys_named k H), H. done.
Qed.

(** Updates the wizard's path takes: each key once, known, with a value of one line. *)
Definition updates_ok (updates : items) : Prop :=
  NoDup (map fst updates) ∧
  Forall (λ kv, fst kv ∈ SETUP_WRITABLE_KEYS ∧ unbroken (snd kv) = true) updates.

Definition not_blank (updates : items) : items := List.filter (λ kv, negb (blank (snd kv))) updates.

Lemma not_blank_cons a v l :
  not_blank ((a, v) :: l) = if blank v then not_blank l else (a, v) :: not_blank l.
Proof. unfold not_blank. cbn [List.filter snd]. by destruct (blank v). Qed.
Lemma not_blank_elem kv l : kv ∈ not_blank l → kv ∈ l.
Proof. intros [Hx _]%list_elem_of_In%filter_In. by apply list_elem_of_In. Qed.

Lemma get_not_blank k l :
  NoDup (map fst l) →
  get k (not_blank l) = v ← get k l; if blank v then None else Some v.
Proof.
  induction l as [|[a v] l IH]; [done|]. intros [Ha Hd]%NoDup_cons. rewrite get_cons, not_blank_cons.
  destruct (blank v) eqn:Eb.
  - rewrite IH by done. case_bool_decide as E; [|done]. subst a. cbn. rewrite Eb.
    destruct (get k l) as [w|] eqn:Ew; [|done]. apply get_In in Ew; [|done].
    destruct Ha. apply list_elem_of_fmap. by exists (k, w).
  - rewrite get_cons. case_bool_decide; [cbn; by rewrite Eb|by apply IH].
Qed.

Lemma not_blank_ok l : updates_ok l → keys_ok (not_blank l) ∧
  Forall (λ kv, unbroken (line_of kv) = true) (not_blank l).
Proof.
  intros [Hd Hl]. split; [split|].
  - clear Hl. induction l as [|[a v] l IH]; [done|]. apply NoDup_cons in Hd as [Ha Hd].
    rewrite not_blank_cons. destruct (blank v); [by apply IH|]. cbn. apply NoDup_cons.
    split; [|by apply IH]. intros Hin. apply Ha. apply list_elem_of_fmap in Hin as (x & -> & Hx).
    apply list_elem_of_fmap. exists x. split; [done|by apply not_blank_elem].
  - apply Forall_forall. intros kv Hx%not_blank_elem. rewrite Forall_forall in Hl. destruct (Hl _ Hx) as [Hk _].
    by apply setup_keys_named, memb_spec.
  - apply Forall_forall. intros [a v] Hx%not_blank_elem. rewrite Forall_forall in Hl. destruct (Hl _ Hx) as [Hk Hv].
    assert (forallb unbroken SETUP_WRITABLE_KEYS = true) as Hf by (vm_compute; reflexivity).
    rewrite forallb_forall in Hf. unfold line_of, cat, unbroken in *. cbn [fst snd concat] in *.
    rewrite !forallb_app, Hv. apply list_elem_of_In, Hf in Hk. by rewrite Hk.
Qed.

Lemma merge_unbroken lines rem :
  Forall (λ l, unbroken l = true) lines → Forall (λ kv, unbroken (line_of kv) = true) rem →
  let '(out, rest) := merge_lines lines rem in
  Forall (λ l, unbroken l = true) (out ++ map line_of rest) ∧ (rem ≠ [] → out ++ map line_of rest ≠ []).
Proof.
  revert rem. induction lines as [|line lines IH]; intros rem Hl Hr; cbn [merge_lines].
  - cbn. split; [by apply Forall_map|]. by destruct rem.
  - apply Forall_cons in Hl as [Hx Hl].
    assert (∀ a v, get a rem = Some v → unbroken (line_of (a, v)) = true) as Hg.
    { intros a v Ev. unfold get in Ev. apply fmap_Some in Ev as ([a' v'] & Ef & ->).
      apply find_some in Ef as [Hin E%bool_decide_eq_true]. cbn in E. subst a'.
      rewrite Forall_forall in Hr. by apply Hr, list_elem_of_In. }
    destruct (assignment line) as [[a w]|]; cbn [fmap option_fmap option_map mbind option_bind fst];
      [destruct (get a rem) as [v|] eqn:Ev; cbn [mbind option_bind]|].
    + specialize (IH (pop a rem) Hl (pop_incl a _ rem Hr)). revert IH.
      destruct (merge_lines lines (pop a rem)) as [out rest]. intros [IH _].
      cbn [app]. split; [constructor; auto|done].
    + specialize (IH rem Hl Hr). revert IH. destruct (merge_lines lines rem) as [out rest].
      intros [IH _]. cbn [app]. split; [by constructor|done].
    + specialize (IH rem Hl Hr). revert IH. destruct (merge_lines lines rem) as [out rest].
      intros [IH _]. cbn [app]. split; [by constructor|done].
Qed.

(** The file after a merge: the old lines in place, then the new ones; and the last line of a key. *)
Lemma merge_env_spec updates file :
  updates_ok updates →
  ∃ file', merge_env SETUP_WRITABLE_KEYS false updates file = Written file' ∧
    (∀ i line, lines_of file !! i = Some line →
       lines_of file' !! i = Some (in_place (not_blank updates) (take i (lines_of file)) line)) ∧
    drop (length (lines_of file)) (lines_of file') =
      map line_of (without_line (lines_of file) (not_blank updates)) ∧
    (∀ k, (is_Some (get k (not_blank updates)) → once k (lines_of file)) →
       value k (lines_of file') =
         match get k (not_blank updates) with Some v => Some v | None => value k (lines_of file) end).
Proof.
  intros Hok. pose proof (not_blank_ok updates Hok) as [Hk Hu]. unfold merge_env.
  assert (find (λ kv, negb (is_writable SETUP_WRITABLE_KEYS false (fst kv))) updates = None) as ->.
  { destruct (find _ updates) as [kv|] eqn:E; [|done]. apply find_some in E as [Hx Hn].
    destruct Hok as [_ Hl]. rewrite Forall_forall in Hl.
    apply list_elem_of_In, Hl in Hx as [Hx _]. apply setup_writable in Hx. by rewrite Hx in Hn. }
  fold (not_blank updates). destruct (not_blank updates) as [|x clean] eqn:Ec.
  { exists file. split; [done|]. split; [|split; [by rewrite drop_all|done]].
    intros i line ->. unfold in_place. destruct (key_of line); [by destruct (memb _ _)|done]. }
  rewrite <- Ec in *. change (match file with Some t => splitlines t | None => [] end) with (lines_of file).
  pose proof (merge_unbroken (lines_of file) (not_blank updates)) as Hm.
  pose proof (λ k, merge_value k (lines_of file) (not_blank updates) Hk) as Hv.
  pose proof (merge_in_place (lines_of file) (not_blank updates)) as Hp.
  destruct (merge_lines (lines_of file) (not_blank updates)) as [out rest].
  destruct Hm as [Hb Hne]; [destruct file; [apply splitlines_unbroken|constructor]|done|].
  destruct Hp as (Hl & Ho & ->). eexists. split; [reflexivity|].
  assert (∀ t, lines_of (Some t) = splitlines t) as -> by done.
  rewrite splitlines_join; [|apply Hne; by rewrite Ec|done]. split; [|split; [|exact Hv]].
  - intros i line Hi. rewrite lookup_app_l; [by apply Ho|]. rewrite Hl. by eapply lookup_lt_Some.
  - by rewrite <- Hl, drop_app_length.
Qed.

(** What the wizard's status shows is whether the file gives a key a value. *)
Lemma presence_spec keys file k :
  k ∈ keys → read_key_presence keys file !! k =
    Some (match value k (lines_of file) with Some v => negb (blank v) | None => false end).
Proof.
  intros Hk. unfold read_key_presence. change (match file with Some t => splitlines t | None => [] end)
    with (lines_of file).
  assert ((list_to_map (map (λ k, (k, false)) keys) : gmap jsstr bool) !! k = Some false) as H0.
  { induction keys as [|a keys IH]; [by apply elem_of_nil in Hk|]. cbn.
    destruct (decide (a = k)) as [->|Ha]; [by rewrite lookup_insert_eq|].
    rewrite lookup_insert_ne by done. apply IH. apply elem_of_cons in Hk as [->|]; done. }
  revert H0. generalize (list_to_map (map (λ k, (k, false)) keys) : gmap jsstr bool) as m.
  assert (∀ lines (m : gmap jsstr bool) b, m !! k = Some b →
    foldl (λ m line, match assignment line with
                   | Some (k, v) => if bool_decide (is_Some (m !! k)) then <[k := negb (blank v)]> m else m
                   | None => m
                   end) m lines !! k =
    Some (match value k lines with Some v => negb (blank v) | None => b end)) as H;
    [|intros m Hm; by apply H].
  induction lines as [|line lines IH]; intros m b Hm; [done|]. cbn [foldl value].
  destruct (assignment line) as [[a v]|]; [|rewrite (IH m b Hm); by destruct (value k lines)].
  destruct (bool_decide_reflect (a = k)) as [->|Ha].
  - rewrite bool_decide_true by eauto.
    rewrite (IH _ (negb (blank v))) by apply lookup_insert_eq. by destruct (value k lines).
  - rewrite (IH _ b); [by destruct (value k lines)|]. case_bool_decide; [|done].
    by rewrite lookup_insert_ne.
Qed.

(** ** Theorems: the wizard's writes *)

(** Text typed on one line: no control character and no line separator. *)
Definition one_line (v : jsstr) : Prop := Forall (λ c, 32 ≤ c ∧ line_break c = false) v.

Lemma trim_spaces v : forallb is_ws v = true → trim v = [].
Proof.
  intros H. unfold trim, trim_end. assert (trim_start v = []) as ->; [|done].
  induction v as [|c v IH]; [done|]. cbn in *. apply andb_true_iff in H as [-> H]. auto.
Qed.

Lemma typed_not_blank v : one_line v → trim v ≠ [] → blank v = false ∧ unbroken v = true.
Proof.
  intros Hl Ht. split.
  - apply not_true_iff_false. intros Hb. apply Ht, trim_spaces. unfold blank in Hb.
    rewrite forallb_forall in *. intros c Hc. specialize (Hb c Hc).
    unfold one_line in Hl. rewrite Forall_forall in Hl.
    destruct (Hl c ltac:(by apply list_elem_of_In)) as [H1 H2].
    unfold py_space, line_break, is_ws in *. lia.
  - apply forallb_forall. intros c Hc. unfold one_line in Hl. rewrite Forall_forall in Hl.
    destruct (Hl c ltac:(by apply list_elem_of_In)) as [_ ->]. done.
Qed.

Lemma group_keys step g k : group_at step = Some g → field_of g k → k ∈ SETUP_WRITABLE_KEYS.
Proof.
  unfold group_at. destruct (0 <=? step); [|done]. intros Hg%list_elem_of_lookup_2 (f & Hf & <-).
  assert (forallb (λ g, forallb (λ f, memb (fd_key f) SETUP_WRITABLE_KEYS) (gr_fields g)) GROUPS = true)
    as H by (vm_compute; reflexivity).
  rewrite forallb_forall in H. specialize (H g ltac:(by apply list_elem_of_In)). cbn in H.
  rewrite forallb_forall in H. apply memb_spec, H. by apply list_elem_of_In.
Qed.

(** C19: What the operator types in the setup wizard is written to the environment file, line by line.
    Whenever the wizard writes a group's values, each of one line as its inputs are, and whatever
    the order in which they arrive: the server accepts every key; of the lines of the file, the first
    that assigns a typed key becomes the line of the key and the value as typed, and every other
    line stays as it was, where it was; after them come the lines of the typed keys that had none,
    and nothing else.  The status then shows a typed key as set, if no more than one line of the
    old file assigned it, and shows every other key as before. *)
Theorem setup_writes_land (w : world setup_wizard) t m l file :
  reachable any w → issues any w (WriteEnv t m) → l ≡ₚ map_to_list m →
  (∀ k v, m !! k = Some v → one_line v) →
  ∃ file', merge_env SETUP_WRITABLE_KEYS false l file = Written file' ∧
    (∀ i line, lines_of file !! i = Some line →
       lines_of file' !! i = Some (
         match key_of line with
         | Some k => if memb k (omap key_of (take i (lines_of file))) then line
                     else match m !! k with Some v => cat [k; "="; v] | None => line end
         | None => line
         end)) ∧
    drop (length (lines_of file)) (lines_of file') = map line_of (without_line (lines_of file) l) ∧
    (∀ k keys, k ∈ keys → is_Some (m !! k) → once k (lines_of file) →
       read_key_presence keys file' !! k = Some true) ∧
    (∀ k keys, k ∈ keys → m !! k = None →
       read_key_presence keys file' !! k = read_key_presence keys file !! k).
Proof.
  intros Hw Hi Hl Hv. destruct (write_is_typed w t m Hw Hi) as (g & Hg & _ & Hm & _).
  assert (NoDup (map fst l)) as Hd
    by (change (NoDup (fst <$> l)); rewrite Hl; apply NoDup_fst_map_to_list).
  assert (∀ k v, m !! k = Some v → blank v = false ∧ unbroken v = true ∧ k ∈ SETUP_WRITABLE_KEYS) as Hk.
  { intros k v E. destruct (proj1 (Hm k v) E) as (Hf & _ & Ht).
    destruct (typed_not_blank v (Hv k v E) Ht). split_and!; [done..|]. by eapply group_keys. }
  assert (∀ k v, (k, v) ∈ l ↔ m !! k = Some v) as Hin by (intros k v; by rewrite Hl, elem_of_map_to_list).
  assert (updates_ok l) as Hok.
  { split; [done|]. apply Forall_forall. intros [k v] E%Hin. apply Hk in E. cbn. tauto. }
  assert (not_blank l = l) as Hnb.
  { apply filter_all. intros [k v] E%Hin. apply negb_true_iff. by apply (Hk k v E). }
  assert (∀ k, get k l = m !! k) as Hget.
  { intros k. apply option_eq. intros v. by rewrite get_In, Hin. }
  destruct (merge_env_spec l file Hok) as (file' & Hw' & Ho & Hn & Hval). rewrite Hnb in *.
  exists file'. split; [done|]. split; [|split; [done|split]].
  - intros i line E. rewrite (Ho i line E). unfold in_place. destruct (key_of line) as [k|]; [|done].
    rewrite Hget. unfold line_of. done.
  - intros k keys Hks [v E] H1. rewrite presence_spec, Hval, Hget, E by done.
    destruct (Hk k v E) as [-> _]. done.
  - intros k keys Hks E. rewrite !presence_spec, Hval, Hget, E by (try done; rewrite Hget, E; by intros []).
    done.
Qed.

Definition typed_file : option jsstr := Some (cat ["PORT=1"; [10]; "OPENROUTER_API_KEY=old"; [10]]).

Lemma setup_writes_land_witness :
  ∃ file', merge_env SETUP_WRITABLE_KEYS false [("OPENROUTER_API_KEY", "sk-1")]%js typed_file = Written file' ∧
    (∀ i line, lines_of typed_file !! i = Some line →
       lines_of file' !! i = Some (
         match key_of line with
         | Some k => if memb k (omap key_of (take i (lines_of typed_file))) then line
                     else match typed_values !! k with Some v => cat [k; "="; v] | None => line end
         | None => line
         end)) ∧
    drop (length (lines_of typed_file)) (lines_of file') =
      map line_of (without_line (lines_of typed_file) [("OPENROUTER_API_KEY", "sk-1")]%js) ∧
    (∀ k keys, k ∈ keys → is_Some (typed_values !! k) → once k (lines_of typed_file) →
       read_key_presence keys file' !! k = Some true) ∧
    (∀ k keys, k ∈ keys → typed_values !! k = None →
       read_key_presence keys file' !! k = read_key_presence keys typed_file !! k).
Proof.
  apply (setup_writes_land (play to_typed (init_world setup_wizard)) ThenNext typed_values _ typed_file
    to_typed_reachable).
  - eapply (issues_event (C := setup_wizard) any _ (NextGroup _)).
    + left. eapply (offers_nth _ 2); [vm_compute; reflexivity|reflexivity].
    + vm_compute. left.
  - unfold typed_values. by rewrite map_to_list_singleton.
  - intros k v E. unfold typed_values in E. apply lookup_singleton_Some in E as [<- <-]. apply (bool_decide_unpack _). vm_compute. exact I.
Defined.

(** A value with a line feed writes a second line: a whitelisted key then sets any variable, the
    one that binds the server to the network among them. *)
Lemma line_feed_injects :
  ∃ file', merge_env SETUP_WRITABLE_KEYS false
      [("GITHUB_REPO", cat ["me/x"; [10]; "BIND_HOST=0.0.0.0"])]%js None = Written file' ∧
    ("BIND_HOST" : jsstr) ∉ SETUP_WRITABLE_KEYS ∧
    lines_of file' = ["GITHUB_REPO=me/x" : jsstr; "BIND_HOST=0.0.0.0"].
Proof.
  eexists. split; [vm_compute; reflexivity|]. split; [|vm_compute; reflexivity].
  apply (bool_decide_unpack _). vm_compute. exact I.
Qed.

(** A key that two lines assign is changed in the first and stays in the second, which is the one
    whose text the status tests. *)
Lemma second_line_kept :
  merge_env SETUP_WRITABLE_KEYS false [("GITHUB_REPO", "me/x")]%js
    (Some (cat ["GITHUB_REPO=a"; [10]; "GITHUB_REPO="; [10]])) =
    Written (Some (cat ["GITHUB_REPO=me/x"; [10]; "GITHUB_REPO="; [10]])) ∧
  read_key_presence ["GITHUB_REPO"%js] (Some (cat ["GITHUB_REPO=me/x"; [10]; "GITHUB_REPO="; [10]]))
    !! ("GITHUB_REPO" : jsstr) = Some false.
Proof. split; vm_compute; reflexivity. Qed.

(** The wizard tests only groups the server knows. *)
Lemma tested_groups_known g : g ∈ GROUPS → gr_testable g = true → gr_id g ∈ TEST_GROUPS.
Proof.
  intros Hg Ht.
  assert (forallb (λ g, negb (gr_testable g) || memb (gr_id g) TEST_GROUPS) GROUPS = true) as H
    by (vm_compute; reflexivity).
  rewrite forallb_forall in H. specialize (H g ltac:(by apply list_elem_of_In)). cbn in H.
  rewrite Ht in H. by apply memb_spec.
Qed.
