(* ===== verification/Registry.v ===== *)
(** The registry of agents (src/runtime/registry.py) and the edit of it that a new agent needs
    (src/runtime/registry_edit.py).  What the YAML library reads from a text is an argument: a
    message, or a value, of which only strings, lists and mappings are told apart. *)

From S2P Require Import Prelude JsNumber Types Json React ApiClient Python EnvFile Behaviour Wizard WizardView.

(** [_AGENT_ID_RE]: [$] also matches before a final newline. *)
Definition AGENT_ID_RE (s : jsstr) : bool := ID_PATTERN s || ID_PATTERN (chomp s).

Record RegistryEntry := { re_id : jsstr; re_enabled : bool }.
#[export] Instance RegistryEntry_eq_dec : EqDecision RegistryEntry.
Proof. solve_decision. Defined.

Inductive registry_error :=
| NotFound
| NotYaml (message : jsstr)
| AgentsNotList
| EntryNotMapping
| IdNotText
| UnsafeId (id : jsstr)
| DuplicateId (id : jsstr)
| NotAsExpected                                (* the post-condition of the edit *)
| FileFails (message : jsstr).                 (* the operating system *)

(** ** Loading *)

Section Registry.
Context (yaml_load : jsstr → jsstr + json).

(** The entries of the list [agents]; [seen] are the ids before. *)
Fixpoint entries_of (seen : list jsstr) (l : list json) : registry_error + list RegistryEntry :=
  match l with
  | [] => inr []
  | JObj _ as raw :: l =>
      match json_get "id" raw with
      | Some (JStr s) =>
          let agent_id := strip s in
          if negb (truthy agent_id) then inl IdNotText
          else if negb (AGENT_ID_RE agent_id) then inl (UnsafeId agent_id)
          else if memb agent_id seen then inl (DuplicateId agent_id)
          else
            let enabled := match json_get "enabled" raw with Some v => py_truthy v | None => true end in
            match entries_of (agent_id :: seen) l with
            | inl e => inl e
            | inr r => inr ({| re_id := agent_id; re_enabled := enabled |} :: r)
            end
      | _ => inl IdNotText
      end
  | _ :: _ => inl EntryNotMapping
  end.

Definition parse_registry (text : jsstr) : registry_error + list RegistryEntry :=
  match yaml_load text with
  | inl message => inl (NotYaml message)
  | inr doc =>
      let doc := if py_truthy doc then doc else JObj [] in
      match doc with
      | JObj _ => match json_get "agents" doc with
                  | Some (JArr l) => entries_of [] l
                  | _ => inl AgentsNotList
                  end
      | _ => inl AgentsNotList
      end
  end.

(** [load_registry] of a path that is given; the file may be missing. *)
Definition load_registry (file : option jsstr) : registry_error + list RegistryEntry :=
  match file with Some text => parse_registry text | None => inl NotFound end.

(** ** Editing *)

(** [_replace_validated]: the text is written beside the file, loaded and checked, and only then
    put in its place.  [fails] is the error of writing the copy, [swap_fails] that of the
    replacement. *)
Definition replace_validated (fails swap_fails : option jsstr) (new_text : jsstr)
    (check : list RegistryEntry → bool) : registry_error + jsstr :=
  match fails with
  | Some m => inl (FileFails m)
  | None =>
      match parse_registry new_text with
      | inl e => inl e
      | inr entries =>
          if negb (check entries) then inl NotAsExpected
          else match swap_fails with Some m => inl (FileFails m) | None => inr new_text end
      end
  end.

(** The text with the block of one enabled agent at its end. *)
Definition ends_line (s : jsstr) : bool := match last s with Some c => c =? 10 | None => true end.
Definition with_entry (original agent_id : jsstr) : jsstr :=
  cat [original; if ends_line original then [] else [10];
       "  - id: "; agent_id; [10]; "    enabled: true"; [10]].

Definition has_entry (agent_id : jsstr) (entries : list RegistryEntry) : bool :=
  existsb (λ e, bool_decide (re_id e = agent_id) && re_enabled e) entries.

(** [append_registry]: the new text of the file, or why there is none. *)
Definition append_registry (fails swap_fails : option jsstr) (file : option jsstr) (agent_id : jsstr) :
    registry_error + jsstr :=
  match file with
  | None => inl NotFound
  | Some original =>
      replace_validated fails swap_fails (with_entry original agent_id) (has_entry agent_id)
  end.

(** ** Lemmas *)

Lemma has_entry_spec id es : has_entry id es = true ↔ {| re_id := id; re_enabled := true |} ∈ es.
Proof.
  unfold has_entry. rewrite existsb_exists. split.
  - intros ([i b] & Hin%list_elem_of_In & [Hi Hb]%andb_true_iff). cbn in *.
    apply bool_decide_eq_true in Hi as ->. by destruct b.
  - intros Hin. eexists. split; [by apply list_elem_of_In|]. cbn. by rewrite bool_decide_true.
Qed.

(** An appended entry: the new text is the old one with the block at its end, and it loads, with
    the entry in it. *)
Lemma append_registry_spec fails swap_fails file id new :
  append_registry fails swap_fails file id = inr new →
  ∃ old es, file = Some old ∧ new = with_entry old id ∧ parse_registry new = inr es ∧
    {| re_id := id; re_enabled := true |} ∈ es.
Proof.
  unfold append_registry, replace_validated. destruct file as [old|]; [|done].
  destruct fails; [done|]. destruct (parse_registry _) as [|es] eqn:Ep; [done|].
  destruct (has_entry id es) eqn:Eh; [|done]. destruct swap_fails; [done|]. intros [= <-].
  exists old, es. split; [done|]. split; [done|]. split; [done|]. by apply has_entry_spec.
Qed.

(** Loaded ids are safe, and occur once. *)
Lemma entries_of_ids seen l es :
  entries_of seen l = inr es →
  NoDup (map re_id es) ∧ ∀ e, e ∈ es → AGENT_ID_RE (re_id e) = true ∧ re_id e ∉ seen.
Proof.
  revert seen es. induction l as [|raw l IH]; intros seen es H; cbn in H.
  { injection H as <-. split; [constructor|]. by intros e ?%elem_of_nil. }
  destruct raw as [| | | | |o]; try done. destruct (json_get "id" _) as [[| | |s| |]|]; try done.
  destruct (truthy (strip s)); [|done]. destruct (AGENT_ID_RE (strip s)) eqn:Ea; [|done]. cbn [negb] in H.
  destruct (memb (strip s) seen) eqn:Em; [done|].
  destruct (entries_of (strip s :: seen) l) as [|r] eqn:Er; [done|]. injection H as <-.
  apply IH in Er as [Hn Hr]. split.
  - cbn. constructor; [|done]. intros (e & He & Hin)%list_elem_of_fmap.
    destruct (Hr e Hin) as [_ Hs]. apply Hs. rewrite <- He. by left.
  - intros e [->|Hin]%elem_of_cons; cbn.
    + split; [done|]. intros Hs%memb_spec. congruence.
    + destruct (Hr e Hin) as [H1 H2]. split; [done|]. intros Hs. apply H2. by right.
Qed.

(** What a registry promises the fleet: its ids are safe in a path, and no two are the same. *)
Theorem loaded_ids_safe file es :
  load_registry file = inr es →
  NoDup (map re_id es) ∧ Forall (λ e, AGENT_ID_RE (re_id e) = true) es.
Proof.
  unfold load_registry, parse_registry. destruct file as [text|]; [|done].
  destruct (yaml_load text) as [|doc]; [done|].
  destruct (if py_truthy doc then doc else JObj []) as [| | | | |o]; try done.
  destruct (json_get "agents" _) as [[| | | |l|]|]; try done.
  intros [Hn Hs]%entries_of_ids. split; [done|]. apply Forall_forall. intros e He. by apply Hs.
Qed.
End Registry.
