(* ===== verification/AgentSpec.v ===== *)
(** Creating an agent on the server (src/server/agent_create.py): the checks of the wizard's
    spec, the profile document it is turned into, and the writes, each of which the operating
    system may refuse (the profile directory by scaffold_profile_dir of
    src/runtime/registry_edit.py, the registry by [Registry]).  The packs on disk, the cron
    parser, the configuration builders, the text of a value that is no string, and what the YAML
    library reads and writes are arguments. *)

From S2P Require Import Prelude JsNumber Types Json Uri React ApiClient Python EnvFile Behaviour Wizard WizardView Registry.

Definition BINDING_KEYS (server : jsstr) : option (list jsstr) :=
  if bool_decide (server = "jira") then Some ["project_key" : jsstr]
  else if bool_decide (server = "confluence") then Some ["space_key"; "space_id"; "okr_page_id"]%js
  else if bool_decide (server = "github") then Some ["repo" : jsstr]
  else if bool_decide (server = "slack")
  then Some ["report_channel"; "stakeholder_channel"; "external_channels"]%js
  else None.

(** A binding as it is written to the profile: text, or the list of the external channels. *)
Inductive binding := BText (s : jsstr) | BList (l : list jsstr).

(** The fields of the profile document that the spec decides, over the default template's. *)
Record profile_doc := {
  pd_name : jsstr;
  pd_domain : jsstr;
  pd_reports : list jsstr;
  pd_schedule : list (jsstr * jsstr);
  pd_web_search : bool;
  pd_bindings : list (jsstr * jsstr * binding)    (* block, key, value: in the order written *)
}.

Inductive create_error :=
| InvalidId (id : jsstr)
| UnknownDomain (domain : jsstr)
| UnreadablePack (domain : jsstr)
| BadKinds (kinds : list jsstr)
| NotIterable
| ScheduleNotMapping
| NotSelected (kind : jsstr)
| InvalidCron (kind cron : jsstr)
| BindingsNotMapping
| UnknownServer (server : jsstr)
| BlockNotMapping (server : jsstr)
| NotSettable (server key : jsstr)
| ChannelsNotList
| NoTemplate                                  (* profiles/default/profile.yaml cannot be read *)
| Builders (message : jsstr)
| ProfileExists
| RegistryUnread (e : registry_error)
| InRegistry
| ScaffoldFails (message : jsstr)
| RegistryFails (e : registry_error).

Section create.
Context (repr : json → jsstr).                       (* str(v), for v no string *)
Context (croniter_is_valid : jsstr → bool).
Context (domains : list jsstr).                       (* discover_domains() *)
Context (pack_report_kinds : jsstr → option (list jsstr)).
Context (builders : jsstr → profile_doc → option jsstr).
  (* their error, for the default template's text with the fields of the document *)

Definition py_str (v : json) : jsstr := match v with JStr s => s | _ => repr v end.
(** [str(spec.get(k) or d)]. *)
Definition str_or (spec : json) (k d : jsstr) : jsstr :=
  match json_get k spec with Some v => if py_truthy v then py_str v else d | None => d end.

(** [spec.get(k) or d], of a container. *)
Definition get_or (spec : json) (k : jsstr) (d : json) : json :=
  match json_get k spec with Some v => if py_truthy v then v else d | None => d end.

Fixpoint check_schedule (reports : list jsstr) (l : list (jsstr * json)) :
    create_error + list (jsstr * jsstr) :=
  match l with
  | [] => inr []
  | (kind, cron) :: l =>
      if negb (memb kind reports) then inl (NotSelected kind)
      else if negb (croniter_is_valid (py_str cron)) then inl (InvalidCron kind (py_str cron))
      else match check_schedule reports l with
           | inl e => inl e
           | inr r => inr ((kind, py_str cron) :: r)
           end
  end.

Fixpoint apply_block (server : jsstr) (allowed : list jsstr) (l : list (jsstr * json)) :
    create_error + list (jsstr * jsstr * binding) :=
  match l with
  | [] => inr []
  | (key, v) :: l =>
      if negb (memb key allowed) then inl (NotSettable server key)
      else
        let value :=
          if bool_decide (key = "external_channels") then
            match v with JArr vs => Some (BList (map py_str vs)) | _ => None end
          else Some (BText (py_str v)) in
        match value, apply_block server allowed l with
        | None, _ => inl ChannelsNotList
        | Some b, inr r => inr ((server, key, b) :: r)
        | Some _, inl e => inl e
        end
  end.

(** [_apply_bindings]. *)
Fixpoint apply_blocks (l : list (jsstr * json)) : create_error + list (jsstr * jsstr * binding) :=
  match l with
  | [] => inr []
  | (server, values) :: l =>
      match BINDING_KEYS server with
      | None => inl (UnknownServer server)
      | Some allowed =>
          match values with
          | JObj vs =>
              match apply_block server allowed (dict_of vs) with
              | inl e => inl e
              | inr b => match apply_blocks l with inl e => inl e | inr r => inr (b ++ r) end
              end
          | _ => inl (BlockNotMapping server)
          end
      end
  end.
Definition apply_bindings (bindings : json) : create_error + list (jsstr * jsstr * binding) :=
  match bindings with JObj l => apply_blocks (dict_of l) | _ => inl BindingsNotMapping end.

(** [_build_profile_doc]: the checks in the order of the code. *)
Definition build_profile_doc (template : option jsstr) (spec : json) :
    create_error + (jsstr * jsstr * profile_doc * option jsstr) :=
  let agent_id := str_or spec "id" [] in
  if negb (AGENT_ID_RE agent_id) then inl (InvalidId agent_id)
  else
  let domain := js_or (strip (str_or spec "domain" "pm")) "pm" in
  if negb (memb domain domains) then inl (UnknownDomain domain)
  else match pack_report_kinds domain with
  | None => inl (UnreadablePack domain)
  | Some kinds =>
      match py_iter (get_or spec "reports" (JArr [])) with
      | None => inl NotIterable
      | Some rs =>
          let reports := map py_str rs in
          match List.filter (λ k, negb (memb k kinds)) reports with
          | (_ :: _) as bad => inl (BadKinds bad)
          | [] =>
              match get_or spec "schedule" (JObj []) with
              | JObj l =>
                  match check_schedule reports (dict_of l) with
                  | inl e => inl e
                  | inr schedule =>
                      match template, apply_bindings (get_or spec "bindings" (JObj [])) with
                      | None, _ => inl NoTemplate
                      | Some _, inl e => inl e
                      | Some template, inr bindings =>
                          let doc :=
                            {| pd_name := str_or spec "name" agent_id; pd_domain := domain;
                               pd_reports := reports; pd_schedule := schedule;
                               pd_web_search := match json_get "web_search" spec with
                                                | Some v => py_truthy v | None => false end;
                               pd_bindings := bindings |} in
                          match builders template doc with
                          | Some message => inl (Builders message)
                          | None => inr (agent_id, template, doc, present (Some (str_or spec "persona" [])))
                          end
                      end
                  end
              | _ => inl ScheduleNotMapping
              end
          end
      end
  end.

(** *** The disk *)

(** The profile directories with their files, and the file of the registry as Python reads it. *)
Abbreviation directory := (gmap jsstr jsstr).
Record disk := { dk_profiles : gmap jsstr directory; dk_registry : option jsstr }.

(** What the operating system refuses: making the directory of an id; writing a file of it, which
    may leave no file, or a part of the text; removing the directory, of which something may be left; writing
    the copy of the registry, and putting it in its place. *)
Record faults := {
  ft_mkdir : jsstr → option jsstr;
  ft_write : jsstr → jsstr → option (option jsstr * jsstr);
  ft_rmtree : jsstr → option directory;
  ft_registry : option jsstr;
  ft_swap : option jsstr
}.
Definition no_faults : faults :=
  {| ft_mkdir := λ _, None; ft_write := λ _ _, None; ft_rmtree := λ _, None;
     ft_registry := None; ft_swap := None |}.
Context (os : faults).

Definition with_profiles (f : gmap jsstr directory → gmap jsstr directory) (d : disk) : disk :=
  {| dk_profiles := f (dk_profiles d); dk_registry := dk_registry d |}.
Definition put_file (id name text : jsstr) : disk → disk := with_profiles (alter (insert name text) id).

(** [Path.write_text] in UTF-8: the file is opened first, and a lone surrogate has no encoding. *)
Definition write_text (id name text : jsstr) (d : disk) : option jsstr * disk :=
  match ft_write os id name with
  | Some (part, message) =>
      (Some message, match part with Some text => put_file id name text d | None => d end)
  | None =>
      match code_points text with
      | Some _ => (None, put_file id name text d)
      | None => (Some "surrogates not allowed"%js, put_file id name [] d)
      end
  end.
Fixpoint write_all (id : jsstr) (l : list (jsstr * jsstr)) (d : disk) : option jsstr * disk :=
  match l with
  | [] => (None, d)
  | (name, text) :: l =>
      match write_text id name text d with
      | (Some message, d) => (Some message, d)
      | (None, d) => write_all id l d
      end
  end.

Definition PLACEHOLDER_SOUL : jsstr :=
  cat ["<!-- Persona. Empty ⇒ the v1 system prompt is used unchanged. -->"; [10]].
Definition PLACEHOLDER_PROJECT : jsstr :=
  cat ["<!-- Project context. Empty ⇒ no extra context added. -->"; [10]].
Definition PLACEHOLDER_MEMORY : jsstr :=
  cat ["<!-- Agent memory. Empty by default; read verbatim into context. -->"; [10]].

(** The files of a new profile, in the order they are written. *)
Definition profile_files (profile_yaml_text : jsstr) (soul_md : option jsstr) : list (jsstr * jsstr) :=
  [("profile.yaml" : jsstr, profile_yaml_text);
   ("SOUL.md" : jsstr, match soul_md with
                       | Some soul => if truthy (strip soul) then soul else PLACEHOLDER_SOUL
                       | None => PLACEHOLDER_SOUL
                       end);
   ("PROJECT.md" : jsstr, PLACEHOLDER_PROJECT); ("MEMORY.md" : jsstr, PLACEHOLDER_MEMORY)].

(** [scaffold_profile_dir]: its exception, if any, and the disk. *)
Definition scaffold_profile_dir (id profile_yaml_text : jsstr) (soul_md : option jsstr) (d : disk) :
    option create_error * disk :=
  if bool_decide (is_Some (dk_profiles d !! id)) then (Some ProfileExists, d)
  else match ft_mkdir os id with
  | Some message => (Some (ScaffoldFails message), d)
  | None =>
      let '(r, d) := write_all id (profile_files profile_yaml_text soul_md)
                       (with_profiles (insert id ∅) d) in
      (option_map ScaffoldFails r, d)
  end.

(** [shutil.rmtree] that ignores its errors. *)
Definition rmtree (id : jsstr) : disk → disk :=
  with_profiles (partial_alter (λ _, ft_rmtree os id) id).

(** The text of the document: the default template's with the document's fields, dumped. *)
Context (safe_dump : jsstr → profile_doc → jsstr).
Context (yaml_load : jsstr → jsstr + json).

(** [create_agent]: the checks, then the writes; a registry that refuses the entry takes the new
    profile back, a directory that cannot be filled does not. *)
Definition create_agent_on (spec : json) (d : disk) : (create_error + CreateAgentResult) * disk :=
  let template := dk_profiles d !! ("default" : jsstr) ≫= (λ files, files !! ("profile.yaml" : jsstr)) in
  match build_profile_doc template spec with
  | inl e => (inl e, d)
  | inr (id, template, doc, soul) =>
      if bool_decide (is_Some (dk_profiles d !! id)) then (inl ProfileExists, d)
      else match load_registry yaml_load (dk_registry d) with
      | inl e => (inl (RegistryUnread e), d)
      | inr entries =>
          if existsb (λ e, bool_decide (re_id e = id)) entries then (inl InRegistry, d)
          else match scaffold_profile_dir id (safe_dump template doc) soul d with
          | (Some e, d) => (inl e, d)
          | (None, d) =>
              match append_registry yaml_load (ft_registry os) (ft_swap os) (dk_registry d) id with
              | inl e => (inl (RegistryFails e), rmtree id d)
              | inr registry =>
                  (inr {| cr_id := id; cr_domain := pd_domain doc; cr_reports := pd_reports doc |},
                   {| dk_profiles := dk_profiles d; dk_registry := Some registry |})
              end
          end
      end
  end.
End create.

(** The status the route answers with (routes_agents_admin.py); an exception that is neither a
    [ValidationError] nor a [ConflictError] is an internal error. *)
Definition create_status (r : create_error + CreateAgentResult) : Z :=
  match r with
  | inr _ => 201
  | inl (ProfileExists | InRegistry) => 409
  | inl (NotIterable | NoTemplate | RegistryUnread _ | ScaffoldFails _ | RegistryFails _) => 500
  | inl _ => 400
  end.

(** ** Theorems: whatever is posted *)






(** Writing the files of an id touches its directory alone, and writes every file if it is not
    stopped. *)
Lemma put_file_frame id name text d :
  delete id (dk_profiles (put_file id name text d)) = delete id (dk_profiles d) ∧
  dk_registry (put_file id name text d) = dk_registry d.
Proof. split; [|done]. apply delete_alter_eq. Qed.

Lemma write_text_frame os id name text d :
  delete id (dk_profiles (write_text os id name text d).2) = delete id (dk_profiles d) ∧
  dk_registry (write_text os id name text d).2 = dk_registry d.
Proof.
  unfold write_text. destruct (ft_write os id name) as [[[part|] m]|];
    [apply put_file_frame|done|destruct (code_points text); apply put_file_frame].
Qed.

Lemma write_all_frame os id l d :
  delete id (dk_profiles (write_all os id l d).2) = delete id (dk_profiles d) ∧
  dk_registry (write_all os id l d).2 = dk_registry d.
Proof.
  revert d. induction l as [|[name text] l IH]; intros d; cbn; [done|].
  destruct (write_text_frame os id name text d) as [H1 H2].
  destruct (write_text os id name text d) as [[m|] d1]; [done|]. cbn in *.
  destruct (IH d1) as [H3 H4]. split; congruence.
Qed.

Lemma write_all_done os id l d d' files :
  write_all os id l d = (None, d') → dk_profiles d !! id = Some files →
  dk_profiles d' !! id = Some (list_to_map (rev l) ∪ files) ∧
  Forall (λ kv, is_Some (code_points kv.2)) l.
Proof.
  revert d files. induction l as [|[name text] l IH]; intros d files H Hf; cbn in H.
  { injection H as <-. rewrite Hf. split; [f_equal; symmetry; apply map_empty_union|constructor]. }
  unfold write_text in H. destruct (ft_write os id name) as [[[part|] m]|]; [done|done|].
  destruct (code_points text) eqn:Ec; [|done].
  apply (IH _ (<[name:=text]> files)) in H as [H Hl].
  2:{ cbn. by rewrite lookup_alter_eq, Hf. }
  rewrite H. split; [|by constructor]. f_equal. cbn [rev].
  rewrite (list_to_map_app (M := gmap jsstr) (rev l)), <- map_union_assoc. f_equal. cbn.
  by rewrite <- insert_union_l, map_empty_union.
Qed.

Lemma write_all_encodes id l d :
  Forall (λ kv, is_Some (code_points kv.2)) l → (write_all no_faults id l d).1 = None.
Proof.
  intros H. revert d. induction H as [|[name text] l [u Hu] _ IH]; intros d; cbn; [done|].
  unfold write_text. cbn in *. rewrite Hu. apply IH.
Qed.

Lemma profile_files_nodup text soul : NoDup (profile_files text soul).*1.
Proof. apply (bool_decide_unpack _). vm_compute. exact I. Qed.

(** What scaffolding leaves: nothing changed, or a part of the new directory, or all of it. *)
Lemma scaffold_spec os id text soul d :
  let '(r, d') := scaffold_profile_dir os id text soul d in
  dk_registry d' = dk_registry d ∧
  match r with
  | None => dk_profiles d !! id = None ∧
      dk_profiles d' = <[id := list_to_map (profile_files text soul)]> (dk_profiles d)
  | Some ProfileExists => d' = d
  | Some e => (∃ m, e = ScaffoldFails m) ∧ dk_profiles d !! id = None ∧
      delete id (dk_profiles d') = dk_profiles d
  end.
Proof.
  unfold scaffold_profile_dir. generalize (profile_files_nodup text soul).
  generalize (profile_files text soul). intros files Hnd.
  case_bool_decide as Hp; [done|]. apply eq_None_not_Some in Hp.
  destruct (ft_mkdir os id) as [m|].
  { split; [done|]. split; [by eexists|]. split; [done|]. by apply delete_id. }
  pose proof (write_all_frame os id files (with_profiles (insert id ∅) d)) as Hframe.
  destruct (write_all _ _ _ _) as [[m|] d'] eqn:E; destruct Hframe as [H1 H2]; cbn [snd] in *;
    (split; [done|]).
  - split; [by eexists|]. split; [done|]. rewrite H1. cbn. by rewrite delete_insert_eq, delete_id.
  - split; [done|]. apply (write_all_done _ _ _ _ _ ∅) in E as [E _]; [|apply lookup_insert_eq].
    apply map_eq. intros i. destruct (decide (i = id)) as [->|Hi].
    + rewrite E, lookup_insert_eq, map_union_empty. f_equal.
      symmetry. apply list_to_map_proper; [done|apply Permutation_rev].
    + apply (f_equal (lookup i)) in H1.
      rewrite !lookup_delete_ne in H1 by done. rewrite H1. cbn.
      by rewrite !lookup_insert_ne.
Qed.

Lemma unlisted_id id (es : list RegistryEntry) :
  existsb (λ e, bool_decide (re_id e = id)) es = false ↔ id ∉ map re_id es.
Proof.
  rewrite <- not_true_iff_false, existsb_exists. split; intros H Hin; apply H.
  - apply list_elem_of_fmap in Hin as (e & -> & He). exists e. split; [by apply list_elem_of_In|].
    by apply bool_decide_eq_true.
  - destruct Hin as (e & He & Hid). apply bool_decide_eq_true in Hid as <-.
    apply list_elem_of_fmap. exists e. split; [done|]. by apply list_elem_of_In.
Qed.



Lemma disk_eta d : {| dk_profiles := dk_profiles d; dk_registry := dk_registry d |} = d.
Proof. by destruct d. Qed.


(** A persona with a lone surrogate passes every check, and cannot be written: the directory is
    made, stays without its persona, and the id can then be given to no agent. *)
Theorem orphan_left repr valid domains kinds builders safe_dump yaml_load spec d id template doc soul es :
  build_profile_doc repr valid domains kinds builders
    (dk_profiles d !! ("default" : jsstr) ≫= (λ files, files !! ("profile.yaml" : jsstr))) spec =
    inr (id, template, doc, Some soul) →
  code_points soul = None → truthy (strip soul) = true →
  is_Some (code_points (safe_dump template doc)) → dk_profiles d !! id = None →
  load_registry yaml_load (dk_registry d) = inr es → id ∉ map re_id es →
  ∃ m d', create_agent_on repr valid domains kinds builders no_faults safe_dump yaml_load spec d =
      (inl (ScaffoldFails m), d') ∧
    dk_profiles d' !! id = Some {[("profile.yaml" : jsstr) := safe_dump template doc; ("SOUL.md" : jsstr) := []]} ∧
    ∀ os spec' text' doc' soul',
      build_profile_doc repr valid domains kinds builders
        (dk_profiles d' !! ("default" : jsstr) ≫= (λ files, files !! ("profile.yaml" : jsstr))) spec' =
        inr (id, text', doc', soul') →
      create_agent_on repr valid domains kinds builders os safe_dump yaml_load spec' d' =
        (inl ProfileExists, d').
Proof.
  intros Hb Hs Ht [u Hu] Hn Hl Hid%unlisted_id. do 2 eexists. split; [|split].
  - unfold create_agent_on. rewrite Hb, bool_decide_false by (by rewrite Hn; intros []).
    rewrite Hl, Hid. unfold scaffold_profile_dir. rewrite bool_decide_false by (by rewrite Hn; intros []).
    cbn. unfold write_text. cbn. rewrite Hu, Ht. cbn. by rewrite Hs.
  - cbn. by rewrite !lookup_alter_eq, lookup_insert_eq.
  - intros os spec' text' doc' soul' Hb'. unfold create_agent_on. rewrite Hb'.
    rewrite bool_decide_true; [done|]. cbn. rewrite !lookup_alter_eq, lookup_insert_eq. by eexists.
Qed.

(** ** Theorems: what the wizard posts *)

(** The document of a spec, and the values its bindings set. *)
Definition text_of {A} (server key : jsstr) (f : A → option jsstr) (b : option A) :
    list (jsstr * jsstr * binding) :=
  match b ≫= f with Some s => [(server, key, BText s)] | None => [] end.
Definition bindings_of (b : CreateAgentBindings) : list (jsstr * jsstr * binding) :=
  text_of "jira" "project_key" id (b_jira b)
  ++ (text_of "confluence" "space_key" cb_space_key (b_confluence b)
      ++ text_of "confluence" "space_id" cb_space_id (b_confluence b)
      ++ text_of "confluence" "okr_page_id" cb_okr_page_id (b_confluence b))
  ++ text_of "github" "repo" id (b_github b)
  ++ (text_of "slack" "report_channel" sb_report_channel (b_slack b)
      ++ text_of "slack" "stakeholder_channel" sb_stakeholder_channel (b_slack b)
      ++ match b_slack b ≫= sb_external_channels with
         | Some l => [("slack" : jsstr, "external_channels" : jsstr, BList l)] | None => [] end).
Definition doc_of (sp : CreateAgentSpec) : profile_doc :=
  {| pd_name := sp_name sp; pd_domain := sp_domain sp; pd_reports := sp_reports sp;
     pd_schedule := sp_schedule sp;
     pd_web_search := match sp_web_search sp with Some b => b | None => false end;
     pd_bindings := bindings_of (sp_bindings sp) |}.

Lemma apply_blocks_app repr l1 l2 r1 r2 :
  apply_blocks repr l1 = inr r1 → apply_blocks repr l2 = inr r2 →
  apply_blocks repr (l1 ++ l2) = inr (r1 ++ r2).
Proof.
  intros H H2. revert r1 H. induction l1 as [|[s v] l1 IH]; intros r1 H; cbn in *.
  - by injection H as <-.
  - destruct (BINDING_KEYS s); [|done]. destruct v; try done.
    destruct (apply_block _ _ _ _); [done|]. destruct (apply_blocks repr l1) as [|r]; [done|].
    injection H as <-. rewrite (IH r eq_refl). by rewrite app_assoc.
Qed.

Lemma py_strs repr l : map (py_str repr) (map JStr l) = l.
Proof. rewrite map_map. cbn. apply map_id. Qed.

Lemma bindings_applied repr b :
  apply_bindings repr (bindings_json b) = inr (bindings_of b).
Proof.
  unfold apply_bindings, bindings_json. rewrite dict_of_id.
  - unfold bindings_of. repeat apply apply_blocks_app.
    + destruct (b_jira b) as [[k|]|]; reflexivity.
    + destruct (b_confluence b) as [[[k|] [i|] [o|]]|]; reflexivity.
    + destruct (b_github b) as [[k|]|]; reflexivity.
    + destruct (b_slack b) as [[[k|] [i|] [o|]]|]; try reflexivity;
        cbn; replace (BList o) with (BList (map (py_str repr) (map JStr o)))
          by (by rewrite py_strs); reflexivity.
  - destruct (b_jira b), (b_confluence b), (b_github b), (b_slack b); cbn [option_map field app map fst];
      apply (bool_decide_unpack _); vm_compute; exact I.
Qed.

Lemma check_schedule_strs repr valid reports l :
  (∀ k c, (k, c) ∈ l → k ∈ reports ∧ valid c = true) →
  check_schedule repr valid reports (map (λ kv, (fst kv, JStr (snd kv))) l) = inr l.
Proof.
  induction l as [|[k c] l IH]; intros H; cbn; [done|].
  destruct (H k c) as [Hk Hc]; [by left|]. rewrite (proj2 (memb_spec _ _) Hk), Hc. cbn.
  rewrite IH; [done|]. intros; apply H; by right.
Qed.

(** The server has the pack the wizard was shown, under the same name and with its kinds. *)
Definition pack_known (domains : list jsstr) (pack_report_kinds : jsstr → option (list jsstr))
    (p : Pack) : Prop :=
  pk_id p ∈ domains ∧ strip (pk_id p) = pk_id p ∧ pk_id p ≠ [] ∧
  ∃ kinds, pack_report_kinds (pk_id p) = Some kinds ∧ ∀ k, k ∈ pk_report_kinds p → k ∈ kinds.

Lemma str_or_get repr spec k d s :
  json_get k spec = Some (JStr s) → s ≠ [] → str_or repr spec k d = s.
Proof. intros H Hs. unfold str_or. rewrite H. cbn. by rewrite (proj2 (truthy_spec s) Hs). Qed.

Lemma spec_fields sp :
  json_get "id" (spec_json sp) = Some (JStr (sp_id sp)) ∧
  json_get "name" (spec_json sp) = Some (JStr (sp_name sp)) ∧
  json_get "domain" (spec_json sp) = Some (JStr (sp_domain sp)) ∧
  json_get "reports" (spec_json sp) = Some (jstrs (sp_reports sp)) ∧
  json_get "schedule" (spec_json sp) = Some (jobj (sp_schedule sp)) ∧
  json_get "bindings" (spec_json sp) = Some (bindings_json (sp_bindings sp)) ∧
  json_get "persona" (spec_json sp) = option_map JStr (sp_persona sp) ∧
  json_get "web_search" (spec_json sp) = option_map JBool (sp_web_search sp).
Proof. unfold spec_json. destruct (sp_persona sp), (sp_web_search sp); split_and!; reflexivity. Qed.

(** The server builds from a valid spec the document it describes. *)
Lemma build_of_spec repr valid domains kinds builders template p sp :
  spec_ok p sp → pack_known domains kinds p →
  (∀ k c, (k, c) ∈ sp_schedule sp → valid c = true) → builders template (doc_of sp) = None →
  build_profile_doc repr valid domains kinds builders (Some template) (spec_json sp) =
    inr (sp_id sp, template, doc_of sp, sp_persona sp).
Proof.
  intros [Hid Hname Hdom Hrep Hsch Hkeys Hper] (Hd & Hstrip & Hne & ks & Hks & Hsub) Hcron Hb.
  destruct (spec_fields sp) as (Ei & En & Ed & Er & Es & Eb & Ep & Ew).
  assert (sp_id sp ≠ []) as Hid' by (by destruct (ID_PATTERN_chars _ Hid)).
  rewrite <- Hdom in Hd, Hstrip, Hne, Hks.
  unfold build_profile_doc. rewrite (str_or_get repr _ _ _ _ Ei Hid').
  unfold AGENT_ID_RE. rewrite Hid. cbn [negb orb].
  rewrite (str_or_get repr _ _ _ _ Ed Hne), Hstrip. unfold js_or.
  rewrite (proj2 (truthy_spec _) Hne), (proj2 (memb_spec _ _) Hd). cbn [negb]. rewrite Hks.
  assert (py_iter (get_or (spec_json sp) "reports" (JArr [])) = Some (map JStr (sp_reports sp))) as ->
    by (unfold get_or; rewrite Er; by destruct (sp_reports sp)).
  rewrite py_strs, filter_none.
  2:{ intros k Hk. by rewrite (proj2 (memb_spec _ _) (Hsub k (Hrep k Hk))). }
  assert (get_or (spec_json sp) "schedule" (JObj []) = jobj (sp_schedule sp)) as ->
    by (unfold get_or; rewrite Es; by destruct (sp_schedule sp)).
  unfold jobj. rewrite dict_of_id by (by rewrite map_map).
  rewrite check_schedule_strs by (intros k c Hin; split; [by eapply Hsch|by eapply Hcron]).
  assert (get_or (spec_json sp) "bindings" (JObj []) = bindings_json (sp_bindings sp)) as ->.
  { unfold get_or. rewrite Eb. unfold bindings_json. by destruct (_ ++ _). }
  rewrite bindings_applied, (str_or_get repr _ _ _ _ En Hname).
  assert (match json_get "web_search" (spec_json sp) with Some v => py_truthy v | None => false end =
          match sp_web_search sp with Some b => b | None => false end) as ->
    by (rewrite Ew; by destruct (sp_web_search sp)).
  unfold doc_of in Hb. rewrite Hb. unfold str_or. rewrite Ep.
  destruct (sp_persona sp) as [[|c s]|]; done.
Qed.

(** The files of a profile whose texts have an encoding are all written. *)
Lemma profile_files_encode text soul :
  is_Some (code_points text) → (∀ s, soul = Some s → is_Some (code_points s)) →
  Forall (λ kv, is_Some (code_points kv.2)) (profile_files text soul).
Proof.
  intros Ht Hs. unfold profile_files. repeat constructor; cbn [snd]; [done| |by eexists..].
  destruct soul as [soul|]; [destruct (truthy _); [by apply Hs|]|]; by eexists.
Qed.

Lemma scaffold_done id text soul d :
  is_Some (code_points text) → (∀ s, soul = Some s → is_Some (code_points s)) →
  dk_profiles d !! id = None →
  scaffold_profile_dir no_faults id text soul d =
    (None, {| dk_profiles := <[id := list_to_map (profile_files text soul)]> (dk_profiles d);
              dk_registry := dk_registry d |}).
Proof.
  intros Ht Hs Hn. pose proof (scaffold_spec no_faults id text soul d) as H. revert H.
  pose proof (profile_files_encode text soul Ht Hs) as Hf. revert Hf.
  unfold scaffold_profile_dir. generalize (profile_files text soul). intros files Hf.
  rewrite bool_decide_false by (by rewrite Hn; intros []). cbn [ft_mkdir no_faults].
  pose proof (write_all_encodes id files (with_profiles (insert id ∅) d) Hf) as Hw.
  destruct (write_all _ _ _ _) as [r d']. cbn in Hw. subst r. cbn.
  intros (Hr & _ & Hd). by rewrite <- (disk_eta d'), Hr, Hd.
Qed.

(** What the server has to grant a valid spec: the parser takes its cron strings and the builders
    its document over the default template; the profile's text and the persona can be encoded; the
    id is free, in the profiles and in the registry, which loads, also with the entry. *)
Record grants (valid : jsstr → bool) (builders : jsstr → profile_doc → option jsstr)
    (safe_dump : jsstr → profile_doc → jsstr) (yaml_load : jsstr → jsstr + json)
    (sp : CreateAgentSpec) (d : disk) (template old : jsstr) : Prop := {
  gr_crons : ∀ k c, (k, c) ∈ sp_schedule sp → valid c = true;
  gr_template :
    dk_profiles d !! ("default" : jsstr) ≫= (λ files, files !! ("profile.yaml" : jsstr)) = Some template;
  gr_builders : builders template (doc_of sp) = None;
  gr_text : is_Some (code_points (safe_dump template (doc_of sp)));
  gr_persona : ∀ s, sp_persona sp = Some s → is_Some (code_points s);
  gr_free : dk_profiles d !! sp_id sp = None;
  gr_registry : dk_registry d = Some old;
  gr_unlisted : ∃ es, parse_registry yaml_load old = inr es ∧ sp_id sp ∉ map re_id es;
  gr_appends : ∃ es, parse_registry yaml_load (with_entry old (sp_id sp)) = inr es ∧
    {| re_id := sp_id sp; re_enabled := true |} ∈ es }.

(** The agent the server creates is the one on the wizard's form. *)
Lemma posted_creates (w : wizard_world) n sp repr valid domains kinds builders safe_dump yaml_load d
    template old :
  reachable any w → issues any w (PostAgent n sp) →
  (∀ p, ws_pack (wd_state (w_state w)) = Some p → pack_known domains kinds p) →
  grants valid builders safe_dump yaml_load sp d template old →
  sp = buildSpec (wd_state (w_state w)) ∧
  create_agent_on repr valid domains kinds builders no_faults safe_dump yaml_load (spec_json sp) d =
    (inr {| cr_id := ws_id (wd_state (w_state w)); cr_domain := sp_domain sp; cr_reports := sp_reports sp |},
     {| dk_profiles :=
          <[sp_id sp := list_to_map (profile_files (safe_dump template (doc_of sp)) (sp_persona sp))]>
            (dk_profiles d);
        dk_registry := Some (with_entry old (sp_id sp)) |}).
Proof.
  intros Hw Hi Hp [Hc Ht Hb Hx Hs Hnp Hr (es & Hl & Hnr%unlisted_id) (es' & Hl' & Hin%has_entry_spec)].
  destruct (post_is_valid w n sp Hw Hi) as (Hsp & Hid & _ & p & Hpk & Hok).
  split; [done|]. unfold create_agent_on. rewrite Ht.
  rewrite (build_of_spec repr valid domains kinds builders template p sp) by auto.
  rewrite Hnp, bool_decide_false by (by intros []).
  rewrite Hr. unfold load_registry. rewrite Hl, Hnr, scaffold_done by done.
  cbn [dk_registry dk_profiles]. rewrite Hr. unfold append_registry, replace_validated.
  cbn [no_faults ft_registry ft_swap]. by rewrite Hl', Hin, Hid.
Qed.

(** ** Witnesses *)

Definition review_world : wizard_world := play to_review (init_world create_agent).
Definition review_spec : CreateAgentSpec := buildSpec (wd_state (w_state review_world)).
Definition review_kinds (domain : jsstr) : option (list jsstr) :=
  option_map pk_report_kinds (ws_pack (wd_state (w_state review_world))).
Definition no_error {A B} (_ : A) (_ : B) : option jsstr := None.

(** A disk with the default profile, and its registry, in the text the server writes. *)
Definition demo_template : jsstr := cat ["name: default"; [10]].
Definition demo_dump (template : jsstr) (doc : profile_doc) : jsstr :=
  cat [template; "domain: "; pd_domain doc; [10]].
Definition demo_registry : jsstr := with_entry (cat ["agents:"; [10]]) "default".
Definition entry_json (id : jsstr) : json := JObj [("id" : jsstr, JStr id); ("enabled" : jsstr, JBool true)].
Definition demo_yaml (text : jsstr) : jsstr + json :=
  let agents l : json := JObj [("agents" : jsstr, JArr (map entry_json l))] in
  if bool_decide (text = demo_registry) then inr (agents ["default" : jsstr])
  else if bool_decide (text = with_entry demo_registry (sp_id review_spec))
  then inr (agents ["default" : jsstr; sp_id review_spec])
  else inl "not a text of the demo".
Definition demo_disk : disk :=
  {| dk_profiles := {["default" : jsstr := {["profile.yaml" : jsstr := demo_template]}]};
     dk_registry := Some demo_registry |}.

(** The registry refuses an entry for a file of another indent. *)
Example odd_indent_refused :
  append_registry (λ t, if bool_decide (t = "agents:") then inr (JObj []) else inl "bad indent")
    None None (Some ("agents:" : jsstr)) "lan" = inl (NotYaml "bad indent").
Proof. reflexivity. Qed.

Lemma demo_grants : grants (λ _, true) no_error demo_dump demo_yaml review_spec demo_disk
  demo_template demo_registry.
Proof.
  split.
  - intros; reflexivity.
  - vm_compute. reflexivity.
  - reflexivity.
  - eexists. vm_compute. reflexivity.
  - assert (sp_persona review_spec = Some ("# SOUL" : jsstr)) as -> by (vm_compute; reflexivity).
    intros s [= <-]. eexists. vm_compute. reflexivity.
  - vm_compute. reflexivity.
  - reflexivity.
  - eexists. split; [vm_compute; reflexivity|]. apply (bool_decide_unpack _). vm_compute. exact I.
  - eexists. split; [vm_compute; reflexivity|]. apply (bool_decide_unpack _). vm_compute. exact I.
Qed.

(** A spec with another persona. *)
Definition spec_persona (sp : CreateAgentSpec) (persona : option jsstr) : CreateAgentSpec :=
  {| sp_id := sp_id sp; sp_name := sp_name sp; sp_domain := sp_domain sp; sp_reports := sp_reports sp;
     sp_schedule := sp_schedule sp; sp_bindings := sp_bindings sp; sp_persona := persona;
     sp_web_search := sp_web_search sp |}.

(** The persona typed as one half of a surrogate pair. *)
Example orphan_left_example :
  let spec := spec_json (spec_persona review_spec (Some [55296])) in
  let create := create_agent_on (λ _, []) (λ _, true) [sp_domain review_spec] review_kinds no_error no_faults
                  demo_dump demo_yaml in
  let '(answer, d) := create spec demo_disk in
  create_status answer = 500 ∧ create_status (fst (create (spec_json review_spec) d)) = 409.
Proof. vm_compute. split; reflexivity. Qed.
