(* ===== verification/Wire.v ===== *)
(** From the screen to the server: what a component requests, as a call of the client
    (api/client.ts), the HTTP request the call becomes, the route of the server that takes it
    (src/server/app.py and the routers), and the body the handler reads.  The theorems follow an
    approval and the creation of an agent along the whole way. *)

From S2P Require Import Prelude JsNumber React Types Labels Json ApiClient Server EnvFile Registry.
From S2P Require Import Behaviour Wizard WizardView AgentSpec Work.

(** ** Requests as calls *)

(** [api.approve(item.agentId, item.id)] and [api.reject(...)] of the work page. *)
Definition op_call (k : op) (agentId : jsstr) (id : Z) : call :=
  match k with OpApprove => approve agentId id | OpReject => reject agentId id end.

(** [api.createAgent(spec)] of the review step. *)
Definition create_call (sp : CreateAgentSpec) : call := createAgent sp.

(** The JSON the handler of a call reads. *)
Definition body_read (c : call) : option json :=
  rq ← route c; t ← body_text rq; json_parse t.

(** ** Theorems *)

Lemma op_routed k a i : ∃ rq, route (op_call k a i) = Some rq.
Proof. destruct k; eexists; reflexivity. Qed.

Lemma create_body sp : json_ok (spec_json sp) → body_read (create_call sp) = Some (spec_json sp).
Proof. intros H. exact (parse_text _ H). Qed.

Section Approval.
Context {loc : Locale} (today : jsstr) (listed : jsstr → ApprovalItem → Prop).

(** A decision on an approval that was listed, followed to the handler. *)
Lemma op_arrives {F : Framework} (w : world (work_page today)) k a i :
  (∀ id p, listed id p → clean_id id ∧ 0 ≤ ai_id p ≤ MAX_SAFE) →
  reachable (lists_only today listed) w → issues (lists_only today listed) w (SendOp k a i) →
  ∃ it rq, listed a it ∧ ai_id it = i ∧
    (k = OpApprove → ∃ t, flat_map (texts_in "pre") (Work (w_state w)) = [t] ∧
       t = json_pretty 0 (ai_action it) ∧ (json_ok (ai_action it) → json_parse t = Some (ai_action it))) ∧
    route (op_call k a i) = Some rq ∧
    fw_dispatch fastapi_app (rq_method rq) (url_path (rq_path rq)) =
      Some (match k with OpApprove => ops_approve | OpReject => ops_reject end, [a; z_str i]) ∧
    fw_int (z_str i) = Some i.
Proof.
  intros Hl Hw Hi. destruct (work_issues today listed w k a i Hw Hi) as (it & Hk & <- & <- & _ & Hc).
  destruct (Hl _ _ Hk) as [Hid Hnum]. destruct (op_routed k (aa_agentId it) (ai_id (aa_item it))) as [rq Hrq].
  exists (aa_item it), rq. split; [exact Hk|]. split; [done|]. split; [|split; [done|split]].
  - intros ->. exists (json_pretty 0 (ai_action (aa_item it))).
    split; [by rewrite texts_in_work, Hc|split; [done|intros Hok; by apply parse_pretty]].
  - rewrite (call_reaches _ rq Hrq); [rewrite <- id_text_exact by lia; by destruct k|].
    destruct k; (constructor; [exact Hid|constructor]).
  - apply fw_decimal; lia.
Qed.

(** An approval, from the dialog to the handler.  If the server lists approvals only under
    agent ids that are clean in a path and with numbers that are not negative and exact in a
    double, then whatever the work page
    has received and been told: when it sends an approval, that approval was listed for that
    agent; the one detail text on the page reads back as its action; and the request arrives, under
    any framework that dispatches by the documented rules, at the handler that approves, with
    this agent's id and a number that reads as this approval's.  A rejection arrives at the
    handler that rejects in the same way. *)
Theorem approval_arrives {F : Framework} (w : world (work_page today)) k a i :
  (∀ id p, listed id p → clean_id id ∧ 0 ≤ ai_id p ≤ MAX_SAFE) →
  reachable (lists_only today listed) w → issues (lists_only today listed) w (SendOp k a i) →
  ∃ it rq, listed a it ∧ ai_id it = i ∧
    (k = OpApprove → ∃ t, flat_map (texts_in "pre") (Work (w_state w)) = [t] ∧
       t = json_pretty 0 (ai_action it) ∧ (json_ok (ai_action it) → json_parse t = Some (ai_action it))) ∧
    route (op_call k a i) = Some rq ∧
    fw_dispatch fastapi_app (rq_method rq) (url_path (rq_path rq)) =
      Some (match k with OpApprove => ops_approve | OpReject => ops_reject end, [a; z_str i]) ∧
    fw_int (z_str i) = Some i.
Proof. apply op_arrives. Qed.
End Approval.

(** The text of the review step. *)
Lemma review_shown w r :
  wd_local w = LReview r →
  json_pretty 0 (spec_json (buildSpec (wd_state w))) ∈ flat_map (texts_in "pre") (CreateAgent w).
Proof.
  intros Hr. unfold CreateAgent. rewrite texts_in_cons, texts_in_other by done.
  rewrite !flat_map_app. unfold step_view. rewrite Hr. unfold ReviewStep.
  rewrite !elem_of_app. left. right. left.
  rewrite texts_in_cons, texts_in_other by done. rewrite !flat_map_app, !elem_of_app. left. left.
  rewrite !texts_in_cons, texts_in_same, !elem_of_app. right. left.
  unfold text_all. cbn [map concat text_of]. rewrite app_nil_r. by left.
Qed.

(** C2: A new agent, from the form to the disk.  Whenever the wizard posts, and the server grants
    what was posted: it has the selected pack, the parser takes the cron strings, the default
    template is there and the builders take the document over it, its dump and the persona can be
    encoded, no profile and no entry has the id, the registry loads, with the new entry too, and
    no system call fails.  Then (the numbers of the body read back) the page shows a text that, read
    as JSON, is the very body the handler of the creation reads; and what the handler does with
    that body is to make one directory, named by the id, with the four files of a profile: the
    dump of the document with the form's name, domain, reports, schedule, bindings and web-search
    flag, the form's persona (the placeholder for a blank one) and the two other placeholders; to
    put the block of the enabled agent at the end of the registry's text; and to answer with the
    id, domain and reports of the form. *)
Theorem creation_arrives {F : Framework} (w : wizard_world) n sp repr valid domains kinds builders
    safe_dump yaml_load d template old :
  reachable any w → issues any w (PostAgent n sp) → json_ok (spec_json sp) →
  (∀ p, ws_pack (wd_state (w_state w)) = Some p → pack_known domains kinds p) →
  grants valid builders safe_dump yaml_load sp d template old →
  ∃ t rq v, t ∈ flat_map (texts_in "pre") (CreateAgent (w_state w)) ∧ json_parse t = Some v ∧
    route (create_call sp) = Some rq ∧ body_read (create_call sp) = Some v ∧
    fw_dispatch fastapi_app (rq_method rq) (url_path (rq_path rq)) = Some (admin_post_create_agent, []) ∧
    create_agent_on repr valid domains kinds builders no_faults safe_dump yaml_load v d =
      (inr {| cr_id := ws_id (wd_state (w_state w)); cr_domain := sp_domain sp;
              cr_reports := sp_reports sp |},
       {| dk_profiles :=
            <[sp_id sp := list_to_map (profile_files (safe_dump template (doc_of sp)) (sp_persona sp))]>
              (dk_profiles d);
          dk_registry := Some (with_entry old (sp_id sp)) |}).
Proof.
  intros Hw Hi Hok Hp Hg.
  destruct (post_from_review w n sp Hw Hi) as ((r & Hr) & Esp & _).
  exists (json_pretty 0 (spec_json sp)). eexists _, (spec_json sp).
  split; [rewrite Esp; by eapply review_shown|]. split; [by apply parse_pretty|].
  split; [reflexivity|]. split; [by apply create_body|]. split.
  - apply (call_reaches (create_call sp) _ eq_refl). constructor.
  - by apply (posted_creates w n sp repr valid domains kinds builders safe_dump yaml_load d).
Qed.

(** ** Witnesses *)

Lemma approval_arrives_witness :
  let w := play to_dialog (init_world (@work_page plain_locale "2025-01-01")) in
  ∃ it rq, demo_listed "pm" it ∧ ai_id it = 7 ∧
    (OpApprove = OpApprove → ∃ t, flat_map (texts_in "pre") (@Work plain_locale (w_state w)) = [t] ∧
       t = json_pretty 0 (ai_action it) ∧ (json_ok (ai_action it) → json_parse t = Some (ai_action it))) ∧
    route (op_call OpApprove "pm" 7) = Some rq ∧
    fw_dispatch (Framework := first_match_framework) fastapi_app (rq_method rq) (url_path (rq_path rq)) =
      Some (ops_approve, ["pm"; z_str 7]) ∧
    fw_int (Framework := first_match_framework) (z_str 7) = Some 7.
Proof.
  apply (@approval_arrives plain_locale "2025-01-01" demo_listed first_match_framework
    (play to_dialog (init_world (@work_page plain_locale "2025-01-01"))) OpApprove "pm" 7);
    [|exact to_dialog_reachable|exact approval_issued].
  intros id p [-> ->]. split; [split; [repeat constructor|by split]|].
  apply (bool_decide_unpack _). vm_compute. exact I.
Defined.

Lemma creation_arrives_witness :
  ∃ t rq v, t ∈ flat_map (texts_in "pre") (CreateAgent (w_state review_world)) ∧
    json_parse t = Some v ∧
    route (create_call review_spec) = Some rq ∧ body_read (create_call review_spec) = Some v ∧
    fw_dispatch (Framework := first_match_framework) fastapi_app (rq_method rq) (url_path (rq_path rq)) =
      Some (admin_post_create_agent, []) ∧
    create_agent_on (λ _, []) (λ _, true) [sp_domain review_spec] review_kinds no_error no_faults
        demo_dump demo_yaml v demo_disk =
      (inr {| cr_id := ws_id (wd_state (w_state review_world)); cr_domain := sp_domain review_spec;
              cr_reports := sp_reports review_spec |},
       {| dk_profiles :=
            <[sp_id review_spec :=
                list_to_map (profile_files (demo_dump demo_template (doc_of review_spec))
                               (sp_persona review_spec))]> (dk_profiles demo_disk);
          dk_registry := Some (with_entry demo_registry (sp_id review_spec)) |}).
Proof.
  apply (creation_arrives (F := first_match_framework) review_world 4%nat review_spec (λ _, [])
    (λ _, true) [sp_domain review_spec] review_kinds no_error demo_dump demo_yaml).
  - exact to_review_reachable.
  - apply (issues_event (C := create_agent) any _ Create); [fires_nth 1%nat|]. vm_compute. left.
  - apply json_ok_tested. vm_compute. reflexivity.
  - intros p Hp. assert (review_kinds (pk_id p) = Some (pk_report_kinds p)) as Hk
      by (unfold review_kinds; by rewrite Hp).
    split_and!; [| | |exists (pk_report_kinds p); exact (conj Hk (λ k H, H))];
      vm_compute in Hp; injection Hp as <-;
      [apply (bool_decide_unpack _); vm_compute; exact I|vm_compute; reflexivity|discriminate].
  - exact demo_grants.
Defined.
