(* ===== verification/Custody.v ===== *)
(** The chain of custody of an approved action: from the row an agent queued, over the list the
    server answers with, the page of the operator and the request that is sent, to the action that
    an executor carries out, while other calls are at work on the same stores. *)

From S2P Require Import Prelude JsNumber React Types Labels Json ApiClient Server Python Policy.
From S2P Require Import Gateway Guards Outcomes Work Wire.

Section Rows.
Context {P : Python}.
Context (digest : json → jsstr).

(** A row never changes but for its status, whatever is at work. *)
Lemma row_kept_step s s' id r :
  site_step digest s s' → row id (si_vault s) = Some r →
  ∃ r', row id (si_vault s') = Some r' ∧ same_row r r'.
Proof.
  intros [m ->] Hr. destruct (take_step_cases digest m s) as [(c & ->)|[->|(n & i & t & o & k & _ & _ & ->)]].
  - by exists r.
  - by exists r.
  - by apply row_kept.
Qed.

Lemma row_kept_steps s s' id r :
  rtc (site_step digest) s s' → row id (si_vault s) = Some r →
  ∃ r', row id (si_vault s') = Some r' ∧ same_row r r'.
Proof.
  intros Hs. revert r. induction Hs as [s|s s1 s' H1 _ IH]; intros r Hr; [by exists r|].
  destruct (row_kept_step s s1 id r H1 Hr) as (r1 & Hr1 & E1).
  destruct (IH r1 Hr1) as (r2 & Hr2 & E2). exists r2. split; [done|]. by eapply same_row_trans.
Qed.

Lemma at_work_steps s s' : at_work digest s → rtc (site_step digest) s s' → at_work digest s'.
Proof. intros H1 H2. by eapply rtc_trans. Qed.

Lemma row_bound id v r : row id v = Some r → id ≤ Z.of_nat (length (va_rows v)).
Proof.
  unfold row, row_index. destruct (1 <=? id) eqn:E; cbn; [|done]. intros H%lookup_lt_Some. lia.
Qed.

(** The entry of [_pending_json] for a row. *)
Definition item_of (r : approval) : ApprovalItem :=
  {| ai_id := ap_id r; ai_reason := ap_reason r; ai_status := status_text (ap_status r);
     ai_created_at := ap_created_at r; ai_action := ap_action r |}.

(** What [list_approvals] answers, on these stores. *)
Definition pending_json (v : vault) : list ApprovalItem := map item_of (List.filter is_pending (va_rows v)).

Lemma pending_row s p :
  at_work digest s → (∀ a, is_slot (digest a) = false) → p ∈ pending_json (si_vault s) →
  ∃ r, row (ai_id p) (si_vault s) = Some r ∧ p = item_of r ∧ 1 ≤ ai_id p.
Proof.
  intros Hw Hd Hp. destruct (at_work_guarded digest Hd s Hw) as (_ & _ & Hn & _).
  apply list_elem_of_fmap in Hp as (r & -> & Hr).
  apply list_elem_of_In, filter_In in Hr as [Hr%list_elem_of_In _].
  apply list_elem_of_lookup_1 in Hr as [n Hr].
  assert (row (Z.of_nat n + 1) (si_vault s) = Some r) as Hrow.
  { unfold row, row_index. rewrite (proj2 (Z.leb_le _ _)) by lia. cbn.
    replace (Z.to_nat (Z.of_nat n + 1 - 1)) with n by lia. done. }
  pose proof (Hn _ _ Hrow) as Hid. exists r. cbn [ai_id item_of]. rewrite Hid. split; [done|]. split; [done|lia].
Qed.
End Rows.

(** From [s] on, whatever is carried out under the approval [i] is the action [v], off the red line
    and with writes enabled, and it succeeds at most once. *)
Definition only_runs {P : Python} (digest : json → jsstr) (s : site) (i : Z) (v : json) : Prop :=
  ∀ s', rtc (site_step digest) s s' →
    (∀ ca, ca ∈ si_carried s' → approves ca = Some i →
       ca_action ca = v ∧
       ∃ g d, ca_call ca = CallApprove g i d ∧ writes_on g ∧ cleared g (ca_action ca) (ca_hold ca) ∧
         d (ca_action ca) = inr (ca_executor ca)) ∧
    (∀ m n ca ca', si_carried s' !! m = Some ca → si_carried s' !! n = Some ca' →
       succeeded ca = true → succeeded ca' = true → approves ca = Some i → approves ca' = Some i → m = n).

(** The runs of a row. *)
Lemma row_runs {P : Python} digest (Hd : ∀ a, is_slot (digest a) = false) s i r :
  at_work digest s → row i (si_vault s) = Some r → only_runs digest s i (ap_action r).
Proof.
  intros Hw Hr s' Hs. pose proof (at_work_guarded digest Hd s' (at_work_steps digest s s' Hw Hs)) as Hg.
  destruct (row_kept_steps digest s s' i r Hs Hr) as (r' & Hr' & E). split.
  - intros ca Hca Ha. pose proof Hca as [n Hn]%list_elem_of_lookup_1.
    destruct (approved_row digest s' n ca i Hg Hn Ha) as (_ & r2 & Hr2 & Ea).
    split; [destruct E as (_ & E & _); congruence|].
    destruct Hg as (_ & H & _). destruct (H ca Hca) as [(Hau & _) _].
    unfold approves in Ha. destruct (ca_call ca) as [| | |g id' d|]; try done. injection Ha as ->.
    exists g, d. destruct Hau as (_ & ? & ? & ? & _). by split_and!.
  - intros m n ca ca' Hm Hn Hs1 Hs2 Ha Ha'. by eapply (approved_apart digest s' m n ca ca' i).
Qed.

Section Custody.
Context {P : Python} {loc : Locale} {F : Framework}.
Context (digest : json → jsstr) (digest_no_slot : ∀ a, is_slot (digest a) = false).
Context (today : jsstr).
(** The agents by id, each with its stores as they are at the moment of the decision. *)
Context (now : jsstr → option site).

(** The server lists for an agent what was pending in its stores at some earlier moment. *)
Definition listed_before (a : jsstr) (p : ApprovalItem) : Prop :=
  ∃ s s', now a = Some s' ∧ at_work digest s ∧ rtc (site_step digest) s s' ∧ p ∈ pending_json (si_vault s).

Lemma listed_sound :
  (∀ id s, now id = Some s → clean_id id ∧ Z.of_nat (length (va_rows (si_vault s))) ≤ MAX_SAFE) →
  ∀ id p, listed_before id p → clean_id id ∧ 0 ≤ ai_id p ≤ MAX_SAFE.
Proof.
  intros Hid id p (s0 & s & Hnow & Hw & Hs & Hp). destruct (Hid id s Hnow) as [Hc Hm].
  destruct (pending_row digest s0 p Hw digest_no_slot Hp) as (r & Hr & _ & H1).
  destruct (row_kept_steps digest s0 s _ r Hs Hr) as (r' & Hr' & _).
  split; [done|]. pose proof (row_bound _ _ _ Hr'). lia.
Qed.

(** C1: What the operator reads is what runs.  Let the server answer with what was pending in the
    agents' stores at any earlier moment, however late the answers come, and let the page have
    received anything else.  When it sends an approval, the one detail text on the page is the JSON
    text of a whole action, and the agent's stores have a row of this number with exactly that
    action; the text names it: parsing it gives the action back (if its strings are of UTF-16 units
    and its numbers are doubles that their texts name).  The request arrives at the handler that
    approves, with this agent and this number; and from then on, whatever calls are at work on the
    stores, in whatever order: every action carried out under this approval is the row's, is not on
    the red line, was carried out with writes enabled, and has succeeded at most once.  (The ids of
    agents are clean in a path, and the numbers of rows are exact in a double.) *)
Theorem approved_as_shown (w : world (work_page today)) a i :
  (∀ id s, now id = Some s → clean_id id ∧ Z.of_nat (length (va_rows (si_vault s))) ≤ MAX_SAFE) →
  reachable (lists_only today listed_before) w →
  issues (lists_only today listed_before) w (SendOp OpApprove a i) →
  ∃ s r rq,
    now a = Some s ∧ row i (si_vault s) = Some r ∧
    flat_map (texts_in "pre") (Work (w_state w)) = [json_pretty 0 (ap_action r)] ∧
    (json_ok (ap_action r) → json_parse (json_pretty 0 (ap_action r)) = Some (ap_action r)) ∧
    route (op_call OpApprove a i) = Some rq ∧
    fw_dispatch fastapi_app (rq_method rq) (url_path (rq_path rq)) = Some (ops_approve, [a; z_str i]) ∧
    fw_int (z_str i) = Some i ∧
    only_runs digest s i (ap_action r).
Proof.
  intros Hid Hw Hi.
  destruct (op_arrives today listed_before w OpApprove a i) as (it & rq & Hl & Hit & Ht & Hrq & Hd & Hn);
    [by apply listed_sound|done|done|].
  destruct Hl as (s0 & s & Hnow & Hw0 & Hs & Hp).
  destruct (pending_row digest s0 it Hw0 digest_no_slot Hp) as (r0 & Hr0 & -> & _).
  cbn [ai_id item_of] in Hit, Hr0. rewrite Hit in Hr0.
  destruct (row_kept_steps digest s0 s i r0 Hs Hr0) as (r & Hr & E).
  assert (ap_action r = ap_action r0) as Ea by (by destruct E as (_ & E & _)).
  destruct (Ht eq_refl) as (t & Hpre & -> & Hparse). cbn [ai_action item_of] in Hpre, Hparse.
  exists s, r, rq. rewrite Ea. split_and!; try done. rewrite <- Ea.
  apply row_runs; [done|by eapply (at_work_steps digest s0)|done].
Qed.
End Custody.

(** ** Witness *)

(** The stores of the demo agent, with the e-mail waiting. *)
Definition waiting_site : site :=
  moves demo_digest (Start (CallExecute (demo_gateway 0) (Some mailer) (mail "Hi") "report") :: goes_on 0 3)
    empty_site.
Definition demo_now (a : jsstr) : option site :=
  if bool_decide (a = "pm"%js) then Some waiting_site else None.
Definition waiting_item : ApprovalItem :=
  {| ai_id := 1; ai_reason := "Lớp B: gửi email cần người duyệt"; ai_status := "pending";
     ai_created_at := "now";
     ai_action := mail "Hi" |}.
Lemma waiting_listed : pending_json (si_vault waiting_site) = [waiting_item].
Proof. vm_compute. reflexivity. Qed.
Lemma waiting_listed_before : listed_before demo_digest demo_now "pm" waiting_item.
Proof.
  exists waiting_site, waiting_site. split; [reflexivity|]. split; [apply moves_steps|]. split; [apply rtc_refl|].
  rewrite waiting_listed. by left.
Qed.

Definition to_waiting : list (action demo_page) :=
  [Answer (C := demo_page) 0 (ListAgents Poll) (Ok [demo_agent]);
   Answer (C := demo_page) 3 (ListApprovals Poll ["pm"])
     (Ok [Ok {| apl_agent_id := "pm"; apl_pending := [waiting_item]; apl_approved := None; apl_rejected := None |}]);
   React.Do (C := demo_page) (Review {| aa_agentId := "pm"; aa_item := waiting_item |})].
Definition waiting_world : world demo_page := play to_waiting (init_world demo_page).

Lemma to_waiting_reachable :
  reachable (@lists_only plain_locale "2025-01-01" (listed_before demo_digest demo_now)) waiting_world.
Proof.
  apply play_reachable; [apply reach_init|].
  split; [split; [reflexivity|exact I]|]. split; [split; [reflexivity|]|].
  - intros [|i] id x Hid Hx p Hp; [|by destruct i].
    injection Hid as <-. injection Hx as <-. apply list_elem_of_singleton in Hp as ->.
    apply waiting_listed_before.
  - split; [|exact I]. left.
    eapply (offers_nth _ 0); [vm_compute; reflexivity|reflexivity].
Qed.

Lemma approved_as_shown_witness :
  ∃ s r rq,
    demo_now "pm" = Some s ∧ row 1 (si_vault s) = Some r ∧
    flat_map (texts_in "pre") (@Work plain_locale (w_state waiting_world)) = [json_pretty 0 (ap_action r)] ∧
    (json_ok (ap_action r) → json_parse (json_pretty 0 (ap_action r)) = Some (ap_action r)) ∧
    route (op_call OpApprove "pm" 1) = Some rq ∧
    fw_dispatch (Framework := first_match_framework) fastapi_app (rq_method rq) (url_path (rq_path rq)) =
      Some (ops_approve, ["pm"; z_str 1]) ∧
    fw_int (Framework := first_match_framework) (z_str 1) = Some 1 ∧
    only_runs demo_digest s 1 (ap_action r).
Proof.
  apply (@approved_as_shown plain_python plain_locale first_match_framework demo_digest demo_digest_no_slot
    "2025-01-01" demo_now waiting_world "pm" 1).
  - intros id s. unfold demo_now. destruct (bool_decide_reflect (id = "pm"%js)) as [->|]; [|done].
    intros [= <-]. split; [apply (bool_decide_unpack _); vm_compute; exact I|vm_compute; discriminate].
  - exact to_waiting_reachable.
  - apply (issues_event (C := demo_page) _ _ Approve); [|vm_compute; left]. left.
    eapply (offers_nth _ 3); [vm_compute; reflexivity|reflexivity].
Defined.
