(* ===== verification/Team.v ===== *)
(** The team page (views/Team.tsx): the agents with their lifecycle controls, the one-click
    coordinator, the profiles that fell out of the registry, and the deletion dialog. *)

From stdpp Require Import relations.
From S2P Require Import Prelude JsNumber React Behaviour Types Labels.

Definition COORDINATOR_TEMPLATE_ROLE_ID : jsstr := "truong-phong".
Definition COORDINATOR_AGENT_ID : jsstr := "truong-phong".

(** ** State *)

Record team := {
  te_agents : list AgentSummary;
  te_orphans : list UnregisteredProfile;
  te_registering : option jsstr;
  te_statuses : gmap jsstr AgentStatus;
  te_loading : bool;
  te_error : option jsstr;
  te_busyId : option jsstr;
  te_opError : option jsstr;
  te_confirmingDelete : option jsstr;
  te_deletedNote : option jsstr;
  te_profileDisabledNotice : gmap jsstr bool;
  te_alerts : list TeamAlert;
  te_creating : bool;
  te_coordinatorId : option (option jsstr);        (* [None]: not loaded yet; [Some None]: null *)
  te_creatingCoordinator : bool;
  te_isHigh : bool                                 (* [useUiMode()] *)
}.

Inductive team_event :=
| GoCreate
| CreateCoordinator
| ToggleEnabled (a : AgentSummary)
| AskDelete (id : jsstr)
| ConfirmDelete (id : jsstr)
| CancelDelete
| RegisterOrphan (id : jsstr)
| ModeChanged (high : bool).

(** Who asked for the list of agents, and for the unregistered profiles. *)
Inductive agents_caller := LoadAll | AfterToggle.
Inductive orphans_caller := OnCount | AfterRegister.

Inductive team_req :=
| FetchAlerts
| FetchAgents (c : agents_caller)
| FetchStatus (id : jsstr)
| FetchCompany
| FetchOrphans (c : orphans_caller)
| AskOpsChat
| FetchTemplates
| PostCoordinator (sp : CreateAgentSpec)
| FetchCompanyFor (coordinator : jsstr)
| SaveCoordinator (name coordinator : jsstr) (cap : num)
| SetEnabled (id : jsstr) (enabled : bool)
| DeleteAgent (id : jsstr)
| RegisterProfile (id : jsstr)
| NavigateTo (path : jsstr)                        (* [navigate(path)] *)
| ReloadPage.                                      (* [window.location.reload()] *)

Definition team_resp (r : team_req) : Type :=
  match r with
  | FetchAlerts => TeamAlertsPayload
  | FetchAgents _ => list AgentSummary
  | FetchStatus _ => AgentStatus
  | FetchCompany | FetchCompanyFor _ | SaveCoordinator _ _ _ => CompanyPayload
  | FetchOrphans _ => UnregisteredProfilesPayload
  | AskOpsChat => OpsChatAvailable
  | FetchTemplates => StaffTemplatesPayload
  | PostCoordinator _ => CreateAgentResult
  | SetEnabled _ _ => EnabledResult
  | DeleteAgent _ => DeleteAgentResult
  | RegisterProfile _ | NavigateTo _ | ReloadPage => unit
  end.

(** ** Setters, one per group of cells a handler sets together *)

Definition put_agents (l : list AgentSummary) (s : team) : team :=
  {| te_agents := l; te_orphans := te_orphans s; te_registering := te_registering s;
     te_statuses := te_statuses s; te_loading := te_loading s; te_error := te_error s;
     te_busyId := te_busyId s; te_opError := te_opError s;
     te_confirmingDelete := te_confirmingDelete s; te_deletedNote := te_deletedNote s;
     te_profileDisabledNotice := te_profileDisabledNotice s; te_alerts := te_alerts s;
     te_creating := te_creating s; te_coordinatorId := te_coordinatorId s;
     te_creatingCoordinator := te_creatingCoordinator s; te_isHigh := te_isHigh s |}.

Definition put_orphans (l : list UnregisteredProfile) (registering : option jsstr) (s : team) : team :=
  {| te_agents := te_agents s; te_orphans := l; te_registering := registering;
     te_statuses := te_statuses s; te_loading := te_loading s; te_error := te_error s;
     te_busyId := te_busyId s; te_opError := te_opError s;
     te_confirmingDelete := te_confirmingDelete s; te_deletedNote := te_deletedNote s;
     te_profileDisabledNotice := te_profileDisabledNotice s; te_alerts := te_alerts s;
     te_creating := te_creating s; te_coordinatorId := te_coordinatorId s;
     te_creatingCoordinator := te_creatingCoordinator s; te_isHigh := te_isHigh s |}.

Definition put_load (loading : bool) (error : option jsstr) (s : team) : team :=
  {| te_agents := te_agents s; te_orphans := te_orphans s; te_registering := te_registering s;
     te_statuses := te_statuses s; te_loading := loading; te_error := error;
     te_busyId := te_busyId s; te_opError := te_opError s;
     te_confirmingDelete := te_confirmingDelete s; te_deletedNote := te_deletedNote s;
     te_profileDisabledNotice := te_profileDisabledNotice s; te_alerts := te_alerts s;
     te_creating := te_creating s; te_coordinatorId := te_coordinatorId s;
     te_creatingCoordinator := te_creatingCoordinator s; te_isHigh := te_isHigh s |}.

Definition put_op (busyId opError : option jsstr) (s : team) : team :=
  {| te_agents := te_agents s; te_orphans := te_orphans s; te_registering := te_registering s;
     te_statuses := te_statuses s; te_loading := te_loading s; te_error := te_error s;
     te_busyId := busyId; te_opError := opError;
     te_confirmingDelete := te_confirmingDelete s; te_deletedNote := te_deletedNote s;
     te_profileDisabledNotice := te_profileDisabledNotice s; te_alerts := te_alerts s;
     te_creating := te_creating s; te_coordinatorId := te_coordinatorId s;
     te_creatingCoordinator := te_creatingCoordinator s; te_isHigh := te_isHigh s |}.

Definition put_dialog (confirming note : option jsstr) (s : team) : team :=
  {| te_agents := te_agents s; te_orphans := te_orphans s; te_registering := te_registering s;
     te_statuses := te_statuses s; te_loading := te_loading s; te_error := te_error s;
     te_busyId := te_busyId s; te_opError := te_opError s;
     te_confirmingDelete := confirming; te_deletedNote := note;
     te_profileDisabledNotice := te_profileDisabledNotice s; te_alerts := te_alerts s;
     te_creating := te_creating s; te_coordinatorId := te_coordinatorId s;
     te_creatingCoordinator := te_creatingCoordinator s; te_isHigh := te_isHigh s |}.

Definition put_overlays (statuses : gmap jsstr AgentStatus) (notice : gmap jsstr bool)
    (alerts : list TeamAlert) (s : team) : team :=
  {| te_agents := te_agents s; te_orphans := te_orphans s; te_registering := te_registering s;
     te_statuses := statuses; te_loading := te_loading s; te_error := te_error s;
     te_busyId := te_busyId s; te_opError := te_opError s;
     te_confirmingDelete := te_confirmingDelete s; te_deletedNote := te_deletedNote s;
     te_profileDisabledNotice := notice; te_alerts := alerts;
     te_creating := te_creating s; te_coordinatorId := te_coordinatorId s;
     te_creatingCoordinator := te_creatingCoordinator s; te_isHigh := te_isHigh s |}.

Definition put_creating (creating high : bool) (s : team) : team :=
  {| te_agents := te_agents s; te_orphans := te_orphans s; te_registering := te_registering s;
     te_statuses := te_statuses s; te_loading := te_loading s; te_error := te_error s;
     te_busyId := te_busyId s; te_opError := te_opError s;
     te_confirmingDelete := te_confirmingDelete s; te_deletedNote := te_deletedNote s;
     te_profileDisabledNotice := te_profileDisabledNotice s; te_alerts := te_alerts s;
     te_creating := creating; te_coordinatorId := te_coordinatorId s;
     te_creatingCoordinator := te_creatingCoordinator s; te_isHigh := high |}.

Definition put_coordinator (id : option (option jsstr)) (creating : bool) (s : team) : team :=
  {| te_agents := te_agents s; te_orphans := te_orphans s; te_registering := te_registering s;
     te_statuses := te_statuses s; te_loading := te_loading s; te_error := te_error s;
     te_busyId := te_busyId s; te_opError := te_opError s;
     te_confirmingDelete := te_confirmingDelete s; te_deletedNote := te_deletedNote s;
     te_profileDisabledNotice := te_profileDisabledNotice s; te_alerts := te_alerts s;
     te_creating := te_creating s; te_coordinatorId := id;
     te_creatingCoordinator := creating; te_isHigh := te_isHigh s |}.

(** ** Handlers and continuations *)

(** [setAgents(l)], with the effect keyed on [agents.length]. *)
Definition setAgents (l : list AgentSummary) (s : team) : team * list team_req :=
  (put_agents l s,
   if Nat.eqb (length l) (length (te_agents s)) then [] else [FetchOrphans OnCount]).

Definition loadAgents (s : team) : team * list team_req :=
  (put_load true None s, [FetchAlerts; FetchAgents LoadAll]).

(** The specification [createCoordinator] posts for its template. *)
Definition coordinator_spec (t : StaffTemplate) : CreateAgentSpec :=
  {| sp_id := COORDINATOR_AGENT_ID; sp_name := tm_role t; sp_domain := tm_domain t;
     sp_reports := tm_reports t; sp_schedule := [];
     sp_bindings := {| b_jira := None; b_confluence := None; b_github := None; b_slack := None |};
     sp_persona := if truthy (trim (tm_persona t)) then Some (tm_persona t) else None;
     sp_web_search := None |}.

Definition find_template (l : list StaffTemplate) : option StaffTemplate :=
  List.find (λ t, bool_decide (tm_role_id t = COORDINATOR_TEMPLATE_ROLE_ID)) l.

(** The [catch] and [finally] of [createCoordinator]. *)
Definition coordinator_failed (e : thrown) (s : team) : team * list team_req :=
  (put_coordinator (te_coordinatorId s) false
     (put_op (te_busyId s) (Some (error_message e "tạo trưởng phòng thất bại")) s), []).

Definition set_notice (id : jsstr) (r : EnabledResult) (m : gmap jsstr bool) : gmap jsstr bool :=
  if er_enabled r && negb (er_effective_enabled r) then <[id := true]> m else delete id m.

Definition team_handle (e : team_event) (s : team) : team * list team_req :=
  match e with
  | GoCreate => (put_creating true (te_isHigh s) s, [AskOpsChat])
  | CreateCoordinator =>
      (put_coordinator (te_coordinatorId s) true (put_op (te_busyId s) None s), [FetchTemplates])
  | ToggleEnabled a =>
      (put_op (Some (as_id a)) None s, [SetEnabled (as_id a) (negb (as_enabled a))])
  | AskDelete id => (put_dialog (Some id) (te_deletedNote s) s, [])
  | ConfirmDelete id => (put_op (Some id) None s, [DeleteAgent id])
  | CancelDelete => (put_dialog None (te_deletedNote s) s, [])
  | RegisterOrphan id => (put_orphans (te_orphans s) (Some id) s, [RegisterProfile id])
  | ModeChanged h => (put_creating (te_creating s) h s, [])
  end.

Definition team_resume (r : team_req) : result (team_resp r) → team → team * list team_req :=
  match r return result (team_resp r) → team → team * list team_req with
  | FetchAlerts => λ a s,
      (match a with
       | Ok p => put_overlays (te_statuses s) (te_profileDisabledNotice s) (tap_alerts p) s
       | Err _ => s
       end, [])
  | FetchAgents LoadAll => λ a s,
      match a with
      | Ok l =>
          let '(s', reqs) := setAgents l s in
          (put_load false (te_error s') s', map (λ x, FetchStatus (as_id x)) l ++ reqs)
      | Err e => (put_load false (Some (error_message e "không tải được danh sách agent")) s, [])
      end
  | FetchAgents AfterToggle => λ a s,
      match a with
      | Ok l => let '(s', reqs) := setAgents l s in (put_op None (te_opError s') s', reqs)
      | Err e => (put_op None (Some (error_message e "thao tác thất bại")) s, [])
      end
  | FetchStatus id => λ a s,
      (match a with
       | Ok st => put_overlays (<[id := st]> (te_statuses s)) (te_profileDisabledNotice s) (te_alerts s) s
       | Err _ => s
       end, [])
  | FetchCompany => λ a s,
      (put_coordinator (Some match a with Ok c => co_coordinator_id c | Err _ => None end)
         (te_creatingCoordinator s) s, [])
  | FetchOrphans OnCount => λ a s,
      (put_orphans match a with Ok p => upp_profiles p | Err _ => [] end (te_registering s) s, [])
  | FetchOrphans AfterRegister => λ a s,
      match a with
      | Ok p => (put_orphans (upp_profiles p) None s, [ReloadPage])
      | Err e => (put_orphans (te_orphans s) None
                    (put_op (te_busyId s) (Some (error_message e "thêm thất bại")) s), [])
      end
  | AskOpsChat => λ a s,
      (put_creating false (te_isHigh s) s,
       [NavigateTo match a with
                   | Ok r => if oa_available r then "/chat?intent=create-agent" else "/create"
                   | Err _ => "/create"
                   end])
  | FetchTemplates => λ a s,
      match a with
      | Ok p =>
          match find_template (tp_templates p) with
          | Some t => (s, [PostCoordinator (coordinator_spec t)])
          | None => coordinator_failed
                      (JsError (cat ["không tìm thấy mẫu "; dq; COORDINATOR_TEMPLATE_ROLE_ID; dq])) s
          end
      | Err e => coordinator_failed e s
      end
  | PostCoordinator _ => λ a s,
      match a with
      | Ok c => (s, [FetchCompanyFor (cr_id c)])
      | Err e => coordinator_failed e s
      end
  | FetchCompanyFor id => λ a s,
      match a with
      | Ok c => (s, [SaveCoordinator (co_name c) id (co_team_task_cap_usd c)])
      | Err e => coordinator_failed e s
      end
  | SaveCoordinator _ id _ => λ a s,
      match a with
      | Ok _ => loadAgents (put_coordinator (Some (Some id)) false s)
      | Err e => coordinator_failed e s
      end
  | SetEnabled id _ => λ a s,
      match a with
      | Ok r => (put_overlays (te_statuses s) (set_notice id r (te_profileDisabledNotice s))
                   (te_alerts s) s, [FetchAgents AfterToggle])
      | Err e => (put_op None (Some (error_message e "thao tác thất bại")) s, [])
      end
  | DeleteAgent id => λ a s,
      match a with
      | Ok _ =>
          let '(s', reqs) := setAgents (List.filter (λ x, negb (bool_decide (as_id x = id))) (te_agents s)) s in
          (put_op None (te_opError s')
             (put_dialog None
                (Some (cat ["Đã xoá "; id; ". Hồ sơ agent được giữ lại để lưu trữ."]))
                (put_overlays (te_statuses s') (delete id (te_profileDisabledNotice s'))
                   (te_alerts s') s')), reqs)
      | Err e => (put_op None (Some (error_message e "xoá thất bại")) s, [])
      end
  | RegisterProfile _ => λ a s,
      match a with
      | Ok _ => (s, [FetchOrphans AfterRegister])
      | Err e => (put_orphans (te_orphans s) None
                    (put_op (te_busyId s) (Some (error_message e "thêm thất bại")) s), [])
      end
  | NavigateTo _ | ReloadPage => λ _ s, (s, [])
  end.

(** ** The view *)

Definition error_p {E} (o : option jsstr) : list (node E) :=
  match present o with
  | Some m => [El "p" [AStr "className" "error"] [Txt "Lỗi: "; Txt m]]
  | None => []
  end.

Definition alert_line (al : TeamAlert) : node team_event :=
  let high := match al_severity al with SevHigh => true | SevWarn => false end in
  El "p" [AStr "className" (if high then "error" else "muted")]
    [Txt (if high then "🔴" else "🟡"); Txt " "; El "strong" [] [Txt (al_agent_id al)]; Txt ": ";
     Txt (al_message al)].

Definition budget_text (status : option AgentStatus) : jsstr :=
  match status with
  | Some st => cat ["$"; to_fixed 2 (bu_spent (st_budget st)); " / $"; to_fixed 2 (bu_cap (st_budget st))]
  | None => "…"
  end.

(** The usage bar of the advanced mode. *)
Definition budget_bar (b : Budget) : node team_event :=
  let ratio := bu_ratio b in
  let percent := num_mul ratio (num_Z 100) in
  El "div" [AStr "className" "budget-bar";
            AStr "title" (cat [num_str (num_round percent); "% ngân sách"])] [
    El "span" [AStr "className" (if num_ge ratio (num_Z 1) then "budget-bar-fill over"
                                 else if num_ge ratio (num_ratio 8 10) then "budget-bar-fill warn"
                                 else "budget-bar-fill");
               AStr "style.width" (cat [num_str (num_min (num_Z 100) percent); "%"])] []].

Definition last_run_text (o : option RunEvent) : jsstr :=
  match o with
  | Some r => cat [labelFor KIND_LABEL (re_kind r); " · "; labelFor RUN_STATUS_LABEL (re_status r)]
  | None => "chưa chạy"
  end.

Definition busy_with (s : team) (id : jsstr) : bool := bool_decide (te_busyId s = Some id).

Definition agent_row (s : team) (a : AgentSummary) : node team_event :=
  let id := as_id a in
  let status := te_statuses s !! id in
  El "tr" [] [
    El "td" [AStr "data-label" "Mã"] [El "a" [AStr "href" (cat ["/agents/"; id])] [Txt id]];
    El "td" [AStr "data-label" "Tên"] [Txt (as_name a)];
    El "td" [AStr "data-label" "Trạng thái"] (
      Txt (if as_enabled a then "✓ bật" else "— tắt")
      :: when (default false (te_profileDisabledNotice s !! id))
           [El "div" [AStr "className" "error health-detail"]
              [Txt "Agent đang bị tắt trong hồ sơ — bật lại ở Nâng cao › Cấu hình"]]);
    El "td" [AStr "data-label" "Lần chạy gần nhất"] [Txt (last_run_text (as_last_run a))];
    El "td" [AStr "data-label" "Ngân sách"] [
      El "div" [AStr "className" "budget-cell"] (
        El "span" [] [Txt (budget_text status)]
        :: match status with
           | Some st => when (te_isHigh s) [budget_bar (st_budget st)]
           | None => []
           end)];
    El "td" [AStr "data-label" "Chờ duyệt"]
      [Txt match status with Some st => z_str (st_pending_approvals st) | None => "…" end];
    El "td" [] (
      [El "button" [AStr "type" "button"; AStr "className" "btn"; ADisabled (busy_with s id);
                    AOn (OnClick (ToggleEnabled a))]
         [Txt (if as_enabled a then "Tạm dừng" else "Bật lại")];
       Txt " "]
      ++ when (negb (bool_decide (id = "default"%js)))
           [El "button" [AStr "type" "button"; AStr "className" "btn btn-danger";
                         ADisabled (busy_with s id); AOn (OnClick (AskDelete id))] [Txt "Xoá"]])].

Definition column_head (t : jsstr) : node team_event := El "th" [] [Txt t].

Definition agents_table (s : team) : node team_event :=
  El "table" [AStr "className" "agents-table"] [
    El "thead" [] [El "tr" [] (map column_head
      ["Mã"; "Tên"; "Trạng thái"; "Lần chạy gần nhất"; "Ngân sách"; "Chờ duyệt"; ""])];
    El "tbody" [] (map (agent_row s) (te_agents s))].

Definition orphan_item (s : team) (o : UnregisteredProfile) : node team_event :=
  let busy := bool_decide (te_registering s = Some (up_id o)) in
  El "li" [] (
    [El "strong" [] [Txt (up_id o)]; Txt " "]
    ++ when (negb (bool_decide (up_name o = up_id o))) [Txt (cat ["("; up_name o; ")"])]
    ++ [Txt " "]
    ++ when (truthy (up_domain o))
         [El "span" [AStr "className" "muted"] [Txt "— "; Txt (up_domain o)]]
    ++ [Txt " ";
        if up_valid o
        then El "button" [AStr "type" "button"; AStr "className" "btn-link"; ADisabled busy;
                          AOn (OnClick (RegisterOrphan (up_id o)))]
               [Txt (if busy then "Đang thêm…" else "Thêm vào đội")]
        else El "span" [AStr "className" "error"] [Txt "hồ sơ lỗi: "; Txt (nullish (up_error o) "")]]).

Definition delete_dialog (s : team) (id : jsstr) : node team_event :=
  El "div" [AStr "className" "confirm-dialog"; AStr "role" "dialog"; AStr "aria-modal" "true";
            AStr "aria-label" "Xác nhận xoá"] [
    El "h3" [] [Txt "Xoá agent "; Txt id; Txt "?"];
    El "p" [] [Txt "Agent bị gỡ khỏi danh sách. Hồ sơ của agent vẫn được giữ lại để lưu trữ."];
    El "button" [AStr "type" "button"; AStr "className" "btn btn-danger";
                 ADisabled (busy_with s id); AOn (OnClick (ConfirmDelete id))]
      [Txt (if busy_with s id then "Đang xoá…" else "Xoá")];
    Txt " ";
    El "button" [AStr "type" "button"; AStr "className" "btn"; ADisabled (busy_with s id);
                 AOn (OnClick CancelDelete)] [Txt "Huỷ"]].

Definition Team (s : team) : list (node team_event) :=
  let ready := negb (te_loading s) && negb (truthy_opt (te_error s)) in
  let none := match te_agents s with [] => true | _ => false end in
  [El "section" [] (
    [Comp "IntegrationHealthPanel" [];
     El "h2" [] [Txt "Đội"];
     El "div" [AStr "className" "team-actions"] (
       [El "button" [AStr "type" "button"; AStr "className" "btn-link"; ADisabled (te_creating s);
                     AOn (OnClick GoCreate)] [Txt "+ Tạo nhân sự ảo"]]
       ++ when (bool_decide (te_coordinatorId s = Some None))
            [El "button" [AStr "type" "button"; AStr "className" "btn-link";
                          ADisabled (te_creatingCoordinator s); AOn (OnClick CreateCoordinator)]
               [Txt (if te_creatingCoordinator s then "Đang tạo…" else "+ Tạo trưởng phòng")]]
       ++ [El "a" [AStr "href" "/company-docs"; AStr "className" "btn-link"] [Txt "📄 Kho tài liệu"]])]
    ++ when (negb (bool_decide (te_alerts s = [])))
         [El "div" [AStr "className" "team-alerts"; AStr "role" "alert"] (map alert_line (te_alerts s))]
    ++ error_p (te_opError s)
    ++ match present (te_deletedNote s) with
       | Some m => [El "p" [AStr "className" "ok"] [Txt m]]
       | None => []
       end
    ++ when (te_loading s) [El "p" [] [Txt "Đang tải…"]]
    ++ error_p (te_error s)
    ++ when (ready && none) [El "p" [AStr "className" "muted"] [Txt "Chưa có agent nào."]]
    ++ when (ready && negb none) [agents_table s]
    ++ match te_orphans s with
       | [] => []
       | l => [El "section" [AStr "className" "team-orphans"] [
                 El "h3" [] [Txt "Hồ sơ chưa trong đội ("; Txt (z_str (Z.of_nat (length l))); Txt ")"];
                 El "p" [AStr "className" "muted"]
                   [Txt "Các hồ sơ này tồn tại trong thư mục profiles/ nhưng chưa được đăng ký vào đội — thêm lại để giao việc được cho họ."];
                 El "ul" [] (map (orphan_item s) l)]]
       end
    ++ match present (te_confirmingDelete s) with
       | Some id => [delete_dialog s id]
       | None => []
       end)].

Definition team_init : team :=
  {| te_agents := []; te_orphans := []; te_registering := None; te_statuses := ∅;
     te_loading := true; te_error := None; te_busyId := None; te_opError := None;
     te_confirmingDelete := None; te_deletedNote := None; te_profileDisabledNotice := ∅;
     te_alerts := []; te_creating := false; te_coordinatorId := None;
     te_creatingCoordinator := false; te_isHigh := false |}.

(** The page mounts in mode [high]; the mode is changed elsewhere while it is shown. *)
Definition team_page (high : bool) : component :=
  {| c_state := team; c_event := team_event; c_req := team_req; c_resp := team_resp;
     c_init := (put_creating false high team_init,
                [FetchAlerts; FetchAgents LoadAll; FetchCompany; FetchOrphans OnCount]);
     c_view := Team; c_env := λ _ e, ∃ h, e = ModeChanged h;
     c_handle := team_handle; c_resume := team_resume |}.

(** ** Theorems: what can be pressed *)

(** The requests of [createCoordinator]. *)
Definition of_coordinator (r : team_req) : bool :=
  match r with
  | FetchTemplates | PostCoordinator _ | FetchCompanyFor _ | SaveCoordinator _ _ _ => true
  | _ => false
  end.
Definition coordinating (q : list team_req) : nat := tally of_coordinator q.

Lemma coordinating_statuses l : coordinating (map (λ x : AgentSummary, FetchStatus (as_id x)) l) = 0%nat.
Proof. apply tally_none. by intros r (x & -> & _)%list_elem_of_fmap. Qed.

Lemma error_p_offers {E} o (e : E) : offers (error_p o) e ↔ False.
Proof. unfold error_p. split; [|done]. intros H. inv_offers. Qed.

Lemma row_offers s a e :
  offers [agent_row s a] e →
  busy_with s (as_id a) = false ∧
  (e = ToggleEnabled a ∨ as_id a ≠ "default"%js ∧ e = AskDelete (as_id a)).
Proof.
  intros H. unfold agent_row in H. inv_offers; try (split; [done|]); try (by left).
  all: try (unfold budget_bar in H; inv_offers; done).
  all: right; split; [|done]; by apply negb_true_iff, bool_decide_eq_false in H0.
Qed.

Lemma orphan_offers s o e :
  offers [orphan_item s o] e →
  e = RegisterOrphan (up_id o) ∧ up_valid o = true ∧ te_registering s ≠ Some (up_id o).
Proof.
  intros H. unfold orphan_item in H. inv_offers. split; [done|]. split; [done|].
  by apply bool_decide_eq_false in H0.
Qed.

Lemma dialog_offers s id e :
  offers [delete_dialog s id] e →
  (e = ConfirmDelete id ∨ e = CancelDelete) ∧ busy_with s id = false.
Proof. intros H. unfold delete_dialog in H. inv_offers; auto. Qed.

(** Where the events of the page come from. *)
Lemma team_offers s e :
  offers (Team s) e →
  match e with
  | GoCreate => te_creating s = false
  | CreateCoordinator => te_coordinatorId s = Some None ∧ te_creatingCoordinator s = false
  | ToggleEnabled a => a ∈ te_agents s ∧ busy_with s (as_id a) = false
  | AskDelete id => id ≠ "default"%js ∧ ∃ a, a ∈ te_agents s ∧ as_id a = id
  | ConfirmDelete id => present (te_confirmingDelete s) = Some id ∧ busy_with s id = false
  | CancelDelete => is_Some (te_confirmingDelete s)
  | RegisterOrphan id => ∃ o, o ∈ te_orphans s ∧ up_id o = id ∧ up_valid o = true ∧
                           te_registering s ≠ Some id
  | ModeChanged _ => False
  end.
Proof.
  intros H. unfold Team in H. inv_offers; try (by rewrite error_p_offers in H); try done.
  - by apply bool_decide_eq_true in H0.
  - unfold alert_line in H. inv_offers.
  - unfold agents_table, column_head in H. inv_offers.
    apply row_offers in H as [Hb [->|[Hd ->]]]; [done|split; [done|]; eauto].
  - apply orphan_offers in H as (-> & Hv & Hr).
    eexists; split; [|by split_and!]; set_solver.
  - apply orphan_offers in H as (-> & Hv & Hr).
    eexists; split; [|by split_and!]; set_solver.
  - apply dialog_offers in H as [[->| ->] Hb]; [done|].
    unfold present in Heqo. destruct (te_confirmingDelete s); [by eexists|done].
Qed.

(** ** Theorems: the page *)

Definition team_inv (s : team) (q : list team_req) : Prop :=
  te_confirmingDelete s ≠ Some "default"%js ∧
  coordinating q = (if te_creatingCoordinator s then 1 else 0)%nat.

Section Page.
Context (high : bool) (srv : answers (team_page high)).

#[export] Instance team_inv_holds : Invariant srv team_inv.
Proof.
  split.
  - split; [done|]. done.
  - intros e s q [H1 H2] He.
    assert (e = CreateCoordinator → te_creatingCoordinator s = false) as Hc.
    { intros ->. destruct He as [Ho|[? ?]]; [|done]. by apply team_offers in Ho as [_ ?]. }
    assert (∀ id, e = AskDelete id → id ≠ "default"%js) as Hd.
    { intros id ->. destruct He as [Ho|[? ?]]; [|done]. by apply team_offers in Ho as [? _]. }
    clear He. destruct e; (split; cbn; [try done|unfold coordinating in *; rewrite ?tally_app, H2; cbn; try lia]).
    + rewrite (Hc eq_refl). done.
    + intros [= ->]. by eapply Hd.
  - intros r a s q1 q2 _ [H1 H2]. unfold coordinating in H2. rewrite tally_middle in H2.
    change (team_inv (fst (team_resume r a s)) (q1 ++ q2 ++ snd (team_resume r a s))).
    rewrite app_assoc.
    destruct r as [|[]| | |[]| | |sp|id|n id cap|id v|id|id|p|]; destruct a as [x|e];
      cbn [team_resume fst snd of_coordinator] in *;
      unfold setAgents; cbn; try destruct (find_template _); try destruct (Nat.eqb _ _);
      (split; [done|]); cbn;
      unfold coordinating in *; rewrite ?tally_app in *;
      try (pose proof (coordinating_statuses x) as Es; unfold coordinating in Es; rewrite Es); cbn;
      destruct (te_creatingCoordinator s); cbn in *; lia.
Qed.

(** The requests an event can send. *)
Lemma team_sends (w : world (team_page high)) r e :
  allowed (C := team_page high) (w_state w) e → r ∈ snd (team_handle e (w_state w)) →
  match r with
  | SetEnabled id v => ∃ a, a ∈ te_agents (w_state w) ∧ as_id a = id ∧ v = negb (as_enabled a) ∧
                            busy_with (w_state w) id = false
  | DeleteAgent id => present (te_confirmingDelete (w_state w)) = Some id ∧
                      busy_with (w_state w) id = false
  | FetchTemplates => te_coordinatorId (w_state w) = Some None ∧
                      te_creatingCoordinator (w_state w) = false
  | PostCoordinator _ | FetchCompanyFor _ | SaveCoordinator _ _ _ => False
  | _ => True
  end.
Proof.
  intros He Hin. destruct He as [Ho|[h ->]]; [|by apply elem_of_nil in Hin].
  apply team_offers in Ho. destruct e; cbn in Hin; try (by apply elem_of_nil in Hin);
    apply list_elem_of_singleton in Hin as ->; try done.
  destruct Ho as [Ha Hb]. eauto.
Qed.

(** The requests an answer can send, of those the theorems are about. *)
Lemma team_answers (r0 : team_req) a s r :
  r ∈ snd (team_resume r0 a s) →
  match r with
  | SetEnabled _ _ | DeleteAgent _ | FetchTemplates => False
  | PostCoordinator sp => r0 = FetchTemplates ∧ ∃ t, sp = coordinator_spec t
  | SaveCoordinator n id cap => ∃ c, r0 = FetchCompanyFor id ∧
      existT r0 a = existT (P := λ r, result (team_resp r)) (FetchCompanyFor id) (Ok c) ∧
      n = co_name c ∧ cap = co_team_task_cap_usd c
  | NavigateTo p => p = "/create"%js ∨ p = "/chat?intent=create-agent"%js
  | _ => True
  end.
Proof.
  destruct r0 as [|[]| | |[]| | |sp|id|n id cap|id v|id|id|p|]; destruct a as [x|e];
    cbn [team_resume fst snd setAgents loadAgents coordinator_failed]; intros Hin;
    repeat case_match; try done; try set_solver; eauto 10.
Qed.

End Page.

(** C34: Every operation of the team page hits the row it stands in.  An enable or disable request is
    for an agent of the list and asks for the opposite of what the list says of it; a deletion
    is for the agent the open dialog names, and never for the default agent; and neither is
    sent for the agent the page marks as busy. *)
Theorem team_hits_rows high (w : world (team_page high)) :
  reachable any w →
  (∀ id v, issues any w (SetEnabled id v) →
     (∃ a, a ∈ te_agents (w_state w) ∧ as_id a = id ∧ v = negb (as_enabled a)) ∧
     te_busyId (w_state w) ≠ Some id) ∧
  (∀ id, issues any w (DeleteAgent id) →
     te_confirmingDelete (w_state w) = Some id ∧ id ≠ "default"%js ∧
     te_busyId (w_state w) ≠ Some id).
Proof.
  intros Hw. pose proof (invariant_holds (C := team_page high) any team_inv w Hw) as [Hd _].
  split.
  - intros id v [(e & He & Hin)|(r & a & _ & Hin)]%issues_inv;
      [|by apply (team_answers r a (w_state w)) in Hin].
    apply (team_sends high w _ e He) in Hin as (a & Ha & Hid & Hv & Hb).
    split; [eauto|]. by apply bool_decide_eq_false in Hb.
  - intros id [(e & He & Hin)|(r & a & _ & Hin)]%issues_inv;
      [|by apply (team_answers r a (w_state w)) in Hin].
    apply (team_sends high w _ e He) in Hin as [Hp Hb]. apply present_spec in Hp as [Hp _].
    split; [done|]. split; [congruence|]. by apply bool_decide_eq_false in Hb.
Qed.

(** The company is [co] whenever the server is asked for it by the coordinator's creation. *)
Definition company_is high (co : CompanyPayload) : answers (team_page high) :=
  λ r, match r return result (team_resp r) → Prop with
       | FetchCompanyFor _ => λ a, ∀ c, a = Ok c → c = co
       | _ => λ _, True
       end.

(** The coordinator is created once, and the rest of the company is kept.  At most one creation is
    under way, exactly while the button says so; it is started only when the company was loaded
    without a coordinator; the agent it creates has the coordinator's id; and the company it
    saves has the name and the budget cap the server has just given. *)
Theorem coordinator_created_once high co (w : world (team_page high)) :
  reachable (company_is high co) w →
  coordinating (w_flight w) = (if te_creatingCoordinator (w_state w) then 1 else 0)%nat ∧
  (issues (company_is high co) w FetchTemplates →
     te_coordinatorId (w_state w) = Some None ∧ coordinating (w_flight w) = 0%nat) ∧
  (∀ sp, issues (company_is high co) w (PostCoordinator sp) → sp_id sp = COORDINATOR_AGENT_ID) ∧
  (∀ n id cap, issues (company_is high co) w (SaveCoordinator n id cap) →
     n = co_name co ∧ cap = co_team_task_cap_usd co).
Proof.
  intros Hw. pose proof (invariant_holds (C := team_page high) _ team_inv w Hw) as [_ Hc].
  split; [exact Hc|]. split; [|split].
  - intros [(e & He & Hin)|(r & a & Hf & Ha & Hin)]%issues_inv_srv.
    + apply (team_sends high w _ e He) in Hin as [Hi Hb]. split; [done|]. by rewrite Hb in Hc.
    + by apply (team_answers r a (w_state w)) in Hin.
  - intros sp [(e & He & Hin)|(r & a & Hf & Ha & Hin)]%issues_inv_srv.
    + by apply (team_sends high w _ e He) in Hin.
    + apply (team_answers r a (w_state w)) in Hin as (_ & t & ->). done.
  - intros n id cap [(e & He & Hin)|(r & a & Hf & Ha & Hin)]%issues_inv_srv.
    + by apply (team_sends high w _ e He) in Hin.
    + destruct r; destruct a as [x|err]; cbn in Hin; repeat case_match; try set_solver.
Qed.

(** ** Theorems: an operation repeated *)

(** A row of the loaded table that is not busy can be toggled, and deleted unless it is the
    default agent's. *)
Lemma row_offered s a :
  te_loading s = false → truthy_opt (te_error s) = false → a ∈ te_agents s →
  busy_with s (as_id a) = false →
  offers (Team s) (ToggleEnabled a) ∧
  (as_id a ≠ "default"%js → offers (Team s) (AskDelete (as_id a))).
Proof.
  intros Hl He Ha Hb.
  assert (∀ e, offers [agent_row s a] e → offers (Team s) e) as Hrow.
  { intros e Hr. unfold Team. rewrite Hl, He, offers_El, !offers_app. right.
    do 7 right. left. destruct (te_agents s) as [|x l] eqn:El; [by apply elem_of_nil in Ha|].
    apply offers_when. split; [done|]. unfold agents_table. rewrite El, offers_El. right.
    rewrite offers_cons. right. rewrite offers_El. right. rewrite offers_map. eauto. }
  split; [|intros Hd]; apply Hrow; unfold agent_row; rewrite Hb.
  - destruct (te_statuses s !! as_id a) as [st|], (te_isHigh s),
      (default false (te_profileDisabledNotice s !! as_id a));
      (eapply (offers_nth _ 0); [reflexivity|reflexivity]).
  - rewrite bool_decide_eq_false_2 by done.
    destruct (te_statuses s !! as_id a) as [st|], (te_isHigh s),
      (default false (te_profileDisabledNotice s !! as_id a));
      (eapply (offers_nth _ 1); [reflexivity|reflexivity]).
Qed.

Lemma confirm_delete_offered s id :
  present (te_confirmingDelete s) = Some id → busy_with s id = false →
  offers (Team s) (ConfirmDelete id).
Proof.
  intros Hc Hb. unfold Team. rewrite Hc, offers_El, !offers_app. right. do 9 right.
  unfold delete_dialog. rewrite Hb. eapply (offers_nth _ 0); [reflexivity|reflexivity].
Qed.

Lemma app_twice {A} (q : list A) d x : ((q ++ [d]) ++ [x]) ++ [d] = q ++ d :: [x] ++ d :: [].
Proof. by rewrite <- !app_assoc. Qed.

(** A deletion can be sent twice.  The page remembers one busy agent only: with the agents [a] and
    [b] in the list, pausing [b] while the deletion of [a] is under way enables the dialog's
    button again, and pressing it deletes [a] a second time. *)
Theorem delete_sent_twice high l a b :
  a ∈ l → b ∈ l → as_id a ≠ as_id b → as_id a ≠ [] → as_id a ≠ "default"%js →
  ∃ w : world (team_page high), reachable any w ∧ te_agents (w_state w) = l ∧
    ∃ q1 q2 q3, w_flight w = q1 ++ DeleteAgent (as_id a) :: q2 ++ DeleteAgent (as_id a) :: q3.
Proof.
  intros Ha Hb Hab Hne Hd.
  assert (reachable any (init_world (team_page high))) as H by constructor.
  unfold init_world in H. cbn [c_init team_page fst snd] in H.
  eapply (run_response_to (C := team_page high) _ [FetchAlerts] (FetchAgents LoadAll) _ (Ok l)) in H;
    [|exact I|reflexivity].
  eapply (run_event_to (C := team_page high) _ (AskDelete (as_id a))) in H;
    [|left; by apply (row_offered _ a)|reflexivity].
  eapply (run_event_to (C := team_page high) _ (ConfirmDelete (as_id a))) in H;
    [|left; apply confirm_delete_offered; [by apply present_spec|done]|reflexivity].
  eapply (run_event_to (C := team_page high) _ (ToggleEnabled b)) in H;
    [|left; apply (row_offered _ b); try done; apply bool_decide_eq_false_2; cbn; congruence|reflexivity].
  eapply (run_event_to (C := team_page high) _ (ConfirmDelete (as_id a))) in H;
    [|left; apply confirm_delete_offered;
      [by apply present_spec|apply bool_decide_eq_false_2; cbn; congruence]|reflexivity].
  eexists. split; [exact H|]. split; [reflexivity|]. cbn [w_flight].
  eexists _, _, _. apply app_twice.
Qed.

(** ** Witnesses *)

Definition demo_row (id : jsstr) : AgentSummary :=
  {| as_id := id; as_name := id; as_enabled := true; as_last_run := None;
     as_report_kinds := None |}.
Definition demo_list : list AgentSummary := [demo_row "pm"; demo_row "hr"].

Lemma delete_sent_twice_witness :
  ∃ w : world (team_page false), reachable any w ∧ te_agents (w_state w) = demo_list ∧
    ∃ q1 q2 q3, w_flight w = q1 ++ DeleteAgent "pm" :: q2 ++ DeleteAgent "pm" :: q3.
Proof.
  apply (delete_sent_twice false demo_list (demo_row "pm") (demo_row "hr"));
    [eapply (list_elem_of_lookup_2 _ 0); reflexivity|
     eapply (list_elem_of_lookup_2 _ 1); reflexivity|done..].
Defined.

Definition to_dialog : list (action (team_page false)) :=
  [Answer (C := team_page false) 1 (FetchAgents LoadAll) (Ok demo_list);
   Do (C := team_page false) (AskDelete "pm")].

Lemma to_delete_reachable : reachable any (play to_dialog (init_world (team_page false))).
Proof.
  apply play_reachable; [apply reach_init|]. split; [split; [reflexivity|exact I]|].
  split; [|exact I]. left. eapply (offers_nth _ 2); [vm_compute; reflexivity|reflexivity].
Defined.

Lemma team_hits_rows_witness :
  let w := play to_dialog (init_world (team_page false)) in
  (∀ id v, issues any w (SetEnabled id v) →
     (∃ a, a ∈ te_agents (w_state w) ∧ as_id a = id ∧ v = negb (as_enabled a)) ∧
     te_busyId (w_state w) ≠ Some id) ∧
  (∀ id, issues any w (DeleteAgent id) →
     te_confirmingDelete (w_state w) = Some id ∧ id ≠ "default"%js ∧
     te_busyId (w_state w) ≠ Some id).
Proof. intros w. apply (team_hits_rows false w to_delete_reachable). Defined.

Definition demo_company : CompanyPayload :=
  {| co_name := "Acme"; co_coordinator_id := None; co_team_task_cap_usd := num_Z 5;
     co_team_task_concurrency := None; co_team_task_auto_confirm := None |}.

Definition to_coordinator : list (action (team_page false)) :=
  [Answer (C := team_page false) 2 FetchCompany (Ok demo_company);
   Do (C := team_page false) CreateCoordinator].

Lemma to_coordinator_reachable :
  reachable (company_is false demo_company) (play to_coordinator (init_world (team_page false))).
Proof.
  apply play_reachable; [apply reach_init|]. split; [split; [reflexivity|exact I]|].
  split; [|exact I]. left. eapply (offers_nth _ 1); [vm_compute; reflexivity|reflexivity].
Defined.

Lemma coordinator_created_once_witness :
  let w := play to_coordinator (init_world (team_page false)) in
  let srv := company_is false demo_company in
  coordinating (w_flight w) = (if te_creatingCoordinator (w_state w) then 1 else 0)%nat ∧
  (issues srv w FetchTemplates →
     te_coordinatorId (w_state w) = Some None ∧ coordinating (w_flight w) = 0%nat) ∧
  (∀ sp, issues srv w (PostCoordinator sp) → sp_id sp = COORDINATOR_AGENT_ID) ∧
  (∀ n id cap, issues srv w (SaveCoordinator n id cap) →
     n = co_name demo_company ∧ cap = co_team_task_cap_usd demo_company).
Proof. intros w. apply (coordinator_created_once false demo_company w to_coordinator_reachable). Defined.

(** ** Theorems: the page comes to rest *)

Definition team_rank (r : team_req) : nat :=
  match r with
  | FetchTemplates => 5
  | PostCoordinator _ => 4
  | FetchCompanyFor _ => 3
  | SaveCoordinator _ _ _ | SetEnabled _ _ | RegisterProfile _ => 2
  | FetchAgents _ | DeleteAgent _ | AskOpsChat => 1
  | FetchOrphans AfterRegister => 1
  | _ => 0
  end.

#[export] Instance team_ranked high : Ranked (team_page high).
Proof.
  refine {| rank := team_rank : c_req (team_page high) → nat |}. intros r a s.
  change (Forall (λ x, (team_rank x < team_rank r)%nat) (snd (team_resume r a s))).
  destruct r as [|[]| | |[]| | |sp|id|n id cap|id v|id|id|p|]; destruct a as [x|e];
    cbn [team_resume fst snd setAgents loadAgents coordinator_failed]; repeat case_match;
    repeat (apply Forall_cons; split); try apply Forall_nil; cbn; try lia.
  all: simplify_eq; apply Forall_app; split; [|by repeat constructor].
  all: by apply Forall_forall; intros r (? & -> & _)%list_elem_of_fmap; cbn; lia.
Defined.

Definition of_row (r : team_req) : bool :=
  match r with SetEnabled _ _ | DeleteAgent _ | FetchAgents AfterToggle => true | _ => false end.
Definition of_load (r : team_req) : bool :=
  match r with FetchAgents LoadAll => true | _ => false end.
Definition of_register (r : team_req) : bool :=
  match r with RegisterProfile _ | FetchOrphans AfterRegister => true | _ => false end.
Definition of_create (r : team_req) : bool := match r with AskOpsChat => true | _ => false end.
Definition is_some {A} (o : option A) : bool := match o with Some _ => true | None => false end.

(** Each sign of work under way stands for a request in flight. *)
Record rest_inv (s : team) (q : list team_req) : Prop := {
  ri_row : awaits of_row (is_some (te_busyId s)) q;
  ri_load : awaits of_load (te_loading s) q;
  ri_register : awaits of_register (is_some (te_registering s)) q;
  ri_create : awaits of_create (te_creating s) q
}.

Lemma rest_event e s q :
  rest_inv s q → rest_inv (fst (team_handle e s)) (q ++ snd (team_handle e s)).
Proof.
  intros [H1 H2 H3 H4].
  destruct e; split; cbn; (eapply awaits_event; [eassumption|]); cbn; auto;
    intros _; right; eexists; (split; [left|reflexivity]).
Qed.

Lemma rest_answer r a s q1 q2 :
  rest_inv s (q1 ++ r :: q2) →
  rest_inv (fst (team_resume r a s)) (q1 ++ q2 ++ snd (team_resume r a s)).
Proof.
  intros [H1 H2 H3 H4].
  destruct r as [|[]| | |[]| | |sp|id|n id cap|id v|id|id|p|]; destruct a as [x|e];
    cbn [team_resume fst snd]; unfold setAgents; cbn; try destruct (find_template _);
    (split; (eapply awaits_answer; [eassumption|]); cbn; auto; try done).
  all: intros _; left; first [eexists; split; [by left|reflexivity]
                            |eexists; split; [by right; left|reflexivity]].
Qed.

#[export] Instance rest_inv_holds high srv : Invariant (C := team_page high) srv rest_inv.
Proof.
  split.
  - split; try done. intros _. exists (FetchAgents LoadAll). split; [right; left|done].
  - intros e s q Hi _. by apply rest_event.
  - intros r a s q1 q2 _ Hi. by apply rest_answer.
Qed.

(** C35: The team page never hangs.  From every reachable state no infinite sequence of answers is
    possible, although the list of agents starts a request per agent; and once the last request
    has been answered, with values or errors and in any order, nothing on the page is busy:
    neither the table, nor a row, nor a profile, nor the creation of a coordinator. *)
Theorem team_settles high (w : world (team_page high)) :
  reachable any w →
  Acc (flip (answered any)) w ∧
  ∀ w', rtc (answered any) w w' → w_flight w' = [] →
    te_loading (w_state w') = false ∧ te_busyId (w_state w') = None ∧
    te_registering (w_state w') = None ∧ te_creating (w_state w') = false ∧
    te_creatingCoordinator (w_state w') = false.
Proof.
  intros Hw. split; [apply (answers_terminate any)|]. intros w' Hr Hf.
  apply (answers_reachable any w w' Hw) in Hr.
  pose proof (invariant_holds (C := team_page high) any rest_inv w' Hr) as [H1 H2 H3 H4].
  pose proof (invariant_holds (C := team_page high) any team_inv w' Hr) as [_ H5].
  rewrite Hf in *. apply awaits_nil in H1, H2, H3, H4. split; [done|].
  split; [by destruct (te_busyId _)|]. split; [by destruct (te_registering _)|].
  split; [done|]. by destruct (te_creatingCoordinator _).
Qed.

Lemma team_settles_witness :
  let w := play to_dialog (init_world (team_page false)) in
  Acc (flip (answered any)) w ∧
  ∀ w', rtc (answered any) w w' → w_flight w' = [] →
    te_loading (w_state w') = false ∧ te_busyId (w_state w') = None ∧
    te_registering (w_state w') = None ∧ te_creating (w_state w') = false ∧
    te_creatingCoordinator (w_state w') = false.
Proof. intros w. apply (team_settles false w to_delete_reachable). Defined.
