(* ===== verification/Session.v ===== *)
(** The session gate (App.tsx) with the two screens it guards, the login (views/Login.tsx) and the
    first-run setup ([Setup]): which of them is mounted, and what their callbacks and an expired
    session do to it. *)

From stdpp Require Import relations.
From S2P Require Import Prelude React Behaviour Types Setup.

(** ** Login *)

Record login := {
  lo_username : jsstr; lo_password : jsstr; lo_error : option jsstr; lo_busy : bool }.

Inductive login_event := LoginUser (v : jsstr) | LoginPassword (v : jsstr) | LoginSubmit.

(** [LoggedIn] is the call of [onLoggedIn]. *)
Inductive login_req := PostLogin (username password : jsstr) | LoggedIn.

Definition login_init : login :=
  {| lo_username := "admin"; lo_password := ""; lo_error := None; lo_busy := false |}.

Definition login_handle (e : login_event) (s : login) : login * list login_req :=
  match e with
  | LoginUser v => ({| lo_username := v; lo_password := lo_password s; lo_error := lo_error s;
                       lo_busy := lo_busy s |}, [])
  | LoginPassword v => ({| lo_username := lo_username s; lo_password := v; lo_error := lo_error s;
                           lo_busy := lo_busy s |}, [])
  | LoginSubmit =>
      if lo_busy s then (s, [])
      else ({| lo_username := lo_username s; lo_password := lo_password s; lo_error := None;
               lo_busy := true |}, [PostLogin (lo_username s) (lo_password s)])
  end.

Definition login_idle (error : option jsstr) (s : login) : login :=
  {| lo_username := lo_username s; lo_password := lo_password s; lo_error := error;
     lo_busy := false |}.

Definition login_resume (r : login_req) (a : result unit) (s : login) : login * list login_req :=
  match r with
  | PostLogin _ _ =>
      match a with
      | Ok _ => (login_idle (lo_error s) s, [LoggedIn])
      | Err e => (login_idle (Some (api_error_message e "đăng nhập thất bại")) s, [])
      end
  | LoggedIn => (s, [])
  end.

(** Submitting the form, by its button or by Enter, takes an enabled button. *)
Definition Login (s : login) : list (node login_event) :=
  [El "div" [AStr "className" "login-screen"] [
    El "form" [AStr "className" "login-box"] (
      [El "h1" [] [Txt "Đăng nhập"];
       El "label" [] [
         Txt "Tên đăng nhập";
         El "input" [AStr "value" (lo_username s); AOn (OnText LoginUser); ABool "autoFocus" true] []];
       El "label" [] [
         Txt "Mật khẩu";
         El "input" [AStr "type" "password"; AStr "value" (lo_password s);
                     AOn (OnText LoginPassword)] []]]
      ++ setup_error (lo_error s)
      ++ [El "button" [AStr "type" "submit"; ADisabled (lo_busy s || negb (truthy (lo_password s)));
                       AOn (OnSubmit LoginSubmit)]
            [Txt (if lo_busy s then "Đang đăng nhập…" else "Đăng nhập")]])]].

(** ** The gate *)

(** What the gate shows below itself; a mounted screen has a number of its own. *)
Inductive child :=
| NoChild
| SetupChild (n : nat) (s : setup)
| LoginChild (n : nat) (s : login)
| Dashboard.

Record gate := {
  gt_authed : option bool;
  gt_setupDone : option bool;
  gt_child : child;
  gt_mounts : nat
}.

Inductive gate_event :=
| SetupEvent (e : setup_event)
| LoginEvent (e : login_event)
| Unauthorized.                                    (* the handler of [setUnauthorizedHandler] *)

Inductive gate_req :=
| AskSetup                                         (* [api.setupStatus()] *)
| AskMe                                            (* [api.getMe()] *)
| OfSetup (n : nat) (r : setup_req)
| OfLogin (n : nat) (r : login_req).

Definition gate_resp (r : gate_req) : Type :=
  match r with
  | AskSetup | AskMe => bool                       (* completed; authenticated *)
  | OfSetup _ r => setup_resp r
  | OfLogin _ _ => unit
  end.

(** The callbacks [onDone] and [onLoggedIn] are [check]. *)
Definition lift_setup (n : nat) (l : list setup_req) : list gate_req :=
  map (λ r, match r with OnDone => AskSetup | _ => OfSetup n r end) l.
Definition lift_login (n : nat) (l : list login_req) : list gate_req :=
  map (λ r, match r with LoggedIn => AskSetup | _ => OfLogin n r end) l.

(** The screen the two answers call for: the one already mounted, or a new one. *)
Definition mount (authed setupDone : option bool) (g : gate) : gate * list gate_req :=
  let keep c := {| gt_authed := authed; gt_setupDone := setupDone; gt_child := c;
                   gt_mounts := gt_mounts g |} in
  let n := S (gt_mounts g) in
  let fresh c := {| gt_authed := authed; gt_setupDone := setupDone; gt_child := c;
                    gt_mounts := n |} in
  match setupDone, authed with
  | None, _ => (keep NoChild, [])
  | Some false, _ =>
      match gt_child g with
      | SetupChild m s => (keep (SetupChild m s), [])
      | _ => (fresh (SetupChild n (fst (c_init setup_wizard))),
              lift_setup n (snd (c_init setup_wizard)))
      end
  | Some true, None => (keep NoChild, [])
  | Some true, Some false =>
      match gt_child g with
      | LoginChild m s => (keep (LoginChild m s), [])
      | _ => (fresh (LoginChild n login_init), [])
      end
  | Some true, Some true => (keep Dashboard, [])
  end.

Definition with_child (c : child) (g : gate) : gate :=
  {| gt_authed := gt_authed g; gt_setupDone := gt_setupDone g; gt_child := c;
     gt_mounts := gt_mounts g |}.

Definition gate_handle (e : gate_event) (g : gate) : gate * list gate_req :=
  match e with
  | SetupEvent e =>
      match gt_child g with
      | SetupChild n s => let '(s', l) := setup_handle e s in
                          (with_child (SetupChild n s') g, lift_setup n l)
      | _ => (g, [])
      end
  | LoginEvent e =>
      match gt_child g with
      | LoginChild n s => let '(s', l) := login_handle e s in
                          (with_child (LoginChild n s') g, lift_login n l)
      | _ => (g, [])
      end
  | Unauthorized => mount (Some false) (gt_setupDone g) g
  end.

(** A continuation of a screen that is no longer mounted runs on, without a state to set. *)
Definition gate_resume (r : gate_req) : result (gate_resp r) → gate → gate * list gate_req :=
  match r return result (gate_resp r) → gate → gate * list gate_req with
  | AskSetup => λ a g,
      match a with
      | Ok false => mount (gt_authed g) (Some false) g
      | Ok true | Err _ =>
          let '(g', l) := mount (gt_authed g) (Some true) g in (g', l ++ [AskMe])
      end
  | AskMe => λ a g,
      mount (Some match a with Ok b => b | Err _ => false end) (gt_setupDone g) g
  | OfSetup n r => λ a g,
      match gt_child g with
      | SetupChild m s =>
          if decide (m = n)
          then let '(s', l) := setup_resume r a s in (with_child (SetupChild n s') g, lift_setup n l)
          else (g, lift_setup n (snd (setup_resume r a (fst (c_init setup_wizard)))))
      | _ => (g, lift_setup n (snd (setup_resume r a (fst (c_init setup_wizard)))))
      end
  | OfLogin n r => λ a g,
      match gt_child g with
      | LoginChild m s =>
          if decide (m = n)
          then let '(s', l) := login_resume r a s in (with_child (LoginChild n s') g, lift_login n l)
          else (g, lift_login n (snd (login_resume r a login_init)))
      | _ => (g, lift_login n (snd (login_resume r a login_init)))
      end
  end.

Definition App (g : gate) : list (node gate_event) :=
  match gt_child g with
  | NoChild => [El "p" [AStr "style.padding" "2rem"] [Txt "Đang tải…"]]
  | SetupChild _ s => map (map_node SetupEvent) (Setup s)
  | LoginChild _ s => map (map_node LoginEvent) (Login s)
  | Dashboard => [Comp "BrowserRouter" []]
  end.

(** Any request of any screen can find the session expired. *)
Definition app : component :=
  {| c_state := gate; c_event := gate_event; c_req := gate_req; c_resp := gate_resp;
     c_init := ({| gt_authed := None; gt_setupDone := None; gt_child := NoChild; gt_mounts := 0 |},
                [AskSetup]);
     c_view := App; c_env := λ _ e, e = Unauthorized;
     c_handle := gate_handle; c_resume := gate_resume |}.

(** ** Theorems: the screens are run as they are *)

Definition child_ok (authed setupDone : option bool) (c : child) : Prop :=
  match setupDone, authed with
  | None, _ | Some true, None => c = NoChild
  | Some false, _ => ∃ n s, c = SetupChild n s
  | Some true, Some false => ∃ n s, c = LoginChild n s
  | Some true, Some true => c = Dashboard
  end.

(** Mounting keeps the present screen, shows none, or starts a new one. *)
Lemma mount_spec a d g :
  let '(g', l) := mount a d g in
  l = [] ∧ gt_authed g' = a ∧ gt_setupDone g' = d ∧ child_ok a d (gt_child g') ∧
  (gt_mounts g' = gt_mounts g ∧
     (gt_child g' = gt_child g ∨ gt_child g' = NoChild ∨ gt_child g' = Dashboard) ∨
   gt_mounts g' = S (gt_mounts g) ∧
     (gt_child g' = SetupChild (S (gt_mounts g)) (fst (c_init setup_wizard)) ∨
      gt_child g' = LoginChild (S (gt_mounts g)) login_init)).
Proof.
  unfold mount. destruct d as [[]|], a as [[]|], (gt_child g) eqn:E; cbn; rewrite ?E; split_and!; eauto 10.
Qed.

(** The requests of mount [n]. *)
Definition own_setup (n : nat) (q : list gate_req) : list setup_req :=
  omap (λ r, match r with OfSetup m x => if decide (m = n) then Some x else None | _ => None end) q.
Definition own_login (n : nat) (q : list gate_req) : list login_req :=
  omap (λ r, match r with OfLogin m x => if decide (m = n) then Some x else None | _ => None end) q.

Definition not_done (l : list setup_req) : list setup_req :=
  List.filter (λ r, match r with OnDone => false | _ => true end) l.

Lemma own_setup_app n q1 q2 : own_setup n (q1 ++ q2) = own_setup n q1 ++ own_setup n q2.
Proof. apply omap_app. Qed.
Lemma own_login_app n q1 q2 : own_login n (q1 ++ q2) = own_login n q1 ++ own_login n q2.
Proof. apply omap_app. Qed.

Lemma own_lift_setup n l : own_setup n (lift_setup n l) = not_done l.
Proof.
  induction l as [|r l IH]; [done|]. destruct r; cbn; try exact IH;
    (rewrite decide_True by done; f_equal; exact IH).
Qed.
Lemma own_lift_other n m l : m ≠ n → own_setup n (lift_setup m l) = [].
Proof.
  intros H. induction l as [|r l IH]; [done|].
  destruct r; cbn; try exact IH; (rewrite decide_False by done; exact IH).
Qed.
Lemma own_lift_login n l : own_login n (lift_login n l) =
  List.filter (λ r, match r with LoggedIn => false | _ => true end) l.
Proof.
  induction l as [|r l IH]; [done|]. destruct r; cbn; [|exact IH].
  rewrite decide_True by done. f_equal. exact IH.
Qed.
Lemma own_lift_login_other n m l : m ≠ n → own_login n (lift_login m l) = [].
Proof.
  intros H. induction l as [|r l IH]; [done|].
  destruct r; cbn; [rewrite decide_False by done|]; exact IH.
Qed.
Lemma own_setup_login n m l : own_setup n (lift_login m l) = [].
Proof. by induction l as [|[] l IH]. Qed.
Lemma own_login_setup n m l : own_login n (lift_setup m l) = [].
Proof. by induction l as [|[] l IH]. Qed.

(** A callback returns at once. *)
Lemma callbacks_done s q l :
  reachable (C := setup_wizard) any (World s (q ++ l)) →
  reachable (C := setup_wizard) any (World s (q ++ not_done l)).
Proof.
  revert q. induction l as [|r l IH]; intros q H; [done|].
  destruct r; cbn; try (rewrite cons_middle, app_assoc; apply IH; by rewrite <- app_assoc).
  apply IH. pose proof (run_response (C := setup_wizard) any q OnDone l (Ok tt) s H I) as H'.
  cbn in H'. by rewrite app_nil_r in H'.
Qed.

(** The numbers of the requests in flight are those of screens mounted so far. *)
Definition numbered (k : nat) (r : gate_req) : Prop :=
  match r with OfSetup m _ | OfLogin m _ => (m ≤ k)%nat | _ => True end.

Lemma numbered_lift_setup k n l : (n ≤ k)%nat → Forall (numbered k) (lift_setup n l).
Proof. intros H. induction l as [|[] l IH]; by constructor. Qed.
Lemma numbered_lift_login k n l : (n ≤ k)%nat → Forall (numbered k) (lift_login n l).
Proof. intros H. induction l as [|[] l IH]; by constructor. Qed.
Lemma numbered_mono k k' q : (k ≤ k')%nat → Forall (numbered k) q → Forall (numbered k') q.
Proof. intros H Hq. eapply Forall_impl; [exact Hq|]. intros [] ?; cbn in *; lia || done. Qed.

Lemma unborn_setup k n q : Forall (numbered k) q → (k < n)%nat → own_setup n q = [].
Proof.
  intros Hq H. induction Hq as [|r q Hr Hq IH]; [done|].
  destruct r; cbn in *; try done. by rewrite decide_False by lia.
Qed.
Lemma unborn_login k n q : Forall (numbered k) q → (k < n)%nat → own_login n q = [].
Proof.
  intros Hq H. induction Hq as [|r q Hr Hq IH]; [done|].
  destruct r; cbn in *; try done. by rewrite decide_False by lia.
Qed.

(** What holds of the mounted screen and its own requests. *)
Definition child_inv (c : child) (k : nat) (q : list gate_req) : Prop :=
  match c with
  | SetupChild n s => (n ≤ k)%nat ∧ reachable any (World (C := setup_wizard) s (own_setup n q))
  | LoginChild n s =>
      (n ≤ k)%nat ∧ length (own_login n q) = (if lo_busy s then 1 else 0)%nat ∧
      Forall (λ r, r ≠ LoggedIn) (own_login n q)
  | _ => True
  end.

Definition asks_setup (r : gate_req) : bool := match r with AskSetup => true | _ => false end.
Definition asks_me (r : gate_req) : bool := match r with AskMe => true | _ => false end.

(** The gate does not know yet whether the setup is done, and then who is there. *)
Definition setup_unknown (g : gate) : bool := bool_decide (gt_setupDone g = None).
Definition user_unknown (g : gate) : bool :=
  bool_decide (gt_setupDone g = Some true ∧ gt_authed g = None).

Record gate_inv (g : gate) (q : list gate_req) : Prop := {
  gi_ok : child_ok (gt_authed g) (gt_setupDone g) (gt_child g);
  gi_numbered : Forall (numbered (gt_mounts g)) q;
  gi_child : child_inv (gt_child g) (gt_mounts g) q;
  gi_setup : awaits asks_setup (setup_unknown g) q;
  gi_me : awaits asks_me (user_unknown g) q
}.

Lemma child_inv_eq c k q q' :
  (∀ n, own_setup n q' = own_setup n q) → (∀ n, own_login n q' = own_login n q) →
  child_inv c k q → child_inv c k q'.
Proof. intros H1 H2. destruct c; cbn; by rewrite ?H1, ?H2. Qed.

Lemma mount_inv a d g q :
  Forall (numbered (gt_mounts g)) q → child_inv (gt_child g) (gt_mounts g) q →
  let '(g', l) := mount a d g in
  l = [] ∧ gt_authed g' = a ∧ gt_setupDone g' = d ∧ child_ok a d (gt_child g') ∧
  Forall (numbered (gt_mounts g')) q ∧ child_inv (gt_child g') (gt_mounts g') q.
Proof.
  intros Hq Hc. pose proof (mount_spec a d g) as H. destruct (mount a d g) as [g' l].
  destruct H as (El & Ea & Ed & Ho & H). do 4 (split; [done|]). destruct H as [[-> H]|[-> H]].
  - split; [done|]. by destruct H as [->|[->| ->]].
  - split; [eapply numbered_mono; [|exact Hq]; lia|].
    destruct H as [->| ->]; cbn; (split; [lia|]).
    + rewrite (unborn_setup (gt_mounts g)) by (done || lia). apply reach_init.
    + rewrite (unborn_login (gt_mounts g)) by (done || lia). by split; [|constructor].
Qed.

(** The steps of the login keep the count of its requests. *)
Lemma login_offers s e :
  offers (Login s) e →
  match e with LoginSubmit => lo_busy s = false ∧ lo_password s ≠ [] | _ => True end.
Proof.
  intros H. unfold Login in H. inv_offers; try (by rewrite setup_error_offers in H); try done.
  apply orb_false_iff in H0 as [Hb Hp]. split; [done|].
  by apply negb_false_iff, truthy_spec in Hp.
Qed.

Lemma gate_offers g e :
  offers (App g) e →
  (∃ n s e', gt_child g = SetupChild n s ∧ e = SetupEvent e' ∧ offers (Setup s) e') ∨
  (∃ n s e', gt_child g = LoginChild n s ∧ e = LoginEvent e' ∧ offers (Login s) e').
Proof.
  unfold App. destruct (gt_child g) as [|n s|n s|]; intros H; try (by inv_offers).
  - left. apply offers_map_node in H as (e' & -> & H). eauto 10.
  - right. apply offers_map_node in H as (e' & -> & H). eauto 10.
Qed.

Lemma child_ok_setup a d n s n' s' :
  child_ok a d (SetupChild n s) → child_ok a d (SetupChild n' s').
Proof. destruct d as [[]|], a as [[]|]; cbn; naive_solver. Qed.
Lemma child_ok_login a d n s n' s' :
  child_ok a d (LoginChild n s) → child_ok a d (LoginChild n' s').
Proof. destruct d as [[]|], a as [[]|]; cbn; naive_solver. Qed.

Lemma gate_event_ok e g q :
  gate_inv g q → allowed (C := app) g e →
  gate_inv (fst (gate_handle e g)) (q ++ snd (gate_handle e g)).
Proof.
  intros [H1 H2 H3 H4 H5] [Ho|He].
  - apply gate_offers in Ho as [(n & s & e' & Ec & -> & Ho)|(n & s & e' & Ec & -> & Ho)];
      rewrite Ec in H3; destruct H3 as [Hn H3]; cbn; rewrite Ec.
    + pose proof (run_event (C := setup_wizard) any e' s _ H3 (or_introl Ho)) as Hr. cbn in Hr.
      destruct (setup_handle e' s) as [s' l]. cbn in Hr |- *. split; cbn.
      * rewrite Ec in H1. by eapply child_ok_setup.
      * apply Forall_app. split; [done|by apply numbered_lift_setup].
      * split; [done|]. rewrite own_setup_app, own_lift_setup. by apply callbacks_done.
      * intros E. destruct (H4 E) as (r & Hr' & ?). exists r. split; [set_solver|done].
      * intros E. destruct (H5 E) as (r & Hr' & ?). exists r. split; [set_solver|done].
    + destruct H3 as [Hl Hf].
      assert (let '(s', l) := login_handle e' s in
              length (own_login n (q ++ lift_login n l)) = (if lo_busy s' then 1 else 0)%nat ∧
              Forall (λ r, r ≠ LoggedIn) (own_login n (q ++ lift_login n l))) as Hs.
      { destruct e'; cbn; try (by rewrite app_nil_r).
        destruct (login_offers s LoginSubmit Ho) as [Hb _]. rewrite Hb in *. cbn.
        rewrite own_login_app, length_app, Hl. cbn. rewrite decide_True by done. cbn.
        split; [done|]. apply Forall_app. split; [done|by repeat constructor]. }
      destruct (login_handle e' s) as [s' l]. split; cbn.
      * rewrite Ec in H1. by eapply child_ok_login.
      * apply Forall_app. split; [done|by apply numbered_lift_login].
      * by split.
      * intros E. destruct (H4 E) as (r & Hr' & ?). exists r. split; [set_solver|done].
      * intros E. destruct (H5 E) as (r & Hr' & ?). exists r. split; [set_solver|done].
  - cbn in He. subst e. cbn. pose proof (mount_inv (Some false) (gt_setupDone g) g q H2 H3) as H.
    destruct (mount _ _ g) as [g' l]. destruct H as (-> & Ea & Ed & Ho & Hq & Hc).
    cbn. rewrite app_nil_r. split; try done.
    + by rewrite Ea, Ed.
    + unfold setup_unknown in *. by rewrite Ed.
    + unfold user_unknown. rewrite Ea. intros E. apply bool_decide_eq_true in E as [_ ?]. done.
Qed.

(** Requests of other kinds do not belong to a screen. *)
Lemma own_drop_setup n q1 r q2 :
  (∀ m x, r = OfSetup m x → m ≠ n) → own_setup n (q1 ++ r :: q2) = own_setup n (q1 ++ q2).
Proof.
  intros H. rewrite !own_setup_app. f_equal. destruct r; cbn; try done.
  by rewrite decide_False by by eapply H.
Qed.
Lemma own_drop_login n q1 r q2 :
  (∀ m x, r = OfLogin m x → m ≠ n) → own_login n (q1 ++ r :: q2) = own_login n (q1 ++ q2).
Proof.
  intros H. rewrite !own_login_app. f_equal. destruct r; cbn; try done.
  by rewrite decide_False by by eapply H.
Qed.

(** A screen ignores the answers to the requests of other mounts. *)
Lemma child_inv_drop c k q1 r q2 new :
  match c, r with
  | SetupChild n _, OfSetup m _ => m ≠ n
  | LoginChild n _, OfLogin m _ => m ≠ n
  | _, _ => True
  end →
  (∀ n s, c = SetupChild n s → own_setup n new = []) →
  (∀ n s, c = LoginChild n s → own_login n new = []) →
  child_inv c k (q1 ++ r :: q2) → child_inv c k (q1 ++ q2 ++ new).
Proof.
  intros Hr H1 H2. rewrite app_assoc. destruct c as [|n s|n s|]; cbn [child_inv]; try done;
    intros Hc.
  - rewrite own_setup_app, (H1 n s eq_refl), app_nil_r. rewrite own_drop_setup in Hc; [done|].
    by intros m x ->.
  - rewrite own_login_app, (H2 n s eq_refl), app_nil_r. rewrite own_drop_login in Hc; [done|].
    by intros m x ->.
Qed.

(** The answers to the two questions of the gate. *)
Lemma gate_asked_ok r a g q1 q2 :
  gate_inv g (q1 ++ r :: q2) → asks_setup r || asks_me r = true →
  gate_inv (fst (gate_resume r a g)) (q1 ++ q2 ++ snd (gate_resume r a g)).
Proof.
  intros [H1 H2 H3 H4 H5] Hr.
  assert (Forall (numbered (gt_mounts g)) (q1 ++ q2)) as Hq
    by (apply Forall_app in H2 as [? H2]; inversion H2; by apply Forall_app).
  assert (child_inv (gt_child g) (gt_mounts g) (q1 ++ q2)) as Hc.
  { rewrite <- (app_nil_r q2). apply (child_inv_drop _ _ q1 r); try done.
    by destruct r, (gt_child g). }
  destruct r; try done; cbn [gate_resume].
  - assert (∀ d, d = false ∨ d = true →
      let '(g', l) := mount (gt_authed g) (Some d) g in
      gate_inv g' (q1 ++ q2 ++ l ++ (if d then [AskMe] else []))) as Hm.
    { intros d Hd. pose proof (mount_inv (gt_authed g) (Some d) g _ Hq Hc) as H.
      destruct (mount _ _ g) as [g' l]. destruct H as (-> & Ea & Ed & Ho & Hq' & Hc'). cbn.
      split.
      - by rewrite Ea, Ed.
      - rewrite app_assoc. apply Forall_app. split; [done|]. destruct d; by repeat constructor.
      - rewrite app_assoc. eapply child_inv_eq; [| |exact Hc']; intros n;
          rewrite ?own_setup_app, ?own_login_app; destruct d; by rewrite app_nil_r.
      - unfold setup_unknown. rewrite Ed. done.
      - unfold user_unknown. rewrite Ed. destruct d; [|by intros [? _]%bool_decide_eq_true].
        intros _. exists AskMe. split; [set_solver|done]. }
    destruct a as [[]|e]; cbn [gate_resume].
    + specialize (Hm true). destruct (mount _ _ g) as [g' l]. cbn [fst snd]. by apply Hm; right.
    + specialize (Hm false). destruct (mount _ _ g) as [g' l]. cbn [fst snd].
      rewrite app_nil_r in Hm.
      by apply Hm; left.
    + specialize (Hm true). destruct (mount _ _ g) as [g' l]. cbn [fst snd]. by apply Hm; right.
  - set (b := match a with Ok b => b | Err _ => false end).
    pose proof (mount_inv (Some b) (gt_setupDone g) g _ Hq Hc) as H.
    destruct (mount _ _ g) as [g' l]. destruct H as (-> & Ea & Ed & Ho & Hq' & Hc'). cbn.
    rewrite app_nil_r. split; try done.
    + by rewrite Ea, Ed.
    + unfold setup_unknown in *. rewrite Ed. intros E. destruct (H4 E) as (r & Hr' & ?).
      exists r. split; [|done]. apply elem_of_app in Hr' as [?|[->|?]%elem_of_cons]; [set_solver|done|set_solver].
    + unfold user_unknown. rewrite Ea. by intros [_ ?]%bool_decide_eq_true.
Qed.

(** The answers to the screens' requests. *)
Lemma flags_kept g g' q1 r q2 new :
  gt_setupDone g' = gt_setupDone g → gt_authed g' = gt_authed g →
  asks_setup r || asks_me r = false →
  awaits asks_setup (setup_unknown g) (q1 ++ r :: q2) →
  awaits asks_me (user_unknown g) (q1 ++ r :: q2) →
  awaits asks_setup (setup_unknown g') (q1 ++ q2 ++ new) ∧
  awaits asks_me (user_unknown g') (q1 ++ q2 ++ new).
Proof.
  intros Ed Ea [Hs Hm]%orb_false_iff H4 H5. unfold setup_unknown, user_unknown in *. rewrite Ed, Ea.
  split; (eapply awaits_answer; [eassumption|]); auto.
Qed.

Lemma mounted_setup g n :
  (∃ s, gt_child g = SetupChild n s) ∨ ¬ ∃ s, gt_child g = SetupChild n s.
Proof.
  destruct (gt_child g) as [|m s|m s|]; try (right; by intros [? ?]).
  destruct (decide (m = n)) as [->|]; [left; eauto|right; intros [? ?]; congruence].
Qed.
Lemma mounted_login g n :
  (∃ s, gt_child g = LoginChild n s) ∨ ¬ ∃ s, gt_child g = LoginChild n s.
Proof.
  destruct (gt_child g) as [|m s|m s|]; try (right; by intros [? ?]).
  destruct (decide (m = n)) as [->|]; [left; eauto|right; intros [? ?]; congruence].
Qed.

Lemma gate_setup_ok n r a g q1 q2 :
  gate_inv g (q1 ++ OfSetup n r :: q2) →
  gate_inv (fst (gate_resume (OfSetup n r) a g)) (q1 ++ q2 ++ snd (gate_resume (OfSetup n r) a g)).
Proof.
  intros [H1 H2 H3 H4 H5].
  apply Forall_app in H2 as [Hq1 H2]. inversion H2 as [|? ? Hn Hq2]; subst. cbn in Hn.
  destruct (mounted_setup g n) as [[s Ec]|Hne].
  - cbn. rewrite Ec, decide_True by done. rewrite Ec in H3. destruct H3 as [_ H3].
    rewrite own_setup_app in H3. cbn in H3. rewrite decide_True in H3 by done.
    apply (run_response (C := setup_wizard) any _ r _ a s) in H3; [|exact I]. cbn in H3.
    destruct (setup_resume r a s) as [s' l]. cbn in H3 |- *.
    destruct (flags_kept g (with_child (SetupChild n s') g) q1 (OfSetup n r) q2 (lift_setup n l))
      as [Hf1 Hf2]; try done.
    split; try done.
    + rewrite Ec in H1. by eapply child_ok_setup.
    + rewrite !Forall_app. split_and!; try done. by apply numbered_lift_setup.
    + split; [done|]. rewrite !own_setup_app, own_lift_setup, app_assoc.
      apply callbacks_done. by rewrite <- app_assoc.
  - set (l := lift_setup n (snd (setup_resume r a (fst (c_init setup_wizard))))).
    assert (gate_resume (OfSetup n r) a g = (g, l)) as ->.
    { cbn. destruct (gt_child g) as [|m s|m s|]; try done. rewrite decide_False; [done|].
      intros ->. by destruct Hne; eexists. }
    cbn. destruct (flags_kept g g q1 (OfSetup n r) q2 l) as [Hf1 Hf2]; try done.
    split; try done.
    + rewrite !Forall_app. split_and!; try done. by apply numbered_lift_setup.
    + apply (child_inv_drop _ _ q1 (OfSetup n r)); [| |intros; apply own_login_setup|exact H3].
      * destruct (gt_child g) as [|m s|m s|]; try done. intros ->. by destruct Hne; eexists.
      * intros m s E. apply own_lift_other. intros ->. by destruct Hne; eexists.
Qed.

Lemma own_login_cons n r q : own_login n (OfLogin n r :: q) = r :: own_login n q.
Proof. cbn. by rewrite decide_True by done. Qed.

Lemma gate_login_ok n r a g q1 q2 :
  gate_inv g (q1 ++ OfLogin n r :: q2) →
  gate_inv (fst (gate_resume (OfLogin n r) a g)) (q1 ++ q2 ++ snd (gate_resume (OfLogin n r) a g)).
Proof.
  intros [H1 H2 H3 H4 H5].
  apply Forall_app in H2 as [Hq1 H2]. inversion H2 as [|? ? Hn Hq2]; subst. cbn in Hn.
  destruct (mounted_login g n) as [[s Ec]|Hne].
  - cbn. rewrite Ec, decide_True by done. rewrite Ec in H3. destruct H3 as (_ & Hl & Hf).
    rewrite own_login_app, own_login_cons in Hl, Hf.
    rewrite length_app in Hl. cbn [length] in Hl. apply Forall_app in Hf as [Hf1 Hf2].
    inversion Hf2 as [|? ? Hr Hf3]; subst.
    assert (length (own_login n q1 ++ own_login n q2) = 0%nat) as Hz
      by (rewrite length_app; destruct (lo_busy s); lia).
    apply nil_length_inv, app_eq_nil in Hz as [Hz1 Hz2].
    destruct r as [u p|]; [|done].
    assert (let '(s', l) := login_resume (PostLogin u p) a s in
            lo_busy s' = false ∧ own_login n (lift_login n l) = []) as Hs by (by destruct a).
    destruct (login_resume (PostLogin u p) a s) as [s' l]. destruct Hs as [Hb Ho]. cbn.
    destruct (flags_kept g (with_child (LoginChild n s') g) q1 (OfLogin n (PostLogin u p)) q2 (lift_login n l))
      as [Hg1 Hg2]; try done.
    split; try done.
    + rewrite Ec in H1. by eapply child_ok_login.
    + rewrite !Forall_app. split_and!; try done. by apply numbered_lift_login.
    + split; [done|]. rewrite !own_login_app, Hz1, Hz2, Ho, Hb. by split; [|constructor].
  - set (l := lift_login n (snd (login_resume r a login_init))).
    assert (gate_resume (OfLogin n r) a g = (g, l)) as ->.
    { cbn. destruct (gt_child g) as [|m s|m s|]; try done. rewrite decide_False; [done|].
      intros ->. by destruct Hne; eexists. }
    cbn. destruct (flags_kept g g q1 (OfLogin n r) q2 l) as [Hf1 Hf2]; try done.
    split; try done.
    + rewrite !Forall_app. split_and!; try done. by apply numbered_lift_login.
    + apply (child_inv_drop _ _ q1 (OfLogin n r)); [|intros; apply own_setup_login| |exact H3].
      * destruct (gt_child g) as [|m s|m s|]; try done. intros ->. by destruct Hne; eexists.
      * intros m s E. apply own_lift_login_other. intros ->. by destruct Hne; eexists.
Qed.

#[export] Instance gate_inv_holds : Invariant (C := app) any gate_inv.
Proof.
  split.
  - split; try done; [by repeat constructor|]. intros _. exists AskSetup. split; [left|done].
  - intros e g q Hi Ha. by apply gate_event_ok.
  - intros r a g q1 q2 _ Hi. destruct r; [by apply gate_asked_ok..|by apply gate_setup_ok|by apply gate_login_ok].
Qed.

(** ** Theorems: the gate *)

Notation app_world := (world app).

(** A mounted setup runs as it does on its own. *)
Lemma setup_child_runs (w : app_world) n s :
  reachable any w → gt_child (w_state w) = SetupChild n s →
  gt_setupDone (w_state w) = Some false ∧
  reachable any (World (C := setup_wizard) s (own_setup n (w_flight w))).
Proof.
  intros Hw Hc. pose proof (invariant_holds (C := app) any gate_inv w Hw) as [H1 _ H3 _ _].
  rewrite Hc in H1, H3. destruct H3 as [_ H3]. split; [|exact H3].
  unfold child_ok in H1. repeat case_match; simplify_eq; try done; naive_solver.
Qed.

(** The continuations of the setup never finish it, write for it or log in. *)
Lemma setup_resume_finish r a s u p : PostFinish u p ∉ snd (setup_resume r a s).
Proof.
  destruct r as [|name co|t' vs|g|u' p'| |]; destruct a; cbn; try destruct t'; cbn;
    repeat case_match; set_solver.
Qed.

Lemma lift_setup_in n m r l : OfSetup n r ∈ lift_setup m l → n = m ∧ r ∈ l.
Proof.
  intros (x & Hx & Hl)%list_elem_of_fmap. destruct x; try done; injection Hx as -> ->; done.
Qed.
Lemma lift_login_in n m r l : OfLogin n r ∈ lift_login m l → n = m ∧ r ∈ l.
Proof.
  intros (x & Hx & Hl)%list_elem_of_fmap. destruct x; try done; injection Hx as -> ->; done.
Qed.
Lemma lift_setup_login n m r l : OfLogin n r ∉ lift_setup m l.
Proof. intros (x & Hx & _)%list_elem_of_fmap. by destruct x. Qed.
Lemma lift_login_setup n m r l : OfSetup n r ∉ lift_login m l.
Proof. intros (x & Hx & _)%list_elem_of_fmap. by destruct x. Qed.

(** What the answers to the gate's requests send for the screens. *)
Lemma gate_resume_screens r a g :
  (∀ n u p, OfSetup n (PostFinish u p) ∉ snd (gate_resume r a g)) ∧
  (∀ n u p, OfLogin n (PostLogin u p) ∉ snd (gate_resume r a g)).
Proof.
  assert (∀ x y, (snd (mount x y g)) = []) as Hm.
  { intros x y. pose proof (mount_spec x y g) as H. destruct (mount x y g). by destruct H as [-> _]. }
  assert (∀ x y l, snd (let '(g', l') := mount x y g in (g', l' ++ l)) = l) as Hm'.
  { intros x y l. specialize (Hm x y). destruct (mount x y g). cbn in *. by rewrite Hm. }
  destruct r as [| |m r|m r]; cbn [gate_resume].
  - split; intros n u p; destruct a as [[]|e]; rewrite ?Hm', ?Hm; set_solver.
  - split; intros n u p; rewrite Hm; set_solver.
  - assert (snd (gate_resume (OfSetup m r) a g) = lift_setup m (snd (setup_resume r a
              match gt_child g with
              | SetupChild k s => if decide (k = m) then s else fst (c_init setup_wizard)
              | _ => fst (c_init setup_wizard) end))) as E.
    { cbn. destruct (gt_child g) as [|k s|k s|]; try done. destruct (decide _); [|done].
      by destruct (setup_resume r a s). }
    cbn [gate_resume] in E. rewrite E.
    split; intros n u p; [|apply lift_setup_login]. intros [_ H]%lift_setup_in.
    by apply setup_resume_finish in H.
  - assert (snd (gate_resume (OfLogin m r) a g) = lift_login m (snd (login_resume r a
              match gt_child g with
              | LoginChild k s => if decide (k = m) then s else login_init
              | _ => login_init end))) as E.
    { cbn. destruct (gt_child g) as [|k s|k s|]; try done. destruct (decide _); [|done].
      by destruct (login_resume r a s). }
    cbn [gate_resume] in E. rewrite E.
    split; intros n u p; [apply lift_login_setup|]. intros [_ H]%lift_login_in.
    destruct r, a; cbn in H; set_solver.
Qed.

Lemma unauthorized_quiet g : snd (gate_handle Unauthorized g) = [].
Proof.
  cbn. pose proof (mount_spec (Some false) (gt_setupDone g) g) as H.
  destruct (mount _ _ g). by destruct H as [-> _].
Qed.

(** What the gate has heard about the setup and about the session. *)
Inductive word := Said (b : bool) | Failed | Expired.
Definition status_word (x : wire app) : option word :=
  match x with
  | Received r a =>
      match r return result (gate_resp r) → option word with
      | AskSetup => λ a, Some match a with Ok b => Said b | Err _ => Failed end
      | _ => λ _, None
      end a
  | _ => None
  end.
Definition session_word (x : wire app) : option word :=
  match x with
  | Happened Unauthorized => Some Expired
  | Received r a =>
      match r return result (gate_resp r) → option word with
      | AskMe => λ a, Some match a with Ok b => Said b | Err _ => Failed end
      | _ => λ _, None
      end a
  | _ => None
  end.
(** What it makes of it. *)
Definition done_of (x : word) : bool := match x with Said b => b | _ => true end.
Definition authed_of (x : word) : bool := match x with Said b => b | _ => false end.

Lemma mount_flags a d g :
  gt_authed (fst (mount a d g)) = a ∧ gt_setupDone (fst (mount a d g)) = d.
Proof. pose proof (mount_spec a d g) as H. destruct (mount a d g). by destruct H as (_ & ? & ? & _). Qed.

Lemma omap_sent_none (f : wire app → option word) (l : list (c_req app)) :
  (∀ r, f (Sent r) = None) → omap f (map Sent l) = [].
Proof. intros H. induction l as [|r l IH]; cbn; [done|]. by rewrite H. Qed.

(** The last words decide. *)
Lemma gate_heard t (w : app_world) :
  history any t w →
  gt_setupDone (w_state w) = done_of <$> last (omap status_word t) ∧
  gt_authed (w_state w) = authed_of <$> last (omap session_word t).
Proof.
  induction 1 as [|t e s q _ IH _|t q1 r q2 a s _ IH _]; [done| |]; cbn [w_state] in *.
  - rewrite !omap_app. cbn [omap list_omap status_word]. destruct IH as [H1 H2].
    destruct e as [e|e|]; cbn [session_word]; rewrite !omap_sent_none, ?app_nil_r, ?last_snoc by done.
    + cbn. destruct (gt_child s) as [|n x|n x|]; try done. by destruct (setup_handle e x).
    + cbn. destruct (gt_child s) as [|n x|n x|]; try done. by destruct (login_handle e x).
    + cbn -[mount]. destruct (mount_flags (Some false) (gt_setupDone s) s) as [-> ->]. done.
  - rewrite !omap_app. destruct IH as [H1 H2].
    destruct r as [| |n r|n r]; cbn [omap list_omap status_word session_word];
      rewrite !omap_sent_none, ?app_nil_r, ?last_snoc by done; cbn -[mount].
    + destruct (mount_flags (gt_authed s) (Some true) s) as [E1 E2],
        (mount_flags (gt_authed s) (Some false) s) as [E3 E4].
      destruct a as [[]|e]; [|by rewrite E3, E4|];
        destruct (mount (gt_authed s) (Some true) s); cbn [fst] in *; by rewrite E1, E2.
    + split; [by rewrite (proj2 (mount_flags _ _ _))|rewrite (proj1 (mount_flags _ _ _)); by destruct a].
    + destruct (gt_child s) as [|m x|m x|]; try done. destruct (decide _); [|done].
      by destruct (setup_resume r a x).
    + destruct (gt_child s) as [|m x|m x|]; try done. destruct (decide _); [|done].
      by destruct (login_resume r a x).
Qed.

(** What the gate's screens send, by its flags. *)
Lemma gate_sends (w : app_world) :
  reachable any w →
  (∀ n u p, issues any w (OfSetup n (PostFinish u p)) →
     gt_setupDone (w_state w) = Some false ∧ (6 ≤ length p)%nat ∧
     ∃ s, gt_child (w_state w) = SetupChild n s ∧ su_step s = 6 ∧
       u = su_username s ∧ p = su_password s ∧ blocked (own_setup n (w_flight w)) = 0%nat) ∧
  (∀ n u p, issues any w (OfLogin n (PostLogin u p)) →
     gt_setupDone (w_state w) = Some true ∧ gt_authed (w_state w) = Some false ∧ p ≠ [] ∧
     ∃ s, gt_child (w_state w) = LoginChild n s ∧ u = lo_username s ∧ p = lo_password s ∧
       own_login n (w_flight w) = []).
Proof.
  intros Hw. pose proof (invariant_holds (C := app) any gate_inv w Hw) as [H1 _ H3 _ _].
  split; intros n u p [(e & [Ho|He] & Hin)|(r & a & _ & Hin)]%issues_inv;
    try (by apply (gate_resume_screens r a (w_state w)) in Hin);
    try (cbn in He; subst e; change (c_handle app Unauthorized) with (gate_handle Unauthorized) in Hin;
         rewrite unauthorized_quiet in Hin; by apply elem_of_nil in Hin).
  - apply gate_offers in Ho as [(m & s & e' & Ec & -> & Ho)|(m & s & e' & Ec & -> & Ho)]; cbn in Hin;
      rewrite Ec in Hin.
    + destruct (setup_child_runs w m s Hw Ec) as [Hd Hs].
      assert (PostFinish u p ∈ snd (setup_handle e' s) ∧ n = m) as [Hp ->].
      { destruct (setup_handle e' s) as [s' l]. by apply lift_setup_in in Hin as [-> ?]. }
      apply (issues_event (C := setup_wizard) any (World (C := setup_wizard) s (own_setup m (w_flight w)))
        e' _ (or_introl Ho)) in Hp.
      apply (finish_issued _ u p Hs) in Hp as (? & ? & ? & ? & ?). eauto 10.
    + destruct (login_handle e' s) as [s' l]. by apply lift_login_setup in Hin.
  - apply gate_offers in Ho as [(m & s & e' & Ec & -> & Ho)|(m & s & e' & Ec & -> & Ho)]; cbn in Hin;
      rewrite Ec in Hin, H1, H3.
    + destruct (setup_handle e' s) as [s' l]. by apply lift_setup_login in Hin.
    + apply login_offers in Ho. destruct e'; cbn in Hin; try (by apply elem_of_nil in Hin).
      destruct Ho as [Hb Hp], H3 as (_ & Hl & _). rewrite Hb in Hin, Hl. cbn in Hin.
      apply list_elem_of_singleton in Hin. injection Hin as -> -> ->.
      apply nil_length_inv in Hl. unfold child_ok in H1.
      split; [repeat case_match; simplify_eq; try done; naive_solver|].
      split; [repeat case_match; simplify_eq; try done; naive_solver|]. eauto 10.
Qed.

Lemma status_no_expiry t : last (omap status_word t) ≠ Some Expired.
Proof.
  intros H. apply last_Some_elem_of, list_elem_of_omap in H as (x & _ & H).
  destruct x as [e|r|r a]; try done. destruct r; try done. cbn in H. by destruct a.
Qed.

(** C33: Credentials leave the client only from the screen that asks for them.  The setup is finished
    only while the last word on it is the server's answer that it is not done, from the mounted
    setup's last step, with its name and a password of at least six units, while nothing else of
    it is under way.  A login is sent only from the mounted login, as typed, with a password, and
    not while another login of it is in flight; its screen is up only while the last word on the
    setup is that it is done or that the question failed, which the gate takes for done, and the
    last word on the session is that there is none, that the question failed, or that some request
    found it expired. *)
Theorem gate_guards_credentials t (w : app_world) :
  history any t w →
  (∀ n u p, issues any w (OfSetup n (PostFinish u p)) →
     last (omap status_word t) = Some (Said false) ∧ (6 ≤ length p)%nat ∧
     ∃ s, gt_child (w_state w) = SetupChild n s ∧ su_step s = 6 ∧
       u = su_username s ∧ p = su_password s ∧ blocked (own_setup n (w_flight w)) = 0%nat) ∧
  (∀ n u p, issues any w (OfLogin n (PostLogin u p)) →
     (last (omap status_word t) = Some (Said true) ∨ last (omap status_word t) = Some Failed) ∧
     (∃ x, last (omap session_word t) = Some x ∧ (x = Said false ∨ x = Failed ∨ x = Expired)) ∧ p ≠ [] ∧
     ∃ s, gt_child (w_state w) = LoginChild n s ∧ u = lo_username s ∧ p = lo_password s ∧
       own_login n (w_flight w) = []).
Proof.
  intros Ht. destruct (gate_heard t w Ht) as [Hd Ha].
  destruct (gate_sends w (history_reachable any t w Ht)) as [Hf Hl]. split; intros n u p Hi.
  - destruct (Hf n u p Hi) as (E & H). rewrite Hd in E. split; [|exact H].
    apply fmap_Some in E as (x & -> & E). destruct x as [[]| |]; done.
  - destruct (Hl n u p Hi) as (E1 & E2 & H). rewrite Hd in E1. rewrite Ha in E2.
    apply fmap_Some in E1 as (x & E1 & Ex), E2 as (y & E2 & Ey). split; [|split; [|exact H]].
    + rewrite E1. destruct x as [[]| |]; try done; [by left|by right|]. by apply status_no_expiry in E1.
    + exists y. split; [done|]. destruct y as [[]| |]; auto; done.
Qed.

Definition gate_rank (r : gate_req) : nat :=
  match r with
  | OfSetup _ (PostFinish _ _) => 3
  | OfSetup _ DoneTimer | OfSetup _ (WriteEnv _ _) | OfSetup _ (PostCompany _ _) => 2
  | OfLogin _ (PostLogin _ _) => 2
  | AskSetup | OfSetup _ (RunTest _) => 1
  | _ => 0
  end.

#[export] Instance gate_ranked : Ranked app.
Proof.
  refine {| rank := gate_rank : c_req app → nat |}. intros r a g.
  change (Forall (λ x, (gate_rank x < gate_rank r)%nat) (snd (gate_resume r a g))).
  assert (∀ x y l, snd (let '(g', l') := mount x y g in (g', l' ++ l)) = l) as Hm.
  { intros x y l. pose proof (mount_spec x y g) as H. destruct (mount x y g). by destruct H as [-> _]. }
  assert (∀ x y, snd (mount x y g) = []) as Hm'.
  { intros x y. pose proof (mount_spec x y g) as H. destruct (mount x y g). by destruct H as [-> _]. }
  assert (∀ m r a s, Forall (λ x, (gate_rank x < gate_rank (OfSetup m r))%nat)
                       (lift_setup m (snd (setup_resume r a s)))) as Hs.
  { intros m x b s. destruct x as [|name co|t vs|k|u p| |]; destruct b; cbn; try destruct t; cbn;
      repeat case_match; repeat constructor. }
  assert (∀ m r a s, Forall (λ x, (gate_rank x < gate_rank (OfLogin m r))%nat)
                       (lift_login m (snd (login_resume r a s)))) as Hl.
  { intros m x b s. destruct x, b; repeat constructor. }
  destruct r as [| |m r|m r]; cbn [gate_resume].
  - destruct a as [[]|e]; rewrite ?Hm, ?Hm'; repeat constructor.
  - rewrite Hm'. constructor.
  - destruct (gt_child g) as [|k s|k s|]; try apply Hs. destruct (decide _); [|apply Hs].
    specialize (Hs m r a s). by destruct (setup_resume r a s).
  - destruct (gt_child g) as [|k s|k s|]; try apply Hl. destruct (decide _); [|apply Hl].
    specialize (Hl m r a s). by destruct (login_resume r a s).
Defined.

(** The first page always appears.  From every reachable state of the gate no infinite sequence of
    answers is possible, the restart after the setup included, and once the last request has been
    answered, with values or errors, the gate shows the setup, the login or the dashboard and not
    the text that it is still loading. *)
Theorem gate_settles (w : world app) :
  reachable any w →
  Acc (flip (answered any)) w ∧
  ∀ w', rtc (answered any) w w' → w_flight w' = [] → gt_child (w_state w') ≠ NoChild.
Proof.
  intros Hw. split; [apply (answers_terminate any)|]. intros w' Hr Hf.
  apply (answers_reachable any w w' Hw) in Hr.
  pose proof (invariant_holds (C := app) any gate_inv w' Hr) as [H1 _ _ H4 H5].
  rewrite Hf in *. apply awaits_nil in H4, H5.
  apply bool_decide_eq_false in H4, H5. unfold child_ok in H1. intros E. rewrite E in H1.
  repeat case_match; simplify_eq; naive_solver.
Qed.

(** ** Witnesses *)

Definition to_login : list (action app) :=
  [Answer (C := app) 0 AskSetup (Ok true); Answer (C := app) 0 AskMe (Ok false);
   Do (C := app) (LoginEvent (LoginPassword "secret"))].

Lemma to_login_reachable : reachable any (play to_login (init_world app)).
Proof.
  apply play_reachable; [apply reach_init|]. split; [split; [reflexivity|exact I]|].
  split; [split; [reflexivity|exact I]|]. split; [|exact I].
  left. eapply (offers_nth _ 1); [vm_compute; reflexivity|by eexists].
Defined.

Definition login_wire : list (wire app) := Sent (C := app) AskSetup :: recorded to_login (init_world app).
Lemma to_login_history : history any login_wire (play to_login (init_world app)).
Proof.
  apply (play_history any to_login [Sent (C := app) AskSetup]); [exact (history_start (C := app) any)|].
  split; [split; [reflexivity|exact I]|]. split; [split; [reflexivity|exact I]|]. split; [|exact I].
  left. eapply (offers_nth _ 1); [vm_compute; reflexivity|by eexists].
Defined.

Lemma gate_guards_credentials_witness :
  let w := play to_login (init_world app) in
  (∀ n u p, issues any w (OfSetup n (PostFinish u p)) →
     last (omap status_word login_wire) = Some (Said false) ∧ (6 ≤ length p)%nat ∧
     ∃ s, gt_child (w_state w) = SetupChild n s ∧ su_step s = 6 ∧
       u = su_username s ∧ p = su_password s ∧ blocked (own_setup n (w_flight w)) = 0%nat) ∧
  (∀ n u p, issues any w (OfLogin n (PostLogin u p)) →
     (last (omap status_word login_wire) = Some (Said true) ∨
      last (omap status_word login_wire) = Some Failed) ∧
     (∃ x, last (omap session_word login_wire) = Some x ∧ (x = Said false ∨ x = Failed ∨ x = Expired)) ∧
     p ≠ [] ∧
     ∃ s, gt_child (w_state w) = LoginChild n s ∧ u = lo_username s ∧ p = lo_password s ∧
       own_login n (w_flight w) = []).
Proof. intros w. apply (gate_guards_credentials login_wire w to_login_history). Defined.

(** A gap: the login comes up when the server answers neither question, a first run among them. *)
Theorem login_without_answer e1 e2 :
  let w := play [Answer (C := app) 0 AskSetup (Err e1); Answer (C := app) 0 AskMe (Err e2)] (init_world app) in
  reachable any w ∧ ∃ n s, gt_child (w_state w) = LoginChild n s.
Proof.
  cbn zeta. split; [|by do 2 eexists].
  apply play_reachable; [apply reach_init|]. by repeat split.
Qed.

Lemma gate_settles_witness :
  let w := play to_login (init_world app) in
  Acc (flip (answered any)) w ∧
  ∀ w', rtc (answered any) w w' → w_flight w' = [] → gt_child (w_state w') ≠ NoChild.
Proof. intros w. apply (gate_settles w to_login_reachable). Defined.
