(* ===== verification/Prefs.v ===== *)
(** The preferences of the view: the theme (theme-context.tsx, components/ThemeToggle.tsx), the
    density mode (ui-mode-context.tsx), their storage, and the script of index.html that paints
    the theme before React mounts. *)

From S2P Require Import Prelude React Behaviour.

(** ** Theme *)

Inductive ThemePref := Light | Dark | Auto.
Inductive ResolvedTheme := RLight | RDark.
#[export] Instance ThemePref_eq_dec : EqDecision ThemePref.
Proof. solve_decision. Defined.
#[export] Instance ResolvedTheme_eq_dec : EqDecision ResolvedTheme.
Proof. solve_decision. Defined.

Definition pref_text (p : ThemePref) : jsstr :=
  match p with Light => "light" | Dark => "dark" | Auto => "auto" end.
Definition resolved_text (t : ResolvedTheme) : jsstr :=
  match t with RLight => "light" | RDark => "dark" end.

Definition THEME_KEY : jsstr := "theme".

Definition readPref (st : storage) : ThemePref :=
  match storage_get st THEME_KEY with
  | Some v => if bool_decide (v = "light"%js) then Light
              else if bool_decide (v = "dark"%js) then Dark else Auto
  | None => Auto
  end.

(** [mq] is the dark-mode media query of the host; [None] where [matchMedia] is missing. *)
Definition systemDark (mq : option bool) : bool := default false mq.

Definition resolve (pref : ThemePref) (sysDark : bool) : ResolvedTheme :=
  match pref with
  | Auto => if sysDark then RDark else RLight
  | Light => RLight
  | Dark => RDark
  end.

(** The part of the document that shows the theme: [data-theme] of the root element and the
    content of the theme-color meta, which is there or not. *)
Record document := { do_theme : option jsstr; do_meta : option jsstr }.

Definition meta_color (t : ResolvedTheme) : jsstr :=
  match t with RDark => "#121212" | RLight => "#fafafa" end.

Definition applyTheme (t : ResolvedTheme) (d : document) : document :=
  {| do_theme := Some (resolved_text t); do_meta := option_map (λ _, meta_color t) (do_meta d) |}.

(** ** Mode *)

Inductive UiMode := LowMode | HighMode.

Definition MODE_KEY : jsstr := "ui-mode".
Definition mode_text (m : UiMode) : jsstr := match m with LowMode => "low" | HighMode => "high" end.
Definition readMode (st : storage) : UiMode :=
  if bool_decide (storage_get st MODE_KEY = Some "high"%js) then HighMode else LowMode.

(** ** The script of index.html *)

Definition page_start : document := {| do_theme := None; do_meta := Some "#fafafa" |}.

Definition anti_fouc (st : storage) (mq : option bool) (d : document) : document :=
  match st with
  | None => {| do_theme := Some "light"; do_meta := do_meta d |}
  | Some m =>
      let pref := js_or (default [] (m !! THEME_KEY)) "auto" in
      let dark := bool_decide (pref = "dark"%js)
                  || (bool_decide (pref = "auto"%js) && systemDark mq) in
      applyTheme (if dark then RDark else RLight) d
  end.

(** ** The providers *)

Record prefs := {
  pr_pref : ThemePref;
  pr_sysDark : bool;
  pr_mode : UiMode;
  pr_storage : storage;
  pr_refused : bool;                                 (* whether a write to it throws *)
  pr_document : document
}.

Inductive prefs_event :=
| SetPref (p : ThemePref)
| SetMode (m : UiMode)
| OsChange (dark : bool)                           (* the listener of the media query *)
| Refuses (b : bool).                              (* the browser refuses writes from now on, or not *)

Definition resolved (s : prefs) : ResolvedTheme := resolve (pr_pref s) (pr_sysDark s).

(** A change of the theme's state, with the effect keyed on the resolved theme. *)
Definition set_theme (p : ThemePref) (dark : bool) (st : storage) (s : prefs) : prefs :=
  let t := resolve p dark in
  {| pr_pref := p; pr_sysDark := dark; pr_mode := pr_mode s; pr_storage := st;
     pr_refused := pr_refused s;
     pr_document := if decide (t = resolved s) then pr_document s
                    else applyTheme t (pr_document s) |}.

Definition prefs_handle (e : prefs_event) (s : prefs) : prefs :=
  match e with
  | SetPref p =>
      set_theme p (pr_sysDark s) (storage_set (pr_refused s) (pr_storage s) THEME_KEY (pref_text p)) s
  | SetMode m =>
      {| pr_pref := pr_pref s; pr_sysDark := pr_sysDark s; pr_mode := m;
         pr_storage := storage_set (pr_refused s) (pr_storage s) MODE_KEY (mode_text m);
         pr_refused := pr_refused s; pr_document := pr_document s |}
  | OsChange dark => set_theme (pr_pref s) dark (pr_storage s) s
  | Refuses b =>
      {| pr_pref := pr_pref s; pr_sysDark := pr_sysDark s; pr_mode := pr_mode s;
         pr_storage := pr_storage s; pr_refused := b; pr_document := pr_document s |}
  end.

Definition OPTIONS : list (ThemePref * jsstr * jsstr) :=
  [(Light, "Sáng"%js, "Giao diện sáng"%js); (Dark, "Tối"%js, "Giao diện tối"%js);
   (Auto, "Tự động"%js, "Theo hệ điều hành"%js)].

Definition theme_option (pref : ThemePref) (o : ThemePref * jsstr * jsstr) : node prefs_event :=
  let '(p, label, title) := o in
  El "button" [AStr "type" "button";
               AStr "className" (if bool_decide (p = pref) then "theme-toggle-btn active"
                                 else "theme-toggle-btn");
               ABool "aria-pressed" (bool_decide (p = pref)); AStr "title" title;
               AOn (OnClick (SetPref p))] [Txt label].

Definition ThemeToggle (s : prefs) : list (node prefs_event) :=
  [El "div" [AStr "className" "theme-toggle"; AStr "role" "group"; AStr "aria-label" "Giao diện"]
     (map (theme_option (pr_pref s)) OPTIONS)].

(** Mounting both providers on the document [d]. *)
Definition prefs_mount (st : storage) (mq : option bool) (d : document) : prefs :=
  let p := readPref st in
  {| pr_pref := p; pr_sysDark := systemDark mq; pr_mode := readMode st; pr_storage := st;
     pr_refused := false; pr_document := applyTheme (resolve p (systemDark mq)) d |}.

(** The mode is set from the settings page; the system reports changes where it has a media
    query; and the browser may refuse writes to the storage at any time. *)
Definition preferences (st : storage) (mq : option bool) (d : document) : component :=
  {| c_state := prefs; c_event := prefs_event; c_req := Empty_set; c_resp := λ _, unit;
     c_init := (prefs_mount st mq d, []);
     c_view := ThemeToggle;
     c_env := λ _ e, match e with OsChange _ => is_Some mq | SetMode _ | Refuses _ => True | SetPref _ => False end;
     c_handle := λ e s, (prefs_handle e s, []); c_resume := λ r _ s, (s, []) |}.

(** ** Theorems *)

(** Storing a value and reading it back. *)
Lemma storage_get_set st k k' v :
  is_Some st →
  storage_get (storage_set false st k v) k' = if decide (k' = k) then Some v else storage_get st k'.
Proof.
  intros [m ->]. cbn. destruct (decide (k' = k)) as [->|]; [by rewrite lookup_insert_eq|].
  by rewrite lookup_insert_ne.
Qed.
Lemma storage_set_works b st k v : is_Some (storage_set b st k v) ↔ is_Some st.
Proof. unfold storage_set. destruct b; [done|]. destruct st; cbn; split; intros []; eauto. Qed.

Lemma readPref_text p : readPref (Some {[THEME_KEY := pref_text p]}) = p.
Proof. by destruct p. Qed.

Definition painted (s : prefs) : Prop :=
  do_theme (pr_document s) = Some (resolved_text (resolved s)) ∧
  (∀ c, do_meta (pr_document s) = Some c → c = meta_color (resolved s)).

Lemma applyTheme_painted t d :
  do_theme (applyTheme t d) = Some (resolved_text t) ∧
  (∀ c, do_meta (applyTheme t d) = Some c → c = meta_color t).
Proof. split; [done|]. cbn. destruct (do_meta d); cbn; [|done]. by intros c [= <-]. Qed.

Lemma set_theme_painted p dark st s : painted s → painted (set_theme p dark st s).
Proof.
  intros Hp. unfold painted, set_theme, resolved in *. cbn.
  destruct (decide (resolve p dark = resolve (pr_pref s) (pr_sysDark s))) as [E|_].
  - rewrite E. exact Hp.
  - apply applyTheme_painted.
Qed.

Lemma mount_painted st mq d : painted (prefs_mount st mq d).
Proof. apply applyTheme_painted. Qed.

#[export] Instance prefs_inv_holds st mq d :
  Invariant (C := preferences st mq d) any (λ s _, painted s).
Proof.
  split.
  - apply applyTheme_painted.
  - intros e s q Hp _. destruct e as [p|m|dark|b]; cbn;
      [by apply set_theme_painted|exact Hp|by apply set_theme_painted|exact Hp].
  - intros [].
Qed.

(** *** What of the choices made is kept: that the last write of each was not refused *)

Record kept := { kp_refused : bool; kp_theme : bool; kp_mode : bool }.
Definition all_kept : kept := {| kp_refused := false; kp_theme := true; kp_mode := true |}.
Definition keep {st mq d} (k : kept) (x : wire (preferences st mq d)) : kept :=
  match x with
  | Happened e =>
      match e : prefs_event with
      | SetPref _ => {| kp_refused := kp_refused k; kp_theme := negb (kp_refused k); kp_mode := kp_mode k |}
      | SetMode _ => {| kp_refused := kp_refused k; kp_theme := kp_theme k; kp_mode := negb (kp_refused k) |}
      | Refuses b => {| kp_refused := b; kp_theme := kp_theme k; kp_mode := kp_mode k |}
      | OsChange _ => k
      end
  | _ => k
  end.
Definition kept_after {st mq d} (t : list (wire (preferences st mq d))) : kept := foldl keep all_kept t.

(** The storage, where it can be read, holds what is kept. *)
Definition stored (k : kept) (s : prefs) : Prop :=
  kp_refused k = pr_refused s ∧
  (is_Some (pr_storage s) →
     (kp_theme k = true → readPref (pr_storage s) = pr_pref s) ∧
     (kp_mode k = true → readMode (pr_storage s) = pr_mode s)).

Lemma stored_event {st mq d} e k s :
  stored k s → stored (keep (st := st) (mq := mq) (d := d) k (Happened e)) (prefs_handle e s).
Proof.
  intros [Hr Hs]. destruct e as [p|m|dark|b]; cbn; (split; [done|]); cbn; [| |exact Hs|exact Hs];
    rewrite storage_set_works; intros Hw; destruct (Hs Hw) as [Ht Hm]; rewrite Hr;
    destruct (pr_refused s); cbn [negb]; (split; intros Hk); try done; try (by apply Ht); try (by apply Hm);
    unfold readPref, readMode in *; rewrite storage_get_set by done.
  - by destruct p.
  - by apply Hm.
  - by apply Ht.
  - by destruct m.
Qed.

Lemma history_stored st mq d t (w : world (preferences st mq d)) :
  history any t w → stored (kept_after t) (w_state w).
Proof.
  induction 1 as [|t e s q _ IH _|t q1 [] q2 a s _ _ _]; [done|].
  unfold kept_after. rewrite foldl_app. exact (stored_event e _ s IH).
Qed.

(** C36: The page is painted in the chosen theme, and a choice that could be written survives a reload.
    In every reachable state of the providers the document shows the resolved theme, the color of
    its meta element included.  Where the storage can be read, mounting the providers again on
    what is stored gives the same theme, painted alike while the system's preference is the same,
    if the last write of a theme was not refused; and the same mode, if the last write of a mode
    was not. *)
Theorem prefs_survive_reload st mq d t (w : world (preferences st mq d)) :
  history any t w →
  let s := w_state w in
  painted s ∧
  (is_Some (pr_storage s) → ∀ d',
     let s' := prefs_mount (pr_storage s) (Some (pr_sysDark s)) d' in
     (kp_theme (kept_after t) = true →
        pr_pref s' = pr_pref s ∧ resolved s' = resolved s ∧ painted s') ∧
     (kp_mode (kept_after t) = true → pr_mode s' = pr_mode s)).
Proof.
  intros Ht. split.
  - exact (invariant_holds (C := preferences st mq d) any _ w (history_reachable any t w Ht)).
  - intros Hst d'. destruct (history_stored st mq d t w Ht) as [_ Hs]. destruct (Hs Hst) as [H1 H2].
    cbn zeta. split; [|exact H2]. intros Hk. split; [exact (H1 Hk)|]. split; [|apply mount_painted].
    unfold resolved. cbn. by rewrite (H1 Hk).
Qed.

(** C37: The script of the page and the provider paint the same theme, except where they read the
    storage differently.  On the page as it is served they leave the same document exactly when
    the system is not dark, or the storage works and holds a theme the provider knows, or
    nothing.  With any other stored value, or with a storage that throws, the first painting is
    light and the provider turns it dark. *)
Theorem script_agrees_with_provider st mq :
  anti_fouc st mq page_start = pr_document (prefs_mount st mq page_start) ↔
  (systemDark mq = true → ∃ m, st = Some m ∧
     (m !! THEME_KEY = None ∨ m !! THEME_KEY = Some [] ∨ ∃ p, m !! THEME_KEY = Some (pref_text p))).
Proof.
  unfold prefs_mount, anti_fouc, readPref, storage_get. cbn [pr_document].
  set (k := THEME_KEY). clearbody k.
  destruct st as [m|]; cbn [mbind option_bind].
  - destruct (m !! k) as [v|] eqn:E; cbn [default from_option id].
    + destruct (decide (v = [])) as [->|Hv].
      { cbn. destruct (systemDark mq); naive_solver. }
      unfold js_or. rewrite (proj2 (truthy_spec v) Hv).
      destruct (decide (v = "light"%js)) as [->|H1]; [cbn; split; [|done]; intros _ _; exists m;
        split; [done|]; rewrite E; right; right; by exists Light|].
      destruct (decide (v = "dark"%js)) as [->|H2]; [cbn; split; [|done]; intros _ _; exists m;
        split; [done|]; rewrite E; right; right; by exists Dark|].
      rewrite !(bool_decide_eq_false_2 (v = "light"%js)), !(bool_decide_eq_false_2 (v = "dark"%js)) by done.
      destruct (decide (v = "auto"%js)) as [->|H3].
      * cbn. split; [|by destruct (systemDark mq)]. intros _ _. exists m. split; [done|].
        rewrite E. right. right. by exists Auto.
      * rewrite bool_decide_eq_false_2 by done. cbn. destruct (systemDark mq); cbn; [|done].
        split; [done|]. intros H. destruct (H eq_refl) as (m' & Hm & H'). injection Hm as <-.
        destruct H' as [H'|[H'|[p H']]]; pose proof (eq_trans (eq_sym E) H') as Ev; [done|by injection Ev|].
        injection Ev as ->. by destruct p.
    + cbn. destruct (systemDark mq); [|done]. split; [|done]. intros _ _. exists m. auto.
  - cbn. destruct (systemDark mq); cbn; [|done].
    split; [done|]. intros H. destruct (H eq_refl) as (m' & ? & _). done.
Qed.

(** ** Witnesses *)

Definition to_dark : list (action (preferences (Some ∅) None page_start)) :=
  [Do (C := preferences (Some ∅) None page_start) (SetPref Dark)].

Definition dark_wire : list (wire (preferences (Some ∅) None page_start)) :=
  recorded to_dark (init_world (preferences (Some ∅) None page_start)).
Lemma to_dark_history :
  history any dark_wire (play to_dark (init_world (preferences (Some ∅) None page_start))).
Proof.
  apply (play_history any to_dark []); [exact (history_start (C := preferences (Some ∅) None page_start) any)|].
  split; [|exact I]. left. eapply (offers_nth _ 1); [vm_compute; reflexivity|reflexivity].
Defined.

Lemma prefs_survive_reload_witness :
  let w := play to_dark (init_world (preferences (Some ∅) None page_start)) in
  let s := w_state w in
  painted s ∧
  (is_Some (pr_storage s) → ∀ d',
     let s' := prefs_mount (pr_storage s) (Some (pr_sysDark s)) d' in
     (kp_theme (kept_after dark_wire) = true →
        pr_pref s' = pr_pref s ∧ resolved s' = resolved s ∧ painted s') ∧
     (kp_mode (kept_after dark_wire) = true → pr_mode s' = pr_mode s)).
Proof. intros w. apply (prefs_survive_reload _ _ _ dark_wire w to_dark_history). Defined.

(** A gap, which the code accepts: a refused write is not told, and the choice is gone after the next
    load. *)
Theorem refused_choice_lost :
  let C := preferences (Some ∅) None page_start in
  let w := play [Do (C := C) (Refuses true); Do (C := C) (SetPref Dark)] (init_world C) in
  let s' := prefs_mount (pr_storage (w_state w)) None page_start in
  reachable any w ∧ pr_pref (w_state w) = Dark ∧ painted (w_state w) ∧ pr_pref s' = Auto ∧ resolved s' = RLight.
Proof.
  intros C w s'. split; [|vm_compute; split; [done|]; split; [split; [done|by intros c [= <-]]|done]].
  apply play_reachable; [apply reach_init|]. split; [by right|]. split; [|exact I].
  left. eapply (offers_nth _ 1); [vm_compute; reflexivity|reflexivity].
Qed.
