(* ===== verification/Knowledge.v ===== *)
(** The knowledge tab of an agent's page (views/AgentKnowledgeTab.tsx): the two documents edited as
    a form or as raw text, and the pickers of skills and of company documents. *)

From stdpp Require Import relations.
From S2P Require Import Prelude React Behaviour Types.

(** ** The pickers

    [SkillsPicker] and [CompanyDocsPicker] are the same component over different items; here they
    are one, over a description of the items and of the texts. *)

Record picker_kind := {
  pi_item : Type;
  pi_key : pi_item → jsstr;
  pi_selected : pi_item → bool;
  pi_label : ∀ E, pi_item → list (node E);
  pi_plain : ∀ E x (e : E), offers (pi_label E x) e → False;
  pi_class : jsstr; pi_title : jsstr; pi_empty : jsstr;
  pi_error : jsstr; pi_loading : jsstr; pi_save : jsstr
}.

Definition doc_label (E : Type) (d : DocEntry) : list (node E) := [El "strong" [] [Txt (de_title d)]].
Definition skill_label (E : Type) (s : SkillEntry) : list (node E) :=
  [El "strong" [] [Txt (sk_name s)]; Txt " — ";
   El "span" [AStr "className" "muted"] [Txt (sk_description s)]].

Lemma doc_label_plain E d (e : E) : offers (doc_label E d) e → False.
Proof. intros H. unfold doc_label in H. inv_offers. Qed.
Lemma skill_label_plain E s (e : E) : offers (skill_label E s) e → False.
Proof. intros H. unfold skill_label in H. inv_offers. Qed.

Definition CompanyDocsPicker : picker_kind := {|
  pi_item := DocEntry; pi_key := de_slug; pi_selected := de_selected;
  pi_label := doc_label; pi_plain := doc_label_plain;
  pi_class := "company-docs-picker"; pi_title := "Tài liệu công ty";
  pi_empty := "Chưa có tài liệu nào trong kho. Thêm ở mục Tài liệu công ty (trong Đội) rồi tick cho agent tại đây.";
  pi_error := "Lỗi tài liệu: "; pi_loading := "Đang tải tài liệu…"; pi_save := "Lưu tài liệu" |}.

Definition SkillsPicker : picker_kind := {|
  pi_item := SkillEntry; pi_key := sk_name; pi_selected := sk_selected;
  pi_label := skill_label; pi_plain := skill_label_plain;
  pi_class := "skills-picker"; pi_title := "Kỹ năng";
  pi_empty := "Domain này chưa có kỹ năng nào.";
  pi_error := "Lỗi kỹ năng: "; pi_loading := "Đang tải kỹ năng…"; pi_save := "Lưu kỹ năng" |}.

(** A JavaScript [Set] of strings: its members in insertion order. *)
Definition set_of (l : list jsstr) : list jsstr :=
  foldl (λ s x, if decide (x ∈ s) then s else s ++ [x]) [] l.
Definition set_toggle (x : jsstr) (s : list jsstr) : list jsstr :=
  if decide (x ∈ s) then List.filter (λ y, negb (bool_decide (y = x))) s else s ++ [x].

Section Picker.
Context (K : picker_kind).

Record picker := {
  pi_id : jsstr;                                   (* prop id *)
  pi_items : option (list (pi_item K));
  pi_chosen : list jsstr;
  pi_busy : bool;
  pi_failed : option jsstr;
  pi_saved : bool;
  pi_dirty : bool
}.

Inductive picker_event :=
| PickerAgent (id : jsstr)                         (* the prop changes *)
| ToggleItem (key : jsstr)
| SaveItems.

Inductive picker_req := LoadItems (id : jsstr) | PutItems (id : jsstr) (keys : list jsstr).

Definition picker_resp (r : picker_req) : Type :=
  match r with LoadItems _ => list (pi_item K) | PutItems _ _ => unit end.

Definition picker_handle (e : picker_event) (s : picker) : picker * list picker_req :=
  match e with
  | PickerAgent id =>
      ({| pi_id := id; pi_items := pi_items s; pi_chosen := pi_chosen s; pi_busy := pi_busy s;
          pi_failed := pi_failed s; pi_saved := pi_saved s; pi_dirty := pi_dirty s |},
       if decide (id = pi_id s) then [] else [LoadItems id])
  | ToggleItem key =>
      ({| pi_id := pi_id s; pi_items := pi_items s; pi_chosen := set_toggle key (pi_chosen s);
          pi_busy := pi_busy s; pi_failed := pi_failed s; pi_saved := false; pi_dirty := true |}, [])
  | SaveItems =>
      ({| pi_id := pi_id s; pi_items := pi_items s; pi_chosen := pi_chosen s; pi_busy := true;
          pi_failed := None; pi_saved := false; pi_dirty := pi_dirty s |},
       [PutItems (pi_id s) (pi_chosen s)])
  end.

Definition fail_picker (busy : bool) (e : jsstr) (s : picker) : picker :=
  {| pi_id := pi_id s; pi_items := pi_items s; pi_chosen := pi_chosen s; pi_busy := busy;
     pi_failed := Some e; pi_saved := pi_saved s; pi_dirty := pi_dirty s |}.

Definition picker_resume (r : picker_req) :
    result (picker_resp r) → picker → picker * list picker_req :=
  match r return result (picker_resp r) → picker → picker * list picker_req with
  | LoadItems _ => λ a s,
      (match a with
       | Ok l =>
           {| pi_id := pi_id s; pi_items := Some l;
              pi_chosen := set_of (map (pi_key K) (List.filter (pi_selected K) l));
              pi_busy := pi_busy s; pi_failed := pi_failed s; pi_saved := pi_saved s;
              pi_dirty := false |}
       | Err e => fail_picker (pi_busy s) (error_message e "lỗi") s
       end, [])
  | PutItems _ _ => λ a s,
      (match a with
       | Ok _ =>
           {| pi_id := pi_id s; pi_items := pi_items s; pi_chosen := pi_chosen s;
              pi_busy := false; pi_failed := pi_failed s; pi_saved := true; pi_dirty := false |}
       | Err e => fail_picker false (api_error_message e "lưu thất bại") s
       end, [])
  end.

Definition ticked (s : picker) (x : pi_item K) : bool := bool_decide (pi_key K x ∈ pi_chosen s).

Definition item_row (s : picker) (x : pi_item K) : node picker_event :=
  El "li" [] [
    El "label" [] (
      El "input" [AStr "type" "checkbox";
                  ABool "checked" (ticked s x);
                  AOn (OnCheck (λ _, ToggleItem (pi_key K x)))] []
      :: pi_label K picker_event x)].

Definition Picker (s : picker) : list (node picker_event) :=
  match present (pi_failed s) with
  | Some e => [El "p" [AStr "className" "error"] [Txt (pi_error K); Txt e]]
  | None =>
      match pi_items s with
      | None => [El "p" [] [Txt (pi_loading K)]]
      | Some l =>
          [El "section" [AStr "className" (pi_class K)] [
            El "h4" [] [Txt (pi_title K)];
            match l with
            | [] => El "p" [AStr "className" "muted"] [Txt (pi_empty K)]
            | _ => El "ul" [AStr "className" "skills-list"] (map (item_row s) l)
            end;
            El "div" [AStr "className" "agent-actions"] (
              [El "button" [AStr "type" "button"; ADisabled (pi_busy s); AOn (OnClick SaveItems)]
                 [Txt (if pi_busy s then "Đang lưu…" else pi_save K)]]
              ++ when (pi_dirty s) [El "span" [AStr "className" "unsaved"] [Txt "● Chưa lưu"]]
              ++ when (pi_saved s) [El "span" [AStr "className" "ok"] [Txt "✓ Đã lưu"]])]]
      end
  end.

Definition picker_page (id : jsstr) : component :=
  {| c_state := picker; c_event := picker_event; c_req := picker_req; c_resp := picker_resp;
     c_init := ({| pi_id := id; pi_items := None; pi_chosen := []; pi_busy := false;
                   pi_failed := None; pi_saved := false; pi_dirty := false |}, [LoadItems id]);
     c_view := Picker; c_env := λ _ e, match e with PickerAgent _ => True | _ => False end;
     c_handle := picker_handle; c_resume := picker_resume |}.

End Picker.

Arguments pi_id {K} p.
Arguments pi_items {K} p.
Arguments pi_chosen {K} p.
Arguments pi_busy {K} p.
Arguments pi_failed {K} p.
Arguments pi_saved {K} p.
Arguments pi_dirty {K} p.

Definition company_docs_picker (id : jsstr) : component := picker_page CompanyDocsPicker id.
Definition skills_picker (id : jsstr) : component := picker_page SkillsPicker id.

(** ** A document of the agent *)

Record knowledge_field := { kf_key : jsstr; kf_label : jsstr; kf_big : bool }.

Definition KNOWLEDGE_FIELDS (d : knowledge_doc) : list knowledge_field :=
  match d with
  | Soul => [
      {| kf_key := "role"; kf_label := "Vai trò của agent (1 câu)"; kf_big := false |};
      {| kf_key := "tone"; kf_label := "Giọng điệu khi trả lời"; kf_big := false |};
      {| kf_key := "rules"; kf_label := "Quy tắc riêng (mỗi dòng một ý)"; kf_big := true |}]
  | Project => [
      {| kf_key := "team"; kf_label := "Thành viên đội + vai trò"; kf_big := true |};
      {| kf_key := "conventions"; kf_label := "Quy ước (nhãn, quy trình…)"; kf_big := true |};
      {| kf_key := "notes"; kf_label := "Ghi chú khác"; kf_big := true |}]
  end.

Record know := {
  kn_id : jsstr;                                   (* prop id *)
  kn_data : option KnowledgePayload;
  kn_fields : gmap jsstr jsstr;
  kn_rawText : jsstr;
  kn_busy : bool;
  kn_error : option jsstr;
  kn_saved : bool;
  kn_dirty : bool
}.

Inductive know_event :=
| KnowAgent (id : jsstr)                           (* the prop changes *)
| EditRaw (v : jsstr)
| EditField (key v : jsstr)
| SaveDoc.

Inductive know_req :=
| LoadDoc (id : jsstr)
| PutRaw (id raw : jsstr)
| PutForm (id : jsstr) (fields : gmap jsstr jsstr).

Definition know_resp (r : know_req) : Type :=
  match r with LoadDoc _ => KnowledgePayload | PutRaw _ _ | PutForm _ _ => unit end.

(** The edits: [edit()], then the new text. *)
Definition know_edit (fields : gmap jsstr jsstr) (raw : jsstr) (s : know) : know :=
  {| kn_id := kn_id s; kn_data := kn_data s; kn_fields := fields; kn_rawText := raw;
     kn_busy := kn_busy s; kn_error := kn_error s; kn_saved := false; kn_dirty := true |}.

Definition know_flags (busy : bool) (error : option jsstr) (saved dirty : bool) (s : know) : know :=
  {| kn_id := kn_id s; kn_data := kn_data s; kn_fields := kn_fields s; kn_rawText := kn_rawText s;
     kn_busy := busy; kn_error := error; kn_saved := saved; kn_dirty := dirty |}.

Definition raw_mode (s : know) : bool :=
  match kn_data s with Some d => kp_raw_mode d | None => false end.

Definition know_handle (e : know_event) (s : know) : know * list know_req :=
  match e with
  | KnowAgent id =>
      ({| kn_id := id; kn_data := kn_data s; kn_fields := kn_fields s; kn_rawText := kn_rawText s;
          kn_busy := kn_busy s; kn_error := kn_error s; kn_saved := kn_saved s;
          kn_dirty := kn_dirty s |},
       if decide (id = kn_id s) then [] else [LoadDoc id])
  | EditRaw v => (know_edit (kn_fields s) v s, [])
  | EditField key v => (know_edit (<[key := v]> (kn_fields s)) (kn_rawText s) s, [])
  | SaveDoc =>
      (know_flags true None false (kn_dirty s) s,
       [if raw_mode s then PutRaw (kn_id s) (kn_rawText s) else PutForm (kn_id s) (kn_fields s)])
  end.

(** The [try] and [finally] of [save] once the write of agent [id] is answered: [load] is the one
    of the render the button was pressed in. *)
Definition know_written (id : jsstr) (a : result unit) (s : know) : know * list know_req :=
  match a with
  | Ok _ => (know_flags false (kn_error s) true false s, [LoadDoc id])
  | Err e => (know_flags false (Some (api_error_message e "lưu thất bại")) (kn_saved s) (kn_dirty s) s, [])
  end.

Definition know_resume (r : know_req) : result (know_resp r) → know → know * list know_req :=
  match r return result (know_resp r) → know → know * list know_req with
  | LoadDoc _ => λ a s,
      match a with
      | Ok d =>
          ({| kn_id := kn_id s; kn_data := Some d; kn_fields := kp_fields d;
              kn_rawText := kp_raw d; kn_busy := kn_busy s; kn_error := kn_error s;
              kn_saved := kn_saved s; kn_dirty := false |}, [])
      | Err e => (know_flags (kn_busy s) (Some (error_message e "lỗi")) (kn_saved s) (kn_dirty s) s, [])
      end
  | PutRaw id _ => λ a s, know_written id a s
  | PutForm id _ => λ a s, know_written id a s
  end.

Definition knowledge_input (fields : gmap jsstr jsstr) (f : knowledge_field) : node know_event :=
  let value := nullish (fields !! kf_key f) "" in
  El "label" [] [
    Txt (kf_label f);
    if kf_big f
    then El "textarea" [AStr "rows" "4"; AStr "value" value; AOn (OnText (EditField (kf_key f)))] []
    else El "input" [AStr "value" value; AOn (OnText (EditField (kf_key f)))] []].

Definition KnowledgeDoc (doc : knowledge_doc) (title : jsstr) (s : know) : list (node know_event) :=
  match present (kn_error s) with
  | Some e => [El "p" [AStr "className" "error"] [Txt "Lỗi: "; Txt e]]
  | None =>
      match kn_data s with
      | None => [El "p" [] [Txt "Đang tải "; Txt title; Txt "…"]]
      | Some d =>
          [El "section" [AStr "className" "knowledge-doc"] (
            [El "h4" [] [Txt title]]
            ++ (if kp_raw_mode d
                then [El "p" [AStr "className" "muted"]
                        [Txt "File này đã được sửa tay (chế độ nâng cao) — chỉnh trực tiếp markdown bên dưới."];
                      El "textarea" [AStr "rows" "8"; AStr "value" (kn_rawText s);
                                     AOn (OnText EditRaw)] []]
                else map (knowledge_input (kn_fields s)) (KNOWLEDGE_FIELDS doc))
            ++ [El "div" [AStr "className" "agent-actions"] (
                  [El "button" [AStr "type" "button"; ADisabled (kn_busy s); AOn (OnClick SaveDoc)]
                     [Txt (if kn_busy s then "Đang lưu…" else "Lưu")]]
                  ++ when (kn_dirty s) [El "span" [AStr "className" "unsaved"] [Txt "● Chưa lưu"]]
                  ++ when (kn_saved s) [El "span" [AStr "className" "ok"] [Txt "✓ Đã lưu"]])])]
      end
  end.

Definition knowledge_doc_page (id : jsstr) (doc : knowledge_doc) (title : jsstr) : component :=
  {| c_state := know; c_event := know_event; c_req := know_req; c_resp := know_resp;
     c_init := ({| kn_id := id; kn_data := None; kn_fields := ∅; kn_rawText := ""; kn_busy := false;
                   kn_error := None; kn_saved := false; kn_dirty := false |}, [LoadDoc id]);
     c_view := KnowledgeDoc doc title;
     c_env := λ _ e, match e with KnowAgent _ => True | _ => False end;
     c_handle := know_handle; c_resume := know_resume |}.

(** The tab: both documents and both pickers, for the same agent. *)
Definition KnowledgeTab (id : jsstr) : list (node Empty_set) :=
  [El "div" [AStr "className" "knowledge-tab"] [
    Comp "KnowledgeDoc" [AStr "id" id; AStr "doc" "soul"; AStr "title" "Tính cách (SOUL)"];
    Comp "KnowledgeDoc" [AStr "id" id; AStr "doc" "project"; AStr "title" "Bối cảnh dự án (PROJECT)"];
    Comp "SkillsPicker" [AStr "id" id];
    Comp "CompanyDocsPicker" [AStr "id" id]]].

(** ** Theorems: sets *)

Lemma set_of_spec l : NoDup (set_of l) ∧ ∀ x, x ∈ set_of l ↔ x ∈ l.
Proof.
  unfold set_of. assert (∀ s, NoDup s →
    let r := foldl (λ s x, if decide (x ∈ s) then s else s ++ [x]) s l in
    NoDup r ∧ ∀ x, x ∈ r ↔ x ∈ s ∨ x ∈ l) as H.
  { induction l as [|y l IH]; intros s Hs; cbn; [set_solver|].
    destruct (decide (y ∈ s)) as [Hy|Hy].
    - destruct (IH s Hs) as [H1 H2]. split; [done|]. intros x. rewrite H2. set_solver.
    - destruct (IH (s ++ [y])) as [H1 H2].
      { apply NoDup_app. split; [done|]. split; [set_solver|apply NoDup_singleton]. }
      split; [done|]. intros x. rewrite H2. set_solver. }
  destruct (H []) as [H1 H2]; [constructor|]. split; [done|]. intros x. rewrite H2. set_solver.
Qed.

Lemma elem_of_remove x y (s : list jsstr) :
  y ∈ List.filter (λ z, negb (bool_decide (z = x))) s ↔ y ∈ s ∧ y ≠ x.
Proof.
  rewrite list_elem_of_In, filter_In, <- list_elem_of_In. split.
  - intros [H1 H2]. split; [done|]. by apply negb_true_iff, bool_decide_eq_false in H2.
  - intros [H1 H2]. split; [done|]. by rewrite bool_decide_eq_false_2.
Qed.

(** Toggling changes the membership of one string and keeps the set a set. *)
Lemma set_toggle_spec x s :
  NoDup s → NoDup (set_toggle x s) ∧
  ∀ y, y ∈ set_toggle x s ↔ if decide (y = x) then y ∉ s else y ∈ s.
Proof.
  intros Hs. unfold set_toggle. destruct (decide (x ∈ s)) as [Hx|Hx].
  - split; [by apply NoDup_ListNoDup, List.NoDup_filter, NoDup_ListNoDup|].
    intros y. rewrite elem_of_remove. destruct (decide (y = x)) as [->|]; naive_solver.
  - split; [apply NoDup_app; split; [done|]; split; [set_solver|apply NoDup_singleton]|].
    intros y. destruct (decide (y = x)) as [->|]; set_solver.
Qed.

(** ** Theorems: the pickers *)

Definition of_put (r : picker_req) : bool := match r with PutItems _ _ => true | _ => false end.

Section PickerTheorems.
Context (K : picker_kind) (id : jsstr).

Lemma items_offers s e :
  offers (Picker K s) e →
  match e with
  | PickerAgent _ => False
  | ToggleItem k => ∃ l x, pi_items s = Some l ∧ x ∈ l ∧ pi_key K x = k
  | SaveItems => is_Some (pi_items s) ∧ pi_busy s = false
  end.
Proof.
  intros H. unfold Picker in H. inv_offers; try done.
  all: try (unfold item_row in H; inv_offers; [eexists _, _; split; [done|]; split; [|done]; set_solver|
            by apply pi_plain in H]).
Qed.

(** What the picker holds is what it shows: the chosen keys are those of loaded items. *)
Definition picker_inv (s : picker K) (q : list picker_req) : Prop :=
  NoDup (pi_chosen s) ∧
  (∀ k, k ∈ pi_chosen s → ∃ l x, pi_items s = Some l ∧ x ∈ l ∧ pi_key K x = k) ∧
  tally of_put q = (if pi_busy s then 1 else 0)%nat.

#[export] Instance picker_inv_holds : Invariant (C := picker_page K id) any picker_inv.
Proof.
  split.
  - split; [constructor|]. split; [|done]. by intros k ?%elem_of_nil.
  - intros e s q (H1 & H2 & H3) Ha.
    assert (match e with PickerAgent _ => True | _ => offers (Picker K s) e end) as Ho
      by (destruct Ha as [Ha|Ha], e; done).
    destruct e as [i|k|]; cbn.
    + split; [done|]. split; [done|]. rewrite tally_app, H3. destruct (decide _); cbn; lia.
    + apply items_offers in Ho. destruct (set_toggle_spec k (pi_chosen s) H1) as [Hn Ht].
      split; [done|]. rewrite app_nil_r. split; [|done]. intros y Hy. apply Ht in Hy.
      destruct (decide (y = k)) as [->|]; [done|by apply H2].
    + apply items_offers in Ho as [_ Hb]. split; [done|]. split; [done|].
      rewrite tally_app, H3, Hb. done.
  - intros r a s q1 q2 _ (H1 & H2 & H3). rewrite tally_middle in H3.
    destruct r as [i|i l]; destruct a as [x|e]; cbn; cbn in H3; rewrite app_nil_r.
    + destruct (set_of_spec (map (pi_key K) (List.filter (pi_selected K) x))) as [Hn Hs].
      split; [done|]. split; [|cbn; lia]. intros k (y & -> & Hy)%Hs%list_elem_of_fmap.
      apply list_elem_of_In, filter_In in Hy as [Hy _]. eexists _, y. split; [done|].
      split; [by apply list_elem_of_In|done].
    + split; [done|]. split; [done|]. cbn. lia.
    + split; [done|]. split; [done|]. cbn. destruct (pi_busy s); lia.
    + split; [done|]. split; [done|]. cbn. destruct (pi_busy s); lia.
Qed.

End PickerTheorems.

(** What a picker saves is what is ticked.  Every write is for the agent the tab is at; it holds,
    without repetition, exactly the keys of the listed items whose box is ticked; and it is sent
    only while no other write is under way. *)
Theorem picker_saves_ticked K id (w : world (picker_page K id)) i l :
  reachable any w → issues any w (PutItems i l) →
  i = pi_id (w_state w) ∧ NoDup l ∧ tally of_put (w_flight w) = 0%nat ∧
  ∃ items, pi_items (w_state w) = Some items ∧
    ∀ k, k ∈ l ↔ ∃ x, x ∈ items ∧ pi_key K x = k ∧ ticked K (w_state w) x = true.
Proof.
  intros Hw [(e & Ha & Hin)|(r & a & _ & Hin)]%issues_inv.
  - pose proof (invariant_holds (C := picker_page K id) any (picker_inv K) w Hw) as (H1 & H2 & H3).
    destruct e as [j|k|]; cbn in Hin.
    + destruct (decide _); [by apply elem_of_nil in Hin|by apply list_elem_of_singleton in Hin].
    + by apply elem_of_nil in Hin.
    + apply list_elem_of_singleton in Hin. injection Hin as -> ->.
      destruct Ha as [Ho|[]]. apply items_offers in Ho as [[items Hi] Hb].
      split; [done|]. split; [done|]. split; [by rewrite Hb in H3|]. exists items. split; [done|].
      intros k. unfold ticked. split.
      * intros Hk. destruct (H2 k Hk) as (l & x & Hl & Hx & <-).
        exists x. split; [congruence|]. split; [done|]. by apply bool_decide_eq_true.
      * intros (x & _ & <- & Hx). by apply bool_decide_eq_true in Hx.
  - destruct r; cbn in Hin; by apply elem_of_nil in Hin.
Qed.

(** ** Theorems: a document *)

(** A change typed while a save is under way, and the two answers that follow. *)
Definition late_edit {id doc title} (w : world (knowledge_doc_page id doc title)) (key v : jsstr)
    (d : KnowledgePayload) : list (action (knowledge_doc_page id doc title)) :=
  let s := w_state w in
  let n := length (w_flight w) in
  [Do (C := knowledge_doc_page id doc title) SaveDoc;
   Do (C := knowledge_doc_page id doc title) (EditField key v);
   Answer (C := knowledge_doc_page id doc title) n (PutForm (kn_id s) (kn_fields s)) (Ok tt);
   Answer (C := knowledge_doc_page id doc title) n (LoadDoc (kn_id s)) (Ok d)].

Lemma know_offered doc title s d :
  present (kn_error s) = None → kn_data s = Some d → kn_busy s = false →
  offers (KnowledgeDoc doc title s) SaveDoc.
Proof.
  intros H1 H2 H3. unfold KnowledgeDoc. rewrite H1, H2, H3, offers_El, !offers_app. right. right. right.
  rewrite offers_El, !offers_app. right. left. eapply (offers_nth _ 0); [reflexivity|reflexivity].
Qed.

Lemma field_offered doc title s d f v :
  present (kn_error s) = None → kn_data s = Some d → kp_raw_mode d = false →
  f ∈ KNOWLEDGE_FIELDS doc → offers (KnowledgeDoc doc title s) (EditField (kf_key f) v).
Proof.
  intros H1 H2 H3 Hf. unfold KnowledgeDoc. rewrite H1, H2, H3, offers_El, !offers_app.
  right. right. left. rewrite offers_map. exists f. split; [done|]. unfold knowledge_input.
  destruct (kf_big f); (eapply (offers_nth _ 0); [reflexivity|by exists v]).
Qed.

(** What is typed during a save is lost.  From every reachable state with a form to save, save it,
    change a field while the write is under way, and let the server answer the write and then the
    reading that follows it, with the fields just saved: the form shows the saved fields again,
    without the change, and no longer says that anything is unsaved. *)
Theorem edit_during_save_lost id doc title (w : world (knowledge_doc_page id doc title)) d f v d' :
  reachable any w → present (kn_error (w_state w)) = None → kn_busy (w_state w) = false →
  kn_data (w_state w) = Some d → kp_raw_mode d = false → f ∈ KNOWLEDGE_FIELDS doc →
  kp_fields d' = kn_fields (w_state w) →
  let l := late_edit w (kf_key f) v d' in
  legal_all any l w ∧
  kn_fields (w_state (play l w)) = kn_fields (w_state w) ∧ kn_dirty (w_state (play l w)) = false.
Proof.
  intros _ He Hb Hd Hr Hf Hd'. destruct w as [s q]. cbn in *.
  assert (raw_mode s = false) as Hraw by (unfold raw_mode; by rewrite Hd).
  rewrite Hraw. split; [|split; [exact Hd'|done]].
  split; [left; by eapply know_offered|]. split; [left; eapply (field_offered _ _ _ d); done|].
  rewrite !app_nil_r. split; [split; [by apply list_lookup_middle|exact I]|].
  split; [|exact I]. split; [|exact I].
  rewrite take_app_length, drop_ge by (rewrite length_app; cbn; lia). by apply list_lookup_middle.
Qed.

(** The server knows [d] as the document of agent [a], and of no other. *)
Definition document_of {id doc title} (a : jsstr) (d : KnowledgePayload) :
    answers (knowledge_doc_page id doc title) :=
  λ r, match r return result (know_resp r) → Prop with
       | LoadDoc i => λ x, x = Ok d → i = a
       | _ => λ _, True
       end.

(** One agent's knowledge can be saved as another's.  Let the server have a document of agent [a]
    only.  After it is loaded, moving to the page of agent [b] keeps it in the form while [b]'s is
    being read, and saving writes it as [b]'s. *)
Theorem knowledge_crosses_agents a b doc title d :
  a ≠ b → kp_raw_mode d = false →
  ∃ w : world (knowledge_doc_page a doc title),
    reachable (document_of a d) w ∧ w_flight w = [LoadDoc b] ∧ kn_id (w_state w) = b ∧
    issues (document_of a d) w (PutForm b (kp_fields d)).
Proof.
  intros Hab Hr.
  assert (reachable (document_of a d) (init_world (knowledge_doc_page a doc title))) as H by constructor.
  unfold init_world in H. cbn [c_init knowledge_doc_page fst snd] in H.
  eapply (run_response_to (C := knowledge_doc_page a doc title) _ [] (LoadDoc a) [] (Ok d)) in H;
    [|done|reflexivity].
  eapply (run_event_to (C := knowledge_doc_page a doc title) _ (KnowAgent b)) in H; [|by right|].
  2:{ cbn. rewrite decide_False by congruence. reflexivity. }
  eexists. split; [exact H|]. split; [reflexivity|]. split; [reflexivity|].
  apply (issues_event (C := knowledge_doc_page a doc title) _ _ SaveDoc).
  - left. by eapply (know_offered _ _ _ d).
  - cbn. unfold raw_mode. cbn. rewrite Hr. left.
Qed.

(** Rejections that say something. *)
Definition speaks {id doc title} : answers (knowledge_doc_page id doc title) :=
  λ r x, match x with Err (ApiError _ m) | Err (JsError m) => m ≠ [] | _ => True end.

(** A failed save locks the document.  Once the tab shows an error, the text typed before is not
    shown any more and nothing can be pressed or typed in, in every later state: also when other
    requests succeed and when another agent is selected. *)
Theorem failed_save_locks id doc title (w w' : world (knowledge_doc_page id doc title)) :
  truthy_opt (kn_error (w_state w)) = true →
  rtc (λ x y, ∃ new, step speaks x new y) w w' →
  truthy_opt (kn_error (w_state w')) = true ∧
  (∀ e, ¬ offers (KnowledgeDoc doc title (w_state w')) e).
Proof.
  intros Hw Hr.
  assert (∀ s, truthy_opt (kn_error s) = true → ∀ e, ¬ offers (KnowledgeDoc doc title s) e) as Hno.
  { intros s Hs e Ho. unfold KnowledgeDoc in Ho. apply truthy_opt_present in Hs as [m Hm].
    rewrite Hm in Ho. inv_offers. }
  induction Hr as [w|w w1 w' [new Hs] _ IH]; [split; [exact Hw|by apply Hno]|]. apply IH. clear IH.
  destruct Hs as [e s q s' new Ha Hh|q1 r q2 a s s' new Hsrv Hh]; cbn in *.
  - destruct Ha as [Ho|He]; [by apply Hno in Ho|]. destruct e; try done. cbn in Hh. by simplify_eq.
  - destruct r as [i|i x|i x]; destruct a as [y|[c m|m|]]; cbn in Hh; simplify_eq; cbn; try done;
      by apply truthy_spec.
Qed.

(** ** Witnesses *)

Definition demo_doc : KnowledgePayload :=
  {| kp_doc := Soul; kp_raw_mode := false; kp_fields := {["role"%js := "PM"%js]}; kp_raw := "" |}.
Notation demo_soul := (knowledge_doc_page "pm" Soul "SOUL").

Definition to_loaded : list (action demo_soul) :=
  [Answer (C := demo_soul) 0 (LoadDoc "pm") (Ok demo_doc)].

Lemma to_loaded_reachable : reachable any (play to_loaded (init_world demo_soul)).
Proof. apply play_reachable; [apply reach_init|]. split; [split; [reflexivity|exact I]|exact I]. Defined.

Definition demo_field : knowledge_field :=
  {| kf_key := "role"; kf_label := "Vai trò của agent (1 câu)"; kf_big := false |}.

Lemma edit_during_save_lost_witness :
  let w := play to_loaded (init_world demo_soul) in
  let l := late_edit w "role" "BA" demo_doc in
  legal_all any l w ∧
  kn_fields (w_state (play l w)) = kn_fields (w_state w) ∧ kn_dirty (w_state (play l w)) = false.
Proof.
  intros w. apply (edit_during_save_lost "pm" Soul "SOUL" w demo_doc demo_field "BA" demo_doc
    to_loaded_reachable); try reflexivity. left.
Defined.

Lemma knowledge_crosses_agents_witness :
  ∃ w : world (knowledge_doc_page "pm" Soul "SOUL"),
    reachable (document_of "pm" demo_doc) w ∧ w_flight w = [LoadDoc "hr"] ∧
    kn_id (w_state w) = "hr"%js ∧
    issues (document_of "pm" demo_doc) w (PutForm "hr" (kp_fields demo_doc)).
Proof. apply (knowledge_crosses_agents "pm" "hr" Soul "SOUL" demo_doc); done. Defined.

Definition to_failed : list (action demo_soul) :=
  to_loaded ++ [Do (C := demo_soul) SaveDoc;
                Answer (C := demo_soul) 0 (PutForm "pm" (kp_fields demo_doc)) (Err (ApiError 500 "x"))].

Lemma failed_save_locks_witness :
  let w := play to_failed (init_world demo_soul) in
  truthy_opt (kn_error (w_state w)) = true ∧
  (∀ e, ¬ offers (KnowledgeDoc Soul "SOUL" (w_state w)) e).
Proof.
  intros w. apply (failed_save_locks "pm" Soul "SOUL" w w); [reflexivity|constructor].
Defined.

Definition demo_skill (n : jsstr) (b : bool) : SkillEntry :=
  {| sk_name := n; sk_description := ""; sk_selected := b |}.
Notation demo_skills := (skills_picker "pm").

Definition to_picked : list (action demo_skills) :=
  [Answer (C := demo_skills) 0 (LoadItems "pm") (Ok [demo_skill "sql" true; demo_skill "jira" false]);
   Do (C := demo_skills) (ToggleItem "jira")].

Lemma to_picked_reachable : reachable any (play to_picked (init_world demo_skills)).
Proof.
  apply play_reachable; [apply reach_init|]. split; [split; [reflexivity|exact I]|].
  split; [|exact I]. left. eapply (offers_nth _ 1); [vm_compute; reflexivity|by exists true].
Defined.

Lemma picker_saves_ticked_witness :
  let w := play to_picked (init_world demo_skills) in
  ("pm" : jsstr) = pi_id (w_state w) ∧ NoDup (["sql"; "jira"] : list jsstr) ∧
  tally of_put (w_flight w) = 0%nat ∧
  ∃ items, pi_items (w_state w) = Some items ∧
    ∀ k, k ∈ (["sql"; "jira"] : list jsstr) ↔
         ∃ x, x ∈ items ∧ pi_key SkillsPicker x = k ∧ ticked SkillsPicker (w_state w) x = true.
Proof.
  intros w. apply (picker_saves_ticked SkillsPicker "pm" w "pm" ["sql"%js; "jira"%js] to_picked_reachable).
  apply (issues_event (C := demo_skills) _ _ SaveItems).
  - left. eapply (offers_nth _ 2); [vm_compute; reflexivity|reflexivity].
  - vm_compute. left.
Defined.
