(* ===== verification/Trigger.v ===== *)
(** Running a report by hand: the selection of an agent (agent-context.tsx,
    components/AgentPicker.tsx, components/AdvancedAgentView.tsx) and the trigger page
    (views/Trigger.tsx), which starts a run and shows the progress stream of [Streams]. *)

From S2P Require Import Prelude JsNumber React Behaviour Types Labels Json ApiClient Streams.

(** ** The selected agent *)

Record agents_ctx := {
  ax_agents : list AgentSummary;
  ax_selected : option jsstr;
  ax_loading : bool;
  ax_error : option jsstr
}.

(** [AgentProvider] before its list has come. *)
Definition no_agents : agents_ctx :=
  {| ax_agents := []; ax_selected := None; ax_loading := true; ax_error := None |}.

Definition setSelected (id : jsstr) (x : agents_ctx) : agents_ctx :=
  {| ax_agents := ax_agents x; ax_selected := Some id; ax_loading := ax_loading x;
     ax_error := ax_error x |}.

(** [cur ?? list[0]?.id ?? null]. *)
Definition select_first (l : list AgentSummary) (cur : option jsstr) : option jsstr :=
  match cur with Some c => Some c | None => option_map as_id (head l) end.

Definition agents_loaded (a : result (list AgentSummary)) (x : agents_ctx) : agents_ctx :=
  match a with
  | Ok l => {| ax_agents := l; ax_selected := select_first l (ax_selected x); ax_loading := false;
               ax_error := ax_error x |}
  | Err e => {| ax_agents := ax_agents x; ax_selected := ax_selected x; ax_loading := false;
                ax_error := Some (error_message e "failed to load agents") |}
  end.

(** ** The page *)

Definition AUDIENCES : list jsstr := ["internal"; "external"].
Definition FALLBACK_KINDS : list jsstr := ["daily"; "weekly"; "okr"; "resource"].

Definition selected_agent (x : agents_ctx) : option AgentSummary :=
  List.find (λ a, bool_decide (Some (as_id a) = ax_selected x)) (ax_agents x).

Definition kinds (x : agents_ctx) : list jsstr :=
  match a ← selected_agent x; as_report_kinds a with
  | Some (k :: l) => k :: l
  | _ => FALLBACK_KINDS
  end.
Definition first_kind (x : agents_ctx) : jsstr := default [] (head (kinds x)).

Record trigger := {
  tg_ctx : agents_ctx;                             (* [useAgent()] *)
  tg_kind : jsstr;
  tg_audience : jsstr;
  tg_dryRun : bool;
  tg_runId : option jsstr;
  tg_error : option jsstr;
  tg_busy : bool;
  tg_stream : sse                                  (* [useSse(runId)] *)
}.

Inductive trigger_event :=
| PickAgent (id : jsstr)
| PickKind (k : jsstr)
| PickAudience (a : jsstr)
| SetDryRun (b : bool)
| StartRun
| RunFrame (f : sse_frame)
| RunDropped.

Inductive trigger_req :=
| LoadAgents
| TriggerRun (agent kind audience : jsstr) (dry_run : bool).

Definition trigger_resp (r : trigger_req) : Type :=
  match r with LoadAgents => list AgentSummary | TriggerRun _ _ _ _ => TriggerResult end.

(** A new context, with the effect that keeps the kind valid. *)
Definition set_ctx (x : agents_ctx) (s : trigger) : trigger :=
  {| tg_ctx := x;
     tg_kind := if memb (tg_kind s) (kinds x) then tg_kind s else first_kind x;
     tg_audience := tg_audience s; tg_dryRun := tg_dryRun s; tg_runId := tg_runId s;
     tg_error := tg_error s; tg_busy := tg_busy s; tg_stream := tg_stream s |}.

Definition set_form (kind audience : jsstr) (dryRun : bool) (s : trigger) : trigger :=
  {| tg_ctx := tg_ctx s; tg_kind := kind; tg_audience := audience; tg_dryRun := dryRun;
     tg_runId := tg_runId s; tg_error := tg_error s; tg_busy := tg_busy s;
     tg_stream := tg_stream s |}.

(** [setRunId], with the effect of [useSse]. *)
Definition set_run (run error : option jsstr) (busy : bool) (s : trigger) : trigger :=
  {| tg_ctx := tg_ctx s; tg_kind := tg_kind s; tg_audience := tg_audience s;
     tg_dryRun := tg_dryRun s; tg_runId := run; tg_error := error; tg_busy := busy;
     tg_stream := sse_step (tg_stream s) (SseRun run) |}.

Definition set_stream (t : sse) (s : trigger) : trigger :=
  {| tg_ctx := tg_ctx s; tg_kind := tg_kind s; tg_audience := tg_audience s;
     tg_dryRun := tg_dryRun s; tg_runId := tg_runId s; tg_error := tg_error s;
     tg_busy := tg_busy s; tg_stream := t |}.

Definition trigger_handle (e : trigger_event) (s : trigger) : trigger * list trigger_req :=
  match e with
  | PickAgent id => (set_ctx (setSelected id (tg_ctx s)) s, [])
  | PickKind k => (set_form k (tg_audience s) (tg_dryRun s) s, [])
  | PickAudience a => (set_form (tg_kind s) a (tg_dryRun s) s, [])
  | SetDryRun b => (set_form (tg_kind s) (tg_audience s) b s, [])
  | StartRun =>
      match present (ax_selected (tg_ctx s)) with
      | None => (s, [])
      | Some a => (set_run None None true s, [TriggerRun a (tg_kind s) (tg_audience s) (tg_dryRun s)])
      end
  | RunFrame f => (set_stream (sse_step (tg_stream s) (SseFrame f)) s, [])
  | RunDropped => (set_stream (sse_step (tg_stream s) SseDrop) s, [])
  end.

Definition trigger_resume (r : trigger_req) :
    result (trigger_resp r) → trigger → trigger * list trigger_req :=
  match r return result (trigger_resp r) → trigger → trigger * list trigger_req with
  | LoadAgents => λ a s, (set_ctx (agents_loaded a (tg_ctx s)) s, [])
  | TriggerRun _ _ _ _ => λ a s,
      match a with
      | Ok r => (set_run (Some (tr_run_id r)) (tg_error s) false s, [])
      | Err e => (set_run (tg_runId s) (Some (error_message e "chạy thất bại")) false s, [])
      end
  end.

(** ** The view *)

Definition AgentPicker (x : agents_ctx) : list (node trigger_event) :=
  if ax_loading x then [El "span" [AStr "className" "agent-picker"] [Txt "loading agents…"]]
  else match ax_agents x with
       | [] => [El "span" [AStr "className" "agent-picker"] [Txt "no agents"]]
       | l =>
           [El "label" [AStr "className" "agent-picker"] [
             Txt "Agent:"; Txt " ";
             El "select" [AStr "value" (nullish (ax_selected x) "")]
               (map (λ a, El "option" [AStr "value" (as_id a); AOn (OnClick (PickAgent (as_id a)))]
                            [Txt (as_name a); Txt " ("; Txt (as_id a); Txt ")"]) l)]]
       end.

Definition AdvancedAgentView (x : agents_ctx) (outlet : list (node trigger_event)) :
    list (node trigger_event) :=
  [El "div" [AStr "className" "advanced-agent-view"] (
    El "div" [AStr "className" "advanced-bar"]
      (El "a" [AStr "href" "/settings"; AStr "className" "muted"] [Txt "← Cài đặt"] :: AgentPicker x)
    :: outlet)].

(** [`${x}`] and [JSON.stringify(x)] of a field that may be missing. *)
Definition field_string (o : option json) : jsstr :=
  match o with Some v => js_String v | None => "undefined" end.
Definition field_json (o : option json) : jsstr :=
  match o with Some v => json_text v | None => "undefined" end.

Definition run_event_text (ev : json) : jsstr :=
  let get k := json_get k ev in
  match get "event" with
  | Some (JStr k) =>
      if bool_decide (k = "node"%js)
      then cat [field_string (get "node"); ": "; field_json (get "data")]
      else cat ["kết thúc · "; field_string (get "status"); " "; field_json (get "data")]
  | _ => cat ["kết thúc · "; field_string (get "status"); " "; field_json (get "data")]
  end.

Definition run_status (t : sse) : jsstr :=
  if sse_errored t then "(mất kết nối)" else if sse_done t then "(xong)" else "(đang chạy…)".

Definition run_panel (run : jsstr) (t : sse) : node trigger_event :=
  El "div" [AStr "className" "run-stream"] (
    [El "h3" [] [Txt "Lần chạy "; Txt run; Txt " "; Txt (run_status t)]]
    ++ when (sse_errored t)
         [El "p" [AStr "className" "error"]
            [Txt "Mất kết nối luồng theo dõi — lần chạy có thể vẫn tiếp tục ở nền."]]
    ++ [El "ul" [] (map (λ ev, El "li" [] [Txt (run_event_text ev)]) (sse_events t))]).

Definition trigger_option (f : jsstr → trigger_event) (labels : gmap jsstr jsstr) (v : jsstr) :
    node trigger_event :=
  El "option" [AStr "value" v; AOn (OnClick (f v))] [Txt (labelFor labels (Some v))].

Definition Trigger (s : trigger) : list (node trigger_event) :=
  [El "section" [] (
    [El "h2" [] [Txt "Chạy báo cáo thủ công"];
     El "div" [AStr "className" "trigger-form"] [
       El "label" [] [Txt "Loại:"; Txt " ";
         El "select" [AStr "value" (tg_kind s)]
           (map (trigger_option PickKind KIND_LABEL) (kinds (tg_ctx s)))];
       Txt " ";
       El "label" [] [Txt "Đối tượng:"; Txt " ";
         El "select" [AStr "value" (tg_audience s)]
           (map (trigger_option PickAudience AUDIENCE_LABEL) AUDIENCES)];
       Txt " ";
       El "label" [] [
         El "input" [AStr "type" "checkbox"; ABool "checked" (tg_dryRun s); AOn (OnCheck SetDryRun)] [];
         Txt " "; Txt "chạy thử (dry-run)"];
       Txt " ";
       El "button" [AStr "type" "button";
                    ADisabled (tg_busy s || negb (truthy_opt (ax_selected (tg_ctx s))));
                    AOn (OnClick StartRun)]
         [Txt (if tg_busy s then "Đang chạy…" else "Chạy")]]]
    ++ match present (tg_error s) with
       | Some e => [El "p" [AStr "className" "error"] [Txt "Lỗi: "; Txt e]]
       | None => []
       end
    ++ match present (tg_runId s) with
       | Some run => [run_panel run (tg_stream s)]
       | None => []
       end)].

(** The page mounted under a provider in state [x], whose list is in flight while it is loading.
    The stream delivers JSON objects or text that is no JSON, and drops. *)
Definition trigger_page (x : agents_ctx) : component :=
  {| c_state := trigger; c_event := trigger_event; c_req := trigger_req; c_resp := trigger_resp;
     c_init := ({| tg_ctx := x; tg_kind := first_kind x; tg_audience := "internal";
                   tg_dryRun := true; tg_runId := None; tg_error := None; tg_busy := false;
                   tg_stream := no_sse |}, when (ax_loading x) [LoadAgents]);
     c_view := λ s, AdvancedAgentView (tg_ctx s) (Trigger s);
     c_env := λ _ e, match e with
                     | RunFrame (GoodFrame v) => is_obj v = true
                     | RunFrame BadFrame | RunDropped => True
                     | _ => False
                     end;
     c_handle := trigger_handle; c_resume := trigger_resume |}.

(** ** Theorems: a run is of the selected agent *)

Definition ids (x : agents_ctx) : list jsstr := map as_id (ax_agents x).

(** A provider selects an agent of its list, and none while the list is loading. *)
Definition ctx_ok (x : agents_ctx) : Prop :=
  (∀ id, ax_selected x = Some id → id ∈ ids x) ∧ (ax_loading x = true → ax_selected x = None).

Lemma no_agents_ok : ctx_ok no_agents.
Proof. split; [by intros id|done]. Qed.

Lemma agents_loaded_ok a x : ctx_ok x → ax_loading x = true → ctx_ok (agents_loaded a x).
Proof.
  intros [H1 H2] Hl. specialize (H2 Hl). destruct a as [l|e]; (split; [|done]); cbn; [|exact H1].
  intros id. rewrite H2. destruct l as [|y l]; [done|]. cbn. intros [= <-]. left.
Qed.

Lemma selected_agent_spec x id :
  ctx_ok x → ax_selected x = Some id →
  ∃ a, selected_agent x = Some a ∧ as_id a = id ∧ a ∈ ax_agents x.
Proof.
  intros [H _] Hs. destruct (selected_agent x) as [a|] eqn:E.
  - apply find_some in E as [Ha E]. apply bool_decide_eq_true in E. exists a.
    split; [done|]. split; [congruence|by apply list_elem_of_In].
  - apply H in Hs as Hin. apply list_elem_of_fmap in Hin as (a & -> & Ha).
    apply list_elem_of_In in Ha. apply (find_none _ _ E) in Ha. apply bool_decide_eq_false in Ha.
    congruence.
Qed.

Lemma kinds_first x : first_kind x ∈ kinds x.
Proof.
  unfold first_kind. assert (kinds x ≠ []) as H.
  { unfold kinds. by destruct (a ← selected_agent x; as_report_kinds a) as [[]|]. }
  destruct (kinds x); [done|]. left.
Qed.

Lemma agents_offers x e :
  offers (AgentPicker x) e → ∃ id, e = PickAgent id ∧ id ∈ ids x ∧ ax_loading x = false.
Proof.
  intros H. unfold AgentPicker in H.
  inv_offers; (eexists; split; [done|]; split; [|done]); unfold ids; rewrite Heql; set_solver.
Qed.

Lemma trigger_offers s e :
  offers (c_view (trigger_page (tg_ctx s)) s) e →
  match e with
  | PickAgent id => id ∈ ids (tg_ctx s) ∧ ax_loading (tg_ctx s) = false
  | PickKind k => k ∈ kinds (tg_ctx s)
  | PickAudience a => a ∈ AUDIENCES
  | SetDryRun _ => True
  | StartRun => tg_busy s = false
  | RunFrame _ | RunDropped => False
  end.
Proof.
  intros H. cbn [c_view trigger_page] in H. unfold AdvancedAgentView, Trigger, trigger_option in H.
  inv_offers; try done.
  all: try (by apply agents_offers in H as (id & -> & ? & ?)).
  all: try (by apply orb_false_iff in H0 as [? _]).
  all: try (unfold run_panel in H; inv_offers).
  all: set_solver.
Qed.

Definition of_run (r : trigger_req) : bool := match r with TriggerRun _ _ _ _ => true | _ => false end.
Definition of_list (r : trigger_req) : bool := match r with LoadAgents => true | _ => false end.

Record trigger_inv (s : trigger) (q : list trigger_req) : Prop := {
  ti_ctx : ctx_ok (tg_ctx s);
  ti_kind : tg_kind s ∈ kinds (tg_ctx s);
  ti_audience : tg_audience s ∈ AUDIENCES;
  ti_run : tally of_run q = (if tg_busy s then 1 else 0)%nat;
  ti_list : tally of_list q = (if ax_loading (tg_ctx s) then 1 else 0)%nat;
  ti_stream : sse_run (tg_stream s) = tg_runId s;
  ti_cleared : tg_busy s = true → tg_runId s = None
}.

Lemma sse_run_step t r : sse_run (sse_step t (SseRun r)) = r.
Proof. cbn. destruct (decide _) as [->|]; [done|]. by destruct r as [[|??]|]. Qed.

Lemma sse_run_keep t e : same_run e → sse_run (sse_step t e) = sse_run t.
Proof. destruct e as [|[]|]; cbn; try done; intros _; by destruct (sse_open t). Qed.

(** A new context of the same request state keeps the invariant. *)
Lemma set_ctx_inv x s q :
  ctx_ok x → tally of_list q = (if ax_loading x then 1 else 0)%nat →
  tally of_run q = (if tg_busy s then 1 else 0)%nat →
  tg_audience s ∈ AUDIENCES → sse_run (tg_stream s) = tg_runId s →
  (tg_busy s = true → tg_runId s = None) → trigger_inv (set_ctx x s) q.
Proof.
  intros Hx Hq Hr Ha Hs Hc. split; cbn; try done.
  destruct (memb (tg_kind s) (kinds x)) eqn:E; [by apply memb_spec|apply kinds_first].
Qed.

Section Page.
Context (x : agents_ctx) (srv : answers (trigger_page x)) (Hx : ctx_ok x).

Lemma trigger_inv_init : trigger_inv (fst (c_init (trigger_page x))) (snd (c_init (trigger_page x))).
Proof. split; cbn; try done; [apply kinds_first|left|by destruct (ax_loading x)..]. Qed.

Lemma trigger_inv_event e s q :
  trigger_inv s q → allowed (C := trigger_page x) s e →
  trigger_inv (fst (trigger_handle e s)) (q ++ snd (trigger_handle e s)).
Proof.
  intros [H1 H2 H3 H4 H5 H6 H7] He.
  assert (match e with RunFrame _ | RunDropped => True | _ => offers (c_view (trigger_page x) s) e end)
    as Ho by (destruct He as [He|He], e; done).
  clear He. destruct e as [id|k|a|b| |f|]; cbn [trigger_handle fst snd]; rewrite ?app_nil_r;
    try apply trigger_offers in Ho.
  - destruct Ho as [Hid Hl]. apply set_ctx_inv; try done. split; cbn; [|congruence].
    by intros ? [= <-].
  - by split.
  - by split.
  - by split.
  - destruct (present (ax_selected (tg_ctx s))) as [a|] eqn:Ea; cbn; [|by rewrite app_nil_r].
    split; cbn; try done; try (rewrite tally_app, ?H4, ?H5, ?Ho; cbn; lia). apply sse_run_step.
  - split; try done. by apply (eq_trans (sse_run_keep (tg_stream s) (SseFrame f) I)).
  - split; try done. by apply (eq_trans (sse_run_keep (tg_stream s) SseDrop I)).
Qed.

#[export] Instance trigger_inv_holds : Invariant srv trigger_inv.
Proof.
  split; [apply trigger_inv_init|by intros; apply trigger_inv_event|].
  intros r a s q1 q2 _ [H1 H2 H3 H4 H5 H6 H7].
  change (trigger_inv (fst (trigger_resume r a s)) (q1 ++ q2 ++ snd (trigger_resume r a s))).
  rewrite tally_middle in H4, H5. destruct r as [|ag k au d]; cbn in H4, H5.
  - cbn. rewrite app_nil_r. assert (ax_loading (tg_ctx s) = true) as Hl by (destruct (ax_loading _); [done|lia]).
    rewrite Hl in H5. apply set_ctx_inv; [by apply agents_loaded_ok|..]; try done; [|lia].
    destruct a; cbn; lia.
  - assert (tg_busy s = true) as Hb by (destruct (tg_busy s); [done|lia]). rewrite Hb in H4.
    destruct a as [r|e]; cbn; rewrite app_nil_r; split; cbn; try done; try lia; apply sse_run_step.
Qed.
End Page.

(** A run is started for the agent on display, with what the form shows.  Every run the page asks
    for is for the selected agent, which is one of the list; its kind is one the agent offers,
    its audience one of the two, and it is a dry run exactly when the box is ticked; and no other
    run is being started. *)
Theorem run_is_as_shown x (w : world (trigger_page x)) a k au d :
  ctx_ok x → reachable any w → issues any w (TriggerRun a k au d) →
  let s := w_state w in
  (∃ ag, selected_agent (tg_ctx s) = Some ag ∧ as_id ag = a ∧ ag ∈ ax_agents (tg_ctx s)) ∧
  (k = tg_kind s ∧ k ∈ kinds (tg_ctx s)) ∧ (au = tg_audience s ∧ au ∈ AUDIENCES) ∧
  d = tg_dryRun s ∧ tally of_run (w_flight w) = 0%nat.
Proof.
  intros Hx Hw Hi s.
  pose proof (trigger_inv_holds x any Hx) as Hinv.
  pose proof (invariant_holds (C := trigger_page x) any trigger_inv w Hw) as [H1 H2 H3 H4 _ _ _].
  apply issues_inv in Hi as [(e & He & Hin)|(r & y & _ & Hin)].
  - destruct e; cbn in Hin; try (by apply elem_of_nil in Hin).
    destruct (present (ax_selected (tg_ctx (w_state w)))) as [i|] eqn:Ei; [|by apply elem_of_nil in Hin].
    apply list_elem_of_singleton in Hin. injection Hin as -> -> -> ->.
    apply present_spec in Ei as [Ei _]. destruct He as [Ho|[]]. apply trigger_offers in Ho.
    split; [by apply selected_agent_spec|]. by rewrite Ho in H4.
  - destruct r; destruct y; cbn in Hin; by apply elem_of_nil in Hin.
Qed.

(** ** Theorems: the stream of a run *)

(** What the source of the run delivers along a list of actions. *)
Definition frame_of (e : trigger_event) : option sse_event :=
  match e with RunFrame f => Some (SseFrame f) | RunDropped => Some SseDrop | _ => None end.
Definition delivered_frames {x} (l : list (action (trigger_page x))) : list sse_event :=
  omap (λ y : action (trigger_page x), match y with Do e => frame_of e | Answer _ _ _ => None end) l.

Definition starts_run {x} (y : action (trigger_page x)) : Prop :=
  match y with Do e => e = StartRun | Answer _ _ _ => False end.

Lemma delivered_same_run {x} (l : list (action (trigger_page x))) :
  Forall same_run (delivered_frames l).
Proof.
  apply Forall_forall. intros e (y & _ & H)%list_elem_of_omap.
  destruct y as [e'|]; [|done]. destruct e'; simplify_eq/=; done.
Qed.

(** While no run is started the page shows the run it has, with the frames delivered. *)
Lemma stream_kept x (w : world (trigger_page x)) l :
  ctx_ok x → reachable any w → tg_busy (w_state w) = false →
  legal_all any l w → Forall (λ y, ¬ starts_run y) l →
  let s' := w_state (play l w) in
  tg_runId s' = tg_runId (w_state w) ∧
  tg_stream s' = foldl sse_step (tg_stream (w_state w)) (delivered_frames l).
Proof.
  intros Hx. revert w. induction l as [|y l IH]; intros [s q] Hw Hb Hl Hs; [done|].
  pose proof (trigger_inv_holds x any Hx) as Hinv.
  pose proof (invariant_holds (C := trigger_page x) any trigger_inv _ Hw) as [_ _ _ Hr _ _ _].
  cbn [w_flight w_state] in Hr, Hb. rewrite Hb in Hr. apply Forall_cons in Hs as [Hy Hs]. destruct Hl as [Hy' Hl].
  pose proof (play_reachable (C := trigger_page x) any [y] (World s q) Hw (conj Hy' I)) as Hw'.
  cbn [play foldl] in Hw' |- *.
  destruct (IH _ Hw') as [E1 E2]; try done.
  - by destruct y as [[]|n [|] []].
  - assert (∀ n ag k au d a, y ≠ Answer (C := trigger_page x) n (TriggerRun ag k au d) a) as Hn.
    { intros n ag k au d a ->. destruct Hy' as [Hn _]. cbn in Hn. apply list_elem_of_lookup_2 in Hn.
      apply list_elem_of_split in Hn as (q1 & q2 & ->). rewrite tally_middle in Hr. cbn in Hr. lia. }
    split; [etrans; [exact E1|]|etrans; [exact E2|]];
      destruct y as [[]|n [|] a]; cbn; try done; by edestruct Hn.
Qed.

(** The frames of a stream up to its end, and how it ends. *)
Fixpoint until_end (es : list sse_event) : list json :=
  match es with
  | [] | SseDrop :: _ => []
  | SseFrame (GoodFrame v) :: r => if is_terminal v then [v] else v :: until_end r
  | _ :: r => until_end r
  end.
Definition end_text (es : list sse_event) : jsstr :=
  match List.find ends_stream es with
  | None => "(đang chạy…)"
  | Some SseDrop => "(mất kết nối)"
  | Some _ => "(xong)"
  end.

Lemma stream_until_end t es :
  sse_open t = true → sse_done t = false → sse_errored t = false → sse_terminated t = false →
  Forall same_run es →
  let t' := foldl sse_step t es in
  sse_events t' = sse_events t ++ until_end es ∧ run_status t' = end_text es.
Proof.
  revert t. induction es as [|e es IH]; intros t H1 H2 H3 H4 Hes.
  { cbn. rewrite app_nil_r. split; [done|]. unfold run_status. by rewrite H2, H3. }
  apply Forall_cons in Hes as [He Hes].
  destruct e as [r|[|v]|]; [done|apply (IH t); done|..]; cbn [foldl sse_step]; rewrite H1.
  - unfold end_text. cbn [until_end List.find ends_stream terminal_event].
    destruct (is_terminal v) eqn:Ev.
    + rewrite sse_closed; unfold sse_message, run_status; cbn; rewrite ?Ev, ?H3; done.
    + destruct (IH (sse_message v t)) as [-> ->]; unfold sse_message; cbn; rewrite ?Ev; try done.
      by rewrite <- app_assoc.
  - rewrite sse_closed; unfold sse_drop, run_status; cbn; rewrite ?H4, ?app_nil_r; done.
Qed.

(** The panel of a run tells how it ended.  After the server has accepted a run, and until the next
    one is started, whatever is selected in between and whatever its source delivers: the panel
    shows that run's frames in order up to the first terminal frame or drop, and reports it as
    running before that, as over after a terminal frame, and as lost after a drop. *)
Theorem panel_tells_end x (w : world (trigger_page x)) q1 q2 ag k au d res l :
  ctx_ok x → reachable any w → w_flight w = q1 ++ TriggerRun ag k au d :: q2 →
  tr_run_id res ≠ [] →
  let w1 := do_action (Answer (C := trigger_page x) (length q1) (TriggerRun ag k au d) (Ok res)) w in
  legal_all any l w1 → Forall (λ y, ¬ starts_run y) l →
  let s := w_state (play l w1) in
  tg_runId s = Some (tr_run_id res) ∧
  sse_events (tg_stream s) = until_end (delivered_frames l) ∧
  run_status (tg_stream s) = end_text (delivered_frames l).
Proof.
  intros Hx Hw Hq Hid w1 Hl Hs s. pose proof (trigger_inv_holds x any Hx) as Hinv.
  pose proof (invariant_holds (C := trigger_page x) any trigger_inv w Hw) as [_ _ _ Hr _ Ht Hc].
  rewrite Hq, tally_middle in Hr.
  assert (tg_runId (w_state w) = None) as Hn.
  { apply Hc. destruct (tg_busy (w_state w)); [done|]. cbn in Hr. lia. }
  assert (reachable any w1) as Hw1.
  { apply (play_reachable (C := trigger_page x) any
      [Answer (C := trigger_page x) (length q1) (TriggerRun ag k au d) (Ok res)] w Hw).
    split; [|done]. split; [|done]. rewrite Hq. by apply list_lookup_middle. }
  destruct (stream_kept x w1 l Hx Hw1 eq_refl Hl Hs) as [E1 E2].
  unfold s. rewrite E1, E2. split; [done|].
  assert (∃ t, tg_stream (w_state w1) = t ∧ sse_open t = true ∧ sse_done t = false ∧
    sse_errored t = false ∧ sse_terminated t = false ∧ sse_events t = []) as (t & -> & ? & ? & ? & ? & Ht0).
  { eexists. split; [reflexivity|]. cbn. rewrite Ht, Hn. unfold sse_effect. cbn.
    rewrite decide_False by done. by destruct (tr_run_id res). }
  destruct (stream_until_end t (delivered_frames l)) as [-> ->]; try done; [apply delivered_same_run|].
  by rewrite Ht0.
Qed.

(** ** Witnesses *)

Definition demo_agent : AgentSummary :=
  {| as_id := "hr"; as_name := "HR"; as_enabled := true; as_last_run := None;
     as_report_kinds := Some ["inbox"] |}.
Notation demo_trigger := (trigger_page no_agents).

Definition to_ready : list (action demo_trigger) :=
  [Answer (C := demo_trigger) 0 LoadAgents (Ok [demo_agent])].

Lemma to_ready_reachable : reachable any (play to_ready (init_world demo_trigger)).
Proof. apply play_reachable; [apply reach_init|]. split; [split; [reflexivity|exact I]|exact I]. Defined.

Lemma run_is_as_shown_witness :
  let w := play to_ready (init_world demo_trigger) in
  let s := w_state w in
  (∃ ag, selected_agent (tg_ctx s) = Some ag ∧ as_id ag = "hr" ∧ ag ∈ ax_agents (tg_ctx s)) ∧
  (("inbox" : jsstr) = tg_kind s ∧ ("inbox" : jsstr) ∈ kinds (tg_ctx s)) ∧
  (("internal" : jsstr) = tg_audience s ∧ ("internal" : jsstr) ∈ AUDIENCES) ∧
  true = tg_dryRun s ∧ tally of_run (w_flight w) = 0%nat.
Proof.
  intros w. apply (run_is_as_shown no_agents w "hr" "inbox" "internal" true no_agents_ok to_ready_reachable).
  apply (issues_event (C := demo_trigger) _ _ StartRun).
  - left. eapply (offers_nth _ 5); [vm_compute; reflexivity|reflexivity].
  - vm_compute. left.
Defined.

Definition to_started : list (action demo_trigger) := to_ready ++ [Do (C := demo_trigger) StartRun].

Lemma to_started_reachable : reachable any (play to_started (init_world demo_trigger)).
Proof.
  unfold to_started. rewrite play_app. apply play_reachable; [exact to_ready_reachable|].
  split; [|exact I]. left. eapply (offers_nth _ 5); [vm_compute; reflexivity|reflexivity].
Defined.

Definition demo_frame (k : jsstr) : json := JObj [("event"%js, JStr k)].

Lemma panel_tells_end_witness :
  let w := play to_started (init_world demo_trigger) in
  let res := {| tr_run_id := "r1"; tr_thread_id := "t1" |} in
  let w1 := do_action (Answer (C := demo_trigger) 0 (TriggerRun "hr" "inbox" "internal" true) (Ok res)) w in
  let l := [Do (C := demo_trigger) (RunFrame (GoodFrame (demo_frame "node")));
            Do (C := demo_trigger) (PickAgent "hr");
            Do (C := demo_trigger) (RunFrame (GoodFrame (demo_frame "terminal")));
            Do (C := demo_trigger) RunDropped] in
  let s := w_state (play l w1) in
  tg_runId s = Some "r1"%js ∧
  sse_events (tg_stream s) = until_end (delivered_frames l) ∧
  run_status (tg_stream s) = end_text (delivered_frames l).
Proof.
  intros w res w1 l.
  apply (panel_tells_end no_agents w [] [] "hr" "inbox" "internal" true res l no_agents_ok
           to_started_reachable); [reflexivity|discriminate| |].
  - repeat split; try (by right). left. eapply (offers_nth _ 0); [vm_compute; reflexivity|reflexivity].
  - repeat constructor; discriminate.
Defined.
