(* ===== verification/Tasks.v ===== *)
(** The board of assigned tasks (views/Tasks.tsx): the tasks of every agent with their status, and
    the cancelling of those that are open. *)

From S2P Require Import Prelude JsNumber React Behaviour Types.

Definition STATUS_LABEL (t : task_status) : jsstr :=
  match t with
  | TaskOpen => "đang mở"
  | TaskRunning => "đang chạy"
  | TaskDone => "hoàn tất"
  | TaskCancelled => "đã huỷ"
  | TaskStalled => "bị treo"
  end.

(** [String(params[k] ?? '?')]. *)
Definition param_string (t : AssignedTask) (k : jsstr) : jsstr :=
  match at_params t !! k with
  | None | Some JNull => "?"
  | Some v => js_String v
  end.

Definition taskSummary (t : AssignedTask) : jsstr :=
  match at_kind t with
  | TaskWatch => cat ["Theo dõi PR #"; param_string t "number"]
  | TaskReport => cat ["Báo cáo định kỳ '"; param_string t "kind"; "'"]
  | TaskQa => cat ["Trả lời định kỳ: "; param_string t "question"]
  end.

Record tasks := {
  tk_agents : option (list AgentTasks);
  tk_error : option jsstr;
  tk_busyId : option jsstr
}.

Inductive tasks_event := CancelTask (agent : jsstr) (task : Z).
Inductive tasks_req := LoadTasks | PostCancel (agent : jsstr) (task : Z).
Definition tasks_resp (r : tasks_req) : Type :=
  match r with LoadTasks => TasksPayload | PostCancel _ _ => unit end.

Definition task_key (agent : jsstr) (task : Z) : jsstr := cat [agent; ":"; id_text task].

Definition set_tasks (l : option (list AgentTasks)) (error busyId : option jsstr) : tasks :=
  {| tk_agents := l; tk_error := error; tk_busyId := busyId |}.

Definition tasks_handle (e : tasks_event) (s : tasks) : tasks * list tasks_req :=
  match e with
  | CancelTask a t => (set_tasks (tk_agents s) (tk_error s) (Some (task_key a t)), [PostCancel a t])
  end.

Definition tasks_resume (r : tasks_req) : result (tasks_resp r) → tasks → tasks * list tasks_req :=
  match r return result (tasks_resp r) → tasks → tasks * list tasks_req with
  | LoadTasks => λ a s,
      (match a with
       | Ok p => set_tasks (Some (tsp_agents p)) (tk_error s) (tk_busyId s)
       | Err e => set_tasks (tk_agents s) (Some (error_message e "tải thất bại")) (tk_busyId s)
       end, [])
  | PostCancel _ _ => λ a s,
      match a with
      | Ok _ => (set_tasks (tk_agents s) (tk_error s) None, [LoadTasks])
      | Err e => (set_tasks (tk_agents s) (Some (error_message e "huỷ thất bại")) None, [])
      end
  end.

Definition task_open (t : AssignedTask) : bool :=
  match at_status t with TaskOpen | TaskRunning => true | _ => false end.

Definition task_row (s : tasks) (agent : jsstr) (t : AssignedTask) : node tasks_event :=
  El "tr" [] [
    El "td" [AStr "data-label" "#"] [Txt (id_text (at_id t))];
    El "td" [AStr "data-label" "Việc"] [Txt (taskSummary t)];
    El "td" [AStr "data-label" "Trạng thái"] [Txt (STATUS_LABEL (at_status t))];
    El "td" [AStr "className" "tasks-last"; AStr "data-label" "Lần chạy gần nhất"]
      [Txt match last (at_history t) with Some h => th_summary h | None => "—" end];
    El "td" [] (when (task_open t)
      [El "button" [AStr "type" "button"; AStr "className" "btn";
                    AOn (OnClick (CancelTask agent (at_id t)));
                    ADisabled (bool_decide (tk_busyId s = Some (task_key agent (at_id t))))]
         [Txt "Huỷ"]])].

Definition agent_tasks (s : tasks) (a : AgentTasks) : node tasks_event :=
  El "div" [AStr "className" "tasks-agent"] [
    El "h3" [] [Txt (ag_agent_id a)];
    El "table" [AStr "className" "tasks-table"] [
      El "thead" [] [El "tr" [] (map (λ t, El "th" [] [Txt t])
        ["#"; "Việc"; "Trạng thái"; "Lần chạy gần nhất"; ""])];
      El "tbody" [] (map (task_row s (ag_agent_id a)) (ag_tasks a))]].

Definition Tasks (s : tasks) : list (node tasks_event) :=
  match present (tk_error s) with
  | Some e => [El "p" [AStr "className" "error"] [Txt "Lỗi: "; Txt e]]
  | None =>
      match tk_agents s with
      | None => [El "p" [] [Txt "Đang tải…"]]
      | Some [] =>
          [El "section" [] [
            El "h2" [] [Txt "Việc đã giao"];
            El "p" [] [Txt "Chưa có việc nào được giao. Giao việc qua khung Trợ lý (chat)."]]]
      | Some l =>
          [El "section" [AStr "className" "tasks-board"]
             (El "h2" [] [Txt "Việc đã giao"] :: map (agent_tasks s) l)]
      end
  end.

Definition tasks_board : component :=
  {| c_state := tasks; c_event := tasks_event; c_req := tasks_req; c_resp := tasks_resp;
     c_init := (set_tasks None None None, [LoadTasks]);
     c_view := Tasks; c_env := λ _ _, False;
     c_handle := tasks_handle; c_resume := tasks_resume |}.

(** ** Theorems *)

Lemma agent_offers s g e :
  offers [agent_tasks s g] e →
  ∃ x, e = CancelTask (ag_agent_id g) (at_id x) ∧ x ∈ ag_tasks g ∧ task_open x = true ∧
    tk_busyId s ≠ Some (task_key (ag_agent_id g) (at_id x)).
Proof.
  intros H. unfold agent_tasks, task_row in H. inv_offers.
  eexists. split; [reflexivity|]. split; [done|]. split; [done|]. by eapply bool_decide_eq_false.
Qed.

Lemma tasks_offers s e :
  offers (Tasks s) e →
  present (tk_error s) = None ∧
  ∃ l g x, tk_agents s = Some l ∧ g ∈ l ∧ x ∈ ag_tasks g ∧ task_open x = true ∧
    e = CancelTask (ag_agent_id g) (at_id x) ∧
    tk_busyId s ≠ Some (task_key (ag_agent_id g) (at_id x)).
Proof.
  intros H. unfold Tasks in H.
  inv_offers; apply agent_offers in H as (t & -> & Hx & Ho & Hb); (split; [done|]);
    eexists _, _, t; (split; [reflexivity|]); (split; [|by split_and!]); set_solver.
Qed.

(** A board that is loaded, shows no error, and lists the task as open. *)
Definition can_cancel (s : tasks) (g : AgentTasks) (x : AssignedTask) : Prop :=
  present (tk_error s) = None ∧
  (∃ l, tk_agents s = Some l ∧ g ∈ l) ∧ x ∈ ag_tasks g ∧ task_open x = true.

Lemma cancel_offered s g x :
  can_cancel s g x → tk_busyId s ≠ Some (task_key (ag_agent_id g) (at_id x)) →
  offers (Tasks s) (CancelTask (ag_agent_id g) (at_id x)).
Proof.
  intros (He & (l & Hl & Hg) & Hx & Ho) Hb. unfold Tasks. rewrite He, Hl.
  destruct l as [|g0 l]; [by apply elem_of_nil in Hg|].
  rewrite offers_El, offers_cons. right. right. rewrite offers_map. exists g. split; [done|].
  unfold agent_tasks. rewrite offers_El, offers_cons. right. right. rewrite offers_El, offers_cons.
  right. right. rewrite offers_El. right. rewrite offers_map. exists x. split; [done|].
  unfold task_row. rewrite Ho, bool_decide_eq_false_2 by done.
  eapply (offers_nth _ 0); [reflexivity|reflexivity].
Qed.

(** Only open tasks are cancelled, for the agent they are listed under.  Every cancellation is for
    a task the board lists as open or running, under the agent the board lists it with, and not
    while that task is marked as busy. *)
Theorem cancel_hits_open (w : world tasks_board) a t :
  reachable any w → issues any w (PostCancel a t) →
  tk_busyId (w_state w) ≠ Some (task_key a t) ∧
  ∃ g x, can_cancel (w_state w) g x ∧ ag_agent_id g = a ∧ at_id x = t.
Proof.
  intros _ [(e & He & Hin)|(r & y & _ & Hin)]%issues_inv.
  - destruct He as [Ho|[]]. destruct e as [a' t']. apply list_elem_of_singleton in Hin.
    injection Hin as -> ->. apply tasks_offers in Ho as (He & l & g & x & Hl & Hg & Hx & Ho & E & Hb).
    injection E as -> ->. split; [done|]. exists g, x. split; [|done]. by split_and!; eauto.
  - destruct r; destruct y; cbn in Hin; set_solver.
Qed.

(** A task can be cancelled again before the board knows.  From every reachable board that lists
    an open task, cancel it and let the server accept: until the board is read again the task
    stays open on it, and the same cancellation can be sent a second time. *)
Theorem cancel_sent_again (w : world tasks_board) g x :
  reachable any w → can_cancel (w_state w) g x →
  tk_busyId (w_state w) ≠ Some (task_key (ag_agent_id g) (at_id x)) →
  let a := ag_agent_id g in let t := at_id x in
  let l := [Do (C := tasks_board) (CancelTask a t);
            Answer (C := tasks_board) (length (w_flight w)) (PostCancel a t) (Ok tt)] in
  legal_all any l w ∧ issues any (play l w) (PostCancel a t).
Proof.
  intros _ Hc Hb a t l. destruct w as [s q]. cbn in Hc, Hb |- *. split.
  - split; [left; by apply cancel_offered|]. split; [|exact I]. split; [by apply list_lookup_middle|exact I].
  - apply (issues_event (C := tasks_board) _ _ (CancelTask a t)); [|by left].
    left. by apply cancel_offered.
Qed.

(** A rejection that says something takes the board away for good. *)
Lemma failed_cancel_locks (s : tasks) e : truthy_opt (tk_error s) = true → ¬ offers (Tasks s) e.
Proof. intros [m Hm]%truthy_opt_present [He _]%tasks_offers. congruence. Qed.

(** ** Witnesses *)

Definition demo_task : AssignedTask :=
  {| at_id := 7; at_kind := TaskWatch; at_params := {["number"%js := JNum (num_Z 12)]};
     at_status := TaskOpen; at_created_at := ""; at_assigned_by := "ceo"; at_history := [] |}.
Definition demo_tasks : AgentTasks := {| ag_agent_id := "pm"; ag_tasks := [demo_task] |}.

Example demo_summary : taskSummary demo_task = "Theo dõi PR #12"%js.
Proof. vm_compute. reflexivity. Qed.

Definition to_board : list (action tasks_board) :=
  [Answer (C := tasks_board) 0 LoadTasks (Ok {| tsp_agents := [demo_tasks] |})].

Lemma to_board_reachable : reachable any (play to_board (init_world tasks_board)).
Proof. apply play_reachable; [apply reach_init|]. split; [split; [reflexivity|exact I]|exact I]. Defined.

Lemma demo_can_cancel : can_cancel (w_state (play to_board (init_world tasks_board))) demo_tasks demo_task.
Proof. split; [reflexivity|]. split; [eexists; split; [reflexivity|left]|]. split; [left|reflexivity]. Defined.

Lemma cancel_hits_open_witness :
  let w := play to_board (init_world tasks_board) in
  tk_busyId (w_state w) ≠ Some (task_key "pm" 7) ∧
  ∃ g x, can_cancel (w_state w) g x ∧ ag_agent_id g = "pm"%js ∧ at_id x = 7.
Proof.
  intros w. apply (cancel_hits_open w "pm" 7 to_board_reachable).
  apply (issues_event (C := tasks_board) _ _ (CancelTask "pm" 7)); [|by left].
  left. by apply (cancel_offered _ demo_tasks demo_task demo_can_cancel).
Defined.

Lemma cancel_sent_again_witness :
  let w := play to_board (init_world tasks_board) in
  let l := [Do (C := tasks_board) (CancelTask "pm" 7);
            Answer (C := tasks_board) 0 (PostCancel "pm" 7) (Ok tt)] in
  legal_all any l w ∧ issues any (play l w) (PostCancel "pm" 7).
Proof. intros w. by apply (cancel_sent_again w demo_tasks demo_task to_board_reachable demo_can_cancel). Defined.
