(* ===== verification/Chat.v ===== *)
(** The assistant's chat (views/Chat.tsx): the check that it is available, the messages sent and
    their replies. *)

From stdpp Require Import relations.
From S2P Require Import Prelude React Behaviour Types.

Inductive turn := Ceo (text : jsstr) | Agent (text : jsstr).

Definition QUICK_CHIPS : list jsstr :=
  ["Đội mình đang thế nào?"; "Tạo nhân sự ảo mới"; "Tổng chi phí tháng này?"].

Record chat := {
  ch_available : option bool;
  ch_reason : jsstr;
  ch_turns : list turn;
  ch_draft : jsstr;
  ch_busy : bool;
  ch_error : option jsstr;
  ch_pending : Z                                   (* the shared count of pending approvals *)
}.

Inductive chat_event :=
| TypeDraft (v : jsstr)
| SendDraft
| SendChip (c : jsstr)
| PendingChanged (n : Z).

Inductive chat_req := AskAvailable | OpsChat (message : jsstr).
Definition chat_resp (r : chat_req) : Type :=
  match r with AskAvailable => OpsChatAvailable | OpsChat _ => OpsChatReply end.

Definition set_available (b : bool) (reason : jsstr) (s : chat) : chat :=
  {| ch_available := Some b; ch_reason := reason; ch_turns := ch_turns s; ch_draft := ch_draft s;
     ch_busy := ch_busy s; ch_error := ch_error s; ch_pending := ch_pending s |}.
Definition set_draft (v : jsstr) (s : chat) : chat :=
  {| ch_available := ch_available s; ch_reason := ch_reason s; ch_turns := ch_turns s;
     ch_draft := v; ch_busy := ch_busy s; ch_error := ch_error s; ch_pending := ch_pending s |}.
Definition set_talk (turns : list turn) (busy : bool) (error : option jsstr) (s : chat) : chat :=
  {| ch_available := ch_available s; ch_reason := ch_reason s; ch_turns := turns;
     ch_draft := ch_draft s; ch_busy := busy; ch_error := error; ch_pending := ch_pending s |}.

Definition sendText (message : jsstr) (s : chat) : chat * list chat_req :=
  if negb (truthy (trim message)) || ch_busy s then (s, [])
  else (set_talk (ch_turns s ++ [Ceo message]) true None (set_draft "" s), [OpsChat message]).

Definition chat_handle (e : chat_event) (s : chat) : chat * list chat_req :=
  match e with
  | TypeDraft v => (set_draft v s, [])
  | SendDraft => sendText (ch_draft s) s
  | SendChip c => sendText c s
  | PendingChanged n =>
      ({| ch_available := ch_available s; ch_reason := ch_reason s; ch_turns := ch_turns s;
          ch_draft := ch_draft s; ch_busy := ch_busy s; ch_error := ch_error s;
          ch_pending := n |}, [])
  end.

Definition chat_resume (r : chat_req) : result (chat_resp r) → chat → chat * list chat_req :=
  match r return result (chat_resp r) → chat → chat * list chat_req with
  | AskAvailable => λ a s,
      (match a with
       | Ok r => set_available (oa_available r)
                   (if oa_available r then ch_reason s else nullish (oa_reason r) "") s
       | Err e => set_available false (error_message e "không kiểm tra được") s
       end, [])
  | OpsChat _ => λ a s,
      (match a with
       | Ok r => set_talk (ch_turns s ++ [Agent (or_reply r)]) false (ch_error s) s
       | Err e => set_talk (ch_turns s) false (Some (error_message e "gửi thất bại")) s
       end, [])
  end.

(** Enter without shift sends the draft. *)
Definition chat_key (key : jsstr) (shift : bool) : option chat_event :=
  if bool_decide (key = "Enter"%js) && negb shift then Some SendDraft else None.

Definition turn_view (t : turn) : node chat_event :=
  let '(who, name, text) :=
    match t with Ceo x => ("ceo"%js, "Bạn"%js, x) | Agent x => ("agent"%js, "Trợ lý"%js, x) end in
  El "div" [AStr "className" (cat ["ops-chat-turn ops-chat-"; who])] [
    El "span" [AStr "className" "ops-chat-who"] [Txt name];
    El "pre" [AStr "className" "ops-chat-text"] [Txt text]].

Definition chip_view (busy : bool) (c : jsstr) : node chat_event :=
  El "button" [AStr "type" "button"; AStr "className" "chip"; ADisabled busy;
               AOn (OnClick (SendChip c))] [Txt c].

Definition chat_input (s : chat) : node chat_event :=
  El "div" [AStr "className" "ops-chat-input"] [
    El "input" [AStr "type" "text"; AStr "value" (ch_draft s); AStr "placeholder" "Nhắn cho trợ lý…";
                ADisabled (ch_busy s); AOn (OnText TypeDraft); AOn (OnKey chat_key)] [];
    El "button" [AStr "type" "button"; AStr "className" "btn btn-primary"; AOn (OnClick SendDraft);
                 ADisabled (ch_busy s || negb (truthy (trim (ch_draft s))))]
      [Txt (if ch_busy s then "Đang gửi…" else "Gửi")]].

Definition Chat (s : chat) : list (node chat_event) :=
  match ch_available s with
  | None => [El "p" [] [Txt "Đang kiểm tra…"]]
  | Some false =>
      [El "section" [] [
        El "h2" [] [Txt "Trợ lý điều hành"];
        El "p" [AStr "className" "error"] [Txt "Chưa dùng được: "; Txt (ch_reason s)];
        El "p" [] [Txt "Bạn vẫn có thể ";
                   El "a" [AStr "href" "/create"] [Txt "tạo nhân sự ảo bằng biểu mẫu →"]]]]
  | Some true =>
      [El "section" [AStr "className" "ops-chat"] (
        [El "h2" [] [Txt "Trợ lý điều hành"];
         El "p" [AStr "className" "ops-chat-hint"]
           [Txt "Nhắn tiếng Việt để quản lý đội: tạo agent, bật/tắt, xem trạng thái, xem chi phí. Mọi thay đổi đều được xem trước và cần bạn xác nhận."];
         El "div" [AStr "className" "ops-chat-log"] (
           when (bool_decide (length (ch_turns s) = 0%nat))
             [El "p" [AStr "className" "ops-chat-empty"]
                [Txt "Ví dụ: “đội mình đang có mấy agent, tốn bao nhiêu?” hoặc “tạo agent mã sales-pm, vai trò quản lý dự án”."]]
           ++ map turn_view (ch_turns s) ++ [El "div" [] []])]
        ++ match present (ch_error s) with
           | Some e => [El "p" [AStr "className" "error"] [Txt e]]
           | None => []
           end
        ++ [El "div" [AStr "className" "quick-chips"] (
              when (0 <? ch_pending s)
                [El "a" [AStr "href" "/work"; AStr "className" "chip chip-alert"]
                   [Txt "⚠️ "; Txt (z_str (ch_pending s)); Txt " việc chờ duyệt"]]
              ++ map (chip_view (ch_busy s)) QUICK_CHIPS);
            chat_input s])]
  end.

(** The page, opened with the search parameter [intent]; the shared count may change. *)
Definition chat_page (intent : option jsstr) : component :=
  {| c_state := chat; c_event := chat_event; c_req := chat_req; c_resp := chat_resp;
     c_init := ({| ch_available := None; ch_reason := ""; ch_turns := [];
                   ch_draft := if bool_decide (intent = Some "create-agent"%js)
                               then "Tạo nhân sự ảo mới. Hãy hỏi mình từng bước cần thiết." else "";
                   ch_busy := false; ch_error := None; ch_pending := 0 |}, [AskAvailable]);
     c_view := Chat; c_env := λ _ e, match e with PendingChanged _ => True | _ => False end;
     c_handle := chat_handle; c_resume := chat_resume |}.

(** ** Contract: a dialogue

    The two sides take turns.  The operator may speak whenever no answer is awaited; a message is
    answered at most once, directly after it, and the reply is logged as it was given; a failure
    logs nothing and is told beside the log. *)

Inductive exchange := Says (m : jsstr) | Hears (m : jsstr) (a : result OpsChatReply).
Inductive dialogue := Quiet (log : list turn) (told : option jsstr) | Waiting (log : list turn).

Inductive dialogue_step : dialogue → list exchange → dialogue → Prop :=
| speak log told m :
    truthy (trim m) = true → dialogue_step (Quiet log told) [Says m] (Waiting (log ++ [Ceo m]))
| reply log m r :
    dialogue_step (Waiting (log ++ [Ceo m])) [Hears m (Ok r)]
      (Quiet ((log ++ [Ceo m]) ++ [Agent (or_reply r)]) None)
| no_reply log m e :
    dialogue_step (Waiting (log ++ [Ceo m])) [Hears m (Err e)]
      (Quiet (log ++ [Ceo m]) (Some (error_message e "gửi thất bại"))).

Definition conversation : protocol exchange :=
  {| p_state := dialogue; p_init := Quiet [] None; p_step := dialogue_step |}.

(** The messages and answers on the wire, and the dialogue a state of the page stands for. *)
Definition heard {intent} (x : wire (chat_page intent)) : option exchange :=
  match x with
  | Happened _ => None
  | Sent (OpsChat m) => Some (Says m)
  | Sent AskAvailable => None
  | Received r a =>
      match r return result (chat_resp r) → option exchange with
      | OpsChat m => λ a, Some (Hears m a)
      | AskAvailable => λ _, None
      end a
  end.
Definition dialogue_of (s : chat) : dialogue :=
  if ch_busy s then Waiting (ch_turns s) else Quiet (ch_turns s) (ch_error s).

(** What the log keeps of an exchange. *)
Definition turn_of (x : exchange) : option turn :=
  match x with
  | Says m => Some (Ceo m)
  | Hears _ (Ok r) => Some (Agent (or_reply r))
  | Hears _ (Err _) => None
  end.

Definition of_message (r : chat_req) : bool := match r with OpsChat _ => true | _ => false end.

(** While a message is on its way it is the last of the log, and the only one under way. *)
Definition chat_inv (s : chat) (q : list chat_req) : Prop :=
  if ch_busy s
  then ch_error s = None ∧
       ∃ log m, ch_turns s = log ++ [Ceo m] ∧ List.filter of_message q = [OpsChat m]
  else List.filter of_message q = [].

Lemma sendText_cases m s :
  sendText m s = (s, []) ∨
  truthy (trim m) = true ∧ ch_busy s = false ∧
  sendText m s = (set_talk (ch_turns s ++ [Ceo m]) true None (set_draft "" s), [OpsChat m]).
Proof.
  unfold sendText. destruct (truthy (trim m)), (ch_busy s); auto.
Qed.

(** The message answered is the one awaited. *)
Lemma chat_inv_answered s q1 m q2 :
  chat_inv s (q1 ++ OpsChat m :: q2) →
  ch_busy s = true ∧ ch_error s = None ∧ (∃ log, ch_turns s = log ++ [Ceo m]) ∧
  List.filter of_message (q1 ++ q2) = [].
Proof.
  unfold chat_inv. rewrite !List.filter_app. cbn [List.filter of_message]. destruct (ch_busy s).
  - intros (He & log & m' & Hl & Hf). split; [done|]. split; [done|].
    destruct (List.filter of_message q1) as [|? [|??]]; cbn in Hf; [|done|done].
    injection Hf as -> ->. split; [by exists log|done].
  - by destruct (List.filter of_message q1).
Qed.

Section Page.
Context (intent : option jsstr) (srv : answers (chat_page intent)).

Lemma chat_inv_send m s q :
  chat_inv s q → chat_inv (fst (sendText m s)) (q ++ snd (sendText m s)).
Proof.
  intros H. destruct (sendText_cases m s) as [->|(_ & Hb & ->)]; cbn [fst snd].
  - by rewrite app_nil_r.
  - unfold chat_inv in *. rewrite Hb in H. cbn. split; [done|]. exists (ch_turns s), m.
    split; [done|]. by rewrite List.filter_app, H.
Qed.

#[export] Instance chat_inv_holds : Invariant srv chat_inv.
Proof.
  split.
  - done.
  - intros e s q Hi _. destruct e as [v| |c|n]; cbn; try (by rewrite app_nil_r);
      by apply chat_inv_send.
  - intros r a s q1 q2 _ Hi. destruct r as [|m].
    + unfold chat_inv in *. rewrite List.filter_app in Hi. cbn in Hi. rewrite <- List.filter_app in Hi.
      destruct a; cbn; by rewrite app_nil_r.
    + apply chat_inv_answered in Hi as (_ & _ & _ & Hf). destruct a; cbn; by rewrite app_nil_r.
Qed.

#[export] Instance chat_converses :
  Converses (C := chat_page intent) srv heard conversation dialogue_of.
Proof.
  assert (∀ m s, let l := omap (heard (intent := intent)) (map (Sent (C := chat_page intent)) (snd (sendText m s))) in
    dialogue_step (dialogue_of s) l (dialogue_of (fst (sendText m s))) ∨
    l = [] ∧ dialogue_of (fst (sendText m s)) = dialogue_of s) as Hsend.
  { intros m s. destruct (sendText_cases m s) as [->|(Hm & Hb & ->)]; [by right|left].
    cbn. unfold dialogue_of. rewrite Hb. by apply speak. }
  split; [done| |].
  - intros e s q _ _. destruct e as [v| |c|n]; [by right|apply Hsend|apply Hsend|by right].
  - intros q1 r q2 a s Hw _. destruct r as [|m]; [right; by destruct a|left].
    pose proof (invariant_holds (C := chat_page intent) srv chat_inv _ Hw) as Hi.
    apply chat_inv_answered in Hi as (Hb & He & (log & Hl) & _). cbn [w_state] in Hb, He, Hl. unfold dialogue_of. rewrite Hb, Hl.
    destruct a as [r|e]; cbn; rewrite Hl; [rewrite He|]; constructor.
Qed.
End Page.

Definition log_of (d : dialogue) : list turn := match d with Quiet l _ | Waiting l => l end.

Lemma conversation_log t d : p_trace conversation t d → log_of d = omap turn_of t.
Proof.
  induction 1 as [|t d l d' _ IH Hs]; [done|]. rewrite omap_app, <- IH.
  destruct Hs; cbn; by rewrite ?app_nil_r.
Qed.

(** C25: The log is the conversation.  Along every run of the page, whatever is answered and when: what
    crosses the wire, messages and answers, is a dialogue in turns.  A message that says
    something is only sent when none is awaiting its answer, is logged as it is sent, and is
    answered at most once; its reply is logged as the server gave it, directly after it, and a
    failure is told beside the log, until the next message.  The log on the page is thus the
    messages sent and the replies received, in their order, and nothing else. *)
Theorem chat_is_dialogue intent t (w : world (chat_page intent)) :
  history (C := chat_page intent) any t w →
  p_trace conversation (omap heard t) (dialogue_of (w_state w)) ∧
  ch_turns (w_state w) = omap turn_of (omap heard t).
Proof.
  intros Ht. apply (converses_history (C := chat_page intent) any heard conversation dialogue_of) in Ht.
  split; [exact Ht|]. apply conversation_log in Ht as <-. unfold dialogue_of. by destruct (ch_busy _).
Qed.

(** What the operator said, in a log and on the wire. *)
Definition said (log : list turn) : list jsstr :=
  omap (λ t, match t with Ceo m => Some m | Agent _ => None end) log.
Definition sent_messages (t : list exchange) : list jsstr :=
  omap (λ x, match x with Says m => Some m | Hears _ _ => None end) t.

Lemma said_turns t : said (omap turn_of t) = sent_messages t.
Proof. induction t as [|[m|m [r|e]] t IH]; cbn; [done|by f_equal|exact IH|exact IH]. Qed.

(** Nothing said is lost or made up.  At any time the operator's messages in the log of the page
    are exactly the messages sent to the assistant, in the same order, and each of them says more
    than blanks. *)
Theorem chat_log_is_sent intent t (w : world (chat_page intent)) :
  history (C := chat_page intent) any t w →
  said (ch_turns (w_state w)) = sent_messages (omap heard t) ∧
  Forall (λ m, truthy (trim m) = true) (sent_messages (omap heard t)).
Proof.
  intros Ht. apply (converses_history (C := chat_page intent) any heard conversation dialogue_of) in Ht. split.
  - apply conversation_log in Ht. rewrite <- said_turns, <- Ht. unfold dialogue_of. by destruct (ch_busy _).
  - induction Ht as [|t' d l d' _ IH Hs]; [constructor|]. unfold sent_messages. rewrite omap_app.
    apply Forall_app. split; [exact IH|]. destruct Hs; by repeat constructor.
Qed.

(** ** Witnesses *)

Notation demo_chat := (chat_page None).
Definition to_answered : list (action demo_chat) :=
  [Answer (C := demo_chat) 0 AskAvailable
     (Ok {| oa_available := true; oa_agent_id := None; oa_reason := None |});
   Do (C := demo_chat) (SendChip "Tạo nhân sự ảo mới");
   Answer (C := demo_chat) 0 (OpsChat "Tạo nhân sự ảo mới") (Ok {| or_reply := "OK"; or_agent_id := "a" |})].
Definition answered_wire : list (wire demo_chat) :=
  [Sent (C := demo_chat) AskAvailable] ++ recorded to_answered (init_world demo_chat).

Lemma to_answered_history :
  history (C := demo_chat) any answered_wire (play to_answered (init_world demo_chat)).
Proof.
  apply (play_history (C := demo_chat) any to_answered _ (init_world demo_chat)); [exact (history_start (C := demo_chat) any)|].
  split; [split; [reflexivity|exact I]|]. split.
  - left. eapply (offers_nth _ 1); [vm_compute; reflexivity|reflexivity].
  - split; [split; [vm_compute; reflexivity|exact I]|exact I].
Defined.

Lemma chat_is_dialogue_witness :
  p_trace conversation (omap heard answered_wire)
    (dialogue_of (w_state (play to_answered (init_world demo_chat)))) ∧
  ch_turns (w_state (play to_answered (init_world demo_chat))) =
    omap turn_of (omap heard answered_wire).
Proof. apply (chat_is_dialogue None _ _ to_answered_history). Defined.

Example answered_log :
  omap turn_of (omap heard answered_wire) = [Ceo "Tạo nhân sự ảo mới"; Agent "OK"].
Proof. vm_compute. reflexivity. Qed.

Lemma chat_log_is_sent_witness :
  let w := play to_answered (init_world demo_chat) in
  said (ch_turns (w_state w)) = sent_messages (omap heard answered_wire) ∧
  Forall (λ m, truthy (trim m) = true) (sent_messages (omap heard answered_wire)).
Proof. intros w. apply (chat_log_is_sent None _ w to_answered_history). Defined.
