(* ===== verification/CompanyDocs.v ===== *)
(** The library of company documents (views/CompanyDocs.tsx): the list, and the editor that is
    mounted while a document, or a new one, is selected. *)

From S2P Require Import Prelude React Behaviour Types.

(** ** State *)

Inductive selection := NewDoc | OldDoc (d : CompanyDoc).

(** An editor is a mounted [DocEditor], with a number of its own. *)
Record editor := {
  ed_mount : nat;
  ed_title : jsstr;
  ed_body : jsstr;
  ed_busy : bool;
  ed_error : option jsstr
}.

Record library := {
  li_docs : option (list CompanyDoc);
  li_selected : option selection;
  li_error : option jsstr;
  li_editor : option editor;
  li_mounts : nat;
  li_today : jsstr                                 (* the host's date, as [toISOString] has it *)
}.

Inductive library_event :=
| PickNew
| PickDoc (d : CompanyDoc)
| DocTitle (v : jsstr)
| DocBody (v : jsstr)
| SaveDocument
| CancelEdit
| RemoveDoc (confirmed : bool)
| DayChanged (d : jsstr).

(** A write carries the number of the editor that sent it. *)
Inductive library_req :=
| LoadDocs
| CreateDoc (n : nat) (title body today : jsstr)
| UpdateDoc (n : nat) (slug title body today : jsstr)
| DeleteDoc (n : nat) (slug : jsstr).

Definition library_resp (r : library_req) : Type :=
  match r with LoadDocs => list CompanyDoc | _ => unit end.

(** ** Mounting *)

(** The fields of a fresh editor of a selection. *)
Definition new_editor (n : nat) (c : selection) : editor :=
  {| ed_mount := n;
     ed_title := match c with OldDoc d => cd_title d | NewDoc => "" end;
     ed_body := match c with OldDoc d => cd_body d | NewDoc => "" end;
     ed_busy := false; ed_error := None |}.

(** The state after an update of the page's cells: the editor is there exactly while the list is
    shown and something is selected, and a present one stays as it is. *)
Definition render (docs : option (list CompanyDoc)) (sel : option selection)
    (error : option jsstr) (s : library) : library :=
  let same e m := {| li_docs := docs; li_selected := sel; li_error := error; li_editor := e;
                     li_mounts := m; li_today := li_today s |} in
  match present error, docs, sel with
  | None, Some _, Some c =>
      match li_editor s with
      | Some ed => same (Some ed) (li_mounts s)
      | None => same (Some (new_editor (S (li_mounts s)) c)) (S (li_mounts s))
      end
  | _, _, _ => same None (li_mounts s)
  end.

Definition select_doc (c : option selection) (s : library) : library :=
  render (li_docs s) c (li_error s) s.

Definition with_editor (f : editor → editor) (s : library) : library :=
  {| li_docs := li_docs s; li_selected := li_selected s; li_error := li_error s;
     li_editor := option_map f (li_editor s); li_mounts := li_mounts s; li_today := li_today s |}.

Definition set_text (title body : jsstr) (e : editor) : editor :=
  {| ed_mount := ed_mount e; ed_title := title; ed_body := body; ed_busy := ed_busy e;
     ed_error := ed_error e |}.
Definition set_flags (busy : bool) (error : option jsstr) (e : editor) : editor :=
  {| ed_mount := ed_mount e; ed_title := ed_title e; ed_body := ed_body e; ed_busy := busy;
     ed_error := error |}.

(** ** Handlers and continuations *)

Definition save_request (ed : editor) (c : selection) (today : jsstr) : library_req :=
  match c with
  | OldDoc d => UpdateDoc (ed_mount ed) (cd_slug d) (ed_title ed) (ed_body ed) today
  | NewDoc => CreateDoc (ed_mount ed) (ed_title ed) (ed_body ed) today
  end.

Definition library_handle (e : library_event) (s : library) : library * list library_req :=
  match e with
  | PickNew => (select_doc (Some NewDoc) s, [])
  | PickDoc d => (select_doc (Some (OldDoc d)) s, [])
  | DocTitle v => (with_editor (λ e, set_text v (ed_body e) e) s, [])
  | DocBody v => (with_editor (λ e, set_text (ed_title e) v e) s, [])
  | SaveDocument =>
      match li_editor s, li_selected s with
      | Some ed, Some c => (with_editor (set_flags true None) s, [save_request ed c (li_today s)])
      | _, _ => (s, [])
      end
  | CancelEdit => (select_doc None s, [])
  | RemoveDoc confirmed =>
      match li_editor s, li_selected s with
      | Some ed, Some (OldDoc d) =>
          if confirmed
          then (with_editor (set_flags true None) s, [DeleteDoc (ed_mount ed) (cd_slug d)])
          else (s, [])
      | _, _ => (s, [])
      end
  | DayChanged d =>
      ({| li_docs := li_docs s; li_selected := li_selected s; li_error := li_error s;
          li_editor := li_editor s; li_mounts := li_mounts s; li_today := d |}, [])
  end.

(** [onSaved] and [onDeleted] close the editor, whichever it is now, and read the list again; a
    failure is shown by the editor that sent the write, if it is still there. *)
Definition doc_written (n : nat) (fallback : jsstr) (a : result unit) (s : library) :
    library * list library_req :=
  match a with
  | Ok _ => (select_doc None s, [LoadDocs])
  | Err e =>
      (with_editor (λ ed, if decide (ed_mount ed = n)
                          then set_flags false (Some (api_error_message e fallback)) ed else ed) s, [])
  end.

Definition library_resume (r : library_req) :
    result (library_resp r) → library → library * list library_req :=
  match r return result (library_resp r) → library → library * list library_req with
  | LoadDocs => λ a s,
      (match a with
       | Ok l => render (Some l) (li_selected s) (li_error s) s
       | Err e => render (li_docs s) (li_selected s) (Some (error_message e "lỗi")) s
       end, [])
  | CreateDoc n _ _ _ => doc_written n "lưu thất bại"
  | UpdateDoc n _ _ _ _ => doc_written n "lưu thất bại"
  | DeleteDoc n _ => doc_written n "xóa thất bại"
  end.

(** ** The view *)

Definition is_old (c : selection) : bool := match c with OldDoc _ => true | NewDoc => false end.
Definition selected_slug (c : option selection) : option jsstr :=
  match c with Some (OldDoc d) => Some (cd_slug d) | _ => None end.

Definition DocEditor (c : selection) (e : editor) : node library_event :=
  El "div" [AStr "className" "company-doc-editor"] (
    [El "label" [] [Txt "Tiêu đề";
       El "input" [AStr "value" (ed_title e); AOn (OnText DocTitle);
                   AStr "placeholder" "Quy trình nghỉ phép"] []];
     El "label" [] [Txt "Nội dung";
       El "textarea" [AStr "rows" "16"; AStr "value" (ed_body e); AOn (OnText DocBody)] []]]
    ++ match present (ed_error e) with
       | Some m => [El "p" [AStr "className" "error"] [Txt m]]
       | None => []
       end
    ++ [El "div" [AStr "className" "agent-actions"] (
          [El "button" [AStr "type" "button"; ADisabled (ed_busy e || negb (truthy (trim (ed_title e))));
                        AOn (OnClick SaveDocument)] [Txt (if ed_busy e then "Đang lưu…" else "Lưu")];
           El "button" [AStr "type" "button"; AOn (OnClick CancelEdit)] [Txt "Hủy"]]
          ++ when (is_old c)
               [El "button" [AStr "type" "button"; AStr "className" "danger"; ADisabled (ed_busy e);
                             AOn (OnCheck RemoveDoc)] [Txt "Xóa"]])]).

Definition doc_button (s : library) (d : CompanyDoc) : node library_event :=
  El "li" [] [
    El "button" ([AStr "type" "button"]
                 ++ when (bool_decide (selected_slug (li_selected s) = Some (cd_slug d)))
                      [AStr "className" "active"]
                 ++ [AOn (OnClick (PickDoc d))])
      (El "strong" [] [Txt (cd_title d)]
       :: when (truthy (cd_updated d))
            [El "span" [AStr "className" "muted"] [Txt " · "; Txt (cd_updated d)]])].

Definition CompanyDocs (s : library) : list (node library_event) :=
  match present (li_error s), li_docs s with
  | Some e, _ => [El "p" [AStr "className" "error"] [Txt "Lỗi: "; Txt e]]
  | None, None => [El "p" [] [Txt "Đang tải…"]]
  | None, Some docs =>
      [El "section" [AStr "className" "company-docs"] [
        El "header" [AStr "className" "page-head"] [
          El "h2" [] [Txt "Tài liệu công ty"];
          El "button" [AStr "type" "button"; AOn (OnClick PickNew)] [Txt "+ Tài liệu mới"]];
        El "p" [AStr "className" "muted"]
          [Txt "Tài liệu ở đây được tick cho từng agent (trong trang agent → tab Kiến thức) và chỉ đưa vào ngữ cảnh nội bộ — báo cáo gửi ra ngoài không bao giờ chứa nội dung này."];
        El "div" [AStr "className" "company-docs-body"] (
          El "ul" [AStr "className" "company-docs-list"] (
            when (bool_decide (docs = [])) [El "li" [AStr "className" "muted"] [Txt "Chưa có tài liệu nào."]]
            ++ map (doc_button s) docs)
          :: match li_selected s, li_editor s with
             | Some c, Some e => [DocEditor c e]
             | _, _ => []
             end)]]
  end.

Definition company_docs (today : jsstr) : component :=
  {| c_state := library; c_event := library_event; c_req := library_req; c_resp := library_resp;
     c_init := ({| li_docs := None; li_selected := None; li_error := None; li_editor := None;
                   li_mounts := 0; li_today := today |}, [LoadDocs]);
     c_view := CompanyDocs;
     c_env := λ _ e, match e with DayChanged _ => True | _ => False end;
     c_handle := library_handle; c_resume := library_resume |}.

(** ** Theorems: the editor writes what it shows *)

Lemma editor_offers c ed e :
  offers [DocEditor c ed] e →
  match e with
  | SaveDocument => ed_busy ed = false ∧ trim (ed_title ed) ≠ []
  | RemoveDoc _ => ed_busy ed = false ∧ is_old c = true
  | DocTitle _ | DocBody _ | CancelEdit => True
  | _ => False
  end.
Proof.
  intros H. unfold DocEditor in H. inv_offers; try done.
  match goal with H : _ || _ = false |- _ => apply orb_false_iff in H as [? H];
    apply negb_false_iff, truthy_spec in H end. done.
Qed.

Lemma doc_button_offers s d e : offers [doc_button s d] e → e = PickDoc d.
Proof.
  intros H. unfold doc_button in H. inv_offers. rewrite flat_map_app in H.
  destruct (bool_decide _); cbn in H; by inv_offers.
Qed.

Lemma docs_offers s e :
  offers (CompanyDocs s) e →
  present (li_error s) = None ∧ is_Some (li_docs s) ∧
  match e with
  | PickNew => True
  | PickDoc d => ∃ l, li_docs s = Some l ∧ d ∈ l
  | DayChanged _ => False
  | _ => ∃ c ed, li_selected s = Some c ∧ li_editor s = Some ed ∧ offers [DocEditor c ed] e
  end.
Proof.
  intros H. unfold CompanyDocs in H.
  destruct (present (li_error s)); [inv_offers|]. split; [done|].
  destruct (li_docs s) as [l|] eqn:El; [|inv_offers]. split; [eauto|].
  destruct (li_selected s) as [c|] eqn:Ec, (li_editor s) as [ed|] eqn:Ee; inv_offers; try done.
  all: try (apply doc_button_offers in H as ->; eauto).
  apply editor_offers in H as Ho. destruct e; try done; eauto.
Qed.

(** The writes in flight of an editor. *)
Definition written_by (n : nat) (r : library_req) : bool :=
  match r with
  | LoadDocs => false
  | CreateDoc m _ _ _ | UpdateDoc m _ _ _ _ | DeleteDoc m _ => Nat.eqb m n
  end.
Definition born (k : nat) (r : library_req) : Prop := ∀ n, (k < n)%nat → written_by n r = false.

(** The editor is there exactly while the page shows its list and a selection, and is busy exactly
    while a write of its own is in flight. *)
Record library_inv (s : library) (q : list library_req) : Prop := {
  li_shown : is_Some (li_editor s) ↔
    present (li_error s) = None ∧ is_Some (li_docs s) ∧ is_Some (li_selected s);
  li_born : Forall (born (li_mounts s)) q;
  li_own : ∀ ed, li_editor s = Some ed →
    (ed_mount ed ≤ li_mounts s)%nat ∧
    tally (written_by (ed_mount ed)) q = (if ed_busy ed then 1 else 0)%nat
}.

Lemma tally_unborn k n q : Forall (born k) q → (k < n)%nat → tally (written_by n) q = 0%nat.
Proof. intros Hq Hk. apply tally_none. intros r Hr. rewrite Forall_forall in Hq. by apply (Hq r). Qed.

Lemma born_mono k k' q : (k ≤ k')%nat → Forall (born k) q → Forall (born k') q.
Proof. intros H Hq. eapply Forall_impl; [exact Hq|]. intros r Hr n Hn. apply Hr. lia. Qed.

(** Updating the cells of the page keeps the invariant. *)
Lemma render_inv docs c err s q :
  Forall (born (li_mounts s)) q →
  (is_Some c → ∀ ed, li_editor s = Some ed → (ed_mount ed ≤ li_mounts s)%nat ∧
    tally (written_by (ed_mount ed)) q = (if ed_busy ed then 1 else 0)%nat) →
  library_inv (render docs c err s) q.
Proof.
  intros Hq Hed. unfold render.
  assert (∀ s', li_editor s' = None → li_mounts s' = li_mounts s →
    (present (li_error s') ≠ None ∨ li_docs s' = None ∨ li_selected s' = None) →
    library_inv s' q) as Hnone.
  { intros s' E1 E2 E3. split; [|by rewrite E2|by rewrite E1]. rewrite E1. split; [by intros [? ?]|].
    intros (H1 & H2 & H3). destruct E3 as [E|[E|E]]; [done|..]; rewrite E in *; by destruct H2, H3. }
  destruct (present err) eqn:Ee; [apply Hnone; cbn; try done; left; by rewrite Ee|].
  destruct docs as [l|]; [|apply Hnone; cbn; auto]. destruct c as [c|]; [|apply Hnone; cbn; auto].
  destruct (li_editor s) as [ed|] eqn:E.
  - split; cbn; [|done|by intros ? [= <-]; apply Hed; eauto]. rewrite Ee. naive_solver.
  - split; cbn; [rewrite Ee; naive_solver|eapply born_mono; [|exact Hq]; lia|].
    intros ? [= <-]. cbn. split; [done|]. eapply tally_unborn; [exact Hq|lia].
Qed.

(** So does a change of the editor that keeps its number. *)
Lemma with_editor_inv f s q q' :
  library_inv s q → Forall (born (li_mounts s)) q' →
  (∀ ed, li_editor s = Some ed → ed_mount (f ed) = ed_mount ed ∧
    tally (written_by (ed_mount ed)) q' = (if ed_busy (f ed) then 1 else 0)%nat) →
  library_inv (with_editor f s) q'.
Proof.
  intros [H1 H2 H3] Hq Hf. split; cbn; [|done|].
  - rewrite <- H1. by destruct (li_editor s).
  - destruct (li_editor s) as [ed|]; [|done]. intros ? [= <-].
    destruct (Hf ed eq_refl) as [-> Ht]. destruct (H3 ed eq_refl) as [Hm _]. done.
Qed.

Section Page.
Context (today : jsstr) (srv : answers (company_docs today)).

Lemma library_inv_event e s q :
  library_inv s q → allowed (C := company_docs today) s e →
  library_inv (fst (library_handle e s)) (q ++ snd (library_handle e s)).
Proof.
  intros Hi He. pose proof Hi as [H1 H2 H3].
  assert (∀ r, (∃ ed, li_editor s = Some ed ∧ ∀ m, written_by m r = Nat.eqb (ed_mount ed) m) →
    Forall (born (li_mounts s)) (q ++ [r])) as Hborn.
  { intros r (ed & Ee & Hr). apply Forall_app. split; [done|]. repeat constructor. intros n Hn.
    destruct (H3 ed Ee) as [Hm _]. rewrite Hr. apply Nat.eqb_neq. lia. }
  assert (∀ r ed, li_editor s = Some ed → ed_busy ed = false →
    (∀ m, written_by m r = Nat.eqb (ed_mount ed) m) →
    tally (written_by (ed_mount ed)) (q ++ [r]) = 1%nat) as Htally.
  { intros r ed Ee Hb Hr. destruct (H3 ed Ee) as [_ Ht].
    rewrite tally_app, Ht, Hb, tally_cons, Hr, Nat.eqb_refl. done. }
  assert (match e with DayChanged _ => True | _ => offers (CompanyDocs s) e end) as Ho
    by (destruct He as [He|He], e; done).
  clear He. destruct e as [|d|v|v| | |b|d]; cbn [library_handle fst snd]; rewrite ?app_nil_r.
  - by apply render_inv.
  - by apply render_inv.
  - apply (with_editor_inv _ s q q); try done. intros ed Ee. by destruct (H3 ed Ee).
  - apply (with_editor_inv _ s q q); try done. intros ed Ee. by destruct (H3 ed Ee).
  - apply docs_offers in Ho as (_ & _ & c & ed & Ec & Ee & Ho). rewrite Ee, Ec. cbn [fst snd].
    apply editor_offers in Ho as [Hb _].
    assert (∀ m, written_by m (save_request ed c (li_today s)) = Nat.eqb (ed_mount ed) m) as Hr
      by (by destruct c).
    apply (with_editor_inv _ s q); [done|by apply Hborn; eauto|]. intros ed' E.
    assert (ed' = ed) as -> by congruence. split; [done|]. by apply Htally.
  - apply render_inv; [done|]. by intros [? ?].
  - apply docs_offers in Ho as (_ & _ & c & ed & Ec & Ee & Ho). rewrite Ee, Ec.
    apply editor_offers in Ho as [Hb Hc]. destruct c as [|d]; [done|].
    destruct b; cbn [fst snd]; [|by rewrite app_nil_r].
    apply (with_editor_inv _ s q); [done|by apply Hborn; exists ed|]. intros ed' E.
    assert (ed' = ed) as -> by congruence. split; [done|]. by apply Htally.
  - by split.
Qed.

Lemma doc_written_inv n fallback a s q1 r q2 :
  library_inv s (q1 ++ r :: q2) → (∀ m, written_by m r = Nat.eqb n m) →
  library_inv (fst (doc_written n fallback a s)) (q1 ++ q2 ++ snd (doc_written n fallback a s)).
Proof.
  intros Hi Hr. pose proof Hi as [H1 H2 H3].
  assert (Forall (born (li_mounts s)) (q1 ++ q2)) as Hq.
  { apply Forall_app in H2 as [? H2]. apply Forall_cons in H2 as [_ ?]. by apply Forall_app. }
  destruct a as [[]|e]; cbn [doc_written fst snd].
  - apply render_inv; [|by intros [? ?]]. rewrite app_assoc. apply Forall_app. split; [done|].
    repeat constructor.
  - rewrite app_nil_r. apply (with_editor_inv _ s (q1 ++ r :: q2)); [done|done|].
    intros ed Ee. destruct (H3 ed Ee) as [_ Ht]. rewrite tally_middle, Hr in Ht.
    destruct (decide (ed_mount ed = n)) as [E|Hn]; (split; [done|]).
    + rewrite E in *. rewrite Nat.eqb_refl in Ht. cbn. destruct (ed_busy ed); lia.
    + rewrite (proj2 (Nat.eqb_neq n (ed_mount ed))) in Ht by congruence. lia.
Qed.

#[export] Instance library_inv_holds : Invariant srv library_inv.
Proof.
  split.
  - split; cbn; [|by repeat constructor|done]. split; [by intros [? ?]|by intros (_ & [? ?] & _)].
  - intros. by apply library_inv_event.
  - intros r a s q1 q2 _ Hi. destruct r as [|n t b d|n sl t b d|n sl];
      try (by apply (doc_written_inv n) with (r := CreateDoc n t b d));
      try (by apply (doc_written_inv n) with (r := UpdateDoc n sl t b d));
      try (by apply (doc_written_inv n) with (r := DeleteDoc n sl)).
    pose proof Hi as [H1 H2 H3].
    assert (Forall (born (li_mounts s)) (q1 ++ q2)) as Hq.
    { apply Forall_app in H2 as [? H2]. apply Forall_cons in H2 as [_ ?]. by apply Forall_app. }
    assert (∀ ed, li_editor s = Some ed → (ed_mount ed ≤ li_mounts s)%nat ∧
      tally (written_by (ed_mount ed)) (q1 ++ q2) = (if ed_busy ed then 1 else 0)%nat) as Hed.
    { intros ed Ee. destruct (H3 ed Ee) as [Hm Ht]. rewrite tally_middle in Ht. cbn [written_by] in Ht.
      by rewrite Nat.add_0_r in Ht. }
    destruct a as [l|e]; cbn; rewrite app_nil_r; by apply render_inv.
Qed.
End Page.

(** Every request but the reading of the list is sent by the editor on display. *)
Lemma library_issues today (w : world (company_docs today)) r :
  reachable any w → issues any w r → r ≠ LoadDocs →
  ∃ e c ed, offers (CompanyDocs (w_state w)) e ∧ li_selected (w_state w) = Some c ∧
    li_editor (w_state w) = Some ed ∧ tally (written_by (ed_mount ed)) (w_flight w) = 0%nat ∧
    (e = SaveDocument ∧ r = save_request ed c (li_today (w_state w)) ∧ trim (ed_title ed) ≠ [] ∨
     e = RemoveDoc true ∧ ∃ d, c = OldDoc d ∧ r = DeleteDoc (ed_mount ed) (cd_slug d)).
Proof.
  intros Hw. pose proof (invariant_holds (C := company_docs today) any library_inv w Hw) as [_ _ H3].
  intros [(e & He & Hin)|(r' & a & _ & Hin)]%issues_inv Hr.
  - assert (∀ c ed, li_editor (w_state w) = Some ed → offers [DocEditor c ed] e →
      (e = SaveDocument ∨ ∃ b, e = RemoveDoc b) →
      tally (written_by (ed_mount ed)) (w_flight w) = 0%nat) as Ht.
    { intros c ed Ee Ho Hev. apply editor_offers in Ho. destruct (H3 ed Ee) as [_ Ht].
      destruct Hev as [->|[b ->]]; destruct Ho as [Hb _]; by rewrite Hb in Ht. }
    destruct He as [Ho|Henv]; [|by destruct e; cbn in Hin, Henv; try done; apply elem_of_nil in Hin].
    pose proof Ho as (_ & _ & Hc)%docs_offers.
    destruct e as [|d|v|v| | |b|d]; cbn in Hin; try (by apply elem_of_nil in Hin);
      destruct Hc as (c & ed & Ec & Ee & Hoe); rewrite Ee, Ec in Hin; cbn in Hin.
    + apply list_elem_of_singleton in Hin as ->. exists SaveDocument, c, ed. split_and!; eauto.
      left. split_and!; try done. by apply editor_offers in Hoe as [_ ?].
    + destruct c as [|d]; [by apply elem_of_nil in Hin|]. destruct b; [|by apply elem_of_nil in Hin].
      apply list_elem_of_singleton in Hin as ->. exists (RemoveDoc true), (OldDoc d), ed.
      split_and!; eauto.
  - destruct r'; destruct a; cbn in Hin; set_solver.
Qed.

(** A document is written as it is shown.  Every write of a document goes to the selected one, with
    the title and the text in the editor on display and the date of the day; its title says
    something; it is sent while that editor has no other write under way; and only a confirmed
    deletion deletes, the selected document. *)
Theorem editor_writes_shown today (w : world (company_docs today)) :
  reachable any w →
  let s := w_state w in
  (∀ n slug t b d, issues any w (UpdateDoc n slug t b d) →
     ∃ ed doc, li_editor s = Some ed ∧ li_selected s = Some (OldDoc doc) ∧ ed_mount ed = n ∧
       slug = cd_slug doc ∧ t = ed_title ed ∧ b = ed_body ed ∧ d = li_today s ∧ trim t ≠ [] ∧
       tally (written_by n) (w_flight w) = 0%nat) ∧
  (∀ n t b d, issues any w (CreateDoc n t b d) →
     ∃ ed, li_editor s = Some ed ∧ li_selected s = Some NewDoc ∧ ed_mount ed = n ∧
       t = ed_title ed ∧ b = ed_body ed ∧ d = li_today s ∧ trim t ≠ [] ∧
       tally (written_by n) (w_flight w) = 0%nat) ∧
  (∀ n slug, issues any w (DeleteDoc n slug) →
     offers (CompanyDocs s) (RemoveDoc true) ∧ selected_slug (li_selected s) = Some slug ∧
     tally (written_by n) (w_flight w) = 0%nat).
Proof.
  intros Hw. cbv zeta.
  pose proof (library_issues today w) as H.
  split; [|split].
  - intros n slug t b d Hi. destruct (H _ Hw Hi) as (e & c & ed & Ho & Ec & Ee & Ht & [(-> & E & Hn)|(_ & x & _ & E)]); try done.
    destruct c as [|doc]; [done|]. injection E as -> -> -> -> ->. exists ed, doc. by split_and!.
  - intros n t b d Hi. destruct (H _ Hw Hi) as (e & c & ed & Ho & Ec & Ee & Ht & [(-> & E & Hn)|(_ & x & _ & E)]); try done.
    destruct c as [|doc]; [|done]. injection E as -> -> -> ->. exists ed. by split_and!.
  - intros n slug Hi. destruct (H _ Hw Hi) as (e & c & ed & Ho & Ec & Ee & Ht & [(-> & E & Hn)|(-> & x & -> & E)]); [done|by destruct c|].
    injection E as -> ->. by rewrite Ec.
Qed.

(** ** Theorems: another document under the editor *)

Lemma doc_offered s l d :
  present (li_error s) = None → li_docs s = Some l → d ∈ l → offers (CompanyDocs s) (PickDoc d).
Proof.
  intros He Hl Hd. unfold CompanyDocs. rewrite He, Hl.
  apply offers_El. right. do 2 (apply offers_cons; right).
  apply offers_El. right. apply offers_cons. left.
  rewrite offers_El, offers_app, offers_map. right. right. exists d. split; [done|].
  unfold doc_button. destruct (bool_decide _); (eapply (offers_nth _ 0); [reflexivity|reflexivity]).
Qed.

Lemma save_offered s l c ed :
  present (li_error s) = None → li_docs s = Some l → li_selected s = Some c → li_editor s = Some ed →
  ed_busy ed = false → trim (ed_title ed) ≠ [] → offers (CompanyDocs s) SaveDocument.
Proof.
  intros He Hl Hc Ee Hb Ht. unfold CompanyDocs. rewrite He, Hl, Hc, Ee.
  apply offers_El. right. do 2 (apply offers_cons; right).
  apply offers_El. right. apply offers_cons. right.
  unfold DocEditor. rewrite offers_El, !offers_app. right. right. right.
  rewrite offers_El, !offers_app. right. left. rewrite Hb, (proj2 (truthy_spec _) Ht).
  eapply (offers_nth _ 0); [reflexivity|reflexivity].
Qed.

(** Picking a document mounts an editor on it, and keeps one that is there. *)
Definition picked (s : library) (d : CompanyDoc) (e : editor) (n : nat) : library :=
  {| li_docs := li_docs s; li_selected := Some (OldDoc d); li_error := li_error s;
     li_editor := Some e; li_mounts := n; li_today := li_today s |}.

Lemma pick_doc {today} (w : world (company_docs today)) l d :
  present (li_error (w_state w)) = None → li_docs (w_state w) = Some l →
  do_action (Do (C := company_docs today) (PickDoc d)) w =
  World (C := company_docs today)
    match li_editor (w_state w) with
    | Some e => picked (w_state w) d e (li_mounts (w_state w))
    | None => picked (w_state w) d (new_editor (S (li_mounts (w_state w))) (OldDoc d))
                (S (li_mounts (w_state w)))
    end (w_flight w).
Proof.
  intros He Hl. cbn [do_action]. change (c_handle (company_docs today)) with library_handle.
  cbn [library_handle fst snd]. rewrite app_nil_r. unfold select_doc, render, picked.
  rewrite He, Hl. by destruct (li_editor (w_state w)).
Qed.

(** A document can be overwritten with another one's text.  From every reachable page that shows
    its list and no editor, pick document [a] and then document [b]: the editor, which is not
    mounted again, still holds the title and the text of [a], and saving writes them to [b]. *)
Theorem editor_overwrites_other today (w : world (company_docs today)) l a b :
  reachable any w → present (li_error (w_state w)) = None → li_docs (w_state w) = Some l →
  li_selected (w_state w) = None → a ∈ l → b ∈ l → trim (cd_title a) ≠ [] →
  let picks := [Do (C := company_docs today) (PickDoc a); Do (C := company_docs today) (PickDoc b)] in
  legal_all any picks w ∧
  ∃ n, issues any (play picks w) (UpdateDoc n (cd_slug b) (cd_title a) (cd_body a) (li_today (w_state w))).
Proof.
  intros Hw He Hl Hs Ha Hb Ht picks.
  pose proof (invariant_holds (C := company_docs today) any library_inv w Hw) as [H1 _ _].
  assert (li_editor (w_state w) = None) as Hed.
  { destruct (li_editor (w_state w)); [|done]. destruct (proj1 H1 ltac:(eauto)) as (_ & _ & [? ?]). congruence. }
  unfold picks. cbn [play foldl legal_all legal].
  rewrite (pick_doc w l a), Hed by done.
  rewrite (pick_doc (World _ _) l b) by done. cbn [w_state w_flight picked li_editor]. split.
  - split; [left; by eapply doc_offered|]. split; [|exact I]. left. by eapply doc_offered.
  - eexists. eapply (issues_event (C := company_docs today) _ _ SaveDocument); cbn [w_state].
    + left. by eapply save_offered.
    + left.
Qed.

(** ** Witnesses *)

Definition demo_doc (slug title : jsstr) : CompanyDoc :=
  {| cd_slug := slug; cd_title := title; cd_updated := ""; cd_body := title |}.
Definition demo_docs : list CompanyDoc := [demo_doc "leave" "Leave"; demo_doc "pay" "Pay"].
Notation demo_library := (company_docs "2026-07-01").

Definition to_list : list (action demo_library) :=
  [Answer (C := demo_library) 0 LoadDocs (Ok demo_docs)].
Lemma to_list_reachable : reachable any (play to_list (init_world demo_library)).
Proof. apply play_reachable; [apply reach_init|]. split; [split; [reflexivity|exact I]|exact I]. Defined.

Lemma editor_overwrites_other_witness :
  let w := play to_list (init_world demo_library) in
  let l := [Do (C := demo_library) (PickDoc (demo_doc "leave" "Leave"));
            Do (C := demo_library) (PickDoc (demo_doc "pay" "Pay"))] in
  legal_all any l w ∧ ∃ n, issues any (play l w) (UpdateDoc n "pay" "Leave" "Leave" "2026-07-01").
Proof.
  intros w. apply (editor_overwrites_other "2026-07-01" w demo_docs (demo_doc "leave" "Leave")
    (demo_doc "pay" "Pay") to_list_reachable); try reflexivity; [| |done].
  - by apply (list_elem_of_lookup_2 _ 0).
  - by apply (list_elem_of_lookup_2 _ 1).
Defined.

Definition to_edited : list (action demo_library) :=
  to_list ++ [Do (C := demo_library) (PickDoc (demo_doc "pay" "Pay"));
              Do (C := demo_library) (DocTitle "Pay 2")].
Lemma to_document_reachable : reachable any (play to_edited (init_world demo_library)).
Proof.
  unfold to_edited. rewrite play_app. apply play_reachable; [exact to_list_reachable|].
  split; [left; eapply (offers_nth _ 2); [vm_compute; reflexivity|reflexivity]|].
  split; [left; eapply (offers_nth _ 3); [vm_compute; reflexivity|by exists "Pay 2"%js]|exact I].
Defined.

Lemma editor_writes_shown_witness :
  let w := play to_edited (init_world demo_library) in
  let s := w_state w in
  (∀ n slug t b d, issues any w (UpdateDoc n slug t b d) →
     ∃ ed doc, li_editor s = Some ed ∧ li_selected s = Some (OldDoc doc) ∧ ed_mount ed = n ∧
       slug = cd_slug doc ∧ t = ed_title ed ∧ b = ed_body ed ∧ d = li_today s ∧ trim t ≠ [] ∧
       tally (written_by n) (w_flight w) = 0%nat) ∧
  (∀ n t b d, issues any w (CreateDoc n t b d) →
     ∃ ed, li_editor s = Some ed ∧ li_selected s = Some NewDoc ∧ ed_mount ed = n ∧
       t = ed_title ed ∧ b = ed_body ed ∧ d = li_today s ∧ trim t ≠ [] ∧
       tally (written_by n) (w_flight w) = 0%nat) ∧
  (∀ n slug, issues any w (DeleteDoc n slug) →
     offers (CompanyDocs s) (RemoveDoc true) ∧ selected_slug (li_selected s) = Some slug ∧
     tally (written_by n) (w_flight w) = 0%nat).
Proof. intros w. apply (editor_writes_shown "2026-07-01" w to_document_reachable). Defined.
