(* ===== verification/Health.v ===== *)
(** The health of the integrations and of the team: the panel with its remediation hints
    (components/IntegrationHealthPanel.tsx) and the polled count of severe alerts
    (hooks/use-team-health.ts). *)

From S2P Require Import Prelude React Behaviour Types.

(** ** Hints *)

Section Hint.
Context {E : Type}.

Definition hint_text (part : jsstr) : node E := El "span" [] [Txt part].
Definition hint_code (part : jsstr) : node E :=
  El "code" [AStr "className" "health-fix-cmd"] [Txt part].

Definition renderHint (hint : jsstr) : list (node E) :=
  let parts := split_on 96 hint in
  let codeUntil := if Nat.even (length parts) then length parts else (length parts - 1)%nat in
  imap (λ i part, if Nat.odd i && (i <? codeUntil)%nat then hint_code part else hint_text part) parts.

(** The segments alternate, code at the odd places. *)
Fixpoint alternate (code : bool) (parts : list jsstr) : list (node E) :=
  match parts with
  | [] => []
  | p :: r => (if code then hint_code p else hint_text p) :: alternate (negb code) r
  end.

Lemma alternate_imap parts k :
  imap (λ i part, if Nat.odd (k + i) then hint_code part else hint_text part) parts =
  alternate (Nat.odd k) parts.
Proof.
  revert k. induction parts as [|p r IH]; intros k; [done|]. cbn [imap alternate].
  rewrite Nat.add_0_r. f_equal. transitivity (alternate (Nat.odd (S k)) r).
  - rewrite <- IH. apply imap_ext. intros i x _. cbn. by replace (k + S i)%nat with (S k + i)%nat by lia.
  - by rewrite Nat.odd_succ, <- Nat.negb_odd.
Qed.

(** A hint is split at its backticks, and every second segment is a command.  The text that is
    shown is the hint without its backticks; and the segments alternate between text and
    command, also the last one when the number of backticks is odd: the guard on the last segment
    has no effect, so an unclosed backtick turns the rest of the hint into a command. *)
Theorem renderHint_alternates hint :
  renderHint hint = alternate false (split_on 96 hint) ∧
  text_all (renderHint hint) = List.filter (λ c, negb (c =? 96)) hint.
Proof.
  assert (renderHint hint = alternate false (split_on 96 hint)) as ->.
  { unfold renderHint. change false with (Nat.odd 0). rewrite <- alternate_imap.
    apply imap_ext. intros i p Hi%lookup_lt_Some.
    change (0 + i)%nat with i. destruct (Nat.odd i) eqn:Eo; [|done]. cbn [andb]. destruct (Nat.even (length (split_on 96 hint))) eqn:El.
    - by rewrite (proj2 (Nat.ltb_lt _ _)).
    - rewrite (proj2 (Nat.ltb_lt _ _)); [done|].
      assert (i ≠ length (split_on 96 hint) - 1)%nat; [|lia]. intros ->.
      rewrite <- Nat.negb_odd, negb_false_iff in El. destruct (length (split_on 96 hint)) as [|n]; [lia|].
      rewrite Nat.sub_succ, Nat.sub_0_r in Eo. rewrite Nat.odd_succ, <- Nat.negb_odd, Eo in El. done. }
  split; [done|]. generalize false as b. induction hint as [|c h IH]; intros b; [by destruct b|].
  cbn [split_on List.filter]. destruct (c =? 96); cbn [negb].
  - rewrite <- (IH (negb b)). by destruct b.
  - pose proof (split_on_ne 96 h) as Hn. destruct (split_on 96 h) as [|p r]; [done|].
    rewrite <- (IH b). by destruct b.
Qed.
End Hint.

(** ** The panel *)

Record health := {
  hp_checks : list IntegrationCheck;
  hp_loading : bool;
  hp_error : option jsstr
}.

Inductive health_event := RefreshHealth.
Inductive health_req := LoadChecks.
Definition health_resp (r : health_req) : Type := IntegrationHealthPayload.

Definition health_handle (e : health_event) (s : health) : health * list health_req :=
  ({| hp_checks := hp_checks s; hp_loading := true; hp_error := None |}, [LoadChecks]).

Definition health_resume (r : health_req) (a : result (health_resp r)) (s : health) :
    health * list health_req :=
  (match a with
   | Ok p => {| hp_checks := ih_checks p; hp_loading := false; hp_error := hp_error s |}
   | Err e => {| hp_checks := hp_checks s; hp_loading := false;
                 hp_error := Some (error_message e "không kiểm tra được kết nối") |}
   end, []).

Definition failing (s : health) : nat := length (List.filter (λ c, negb (ic_ok c)) (hp_checks s)).

Definition check_item (c : IntegrationCheck) : node health_event :=
  El "li" [AStr "className" (if ic_ok c then "health-ok" else "health-fail")] (
    [El "span" [AStr "className" (if ic_ok c then "health-dot health-dot-ok"
                                  else "health-dot health-dot-fail")] [];
     Txt " "; Txt (ic_label c)]
    ++ when (negb (ic_ok c))
         [El "div" [AStr "className" "muted health-detail"]
            ([Txt (ic_detail c); Txt " — "] ++ renderHint (ic_hint c))]).

Definition health_verdict (s : health) : list (node health_event) :=
  when (negb (truthy_opt (hp_error s)) && negb (hp_loading s))
    [El "p" [AStr "className" "muted"]
       [Txt (if Nat.eqb (failing s) 0 then "✓ Tất cả kết nối đều sẵn sàng."
             else cat [z_str (Z.of_nat (failing s)); " mục cần khắc phục — làm theo gợi ý bên dưới."])]].

Definition IntegrationHealthPanel (s : health) : list (node health_event) :=
  [El "section" [AStr "className" "health-panel"] (
    [El "h3" [] [Txt "Sức khỏe hệ thống"; Txt " ";
       El "button" [AStr "type" "button"; ADisabled (hp_loading s); AOn (OnClick RefreshHealth)]
         [Txt (if hp_loading s then "Đang kiểm tra…" else "Làm mới")]]]
    ++ match present (hp_error s) with
       | Some e => [El "p" [AStr "className" "error"] [Txt "Lỗi: "; Txt e]]
       | None => []
       end
    ++ health_verdict s
    ++ [El "ul" [AStr "className" "health-checks"] (map check_item (hp_checks s))])].

Definition health_panel : component :=
  {| c_state := health; c_event := health_event; c_req := health_req; c_resp := health_resp;
     c_init := ({| hp_checks := []; hp_loading := true; hp_error := None |}, [LoadChecks]);
     c_view := IntegrationHealthPanel; c_env := λ _ _, False;
     c_handle := health_handle; c_resume := health_resume |}.

(** ** The count of severe alerts *)

Record team_health := { th_highCount : nat; th_cancelled : bool }.

(** The interval's tick, and the cleanup of the effect. *)
Inductive team_health_event := PollAlerts | Unmounted.
Inductive team_health_req := GetAlerts.
Definition team_health_resp (r : team_health_req) : Type := TeamAlertsPayload.

Definition is_high (a : TeamAlert) : bool :=
  match al_severity a with SevHigh => true | SevWarn => false end.

Definition team_health_handle (e : team_health_event) (s : team_health) :
    team_health * list team_health_req :=
  match e with
  | PollAlerts => (s, [GetAlerts])
  | Unmounted => ({| th_highCount := th_highCount s; th_cancelled := true |}, [])
  end.

Definition team_health_resume (r : team_health_req) (a : result (team_health_resp r))
    (s : team_health) : team_health * list team_health_req :=
  (match a with
   | Ok p => if th_cancelled s then s
             else {| th_highCount := length (List.filter is_high (tap_alerts p));
                     th_cancelled := th_cancelled s |}
   | Err _ => s
   end, []).

Definition useTeamHealth : component :=
  {| c_state := team_health; c_event := team_health_event; c_req := team_health_req;
     c_resp := team_health_resp;
     c_init := ({| th_highCount := 0; th_cancelled := false |}, [GetAlerts]);
     c_view := λ _, []; c_env := λ s _, th_cancelled s = false;
     c_handle := team_health_handle; c_resume := team_health_resume |}.

(** ** Theorems: the verdict *)

Lemma renderHint_plain {E} hint (e : E) : offers (renderHint hint) e → False.
Proof. intros H. unfold renderHint, hint_code, hint_text in H. inv_offers. Qed.

Lemma health_offers s e : offers (IntegrationHealthPanel s) e → hp_loading s = false.
Proof.
  intros H. unfold IntegrationHealthPanel, health_verdict, check_item in H. inv_offers; try done.
  by apply renderHint_plain in H.
Qed.

(** One check is under way exactly while the panel is loading, and then no error is shown. *)
Definition one_check (s : health) (q : list health_req) : Prop :=
  length q = (if hp_loading s then 1 else 0)%nat ∧ (hp_loading s = true → hp_error s = None).

#[export] Instance health_inv_holds srv : Invariant (C := health_panel) srv one_check.
Proof.
  split.
  - done.
  - intros [] s q [H1 H2] [Ho|[]]. apply health_offers in Ho. rewrite Ho in H1.
    split; [|done]. cbn. rewrite length_app, H1. done.
  - intros [] a s q1 q2 _ [H1 H2]. rewrite length_app in H1. cbn in H1.
    destruct a; cbn; unfold one_check; cbn; rewrite app_nil_r, length_app;
      (split; [|done]); destruct (hp_loading s); cbn in *; lia.
Qed.

(** The panel gives a verdict exactly when no check is under way and it has no error; an error
    with an empty text is the exception. *)
Lemma health_says (w : world health_panel) :
  reachable any w → hp_error (w_state w) ≠ Some [] →
  (health_verdict (w_state w) ≠ [] ↔ w_flight w = [] ∧ hp_error (w_state w) = None).
Proof.
  intros Hw He. pose proof (invariant_holds (C := health_panel) any one_check w Hw) as [H1 H2].
  unfold health_verdict. destruct (hp_loading (w_state w)) eqn:El; cbn.
  - rewrite andb_false_r. split; [done|]. intros [Hf _]. by rewrite Hf in H1.
  - destruct (w_flight w); [|done]. rewrite andb_true_r.
    destruct (hp_error (w_state w)) as [[|]|]; cbn; naive_solver.
Qed.
