(* ===== verification/Shell.v ===== *)
(** The shell of the dashboard (components/Layout.tsx, pending-approvals-context.tsx): navigation,
    badges and logout; and the settings page (views/Settings.tsx) with the switch that confirms
    plans automatically. *)

From S2P Require Import Prelude JsNumber React Behaviour Types Prefs.

(** ** Layout *)

Inductive badge := HealthBadge | ApprovalsBadge.

Record nav_item := { nv_to : jsstr; nv_label : jsstr; nv_badge : option badge }.

Definition NAV : list nav_item :=
  [{| nv_to := "office"; nv_label := "Văn phòng"; nv_badge := None |};
   {| nv_to := "team"; nv_label := "Đội"; nv_badge := Some HealthBadge |};
   {| nv_to := "work"; nv_label := "Duyệt"; nv_badge := Some ApprovalsBadge |};
   {| nv_to := "chat"; nv_label := "Trợ lý"; nv_badge := None |};
   {| nv_to := "settings"; nv_label := "Cài đặt"; nv_badge := None |}].

Definition ADVANCED_NAV : list (jsstr * jsstr) :=
  [("overview", "Tổng quan"); ("timeline", "Dòng thời gian"); ("cost", "Chi phí");
   ("memory", "Bộ nhớ"); ("guardrail", "Guardrail"); ("config", "Cấu hình");
   ("trigger", "Chạy tay"); ("office/timeline", "Nhật ký văn phòng")].

(** What the layout reads from its contexts and hooks. *)
Record layout := { ly_count : Z; ly_highCount : Z; ly_isHigh : bool }.

Inductive layout_event := Logout | ContextChanged (s : layout).
Inductive layout_req := PostLogout | ReloadApp.

Definition layout_handle (e : layout_event) (s : layout) : layout * list layout_req :=
  match e with
  | Logout => (s, [PostLogout])
  | ContextChanged s' => (s', [])
  end.

(** The page is loaded again whether the logout succeeded or not. *)
Definition layout_resume (r : layout_req) (_ : result unit) (s : layout) : layout * list layout_req :=
  match r with PostLogout => (s, [ReloadApp]) | ReloadApp => (s, []) end.

Definition badgeFor (b : option badge) (s : layout) : Z :=
  match b with Some ApprovalsBadge => ly_count s | Some HealthBadge => ly_highCount s | None => 0 end.

Definition nav_link (s : layout) (n : nav_item) : node layout_event :=
  El "a" [AStr "href" (nv_to n)]
    (Txt (nv_label n)
     :: when (0 <? badgeFor (nv_badge n) s)
          [El "span" [AStr "className" "nav-badge"] [Txt (z_str (badgeFor (nv_badge n) s))]]).

Definition Layout (s : layout) : list (node layout_event) :=
  [El "div" [AStr "className" "app-shell"] (
    [El "header" [AStr "className" "app-header"] [
       El "h1" [] [Txt "my-project-manager"];
       El "div" [AStr "className" "app-header-actions"] [
         Comp "ThemeToggle" [];
         El "button" [AStr "type" "button"; AStr "className" "logout-btn"; AOn (OnClick Logout)]
           [Txt "Đăng xuất"]]];
     El "nav" [AStr "className" "app-nav app-nav-primary"] (map (nav_link s) NAV)]
    ++ when (ly_isHigh s)
         [El "nav" [AStr "className" "app-nav app-nav-advanced"; AStr "aria-label" "Nâng cao"]
            (map (λ n, El "a" [AStr "href" (fst n)] [Txt (snd n)]) ADVANCED_NAV)]
    ++ [El "main" [AStr "className" "app-main"] [Comp "Outlet" []]])].

Definition app_layout (s : layout) : component :=
  {| c_state := layout; c_event := layout_event; c_req := layout_req; c_resp := λ _, unit;
     c_init := (s, []); c_view := Layout;
     c_env := λ _ e, match e with ContextChanged _ => True | Logout => False end;
     c_handle := layout_handle; c_resume := layout_resume |}.

(** ** Settings *)

Definition ADVANCED : list (jsstr * jsstr) :=
  [("/overview", "Tổng quan (biểu đồ)"); ("/company-docs", "Tài liệu công ty");
   ("/create", "Tạo nhân sự ảo"); ("/timeline", "Timeline hoạt động"); ("/cost", "Chi phí");
   ("/memory", "Bộ nhớ & Tự động hoá"); ("/guardrail", "Guardrail (rào chắn)");
   ("/config", "Cấu hình agent"); ("/trigger", "Chạy báo cáo thủ công")].

Record settings := {
  se_company : option CompanyPayload;
  se_saveError : option jsstr;
  se_mode : UiMode                                 (* [useUiMode()] *)
}.

Inductive settings_event := ToggleAutoConfirm (on : bool) | ToggleMode (on : bool).

Inductive settings_req :=
| LoadCompany
| SaveCompany (name : jsstr) (coordinator : option jsstr) (cap : num) (auto_confirm : bool).
Definition settings_resp (r : settings_req) : Type := CompanyPayload.

Definition set_settings (c : option CompanyPayload) (error : option jsstr) (m : UiMode) : settings :=
  {| se_company := c; se_saveError := error; se_mode := m |}.

Definition settings_handle (e : settings_event) (s : settings) : settings * list settings_req :=
  match e with
  | ToggleAutoConfirm on =>
      match se_company s with
      | None => (s, [])
      | Some c => (set_settings (se_company s) None (se_mode s),
                   [SaveCompany (co_name c) (co_coordinator_id c) (co_team_task_cap_usd c) on])
      end
  | ToggleMode on =>
      (set_settings (se_company s) (se_saveError s) (if on then HighMode else LowMode), [])
  end.

Definition settings_resume (r : settings_req) (a : result (settings_resp r)) (s : settings) :
    settings * list settings_req :=
  (match r, a with
   | _, Ok c => set_settings (Some c) (se_saveError s) (se_mode s)
   | LoadCompany, Err _ => set_settings None (se_saveError s) (se_mode s)
   | SaveCompany _ _ _ _, Err e =>
       set_settings (se_company s) (Some (error_message e "lưu thất bại")) (se_mode s)
   end, []).

Definition auto_confirm (s : settings) : bool :=
  match se_company s with Some c => default false (co_team_task_auto_confirm c) | None => false end.

Definition is_high_mode (m : UiMode) : bool := match m with HighMode => true | LowMode => false end.

Definition Settings (s : settings) : list (node settings_event) :=
  [El "section" [AStr "className" "settings-page"] [
    El "h2" [] [Txt "Cài đặt"];
    El "section" [AStr "className" "mode-toggle-box"] (
      [El "h3" [] [Txt "Giao việc cho đội"];
       El "label" [AStr "className" "mode-toggle"] [
         El "input" [AStr "type" "checkbox"; ABool "checked" (auto_confirm s);
                     ADisabled (match se_company s with None => true | Some _ => false end);
                     AOn (OnCheck ToggleAutoConfirm)] [];
         Txt " "; Txt "Tự xác nhận kế hoạch khi giao việc"];
       El "p" [AStr "className" "muted"]
         [Txt "Bật: giao việc (kể cả bằng @ ở màn Văn phòng) chạy ngay sau khi hệ thống lập xong kế hoạch — bạn không phải bấm xác nhận từng việc. Mọi ràng buộc an toàn khác giữ nguyên: việc gửi ra ngoài công ty vẫn chờ bạn duyệt riêng. Tắt (mặc định): bạn xem trước kế hoạch và bấm xác nhận như hiện tại."]]
      ++ match present (se_saveError s) with
         | Some e => [El "p" [AStr "className" "error"] [Txt "Lỗi: "; Txt e]]
         | None => []
         end);
    El "section" [AStr "className" "mode-toggle-box"] [
      El "h3" [] [Txt "Chế độ hiển thị"];
      El "label" [AStr "className" "mode-toggle"] [
        El "input" [AStr "type" "checkbox"; ABool "checked" (is_high_mode (se_mode s));
                    AOn (OnCheck ToggleMode)] [];
        Txt " "; Txt "Chế độ nâng cao"];
      El "p" [AStr "className" "muted"]
        [Txt "Bật để hiện đầy đủ số liệu vận hành cho người kỹ thuật (dòng thời gian, chi phí, bộ nhớ, guardrail, cấu hình, chạy tay) ngay trên thanh điều hướng. Tắt để giữ giao diện gọn 4 mục."]];
    Comp "IntegrationHealthPanel" [];
    El "section" [] [
      El "h3" [] [Txt "Nâng cao"];
      El "p" [AStr "className" "muted"]
        [Txt "Các trang kỹ thuật — bình thường không cần, nhưng vẫn đầy đủ khi bạn muốn xem sâu."];
      El "ul" [AStr "className" "advanced-links"]
        (map (λ a, El "li" [] [El "a" [AStr "href" (fst a)] [Txt (snd a)]]) ADVANCED)]]].

Definition settings_page (m : UiMode) : component :=
  {| c_state := settings; c_event := settings_event; c_req := settings_req; c_resp := settings_resp;
     c_init := (set_settings None None m, [LoadCompany]);
     c_view := Settings; c_env := λ _ _, False;
     c_handle := settings_handle; c_resume := settings_resume |}.

(** ** Theorems *)

Lemma settings_offers s e :
  offers (Settings s) e →
  match e with ToggleAutoConfirm _ => is_Some (se_company s) | ToggleMode _ => True end.
Proof.
  intros H. unfold Settings in H. inv_offers; try done.
  by destruct (se_company s).
Qed.

(** The switch changes the flag and nothing else: what it saves is the company as it was last read
    or written. *)
Lemma settings_keep_company m (w : world (settings_page m)) n co cap on :
  reachable any w → issues any w (SaveCompany n co cap on) →
  ∃ c, se_company (w_state w) = Some c ∧ n = co_name c ∧ co = co_coordinator_id c ∧
    cap = co_team_task_cap_usd c.
Proof.
  intros _ [(e & He & Hin)|(r & a & _ & Hin)]%issues_inv.
  - destruct e as [b|b]; cbn in Hin; [|by apply elem_of_nil in Hin].
    destruct (se_company (w_state w)) as [c|]; [|by apply elem_of_nil in Hin].
    apply list_elem_of_singleton in Hin. injection Hin as -> -> -> ->. eauto.
  - destruct r; cbn in Hin; by apply elem_of_nil in Hin.
Qed.

(** What a server does with the company: it keeps what is saved and answers with the whole. *)
Definition saved (c : CompanyPayload) (on : bool) : CompanyPayload :=
  {| co_name := co_name c; co_coordinator_id := co_coordinator_id c;
     co_team_task_cap_usd := co_team_task_cap_usd c;
     co_team_task_concurrency := co_team_task_concurrency c;
     co_team_task_auto_confirm := Some on |}.

(** Two quick switches can end the wrong way round.  From every reachable settings page with a
    company, switch the automatic confirmation to [on] and, before the server has answered, back:
    the requests reach the server in this order, but when their answers come in the other order
    the page shows [on] although the last request, and the company the server keeps, says the
    opposite. *)
Theorem auto_confirm_shows_stale m (w : world (settings_page m)) c on :
  reachable any w → se_company (w_state w) = Some c → w_flight w = [] →
  let save b := SaveCompany (co_name c) (co_coordinator_id c) (co_team_task_cap_usd c) b in
  let l := [Do (C := settings_page m) (ToggleAutoConfirm on);
            Do (C := settings_page m) (ToggleAutoConfirm (negb on));
            Answer (C := settings_page m) 1 (save (negb on)) (Ok (saved c (negb on)));
            Answer (C := settings_page m) 0 (save on) (Ok (saved c on))] in
  legal_all any l w ∧ w_flight (play l w) = [] ∧
  auto_confirm (w_state (play l w)) = on.
Proof.
  intros _ Hc Hf save l. destruct w as [s q]. cbn in Hc, Hf. subst q.
  assert (∀ s e, se_company s = Some c → offers (Settings s) (ToggleAutoConfirm e)) as Ho.
  { intros s' b Hs. unfold Settings. rewrite Hs. eapply (offers_nth _ 0); [reflexivity|by exists b]. }
  cbn. rewrite Hc. cbn. split; [|done].
  split; [left; by apply Ho|]. split; [left; by apply Ho|]. done.
Qed.

Definition demo_company : CompanyPayload :=
  {| co_name := "Acme"; co_coordinator_id := None; co_team_task_cap_usd := num_Z 5;
     co_team_task_concurrency := None; co_team_task_auto_confirm := None |}.
Notation demo_settings := (settings_page LowMode).
Definition to_settings : list (action demo_settings) :=
  [Answer (C := demo_settings) 0 LoadCompany (Ok demo_company)].
Lemma to_settings_reachable : reachable any (play to_settings (init_world demo_settings)).
Proof. apply play_reachable; [apply reach_init|]. split; [split; [reflexivity|exact I]|exact I]. Defined.

Lemma auto_confirm_shows_stale_witness :
  let w := play to_settings (init_world demo_settings) in
  let save b := SaveCompany "Acme" None (num_Z 5) b in
  let l := [Do (C := demo_settings) (ToggleAutoConfirm true);
            Do (C := demo_settings) (ToggleAutoConfirm false);
            Answer (C := demo_settings) 1 (save false) (Ok (saved demo_company false));
            Answer (C := demo_settings) 0 (save true) (Ok (saved demo_company true))] in
  legal_all any l w ∧ w_flight (play l w) = [] ∧ auto_confirm (w_state (play l w)) = true.
Proof.
  intros w. by apply (auto_confirm_shows_stale LowMode w demo_company true to_settings_reachable).
Defined.
