(* ===== verification/Dashboard.v ===== *)
(** The dashboard around its pages: the layout (components/Layout.tsx) with the shared aggregate of
    pending approvals (pending-approvals-context.tsx), the count of alerts
    (hooks/use-team-health.ts) and the page of the route, of which the assistant's chat reads the
    same aggregate and the work page keeps one of its own. *)

From S2P Require Import Prelude React Types Labels Health Chat Work Shell.

(** ** The shared aggregate *)

Record aggregate := {
  ag_items : list AgentApproval;
  ag_loading : bool;
  ag_error : option jsstr
}.

(** [AgTimer] is the interval of the poll. *)
Inductive aggregate_req := AgAgents | AgApprovals (ids : list jsstr) | AgTimer.
Definition aggregate_resp (r : aggregate_req) : Type :=
  match r with
  | AgAgents => list AgentSummary
  | AgApprovals _ => list (result ApprovalsPayload)
  | AgTimer => unit
  end.

Definition aggregate_failed (e : thrown) (s : aggregate) : aggregate :=
  {| ag_items := ag_items s; ag_loading := false; ag_error := Some (error_message e "lỗi") |}.

Definition aggregate_resume (r : aggregate_req) :
    result (aggregate_resp r) → aggregate → aggregate * list aggregate_req :=
  match r return result (aggregate_resp r) → aggregate → aggregate * list aggregate_req with
  | AgAgents => λ a s,
      match a with
      | Ok agents => (s, [AgApprovals (map as_id agents)])
      | Err e => (aggregate_failed e s, [])
      end
  | AgApprovals ids => λ a s,
      (match a with
       | Ok per => {| ag_items := collect ids per; ag_loading := false; ag_error := None |}
       | Err e => aggregate_failed e s
       end, [])
  | AgTimer => λ _ s, (s, [AgAgents; AgTimer])
  end.

Definition shared_count (s : aggregate) : Z := Z.of_nat (length (ag_items s)).

(** ** The dashboard *)

(** The page of the route; a mounted page has a number of its own, and the work page the day it
    was mounted on. *)
Inductive route_page :=
| OnChat (n : nat) (c : chat)
| OnWork (n : nat) (today : jsstr) (w : work)
| Elsewhere.

Record dashboard := {
  db_shared : aggregate;
  db_health : team_health;
  db_isHigh : bool;
  db_page : route_page;
  db_mounts : nat
}.

Inductive destination := ToChat (intent : option jsstr) | ToWork (today : jsstr) | ToOther.

Inductive dashboard_event :=
| OfLayout (e : layout_event)
| OfHealth (e : team_health_event)
| OfChat (e : chat_event)
| OfWork (e : work_event)
| GoTo (d : destination)
| ModeIs (high : bool).

Inductive dashboard_req :=
| RqShared (r : aggregate_req)
| RqHealth (r : team_health_req)
| RqLayout (r : layout_req)
| RqChat (n : nat) (r : chat_req)
| RqWork (n : nat) (r : work_req).

Definition dashboard_resp (r : dashboard_req) : Type :=
  match r with
  | RqShared r => aggregate_resp r
  | RqHealth r => team_health_resp r
  | RqLayout _ => unit
  | RqChat _ r => chat_resp r
  | RqWork _ r => work_resp r
  end.

Definition with_shared (s : aggregate) (x : dashboard) : dashboard :=
  {| db_shared := s; db_health := db_health x; db_isHigh := db_isHigh x;
     db_page := db_page x; db_mounts := db_mounts x |}.
Definition with_health (h : team_health) (x : dashboard) : dashboard :=
  {| db_shared := db_shared x; db_health := h; db_isHigh := db_isHigh x;
     db_page := db_page x; db_mounts := db_mounts x |}.
Definition with_page (p : route_page) (mounts : nat) (x : dashboard) : dashboard :=
  {| db_shared := db_shared x; db_health := db_health x; db_isHigh := db_isHigh x;
     db_page := p; db_mounts := mounts |}.

Section Dashboard.
Context {loc : Locale}.

Definition layout_of (x : dashboard) : layout :=
  {| ly_count := shared_count (db_shared x);
     ly_highCount := Z.of_nat (th_highCount (db_health x)); ly_isHigh := db_isHigh x |}.

(** A new value of the context renders its readers again. *)
Definition shared_page (s : aggregate) (p : route_page) : route_page :=
  match p with
  | OnChat n c => OnChat n (fst (chat_handle (PendingChanged (shared_count s)) c))
  | _ => p
  end.

(** A link of the layout: the page of the route stays when it is there already. *)
Definition go_to (d : destination) (x : dashboard) : dashboard * list dashboard_req :=
  let n := S (db_mounts x) in
  match d, db_page x with
  | ToChat _, OnChat _ _ | ToWork _, OnWork _ _ _ => (x, [])
  | ToChat intent, _ =>
      let '(c, l) := c_init (chat_page intent) in
      (with_page (shared_page (db_shared x) (OnChat n c)) n x, map (RqChat n) l)
  | ToWork today, _ =>
      let '(w, l) := c_init (work_page today) in (with_page (OnWork n today w) n x, map (RqWork n) l)
  | ToOther, _ => (with_page Elsewhere (db_mounts x) x, [])
  end.

Definition dashboard_handle (e : dashboard_event) (x : dashboard) :
    dashboard * list dashboard_req :=
  match e with
  | OfLayout e => (x, map RqLayout (snd (layout_handle e (layout_of x))))
  | OfHealth e =>
      let '(h, l) := team_health_handle e (db_health x) in (with_health h x, map RqHealth l)
  | OfChat e =>
      match db_page x with
      | OnChat n c =>
          let '(c', l) := chat_handle e c in (with_page (OnChat n c') (db_mounts x) x, map (RqChat n) l)
      | _ => (x, [])
      end
  | OfWork e =>
      match db_page x with
      | OnWork n today w =>
          let '(w', l) := work_handle e w in
          (with_page (OnWork n today w') (db_mounts x) x, map (RqWork n) l)
      | _ => (x, [])
      end
  | GoTo d => go_to d x
  | ModeIs high =>
      ({| db_shared := db_shared x; db_health := db_health x; db_isHigh := high;
          db_page := db_page x; db_mounts := db_mounts x |}, [])
  end.

(** The intervals of the work page are cleared when it is unmounted. *)
Definition is_timer (r : work_req) : bool :=
  match r with PollTimer | AutoTimer => true | _ => false end.

(** What was under way on a page that is gone still runs, and sets no state. *)
Definition dashboard_resume (r : dashboard_req) :
    result (dashboard_resp r) → dashboard → dashboard * list dashboard_req :=
  match r return result (dashboard_resp r) → dashboard → dashboard * list dashboard_req with
  | RqShared r => λ a x,
      let '(s, l) := aggregate_resume r a (db_shared x) in
      (with_page (shared_page s (db_page x)) (db_mounts x) (with_shared s x), map RqShared l)
  | RqHealth r => λ a x,
      let '(h, l) := team_health_resume r a (db_health x) in (with_health h x, map RqHealth l)
  | RqLayout r => λ a x, (x, map RqLayout (snd (layout_resume r a (layout_of x))))
  | RqChat n r => λ a x,
      match db_page x with
      | OnChat m c =>
          let '(c', l) := chat_resume r a c in
          (if decide (m = n) then with_page (OnChat m c') (db_mounts x) x else x, map (RqChat n) l)
      | _ => (x, [])
      end
  | RqWork n r => λ a x,
      let gone today := map (RqWork n)
        (if is_timer r then [] else snd (work_resume today r a (fst (c_init (work_page today))))) in
      match db_page x with
      | OnWork m today w =>
          if decide (m = n) then
            let '(w', l) := work_resume today r a w in
            (with_page (OnWork m today w') (db_mounts x) x, map (RqWork n) l)
          else (x, gone today)
      | _ => (x, gone [])
      end
  end.

Definition outlet (x : dashboard) (name : jsstr) : option (list (node dashboard_event)) :=
  if bool_decide (name = "Outlet")
  then match db_page x with
       | OnChat _ c => Some (map (map_node OfChat) (Chat c))
       | OnWork _ _ w => Some (map (map_node OfWork) (Work w))
       | Elsewhere => None
       end
  else None.
Definition DashboardView (x : dashboard) : list (node dashboard_event) :=
  flat_map (plug (outlet x) OfLayout) (Layout (layout_of x)).

(** The links, the clock of the alerts and the switch of the mode. *)
Definition dashboard_env (x : dashboard) (e : dashboard_event) : Prop :=
  match e with
  | GoTo _ | ModeIs _ | OfHealth PollAlerts => True
  | _ => False
  end.

Definition dashboard_page : component :=
  {| c_state := dashboard; c_event := dashboard_event; c_req := dashboard_req;
     c_resp := dashboard_resp;
     c_init := ({| db_shared := {| ag_items := []; ag_loading := true; ag_error := None |};
                   db_health := fst (c_init useTeamHealth); db_isHigh := false;
                   db_page := Elsewhere; db_mounts := 0 |},
                [RqShared AgAgents; RqShared AgTimer]
                ++ map RqHealth (snd (c_init useTeamHealth)));
     c_view := DashboardView; c_env := dashboard_env;
     c_handle := dashboard_handle; c_resume := dashboard_resume |}.
End Dashboard.

(** ** Theorems *)

Section Badges.
Context {loc : Locale}.
(** [listed id p]: the server has given [p] as pending for agent [id]. *)
Context (listed : jsstr → ApprovalItem → Prop).

Definition lists_shared (r : c_req dashboard_page) : result (c_resp dashboard_page r) → Prop :=
  match r return result (dashboard_resp r) → Prop with
  | RqShared (AgApprovals ids) => λ a, match a with
      | Ok per => ∀ i id x, ids !! i = Some id → per !! i = Some (Ok x) →
                    ∀ p, p ∈ apl_pending x → listed id p
      | Err _ => True
      end
  | _ => λ _, True
  end.

(** The requests of the aggregate: its clock, and its rounds under way. *)
Definition ticking (r : dashboard_req) : bool :=
  match r with RqShared AgTimer => true | _ => false end.
Definition clocks (q : list dashboard_req) : nat := length (List.filter ticking q).

(** A dashboard whose readers agree. *)
Definition badges_agree (x : dashboard) : Prop :=
  match db_page x with OnChat _ c => ch_pending c = shared_count (db_shared x) | _ => True end.
Definition dashboard_inv (x : dashboard) (q : list dashboard_req) : Prop :=
  clocks q = 1%nat ∧ badges_agree x ∧
  Forall (λ it, listed (aa_agentId it) (aa_item it)) (ag_items (db_shared x)).

Lemma clocks_app q1 q2 : clocks (q1 ++ q2) = (clocks q1 + clocks q2)%nat.
Proof. unfold clocks. by rewrite List.filter_app, length_app. Qed.
Lemma clocks_map {B} (f : B → dashboard_req) l :
  (∀ b, ticking (f b) = false) → clocks (map f l) = 0%nat.
Proof. intros H. unfold clocks. induction l as [|b l IH]; [done|]. cbn. by rewrite H. Qed.

Lemma chat_keeps_pending e c :
  (match e with PendingChanged _ => False | _ => True end) →
  ch_pending (fst (chat_handle e c)) = ch_pending c.
Proof. destruct e; cbn; try done; intros _; unfold sendText; by destruct (_ || _). Qed.
Lemma chat_resume_pending r a c : ch_pending (fst (chat_resume r a c)) = ch_pending c.
Proof. destruct r, a; done. Qed.

Lemma shared_page_agrees s p mounts x : badges_agree (with_page (shared_page s p) mounts (with_shared s x)).
Proof. by destruct p. Qed.

(** Events neither touch the aggregate nor start its clock. *)
Lemma dashboard_event_keeps e x :
  badges_agree x → (match e with OfChat (PendingChanged _) => False | _ => True end) →
  let '(x', l) := dashboard_handle e x in
  clocks l = 0%nat ∧ badges_agree x' ∧ db_shared x' = db_shared x.
Proof.
  intros Hx He. destruct e as [e|e|e|e|d|high]; cbn [dashboard_handle].
  - split; [by apply clocks_map|done].
  - destruct (team_health_handle e (db_health x)). split; [by apply clocks_map|done].
  - unfold badges_agree in Hx. destruct (db_page x) as [n c|n today w|] eqn:Ep;
      try (split_and!; try done; unfold badges_agree; by rewrite Ep).
    pose proof (chat_keeps_pending e c) as Hp. destruct (chat_handle e c) as [c' l].
    split; [by apply clocks_map|]. split; [|done]. unfold badges_agree. cbn in *.
    rewrite Hp; [done|by destruct e].
  - destruct (db_page x) as [n c|n today w|] eqn:Ep;
      try (split_and!; try done; unfold badges_agree; by rewrite Ep).
    destruct (work_handle e w). split; [by apply clocks_map|done].
  - unfold go_to. destruct d, (db_page x) eqn:Ep; try (split_and!; done).
    all: split_and!; try done; by apply clocks_map.
  - done.
Qed.

Lemma chat_offers s e : offers (Chat s) e → match e with PendingChanged _ => False | _ => True end.
Proof.
  intros H. unfold Chat in H. inv_offers; try done.
  all: unfold turn_view, chip_view, chat_input in H; inv_offers; try done.
  - destruct x; inv_offers.
  - unfold chat_key in *. by case_match; simplify_eq.
Qed.

Lemma dashboard_offers x e :
  offers (DashboardView x) e →
  match e with
  | OfChat e => ∃ n c, db_page x = OnChat n c ∧ offers (Chat c) e
  | OfWork e => ∃ n today w, db_page x = OnWork n today w ∧ offers (Work w) e
  | OfLayout e => offers (Layout (layout_of x)) e
  | _ => False
  end.
Proof.
  intros [(e' & -> & H)|(name & v & Hn & H)]%offers_plug; [done|]. unfold outlet in Hn.
  case_bool_decide; [|done]. destruct (db_page x) as [n c|n today w|]; [| |done].
  - assert (v = map (map_node OfChat) (Chat c)) as -> by congruence.
    apply offers_map_node in H as (e' & -> & H). eauto.
  - assert (v = map (map_node OfWork) (Work w)) as -> by congruence.
    apply offers_map_node in H as (e' & -> & H). eauto 6.
Qed.

Lemma dashboard_allowed x e :
  allowed (C := dashboard_page) x e → match e with OfChat (PendingChanged _) => False | _ => True end.
Proof.
  intros [H|H]; [|by destruct e].
  apply dashboard_offers in H. destruct e as [| |e| | |]; try done.
  destruct H as (n & c & _ & H%chat_offers). by destruct e.
Qed.

(** An answer leaves the readers in agreement; one of the aggregate lists what the server gave. *)
Lemma shared_resume_keeps r a s :
  lists_shared (RqShared r) a → Forall (λ it, listed (aa_agentId it) (aa_item it)) (ag_items s) →
  Forall (λ it, listed (aa_agentId it) (aa_item it)) (ag_items (fst (aggregate_resume r a s))).
Proof.
  intros Ha Hs. destruct r as [|ids|]; destruct a as [v|e]; try done.
  apply Forall_forall. intros it Hit. by apply (collect_known listed ids v it).
Qed.
Lemma shared_resume_clocks r a s :
  clocks (map RqShared (snd (aggregate_resume r a s))) = (if ticking (RqShared r) then 1 else 0)%nat.
Proof. destruct r, a; done. Qed.

Lemma dashboard_answer_keeps r a x :
  lists_shared r a → badges_agree x →
  Forall (λ it, listed (aa_agentId it) (aa_item it)) (ag_items (db_shared x)) →
  let '(x', l) := dashboard_resume r a x in
  clocks l = (if ticking r then 1 else 0)%nat ∧ badges_agree x' ∧
  Forall (λ it, listed (aa_agentId it) (aa_item it)) (ag_items (db_shared x')).
Proof.
  intros Ha Hx Hs. destruct r as [r|r|r|n r|n r]; cbn [dashboard_resume].
  - pose proof (shared_resume_keeps r a (db_shared x) Ha Hs) as H.
    pose proof (shared_resume_clocks r a (db_shared x)) as Hc.
    destruct (aggregate_resume r a (db_shared x)) as [s l].
    split; [exact Hc|]. split; [apply shared_page_agrees|exact H].
  - destruct (team_health_resume r a (db_health x)). split; [by apply clocks_map|by split].
  - split; [by apply clocks_map|by split].
  - unfold badges_agree in Hx. destruct (db_page x) as [m c|m today w|] eqn:Ep;
      try (split_and!; try done; unfold badges_agree; by rewrite Ep).
    pose proof (chat_resume_pending r a c) as Hp. destruct (chat_resume r a c) as [c' l].
    cbn [fst] in Hp.
    destruct (decide (m = n)); (split; [by apply clocks_map|]); (split; [|done]); unfold badges_agree;
      [cbn; by rewrite Hp|by rewrite Ep].
  - unfold badges_agree in *. destruct (db_page x) as [m c|m today w|] eqn:Ep; cbn [ticking];
      try (split; [by apply clocks_map|]; by rewrite Ep).
    destruct (decide (m = n)); [destruct (work_resume today r a w)|];
      (split; [by apply clocks_map|]); [done|by rewrite Ep].
Qed.

#[export] Instance dashboard_inv_holds : Invariant (C := dashboard_page) lists_shared dashboard_inv.
Proof.
  split.
  - split; [done|]. split; [done|constructor].
  - intros e x q (H1 & H2 & H3) Ha. apply dashboard_allowed in Ha.
    pose proof (dashboard_event_keeps e x H2 Ha) as H.
    change (c_handle dashboard_page e x) with (dashboard_handle e x).
    destruct (dashboard_handle e x) as [x' l]. destruct H as (E1 & E2 & E3). cbn [fst snd].
    unfold dashboard_inv. rewrite clocks_app, E1, E3. split; [lia|]. by split.
  - intros r a x q1 q2 Hsrv (H1 & H2 & H3).
    pose proof (dashboard_answer_keeps r a x Hsrv H2 H3) as H.
    change (dashboard_inv (fst (dashboard_resume r a x)) (q1 ++ q2 ++ snd (dashboard_resume r a x))).
    destruct (dashboard_resume r a x) as [x' l]. destruct H as (E1 & E2 & E3). cbn [fst snd].
    split; [|by split]. rewrite !clocks_app in *. rewrite E1.
    change (clocks (r :: q2)) with (length (if ticking r then r :: List.filter ticking q2 else List.filter ticking q2)) in H1.
    unfold clocks in *. destruct (ticking r); cbn in *; lia.
Qed.

(** C21: One count of what waits for approval.  If the server lists only what is pending, then in
    every reachable state of the dashboard, whatever page is open: the badge of the navigation is
    the number of approvals in the shared aggregate, each listed by the server for the agent it is
    attributed to; the chat's alert shows the same number; and exactly one clock of the shared poll is
    running. *)
Theorem badges_count_listed (w : world dashboard_page) :
  reachable lists_shared w →
  let x := w_state w in
  badgeFor (Some ApprovalsBadge) (layout_of x) = Z.of_nat (length (ag_items (db_shared x))) ∧
  Forall (λ it, listed (aa_agentId it) (aa_item it)) (ag_items (db_shared x)) ∧
  (∀ n c, db_page x = OnChat n c → ch_pending c = badgeFor (Some ApprovalsBadge) (layout_of x)) ∧
  clocks (w_flight w) = 1%nat.
Proof.
  intros Hw x. destruct (invariant_holds (C := dashboard_page) lists_shared dashboard_inv w Hw) as (H1 & H2 & H3).
  split_and!; try done. intros n c Hp. unfold badges_agree in H2. fold x in H2. by rewrite Hp in H2.
Qed.
End Badges.

(** ** The badge after an approval *)

Notation demo_dashboard := (@dashboard_page plain_locale).
Notation demo_shared := (@lists_shared plain_locale demo_listed).
Definition nothing_left : ApprovalsPayload :=
  {| apl_agent_id := "pm"; apl_pending := []; apl_approved := None; apl_rejected := None |}.

(** The aggregate is read, and the work page opened and read. *)
Definition to_work : list (action demo_dashboard) :=
  [Answer (C := demo_dashboard) 0 (RqShared AgAgents) (Ok [demo_agent]);
   Answer (C := demo_dashboard) 2 (RqShared (AgApprovals ["pm"])) (Ok [Ok demo_payload]);
   Do (C := demo_dashboard) (GoTo (ToWork "2025-01-01"));
   Answer (C := demo_dashboard) 2 (RqWork 1 (ListAgents Poll)) (Ok [demo_agent]);
   Answer (C := demo_dashboard) 5 (RqWork 1 (ListApprovals Poll ["pm"])) (Ok [Ok demo_payload])].
(** The approval is sent and succeeds, and the page reads its list again. *)
Definition to_approved : list (action demo_dashboard) :=
  [Do (C := demo_dashboard) (OfWork (Review demo_it));
   Do (C := demo_dashboard) (OfWork Approve);
   Answer (C := demo_dashboard) 5 (RqWork 1 (SendOp OpApprove "pm" 7)) (Ok nothing_left);
   Answer (C := demo_dashboard) 5 (RqWork 1 (ListAgents AfterOp)) (Ok [demo_agent]);
   Answer (C := demo_dashboard) 5 (RqWork 1 (ListApprovals AfterOp ["pm"])) (Ok [Ok nothing_left])].

Lemma to_work_reachable : reachable demo_shared (play to_work (init_world demo_dashboard)).
Proof.
  apply play_reachable; [apply reach_init|].
  split; [split; [reflexivity|exact I]|]. split; [split; [reflexivity|]|].
  - intros [|i] id x Hid Hx p Hp; [|by destruct i].
    injection Hid as <-. injection Hx as <-. apply list_elem_of_singleton in Hp. done.
  - split; [right; exact I|]. split; [split; [reflexivity|exact I]|].
    split; [split; [reflexivity|exact I]|exact I].
Defined.

Lemma to_approved_reachable :
  reachable demo_shared (play to_approved (play to_work (init_world demo_dashboard))).
Proof.
  apply play_reachable; [exact to_work_reachable|].
  split; [left; eapply (offers_nth _ 1); [vm_compute; reflexivity|reflexivity]|].
  split; [left; eapply (offers_nth _ 4); [vm_compute; reflexivity|reflexivity]|].
  split; [split; [vm_compute; reflexivity|exact I]|].
  split; [split; [vm_compute; reflexivity|exact I]|].
  split; [split; [vm_compute; reflexivity|exact I]|exact I].
Defined.

Lemma badges_count_listed_witness :
  let w := play to_work (init_world demo_dashboard) in
  let x := w_state w in
  badgeFor (Some ApprovalsBadge) (layout_of x) = Z.of_nat (length (ag_items (db_shared x))) ∧
  Forall (λ it, demo_listed (aa_agentId it) (aa_item it)) (ag_items (db_shared x)) ∧
  (∀ n c, db_page x = OnChat n c → ch_pending c = badgeFor (Some ApprovalsBadge) (layout_of x)) ∧
  clocks (w_flight w) = 1%nat.
Proof.
  exact (@badges_count_listed plain_locale demo_listed (play to_work (init_world demo_dashboard))
           to_work_reachable).
Defined.

(** The work page does not read the shared aggregate.  Nothing it does and no answer it gets
    changes the badge: in a reachable dashboard the page has just shown that nothing is left to
    approve, and the badge next to it still counts what was approved, until the next poll. *)
Theorem badge_outlives_approval :
  (∀ (x : dashboard) e, db_shared (fst (@dashboard_handle plain_locale (OfWork e) x)) = db_shared x) ∧
  (∀ (x : dashboard) n r a,
     db_shared (fst (@dashboard_resume plain_locale (RqWork n r) a x)) = db_shared x) ∧
  ∃ w n today p, reachable demo_shared w ∧ db_page (w_state w) = OnWork n today p ∧
    wk_items p = [] ∧ badgeFor (Some ApprovalsBadge) (layout_of (w_state w)) = 1.
Proof.
  split; [|split].
  - intros x e. cbn. destruct (db_page x) as [| n t w|]; try done. by destruct (work_handle e w).
  - intros x n r a. cbn [dashboard_resume]. destruct (db_page x) as [| m t w|]; try done.
    destruct (decide (m = n)); [|done]. by destruct (work_resume t r a w).
  - exists (play to_approved (play to_work (init_world demo_dashboard))).
    eexists 1%nat, _, _. split; [exact to_approved_reachable|].
    split; [vm_compute; reflexivity|]. split; vm_compute; reflexivity.
Qed.
