(* ===== verification/AgentPage.v ===== *)
(** The page of one agent (views/AgentPage.tsx): its status, the tab of its activity, and the tab
    that binds a Telegram bot to it.  The knowledge tab is [Knowledge]. *)

From S2P Require Import Prelude JsNumber React Behaviour Types Labels.

Inductive Tab := ActivityTab | TelegramTab | KnowledgeTab.
#[export] Instance Tab_eq_dec : EqDecision Tab.
Proof. solve_decision. Defined.

(** ** State *)

Record activity := { ac_cost : option CostPayload; ac_runs : option RunsPayload }.

(** [tl_result] is the name of the bound bot, which the answer may lack. *)
Record telegram := {
  tl_token : jsstr;
  tl_chatId : jsstr;
  tl_busy : bool;
  tl_error : option jsstr;
  tl_result : option (option jsstr);
  tl_chats : option (list (jsstr * jsstr))
}.

(** The tab below the header, with a number for each time one is mounted. *)
Inductive panel :=
| NoPanel
| ActivityPanel (n : nat) (a : activity)
| TelegramPanel (n : nat) (t : telegram)
| KnowledgePanel.

Record agent_page := {
  ap_id : jsstr;                                   (* the parameter of the route *)
  ap_tab : Tab;
  ap_status : option AgentStatus;
  ap_error : option jsstr;
  ap_panel : panel;
  ap_mounts : nat
}.

Inductive page_event :=
| RouteChanged (id : jsstr)
| SetTab (t : Tab)
| TypeToken (v : jsstr)
| TypeChat (v : jsstr)
| PickChat (id : jsstr)
| LoadChats
| Bind.

Inductive page_req :=
| GetStatus (id : jsstr)
| GetCost (n : nat) (id : jsstr)
| GetRuns (n : nat) (id : jsstr)
| BindTelegram (n : nat) (id token : jsstr) (chats : list jsstr)
| RecentChats (n : nat) (id token : jsstr).

Definition page_resp (r : page_req) : Type :=
  match r with
  | GetStatus _ => AgentStatus
  | GetCost _ _ => CostPayload
  | GetRuns _ _ => RunsPayload
  | BindTelegram _ _ _ _ => option jsstr
  | RecentChats _ _ _ => list (jsstr * jsstr)
  end.

(** ** Mounting *)

Definition no_telegram : telegram :=
  {| tl_token := ""; tl_chatId := ""; tl_busy := false; tl_error := None; tl_result := None;
     tl_chats := None |}.
Definition no_activity : activity := {| ac_cost := None; ac_runs := None |}.

Definition set_panel (p : panel) (s : agent_page) : agent_page :=
  {| ap_id := ap_id s; ap_tab := ap_tab s; ap_status := ap_status s; ap_error := ap_error s;
     ap_panel := p; ap_mounts := ap_mounts s |}.

(** A fresh panel of a tab, with the requests of its mount. *)
Definition new_panel (n : nat) (id : jsstr) (t : Tab) : panel * list page_req :=
  match t with
  | ActivityTab => (ActivityPanel n no_activity, [GetCost n id; GetRuns n id])
  | TelegramTab => (TelegramPanel n no_telegram, [])
  | KnowledgeTab => (KnowledgePanel, [])
  end.
Definition panel_tab (p : panel) : option Tab :=
  match p with
  | NoPanel => None
  | ActivityPanel _ _ => Some ActivityTab
  | TelegramPanel _ _ => Some TelegramTab
  | KnowledgePanel => Some KnowledgeTab
  end.

(** The page after an update of its cells: a panel while there is a status and no error, the one
    that is there if it is of the same tab. *)
Definition show (tab : Tab) (status : option AgentStatus) (error : option jsstr) (s : agent_page) :
    agent_page * list page_req :=
  let page p m := {| ap_id := ap_id s; ap_tab := tab; ap_status := status; ap_error := error;
                     ap_panel := p; ap_mounts := m |} in
  match present error, status with
  | None, Some _ =>
      if decide (panel_tab (ap_panel s) = Some tab) then (page (ap_panel s) (ap_mounts s), [])
      else let n := S (ap_mounts s) in
           let '(p, reqs) := new_panel n (ap_id s) tab in (page p n, reqs)
  | _, _ => (page NoPanel (ap_mounts s), [])
  end.

(** ** Handlers and continuations *)

Definition set_telegram (f : telegram → telegram) (s : agent_page) : agent_page :=
  match ap_panel s with TelegramPanel n t => set_panel (TelegramPanel n (f t)) s | _ => s end.

Definition type_token (v : jsstr) (t : telegram) : telegram :=
  {| tl_token := v; tl_chatId := tl_chatId t; tl_busy := tl_busy t; tl_error := tl_error t;
     tl_result := tl_result t; tl_chats := tl_chats t |}.
Definition type_chat (v : jsstr) (t : telegram) : telegram :=
  {| tl_token := tl_token t; tl_chatId := v; tl_busy := tl_busy t; tl_error := tl_error t;
     tl_result := tl_result t; tl_chats := tl_chats t |}.
Definition set_bind (busy : bool) (error : option jsstr) (result : option (option jsstr))
    (t : telegram) : telegram :=
  {| tl_token := tl_token t; tl_chatId := tl_chatId t; tl_busy := busy; tl_error := error;
     tl_result := result; tl_chats := tl_chats t |}.
Definition set_chats (error : option jsstr) (chats : option (list (jsstr * jsstr))) (t : telegram) :
    telegram :=
  {| tl_token := tl_token t; tl_chatId := tl_chatId t; tl_busy := tl_busy t; tl_error := error;
     tl_result := tl_result t; tl_chats := chats |}.

(** [chatId.trim() ? [chatId.trim()] : []]. *)
Definition chat_ids (t : telegram) : list jsstr :=
  if truthy (trim (tl_chatId t)) then [trim (tl_chatId t)] else [].

Definition page_handle (e : page_event) (s : agent_page) : agent_page * list page_req :=
  match e with
  | RouteChanged id =>
      ({| ap_id := id; ap_tab := ap_tab s; ap_status := ap_status s; ap_error := ap_error s;
          ap_panel := ap_panel s; ap_mounts := ap_mounts s |},
       if decide (id = ap_id s) then []
       else GetStatus id :: match ap_panel s with
                            | ActivityPanel n _ => [GetCost n id; GetRuns n id]
                            | _ => []
                            end)
  | SetTab t => show t (ap_status s) (ap_error s) s
  | TypeToken v => (set_telegram (type_token v) s, [])
  | TypeChat v => (set_telegram (type_chat v) s, [])
  | PickChat id => (set_telegram (type_chat id) s, [])
  | LoadChats =>
      match ap_panel s with
      | TelegramPanel n t =>
          if truthy (trim (tl_token t))
          then (set_telegram (λ t, set_chats None (tl_chats t) t) s,
                [RecentChats n (ap_id s) (tl_token t)])
          else (set_telegram (λ t, set_chats
                  (Some (cat ["Nhập token bot trước, rồi bấm "; dq; "Lấy chat gần đây"; dq; "."]))
                  (tl_chats t) t) s, [])
      | _ => (s, [])
      end
  | Bind =>
      match ap_panel s with
      | TelegramPanel n t =>
          (set_telegram (λ t, set_bind true None (tl_result t) t) s,
           [BindTelegram n (ap_id s) (tl_token t) (chat_ids t)])
      | _ => (s, [])
      end
  end.

(** The continuation of a request of panel [n], which changes nothing once it is unmounted. *)
Definition to_telegram (n : nat) (f : telegram → telegram) (s : agent_page) : agent_page :=
  match ap_panel s with
  | TelegramPanel m t => if decide (m = n) then set_panel (TelegramPanel m (f t)) s else s
  | _ => s
  end.
Definition to_activity (n : nat) (f : activity → activity) (s : agent_page) : agent_page :=
  match ap_panel s with
  | ActivityPanel m a => if decide (m = n) then set_panel (ActivityPanel m (f a)) s else s
  | _ => s
  end.

Definition page_resume (r : page_req) :
    result (page_resp r) → agent_page → agent_page * list page_req :=
  match r return result (page_resp r) → agent_page → agent_page * list page_req with
  | GetStatus _ => λ a s,
      match a with
      | Ok st => show (ap_tab s) (Some st) (ap_error s) s
      | Err e => show (ap_tab s) (ap_status s) (Some (error_message e "lỗi")) s
      end
  | GetCost n _ => λ a s,
      (match a with
       | Ok c => to_activity n (λ x, {| ac_cost := Some c; ac_runs := ac_runs x |}) s
       | Err _ => s
       end, [])
  | GetRuns n _ => λ a s,
      (match a with
       | Ok p => to_activity n (λ x, {| ac_cost := ac_cost x; ac_runs := Some p |}) s
       | Err _ => s
       end, [])
  | BindTelegram n _ _ _ => λ a s,
      (to_telegram n (λ t, match a with
         | Ok bot => set_bind false (tl_error t) (Some bot) t
         | Err e => set_bind false (Some (api_error_message e "gắn bot thất bại")) (tl_result t) t
         end) s, [])
  | RecentChats n _ _ => λ a s,
      (to_telegram n (λ t, match a with
         | Ok l => set_chats (tl_error t) (Some l) t
         | Err e => set_chats (Some (api_error_message e "không lấy được chat")) (tl_chats t) t
         end) s, [])
  end.

(** ** The view *)

Section View.
Context {loc : Locale}.

(** [`${x}`] of an optional string. *)
Definition opt_string (o : option jsstr) : jsstr := nullish o "undefined".

Definition cost_ratio (c : CostPayload) : num :=
  if num_gt (cp_cap c) (num_Z 0) then num_div (cp_spent_this_month c) (cp_cap c) else num_Z 0.

Definition cost_line (o : option CostPayload) : list (node page_event) :=
  [Txt "Chi phí tháng này:"; Txt " ";
   El "strong" [] [Txt "$"; Txt match o with Some c => to_fixed 4 (cp_spent_this_month c) | None => "…" end]]
  ++ match o with
     | Some c =>
         when (num_gt (cp_cap c) (num_Z 0))
           [Txt " "; Txt "/ $"; Txt (to_fixed 2 (cp_cap c)); Txt " (";
            Txt (to_fixed 0 (num_mul (cost_ratio c) (num_Z 100))); Txt "%";
            Txt (if num_ge (cost_ratio c) (cp_warn_ratio c) then " ⚠️" else ""); Txt ")"]
     | None => []
     end.

Definition run_line (r : RunEvent) : node page_event :=
  El "li" [] [Txt (labelFor KIND_LABEL (re_kind r)); Txt " · ";
              Txt (labelFor RUN_STATUS_LABEL (re_status r)); Txt " · "; Txt (formatDateTime (re_ts r))].

Definition activity_tab (status : AgentStatus) (a : activity) : node page_event :=
  El "div" [] [
    El "p" [] (cost_line (ac_cost a));
    El "p" [] [Txt "Lần chạy gần nhất:"; Txt " ";
      Txt match st_last_run status with
          | Some r => cat [opt_string (re_kind r); " — "; opt_string (re_status r)]
          | None => "chưa có"
          end];
    El "h4" [] [Txt "Lịch sử chạy"];
    match ac_runs a with
    | Some {| rp_runs := (_ :: _) as l |} =>
        El "ul" [AStr "className" "agent-runs"] (map run_line (take 10 l))
    | _ => El "p" [AStr "className" "muted"] [Txt "Chưa có lần chạy nào."]
    end].

Definition chat_item (c : jsstr * jsstr) : node page_event :=
  El "li" [] [
    El "button" [AStr "type" "button"; AOn (OnClick (PickChat (fst c)))]
      ([Txt (fst c); Txt " "] ++ when (truthy (snd c)) [Txt (cat ["("; snd c; ")"])])].

Definition telegram_tab (t : telegram) : node page_event :=
  El "div" [AStr "className" "telegram-tab"] (
    [El "p" [AStr "className" "muted"]
       [Txt "Tạo bot qua @BotFather (gửi "; El "code" [] [Txt "/newbot"];
        Txt ", đặt tên + ảnh), copy token rồi dán vào đây. Agent sẽ có danh tính Telegram riêng — nhận câu hỏi + lệnh + báo cáo."];
     El "label" [] [Txt "Bot token (từ BotFather)";
       El "input" [AStr "type" "password"; AStr "value" (tl_token t); AOn (OnText TypeToken);
                   AStr "placeholder" "123456:ABC-..."] []];
     El "label" [] [Txt (cat ["Chat id (DM của bạn — bấm "; dq; "Lấy chat"; dq; " sau khi nhắn bot 1 câu)"]);
       El "input" [AStr "value" (tl_chatId t); AOn (OnText TypeChat);
                   AStr "placeholder" "5248565986"] []]]
    ++ match tl_chats t with
       | Some ((_ :: _) as l) => [El "ul" [AStr "className" "telegram-chats"] (map chat_item l)]
       | _ => []
       end
    ++ match present (tl_error t) with
       | Some e => [El "p" [AStr "className" "error"] [Txt e]]
       | None => []
       end
    ++ match tl_result t with
       | Some bot =>
           [El "p" [AStr "className" "ok"] [
              Txt "✓ Đã gắn bot "; El "strong" [] [Txt "@"; Txt (nullish bot "")];
              Txt ". Nhắn thử cho bot — agent sẽ trả lời trong ~1 phút (dịch vụ poll theo nhịp)."]]
       | None => []
       end
    ++ [El "div" [AStr "className" "agent-actions"] [
          El "button" [AStr "type" "button"; AOn (OnClick LoadChats)] [Txt "Lấy chat gần đây"];
          El "button" ([AStr "type" "button";
                        ADisabled (tl_busy t || negb (truthy (trim (tl_token t)))
                                   || negb (truthy (trim (tl_chatId t))));
                        AOn (OnClick Bind)]
                       ++ when (negb (truthy (trim (tl_chatId t))))
                            [AStr "title" (cat ["Cần chat id — nhắn bot rồi bấm "; dq; "Lấy chat gần đây"; dq])])
            [Txt (if tl_busy t then "Đang gắn…" else "Gắn bot")]]]).

Definition tab_button (s : agent_page) (t : Tab) (label : jsstr) : node page_event :=
  El "button" ([AStr "type" "button"]
               ++ when (bool_decide (ap_tab s = t)) [AStr "className" "tab-active"]
               ++ [AOn (OnClick (SetTab t))]) [Txt label].

Definition page_header (s : agent_page) (st : AgentStatus) : node page_event :=
  El "header" [AStr "className" "agent-page-head"] (
    [El "h2" [] [Txt (st_name st); Txt " ";
       El "span" [AStr "className" "muted"] [Txt "("; Txt (ap_id s); Txt ")"]];
     El "span" [AStr "className" (if st_enabled st then "badge-on" else "badge-off")]
       [Txt (if st_enabled st then "đang bật" else "đang tắt")]]
    ++ when (0 <? st_pending_approvals st)
         [El "a" [AStr "href" "/work"; AStr "className" "agent-pending"]
            [Txt (z_str (st_pending_approvals st)); Txt " việc chờ duyệt"]]).

Definition panel_view (s : agent_page) (st : AgentStatus) : list (node page_event) :=
  match ap_panel s with
  | NoPanel => []
  | ActivityPanel _ a => [activity_tab st a]
  | TelegramPanel _ t => [telegram_tab t]
  | KnowledgePanel => [Comp "KnowledgeTab" [AStr "id" (ap_id s)]]
  end.

Definition AgentPage (s : agent_page) : list (node page_event) :=
  match present (ap_error s), ap_status s with
  | Some e, _ => [El "p" [AStr "className" "error"] [Txt "Lỗi: "; Txt e]]
  | None, None => [El "p" [] [Txt "Đang tải…"]]
  | None, Some st =>
      [El "section" [AStr "className" "agent-page"] (
        [page_header s st;
         El "nav" [AStr "className" "agent-tabs"] [
           tab_button s ActivityTab "Hoạt động"; tab_button s TelegramTab "Kênh Telegram";
           tab_button s KnowledgeTab "Kiến thức"]]
        ++ panel_view s st)]
  end.

Definition agent_page_of (id : jsstr) : component :=
  {| c_state := agent_page; c_event := page_event; c_req := page_req; c_resp := page_resp;
     c_init := ({| ap_id := id; ap_tab := ActivityTab; ap_status := None; ap_error := None;
                   ap_panel := NoPanel; ap_mounts := 0 |}, [GetStatus id]);
     c_view := AgentPage;
     c_env := λ _ e, match e with RouteChanged _ => True | _ => False end;
     c_handle := page_handle; c_resume := page_resume |}.

(** ** Theorems: what can be pressed *)

Lemma telegram_offers t e :
  offers [telegram_tab t] e →
  match e with
  | TypeToken _ | TypeChat _ | LoadChats => True
  | PickChat id => ∃ l c, tl_chats t = Some l ∧ c ∈ l ∧ fst c = id
  | Bind => tl_busy t = false ∧ trim (tl_token t) ≠ [] ∧ trim (tl_chatId t) ≠ []
  | _ => False
  end.
Proof.
  intros H. unfold telegram_tab, chat_item in H. inv_offers; try done.
  all: try (by eexists _, _; split; [reflexivity|]; split; [|reflexivity]; set_solver).
  - apply orb_false_iff in H0 as [H0 _].
    apply orb_false_iff in H0 as [H0 H2]. apply orb_false_iff in H0 as [H0 H1].
    by apply negb_false_iff, truthy_spec in H1, H2.
  - exfalso. clear H0 H1. destruct (truthy (trim (tl_chatId t))); cbn in H; by apply elem_of_nil in H.
Qed.

Lemma tab_button_offers s t l e : offers [tab_button s t l] e → e = SetTab t.
Proof.
  intros H. unfold tab_button in H. inv_offers.
  destruct (bool_decide _); cbn in H; by inv_offers.
Qed.

Lemma activity_plain st a e : offers [activity_tab st a] e → False.
Proof.
  assert (live (activity_tab st a) = []) as E.
  { unfold activity_tab. cbn [live own_handlers existsb flat_map app].
    assert (∀ o, flat_map live (cost_line o) = []) as ->.
    { intros [c|]; [|reflexivity]. unfold cost_line. by destruct (num_gt _ _). }
    destruct (ac_runs a) as [[i [|r l]]|]; try reflexivity. cbn [live flat_map app].
    change ((live_all (map run_line (take 10 (r :: l))) ++ []) = []). rewrite app_nil_r.
    generalize (take 10 (r :: l)). intros k. by induction k as [|x k IH]. }
  intros (h & Hh & _). unfold live_all in Hh. cbn [flat_map] in Hh. rewrite E in Hh.
  by apply elem_of_nil in Hh.
Qed.

Lemma page_offers s e :
  offers (AgentPage s) e →
  match e with
  | RouteChanged _ => False
  | SetTab _ => True
  | _ => ∃ n t, ap_panel s = TelegramPanel n t ∧ offers [telegram_tab t] e
  end.
Proof.
  intros H. unfold AgentPage, page_header in H. inv_offers; try (by apply tab_button_offers in H as ->).
  unfold panel_view in H. destruct (ap_panel s) as [|n x|n t|] eqn:Ep.
  - by apply offers_nil in H.
  - by apply activity_plain in H.
  - apply telegram_offers in H as Ho. destruct e; try done; eauto.
  - inv_offers.
Qed.

(** The bindings in flight that panel [n] has asked for. *)
Definition binds (n : nat) (r : page_req) : bool :=
  match r with BindTelegram m _ _ _ => Nat.eqb m n | _ => false end.
Definition unborn_after (k : nat) (r : page_req) : Prop := ∀ n, (k < n)%nat → binds n r = false.

Record page_inv (s : agent_page) (q : list page_req) : Prop := {
  pi_born : Forall (unborn_after (ap_mounts s)) q;
  pi_own : ∀ n t, ap_panel s = TelegramPanel n t →
    (n ≤ ap_mounts s)%nat ∧ tally (binds n) q = (if tl_busy t then 1 else 0)%nat
}.

Lemma unborn_mono k k' q : (k ≤ k')%nat → Forall (unborn_after k) q → Forall (unborn_after k') q.
Proof. intros H Hq. eapply Forall_impl; [exact Hq|]. intros r Hr n Hn. apply Hr. lia. Qed.

(** Requests that bind nothing do not matter. *)
Lemma page_inv_app s q new :
  page_inv s q → (∀ r, r ∈ new → ∀ n, binds n r = false) → page_inv s (q ++ new).
Proof.
  intros [H1 H2] Hn. split.
  - apply Forall_app. split; [done|]. apply Forall_forall. intros r Hr n _. by apply Hn.
  - intros n t Ep. destruct (H2 n t Ep) as [Hm Ht]. split; [done|].
    rewrite tally_app, Ht, (tally_none _ new); [lia|]. intros r Hr. by apply Hn.
Qed.

(** A change of the telegram tab that keeps its number, and what it still has under way. *)
Lemma page_inv_panel s q n t t' q' :
  page_inv s q → ap_panel s = TelegramPanel n t → Forall (unborn_after (ap_mounts s)) q' →
  tally (binds n) q' = (if tl_busy t' then 1 else 0)%nat →
  page_inv (set_panel (TelegramPanel n t') s) q'.
Proof.
  intros [H1 H2] Ep Hq Ht. split; cbn; [done|]. intros ? ? [= <- <-].
  destruct (H2 n t Ep) as [Hm _]. done.
Qed.

Lemma show_inv tab st err s q :
  page_inv s q → page_inv (fst (show tab st err s)) (q ++ snd (show tab st err s)).
Proof.
  intros [H1 H2]. unfold show.
  assert (∀ t e, page_inv {| ap_id := ap_id s; ap_tab := tab; ap_status := t; ap_error := e;
    ap_panel := NoPanel; ap_mounts := ap_mounts s |} (q ++ [])) as H by (intros; rewrite app_nil_r; by split).
  destruct (present err); [apply H|]. destruct st as [st|]; [|apply H].
  destruct (decide _); cbn; [rewrite app_nil_r; by split|].
  destruct tab; cbn [new_panel fst snd]; (apply page_inv_app; [split; cbn; [eapply unborn_mono; [|exact H1]; lia|try done]|]).
  - intros r [->|[->|[]%elem_of_nil]%elem_of_cons]%elem_of_cons; done.
  - intros m u [= <- <-]. split; [done|]. apply tally_none. intros r Hr.
    rewrite Forall_forall in H1. apply (H1 r Hr). lia.
  - by intros r ?%elem_of_nil.
  - by intros r ?%elem_of_nil.
Qed.

Section Page.
Context (id : jsstr) (srv : answers (agent_page_of id)).

Lemma page_inv_event e s q :
  page_inv s q → allowed (C := agent_page_of id) s e →
  page_inv (fst (page_handle e s)) (q ++ snd (page_handle e s)).
Proof.
  intros Hi He. pose proof Hi as [H1 H2].
  assert (∀ f, (∀ t, tl_busy (f t) = tl_busy t) → page_inv (set_telegram f s) q) as Htext.
  { intros f Hf. unfold set_telegram. destruct (ap_panel s) as [|n a|n t|] eqn:Ep; try done.
    eapply page_inv_panel; [exact Hi|exact Ep|done|]. rewrite Hf. by destruct (H2 n t eq_refl). }
  destruct e as [i|tab|v|v|c| |]; cbn [page_handle fst snd]; rewrite ?app_nil_r;
    try (apply Htext; done).
  - apply page_inv_app; [by split|]. destruct (decide _); [by intros r ?%elem_of_nil|].
    destruct (ap_panel s); set_solver.
  - by apply show_inv.
  - destruct (ap_panel s) as [|n a|n t|] eqn:Ep; cbn; try (by rewrite app_nil_r).
    destruct (truthy _); cbn; [|rewrite app_nil_r; by apply Htext].
    apply page_inv_app; [by apply Htext|]. set_solver.
  - destruct He as [Ho|[]]. apply page_offers in Ho as (n & t & Ep & Ho).
    apply telegram_offers in Ho as (Hb & _). destruct (H2 n t Ep) as [Hn Ht]. rewrite Hb in Ht.
    rewrite Ep. cbn [fst snd]. unfold set_telegram. rewrite Ep.
    eapply page_inv_panel; [exact Hi|exact Ep| |].
    + apply Forall_app. split; [done|]. repeat constructor. intros m Hm. apply Nat.eqb_neq. lia.
    + rewrite tally_app, Ht, tally_cons. cbn. by rewrite Nat.eqb_refl.
Qed.

(** The answer to a request that binds nothing. *)
Lemma page_inv_other s q1 r q2 :
  page_inv s (q1 ++ r :: q2) → (∀ n, binds n r = false) → page_inv s (q1 ++ q2).
Proof.
  intros [H1 H2] Hr. split.
  - apply Forall_app in H1 as [? H1]. apply Forall_cons in H1 as [_ ?]. by apply Forall_app.
  - intros n t Ep. destruct (H2 n t Ep) as [Hn Ht]. split; [done|].
    by rewrite tally_middle, Hr, Nat.add_0_r in Ht.
Qed.

Lemma to_activity_inv n f s q : page_inv s q → page_inv (to_activity n f s) q.
Proof.
  intros Hi. unfold to_activity. destruct (ap_panel s) as [|m a|m t|]; try exact Hi.
  destruct (decide (m = n)); [|exact Hi]. by destruct Hi as [H1 H2]; split.
Qed.

Lemma to_telegram_inv n f s q :
  page_inv s q → (∀ t, tl_busy (f t) = tl_busy t) → page_inv (to_telegram n f s) q.
Proof.
  intros Hi Hf. unfold to_telegram. destruct (ap_panel s) as [|m a|m t|] eqn:Ep; try done.
  destruct (decide (m = n)); [|done]. pose proof Hi as [H1 H2].
  eapply page_inv_panel; [exact Hi|exact Ep|done|]. rewrite Hf. by destruct (H2 m t Ep).
Qed.

#[export] Instance page_inv_holds : Invariant srv page_inv.
Proof.
  split.
  - split; [by repeat constructor|done].
  - intros. by apply page_inv_event.
  - intros r a s q1 q2 _ Hi.
    change (page_inv (fst (page_resume r a s)) (q1 ++ q2 ++ snd (page_resume r a s))).
    rewrite app_assoc. destruct r as [i|n i|n i|n i tok l|n i tok].
    1-3, 5: apply page_inv_other in Hi; [|done].
    + destruct a; by apply show_inv.
    + destruct a; cbn; rewrite app_nil_r; [by apply to_activity_inv|done].
    + destruct a; cbn; rewrite app_nil_r; [by apply to_activity_inv|done].
    + cbn. rewrite app_nil_r. apply to_telegram_inv; [done|]. by destruct a.
    + cbn [page_resume fst snd]. rewrite app_nil_r. pose proof Hi as [H1 H2].
      apply Forall_app in H1 as [H1 H1']. apply Forall_cons in H1' as [_ H1'].
      assert (Forall (unborn_after (ap_mounts s)) (q1 ++ q2)) as Hq by (by apply Forall_app).
      unfold to_telegram. destruct (ap_panel s) as [|m x|m t|] eqn:Ep.
      1, 2, 4: by split; [|intros ? ? E; rewrite Ep in E].
      destruct (H2 m t eq_refl) as [Hm Ht]. rewrite tally_middle in Ht. cbn [binds] in Ht.
      destruct (decide (m = n)) as [->|Hn].
      * rewrite Nat.eqb_refl in Ht. eapply page_inv_panel; [exact Hi|exact Ep|done|].
        destruct a; cbn; destruct (tl_busy t); lia.
      * rewrite (proj2 (Nat.eqb_neq n m)), Nat.add_0_r in Ht by congruence.
        split; [done|]. rewrite Ep. by intros ? ? [= <- <-].
Qed.
End Page.
End View.

(** Only the Telegram tab on display sends the requests of a bot. *)
Definition of_telegram (r : page_req) : bool :=
  match r with BindTelegram _ _ _ _ | RecentChats _ _ _ => true | _ => false end.

Lemma show_sends tab st err s r : r ∈ snd (show tab st err s) → of_telegram r = false.
Proof.
  unfold show. destruct (present err); [set_solver|]. destruct st; [|set_solver].
  destruct (decide _); [set_solver|]. destruct tab; cbn; set_solver.
Qed.

Lemma telegram_sent {loc : Locale} id (w : world (agent_page_of id)) r :
  issues any w r → of_telegram r = true →
  ∃ n t, ap_panel (w_state w) = TelegramPanel n t ∧
    (offers [telegram_tab t] Bind ∧ r = BindTelegram n (ap_id (w_state w)) (tl_token t) (chat_ids t) ∨
     trim (tl_token t) ≠ [] ∧ r = RecentChats n (ap_id (w_state w)) (tl_token t)).
Proof.
  intros [(e & He & Hin)|(r' & a & _ & Hin)]%issues_inv Hr.
  - destruct e as [i|tab|v|v|c| |]; cbn [c_handle agent_page_of page_handle snd] in Hin;
      try (by apply elem_of_nil in Hin).
    + exfalso. destruct (decide _); [by apply elem_of_nil in Hin|]. destruct (ap_panel _); set_solver.
    + apply show_sends in Hin. congruence.
    + destruct He as [Ho|[]]. apply page_offers in Ho as (n & t & Ep & Ho). rewrite Ep in Hin.
      exists n, t. split; [done|]. destruct (truthy (trim (tl_token t))) eqn:Et; [|by apply elem_of_nil in Hin].
      right. split; [by apply truthy_spec|by apply list_elem_of_singleton in Hin].
    + destruct He as [Ho|[]]. apply page_offers in Ho as (n & t & Ep & Ho). rewrite Ep in Hin.
      exists n, t. split; [done|]. left. split; [done|by apply list_elem_of_singleton in Hin].
  - exfalso. destruct r'; destruct a; cbn [c_resume agent_page_of page_resume snd] in Hin;
      try (by apply elem_of_nil in Hin); apply show_sends in Hin; congruence.
Qed.

(** A bot is bound as typed, to the agent of the page.  Every binding is sent from the Telegram tab
    on display, for the agent of the route; it carries the token in the field and the chat in the
    field without its outer blanks, neither of them blank; and no other binding of that tab is
    under way.  The chats are asked for with that token and for that agent as well. *)
Theorem bind_is_as_typed {loc : Locale} id (w : world (agent_page_of id)) :
  reachable any w →
  (∀ n i tok l, issues any w (BindTelegram n i tok l) →
     i = ap_id (w_state w) ∧ tally (binds n) (w_flight w) = 0%nat ∧
     ∃ t, ap_panel (w_state w) = TelegramPanel n t ∧ tok = tl_token t ∧ trim tok ≠ [] ∧
       l = [trim (tl_chatId t)] ∧ trim (tl_chatId t) ≠ []) ∧
  (∀ n i tok, issues any w (RecentChats n i tok) →
     i = ap_id (w_state w) ∧
     ∃ t, ap_panel (w_state w) = TelegramPanel n t ∧ tok = tl_token t ∧ trim tok ≠ []).
Proof.
  intros Hw. pose proof (invariant_holds (C := agent_page_of id) any page_inv w Hw) as [_ H2]. split.
  - intros n i tok l (m & t & Ep & [[Ho E]|[_ E]])%telegram_sent; [|done|done].
    injection E as -> -> -> ->. apply telegram_offers in Ho as (Hb & Ht & Hc).
    split; [done|]. destruct (H2 m t Ep) as [_ Hq]. rewrite Hb in Hq. split; [done|].
    exists t. unfold chat_ids. by rewrite (proj2 (truthy_spec _) Hc).
  - intros n i tok (m & t & Ep & [[_ E]|[Ht E]])%telegram_sent; [done| |done].
    injection E as -> -> ->. eauto.
Qed.

(** ** Witness *)

Notation demo_page := (@agent_page_of plain_locale "pm").

Definition demo_status : AgentStatus :=
  {| st_id := "pm"; st_name := "PM"; st_enabled := true; st_last_run := None;
     st_budget := {| bu_spent := num_Z 0; bu_cap := num_Z 1; bu_ratio := num_Z 0 |};
     st_pending_approvals := 0 |}.

Definition to_typed : list (action demo_page) :=
  [Answer (C := demo_page) 0 (GetStatus "pm") (Ok demo_status);
   Do (C := demo_page) (SetTab TelegramTab);
   Do (C := demo_page) (TypeToken "1:A"); Do (C := demo_page) (TypeChat " 42 ")].

Lemma to_token_reachable : reachable any (play to_typed (init_world demo_page)).
Proof.
  apply play_reachable; [apply reach_init|]. split; [split; [reflexivity|exact I]|].
  split; [left; eapply (offers_nth _ 1); [vm_compute; reflexivity|reflexivity]|].
  split; [left; eapply (offers_nth _ 3); [vm_compute; reflexivity|by exists "1:A"%js]|].
  split; [left; eapply (offers_nth _ 4); [vm_compute; reflexivity|by exists " 42 "%js]|exact I].
Defined.

Lemma bind_is_as_typed_witness :
  let w := play to_typed (init_world demo_page) in
  (∀ n i tok l, issues any w (BindTelegram n i tok l) →
     i = ap_id (w_state w) ∧ tally (binds n) (w_flight w) = 0%nat ∧
     ∃ t, ap_panel (w_state w) = TelegramPanel n t ∧ tok = tl_token t ∧ trim tok ≠ [] ∧
       l = [trim (tl_chatId t)] ∧ trim (tl_chatId t) ≠ []) ∧
  (∀ n i tok, issues any w (RecentChats n i tok) →
     i = ap_id (w_state w) ∧
     ∃ t, ap_panel (w_state w) = TelegramPanel n t ∧ tok = tl_token t ∧ trim tok ≠ []).
Proof. intros w. apply (bind_is_as_typed (loc := plain_locale) "pm" w to_token_reachable). Defined.
