(* ===== verification/Technical.v ===== *)
(** The technical views of the selected agent: timeline, guardrail log, cost, memory (views/
    Timeline.tsx, Guardrail.tsx, Cost.tsx, MemoryAuto.tsx with their tables), the overview
    (views/Overview.tsx), and the editor of its files (views/Config.tsx,
    components/ConfigEditor.tsx), all over the fetch hook of [Approvals]. *)

From S2P Require Import Prelude JsNumber React Behaviour Types Labels Prefs Trigger Approvals.

(** ** A page over the data of the selected agent *)

(** A fetch names the run of the effect and the agent; the agent comes from the context. *)
Inductive data_event := AgentSelected (selected : option jsstr).
Inductive data_req := FetchData (n : nat) (id : jsstr).

Definition data_fetches (l : list (nat * jsstr)) : list data_req :=
  map (λ x, FetchData (fst x) (snd x)) l.

Section DataPage.
Context {T : Type} (body : T → list (node data_event)).

(** [if (loading) …; if (error) …; if (!data) return null]. *)
Definition data_view (d : agent_data T) : list (node data_event) :=
  if ad_loading d then [El "p" [] [Txt "Đang tải…"]]
  else match present (ad_error d) with
       | Some e => [El "p" [AStr "className" "error"] [Txt "Lỗi: "; Txt e]]
       | None => match ad_data d with Some x => body x | None => [] end
       end.

Definition data_handle (e : data_event) (d : agent_data T) : agent_data T * list data_req :=
  match e with
  | AgentSelected sel => (fst (data_select sel d), data_fetches (snd (data_select sel d)))
  end.
Definition data_resume (r : data_req) (a : result T) (d : agent_data T) :
    agent_data T * list data_req :=
  match r with FetchData n _ => (data_answer n a d, []) end.

Definition data_page (selected : option jsstr) : component :=
  {| c_state := agent_data T; c_event := data_event; c_req := data_req; c_resp := λ _, T;
     c_init := (fst (data_effect selected (data_init (T := T))),
                data_fetches (snd (data_effect selected (data_init (T := T)))));
     c_view := data_view; c_env := λ _ _, True;
     c_handle := data_handle; c_resume := data_resume |}.
End DataPage.

(** ** The tables *)

Section Tables.
Context {loc : Locale}.

Definition head_row (l : list jsstr) : node data_event :=
  El "thead" [] [El "tr" [] (map (λ t, El "th" [] [Txt t]) l)].
Definition cell (o : option jsstr) : node data_event := El "td" [] [Txt (nullish o "")].

(** [formatDateTime(ts) || ts]. *)
Definition time_cell (ts : option jsstr) : node data_event :=
  cell (Some (js_or (formatDateTime ts) (nullish ts ""))).

Definition run_row (r : RunEvent) : node data_event :=
  El "tr" [] [
    time_cell (re_ts r); cell (Some (labelFor KIND_LABEL (re_kind r)));
    cell (Some (labelFor AUDIENCE_LABEL (re_audience r)));
    El "td" [AStr "className" (cat ["status status-"; nullish (re_status r) "undefined"])]
      [Txt (labelFor RUN_STATUS_LABEL (re_status r))];
    cell (Some match re_cost_usd r with Some c => cat ["$"; to_fixed 4 c] | None => "—" end);
    cell (Some (if default false (re_delivered r) then "✓" else "—"))].

Definition RunList (runs : list RunEvent) : node data_event :=
  match runs with
  | [] => El "p" [] [Txt "Chưa có lần chạy nào."]
  | _ => El "div" [AStr "className" "table-scroll"] [
      El "table" [AStr "className" "runs-table"] [
        head_row ["Thời gian"; "Loại"; "Đối tượng"; "Trạng thái"; "Chi phí"; "Đã gửi"];
        El "tbody" [] (map run_row runs)]]
  end.

Definition audit_row (r : AuditRow) : node data_event :=
  El "tr" [] [
    time_cell (ar_timestamp r); cell (ar_action_type r); cell (ar_tool r);
    El "td" [AStr "className" (cat ["verdict verdict-"; nullish (ar_verdict r) "undefined"])]
      [Txt (labelFor VERDICT_LABEL (ar_verdict r))];
    cell (ar_reason r)].

Definition AuditTable (rows : list AuditRow) : node data_event :=
  match rows with
  | [] => El "p" [] [Txt "Chưa có sự kiện nào."]
  | _ => El "div" [AStr "className" "table-scroll"] [
      El "table" [AStr "className" "audit-table"] [
        head_row ["Thời gian"; "Loại"; "Công cụ"; "Kết quả"; "Lý do"];
        El "tbody" [] (map audit_row rows)]]
  end.

Definition proposal_row (p : Proposal) : node data_event :=
  El "tr" [] [cell (Some (z_str (pr_id p))); cell (Some (pr_action_summary p));
              cell (Some (pr_reason p)); cell (Some (pr_status p)); time_cell (Some (pr_created_at p))].

Definition PendingProposals (l : list Proposal) : node data_event :=
  match l with
  | [] => El "p" [AStr "className" "muted"] [Txt "Không có đề xuất chờ duyệt."]
  | _ => El "div" [AStr "className" "table-scroll"] [
      El "table" [AStr "className" "proposals-table"] [
        head_row ["Mã"; "Hành động"; "Lý do"; "Trạng thái"; "Tạo lúc"];
        El "tbody" [] (map proposal_row l)]]
  end.

Definition fact_item (f : Fact) : node data_event :=
  El "li" [] (Txt (nullish (fa_fact f) "")
    :: match present (fa_ts f) with
       | Some ts => [El "span" [AStr "className" "muted"] [Txt " · "; Txt ts]]
       | None => []
       end).

Definition FactsList (l : list Fact) : node data_event :=
  match l with
  | [] => El "p" [AStr "className" "muted"]
            [Txt "Chưa ghi nhớ điều gì (chỉ nội bộ; trống khi tiến trình vừa khởi động)."]
  | _ => El "ul" [AStr "className" "facts-list"] (map fact_item l)
  end.

(** ** The pages *)

Definition Timeline (p : RunsPayload) : list (node data_event) :=
  [El "section" [] [El "h2" [] [Txt "Dòng thời gian hoạt động"]; RunList (rp_runs p)]].

Definition verdict_total (p : AuditPayload) : Z := foldl Z.add 0 (map snd (au_counts p)).

Definition Guardrail (theme : ResolvedTheme) (p : AuditPayload) : list (node data_event) :=
  [El "section" [] (
    [El "h2" [] [Txt "Guardrail & nhật ký"];
     El "p" [] [Txt (z_str (verdict_total p)); Txt " quyết định đã ghi qua rào chắn."]]
    ++ when (0 <? verdict_total p)
         [El "div" [AStr "className" "chart-box"]
            [Comp "VerdictChart" [AStr "key" (resolved_text theme)]]]
    ++ [El "h3" [] [Txt "Sự kiện gần đây"]; AuditTable (au_recent p)])].

Definition spent_ratio (p : CostPayload) : num :=
  if num_gt (cp_cap p) (num_Z 0) then num_div (cp_spent_this_month p) (cp_cap p) else num_Z 0.

Definition Cost (theme : ResolvedTheme) (p : CostPayload) : list (node data_event) :=
  [El "section" [] [
    El "h2" [] [Txt "Chi phí so với ngân sách"];
    El "p" [] [
      Txt "Tháng này: "; El "strong" [] [Txt "$"; Txt (to_fixed 4 (cp_spent_this_month p))];
      Txt " trên hạn mức $"; Txt (to_fixed 2 (cp_cap p)); Txt " (";
      Txt (to_fixed 0 (num_mul (spent_ratio p) (num_Z 100))); Txt "%";
      Txt (if num_ge (spent_ratio p) (cp_warn_ratio p) then " ⚠️" else ""); Txt ")"];
    match cp_series p with
    | [] => El "p" [] [Txt "Chưa có lịch sử chi phí."]
    | _ => Comp "CostChart" [AStr "key" (resolved_text theme)]
    end]].

(** The memory page has two such fetches, each in a section of its own. *)
Definition data_section {T} (f : option T → node data_event) (d : agent_data T) : node data_event :=
  if ad_loading d then El "p" [] [Txt "Đang tải…"]
  else match present (ad_error d) with
       | Some e => El "p" [AStr "className" "error"] [Txt "Lỗi: "; Txt e]
       | None => f (ad_data d)
       end.

Definition MemoryAutomation (mem : agent_data MemoryPayload) (auto : agent_data AutomationPayload) :
    list (node data_event) :=
  [El "section" [] [
    El "h2" [] [Txt "Bộ nhớ & tự động hoá"];
    El "h3" [] [Txt "Sự kiện đã ghi nhớ"];
    data_section (λ o, FactsList match o with Some p => mp_facts p | None => [] end) mem;
    El "h3" [] [Txt "Đề xuất chờ duyệt"];
    data_section (λ o, PendingProposals match o with Some p => ap_pending p | None => [] end) auto]].

Definition overview_row (a : AgentSummary) : node data_event :=
  El "tr" [] [
    cell (Some (as_id a)); cell (Some (as_name a)); cell (Some (if as_enabled a then "✓" else "—"));
    cell (Some match as_last_run a with
               | Some r => cat [labelFor KIND_LABEL (re_kind r); " · ";
                                labelFor RUN_STATUS_LABEL (re_status r)]
               | None => "chưa chạy lần nào"
               end)].

Definition Overview (x : agents_ctx) : list (node data_event) :=
  if ax_loading x then [El "p" [] [Txt "Đang tải…"]]
  else match present (ax_error x), ax_agents x with
       | Some e, _ => [El "p" [AStr "className" "error"] [Txt "Lỗi: "; Txt e]]
       | None, [] => [El "p" [] [Txt "Chưa có nhân sự ảo nào."]]
       | None, l =>
           [El "section" [] [
             El "h2" [] [Txt "Tổng quan đội"];
             El "div" [AStr "className" "table-scroll"] [
               El "table" [AStr "className" "agents-table-advanced"] [
                 head_row ["Mã"; "Tên"; "Bật"; "Lần chạy gần nhất"];
                 El "tbody" [] (map overview_row l)]]]]
       end.
End Tables.

(** ** Theorems: the data on display *)

(** Answers that belong to the agent asked for, and rejections that say something. *)
Definition of_agent {T} (owner : jsstr → T → Prop) (id : jsstr) (a : result T) : Prop :=
  match a with
  | Ok x => owner id x
  | Err (ApiError _ m) | Err (JsError m) => m ≠ []
  | Err ThrownOther => True
  end.

(** Data on display are the selected agent's; a fetch that the hook still waits for is of the
    selected agent. *)
Record data_ok {T} (owner : jsstr → T → Prop) (d : agent_data T) (q : list (nat * jsstr)) : Prop := {
  do_shown : ad_loading d = false → present (ad_error d) = None →
    ∀ x, ad_data d = Some x → ∃ id, ad_selected d = Some id ∧ owner id x;
  do_fetch : ∀ n id, (n, id) ∈ q → (n ≤ ad_run d)%nat ∧ (n = ad_run d → ad_selected d = Some id)
}.

Section DataOk.
Context {T : Type} (owner : jsstr → T → Prop).

Lemma data_effect_ok sel d q :
  (∀ n id, (n, id) ∈ q → (n ≤ ad_run d)%nat) →
  data_ok owner (fst (data_effect sel d)) (q ++ snd (data_effect sel d)).
Proof.
  intros Hq. unfold data_effect. destruct (present sel) as [id|] eqn:Es; cbn [fst snd].
  - apply present_spec in Es as [-> _]. split; [done|]. cbn. intros n i [Hi|Hi]%elem_of_app.
    + apply Hq in Hi. lia.
    + apply list_elem_of_singleton in Hi. by injection Hi as -> ->.
  - rewrite app_nil_r. split; [done|]. cbn. intros n i Hi. apply Hq in Hi. lia.
Qed.

Lemma data_select_ok sel d q :
  data_ok owner d q → data_ok owner (fst (data_select sel d)) (q ++ snd (data_select sel d)).
Proof.
  intros Hd. unfold data_select. destruct (decide _) as [->|]; [by rewrite app_nil_r|].
  apply data_effect_ok. intros m id Hn. by destruct (do_fetch _ _ _ Hd m id Hn).
Qed.

Lemma data_answer_ok d q1 n id a q2 :
  data_ok owner d (q1 ++ (n, id) :: q2) → of_agent owner id a →
  data_ok owner (data_answer n a d) (q1 ++ q2).
Proof.
  intros [H1 H2] Ha. assert (data_ok owner d (q1 ++ q2)) as Hd.
  { split; [done|]. intros m i Hm. apply H2. set_solver. }
  unfold data_answer. destruct (Nat.eqb_spec n (ad_run d)) as [->|]; [|exact Hd].
  assert (ad_selected d = Some id) as Hs by (apply H2 with (ad_run d); set_solver).
  destruct a as [x|e]; (split; [|by apply Hd]); cbn.
  - intros _ _ ? [= <-]. eauto.
  - intros _ He. exfalso. destruct e as [c m|m|]; cbn in He; [by destruct m..|done].
Qed.
End DataOk.

Definition fetch_key (r : data_req) : nat * jsstr := match r with FetchData n id => (n, id) end.

Lemma fetch_keys l : map fetch_key (data_fetches l) = l.
Proof. unfold data_fetches. rewrite map_map. induction l as [|[n i] l IH]; [done|]. exact (f_equal (cons (n, i)) IH). Qed.

Section DataPageTheorems.
Context {T : Type} (body : T → list (node data_event)) (owner : jsstr → T → Prop) (sel : option jsstr).

Definition belongs : answers (data_page body sel) :=
  λ r a, of_agent owner (snd (fetch_key r)) a.

#[export] Instance data_inv :
  Invariant (C := data_page body sel) belongs (λ d q, data_ok owner d (map fetch_key q)).
Proof.
  split.
  - cbn. rewrite fetch_keys. apply (data_effect_ok owner sel data_init []). set_solver.
  - intros [s] d q Hd _. cbn. rewrite map_app, fetch_keys. by apply data_select_ok.
  - intros [n id] a d q1 q2 Ha Hd. cbn. rewrite app_nil_r, map_app. rewrite map_app in Hd. cbn in Hd.
    by apply (data_answer_ok owner d _ n id).
Qed.
End DataPageTheorems.

(** C31: A technical page never shows one agent's data as another's.  For every page over the fetch hook
    and every sequence of selections and answers, in any order: if the server gives each agent
    only data of its own (and a request that fails has a message, as the client's errors have),
    then what the page shows, when it is neither loading nor reporting an error, are data of the
    agent selected at that moment. *)
Theorem data_shown_is_selected {T} (body : T → list (node data_event)) owner sel
    (w : world (data_page body sel)) x :
  reachable (belongs body owner sel) w →
  let d := w_state w in
  ad_loading d = false → present (ad_error d) = None → ad_data d = Some x →
  data_view body d = body x ∧ ∃ id, ad_selected d = Some id ∧ owner id x.
Proof.
  intros Hw d Hl He Hx. split; [unfold data_view; by rewrite Hl, He, Hx|].
  pose proof (invariant_holds (C := data_page body sel) (belongs body owner sel)
    (λ d q, data_ok owner d (map fetch_key q)) w Hw) as Hd.
  by apply (do_shown _ _ _ Hd).
Qed.

Notation demo_timeline := (@Timeline plain_locale).
Definition demo_runs : RunsPayload := {| rp_agent_id := "hr"; rp_runs := [] |}.
Definition runs_owner (id : jsstr) (p : RunsPayload) : Prop := rp_agent_id p = id.

(** The first agent's answer comes after the second agent's. *)
Definition to_second : list (action (data_page demo_timeline (Some "pm"%js))) :=
  [Do (C := data_page demo_timeline (Some "pm"%js)) (AgentSelected (Some "hr"%js));
   Answer (C := data_page demo_timeline (Some "pm"%js)) 1 (FetchData 2 "hr") (Ok demo_runs);
   Answer (C := data_page demo_timeline (Some "pm"%js)) 0 (FetchData 1 "pm")
     (Ok {| rp_agent_id := "pm"; rp_runs := [] |})].

Lemma to_second_reachable :
  reachable (belongs demo_timeline runs_owner (Some "pm"%js))
    (play to_second (init_world (data_page demo_timeline (Some "pm"%js)))).
Proof.
  apply play_reachable; [apply reach_init|]. split; [by right|].
  split; [split; [reflexivity|done]|]. split; [split; [reflexivity|done]|exact I].
Defined.

Lemma data_shown_is_selected_witness :
  let d := w_state (play to_second (init_world (data_page demo_timeline (Some "pm"%js)))) in
  data_view demo_timeline d = demo_timeline demo_runs ∧
  ∃ id, ad_selected d = Some id ∧ runs_owner id demo_runs.
Proof.
  apply (data_shown_is_selected demo_timeline runs_owner (Some "pm"%js) _ demo_runs to_second_reachable);
    reflexivity.
Defined.
