(* ===== verification/Config.v ===== *)
(** The editor of an agent's files (views/Config.tsx, components/ConfigEditor.tsx) over the fetch
    hook of [Approvals]. *)

From S2P Require Import Prelude React Behaviour Types Approvals Technical.

(** ** One editor *)

Record config_editor := {
  ce_text : jsstr;
  ce_status : option jsstr;
  ce_error : option jsstr;
  ce_busy : bool
}.

Definition new_config_editor (initial : jsstr) : config_editor :=
  {| ce_text := initial; ce_status := None; ce_error := None; ce_busy := false |}.
Definition editor_text (v : jsstr) (e : config_editor) : config_editor :=
  {| ce_text := v; ce_status := ce_status e; ce_error := ce_error e; ce_busy := ce_busy e |}.

(** [save] up to the await of [onSave(text)], and after it. *)
Definition editor_saving (e : config_editor) : config_editor :=
  {| ce_text := ce_text e; ce_status := None; ce_error := None; ce_busy := true |}.
Definition editor_saved (a : result unit) (e : config_editor) : config_editor :=
  {| ce_text := ce_text e;
     ce_status := match a with Ok _ => Some "Đã lưu." | Err _ => ce_status e end;
     ce_error := match a with Ok _ => ce_error e | Err x => Some (error_message x "lưu thất bại") end;
     ce_busy := false |}.

(** The events of an editor; a read-only one has no [onSave] and no button, and its field takes no
    input. *)
Inductive editor_event := EditText (v : jsstr) | SaveText.

Definition ConfigEditor (label : jsstr) (readOnly : bool) (e : config_editor) : node editor_event :=
  El "div" [AStr "className" "config-editor"] (
    [El "h3" [] [Txt label; Txt (if readOnly then " (chỉ đọc)" else "")];
     El "textarea" ([AStr "value" (ce_text e); ABool "readOnly" readOnly; AStr "rows" "12"]
                    ++ when (negb readOnly) [AOn (OnText EditText)]) []]
    ++ when (negb readOnly)
         [El "div" [] (
            [El "button" [AStr "type" "button"; ADisabled (ce_busy e); AOn (OnClick SaveText)]
               [Txt (if ce_busy e then "Đang lưu…" else "Lưu")]]
            ++ match present (ce_status e) with
               | Some m => [El "span" [AStr "className" "ok"] [Txt " "; Txt m]]
               | None => []
               end
            ++ match present (ce_error e) with
               | Some m => [El "span" [AStr "className" "error"] [Txt " "; Txt m]]
               | None => []
               end)]).

(** ** The page *)

Inductive config_file := ProfileYaml | SoulMd | ProjectMd | MemoryMd.
#[export] Instance config_file_eq_dec : EqDecision config_file.
Proof. solve_decision. Defined.

Definition file_key (f : config_file) : jsstr :=
  match f with
  | ProfileYaml => "profile" | SoulMd => "soul" | ProjectMd => "project" | MemoryMd => "memory"
  end.
Definition file_label (f : config_file) : jsstr :=
  match f with
  | ProfileYaml => "profile.yaml" | SoulMd => "SOUL.md" | ProjectMd => "PROJECT.md"
  | MemoryMd => "MEMORY.md"
  end.
Definition read_only (f : config_file) : bool := match f with MemoryMd => true | _ => false end.
Definition config_files : list config_file := [ProfileYaml; SoulMd; ProjectMd; MemoryMd].

(** The four editors of one mount. *)
Record config := {
  cf_data : agent_data ConfigPayload;
  cf_editors : option (nat * (config_file → config_editor));
  cf_mounts : nat
}.

Inductive config_event := ConfigAgent (selected : option jsstr) | OfFile (f : config_file) (e : editor_event).

(** [SaveProfile] is [api.saveProfile], [SaveMarkdown] is [api.saveMarkdown]. *)
Inductive config_req :=
| FetchConfig (n : nat) (id : jsstr)
| SaveProfile (m : nat) (id text : jsstr)
| SaveMarkdown (m : nat) (id : jsstr) (f : config_file) (text : jsstr).
Definition config_resp (r : config_req) : Type :=
  match r with FetchConfig _ _ => ConfigPayload | _ => unit end.

Definition config_fetches (l : list (nat * jsstr)) : list config_req :=
  map (λ x, FetchConfig (fst x) (snd x)) l.

(** What the page shows: the files of the data, when there is nothing else to say. *)
Definition config_shown (d : agent_data ConfigPayload) : option (jsstr * ConfigPayload) :=
  if ad_loading d then None
  else match present (ad_error d), ad_data d, present (ad_selected d) with
       | None, Some x, Some id => Some (id, x)
       | _, _, _ => None
       end.

(** The page after an update of its data: the editors are there while the files are, and start
    with the text of the files. *)
Definition set_config (d : agent_data ConfigPayload) (s : config) : config :=
  match config_shown d, cf_editors s with
  | None, _ => {| cf_data := d; cf_editors := None; cf_mounts := cf_mounts s |}
  | Some _, Some e => {| cf_data := d; cf_editors := Some e; cf_mounts := cf_mounts s |}
  | Some (_, x), None =>
      let n := S (cf_mounts s) in
      {| cf_data := d;
         cf_editors := Some (n, λ f, new_config_editor (nullish (cfg_files x !! file_key f) ""));
         cf_mounts := n |}
  end.

Definition update_editor (f : config_file) (g : config_editor → config_editor)
    (es : config_file → config_editor) : config_file → config_editor :=
  λ k, if decide (k = f) then g (es k) else es k.
Definition with_editors (es : option (nat * (config_file → config_editor))) (s : config) : config :=
  {| cf_data := cf_data s; cf_editors := es; cf_mounts := cf_mounts s |}.

Definition save_file (m : nat) (id : jsstr) (f : config_file) (text : jsstr) : list config_req :=
  match f with
  | ProfileYaml => [SaveProfile m id text]
  | MemoryMd => []
  | _ => [SaveMarkdown m id f text]
  end.

Definition config_handle (e : config_event) (s : config) : config * list config_req :=
  match e with
  | ConfigAgent sel =>
      (set_config (fst (data_select sel (cf_data s))) s,
       config_fetches (snd (data_select sel (cf_data s))))
  | OfFile f (EditText v) =>
      (with_editors (option_map (λ me, (fst me, update_editor f (editor_text v) (snd me))) (cf_editors s)) s, [])
  | OfFile f SaveText =>
      match cf_editors s, present (ad_selected (cf_data s)), read_only f with
      | Some (m, es), Some id, false =>
          (with_editors (Some (m, update_editor f editor_saving es)) s,
           save_file m id f (ce_text (es f)))
      | _, _, _ => (s, [])
      end
  end.

(** The continuation of a save of mount [m], which changes nothing once that is gone. *)
Definition config_saved (m : nat) (f : config_file) (a : result unit) (s : config) : config :=
  match cf_editors s with
  | Some (n, es) =>
      if decide (n = m) then with_editors (Some (n, update_editor f (editor_saved a) es)) s else s
  | None => s
  end.

Definition config_resume (r : config_req) :
    result (config_resp r) → config → config * list config_req :=
  match r return result (config_resp r) → config → config * list config_req with
  | FetchConfig n _ => λ a s, (set_config (data_answer n a (cf_data s)) s, [])
  | SaveProfile m _ _ => λ a s, (config_saved m ProfileYaml a s, [])
  | SaveMarkdown m _ f _ => λ a s, (config_saved m f a s, [])
  end.

Definition Config (s : config) : list (node config_event) :=
  let d := cf_data s in
  if ad_loading d then [El "p" [] [Txt "Đang tải…"]]
  else match present (ad_error d) with
       | Some e => [El "p" [AStr "className" "error"] [Txt "Lỗi: "; Txt e]]
       | None =>
           match config_shown d, cf_editors s with
           | Some (id, _), Some (_, es) =>
               [El "section" [] (
                 El "h2" [] [Txt "Cấu hình — "; Txt id]
                 :: map (λ f, map_node (OfFile f) (ConfigEditor (file_label f) (read_only f) (es f)))
                      config_files)]
           | _, _ => []
           end
       end.

Definition config_page (selected : option jsstr) : component :=
  {| c_state := config; c_event := config_event; c_req := config_req; c_resp := config_resp;
     c_init := (set_config (fst (data_effect selected (data_init (T := ConfigPayload))))
                  {| cf_data := data_init; cf_editors := None; cf_mounts := 0 |},
                config_fetches (snd (data_effect selected (data_init (T := ConfigPayload)))));
     c_view := Config;
     c_env := λ _ e, match e with ConfigAgent _ => True | OfFile _ _ => False end;
     c_handle := config_handle; c_resume := config_resume |}.

(** ** Theorems *)

Lemma editor_view_offers label ro e x :
  offers [ConfigEditor label ro e] x → ro = false ∧ (x = SaveText → ce_busy e = false).
Proof.
  intros H. unfold ConfigEditor in H. destruct ro; cbn [negb when app] in H; inv_offers; done.
Qed.

Lemma config_offers s e :
  offers (Config s) e →
  ∃ f x id p m es, e = OfFile f x ∧ config_shown (cf_data s) = Some (id, p) ∧
    cf_editors s = Some (m, es) ∧ read_only f = false ∧ (x = SaveText → ce_busy (es f) = false).
Proof.
  intros H. unfold Config in H.
  destruct (ad_loading (cf_data s)); [inv_offers|]. destruct (present (ad_error (cf_data s))); [inv_offers|].
  destruct (config_shown (cf_data s)) as [[id p]|] eqn:Ed; [|inv_offers].
  destruct (cf_editors s) as [[m es]|] eqn:Ee; [|inv_offers].
  apply offers_El in H as [H|H]; [by apply own_nil in H|]. apply offers_cons in H as [H|H]; [inv_offers|].
  apply offers_map in H as (f & Hf & H).
  apply (offers_map_node (OfFile f) [ConfigEditor (file_label f) (read_only f) (es f)]) in H as (x & -> & H).
  apply editor_view_offers in H as [Hr Hb]. by exists f, x, id, p, m, es.
Qed.

(** The saves in flight of a file, of one mount. *)
Definition saves (m : nat) (f : config_file) (r : config_req) : bool :=
  match r with
  | FetchConfig _ _ => false
  | SaveProfile n _ _ => Nat.eqb n m && bool_decide (f = ProfileYaml)
  | SaveMarkdown n _ g _ => Nat.eqb n m && bool_decide (f = g)
  end.
Definition fetch_of (r : config_req) : option (nat * jsstr) :=
  match r with FetchConfig n id => Some (n, id) | _ => None end.
Definition saved_by (k : nat) (r : config_req) : Prop :=
  ∀ m f, (k < m)%nat → saves m f r = false.

Record config_inv (owner : jsstr → ConfigPayload → Prop) (s : config) (q : list config_req) : Prop := {
  ci_data : data_ok owner (cf_data s) (omap fetch_of q);
  ci_shown : is_Some (cf_editors s) ↔ is_Some (config_shown (cf_data s));
  ci_born : Forall (saved_by (cf_mounts s)) q;
  ci_own : ∀ m es f, cf_editors s = Some (m, es) → (m ≤ cf_mounts s)%nat ∧
    tally (saves m f) q = (if ce_busy (es f) then 1 else 0)%nat
}.

Lemma config_fetch_keys l : omap fetch_of (config_fetches l) = l.
Proof. unfold config_fetches. induction l as [|[n i] l IH]; [done|]. exact (f_equal (cons (n, i)) IH). Qed.

Lemma saves_none l m f : tally (saves m f) (config_fetches l) = 0%nat.
Proof. apply tally_none. by intros r (x & -> & _)%list_elem_of_fmap. Qed.

Lemma fetches_saved_by k l : Forall (saved_by k) (config_fetches l).
Proof. apply Forall_forall. by intros r (x & -> & _)%list_elem_of_fmap. Qed.

(** New data keep the invariant. *)
Lemma set_config_inv owner d s q :
  data_ok owner d (omap fetch_of q) → Forall (saved_by (cf_mounts s)) q →
  (∀ m es f, cf_editors s = Some (m, es) → (m ≤ cf_mounts s)%nat ∧
    tally (saves m f) q = (if ce_busy (es f) then 1 else 0)%nat) →
  config_inv owner (set_config d s) q.
Proof.
  intros Hd Hq He. unfold set_config.
  destruct (config_shown d) as [[id p]|] eqn:Es, (cf_editors s) as [[m es]|] eqn:Ee;
    (split; cbn; [done|rewrite ?Es; split; intros []; eauto; done|try done|try done]).
  - eapply Forall_impl; [exact Hq|]. intros r Hr n f Hn. apply Hr. lia.
  - intros n es f [= <- <-]. cbn. split; [done|]. apply tally_none. intros r Hr.
    rewrite Forall_forall in Hq. apply (Hq r Hr). lia.
Qed.

Section Page.
Context (owner : jsstr → ConfigPayload → Prop) (sel : option jsstr).

Definition own_files : answers (config_page sel) :=
  λ r, match r return result (config_resp r) → Prop with
       | FetchConfig _ id => λ a, of_agent owner id a
       | _ => λ _, True
       end.

Lemma save_file_saves m id f text : read_only f = false →
  ∃ r, save_file m id f text = [r] ∧ fetch_of r = None ∧
    ∀ n g, saves n g r = Nat.eqb m n && bool_decide (g = f).
Proof. by destruct f; eauto 10. Qed.

Lemma config_inv_event e s q :
  config_inv owner s q → allowed (C := config_page sel) s e →
  config_inv owner (fst (config_handle e s)) (q ++ snd (config_handle e s)).
Proof.
  intros [H1 H2 H3 H4] Ha. destruct e as [x|f [v|]]; cbn [config_handle fst snd].
  - apply set_config_inv.
    + rewrite omap_app, config_fetch_keys. by apply data_select_ok.
    + apply Forall_app. split; [done|apply fetches_saved_by].
    + intros m es f E. destruct (H4 m es f E). rewrite tally_app, saves_none. split; [done|lia].
  - rewrite app_nil_r. split; cbn; [done| |done|].
    + rewrite <- H2. by destruct (cf_editors s).
    + destruct (cf_editors s) as [[m es]|]; [|done]. intros n es' g [= <- <-]. cbn.
      destruct (H4 m es g eq_refl) as [Hm Ht]. split; [done|]. rewrite Ht. unfold update_editor.
      by destruct (decide (g = f)).
  - destruct Ha as [Ho|[]].
    apply config_offers in Ho as (f' & x & id & p & m & es & E & Ed & Ee & Hr & Hb).
    injection E as <- <-. specialize (Hb eq_refl). rewrite Ee, Hr.
    destruct (present (ad_selected (cf_data s))) as [i|]; [|rewrite app_nil_r; by split].
    destruct (save_file_saves m i f (ce_text (es f)) Hr) as (r & -> & Hf & Hs). cbn [fst snd].
    split; cbn.
    + rewrite omap_app. cbn. by rewrite Hf, app_nil_r.
    + rewrite <- H2, Ee. split; eauto.
    + apply Forall_app. split; [done|]. repeat constructor. intros n g Hn. rewrite Hs.
      destruct (H4 m es g Ee). by rewrite (proj2 (Nat.eqb_neq m n)) by lia.
    + intros n es' g [= <- <-]. destruct (H4 m es g Ee) as [Hm Ht]. split; [done|].
      rewrite tally_app, Ht, tally_cons, Hs, Nat.eqb_refl. unfold update_editor.
      destruct (decide (g = f)) as [->|Hg]; [by rewrite Hb, bool_decide_true|].
      rewrite bool_decide_false by done. cbn. destruct (ce_busy (es g)); done.
Qed.

(** The answer to a save. *)
Lemma config_saved_inv m f a s q1 r q2 :
  config_inv owner s (q1 ++ r :: q2) → fetch_of r = None →
  (∀ n g, saves n g r = Nat.eqb m n && bool_decide (g = f)) →
  config_inv owner (config_saved m f a s) (q1 ++ q2).
Proof.
  intros [H1 H2 H3 H4] Hf Hs.
  assert (omap fetch_of (q1 ++ q2) = omap fetch_of (q1 ++ r :: q2)) as Eq
    by (rewrite !omap_app; cbn; by rewrite Hf).
  assert (Forall (saved_by (cf_mounts s)) (q1 ++ q2)) as Hq.
  { apply Forall_app in H3 as [? H3]. apply Forall_cons in H3 as [_ ?]. by apply Forall_app. }
  unfold config_saved. destruct (cf_editors s) as [[n es]|] eqn:Ee.
  2:{ split; [by rewrite Eq|by rewrite Ee|done|]. intros ? ? ? E. by rewrite Ee in E. }
  assert (∀ g, (n ≤ cf_mounts s)%nat ∧ (tally (saves n g) (q1 ++ q2) +
    (if Nat.eqb m n && bool_decide (g = f) then 1 else 0) = if ce_busy (es g) then 1 else 0)%nat) as Hn.
  { intros g. destruct (H4 n es g eq_refl) as [Hm Ht]. by rewrite tally_middle, Hs in Ht. }
  destruct (decide (n = m)) as [->|Hne]; (split; cbn; [by rewrite Eq| |done|]).
  - rewrite <- H2. split; eauto.
  - intros ? ? g [= <- <-]. destruct (Hn g) as [Hm Ht]. split; [done|]. unfold update_editor.
    rewrite Nat.eqb_refl in Ht. destruct (decide (g = f)) as [->|Hg].
    + rewrite bool_decide_true in Ht by done. cbn in Ht |- *. destruct (ce_busy (es f)); lia.
    + rewrite bool_decide_false in Ht by done. cbn in Ht. lia.
  - by rewrite Ee.
  - rewrite Ee. intros ? ? g [= <- <-]. destruct (Hn g) as [Hm Ht]. split; [done|].
    rewrite (proj2 (Nat.eqb_neq m n)) in Ht by done. cbn in Ht. lia.
Qed.

#[export] Instance config_inv_holds : Invariant own_files (config_inv owner).
Proof.
  split.
  - cbn [c_init config_page fst snd]. apply set_config_inv; cbn [cf_mounts cf_editors]; [|apply fetches_saved_by|done].
    rewrite config_fetch_keys. apply (data_effect_ok owner sel data_init []). set_solver.
  - intros. by apply config_inv_event.
  - intros r a s q1 q2 Ha Hi. destruct r as [n id|m id text|m id f text]; cbn; rewrite app_nil_r.
    + destruct Hi as [H1 H2 H3 H4]. rewrite omap_app in H1. cbn in H1.
      apply set_config_inv.
      * rewrite omap_app. by apply (data_answer_ok owner _ _ n id).
      * apply Forall_app in H3 as [? H3]. apply Forall_cons in H3 as [_ ?]. by apply Forall_app.
      * intros m es f E. destruct (H4 m es f E) as [Hm Ht]. split; [done|].
        rewrite tally_middle in Ht. cbn [saves] in Ht. by rewrite Nat.add_0_r in Ht.
    + by apply (config_saved_inv m ProfileYaml a s q1 (SaveProfile m id text)).
    + by apply (config_saved_inv m f a s q1 (SaveMarkdown m id f text)).
Qed.
End Page.

Lemma shown_owned owner d q id p :
  data_ok owner d q → config_shown d = Some (id, p) → ad_selected d = Some id ∧ owner id p.
Proof.
  intros Hd Hs. unfold config_shown in Hs. destruct (ad_loading d) eqn:El; [done|].
  destruct (present (ad_error d)) eqn:Er; [done|]. destruct (ad_data d) as [x|] eqn:Ex; [|done].
  destruct (present (ad_selected d)) as [i|] eqn:Ei; [|done]. injection Hs as -> ->.
  apply present_spec in Ei as [Ei _]. destruct (do_shown _ _ _ Hd El Er p Ex) as (k & Hk & Ho).
  split; congruence.
Qed.

(** The requests other than a fetch are the saves of editors on display. *)
Lemma config_sent owner sel (w : world (config_page sel)) r :
  issues (own_files owner sel) w r → fetch_of r = None →
  ∃ f id p m es, config_shown (cf_data (w_state w)) = Some (id, p) ∧
    cf_editors (w_state w) = Some (m, es) ∧ read_only f = false ∧ ce_busy (es f) = false ∧
    save_file m id f (ce_text (es f)) = [r].
Proof.
  intros [(e & [Ho|He] & Hin)|(r' & a & _ & Hin)]%issues_inv Hr.
  - apply config_offers in Ho as (g & x & i & p & n & es & -> & Ed & Ee & Hro & Hb).
    destruct x as [v|]; cbn in Hin; [by apply elem_of_nil in Hin|]. rewrite Ee, Hro in Hin.
    assert (present (ad_selected (cf_data (w_state w))) = Some i) as Ej.
    { unfold config_shown in Ed. repeat case_match; by simplify_eq. }
    rewrite Ej in Hin. destruct (save_file_saves n i g (ce_text (es g)) Hro) as (r' & E & _).
    cbn in Hin. rewrite E in Hin. apply list_elem_of_singleton in Hin as ->.
    exists g, i, p, n, es. split_and!; auto.
  - destruct e; [|done]. cbn in Hin. by apply list_elem_of_fmap in Hin as (x & -> & _).
  - destruct r'; cbn in Hin; by apply elem_of_nil in Hin.
Qed.

(** C13: A file is saved for the agent whose file it is.  If the server gives each agent only files of its
    own, then, whatever agents are selected in between and in whatever order the answers come,
    every save is for the selected agent, whose files the page shows; it holds the text of that
    file's editor; it never writes the memory file; and no other save sent from the same editor,
    since the page mounted it, is under way.  (A save sent before the page was left for another agent
    may still be: see [file_saved_twice].) *)
Theorem config_saves_own owner sel (w : world (config_page sel)) m id f text :
  reachable (own_files owner sel) w →
  issues (own_files owner sel) w (SaveMarkdown m id f text) ∨
    f = ProfileYaml ∧ issues (own_files owner sel) w (SaveProfile m id text) →
  ad_selected (cf_data (w_state w)) = Some id ∧
  (∃ p, config_shown (cf_data (w_state w)) = Some (id, p) ∧ owner id p) ∧
  (∃ es, cf_editors (w_state w) = Some (m, es) ∧ text = ce_text (es f)) ∧
  f ≠ MemoryMd ∧ tally (saves m f) (w_flight w) = 0%nat.
Proof.
  intros Hw Hi.
  pose proof (invariant_holds (C := config_page sel) (own_files owner sel) (config_inv owner) w Hw)
    as [H1 _ _ H4].
  assert (∃ r, issues (own_files owner sel) w r ∧ fetch_of r = None ∧
    ∀ n i g t, save_file n i g t = [r] → n = m ∧ i = id ∧ g = f ∧ t = text) as (r & Hr & Hn & Hs).
  { destruct Hi as [Hi|[-> Hi]]; (eexists; split; [exact Hi|split; [done|]]);
      intros ? ? [] ? [= -> -> ->]; by try destruct f. }
  apply config_sent in Hr as (g & i & p & n & es & Ed & Ee & Hro & Hb & (<- & <- & <- & <-)%Hs); [|done].
  destruct (shown_owned owner _ _ i p H1 Ed) as [Hsel Ho]. destruct (H4 n es g Ee) as [_ Ht].
  rewrite Hb in Ht. split_and!; eauto. by intros ->.
Qed.

(** ** Witness *)

Definition demo_files : ConfigPayload :=
  {| cfg_agent_id := "pm"; cfg_files := {["soul"%js := "PM"%js]} |}.
Definition files_owner (id : jsstr) (p : ConfigPayload) : Prop := cfg_agent_id p = id.
Notation demo_config := (config_page (Some "pm"%js)).

Definition to_edited : list (action demo_config) :=
  [Answer (C := demo_config) 0 (FetchConfig 1 "pm") (Ok demo_files);
   Do (C := demo_config) (OfFile SoulMd (EditText "BA"))].

Lemma to_edited_reachable :
  reachable (own_files files_owner (Some "pm"%js)) (play to_edited (init_world demo_config)).
Proof.
  apply play_reachable; [apply reach_init|]. split; [split; [reflexivity|done]|]. split; [|exact I].
  left. eapply (offers_nth _ 2); [vm_compute; reflexivity|by exists "BA"%js].
Defined.

Lemma config_saves_own_witness :
  let w := play to_edited (init_world demo_config) in
  ad_selected (cf_data (w_state w)) = Some "pm"%js ∧
  (∃ p, config_shown (cf_data (w_state w)) = Some ("pm"%js, p) ∧ files_owner "pm" p) ∧
  (∃ es, cf_editors (w_state w) = Some (1%nat, es) ∧ "BA"%js = ce_text (es SoulMd)) ∧
  SoulMd ≠ MemoryMd ∧ tally (saves 1 SoulMd) (w_flight w) = 0%nat.
Proof.
  intros w. apply (config_saves_own files_owner (Some "pm"%js) w 1 "pm" SoulMd "BA" to_edited_reachable).
  left. apply (issues_event (C := demo_config) _ _ (OfFile SoulMd SaveText)).
  - left. eapply (offers_nth _ 3); [vm_compute; reflexivity|reflexivity].
  - vm_compute. left.
Defined.

(** A gap: to leave an agent and come back is to get new editors, whose buttons are not held by the
    saves of the former ones.  Two saves of one file are then under way, and the server may take
    the older text last. *)
Definition saves_of (id : jsstr) (f : config_file) (r : config_req) : bool :=
  match r with SaveMarkdown _ i g _ => bool_decide (i = id ∧ g = f) | _ => false end.
Definition to_resaved : list (action demo_config) :=
  to_edited ++
  [Do (C := demo_config) (OfFile SoulMd SaveText);
   Do (C := demo_config) (ConfigAgent (Some "hr"%js));
   Do (C := demo_config) (ConfigAgent (Some "pm"%js));
   Answer (C := demo_config) 2 (FetchConfig 3 "pm") (Ok demo_files);
   Do (C := demo_config) (OfFile SoulMd SaveText)].
Theorem file_saved_twice :
  let w := play to_resaved (init_world demo_config) in
  reachable (own_files files_owner (Some "pm"%js)) w ∧
  tally (saves_of "pm" SoulMd) (w_flight w) = 2%nat.
Proof.
  cbn zeta. split; [|vm_compute; reflexivity].
  apply play_reachable; [apply reach_init|]. split; [split; [reflexivity|done]|].
  split; [left; eapply (offers_nth _ 2); [vm_compute; reflexivity|by exists "BA"%js]|].
  split; [left; eapply (offers_nth _ 3); [vm_compute; reflexivity|reflexivity]|].
  split; [by right|]. split; [by right|]. split; [split; [vm_compute; reflexivity|done]|].
  split; [left; eapply (offers_nth _ 3); [vm_compute; reflexivity|reflexivity]|exact I].
Qed.
