(* ===== verification/Viewer.v ===== *)
(** The viewer of a step's result (views/office-unified/artifact-viewer.tsx) and the older log of
    one room (views/OfficeRoom.tsx) over the stream of [Streams]. *)

From S2P Require Import Prelude React Behaviour Types Streams OfficeFeed OfficeUnified.

(** ** The artifact viewer *)

(** [markdownComponents.img]: an image becomes a link, and nothing is fetched. *)
Definition markdown_img {E} (src : option jsstr) (alt : option jsstr) : node E :=
  El "a" (match src with Some s => [AStr "href" s] | None => [] end
          ++ [AStr "target" "_blank"; AStr "rel" "noreferrer noopener"])
    [Txt "[hình: "; Txt match present alt with Some a => a | None => nullish src "" end; Txt "]"].

Record viewer := {
  vw_taskId : jsstr; vw_seq : Z; vw_stepId : jsstr;    (* props *)
  vw_artifact : option StepArtifactPayload;
  vw_error : option jsstr;
  vw_copied : bool
}.

Inductive viewer_event :=
| OpenStep (taskId : jsstr) (seq : Z) (stepId : jsstr)   (* the props change *)
| CopyText
| Download
| CloseViewer
| Escape.

(** [OnClose] is the call of the prop, [ClearCopied] the timer of 1.5 seconds. *)
Inductive viewer_req :=
| GetArtifact (taskId : jsstr) (seq : Z)
| WriteClipboard (text : jsstr)
| ClearCopied
| SaveFile (name text : jsstr)
| OnClose.
Definition viewer_resp (r : viewer_req) : Type :=
  match r with GetArtifact _ _ => StepArtifactPayload | _ => unit end.

Definition set_viewer (a : option StepArtifactPayload) (error : option jsstr) (copied : bool)
    (s : viewer) : viewer :=
  {| vw_taskId := vw_taskId s; vw_seq := vw_seq s; vw_stepId := vw_stepId s; vw_artifact := a;
     vw_error := error; vw_copied := copied |}.

Section Viewer.
Context (clipboard : bool).                        (* [navigator.clipboard] is there *)

Definition viewer_handle (e : viewer_event) (s : viewer) : viewer * list viewer_req :=
  match e with
  | OpenStep t n i =>
      ({| vw_taskId := t; vw_seq := n; vw_stepId := i; vw_artifact := vw_artifact s;
          vw_error := vw_error s; vw_copied := vw_copied s |},
       if decide ((t, n) = (vw_taskId s, vw_seq s)) then [] else [GetArtifact t n])
  | CopyText =>
      match vw_artifact s with
      | Some a => (s, when clipboard [WriteClipboard (sa_result_text a)])
      | None => (s, [])
      end
  | Download =>
      match vw_artifact s with
      | Some a => (s, [SaveFile (cat [vw_taskId s; "-"; vw_stepId s; ".md"]) (sa_result_text a)])
      | None => (s, [])
      end
  | CloseViewer | Escape => (s, [OnClose])
  end.

Definition viewer_resume (r : viewer_req) :
    result (viewer_resp r) → viewer → viewer * list viewer_req :=
  match r return result (viewer_resp r) → viewer → viewer * list viewer_req with
  | GetArtifact _ _ => λ a s,
      (match a with
       | Ok x => set_viewer (Some x) (vw_error s) (vw_copied s) s
       | Err e => set_viewer (vw_artifact s) (Some (error_message e "không đọc được kết quả")) (vw_copied s) s
       end, [])
  | WriteClipboard _ => λ a s,
      match a with
      | Ok _ => (set_viewer (vw_artifact s) (vw_error s) true s, [ClearCopied])
      | Err _ => (s, [])
      end
  | ClearCopied => λ _ s, (set_viewer (vw_artifact s) (vw_error s) false s, [])
  | SaveFile _ _ | OnClose => λ _ s, (s, [])
  end.

Definition is_none {A} (o : option A) : bool := match o with None => true | Some _ => false end.

Definition ArtifactViewer (s : viewer) : list (node viewer_event) :=
  let none := is_none (vw_artifact s) in
  [El "div" [AStr "className" "artifact-overlay"; AStr "role" "dialog"; AStr "aria-modal" "true"] [
    El "div" [AStr "className" "artifact-drawer"] (
      [El "div" [AStr "className" "artifact-drawer-head"] [
         El "h3" [] [Txt match vw_artifact s with Some a => sa_step_title a | None => "Kết quả bước" end];
         El "div" [AStr "className" "office-composer-actions"] [
           El "button" [AStr "type" "button"; AOn (OnClick CopyText); ADisabled none]
             [Txt (if vw_copied s then "Đã copy ✓" else "Copy")];
           El "button" [AStr "type" "button"; AOn (OnClick Download); ADisabled none] [Txt "Tải .md"];
           El "button" [AStr "type" "button"; AOn (OnClick CloseViewer)] [Txt "Đóng"]]]]
      ++ match vw_artifact s with
         | Some a => when (sa_self_check_failed a)
             [El "p" [AStr "className" "office-health-warn artifact-flag"]
                [Txt (cat ["Bước này giao kèm cờ "; dq; "tự soát chưa đạt"; dq; " — nên đọc kỹ."])]]
         | None => []
         end
      ++ match present (vw_error s) with
         | Some e => [El "p" [AStr "className" "error"] [Txt "Lỗi: "; Txt e]]
         | None => []
         end
      ++ when (none && negb (truthy_opt (vw_error s)))
           [El "p" [AStr "className" "office-room-status"] [Txt "Đang tải…"]]
      ++ match vw_artifact s with
         | Some a => [El "div" [AStr "className" "artifact-markdown"]
                        [Comp "ReactMarkdown" [AStr "children" (sa_result_text a)]]]
         | None => []
         end)]].

Definition artifact_viewer (taskId : jsstr) (seq : Z) (stepId : jsstr) : component :=
  {| c_state := viewer; c_event := viewer_event; c_req := viewer_req; c_resp := viewer_resp;
     c_init := ({| vw_taskId := taskId; vw_seq := seq; vw_stepId := stepId; vw_artifact := None;
                   vw_error := None; vw_copied := false |}, [GetArtifact taskId seq]);
     c_view := ArtifactViewer;
     c_env := λ _ e, match e with OpenStep _ _ _ | Escape => True | _ => False end;
     c_handle := viewer_handle; c_resume := viewer_resume |}.

(** What is copied or saved is the text on display. *)
Lemma viewer_exports_shown t n i (w : world (artifact_viewer t n i)) text :
  issues any w (WriteClipboard text) ∨ (∃ name, issues any w (SaveFile name text)) →
  ∃ a, vw_artifact (w_state w) = Some a ∧ sa_result_text a = text.
Proof.
  assert (∀ r, issues any w r → (r = WriteClipboard text ∨ ∃ name, r = SaveFile name text) →
    ∃ a, vw_artifact (w_state w) = Some a ∧ sa_result_text a = text) as H; [|naive_solver].
  intros r [(e & _ & Hin)|(r' & a & _ & Hin)]%issues_inv Hr.
  - destruct e; cbn in Hin.
    1: destruct (decide _); [by apply elem_of_nil in Hin|]. 2-3: destruct (vw_artifact (w_state w)) as [a|].
    2: destruct clipboard; cbn in Hin; [|by apply elem_of_nil in Hin].
    all: try (by apply elem_of_nil in Hin); apply list_elem_of_singleton in Hin as ->; naive_solver.
  - destruct r'; destruct a; cbn in Hin; try (by apply elem_of_nil in Hin).
    apply list_elem_of_singleton in Hin as ->. naive_solver.
Qed.
End Viewer.

(** ** The room log *)

Record office_room := {
  or_rooms : option (list jsstr);
  or_error : option jsstr;
  or_room : option jsstr;                          (* the query parameter room *)
  or_stream : office_stream
}.

Inductive room_event :=
| PickRoom (roomId : jsstr)
| RoomParam (room : option jsstr)
| RoomSource (e : stream_event).

Inductive room_req := GetOfficeRooms.
Definition room_resp (r : room_req) : Type := OfficeRoomsPayload.

Definition activeRoom (room : option jsstr) : jsstr := nullish room OFFICE_ROOM_ID.

Definition set_active (room : option jsstr) (s : office_room) : office_room :=
  {| or_rooms := or_rooms s; or_error := or_error s; or_room := room;
     or_stream := stream_step (or_stream s) (StreamRoom (Some (activeRoom room))) |}.

Definition room_handle (e : room_event) (s : office_room) : office_room * list room_req :=
  match e with
  | PickRoom r => (set_active (Some r) s, [])
  | RoomParam r => (set_active r s, [])
  | RoomSource e =>
      ({| or_rooms := or_rooms s; or_error := or_error s; or_room := or_room s;
          or_stream := stream_step (or_stream s) e |}, [])
  end.

Definition room_resume (r : room_req) (a : result (room_resp r)) (s : office_room) :
    office_room * list room_req :=
  (match a with
   | Ok p => {| or_rooms := Some (orp_rooms p); or_error := or_error s; or_room := or_room s;
                or_stream := or_stream s |}
   | Err e => {| or_rooms := or_rooms s; or_error := Some (error_message e "tải thất bại");
                 or_room := or_room s; or_stream := or_stream s |}
   end, []).

Definition room_button (active : jsstr) (room label : jsstr) : node room_event :=
  El "button" [AStr "type" "button";
               AStr "className" (if bool_decide (active = room) then "chip chip-active" else "chip");
               AOn (OnClick (PickRoom room))] [Txt label].

Definition log_entry (m : OfficeMessage) : node room_event :=
  El "li" [AStr "className" (cat ["office-room-entry office-room-"; kind_text (om_kind m)])] [
    El "span" [AStr "className" "office-room-kind"] [Txt (KIND_LABEL (om_kind m))];
    El "span" [AStr "className" "office-room-author"] [Txt (om_author m)];
    El "p" [AStr "className" "office-room-text"] [Txt (messageLine m)]].

Definition OfficeRoom (s : office_room) : list (node room_event) :=
  let active := activeRoom (or_room s) in
  let st := or_stream s in
  [El "section" [AStr "className" "office-room"] (
    [El "h2" [] [Txt "Văn phòng"];
     El "p" [AStr "className" "ops-chat-hint"]
       [Txt "Dòng thời gian hoạt động của cả đội: giao việc, phân công, tiến độ, bàn giao và các cột mốc quan trọng."]]
    ++ match present (or_error s) with
       | Some e => [El "p" [AStr "className" "error"] [Txt "Lỗi: "; Txt e]]
       | None => []
       end
    ++ [El "div" [AStr "className" "office-room-layout"] [
          El "nav" [AStr "className" "office-room-picker"; AStr "aria-label" "Danh sách phòng"]
            (room_button active OFFICE_ROOM_ID "Tổng quan"
             :: map (λ r, room_button active r (cat ["Việc #"; r]))
                  (List.filter (λ r, negb (bool_decide (r = OFFICE_ROOM_ID))) (default [] (or_rooms s))));
          El "div" [AStr "className" "office-room-timeline"] (
            [El "p" [AStr "className" "office-room-status"]
               [Txt (if os_errored st then "Mất kết nối luồng — thử tải lại trang."
                     else if os_connected st then "Đang theo dõi trực tiếp" else "Đang kết nối…")]]
            ++ when (bool_decide (os_messages st = []) && negb (os_errored st))
                 [El "p" [AStr "className" "ops-chat-empty"]
                    [Txt "Chưa có hoạt động nào trong phòng này."]]
            ++ [El "ul" [AStr "className" "office-room-log"] (map log_entry (os_messages st))])]])].

(** The page opened with the parameter [room]. *)
Definition office_room_page (room : option jsstr) : component :=
  {| c_state := office_room; c_event := room_event; c_req := room_req; c_resp := room_resp;
     c_init := ({| or_rooms := None; or_error := None; or_room := room;
                   or_stream := stream_mount (Some (activeRoom room)) |}, [GetOfficeRooms]);
     c_view := OfficeRoom;
     c_env := λ _ e, match e with
                     | RoomParam _ => True
                     | RoomSource (StreamRoom _) | PickRoom _ => False
                     | RoomSource _ => True
                     end;
     c_handle := room_handle; c_resume := room_resume |}.

(** The page offers the rooms of the picker, nothing else. *)
Lemma room_offers s e : offers (OfficeRoom s) e → match e with PickRoom _ => True | _ => False end.
Proof. unfold OfficeRoom, room_button, log_entry. intros Ho. by inv_offers. Qed.

(** The log is the stream of the room in the address, without duplicates. *)
#[export] Instance room_inv room srv :
  Invariant (C := office_room_page room) srv
    (λ s _, os_room (or_stream s) = Some (activeRoom (or_room s)) ∧ stream_inv (or_stream s)).
Proof.
  split.
  - split; [cbn; unfold stream_mount, stream_effect; by destruct (present _)|apply stream_inv_mount].
  - intros e s q [H1 H2] Ha. destruct e as [r|r|e]; cbn [c_handle office_room_page room_handle fst or_stream or_room set_active].
    + split; [apply set_room_feed|by apply stream_inv_step].
    + split; [apply set_room_feed|by apply stream_inv_step].
    + assert (same_room e) as He.
      { destruct Ha as [Ho%room_offers|Ha]; [done|by destruct e]. }
      split; [|by apply stream_inv_step]. by rewrite (proj1 (stream_grows (or_stream s) e He)).
  - intros r a s q1 q2 _ H. by destruct a.
Qed.
