(* ===== verification/Office.v ===== *)
(** The office page as one component: the screen (views/office-unified/office-unified.tsx) with the
    composer, the artifact panel and its viewer rendered inside it.  The parts are the components
    of OfficeUnified, Composer, OfficeFeed and Viewer; here they run together, the way the screen
    passes the active room and the messages down and takes the callbacks up. *)

From S2P Require Import Prelude React Types Streams OfficeFeed OfficeUnified Composer Viewer.

(** ** State *)

(** A mounted viewer has a number of its own. *)
Record office := {
  of_screen : screen;
  of_composer : composer;
  of_panel : PanelState;
  of_viewer : option (nat * viewer);
  of_mounts : nat
}.

Inductive page_input :=
| OfScreen (e : screen_event)
| OfComposer (e : composer_event)
| OfPanel (e : PanelEvent)
| OfViewer (e : viewer_event).

Inductive office_req :=
| RqScreen (r : screen_req)
| RqComposer (r : composer_req)
| RqPanel (r : PanelReq)
| RqViewer (n : nat) (r : viewer_req).

Definition office_resp (r : office_req) : Type :=
  match r with
  | RqScreen r => screen_resp r
  | RqComposer r => composer_resp r
  | RqPanel _ => RoomArtifactsPayload
  | RqViewer _ r => viewer_resp r
  end.

Definition with_screen (s : screen) (x : office) : office :=
  {| of_screen := s; of_composer := of_composer x; of_panel := of_panel x;
     of_viewer := of_viewer x; of_mounts := of_mounts x |}.
Definition with_composer (c : composer) (x : office) : office :=
  {| of_screen := of_screen x; of_composer := c; of_panel := of_panel x;
     of_viewer := of_viewer x; of_mounts := of_mounts x |}.
Definition with_panel (p : PanelState) (x : office) : office :=
  {| of_screen := of_screen x; of_composer := of_composer x; of_panel := p;
     of_viewer := of_viewer x; of_mounts := of_mounts x |}.
Definition with_viewer (v : option (nat * viewer)) (mounts : nat) (x : office) : office :=
  {| of_screen := of_screen x; of_composer := of_composer x; of_panel := of_panel x;
     of_viewer := v; of_mounts := mounts |}.

Section Office.
Context (clipboard : bool).                        (* [navigator.clipboard] is there *)

(** ** Rendering the parts *)

(** The viewer the panel renders: none, the one on display with other props, or a new one. *)
Definition shown_step (p : PanelState) : option opened :=
  match present (ap_room p) with Some _ => ap_open p | None => None end.
Definition sync_viewer (x : office) : office * list office_req :=
  match shown_step (of_panel x), of_viewer x with
  | None, _ => (with_viewer None (of_mounts x) x, [])
  | Some o, Some (n, v) =>
      let '(v', l) := viewer_handle clipboard (OpenStep (op_taskId o) (op_seq o) (op_stepId o)) v in
      (with_viewer (Some (n, v')) (of_mounts x) x, map (RqViewer n) l)
  | Some o, None =>
      let n := S (of_mounts x) in
      let '(v, l) := c_init (artifact_viewer clipboard (op_taskId o) (op_seq o) (op_stepId o)) in
      (with_viewer (Some (n, v)) n x, map (RqViewer n) l)
  end.

Definition panel_step (e : PanelEvent) (x : office) : office * list office_req :=
  let '(p, l) := panel_handle e (of_panel x) in
  let '(x', l') := sync_viewer (with_panel p x) in
  (x', map RqPanel l ++ l').

(** A render of the screen passes its room and the messages of its feed down. *)
Definition props (room : option jsstr) (ms : list OfficeMessage) (x : office) :
    office * list office_req :=
  panel_step (PanelProps room ms)
    (with_composer (fst (composer_handle (RoomProp room) (of_composer x))) x).

(** An event of the screen: a first render still has the messages of before, whose reset is an
    effect of the feed's hook and renders again. *)
Definition screen_step (e : screen_event) (x : office) : office * list office_req :=
  let s := of_screen x in
  let '(s', l) := screen_handle e s in
  let '(x1, l1) := props (ou_room s') (os_messages (ou_feed s)) (with_screen s' x) in
  let '(x2, l2) := props (ou_room s') (os_messages (ou_feed s')) x1 in
  (x2, map RqScreen l ++ l1 ++ l2).

(** The composer's effects: [onTaskCreated] is the screen's [selectRoom]. *)
Fixpoint composer_effects (l : list composer_req) (x : office) : office * list office_req :=
  match l with
  | [] => (x, [])
  | TaskCreated t :: l =>
      let '(x1, l1) := screen_step (SelectRoom (Some t)) x in
      let '(x2, l2) := composer_effects l x1 in (x2, l1 ++ l2)
  | r :: l => let '(x', l') := composer_effects l x in (x', RqComposer r :: l')
  end.

Definition office_handle (e : page_input) (x : office) : office * list office_req :=
  match e with
  | OfScreen e => screen_step e x
  | OfComposer e =>
      let '(c, l) := composer_handle e (of_composer x) in composer_effects l (with_composer c x)
  | OfPanel e => panel_step e x
  | OfViewer e =>
      match of_viewer x, e with
      | None, _ => (x, [])
      | Some _, (Viewer.CloseViewer | Escape) => panel_step OfficeFeed.CloseViewer x
      | Some (n, v), _ =>
          let '(v', l) := viewer_handle clipboard e v in
          (with_viewer (Some (n, v')) (of_mounts x) x, map (RqViewer n) l)
      end
  end.

(** An answer for a viewer that is gone sets no state. *)
Definition office_resume (r : office_req) :
    result (office_resp r) → office → office * list office_req :=
  match r return result (office_resp r) → office → office * list office_req with
  | RqScreen r => λ a x,
      let '(s, l) := screen_resume r a (of_screen x) in (with_screen s x, map RqScreen l)
  | RqComposer r => λ a x,
      let '(c, l) := composer_resume r a (of_composer x) in composer_effects l (with_composer c x)
  | RqPanel r => λ a x,
      let '(p, l) := panel_resume r a (of_panel x) in (with_panel p x, map RqPanel l)
  | RqViewer n r => λ a x,
      match of_viewer x with
      | Some (m, v) =>
          let '(v', l) := viewer_resume r a v in
          (if decide (m = n) then with_viewer (Some (m, v')) (of_mounts x) x else x,
           map (RqViewer n) l)
      | None =>
          (x, map (RqViewer n) (snd (viewer_resume r a (fst (c_init (artifact_viewer clipboard [] 0 []))))))
      end
  end.

(** ** The view *)

Definition viewer_view (x : office) (name : jsstr) : option (list (node page_input)) :=
  if bool_decide (name = "ArtifactViewer")
  then option_map (λ nv, map (map_node OfViewer) (ArtifactViewer (snd nv))) (of_viewer x) else None.
Definition parts (x : office) (name : jsstr) : option (list (node page_input)) :=
  if bool_decide (name = "ArtifactPanel")
  then Some (flat_map (plug (viewer_view x) OfPanel) (ArtifactPanel (of_panel x)))
  else if bool_decide (name = "AssignComposer")
  then Some (map (map_node OfComposer) (AssignComposer (of_composer x)))
  else None.
Definition OfficePage (x : office) : list (node page_input) :=
  flat_map (plug (parts x) OfScreen) (OfficeUnified (of_screen x)).

Definition office_env (x : office) (e : page_input) : Prop :=
  match e with
  | OfScreen e => screen_env (of_screen x) e
  | OfViewer Escape => True                        (* the key, while a viewer is mounted *)
  | _ => False
  end.

Definition office_mount (room : option jsstr) (st : storage) (media : option bool)
    (ua : option jsstr) : office * list office_req :=
  let '(s, l) := screen_mount room st media ua in
  let '(p, l') := panel_mount room [] in
  ({| of_screen := s; of_composer := fst (c_init (assign_composer room)); of_panel := p;
      of_viewer := None; of_mounts := 0 |}, map RqScreen l ++ map RqPanel l').

Definition office_page (room : option jsstr) (st : storage) (media : option bool)
    (ua : option jsstr) : component :=
  {| c_state := office; c_event := page_input; c_req := office_req; c_resp := office_resp;
     c_init := office_mount room st media ua; c_view := OfficePage; c_env := office_env;
     c_handle := office_handle; c_resume := office_resume |}.
End Office.

(** ** Theorems: one room *)

(** The viewer on display is that of the step the panel opened. *)
Definition viewer_agrees (x : office) : Prop :=
  match shown_step (of_panel x), of_viewer x with
  | None, None => True
  | Some o, Some (_, v) => vw_taskId v = op_taskId o ∧ vw_seq v = op_seq o ∧ vw_stepId v = op_stepId o
  | _, _ => False
  end.
(** The parts have the room of the screen and the messages of its feed. *)
Definition parts_agree (x : office) : Prop :=
  cm_room (of_composer x) = ou_room (of_screen x) ∧
  ap_room (of_panel x) = ou_room (of_screen x) ∧
  ap_messages (of_panel x) = os_messages (ou_feed (of_screen x)) ∧
  viewer_agrees x.

(** A request for artifacts or of the viewer. *)
Definition below (r : office_req) : Prop :=
  match r with RqPanel _ | RqViewer _ _ => True | _ => False end.

Section Parts.
Context (clipboard : bool).

Lemma sync_viewer_spec x :
  let '(x', l) := sync_viewer clipboard x in
  of_screen x' = of_screen x ∧ of_composer x' = of_composer x ∧ of_panel x' = of_panel x ∧
  viewer_agrees x' ∧ Forall (λ r, match r with RqViewer _ _ => True | _ => False end) l.
Proof.
  unfold sync_viewer, viewer_agrees.
  destruct (shown_step (of_panel x)) as [o|] eqn:Eo; [destruct (of_viewer x) as [[n v]|]|]; cbn.
  - cbn [viewer_handle]. rewrite Eo. split_and!; try done. destruct (decide _); repeat constructor.
  - rewrite Eo. split_and!; try done. repeat constructor.
  - rewrite Eo. split_and!; try done.
Qed.

Lemma panel_step_spec e x :
  let '(x', l) := panel_step clipboard e x in
  of_screen x' = of_screen x ∧ of_composer x' = of_composer x ∧
  of_panel x' = fst (panel_handle e (of_panel x)) ∧ viewer_agrees x' ∧ Forall below l ∧
  (∀ r, RqPanel r ∈ l ↔ r ∈ snd (panel_handle e (of_panel x))).
Proof.
  unfold panel_step. destruct (panel_handle e (of_panel x)) as [p l] eqn:E.
  pose proof (sync_viewer_spec (with_panel p x)) as H.
  destruct (sync_viewer clipboard (with_panel p x)) as [x' l']. destruct H as (H1 & H2 & H3 & H4 & H5).
  split_and!; try done.
  - apply Forall_app. split; [apply Forall_map; by apply Forall_true|].
    eapply Forall_impl; [exact H5|]. by intros [].
  - intros r. cbn [snd]. rewrite elem_of_app, list_elem_of_fmap. split.
    + intros [(r' & [= ->] & Hr)|Hr]; [done|]. rewrite Forall_forall in H5. by apply H5 in Hr.
    + intros Hr. left. eauto.
Qed.

Lemma panel_props room ms p :
  let '(p', l) := panel_handle (PanelProps room ms) p in
  ap_room p' = room ∧ ap_messages p' = ms ∧ ap_open p' = ap_open p ∧
  (∀ r, GetRoomArtifacts r ∈ l → present room = Some r) ∧
  (room ≠ ap_room p → ∀ r, present room = Some r → GetRoomArtifacts r ∈ l).
Proof.
  cbn [panel_handle]. destruct (bool_decide_reflect (room = ap_room p)) as [->|Hr]; cbn [andb].
  - destruct (_ =? _); [split_and!; try done; by intros r ?%elem_of_nil|].
    unfold panel_effect. cbn [ap_room]. destruct (present (ap_room p)) as [r|] eqn:E;
      cbn; rewrite ?E; split_and!; try done.
    + by intros r' [= ->]%list_elem_of_singleton.
    + by intros r ?%elem_of_nil.
  - unfold panel_effect. cbn [ap_room]. destruct (present room) as [r|] eqn:E; cbn; split_and!; try done.
    + by intros r' [= ->]%list_elem_of_singleton.
    + intros _ r' [= ->]. by left.
    + by intros r ?%elem_of_nil.
Qed.

(** A render passes the room and the messages to all parts, and fetches for that room only. *)
Lemma props_spec room ms x :
  let '(x', l) := props clipboard room ms x in
  of_screen x' = of_screen x ∧ cm_room (of_composer x') = room ∧
  cm_phase (of_composer x') = cm_phase (of_composer x) ∧
  ap_room (of_panel x') = room ∧ ap_messages (of_panel x') = ms ∧ viewer_agrees x' ∧
  Forall below l ∧ (∀ r, RqPanel (GetRoomArtifacts r) ∈ l → present room = Some r) ∧
  (room ≠ ap_room (of_panel x) → ∀ r, present room = Some r → RqPanel (GetRoomArtifacts r) ∈ l).
Proof.
  unfold props. set (x1 := with_composer _ x).
  pose proof (panel_step_spec (PanelProps room ms) x1) as H.
  destruct (panel_step clipboard (PanelProps room ms) x1) as [x' l].
  destruct H as (H1 & H2 & H3 & H4 & H5 & H6).
  pose proof (panel_props room ms (of_panel x1)) as Hp.
  destruct (panel_handle (PanelProps room ms) (of_panel x1)) as [p' lp]. cbn [fst snd] in *.
  destruct Hp as (P1 & P2 & _ & P4 & P5). rewrite H1, H2, H3. subst x1. cbn in *.
  split_and!; try done.
  - intros r Hr. by apply P4, H6.
  - intros Hne r Hr. by apply H6, P5.
Qed.

Lemma screen_step_spec e x :
  let s' := fst (screen_handle e (of_screen x)) in
  let '(x', l) := screen_step clipboard e x in
  of_screen x' = s' ∧ parts_agree x' ∧ cm_phase (of_composer x') = cm_phase (of_composer x) ∧
  (∀ r, RqPanel (GetRoomArtifacts r) ∈ l → present (ou_room s') = Some r) ∧
  (∀ r, RqComposer r ∉ l) ∧
  (ou_room s' ≠ ap_room (of_panel x) → ∀ r, present (ou_room s') = Some r →
     RqPanel (GetRoomArtifacts r) ∈ l).
Proof.
  unfold screen_step. destruct (screen_handle e (of_screen x)) as [s' ls] eqn:Es.
  pose proof (props_spec (ou_room s') (os_messages (ou_feed (of_screen x))) (with_screen s' x)) as H1.
  destruct (props clipboard _ _ (with_screen s' x)) as [x1 l1].
  pose proof (props_spec (ou_room s') (os_messages (ou_feed s')) x1) as H2.
  destruct (props clipboard _ _ x1) as [x2 l2]. cbn [fst with_screen of_screen] in *.
  destruct H1 as (A1 & A2 & A3 & A4 & A5 & A6 & A7 & A8 & A9).
  destruct H2 as (B1 & B2 & B3 & B4 & B5 & B6 & B7 & B8 & B9).
  assert (∀ r, ¬ below r → (∀ r', r ≠ RqScreen r') → r ∉ map RqScreen ls ++ l1 ++ l2) as Hn.
  { intros r Hb Hs. rewrite !elem_of_app. rewrite Forall_forall in A7, B7.
    intros [(r' & -> & _)%list_elem_of_fmap|[Hr|Hr]]; [by apply (Hs r')|by apply A7 in Hr|by apply B7 in Hr]. }
  split; [congruence|]. split; [|split; [by rewrite B3, A3|split; [|split]]].
  - unfold parts_agree. rewrite B1, A1. auto.
  - intros r. rewrite !elem_of_app. intros [(r' & [=] & _)%list_elem_of_fmap|[Hr|Hr]]; eauto.
  - intros r. apply Hn; [intros []|by intros r'].
  - intros Hne r Hr. rewrite !elem_of_app. right. left. by apply A9.
Qed.

(** The composer's effects: its requests as they are, and each created task selected. *)
Lemma composer_effects_spec l x :
  parts_agree x →
  let '(x', l') := composer_effects clipboard l x in
  parts_agree x' ∧ cm_phase (of_composer x') = cm_phase (of_composer x) ∧
  (∀ r, RqComposer r ∈ l' → r ∈ l) ∧
  (∀ r, RqPanel (GetRoomArtifacts r) ∈ l' → TaskCreated r ∈ l) ∧
  (of_screen x' = of_screen x ∨ ∃ t, TaskCreated t ∈ l ∧ ou_room (of_screen x') = present (Some t)).
Proof.
  revert x. induction l as [|r l IH]; intros x Hx.
  { split_and!; try done; try (by intros r ?%elem_of_nil). by left. }
  assert ((∃ t, r = TaskCreated t) ∨ ∀ t, r ≠ TaskCreated t) as [[t ->]|Hr]
    by (destruct r; eauto; right; by intros t).
  - cbn [composer_effects]. pose proof (screen_step_spec (SelectRoom (Some t)) x) as Hs.
    destruct (screen_step clipboard (SelectRoom (Some t)) x) as [x1 l1].
    destruct Hs as (S1 & S2 & S3 & S4 & S5 & _). specialize (IH x1 S2). revert IH.
    destruct (composer_effects clipboard l x1) as [x2 l2]. intros (I1 & I2 & I3 & I4 & I5).
    split_and!; [done|by rewrite I2| | |].
    + intros r [Hr|Hr]%elem_of_app; [by apply S5 in Hr|right; by apply I3].
    + intros r [Hr|Hr]%elem_of_app; [|right; by apply I4].
      apply S4 in Hr. cbn in Hr. destruct t; [done|]. cbn in Hr. injection Hr as <-. by left.
    + right. destruct I5 as [->|(u & Hu & E)].
      * exists t. rewrite S1. split; [by left|done].
      * exists u. split; [by right|done].
  - assert (composer_effects clipboard (r :: l) x =
      let '(x', l') := composer_effects clipboard l x in (x', RqComposer r :: l')) as ->
      by (destruct r; try done; by destruct (Hr taskId)).
    specialize (IH x Hx). revert IH.
    destruct (composer_effects clipboard l x) as [x' l']. intros (I1 & I2 & I3 & I4 & I5).
    split_and!; [done|done| | |].
    + intros r' [[= ->]|H]%elem_of_cons; [by left|right; by apply I3].
    + intros r' [[=]|H]%elem_of_cons. right. by apply I4.
    + destruct I5 as [->|(u & Hu & E)]; [by left|right]. exists u. split; [by right|done].
Qed.
End Parts.

(** ** Theorems: the page *)

(** Where the page's events come from. *)
Lemma panel_offers s e : offers (ArtifactPanel s) e → match e with PanelProps _ _ => False | _ => True end.
Proof.
  intros H. unfold ArtifactPanel in H.
  inv_offers; try (unfold artifact_task in H; inv_offers; unfold artifact_item in H; inv_offers); done.
Qed.

Lemma viewer_offers s e :
  offers (ArtifactViewer s) e → match e with Viewer.OpenStep _ _ _ => False | _ => True end.
Proof. intros H. unfold ArtifactViewer in H. inv_offers; done. Qed.

Lemma some_inj {A} (x y : A) : Some x = Some y → x = y.
Proof. congruence. Qed.

Lemma composed_offers x e :
  offers (OfficePage x) e →
  match e with
  | OfScreen e => offers (OfficeUnified (of_screen x)) e
  | OfComposer e => offers (AssignComposer (of_composer x)) e
  | OfPanel e => offers (ArtifactPanel (of_panel x)) e
  | OfViewer e => ∃ n v, of_viewer x = Some (n, v) ∧ offers (ArtifactViewer v) e
  end.
Proof.
  intros [(e' & -> & H)|(name & w & Hn & H)]%offers_plug; [done|]. unfold parts in Hn.
  case_bool_decide.
  - injection Hn as <-. apply offers_plug in H as [(e' & -> & H)|(name' & w & Hn & H)]; [done|].
    unfold viewer_view in Hn. case_bool_decide; [|done].
    destruct (of_viewer x) as [[n v]|]; [|done].
    assert (w = map (map_node OfViewer) (ArtifactViewer v)) as -> by exact (eq_sym (some_inj _ _ Hn)).
    apply offers_map_node in H as (e' & -> & H). eauto.
  - case_bool_decide; [|done].
    assert (w = map (map_node OfComposer) (AssignComposer (of_composer x))) as ->
      by exact (eq_sym (some_inj _ _ Hn)).
    apply offers_map_node in H as (e' & -> & H). done.
Qed.

Section Page.
Context (clipboard : bool) (room : option jsstr) (st : storage) (media : option bool) (ua : option jsstr).
Notation the_page := (office_page clipboard room st media ua).
Notation the_screen := (office_screen room st media ua).

(** The screen keeps its own invariant, and the parts agree with it. *)
Definition page_inv (x : office) (q : list office_req) : Prop :=
  screen_inv (of_screen x) [] ∧ parts_agree x.

Lemma select_keeps s t : screen_inv s [] → screen_inv (fst (screen_handle (SelectRoom t) s)) [].
Proof.
  intros (H1 & H2 & H3 & H4 & H5). apply screen_inv_make; try done; [apply set_room_feed|].
  by apply stream_inv_step.
Qed.

Lemma screen_keeps x e :
  screen_inv (of_screen x) [] → allowed (C := the_screen) (of_screen x) e →
  screen_inv (of_screen (fst (screen_step clipboard e x))) [].
Proof.
  intros Hs Ha. pose proof (screen_step_spec clipboard e x) as H.
  destruct (screen_step clipboard e x) as [x' l]. cbn [fst]. destruct H as (-> & _).
  pose proof (@inv_event the_screen any screen_inv (screen_inv_holds room st media ua) e (of_screen x) [] Hs Ha) as Hk. exact Hk.
Qed.

Lemma effects_keep l x :
  screen_inv (of_screen x) [] → screen_inv (of_screen (fst (composer_effects clipboard l x))) [].
Proof.
  revert x. induction l as [|r l IH]; intros x Hx; [done|].
  assert (∀ t, screen_inv (of_screen (fst (screen_step clipboard (SelectRoom (Some t)) x))) []) as Hs.
  { intros t. pose proof (screen_step_spec clipboard (SelectRoom (Some t)) x) as H.
    destruct (screen_step _ _ x) as [x' l']. cbn [fst]. destruct H as (-> & _). by apply select_keeps. }
  destruct r as [| | | | | |t]; cbn [composer_effects]; try specialize (Hs t);
    try (specialize (IH x Hx); by destruct (composer_effects clipboard l x)).
  destruct (screen_step _ _ x) as [x1 l1]. specialize (IH x1 Hs).
  by destruct (composer_effects clipboard l x1).
Qed.

(** The composer's handlers and continuations leave its prop alone. *)
Lemma composer_keeps_room e c :
  (match e with RoomProp _ => False | _ => True end) → cm_room (fst (composer_handle e c)) = cm_room c.
Proof.
  destruct e; cbn; try done; intros _; unfold ensureStaff, submit, confirm, confirmAdjust;
    repeat case_match; done.
Qed.
Lemma composer_resume_room r a c : cm_room (fst (composer_resume r a c)) = cm_room c.
Proof. destruct r, a; cbn; unfold chat_answer; repeat case_match; done. Qed.

Lemma effects_agree l c x :
  parts_agree x → cm_room c = cm_room (of_composer x) →
  parts_agree (fst (composer_effects clipboard l (with_composer c x))).
Proof.
  intros (H1 & H2 & H3 & H4) Hc.
  assert (parts_agree (with_composer c x)) as Hx
    by (unfold parts_agree; cbn; rewrite Hc; auto).
  pose proof (composer_effects_spec clipboard l _ Hx) as H.
  destruct (composer_effects clipboard l (with_composer c x)). by destruct H.
Qed.

Lemma panel_keeps e x :
  parts_agree x → (match e with PanelProps _ _ => False | _ => True end) →
  parts_agree (fst (panel_step clipboard e x)) ∧
  of_screen (fst (panel_step clipboard e x)) = of_screen x.
Proof.
  intros (H1 & H2 & H3 & H4) He. pose proof (panel_step_spec clipboard e x) as H.
  destruct (panel_step clipboard e x) as [x' l]. destruct H as (P1 & P2 & P3 & P4 & _).
  split; [|done]. unfold parts_agree. cbn [fst]. rewrite P1, P2, P3.
  split_and!; [done| | |exact P4]; by destruct e.
Qed.

Lemma viewer_keeps_props e v :
  (match e with Viewer.OpenStep _ _ _ => False | _ => True end) →
  let v' := fst (viewer_handle clipboard e v) in
  vw_taskId v' = vw_taskId v ∧ vw_seq v' = vw_seq v ∧ vw_stepId v' = vw_stepId v.
Proof. destruct e; cbn; try done; intros _; by destruct (vw_artifact v). Qed.
Lemma viewer_resume_props r a v :
  let v' := fst (viewer_resume r a v) in
  vw_taskId v' = vw_taskId v ∧ vw_seq v' = vw_seq v ∧ vw_stepId v' = vw_stepId v.
Proof. destruct r, a; done. Qed.

Lemma viewer_swap x n v v' m :
  parts_agree x → of_viewer x = Some (n, v) →
  vw_taskId v' = vw_taskId v ∧ vw_seq v' = vw_seq v ∧ vw_stepId v' = vw_stepId v →
  parts_agree (with_viewer (Some (n, v')) m x).
Proof.
  intros (H1 & H2 & H3 & H4) Hv (E1 & E2 & E3). split_and!; try done.
  unfold viewer_agrees in *. cbn. rewrite Hv in H4.
  destruct (shown_step (of_panel x)); [|done]. by rewrite E1, E2, E3.
Qed.

Lemma page_event_keeps e x q :
  page_inv x q → allowed (C := the_page) x e → page_inv (fst (office_handle clipboard e x)) [].
Proof.
  intros [Hs Hp] Ha. unfold page_inv. destruct e as [e|e|e|e]; cbn [office_handle].
  - assert (allowed (C := the_screen) (of_screen x) e) as Ha'
      by (destruct Ha as [Ha|Ha]; [left; by apply composed_offers in Ha|by right]).
    split; [by apply screen_keeps|]. pose proof (screen_step_spec clipboard e x) as H.
    destruct (screen_step clipboard e x) as [x' l]. by destruct H as (_ & ? & _).
  - destruct Ha as [Ha%composed_offers%composer_offers|[]].
    assert (match e with RoomProp _ => False | _ => True end) as He by (by destruct e).
    apply composer_keeps_room with (c := of_composer x) in He.
    destruct (composer_handle e (of_composer x)) as [c l]. cbn in He.
    split; [by apply effects_keep|by apply effects_agree].
  - destruct Ha as [Ha%composed_offers%panel_offers|[]].
    destruct (panel_keeps e x Hp Ha) as [? E]. by rewrite E.
  - assert (∀ n v, of_viewer x = Some (n, v) → match e with Viewer.OpenStep _ _ _ => False | _ => True end) as He.
    { intros n v _. destruct Ha as [(? & ? & _ & Ha%viewer_offers)%composed_offers|Ha]; by destruct e. }
    destruct (of_viewer x) as [[n v]|] eqn:Ev; [|done]. specialize (He n v eq_refl).
    destruct e as [| | | |]; try done;
      try (destruct (panel_keeps OfficeFeed.CloseViewer x Hp I) as [? E]; by rewrite E).
    + pose proof (viewer_keeps_props CopyText v I) as H. destruct (viewer_handle _ _ v).
      split; [done|by apply (viewer_swap x n v)].
    + pose proof (viewer_keeps_props Download v I) as H. destruct (viewer_handle _ _ v).
      split; [done|by apply (viewer_swap x n v)].
Qed.

Lemma page_answer_keeps r a x q : page_inv x q → page_inv (fst (office_resume clipboard r a x)) [].
Proof.
  intros [Hs Hp]. unfold page_inv. destruct r as [r|r|r|n r]; cbn [office_resume].
  - pose proof (@inv_response the_screen any screen_inv (screen_inv_holds room st media ua) r a (of_screen x) [] [] I Hs) as H.
    change (screen_inv (fst (screen_resume r a (of_screen x))) []) in H.
    assert (ou_room (fst (screen_resume r a (of_screen x))) = ou_room (of_screen x) ∧
            ou_feed (fst (screen_resume r a (of_screen x))) = ou_feed (of_screen x)) as [E1 E2]
      by (by destruct r, a).
    destruct (screen_resume r a (of_screen x)) as [s l]. cbn in *.
    split; [done|]. destruct Hp as (P1 & P2 & P3 & P4). unfold parts_agree. cbn.
    by rewrite E1, E2.
  - pose proof (composer_resume_room r a (of_composer x)) as E.
    destruct (composer_resume r a (of_composer x)) as [c l]. cbn in E.
    split; [by apply effects_keep|by apply effects_agree].
  - cbn. split; [done|]. destruct Hp as (P1 & P2 & P3 & P4). split_and!; done.
  - destruct (of_viewer x) as [[m v]|] eqn:Ev; [|done].
    pose proof (viewer_resume_props r a v) as H. destruct (viewer_resume r a v) as [v' l].
    cbn [fst]. destruct (decide (m = n)); [|done]. split; [done|by apply (viewer_swap x m v)].
Qed.

#[export] Instance page_inv_holds : Invariant (C := the_page) any page_inv.
Proof.
  split.
  - cbn [c_init office_page]. unfold office_mount.
    pose proof (@inv_init the_screen any screen_inv (screen_inv_holds room st media ua)) as Hs.
    change (screen_inv (fst (screen_mount room st media ua)) (snd (screen_mount room st media ua))) in Hs.
    assert (∀ k, os_messages (stream_mount (Some k)) = []) as Hm
      by (intros k; unfold stream_mount, stream_effect; by destruct (present _)).
    unfold panel_mount, panel_effect. cbn [ap_room].
    destruct (present room) as [r|] eqn:E; cbn [fst screen_mount];
      (split; [exact Hs|]); unfold parts_agree, viewer_agrees, shown_step;
      cbn -[stream_mount]; rewrite Hm, E; done.
  - intros e x q H Ha. by eapply page_event_keeps.
  - intros r a x q1 q2 _ H. by eapply page_answer_keeps.
Qed.
End Page.

(** ** Theorems: what the office addresses *)

(** The room a request of the composer is sent to: [Some None] for the whole office. *)
Definition addressed (r : composer_req) : option (option jsstr) :=
  match r with
  | RoomChat r _ | RoomConfirmAdjust r _ _ => Some (Some r)
  | AssignPreview _ => Some None
  | _ => None
  end.

Lemma composer_addresses e c r :
  r ∈ snd (composer_handle e c) →
  (∀ t, r ≠ TaskCreated t) ∧ ∀ k, addressed r = Some k → k = present (cm_room c).
Proof.
  destruct e; cbn; unfold ensureStaff, submit, confirm, confirmAdjust;
    repeat (case_match; cbn); rewrite ?list_elem_of_singleton, ?elem_of_nil; intros Hr; try done;
    subst r; (split; [done|]); intros k Hk; by simplify_eq/=.
Qed.
Lemma elem_created r t : r ∈ created t → r = TaskCreated t ∧ t ≠ [].
Proof. unfold created. destruct t; cbn; [by intros ?%elem_of_nil|]. by intros ->%list_elem_of_singleton. Qed.
Lemma composer_resume_addresses r a c r' :
  r' ∈ snd (composer_resume r a c) → ∃ t, snd (composer_resume r a c) = created t ∧ r' = TaskCreated t ∧ t ≠ [].
Proof.
  destruct r, a; cbn; repeat (case_match; cbn); try (by intros ?%elem_of_nil);
    intros [-> ?]%elem_created; eauto.
Qed.

Section Addressed.
Context (clipboard : bool) (room : option jsstr) (st : storage) (media : option bool) (ua : option jsstr).
Notation the_page := (office_page clipboard room st media ua).

Lemma effects_issue l c x r :
  parts_agree x → cm_room c = cm_room (of_composer x) →
  RqComposer r ∈ snd (composer_effects clipboard l (with_composer c x)) → r ∈ l.
Proof.
  intros (H1 & H2) Hc. assert (parts_agree (with_composer c x)) as Hx
    by (unfold parts_agree; cbn; rewrite Hc; auto).
  pose proof (composer_effects_spec clipboard l _ Hx) as H.
  destruct (composer_effects _ _ _) as [x' l']. cbn. by apply H.
Qed.
Lemma panel_silent e x r : RqComposer r ∉ snd (panel_step clipboard e x).
Proof.
  intros H. pose proof (panel_step_spec clipboard e x) as Hs.
  destruct (panel_step clipboard e x) as [x' l']. destruct Hs as (_ & _ & _ & _ & Hb & _).
  rewrite Forall_forall in Hb. by apply Hb in H.
Qed.

(** Every request of the composer the page issues is one of the composer's handlers, which have
    the screen's room. *)
Lemma page_addresses (w : world the_page) r k :
  reachable any w → issues any w (RqComposer r) → addressed r = Some k →
  k = present (ou_room (of_screen (w_state w))).
Proof.
  intros Hw Hi Hk. pose proof (invariant_holds (C := the_page) any page_inv w Hw) as [_ Hp].
  destruct w as [x q]. cbn [w_state w_flight] in *. pose proof Hp as [Hroom _].
  apply issues_inv in Hi as [(e & Ha & Hr)|(r' & a & _ & Hr)]; cbn [w_state] in *.
  - change (RqComposer r ∈ snd (office_handle clipboard e x)) in Hr.
    destruct e as [e|e|e|e]; cbn [office_handle] in Hr.
    + pose proof (screen_step_spec clipboard e x) as H.
      destruct (screen_step clipboard e x) as [x' l']. by apply H in Hr.
    + destruct Ha as [Ha%composed_offers%composer_offers|[]].
      assert (match e with RoomProp _ => False | _ => True end) as He by (by destruct e).
      pose proof (composer_keeps_room e (of_composer x) He) as Hc.
      pose proof (composer_addresses e (of_composer x) r) as Had.
      destruct (composer_handle e (of_composer x)) as [c l]. cbn [fst snd] in *.
      apply effects_issue in Hr; [|done|done]. rewrite <- Hroom. by apply Had.
    + by apply panel_silent in Hr.
    + destruct (of_viewer x) as [[n v]|]; [|by apply elem_of_nil in Hr].
      destruct e; try by apply panel_silent in Hr.
      all: destruct (viewer_handle _ _ v); by apply list_elem_of_fmap in Hr as (? & ? & _).
  - change (RqComposer r ∈ snd (office_resume clipboard r' a x)) in Hr.
    destruct r' as [r'|r'|r'|n r']; cbn [office_resume] in Hr.
    + destruct (screen_resume r' a (of_screen x)). by apply list_elem_of_fmap in Hr as (? & ? & _).
    + pose proof (composer_resume_room r' a (of_composer x)) as Hc.
      pose proof (composer_resume_addresses r' a (of_composer x) r) as Had.
      destruct (composer_resume r' a (of_composer x)) as [c l]. cbn [fst snd] in *.
      apply effects_issue in Hr; [|done|done]. apply Had in Hr as (t & _ & -> & _). done.
    + destruct (panel_resume r' a (of_panel x)). by apply list_elem_of_fmap in Hr as (? & ? & _).
    + destruct (of_viewer x) as [[m v]|]; [destruct (viewer_resume r' a v)|];
        by apply list_elem_of_fmap in Hr as (? & ? & _).
Qed.

(** C15: The parts of the office page are given one room.  In every reachable state, whatever was
    selected, navigated to, streamed, fetched, drafted and opened: the room passed to the composer
    and to the artifact panel, as their property, is the room of the query string; the feed streams
    that room (the room [office] without one), and the messages passed to the panel are the feed's,
    none twice; the desks stream [office]; an open viewer is that of the step last opened in the panel.
    What the composer sends as a chat or as an approval of a plan change is addressed to the
    selected room, and only without a room is a new task drafted; and the artifacts that an event of
    the screen has the panel fetch are those of the room it leads to.  (What the panel shows can
    lag: an answer for a former room may come last, as [panel_stale_room] shows, and an opened step
    stays open when the room changes.) *)
Theorem office_is_one_room (w : world the_page) :
  reachable any w →
  let x := w_state w in
  let room' := ou_room (of_screen x) in
  (cm_room (of_composer x) = room' ∧ ap_room (of_panel x) = room') ∧
  os_room (ou_office (of_screen x)) = Some OFFICE_ROOM_ID ∧
  os_room (ou_feed (of_screen x)) = Some (nullish room' OFFICE_ROOM_ID) ∧
  ap_messages (of_panel x) = os_messages (ou_feed (of_screen x)) ∧
  NoDup (map om_seq (ap_messages (of_panel x))) ∧
  viewer_agrees x ∧
  (∀ r k, issues any w (RqComposer r) → addressed r = Some k → k = present room') ∧
  ∀ e r, RqPanel (GetRoomArtifacts r) ∈ snd (screen_step clipboard e x) →
    present (ou_room (of_screen (fst (screen_step clipboard e x)))) = Some r.
Proof.
  intros Hw x room'. pose proof (invariant_holds (C := the_page) any page_inv w Hw) as [Hs Hp].
  destruct Hs as (S1 & S2 & _ & [S4 _] & _). destruct Hp as (P1 & P2 & P3 & P4).
  fold x in P3. split_and!; try done; [by rewrite P3|intros r k Hi Hk; by eapply page_addresses|].
  intros e r Hr. pose proof (screen_step_spec clipboard e x) as He.
  destruct (screen_step clipboard e x) as [x' l]. cbn [fst snd] in *.
  destruct He as (-> & _ & _ & He & _). by apply He.
Qed.

(** A task created in the composer opens its room.  When an answer creates the task [t] (a
    confirmed plan drafted without a room, or a draft the server confirmed at once), the room in
    the query string becomes [t], the composer addresses it from then on, the feed streams it,
    and its artifacts are fetched unless it was selected before; an answer that creates no task
    leaves the room and both streams as they are. *)
Theorem created_task_opens_room (w : world the_page) (r : composer_req) a :
  reachable any w →
  let x := w_state w in
  let '(x', l) := office_resume clipboard (RqComposer r) a x in
  match snd (composer_resume r a (of_composer x)) with
  | [] => of_screen x' = of_screen x
  | new =>
      ∃ t, new = [TaskCreated t] ∧ t ≠ [] ∧
      ou_room (of_screen x') = Some t ∧ cm_room (of_composer x') = Some t ∧
      os_room (ou_feed (of_screen x')) = Some t ∧
      cm_phase (of_composer x') = cm_phase (fst (composer_resume r a (of_composer x))) ∧
      (ou_room (of_screen x) ≠ Some t → RqPanel (GetRoomArtifacts t) ∈ l)
  end.
Proof.
  intros Hw x. pose proof (invariant_holds (C := the_page) any page_inv w Hw) as [_ Hp]. fold x in Hp.
  pose proof (composer_resume_addresses r a (of_composer x)) as Hc. cbn [office_resume].
  destruct (composer_resume r a (of_composer x)) as [c [|r' new]]; cbn [fst snd] in *; [done|].
  destruct (Hc r' (list_elem_of_here _ _)) as (t & Hn & -> & Ht). clear Hc.
  unfold created in Hn. destruct (truthy t); [|done]. injection Hn as ->. cbn [composer_effects].
  pose proof (screen_step_spec clipboard (SelectRoom (Some t)) (with_composer c x)) as H.
  destruct (screen_step _ _ (with_composer c x)) as [x' l].
  destruct H as (H1 & (H2 & _) & H3 & _ & _ & H4). cbn [screen_handle fst of_screen with_composer] in *.
  assert (present (Some t) = Some t) as Ep by (by destruct t).
  assert (ou_room (of_screen x') = Some t) as Er by (by rewrite H1).
  exists t. rewrite H2, Er, app_nil_r. split_and!; try done.
  - rewrite H1. rewrite Ep. apply set_room_feed.
  - intros Hne. destruct Hp as (_ & Hp & _). rewrite <- H1, Er in H4. apply H4; [cbn [of_panel with_composer]; rewrite Hp; congruence|done].
Qed.
End Addressed.

(** A run: without a room a brief is typed and submitted; the server confirms the draft at once. *)
Definition demo_office : component := office_page true None None None None.
Definition auto_plan : AssignPreviewPayload :=
  {| pv_preview_text := "1. viết"; pv_task_id := "t1"; pv_plan_hash := "h"; pv_pic_id := "qa";
     pv_auto_confirmed := true |}.
Definition drafting : world demo_office :=
  play [Do (C := demo_office) (OfComposer (TypeBrief "viết"));
        Do (C := demo_office) (OfComposer Submit)] (init_world demo_office).

Lemma drafting_reachable : reachable any drafting.
Proof.
  apply play_reachable; [apply reach_init|].
  split; [left; eapply (offers_nth _ 3); [vm_compute; reflexivity|eexists; reflexivity]|].
  split; [left; eapply (offers_nth _ 5); [vm_compute; reflexivity|reflexivity]|exact I].
Defined.

Definition opened_room : world demo_office :=
  play [Answer (C := demo_office) 4 (RqComposer (AssignPreview "viết")) (Ok auto_plan)] drafting.
Lemma opened_room_reachable : reachable any opened_room.
Proof.
  apply play_reachable; [exact drafting_reachable|].
  split; [split; [vm_compute; reflexivity|exact I]|exact I].
Defined.

Lemma office_is_one_room_witness :
  let x := w_state opened_room in
  let room' := ou_room (of_screen x) in
  (cm_room (of_composer x) = room' ∧ ap_room (of_panel x) = room') ∧
  os_room (ou_office (of_screen x)) = Some OFFICE_ROOM_ID ∧
  os_room (ou_feed (of_screen x)) = Some (nullish room' OFFICE_ROOM_ID) ∧
  ap_messages (of_panel x) = os_messages (ou_feed (of_screen x)) ∧
  NoDup (map om_seq (ap_messages (of_panel x))) ∧
  viewer_agrees x ∧
  (∀ r k, issues any opened_room (RqComposer r) → addressed r = Some k → k = present room') ∧
  ∀ e r, RqPanel (GetRoomArtifacts r) ∈ snd (screen_step true e x) →
    present (ou_room (of_screen (fst (screen_step true e x)))) = Some r.
Proof. exact (office_is_one_room true None None None None opened_room opened_room_reachable). Defined.

Lemma created_task_opens_room_witness :
  let x := w_state drafting in
  let r := AssignPreview "viết" in
  let '(x', l) := office_resume true (RqComposer r) (Ok auto_plan) x in
  match snd (composer_resume r (Ok auto_plan) (of_composer x)) with
  | [] => of_screen x' = of_screen x
  | new =>
      ∃ t, new = [TaskCreated t] ∧ t ≠ [] ∧
      ou_room (of_screen x') = Some t ∧ cm_room (of_composer x') = Some t ∧
      os_room (ou_feed (of_screen x')) = Some t ∧
      cm_phase (of_composer x') = cm_phase (fst (composer_resume r (Ok auto_plan) (of_composer x))) ∧
      (ou_room (of_screen x) ≠ Some t → RqPanel (GetRoomArtifacts t) ∈ l)
  end.
Proof.
  exact (created_task_opens_room true None None None None drafting (AssignPreview "viết") (Ok auto_plan)
           drafting_reachable).
Defined.

(** The run's task is the room of the page. *)
Lemma opened_room_selected : ou_room (of_screen (w_state opened_room)) = Some ("t1" : jsstr).
Proof. vm_compute. reflexivity. Qed.
