(* ===== verification/Routes.v ===== *)
(** The routes of the dashboard (App.tsx), and where the links of the screens lead.  The library
    that chooses the route is the class [Router], of which the documented choice is assumed: a
    location is shown by the route whose pattern fits it. *)

From S2P Require Import Prelude React Types Labels Wizard WizardView Team Trigger Chat Shell AgentPage.

(** ** Patterns and locations *)

Inductive segment := Static (s : jsstr) | Dynamic (name : jsstr).

Definition segment_of (s : jsstr) : segment :=
  match s with 58 :: name => Dynamic name | _ => Static s end.

(** The segments of a path relative to the root; a route without a path is the index. *)
Definition segments (path : jsstr) : list jsstr := List.filter truthy (split_on 47 path).

(** The location of [to]: the part in front of the query.  A relative [to] of the layout starts
    at the layout's own route, the root. *)
Definition location (to : jsstr) : list jsstr := segments (default [] (head (split_on 63 to))).

Definition params : Type := list (jsstr * jsstr).

(** A static segment fits itself, a dynamic one every segment, which becomes its parameter. *)
Fixpoint fits (pattern : list segment) (loc : list jsstr) : option params :=
  match pattern, loc with
  | [], [] => Some []
  | Static s :: p, x :: l => if decide (x = s) then fits p l else None
  | Dynamic n :: p, x :: l => ps ← fits p l; Some ((n, x) :: ps)
  | _, _ => None
  end.

(** ** The table of App.tsx *)

Inductive page :=
| ChatPage | TeamPage | WorkPage | SettingsPage | AgentPageOf | CreatePage | CompanyDocsPage
| OfficePage | OfficeLogPage
| OverviewPage | TimelinePage | CostPage | MemoryPage | GuardrailPage | ConfigPage | TriggerPage.

(** [Advanced p]: [p] is shown in the frame with the picker of the agent. *)
Inductive element := Show (p : page) | Advanced (p : page) | Redirect (to : jsstr).

Definition routes : list (jsstr * element) :=
  [("" : jsstr, Redirect "/office");
   ("chat", Show ChatPage);
   ("team", Show TeamPage);
   ("work", Show WorkPage);
   ("settings", Show SettingsPage);
   ("agents/:id", Show AgentPageOf);
   ("create", Show CreatePage);
   ("company-docs", Show CompanyDocsPage);
   ("office", Show OfficePage);
   ("office/timeline", Show OfficeLogPage);
   ("office/3d", Redirect "/office");
   ("overview", Advanced OverviewPage);
   ("timeline", Advanced TimelinePage);
   ("cost", Advanced CostPage);
   ("memory", Advanced MemoryPage);
   ("guardrail", Advanced GuardrailPage);
   ("config", Advanced ConfigPage);
   ("trigger", Advanced TriggerPage);
   ("approvals", Redirect "/work");
   ("tasks", Redirect "/work")].

Definition route_fit (loc : list jsstr) (r : jsstr * element) : option (element * params) :=
  ps ← fits (map segment_of (segments (fst r))) loc; Some (snd r, ps).

(** What the client relies on: a location that exactly one route fits is shown by that route. *)
Class Router := {
  choose : list (jsstr * element) → list jsstr → option (element * params);
  choose_only table loc x : omap (route_fit loc) table = [x] → choose table loc = Some x;
}.

(** The first route that fits: an instance. *)
Definition first_router : Router.
Proof.
  refine {| choose table loc := head (omap (route_fit loc) table) |}. by intros table loc x ->.
Defined.

Section Open.
Context {R : Router}.

(** Where [to] leads: redirects are followed once. *)
Definition open (to : jsstr) : option (element * params) :=
  match choose routes (location to) with
  | Some (Redirect to', _) => choose routes (location to')
  | o => o
  end.

Definition leads (to : jsstr) : Prop :=
  match open to with Some (Show _, _) | Some (Advanced _, _) => True | _ => False end.
End Open.

(** ** The links of a view *)

Section Links.
Context {E : Type}.

Definition own_links (l : list (attr E)) : list jsstr :=
  flat_map (λ a, match a with AStr n v => when (bool_decide (n = "href")) [v] | _ => [] end) l.
Fixpoint links (n : node E) : list jsstr :=
  match n with
  | Txt _ => []
  | El _ l kids => own_links l ++ flat_map links kids
  | Comp _ l => own_links l
  end.
Definition links_all (v : list (node E)) : list jsstr := flat_map links v.

Lemma linked_cons l n (v : list (node E)) : l ∈ links_all (n :: v) → l ∈ links n ∨ l ∈ links_all v.
Proof. apply elem_of_app. Qed.
Lemma linked_app l (v1 v2 : list (node E)) :
  l ∈ links_all (v1 ++ v2) → l ∈ links_all v1 ∨ l ∈ links_all v2.
Proof. unfold links_all. rewrite flat_map_app. apply elem_of_app. Qed.
Lemma linked_nil l : l ∉ links_all ([] : list (node E)).
Proof. apply not_elem_of_nil. Qed.
Lemma linked_when l b (v : list (node E)) : l ∈ links_all (when b v) → l ∈ links_all v.
Proof. destruct b; [done|]. intros H. by apply linked_nil in H. Qed.
Lemma linked_map {A} l (f : A → node E) xs : l ∈ links_all (map f xs) → ∃ x, x ∈ xs ∧ l ∈ links (f x).
Proof.
  unfold links_all. intros H. apply list_elem_of_In, in_flat_map in H as (n & Hn & Hl).
  apply in_map_iff in Hn as (x & <- & Hx). exists x. by rewrite !list_elem_of_In.
Qed.
Lemma linked_El l t a (v : list (node E)) : l ∈ links (El t a v) → l ∈ own_links a ∨ l ∈ links_all v.
Proof. apply elem_of_app. Qed.
Lemma linked_own l x (a : list (attr E)) :
  l ∈ own_links (x :: a) →
  (match x with AStr n v => n = "href"%js ∧ l = v | _ => False end) ∨ l ∈ own_links a.
Proof.
  intros H. apply elem_of_app in H as [H|H]; [left|by right].
  destruct x; try (by apply not_elem_of_nil in H). revert H. case_bool_decide; cbn; set_solver.
Qed.
Lemma own_links_app l (a b : list (attr E)) :
  l ∈ own_links (a ++ b) → l ∈ own_links a ∨ l ∈ own_links b.
Proof. unfold own_links. rewrite flat_map_app. apply elem_of_app. Qed.
Lemma own_links_when l c (a : list (attr E)) : l ∈ own_links (when c a) → l ∈ own_links a.
Proof. by destruct c; [|intros H; apply not_elem_of_nil in H]. Qed.
End Links.

(** Follows a link of a concrete view down to the attribute that holds it. *)
Ltac inv_links :=
  repeat match goal with
  | H : _ ∈ links_all [] |- _ => by apply linked_nil in H
  | H : _ ∈ links (Txt _) |- _ => by apply not_elem_of_nil in H
  | H : _ ∈ links_all (_ ++ _) |- _ => apply linked_app in H as [H|H]
  | H : _ ∈ links_all (when _ _) |- _ => apply linked_when in H
  | H : _ ∈ links_all (map _ _) |- _ => apply linked_map in H as (? & ? & H); cbv beta in H
  | H : _ ∈ links_all (_ :: _) |- _ => apply linked_cons in H as [H|H]
  | H : _ ∈ links_all (if ?b then _ else _) |- _ => destruct b
  | H : _ ∈ links_all (match ?o with _ => _ end) |- _ => destruct o
  | H : _ ∈ links (if ?b then _ else _) |- _ => destruct b
  | H : _ ∈ links (match ?o with _ => _ end) |- _ => destruct o
  | H : _ ∈ links (El _ _ _) |- _ => apply linked_El in H as [H|H]
  | H : _ ∈ links (Comp _ _) |- _ => cbn [links] in H
  | H : _ ∈ own_links [] |- _ => by apply not_elem_of_nil in H
  | H : _ ∈ own_links (_ ++ _) |- _ => apply own_links_app in H as [H|H]
  | H : _ ∈ own_links (when _ _) |- _ => apply own_links_when in H
  | H : _ ∈ own_links (_ :: _) |- _ => apply linked_own in H as [H|H]; cbv beta iota in H
  | H : False |- _ => destruct H
  | H : _ = "href"%js ∧ _ = _ |- _ =>
      let Hn := fresh in destruct H as [Hn ->];
      try (exfalso; revert Hn; clear; vm_compute; discriminate); clear Hn
  end.

(** ** Where the links lead *)

Section Leads.
Context {R : Router}.

(** Exactly one route fits, and it shows a page. *)
Definition direct (to : jsstr) : bool :=
  match omap (route_fit (location to)) routes with
  | [(Show _, _)] | [(Advanced _, _)] => true
  | _ => false
  end.

Lemma direct_leads to : direct to = true → leads to.
Proof.
  unfold direct, leads, open. destruct (omap _ routes) as [|x [|]] eqn:E; try done.
  - rewrite (choose_only _ _ _ E). by destruct x as [[]].
  - by destruct x as [[]].
Qed.

(** The links that are the same in every state. *)
Definition fixed_links : list jsstr :=
  map nv_to NAV ++ map fst ADVANCED_NAV ++ map fst ADVANCED
  ++ ["/settings"; "/work"; "/create"; "/company-docs"; "/chat?intent=create-agent"].

Lemma fixed_leads to : to ∈ fixed_links → leads to.
Proof.
  assert (forallb direct fixed_links = true) as H by (vm_compute; reflexivity).
  rewrite forallb_forall in H. intros Hto. apply direct_leads, H. by apply list_elem_of_In.
Qed.

(** The address of an agent. *)
Definition agent_link (id : jsstr) : jsstr := cat ["/agents/"; id].

Lemma id_no_unit c id : ID_PATTERN id = true → id_char c = false → no_unit c id.
Proof.
  intros [_ H]%ID_PATTERN_chars Hc Hin. rewrite Forall_forall in H. apply H in Hin. congruence.
Qed.

Lemma agent_link_opens id :
  ID_PATTERN id = true → open (agent_link id) = Some (Show AgentPageOf, [("id"%js, id)]).
Proof.
  intros H. unfold open.
  assert (location (agent_link id) = ["agents"%js; id]) as ->.
  { unfold location, segments, agent_link, cat. cbn [concat]. rewrite app_nil_r.
    rewrite (split_on_none 63).
    2:{ apply not_elem_of_app. split; [apply (bool_decide_unpack _); vm_compute; exact I|].
        by apply id_no_unit. }
    cbn [head default from_option Datatypes.id]. change ("/agents/"%js) with ([47] ++ "agents"%js ++ [47]).
    rewrite <- !app_assoc. cbn [app].
    assert (∀ x, split_on 47 (47 :: x) = [] :: split_on 47 x) as -> by done.
    rewrite split_on_app by (apply (bool_decide_unpack _); vm_compute; exact I).
    rewrite split_on_none by (by apply id_no_unit).
    destruct id; [done|]. reflexivity. }
  assert (omap (route_fit ["agents"%js; id]) routes = [(Show AgentPageOf, [("id"%js, id)])]) as E.
  { vm_compute. reflexivity. }
  by rewrite (choose_only _ _ _ E).
Qed.

Ltac fixed := unfold fixed_links; rewrite !elem_of_app, !elem_of_cons; tauto.

Lemma layout_links s l : l ∈ links_all (Layout s) → l ∈ fixed_links.
Proof.
  intros H. unfold Layout, nav_link in H. inv_links; unfold fixed_links; repeat rewrite elem_of_app.
  - left. by apply list_elem_of_fmap_2.
  - right; left. by apply list_elem_of_fmap_2.
Qed.

Lemma settings_links s l : l ∈ links_all (Settings s) → l ∈ fixed_links.
Proof.
  intros H. unfold Settings in H. inv_links. unfold fixed_links. rewrite !elem_of_app.
  right; right; left. by apply list_elem_of_fmap_2.
Qed.

Lemma chat_links s l : l ∈ links_all (Chat s) → l ∈ fixed_links.
Proof.
  intros H. unfold Chat, turn_view, chip_view, chat_input in H. inv_links; fixed.
Qed.

Lemma agent_page_links {loc : Locale} s l : l ∈ links_all (AgentPage s) → l ∈ fixed_links.
Proof.
  intros H. unfold AgentPage, page_header, tab_button, panel_view, activity_tab, cost_line, run_line,
    telegram_tab, chat_item in H. inv_links; fixed.
Qed.

Lemma picker_links x l : l ∉ links_all (AgentPicker x).
Proof. intros H. unfold AgentPicker in H. inv_links. Qed.

Lemma advanced_links x outlet l :
  l ∈ links_all (AdvancedAgentView x outlet) → l ∈ fixed_links ∨ l ∈ links_all outlet.
Proof.
  intros H. unfold AdvancedAgentView in H. inv_links; [left; fixed| |by right].
  by apply picker_links in H.
Qed.

Lemma team_links s l :
  l ∈ links_all (Team s) → l = "/company-docs"%js ∨ ∃ a, a ∈ te_agents s ∧ l = agent_link (as_id a).
Proof.
  intros H. unfold Team, error_p, alert_line, agents_table, column_head, agent_row, budget_bar,
    orphan_item, delete_dialog in H.
  inv_links; try (by left); right; eauto.
Qed.

Lemma team_navigates high (w : world (team_page high)) l : issues any w (NavigateTo l) → l ∈ fixed_links.
Proof.
  intros [(e & _ & Hin)|(r & a & _ & Hin)]%issues_inv.
  - destruct e; cbn in Hin; set_solver.
  - apply team_answers in Hin as [-> | ->]; fixed.
Qed.

Lemma review_links spec servers r l :
  l ∈ links_all (ReviewStep spec servers r) →
  ∃ res, rv_result r = Some res ∧ l = agent_link (cr_id res).
Proof.
  unfold ReviewStep, error_line. destruct (rv_result r) as [res|]; intros H; inv_links. by exists res.
Qed.

(** C38: No link is dead.  In every state of the layout, the settings, the chat, the page of an agent and
    the frame of the technical pages, every link leads to a page, at most one redirect away; so
    does every address the team page navigates to.  The links of the team page and of the last
    step of the wizard lead to the document library or to the page of the agent they name, with
    its id as the parameter, when the ids are ones the wizard allows. *)
Theorem links_lead_to_pages {loc : Locale} :
  (∀ s l, l ∈ links_all (Layout s) → leads l) ∧
  (∀ s l, l ∈ links_all (Settings s) → leads l) ∧
  (∀ s l, l ∈ links_all (Chat s) → leads l) ∧
  (∀ s l, l ∈ links_all (AgentPage s) → leads l) ∧
  (∀ x outlet l, l ∈ links_all (AdvancedAgentView x outlet) → leads l ∨ l ∈ links_all outlet) ∧
  (∀ high (w : world (team_page high)) l, issues any w (NavigateTo l) → leads l) ∧
  (∀ s l, Forall (λ a, ID_PATTERN (as_id a) = true) (te_agents s) → l ∈ links_all (Team s) →
     open l = Some (Show CompanyDocsPage, []) ∨
     ∃ a, a ∈ te_agents s ∧ open l = Some (Show AgentPageOf, [("id"%js, as_id a)])) ∧
  (∀ spec servers r res l, rv_result r = Some res → ID_PATTERN (cr_id res) = true →
     l ∈ links_all (ReviewStep spec servers r) →
     open l = Some (Show AgentPageOf, [("id"%js, cr_id res)])).
Proof.
  split; [intros s l H; by eapply fixed_leads, layout_links|].
  split; [intros s l H; by eapply fixed_leads, settings_links|].
  split; [intros s l H; by eapply fixed_leads, chat_links|].
  split; [intros s l H; by eapply fixed_leads, agent_page_links|].
  split; [intros x outlet l [H|H]%advanced_links; [left; by apply fixed_leads|by right]|].
  split; [intros high w l H; by eapply fixed_leads, team_navigates|]. split.
  - intros s l Hs [->|(a & Ha & ->)]%team_links.
    + left. unfold open.
      assert (omap (route_fit (location "/company-docs")) routes = [(Show CompanyDocsPage, [])]) as E
        by (vm_compute; reflexivity).
      by rewrite (choose_only _ _ _ E).
    + right. exists a. split; [done|]. apply agent_link_opens.
      rewrite Forall_forall in Hs. by apply Hs.
  - intros spec servers r res l Hr Hid (res' & Hr' & ->)%review_links.
    rewrite Hr in Hr'. injection Hr' as <-. by apply agent_link_opens.
Qed.
End Leads.

(** The first route that fits is such a choice: the chip of the chat leads to the work page. *)
Lemma links_lead_to_pages_witness :
  leads (R := first_router) "/work" ∧
  open (R := first_router) "/approvals" = Some (Show WorkPage, []).
Proof.
  split; [|vm_compute; reflexivity].
  refine (proj1 (proj2 (proj2 (links_lead_to_pages (R := first_router) (loc := plain_locale))))
    {| ch_available := Some true; ch_reason := []; ch_turns := []; ch_draft := [];
       ch_busy := false; ch_error := None; ch_pending := 2 |} "/work" _).
  vm_compute. left.
Defined.
