(* ===== verification/Charts.v ===== *)
(** The charts (components/charts): the data and colors they hand to the charting library, and
    when they read the colors of the theme.  The computed style of the document is a parameter:
    [css theme name] is the custom property [name] of a root element with that [data-theme]. *)

From S2P Require Import Prelude JsNumber React Types Prefs Technical.

Section Charts.
Context (css : jsstr → jsstr → jsstr).

(** ** Colors *)

Section Tokens.
Context (theme : jsstr).                           (* [data-theme] of the root element *)

Definition token (name fallback : jsstr) : jsstr := js_or (trim (css theme name)) fallback.

Definition verdictColors : gmap jsstr jsstr := list_to_map [
  ("allow", token "--color-ok" "#1e7e34");
  ("deny", token "--color-danger" "#b00020");
  ("pending", token "--color-pending" "#8a6d00");
  ("reject", token "--color-danger-strong" "#d93025");
  ("dry_run", token "--color-muted" "#6b6b6b");
  ("skipped", token "--color-subtle" "#707070")].

Definition accentColor : jsstr := token "--color-accent" "#2f6feb".
Definition dangerColor : jsstr := token "--color-danger-strong" "#d93025".
Definition neutralColor : jsstr := token "--color-subtle" "#707070".

Record chrome := { cc_tick : jsstr; cc_grid : jsstr; cc_legend : jsstr }.
Definition chartChrome : chrome :=
  {| cc_tick := token "--color-muted" "#6b6b6b";
     cc_grid := token "--color-border-soft" "#eeeeee";
     cc_legend := token "--color-text" "#1a1a1a" |}.

(** ** What the library draws *)

Record doughnut := {
  dn_labels : list jsstr;
  dn_data : list Z;
  dn_colors : list jsstr;
  dn_legend : jsstr
}.

Definition VerdictChart (counts : list (jsstr * Z)) : doughnut :=
  let labels := map fst counts in
  {| dn_labels := labels;
     dn_data := map (λ k, default 0 ((list_to_map counts : gmap jsstr Z) !! k)) labels;
     dn_colors := map (λ k, nullish (verdictColors !! k) neutralColor) labels;
     dn_legend := cc_legend chartChrome |}.

(** A series: its points, the color of its line, the filling of its points if they have any. *)
Record series := {
  sr_label : jsstr;
  sr_data : list num;
  sr_border : jsstr;
  sr_background : option jsstr;
  sr_dash : list Z;
  sr_points : bool
}.
Record line_chart := { ln_labels : list jsstr; ln_series : list series; ln_chrome : chrome }.

Definition CostChart (l : list CostMonth) (cap : num) : line_chart :=
  let labels := map cm_month l in
  {| ln_labels := labels;
     ln_series :=
       [{| sr_label := "Chi phí (USD)"; sr_data := map cm_total_usd l; sr_border := accentColor;
           sr_background := Some accentColor; sr_dash := []; sr_points := true |};
        {| sr_label := "Ngân sách trần"; sr_data := map (λ _, cap) labels;
           sr_border := dangerColor; sr_background := None; sr_dash := [6; 4];
           sr_points := false |}];
     ln_chrome := chartChrome |}.
End Tokens.

(** The doughnut is the counts: a slice per verdict in the order of the answer, all of them
    together the total of the page, and no slice without a color. *)
Lemma verdict_slices theme p :
  NoDup (map fst (au_counts p)) →
  let c := VerdictChart theme (au_counts p) in
  zip (dn_labels c) (dn_data c) = au_counts p ∧
  foldl Z.add 0 (dn_data c) = verdict_total p ∧
  length (dn_colors c) = length (dn_labels c).
Proof.
  intros Hn c. set (l := au_counts p) in *.
  assert (dn_data c = map snd l) as Hd.
  { cbn. rewrite map_map. apply map_ext_in. intros [k v] Hin%list_elem_of_In. cbn.
    by rewrite (elem_of_list_to_map_1 (M := gmap jsstr) l k v Hn Hin). }
  split; [|split].
  - rewrite Hd. cbn. clear. induction l as [|[k v] l IH]; cbn; [done|]. by rewrite IH.
  - by rewrite Hd.
  - cbn. by rewrite !length_map.
Qed.

(** Every point of the cost has its month, and the cap is drawn across all of them. *)
Lemma cost_points theme l cap :
  let c := CostChart theme l cap in
  Forall (λ s, length (sr_data s) = length (ln_labels c)) (ln_series c).
Proof. cbn. repeat constructor; cbn; by rewrite !length_map. Qed.

(** ** A page with a chart, under the theme's provider *)

(** [paint] is the chart as its function returns it; it is called with the document of that
    moment, which the provider's effect has not touched yet when the theme is the news. *)
Section Page.
Context {A : Type} (paint : jsstr → A).

Record charted := { ct_prefs : prefs; ct_chart : A }.

Definition theme_now (d : document) : jsstr := default [] (do_theme d).

(** The context has a new value for the page: [value] is memoized on these. *)
Definition rerenders (p p' : prefs) : bool :=
  negb (bool_decide (pr_pref p' = pr_pref p ∧ resolved p' = resolved p)).

Definition charted_handle (e : prefs_event) (s : charted) : charted :=
  let p := ct_prefs s in
  let p' := prefs_handle e p in
  {| ct_prefs := p';
     ct_chart := if rerenders p p' then paint (theme_now (pr_document p)) else ct_chart s |}.

(** The page mounts on the preferences as stored; its chart is drawn when the data have come. *)
Definition charted_page (st : storage) (mq : option bool) (d : document) : component :=
  {| c_state := charted; c_event := prefs_event; c_req := Empty_set; c_resp := λ _, unit;
     c_init := (let p := prefs_mount st mq d in
                {| ct_prefs := p; ct_chart := paint (theme_now (pr_document p)) |}, []);
     c_view := λ s, ThemeToggle (ct_prefs s);
     c_env := λ s, c_env (preferences st mq d) (ct_prefs s);
     c_handle := λ e s, (charted_handle e s, []); c_resume := λ r _ s, (s, []) |}.

#[export] Instance charted_inv st mq d :
  Invariant (C := charted_page st mq d) any (λ s _, painted (ct_prefs s)).
Proof.
  destruct (prefs_inv_holds st mq d) as [H0 H1 _]. split.
  - exact H0.
  - intros e s q Hs Ha. exact (H1 e (ct_prefs s) [] Hs Ha).
  - intros [].
Qed.

(** A chart keeps the colors of the theme that was left.  In every reachable state of a page with a
    chart, a choice or a change of the system that turns the theme turns the document, but the
    chart that is drawn for the new theme, with a new key, is drawn before that: with the
    tokens of the former theme. *)
Theorem chart_keeps_former_theme st mq d (w : world (charted_page st mq d)) (e : prefs_event) :
  reachable any w → allowed (C := charted_page st mq d) (w_state w) e →
  let s := w_state w in let s' := charted_handle e s in
  resolved (ct_prefs s') ≠ resolved (ct_prefs s) →
  do_theme (pr_document (ct_prefs s')) = Some (resolved_text (resolved (ct_prefs s'))) ∧
  ct_chart s' = paint (resolved_text (resolved (ct_prefs s))).
Proof.
  intros Hw Ha s s' Hne.
  pose proof (invariant_holds (C := charted_page st mq d) any _ w Hw) as Hi.
  assert (painted (ct_prefs s')) as [Hp' _].
  { destruct (charted_inv st mq d) as [_ H _]. apply (H e s [] Hi Ha). }
  split; [exact Hp'|]. destruct Hi as [Hp _]. subst s'. cbn [charted_handle ct_chart].
  unfold rerenders. rewrite bool_decide_eq_false_2; [|intros [_ E]; by apply Hne].
  cbn [negb]. f_equal. unfold theme_now. fold s in Hp. by rewrite Hp.
Qed.
End Page.
End Charts.

(** The two values of an accent token in App.css. *)
Definition accent_css (theme name : jsstr) : jsstr :=
  if bool_decide (name = "--color-accent"%js)
  then if bool_decide (theme = "dark"%js) then "#7aa2f7" else "#2f6feb"
  else [].

Lemma chart_keeps_former_theme_witness :
  let C := charted_page (accentColor accent_css) (Some ∅) None page_start in
  let s' := charted_handle (accentColor accent_css) (SetPref Dark) (w_state (init_world C)) in
  do_theme (pr_document (ct_prefs s')) = Some "dark"%js ∧ ct_chart s' = "#2f6feb"%js.
Proof.
  intros C s'.
  apply (chart_keeps_former_theme (accentColor accent_css) (Some ∅) None page_start
           (init_world C) (SetPref Dark)).
  - constructor.
  - left. eapply (offers_nth _ 1); [reflexivity|reflexivity].
  - vm_compute. discriminate.
Defined.
