(* ===== verification/Scene.v ===== *)
(** The motion of the three-dimensional office: the ring of desks (office-3d/desk-layout.ts) and
    the desk with its avatar (office-3d/agent-desk.tsx), frame by frame.  The code is written
    over the operations of [Arith]: doubles, with the trigonometric functions of the host, are
    what the client runs; the reals are exact arithmetic, about which the comments speak. *)

From Stdlib Require Import Reals Lra Psatz.
From Stdlib Require Import Floats.SpecFloat.
From S2P Require Import Prelude JsNumber React OfficeState OfficeFeed OfficeUnified.

(** ** Numbers *)

(** [lit z d] is the literal [z / d]. *)
Class Arith := {
  carrier : Type;
  lit : Z → positive → carrier;
  add : carrier → carrier → carrier;
  sub : carrier → carrier → carrier;
  mul : carrier → carrier → carrier;
  div : carrier → carrier → carrier;
  amin : carrier → carrier → carrier;
  msin : carrier → carrier;                        (* Math.sin *)
  mcos : carrier → carrier;                        (* Math.cos *)
  atan2 : carrier → carrier → carrier;
  mpi : carrier                                    (* Math.PI *)
}.

Section Host.
Context (h_sin h_cos : num → num) (h_atan2 : num → num → num) (h_pi : num).
Definition doubles : Arith :=
  {| carrier := num; lit := num_ratio; add := num_add; sub x y := num_add x (num_neg y);
     mul := num_mul; div := num_div; amin := num_min; msin := h_sin; mcos := h_cos;
     atan2 := h_atan2; mpi := h_pi |}.
End Host.

Definition exact (r_atan2 : R → R → R) : Arith :=
  {| carrier := R; lit z d := (IZR z / IZR (Zpos d))%R; add := Rplus; sub := Rminus;
     mul := Rmult; div := Rdiv; amin := Rmin; msin := Rtrigo_def.sin; mcos := Rtrigo_def.cos;
     atan2 := r_atan2; mpi := PI |}.

(** ** The program *)

Section Program.
Context {A : Arith}.

Record vec := Vec { vx : carrier; vy : carrier; vz : carrier }.
Definition vadd (a b : vec) : vec := Vec (add (vx a) (vx b)) (add (vy a) (vy b)) (add (vz a) (vz b)).

Definition int (z : Z) : carrier := lit z 1.
Definition RING_RADIUS : carrier := int 4.
Definition CONSULT_APPROACH : carrier := lit 4 10.

Definition deskPosition (index total : Z) : vec :=
  if total <=? 0 then Vec (int 0) (int 0) RING_RADIUS
  else
    let angle := mul (mul (div (int index) (int total)) mpi) (int 2) in
    Vec (mul (msin angle) RING_RADIUS) (int 0) (mul (mcos angle) RING_RADIUS).

Definition toward (own other : carrier) : carrier := add own (mul (sub other own) CONSULT_APPROACH).
Definition consultMeetPoint (own other : vec) : vec :=
  Vec (toward (vx own) (vx other)) (toward (vy own) (vy other)) (toward (vz own) (vz other)).

Definition AVATAR_REST_OFFSET : vec := Vec (int 0) (int 0) (lit 14 10).
Definition AVATAR_DESK_OFFSET : vec := Vec (int 0) (int 0) (lit 55 100).
Definition TWEEN_SPEED : carrier := lit 25 10.
Definition BOB_AMPLITUDE : carrier := lit 15 1000.
Definition BOB_SPEED : carrier := lit 16 10.

Definition deskOffset (s : AgentState) : vec :=
  match s with Idle => AVATAR_REST_OFFSET | _ => AVATAR_DESK_OFFSET end.

(** Where the avatar walks, and where it looks. *)
Definition target_of (position : vec) (s : AgentState) (consultPos : option vec) : vec :=
  match consultPos with
  | Some c => consultMeetPoint position c
  | None => vadd position (deskOffset s)
  end.
Definition face_of (consultPos : option vec) : carrier * carrier :=
  match consultPos with Some c => (vx c, vz c) | None => (int 0, int 0) end.

(** The refs of the desk: the outer group, and the offset of the inner one. *)
Record avatar := { av_pos : vec; av_turn : carrier; av_bob : carrier }.

Definition mounted (position : vec) : avatar :=
  {| av_pos := vadd position AVATAR_REST_OFFSET; av_turn := int 0; av_bob := int 0 |}.

Definition bobPhase (label : jsstr) : Z := agentHash label mod 7.

Definition tween (t from target : carrier) : carrier := add from (mul (sub target from) t).

(** The callback of [useFrame], [delta] seconds after the last one. *)
Definition frame (label : jsstr) (target : vec) (face : carrier * carrier)
    (elapsed delta : carrier) (a : avatar) : avatar :=
  let t := amin (int 1) (mul delta TWEEN_SPEED) in
  let p := av_pos a in
  let p' := Vec (tween t (vx p) (vx target)) (tween t (vy p) (vy target)) (tween t (vz p) (vz target)) in
  let angle := atan2 (sub (fst face) (vx p')) (sub (snd face) (vz p')) in
  let rawTurn := sub angle (av_turn a) in
  let shortTurn := atan2 (msin rawTurn) (mcos rawTurn) in
  {| av_pos := p';
     av_turn := add (av_turn a) (mul shortTurn t);
     av_bob := mul BOB_AMPLITUDE (msin (add (mul elapsed BOB_SPEED) (int (bobPhase label)))) |}.

(** Frames with their times, under the same props. *)
Definition walk (label : jsstr) (target : vec) (face : carrier * carrier)
    (frames : list (carrier * carrier)) (a : avatar) : avatar :=
  foldl (λ a f, frame label target face (fst f) (snd f) a) a frames.

(** The place of a desk of the canvas, and of the colleague it consults. *)
Definition place (total : nat) (c : canvas_desk) : vec * option vec :=
  (deskPosition (Z.of_nat (cd_index c)) (Z.of_nat total),
   option_map (λ i, deskPosition (Z.of_nat i) (Z.of_nat total)) (cd_consult c)).
End Program.
Arguments vec A : clear implicits.
Arguments avatar A : clear implicits.

(** What the desk shows besides its figures: the outline, and the label with the bubble. *)
Definition accessory (id : jsstr) : Z := agentHash id mod 3.
Definition desk_outline (d : AgentDeskState) : jsstr * bool :=
  (DESK_EDGE_COLOR (d_state d), bool_decide (d_state d = Done)).
Definition desk_label {E} (label : jsstr) (d : AgentDeskState) : node E :=
  El "div" [AStr "className" "office-3d-label"; AStr "style" (default [] (agentColor label))]
    [Txt (if decide (d_picTasks d = ∅) then "" else "⭐ "); Txt label].
Definition desk_html {E} (label : jsstr) (d : AgentDeskState) : list (node E) :=
  desk_label label d
  :: when (shouldShowBubble d)
       (SpeechBubble (d_taskTitle d) (d_stepTitle d) (d_phase d) (d_consultWith d)
          (negb (bool_decide (d_picTasks d = ∅)))).

(** ** In doubles *)

(** Meeting oneself is staying: the meeting point of a finite position with itself is that
    position, and no coordinate is NaN. *)
Lemma toward_self h_sin h_cos h_atan2 h_pi (x : num) :
  match x with S754_zero _ | S754_finite _ _ _ => True | _ => False end →
  num_eqb (toward (A := doubles h_sin h_cos h_atan2 h_pi) x x) x = true.
Proof.
  destruct x as [s|s| |s m e]; try done; intros _; [by destruct s|].
  unfold toward. cbn [add sub mul doubles].
  assert (num_add (S754_finite s m e) (num_neg (S754_finite s m e)) = S754_zero false) as ->.
  { unfold num_add, num_neg. cbn [SFopp SFadd]. rewrite Z.min_id.
    replace (_ + _) with 0; [reflexivity|]. destruct s; cbn; lia. }
  assert (num_mul (S754_zero false) (CONSULT_APPROACH (A := doubles h_sin h_cos h_atan2 h_pi))
          = S754_zero false) as -> by (vm_compute; reflexivity).
  unfold num_add. cbn [SFadd]. unfold num_eqb. cbn [SFcompare].
  rewrite Z.compare_refl, Pos.compare_cont_refl. by destruct s.
Qed.

Example meet_example :
  let D := doubles (λ x, x) (λ x, x) (λ x _, x) (num_Z 3) in
  let at_x x := Vec (A := D) (num_Z x) (num_Z 0) (num_Z 0) in
  let p := consultMeetPoint (A := D) (at_x 0) (at_x 10) in
  [vx (A := D) p; vy (A := D) p; vz (A := D) p] = [num_Z 4; num_Z 0; num_Z 0].
Proof. vm_compute. reflexivity. Qed.

(** ** In exact arithmetic *)

Section Exact.
Context (r_atan2 : R → R → R).
Notation EX := (exact r_atan2).
Open Scope R_scope.

(** The part of the way that is left after frames of the given lengths. *)
Fixpoint remaining (ds : list R) : R :=
  match ds with
  | [] => 1
  | d :: r => (1 - Rmin 1 (d * (5 / 2))) * remaining r
  end.

Lemma remaining_range ds : Forall (λ d, 0 <= d) ds → 0 <= remaining ds <= 1.
Proof.
  induction 1 as [|d ds Hd _ IH]; cbn; [lra|].
  assert (0 <= 1 - Rmin 1 (d * (5 / 2)) <= 1) by (unfold Rmin; destruct (Rle_dec _ _); lra). nra.
Qed.

(** One frame of two fifths of a second arrives. *)
Lemma remaining_arrived ds : Exists (λ d, 2 / 5 <= d) ds → remaining ds = 0.
Proof.
  induction 1 as [d ds Hd|d ds _ IH]; cbn; [|rewrite IH; ring].
  unfold Rmin. destruct (Rle_dec _ _); [ring|lra].
Qed.

Definition rx (v : vec EX) : R := vx (A := EX) v.
Definition ry (v : vec EX) : R := vy (A := EX) v.
Definition rz (v : vec EX) : R := vz (A := EX) v.

Definition on_way (k : R) (from target now : vec EX) : Prop :=
  rx now = rx target + k * (rx from - rx target) ∧
  ry now = ry target + k * (ry from - ry target) ∧
  rz now = rz target + k * (rz from - rz target).

Lemma walk_on_way label target face (frames : list (R * R)) (a : avatar EX) :
  on_way (remaining (map snd frames)) (av_pos (A := EX) a) target
    (av_pos (A := EX) (walk (A := EX) label target face frames a)).
Proof.
  revert a. induction frames as [|[el d] fs IH]; intros a; cbn [map remaining snd].
  - unfold on_way. cbn [walk foldl]. split; [|split]; ring.
  - specialize (IH (frame (A := EX) label target face el d a)).
    change (walk (A := EX) label target face ((el, d) :: fs) a)
      with (walk (A := EX) label target face fs (frame (A := EX) label target face el d a)).
    unfold on_way in *. destruct IH as (Hx & Hy & Hz).
    rewrite Hx, Hy, Hz. unfold rx, ry, rz. cbn. unfold tween. cbn.
    replace (25 / 10) with (5 / 2) by field. replace (1 / 1) with 1 by field.
    split; [|split]; ring.
Qed.

(** The ring: the angle of a desk is twice [i / n] of a half turn. *)
Lemma desk_at i n : (0 < n)%Z →
  let x := IZR i / IZR n * PI in
  rx (deskPosition (A := EX) i n) = sin (2 * x) * 4 ∧
  ry (deskPosition (A := EX) i n) = 0 ∧
  rz (deskPosition (A := EX) i n) = cos (2 * x) * 4.
Proof.
  intros Hn x. unfold deskPosition. rewrite (proj2 (Z.leb_gt n 0) Hn).
  unfold rx, ry, rz. cbn. assert (IZR n <> 0) by (apply not_0_IZR; lia).
  replace (IZR i / 1 / (IZR n / 1) * PI * (2 / 1)) with (2 * x) by (unfold x; field; done).
  split; [|split]; field.
Qed.

Lemma desk_on_ring i n : (0 < n)%Z →
  let p := deskPosition (A := EX) i n in rx p * rx p + rz p * rz p = 16.
Proof.
  intros Hn p. destruct (desk_at i n Hn) as (Hx & _ & Hz). subst p. rewrite Hx, Hz.
  pose proof (sin2_cos2 (2 * (IZR i / IZR n * PI))) as H. unfold Rsqr in H. nra.
Qed.

Lemma ring_gap_pos i j n : (0 <= i)%Z → (i < j)%Z → (j < n)%Z →
  0 < sin (IZR j / IZR n * PI - IZR i / IZR n * PI).
Proof.
  intros Hi Hij Hj. assert (0 < IZR n) as Hn by (apply IZR_lt; lia).
  pose proof PI_RGT_0 as Hpi.
  replace (IZR j / IZR n * PI - IZR i / IZR n * PI) with ((IZR j - IZR i) / IZR n * PI) by (field; lra).
  assert (0 < (IZR j - IZR i) / IZR n < 1) as [H0 H1].
  { rewrite <- minus_IZR. split.
    - apply Rdiv_lt_0_compat; [apply IZR_lt; lia|done].
    - apply Rmult_lt_reg_r with (IZR n); [done|]. unfold Rdiv. rewrite Rmult_assoc, Rinv_l by lra.
      rewrite Rmult_1_r, Rmult_1_l. apply IZR_lt. lia. }
  apply sin_gt_0; nra.
Qed.

Lemma ring_distinct i j n : (0 <= i < n)%Z → (0 <= j < n)%Z → i ≠ j →
  let p := deskPosition (A := EX) i n in let q := deskPosition (A := EX) j n in
  rx p <> rx q ∨ rz p <> rz q.
Proof.
  assert (∀ i j, (0 <= i)%Z → (i < j)%Z → (j < n)%Z →
    rx (deskPosition (A := EX) i n) = rx (deskPosition (A := EX) j n) →
    rz (deskPosition (A := EX) i n) = rz (deskPosition (A := EX) j n) → False) as H.
  { clear. intros i j Hi Hij Hj Ex Ez.
    destruct (desk_at i n ltac:(lia)) as (Xi & _ & Zi). destruct (desk_at j n ltac:(lia)) as (Xj & _ & Zj).
    rewrite Xi, Xj in Ex. rewrite Zi, Zj in Ez. pose proof (ring_gap_pos i j n Hi Hij Hj) as Hs.
    set (x := IZR i / IZR n * PI) in *. set (y := IZR j / IZR n * PI) in *.
    pose proof (cos_minus (2 * y) (2 * x)) as Hc.
    replace (2 * y - 2 * x) with (2 * (y - x)) in Hc by ring. rewrite cos_2a_sin in Hc.
    pose proof (sin2_cos2 (2 * x)) as H1. unfold Rsqr in H1.
    assert (sin (2 * x) = sin (2 * y)) as E1 by lra. assert (cos (2 * x) = cos (2 * y)) as E2 by lra.
    rewrite <- E1, <- E2 in Hc. nra. }
  intros [] [] Hne p q. destruct (Req_dec (rx p) (rx q)) as [Ex|]; [|by left].
  destruct (Req_dec (rz p) (rz q)) as [Ez|]; [|by right]. exfalso.
  subst p q. destruct (Z.lt_total i j) as [Hl|[E|Hl]]; [by apply (H i j)|done|by apply (H j i)].
Qed.

(** C39: Two staff who consult each other meet, and stop short of each other.  In exact arithmetic, for
    any two different places of a ring of any size: both desks stand on the circle of radius four
    and apart; the two points the avatars walk to are a fifth of the desks' distance apart, in the
    same direction; and after frames of any lengths an avatar is on the straight line from where
    it started to that point, never past it, and at it as soon as one frame, or a frame after a
    pause, took two fifths of a second. *)
Theorem consult_pair_meets i j n label face (frames : list (R * R)) (a : avatar EX) s :
  (0 <= i < n)%Z → (0 <= j < n)%Z → i ≠ j → Forall (λ d, 0 <= d) (map snd frames) →
  let p := deskPosition (A := EX) i n in let q := deskPosition (A := EX) j n in
  let m := target_of (A := EX) p s (Some q) in let m' := target_of (A := EX) q s (Some p) in
  (rx p * rx p + rz p * rz p = 16 ∧ rx q * rx q + rz q * rz q = 16 ∧ (rx p <> rx q ∨ rz p <> rz q)) ∧
  (rx m - rx m' = (rx p - rx q) / 5 ∧ ry m = ry m' ∧ rz m - rz m' = (rz p - rz q) / 5) ∧
  ∃ k, 0 <= k <= 1 ∧ (Exists (λ d, 2 / 5 <= d) (map snd frames) → k = 0) ∧
    on_way k (av_pos (A := EX) a) m (av_pos (A := EX) (walk (A := EX) label m face frames a)).
Proof.
  intros Hi Hj Hne Hf p q m m'. split; [|split].
  - split; [apply desk_on_ring; lia|]. split; [apply desk_on_ring; lia|]. by apply ring_distinct.
  - destruct (desk_at i n ltac:(lia)) as (_ & Yi & _). destruct (desk_at j n ltac:(lia)) as (_ & Yj & _).
    fold p in Yi. fold q in Yj. subst m m'. cbn [target_of]. unfold rx, ry, rz in *. cbn. unfold toward.
    cbn. split; [field|split; [|field]]. rewrite Yi, Yj. done.
  - exists (remaining (map snd frames)). split; [by apply remaining_range|].
    split; [apply remaining_arrived|]. apply walk_on_way.
Qed.
End Exact.

Lemma consult_pair_meets_witness :
  let EX := exact (λ x _, x) in
  let p := deskPosition (A := EX) 0 2 in let q := deskPosition (A := EX) 1 2 in
  let m := target_of (A := EX) p Working (Some q) in let m' := target_of (A := EX) q Working (Some p) in
  (rx _ m - rx _ m' = (rx _ p - rx _ q) / 5)%R.
Proof.
  intros EX p q m m'.
  refine (proj1 (proj1 (proj2 (consult_pair_meets (λ x _, x) 0 1 2 "a" (0%R, 0%R) [] (mounted (A := EX) p)
    Working _ _ _ _)))).
  - lia.
  - lia.
  - lia.
  - constructor.
Defined.
