(* ===== verification/Furniture.v ===== *)
(** The scene of the office as objects in space: the furniture (office-3d/office-props.tsx), the
    floor (office-3d/office-floor.tsx), the coordinator's desk (office-3d/coordinator-desk.tsx), a
    desk with its figure (office-3d/agent-desk.tsx) and the canvas that holds them
    (office-3d/office-canvas.tsx).  Like the motion of Scene, they are written over the
    operations of [Arith]; where things stand is proved in exact arithmetic. *)

From Stdlib Require Import Reals Lra Psatz.
From S2P Require Import Prelude JsNumber React OfficeState OfficeFeed OfficeUnified Scene.

Section Objects.
Context {A : Arith}.

(** ** Objects *)

Inductive geometry :=
| BoxGeometry (width height depth : carrier)
| CylinderGeometry (top bottom height : carrier) (segments : Z)
| SphereGeometry (radius : carrier) (widthSegments heightSegments : Z)
| ConeGeometry (radius height : carrier) (segments : Z) (openEnded : bool).

(** A mesh has a translucent material and, if any, outlined edges: their color and width.  A
    group is turned about the vertical and scaled.  [HtmlAt] is drei's [Html]. *)
Inductive obj :=
| Mesh (position : vec A) (g : geometry) (color : jsstr) (opacity : carrier)
    (edges : option (jsstr * carrier))
| Group (position : vec A) (rotationY scale : carrier) (kids : list obj)
| HtmlAt (position : vec A) (distanceFactor : Z) (view : list (node Empty_set))
| GridHelper (size divisions : Z) (major minor : jsstr)
| Background (color : jsstr)
| AmbientLight (intensity : carrier)
| DirectionalLight (position : vec A) (intensity : carrier)
| OrbitControls (minDistance maxDistance : Z) (autoRotateSpeed : carrier).

(** [c z] is [z] hundredths. *)
Definition c (z : Z) : carrier := lit z 100.
Definition pos (x y z : Z) : vec A := Vec (c x) (c y) (c z).
Definition origin : vec A := pos 0 0 0.
Definition mesh (p : vec A) (g : geometry) (color : jsstr) (opacity : Z) (line : Z) : obj :=
  Mesh p g color (c opacity) (Some (color, c line)).

(** ** The furniture *)

Definition PLANT_POT_COLOR : jsstr := "#b07050".
Definition PLANT_LEAF_COLOR : jsstr := "#4c9a5f".
Definition BOARD_FRAME_COLOR : jsstr := "#8a8a8a".
Definition SOFA_COLOR : jsstr := "#5b7fb4".
Definition LAMP_COLOR : jsstr := "#c9a34e".

Definition PottedPlant (position : vec A) : obj :=
  Group position (int 0) (int 1) [
    mesh (pos 0 20 0) (CylinderGeometry (c 22) (c 16) (c 40) 8) PLANT_POT_COLOR 20 120;
    mesh (pos 0 62 0) (SphereGeometry (c 30) 8 6) PLANT_LEAF_COLOR 16 120;
    mesh (pos 0 95 0) (ConeGeometry (c 20) (c 35) 7 false) PLANT_LEAF_COLOR 16 120].

Definition board_leg (x : Z) : obj :=
  mesh (pos x 55 0) (BoxGeometry (c 6) (c 110) (c 6)) BOARD_FRAME_COLOR 30 120.
Definition board_stroke (i : Z) (y : Z) : obj :=
  Mesh (Vec (add (c (-25)) (mul (int i) (c 10))) (add (c 115) (c y)) (lit 35 1000))
    (BoxGeometry (sub (c 110) (mul (int i) (c 30))) (c 3) (c 1)) BOARD_FRAME_COLOR (c 80) None.
Definition Whiteboard (position : vec A) : obj :=
  Group position (int 0) (int 1) (
    map board_leg [-80; 80]
    ++ [Mesh (pos 0 115 0) (BoxGeometry (int 2) (c 110) (c 5)) "#ffffff" (c 75)
          (Some (BOARD_FRAME_COLOR, c 160))]
    ++ zip_with board_stroke [0; 1; 2] [35; 15; -5]).

Definition sofa_arm (x : Z) : obj :=
  mesh (pos x 45 0) (BoxGeometry (c 12) (c 35) (c 70)) SOFA_COLOR 16 120.
Definition Sofa (position : vec A) (rotationY : carrier) : obj :=
  Group position rotationY (int 1) (
    [mesh (pos 0 22 0) (BoxGeometry (c 180) (c 35) (c 70)) SOFA_COLOR 16 140;
     mesh (pos 0 62 (-28)) (BoxGeometry (c 180) (c 50) (c 14)) SOFA_COLOR 16 140]
    ++ map sofa_arm [-85; 85]).

Definition FloorLamp (position : vec A) : obj :=
  Group position (int 0) (int 1) [
    mesh (pos 0 70 0) (CylinderGeometry (c 3) (c 3) (c 140) 6) LAMP_COLOR 40 120;
    mesh (pos 0 150 0) (ConeGeometry (c 28) (c 30) 8 true) LAMP_COLOR 25 140;
    mesh (pos 0 2 0) (CylinderGeometry (c 25) (c 25) (c 5) 8) LAMP_COLOR 30 120].

Definition OfficeProps : obj :=
  Group origin (int 0) (int 1) [
    PottedPlant (pos (-700) 0 (-500));
    PottedPlant (pos 700 0 460);
    Whiteboard (pos (-450) 0 (-560));
    Sofa (pos 660 0 (-360)) (div (sub (int 0) mpi) (int 2));
    FloorLamp (pos 720 0 (-520))].

(** ** The floor and the coordinator's desk *)

Definition FLOOR_SIZE : geometry := BoxGeometry (int 16) (c 5) (int 12).

Definition OfficeFloor (dark : bool) : obj :=
  let wall : jsstr := if dark then "#4a4a4a" else "#bdbdbd" in
  let gridMajor : jsstr := if dark then "#3a3a3a" else "#d6d6d6" in
  let gridMinor : jsstr := if dark then "#2a2a2a" else "#e7e7e7" in
  Group origin (int 0) (int 1) [
    Mesh (pos 0 (-5) 0) FLOOR_SIZE (if dark then "#141414" else "#ffffff") (int 0)
      (Some (wall, int 1));
    GridHelper 16 16 gridMajor gridMinor].

Definition COORDINATOR_EDGE_COLOR : jsstr := "#2b2b2b".

Definition CoordinatorDesk : obj :=
  Group (pos 0 30 0) (int 0) (int 1) [
    Mesh origin (BoxGeometry (c 140) (c 60) (c 80)) "#ffffff" (c 55)
      (Some (COORDINATOR_EDGE_COLOR, int 2));
    mesh (pos 0 50 (-15)) (BoxGeometry (c 55) (c 35) (c 5)) COORDINATOR_EDGE_COLOR 12 150;
    HtmlAt (pos 0 100 0) 10
      [El "div" [AStr "className" "office-3d-label office-3d-label-coordinator"]
         [Txt "trưởng phòng"]]].

(** ** A desk and its figure *)

Definition DESK_SIZE : geometry := BoxGeometry (int 1) (c 50) (c 60).

Definition AgentAvatar (id : jsstr) : obj :=
  let color := nullish (agentColor id) "" in
  let acc := accessory id in
  Group origin (int 0) (int 1) (
    map (λ x, mesh (pos x 11 0) (BoxGeometry (c 9) (c 22) (c 11)) color 14 140) [-8; 8]
    ++ [mesh (pos 0 42 0) (BoxGeometry (c 30) (c 40) (c 20)) color 14 180]
    ++ map (λ x, mesh (pos x 42 0) (BoxGeometry (c 8) (c 34) (c 10)) color 14 140) [-20; 20]
    ++ [mesh (pos 0 76 0) (SphereGeometry (c 13) 10 8) color 14 120]
    ++ when (acc =? 0) [mesh (pos 0 92 0) (ConeGeometry (c 19) (c 14) 8 false) color 20 140]
    ++ when (acc =? 1) [mesh (pos 0 78 12) (BoxGeometry (c 26) (c 6) (c 4)) color 40 140]
    ++ when (acc =? 2) [mesh (pos 0 48 11) (BoxGeometry (c 7) (c 20) (c 2)) color 50 120]).

Definition above (p : vec A) (y : Z) : vec A := Vec (vx p) (add (vy p) (c y)) (vz p).

(** The group of the desk, with its avatar where the refs have it. *)
Definition AgentDesk (position : vec A) (label : jsstr) (d : AgentDeskState) (dimmed : bool)
    (a : avatar A) : obj :=
  Group origin (int 0) (if dimmed then c 65 else int 1) (
    [Group position (int 0) (int 1)
       [Mesh (pos 0 25 0) DESK_SIZE "#ffffff" (c 55)
          (Some (fst (desk_outline d), if snd (desk_outline d) then int 3 else c 150))];
     Group (av_pos a) (av_turn a) (int 1)
       [Group (Vec (int 0) (av_bob a) (int 0)) (int 0) (int 1) [AgentAvatar label]];
     HtmlAt (above position 110) 10 [desk_label label d]]
    ++ when (shouldShowBubble d)
         [HtmlAt (above position 160) 8
            (SpeechBubble (d_taskTitle d) (d_stepTitle d) (d_phase d) (d_consultWith d)
               (negb (bool_decide (d_picTasks d = ∅))))]).

(** ** The canvas *)

(** [useThemeIsDark]: the state follows the attribute the page's toggle stamps. *)
Definition themeIsDark (theme : option jsstr) : bool := bool_decide (theme = Some ("dark" : jsstr)).

Definition scene_desk (total : nat) (refs : jsstr → avatar A) (d : canvas_desk) : obj :=
  AgentDesk (fst (place total d)) (cd_id d) (cd_desk d) (cd_dimmed d) (refs (cd_id d)).

Definition canvas_scene (dark : bool) (agentIds : list jsstr) (desks : desk_map)
    (rosterIds : option (list jsstr)) (dimmed : gset jsstr) (refs : jsstr → avatar A) : list obj :=
  [Background (if dark then "#141414" else "#fafafa");
   AmbientLight (c 60);
   DirectionalLight (Vec (int 5) (int 8) (int 5)) (c 80);
   OfficeFloor dark; OfficeProps; CoordinatorDesk]
  ++ map (scene_desk (length (visibleDesks agentIds rosterIds)) refs)
       (canvas_desks agentIds desks rosterIds dimmed)
  ++ [OrbitControls 4 20 (c 50)].
End Objects.
Arguments obj A : clear implicits.
Arguments geometry A : clear implicits.

(** ** In exact arithmetic: where things stand *)

Section Exact.
Context (r_atan2 : R → R → R).
Notation EX := (exact r_atan2).
Open Scope R_scope.

Record point := Point { px : R; py : R; pz : R }.

(** The points of a solid about its centre; round ones by the circle their facets lie in. *)
Definition in_solid (g : geometry EX) (q : point) : Prop :=
  match g with
  | BoxGeometry w h d =>
      let w : R := w in let h : R := h in let d : R := d in
      - w / 2 <= px q <= w / 2 ∧ - h / 2 <= py q <= h / 2 ∧ - d / 2 <= pz q <= d / 2
  | CylinderGeometry t b h _ =>
      let t : R := t in let b : R := b in let h : R := h in
      (px q * px q + pz q * pz q <= t * t ∨ px q * px q + pz q * pz q <= b * b) ∧
      - h / 2 <= py q <= h / 2
  | SphereGeometry r _ _ =>
      let r : R := r in px q * px q + py q * py q + pz q * pz q <= r * r
  | ConeGeometry r h _ _ =>
      let r : R := r in let h : R := h in
      px q * px q + pz q * pz q <= r * r ∧ - h / 2 <= py q <= h / 2
  end.

(** The place in the world of a point of a group. *)
Definition turned (p : vec EX) (r s : R) (q : point) : point :=
  Point (rx _ p + s * (px q * cos r + pz q * sin r)) (ry _ p + s * py q)
        (rz _ p + s * (pz q * cos r - px q * sin r)).

Fixpoint occupies (o : obj EX) (q : point) : Prop :=
  match o with
  | Mesh p g _ _ _ => in_solid g (Point (px q - rx _ p) (py q - ry _ p) (pz q - rz _ p))
  | Group p r s kids =>
      ∃ q', q = turned p r s q' ∧ fold_right (λ o P, occupies o q' ∨ P) False kids
  | _ => False
  end.
Definition any_of (l : list (obj EX)) (q : point) : Prop :=
  fold_right (λ o P, occupies o q ∨ P) False l.

Lemma any_app l1 l2 q : any_of (l1 ++ l2) q → any_of l1 q ∨ any_of l2 q.
Proof. induction l1 as [|o l IH]; cbn; [by right|]. intros [H|H%IH]; tauto. Qed.

Lemma disc x z r : 0 <= r → x * x + z * z <= r * r → - r <= x <= r ∧ - r <= z <= r.
Proof. intros Hr H. split; split; nra. Qed.
Lemma ball x y z r : 0 <= r → x * x + y * y + z * z <= r * r → - r <= x <= r ∧ - r <= z <= r.
Proof. intros Hr H. apply disc; nra. Qed.

(** An upright group. *)
Lemma group_upright p s kids q :
  occupies (Group p (int (A := EX) 0) s kids) q →
  ∃ q', any_of kids q' ∧ px q = rx _ p + s * px q' ∧ pz q = rz _ p + s * pz q'.
Proof.
  intros (q' & -> & H). exists q'. split; [exact H|].
  assert (int (A := EX) 0 = 0) as E by (unfold int; cbn; field).
  cbn [px pz turned]. rewrite E, cos_0, sin_0. split; ring.
Qed.

(** The half extents of a solid across and along the floor. *)
Definition extent (g : geometry EX) (x z : R) : Prop :=
  match g with
  | BoxGeometry w h d => (w : R) / 2 <= x ∧ (d : R) / 2 <= z
  | CylinderGeometry t b h _ => 0 <= (t : R) <= x ∧ 0 <= (b : R) <= x ∧ x <= z
  | SphereGeometry r _ _ => 0 <= (r : R) <= x ∧ x <= z
  | ConeGeometry r h _ _ => 0 <= (r : R) <= x ∧ x <= z
  end.

Lemma mesh_extent p g k o e q x z :
  extent g x z → occupies (Mesh p g k o e) q →
  rx _ p - x <= px q <= rx _ p + x ∧ rz _ p - z <= pz q <= rz _ p + z.
Proof.
  destruct g as [w h d|t b h n|r n n'|r h n b]; cbn [extent occupies in_solid px py pz].
  - lra.
  - intros (Ht & Hb & Hz) [[H%disc|H%disc] _]; lra.
  - intros (Hr & Hz) H%ball; lra.
  - intros (Hr & Hz) [H%disc _]; lra.
Qed.

(** ** Boxes on the floor *)

Definition box (x0 x1 z0 z1 : R) (q : point) : Prop := x0 <= px q <= x1 ∧ z0 <= pz q <= z1.

Lemma group_box p s kids x0 x1 z0 z1 q :
  0 <= s → (∀ q, any_of kids q → box x0 x1 z0 z1 q) → occupies (Group p (int (A := EX) 0) s kids) q →
  box (rx _ p + s * x0) (rx _ p + s * x1) (rz _ p + s * z0) (rz _ p + s * z1) q.
Proof.
  intros Hs Hk (q' & H & Ex & Ez)%group_upright. apply Hk in H as [Hx Hz].
  unfold box. rewrite Ex, Ez. split; split; nra.
Qed.

(** A mesh at [pos x y z] in hundredths lies in a box. *)
Ltac solid H x z :=
  apply (mesh_extent _ _ _ _ _ _ x z) in H;
  [unfold box, rx, rz in *; cbn in H; lra|cbn; lra].

Lemma plant_box q p : occupies (PottedPlant p) q →
  box (rx _ p - 3 / 10) (rx _ p + 3 / 10) (rz _ p - 3 / 10) (rz _ p + 3 / 10) q.
Proof.
  intros H. apply (group_box _ _ _ (- (3 / 10)) (3 / 10) (- (3 / 10)) (3 / 10)) in H;
    [unfold box, int in *; cbn in H; lra|unfold int; cbn; lra|].
  clear q H. intros q [H|[H|[H|[]]]]; solid H (3 / 10) (3 / 10).
Qed.
Lemma whiteboard_box q p : occupies (Whiteboard p) q →
  box (rx _ p - 1) (rx _ p + 1) (rz _ p - 1 / 20) (rz _ p + 1 / 20) q.
Proof.
  intros H. apply (group_box _ _ _ (- (1)) 1 (- (1 / 20)) (1 / 20)) in H;
    [unfold box, int in *; cbn in H; lra|unfold int; cbn; lra|].
  clear q H. intros q [H|[H|[H|[H|[H|[H|[]]]]]]].
  1-2: solid H (3 / 100) (3 / 100).
  1: solid H 1 (3 / 100).
  1-3: apply (mesh_extent _ _ _ _ _ _ (55 / 100) (1 / 200)) in H;
    [unfold box, rx, rz, int in *; cbn in H; lra|unfold int; cbn; lra].
Qed.

Lemma lamp_box q p : occupies (FloorLamp p) q →
  box (rx _ p - 3 / 10) (rx _ p + 3 / 10) (rz _ p - 3 / 10) (rz _ p + 3 / 10) q.
Proof.
  intros H. apply (group_box _ _ _ (- (3 / 10)) (3 / 10) (- (3 / 10)) (3 / 10)) in H;
    [unfold box, int in *; cbn in H; lra|unfold int; cbn; lra|].
  clear q H. intros q [H|[H|[H|[]]]]; solid H (3 / 10) (3 / 10).
Qed.

(** The sofa is turned by a quarter: its length is along the floor's depth. *)
Lemma sofa_box q p : occupies (Sofa p (@div EX (sub (int 0) mpi) (int 2))) q →
  box (rx _ p - 4 / 10) (rx _ p + 4 / 10) (rz _ p - 1) (rz _ p + 1) q.
Proof.
  intros (q' & -> & H).
  assert (box (- (1)) 1 (- (4 / 10)) (4 / 10) q') as [Hx Hz].
  { destruct H as [H|[H|[H|[H|[]]]]].
    - solid H (92 / 100) (35 / 100).
    - solid H (92 / 100) (7 / 100).
    - solid H (6 / 100) (35 / 100).
    - solid H (6 / 100) (35 / 100). }
  unfold box, turned. cbn [px pz].
  assert (cos (@div EX (sub (int 0) mpi) (int 2)) = 0) as ->.
  { unfold int. cbn. replace ((0 / 1 - PI) / (2 / 1)) with (- (PI / 2)) by field.
    by rewrite cos_neg, cos_PI2. }
  assert (sin (@div EX (sub (int 0) mpi) (int 2)) = - (1)) as ->.
  { unfold int. cbn. replace ((0 / 1 - PI) / (2 / 1)) with (- (PI / 2)) by field.
    by rewrite sin_neg, sin_PI2. }
  unfold int. cbn. lra.
Qed.

Lemma coordinator_box q : occupies (CoordinatorDesk (A := EX)) q → box (-1) 1 (-1) 1 q.
Proof.
  intros H. apply (group_box _ _ _ (- (7 / 10)) (7 / 10) (- (4 / 10)) (4 / 10)) in H;
    [unfold box, int, rx, rz in *; cbn in H; lra|unfold int; cbn; lra|].
  clear q H. intros q [H|[H|[[]|[]]]];
    [solid H (7 / 10) (4 / 10)|solid H (28 / 100) (3 / 100)].
Qed.

Lemma avatar_box id q : occupies (AgentAvatar (A := EX) id) q →
  box (- (1 / 4)) (1 / 4) (- (1 / 4)) (1 / 4) q.
Proof.
  intros H. apply (group_box _ _ _ (- (1 / 4)) (1 / 4) (- (1 / 4)) (1 / 4)) in H;
    [unfold box, int, rx, rz in *; cbn in H; lra|unfold int; cbn; lra|].
  clear q H. intros q [H|[H|[H|[H|[H|[H|H]]]]]]; try solid H (19 / 100) (19 / 100).
  all: try solid H (5 / 100) (6 / 100).
  change (any_of (when (accessory id =? 0)%Z [mesh (pos 0 92 0) (ConeGeometry (c 19) (c 14) 8 false) (nullish (agentColor id) "") 20 140]
    ++ when (accessory id =? 1)%Z [mesh (pos 0 78 12) (BoxGeometry (c 26) (c 6) (c 4)) (nullish (agentColor id) "") 40 140]
    ++ when (accessory id =? 2)%Z [mesh (pos 0 48 11) (BoxGeometry (c 7) (c 20) (c 2)) (nullish (agentColor id) "") 50 120]) q) in H.
  apply any_app in H as [H|[H|H]%any_app]; unfold when in H;
    (destruct (_ =? _)%Z in H; [destruct H as [H|[]]|destruct H]).
  - solid H (19 / 100) (19 / 100).
  - solid H (13 / 100) (2 / 100).
  - solid H (4 / 100) (1 / 100).
Qed.

(** ** The figures *)

(** The life of an avatar: mounted behind its desk, then frame after frame on the way to the place
    of the moment, whatever the ring, the state and the colleague are then. *)
Inductive strolls (label : jsstr) : avatar EX → Prop :=
| strolls_mounted i n : strolls label (mounted (A := EX) (deskPosition i n))
| strolls_frame i n s consult face elapsed delta a :
    strolls label a → 0 <= (delta : R) →
    strolls label
      (frame (A := EX) label
         (target_of (deskPosition i n) s (option_map (λ j, deskPosition j n) consult))
         face elapsed delta a).

(** The places the avatars and the desks keep to. *)
Definition place_ok (v : vec EX) : Prop := -4 <= rx _ v <= 4 ∧ -4 <= rz _ v <= 54 / 10.

Lemma desk_place i n :
  let p := deskPosition (A := EX) i n in -4 <= rx _ p <= 4 ∧ -4 <= rz _ p <= 4.
Proof.
  intros p. destruct (Z.leb_spec n 0) as [Hn|Hn].
  - unfold p, deskPosition. rewrite (proj2 (Z.leb_le n 0) Hn). unfold rx, rz. cbn. lra.
  - pose proof (desk_on_ring r_atan2 i n Hn) as H. cbn zeta in H. fold p in H. apply disc; lra.
Qed.

Lemma target_ok i n s consult :
  place_ok (target_of (deskPosition i n) s (option_map (λ j, deskPosition j n) consult)).
Proof.
  pose proof (desk_place i n) as [Hx Hz]. unfold place_ok, rx, rz in *.
  destruct consult as [j|]; cbn [option_map target_of].
  - pose proof (desk_place j n) as [Hx' Hz']. unfold rx, rz in *. cbn. unfold toward. cbn.
    split; lra.
  - destruct s; cbn; lra.
Qed.

Lemma between k x y lo hi : 0 <= k <= 1 → lo <= x <= hi → lo <= y <= hi → lo <= y + k * (x - y) <= hi.
Proof. intros. split; nra. Qed.

Lemma strolls_ok label a : strolls label a → place_ok (av_pos a).
Proof.
  induction 1 as [i n|i n s consult face elapsed delta a _ [IHx IHz] Hd].
  - pose proof (desk_place i n) as [Hx Hz]. unfold place_ok, rx, rz in *. cbn. split; lra.
  - destruct (target_ok i n s consult) as [Tx Tz]. set (T := target_of _ _ _) in *.
    destruct (walk_on_way r_atan2 label T face [((elapsed : R), (delta : R))] a) as (Ex & _ & Ez).
    assert (0 <= remaining (map snd [((elapsed : R), (delta : R))]) <= 1) as Hk
      by (apply remaining_range; constructor; [exact Hd|constructor]).
    match type of Ex with rx _ (av_pos ?W) = _ => change (place_ok (av_pos W)) end.
    unfold place_ok. rewrite Ex, Ez. split; by apply between.
Qed.

(** Half a unit around a figure, whichever way it is turned. *)
Lemma turned_near p r q :
  box (- (1 / 4)) (1 / 4) (- (1 / 4)) (1 / 4) q →
  box (rx _ p - 1 / 2) (rx _ p + 1 / 2) (rz _ p - 1 / 2) (rz _ p + 1 / 2) (turned p r (int (A := EX) 1) q).
Proof.
  intros [Hx Hz]. pose proof (COS_bound r) as Hc. pose proof (SIN_bound r) as Hs.
  assert (∀ a b, - (1 / 4) <= a <= 1 / 4 → -1 <= b <= 1 → - (1 / 4) <= a * b <= 1 / 4) as H
    by (intros; split; nra).
  pose proof (H (px q) (cos r) Hx Hc). pose proof (H (pz q) (sin r) Hz Hs).
  pose proof (H (pz q) (cos r) Hz Hc). pose proof (H (px q) (sin r) Hx Hs).
  unfold box, turned. cbn [px pz].
  assert (int (A := EX) 1 = 1) as -> by (unfold int; cbn; field). lra.
Qed.

(** A desk with its figure, dimmed or not, stays on the part of the floor inside the furniture. *)
Lemma agent_desk_box i n label d dimmed a q :
  strolls label a → occupies (AgentDesk (deskPosition i n) label d dimmed a) q → box (-5) 5 (-5) 6 q.
Proof.
  intros [Ax Az]%strolls_ok H.
  unfold AgentDesk in H. set (k := if dimmed then _ else _) in H.
  assert (0 <= (k : R) <= 1) as Hk by (unfold k, c, int; destruct dimmed; cbn; lra). clearbody k.
  apply (group_box _ _ _ (-5) 5 (-5) 6) in H; [|lra|].
  { unfold box, rx, rz in *. cbn in H. split; split; nra. }
  clear q H. intros q [H|[H|[[]|H]]].
  - pose proof (desk_place i n) as [Hx Hz].
    apply (group_box _ _ _ (- (1 / 2)) (1 / 2) (- (3 / 10)) (3 / 10)) in H;
      [unfold box, int in *; cbn in H; lra|unfold int; cbn; lra|].
    clear q H. intros q [H|[]]. solid H (1 / 2) (3 / 10).
  - destruct H as (q' & -> & [H|[]]).
    apply (group_box _ _ _ (- (1 / 4)) (1 / 4) (- (1 / 4)) (1 / 4)) in H; [|unfold int; cbn; lra|].
    + assert (box (- (1 / 4)) (1 / 4) (- (1 / 4)) (1 / 4) q') as Hq
        by (unfold box, int, rx, rz in *; cbn in H; lra).
      apply (turned_near (av_pos a) (av_turn a)) in Hq. unfold box in *. lra.
    + clear H. intros q [H|[]]. by apply avatar_box in H.
  - change (any_of (when (shouldShowBubble d) [HtmlAt (above (deskPosition i n) 160) 8
      (SpeechBubble (d_taskTitle d) (d_stepTitle d) (d_phase d) (d_consultWith d)
               (negb (bool_decide (d_picTasks d = ∅))))]) q) in H.
    destruct (shouldShowBubble d); [destruct H as [[]|[]]|destruct H].
Qed.

Lemma furniture_box q : occupies (OfficeProps (A := EX)) q →
  box (-8) 8 (-6) 6 q ∧ (px q <= -6 ∨ 6 <= px q ∨ pz q <= - (11 / 2)).
Proof.
  intros (q' & [H|[H|[H|[H|[H|[]]]]]] & Ex & Ez)%group_upright;
    [apply plant_box in H|apply plant_box in H|apply whiteboard_box in H
    |apply sofa_box in H|apply lamp_box in H];
    unfold box, int, rx, rz in *; cbn in H, Ex, Ez; rewrite Ex, Ez; lra.
Qed.

(** C23: The furniture stands in nobody's way.  In exact arithmetic, at whatever place of a ring of
    whatever size, in whatever state, dimmed or not, consulting or not, after any number of frames
    under any changes of these: a desk with its figure stays on the floor of 16 by 12, and so do
    the coordinator's desk and the plants, whiteboard, sofa and lamp; and no point of the
    furniture is ever a point of a desk, of a figure on its way, or of the coordinator's desk. *)
Theorem furniture_in_nobodys_way i n label d dimmed a q :
  strolls label a →
  let floor q := -8 <= px q <= 8 ∧ -6 <= pz q <= 6 in
  let desk := AgentDesk (deskPosition i n) label d dimmed a in
  (occupies desk q ∨ occupies (CoordinatorDesk (A := EX)) q ∨ occupies (OfficeProps (A := EX)) q →
   floor q) ∧
  ¬ (occupies (OfficeProps (A := EX)) q ∧ (occupies desk q ∨ occupies (CoordinatorDesk (A := EX)) q)).
Proof.
  intros Ha floor desk.
  assert (occupies desk q → box (-5) 5 (-5) 6 q) as Hd by (intros H; by apply agent_desk_box in H).
  pose proof (coordinator_box q) as Hc. pose proof (furniture_box q) as Hf. unfold box, floor in *.
  split; [intros [H%Hd|[H%Hc|H%Hf]]; lra|intros [[Hb H]%Hf [Hx%Hd|Hx%Hc]]; lra].
Qed.
End Exact.

(** A desk in a ring of five, one frame after it was mounted, dimmed. *)
Lemma furniture_in_nobodys_way_witness :
  let EX := exact (λ x _, x) in
  let a := frame (A := EX) "qa" (target_of (deskPosition 2 5) Working None) (0%R, 0%R) 1%R (1 / 60)%R
             (mounted (deskPosition 2 5)) in
  let q := Point 7 1 (46 / 10) in
  ¬ (occupies _ (OfficeProps (A := EX)) q ∧
     (occupies _ (AgentDesk (A := EX) (deskPosition 2 5) "qa" (new_desk "qa") true a) q ∨
      occupies _ (CoordinatorDesk (A := EX)) q)).
Proof.
  intros EX a q.
  refine (proj2 (furniture_in_nobodys_way (λ x _, x) 2 5 "qa" (new_desk "qa") true a q _)).
  refine (strolls_frame (λ x _, x) "qa" 2 5 Working None (0%R, 0%R) 1%R (1 / 60)%R _ _ _).
  - apply strolls_mounted.
  - lra.
Defined.

(** The point of the run is one of the second plant. *)
Lemma plant_there : occupies (λ x _, x) (OfficeProps (A := exact (λ x _, x))) (Point 7 1 (46 / 10)).
Proof.
  assert (∀ p kids (q q' : point), q = turned (λ x _, x) p 0%R 1%R q' → any_of (λ x _, x) kids q' →
    occupies (λ x _, x) (Group p (int (A := exact (λ x _, x)) 0) (int (A := exact (λ x _, x)) 1) kids) q) as H.
  { intros p kids q q' -> Hk. exists q'. split; [|exact Hk].
    unfold int. cbn. by replace (0 / 1)%R with 0%R by field; replace (1 / 1)%R with 1%R by field. }
  apply (H _ _ _ (Point 7 1 (46 / 10))).
  { unfold turned, rx, ry, rz. cbn. rewrite cos_0, sin_0. f_equal; lra. }
  right. left. apply (H _ _ _ (Point 0 1 0)).
  { unfold turned, rx, ry, rz. cbn. rewrite cos_0, sin_0. f_equal; lra. }
  right. right. left. cbn. split; lra.
Qed.
